(* ===== verification/_CoqProject ===== *)
-Q . S2P
Prelude.v
Protocol.v
Command.v
CString.v
Float.v
AlertUtils.v
Scheduler.v
State.v
Config.v
Identity.v
Alarm.v
CoapClient.v
Request.v
CoapServer.v
Connector.v
TelemetryPayload.v
Telemetry.v
TelemetryAlerts.v
Register.v
CommandExecute.v
Client.v
DpClient.v
EventLoop.v
Invariant.v
Startup.v
RegisterSpec.v
DataPlane.v
DataPlaneSpec.v
DataPlaneTraffic.v
DataPlaneRun.v
