(* ===== verification/Prelude.v ===== *)
(** * ATLAS IoT client: a verification library

    The ATLAS client runs on an IoT device. It keeps the device registered at
    a gateway, reports telemetry, installs the alerts and executes the commands
    the gateway asks for, all over CoAP and DTLS; and it serves, over a Unix
    socket, the data plane application of the same device, an MQTT program
    with several threads that publishes values and scores those of other
    devices. This library models both programs and the protocol between them.

    ** Parts

    The client is one thread. [atlas_main.c] initialises the components and
    enters the select loop of the scheduler; everything else happens in
    callbacks of file descriptors. Timers are descriptors (alarms), a CoAP
    request is a descriptor and an alarm, the server and the connector are
    descriptors. The variables of the C files are records, and a [World]
    (State.v) is all of them with the state of the environment and a trace of
    the effects that can be seen from outside. A function of the source that
    can read or write out of its bounds, or use a freed entry, answers an
    [option], whose [None] is undefined behaviour.

    - Prelude.v, CString.v, Float.v: integers and byte order, memory blocks;
      the functions of <string.h>, <stdlib.h> and <stdio.h>; binary32 and
      binary64 arithmetic, [atof] and "%f".
    - Protocol.v: [utils/atlas_status.h], [coap/atlas_coap_method.h],
      [coap/atlas_coap_response.h], [commands/atlas_command_types.h].
    - Command.v: [commands/atlas_command.c], the batches of commands in which
      everything is sent, at the level of the bytes of the buffer.
    - Scheduler.v, Alarm.v: [scheduler/atlas_scheduler.c],
      [alarm/atlas_alarm.c]. The scheduler is generic; [SchedState] gives it
      its list in the world, and [SchedClient] is what it asks of callbacks.
    - State.v: the variables of all components, the function pointers as
      enumerations, the environment [Env].
    - Config.v, Identity.v: [utils/atlas_config.c],
      [identity/atlas_identity.c].
    - CoapClient.v, Request.v, CoapServer.v: [coap/atlas_coap_client.c], the
      sending of a batch the components share, [coap/atlas_coap_server.c].
      [ClientCallbacks] is what the CoAP client asks of callbacks.
    - Connector.v: [data_plane_connector/atlas_data_plane_connector.c].
    - TelemetryPayload.v, Telemetry.v, AlertUtils.v, TelemetryAlerts.v:
      the files of [telemetry/]: the payloads, the list of features, the
      parsers of the alert requests, the end-points and the installation.
    - Register.v, CommandExecute.v: [register/atlas_register.c],
      [commands_execute/].
    - Client.v: [atlas_main.c]. It maps the function pointers to the
      functions, builds the program and discharges the two classes.
    - EventLoop.v, Invariant.v, Startup.v, RegisterSpec.v: the whole client.
      The loop refines a step relation; the invariant of its reachable states;
      the state the loop starts in; the abstract automaton of the registration.
    - DpClient.v: [data_plane/atlas_client.c], the library at the other end of
      the connector's socket.
    - DataPlane.v, DataPlaneSpec.v, DataPlaneTraffic.v, DataPlaneRun.v:
      [data_plane/atlas_data_plane.c], with its threads; its properties; its
      options and traffic; concrete runs and the witnesses.

    ** What the theorems show

    - The client as a whole. [main_refines_steps]: the loop only calls
      registered entries that are not deleted. [client_invariant]: in every
      reachable state the variables hold values of their types, entries have
      addresses of their own, and the configuration is the initial one.
      [no_use_after_free], [callbacks_keep_entries]: a callback never frees an
      entry under the code that called it. [client_starts]: what is in place
      when the loop begins. [commands_deferred_for_good].
    - The registration. [register_refines_automaton]: over any run it is what
      an automaton with five events computes from the answers;
      [stays_registered], [timeouts_until_registration], and the outcome of
      each answer. A request that is said to be made is one call of
      [atlas_coap_client_request], which sends one message when it accepts.
    - Codecs. The batch is a round trip for either byte order, its parser
      accepts exactly the encodings, an iteration visits each command once;
      the identity, the policy and a published value are read back as written.
    - Scheduler and CoAP. A round terminates whatever callbacks do, and serves
      each ready entry once; a request is sent once, and completed by the
      answer with its token or by its timeout, not both.
    - Telemetry. Payloads fit their buffers and have their format; features are
      pushed in order, each to its URI; the parsers of alerts.
    - The data plane. Under any interleaving of its threads a window holds at
      most 256 samples of different devices and is reported as it was closed;
      no packet is lost or counted twice in the statistics; a lost connection
      registers again; what each message does, and which messages overflow; how
      the options are split, and what [strtok] does between the threads.

    ** Integers, bounds and fuel

    A machine integer is a [Z], with [u8], [u16], [u32] and the signed casts
    written where the code wraps; signed overflow is [None]. Characters are
    [byte]s, an array or a heap block is a list of them with checked access,
    and the byte order of the host is the parameter [Host], with what fresh
    memory of the heap holds.

    Loops that are structural on a list have no fuel. The walk of the
    scheduler over its list takes fuel, because callbacks append to it:
    [sched_round_terminates] shows that some fuel is always enough, as only
    entries that were ready before the round can be called. [n] in [main] is a
    number of rounds; theorems hold for each. The loops of DpClient.v that
    connect and write have no bound in the code: their results have fuel in an
    [outcome], and [lost_connection_registers_again] gives enough fuel for each
    finite number of failures. The tokens of a string take its length as fuel;
    [traffic_generator] takes nine steps for each token and one for the end, as
    [traffic_generator_tokens] shows.

    ** The environment

    Code that is not in the repository is a parameter: [Env] for the kernel,
    libcoap, libuuid and OpenSSL, [DpEnv] and [AppEnv] for the sockets, MQTT,
    the clock and [random] of the data plane, [Malloc] for the size the
    allocator really gives. They are functions of an abstract state, so every
    answer is possible, at any time. What the code relies on is in [EnvLaws]
    ([read] gives at most what was asked, a resolved host has an address that
    is IPv4 or IPv6) and [KernelLaws] (the fields of [sysinfo] have their width,
    the strings of [uname] are terminated). The witnesses instantiate them with
    concrete functions; those of Identity.v with a store of files. [select] may
    report any set of descriptors. That a request or a push is really made needs
    a kernel and a libcoap that answer: [network_works], [sources_work],
    [timers_work] say so, and the theorems that use them say what happens
    otherwise.

    The threads of the data plane are interleaved by [app_step]. Its steps end
    where another thread can be seen: at each unlocked access of the task of
    the reputation to the window, at each publication, at each call of [strtok],
    with the assignment of what it returned, and at each other assignment to an
    entry or thread it starts. The handling of a message is three steps: to the
    first token, the second token, and the critical section. The pointer of
    [strtok] is shared: it says what is left and in which array, and is lost
    when [handle_data] returns while it points into [msg]. Copies of a value
    into a local array within a step are not split.

    ** Not modelled

    - [logger/atlas_logger.c] and the calls of the logger, [printf] and
      [print_usage]: output only, nothing reads it back. The functions
      [event_handler] and [nack_handler] of the CoAP client only log.
    - [getopt_long]: the options it delivers are the input of the model.
    - The path of the Unix socket is in a header the build generates, and is
      a variable of the sections that use it.
    - [atlas_cmd_batch_free] and other releases of memory that nothing uses
      afterwards: only a release that a later access may observe is modelled.
    - The build files and scripts.

    ** Left to do

    A kernel that does not give a new timer the number of an open one would
    remove the exception of [no_use_after_free]; the requests of values
    ([handle_publish_req]) have a model and a finding but no theorem of their
    own; and the two programs are related through the bytes they exchange
    ([registration_reaches_gateway]), not as one system. *)

From Stdlib Require Export Strings.Byte NArith.
From stdpp Require Export prelude list numbers.

#[global] Open Scope Z_scope.
#[global] Set Default Goal Selector "!".
#[global] Set Warnings "-clear-no-such-hyp".

Declare Scope atlas_scope.
Delimit Scope atlas_scope with atlas.
#[global] Open Scope atlas_scope.

(** [lia] with division and modulo by constants. *)
Ltac mlia := change (2 ^ 8) with 256 in *; change (2 ^ 16) with 65536 in *;
  change (2 ^ 31) with 2147483648 in *; change (2 ^ 32) with 4294967296 in *;
  Z.div_mod_to_equations; lia.

(** ** Bytes

    A C [uint8_t] or [char] in memory is a [byte] of the Standard Library. *)

#[export] Instance byte_eq_decision : EqDecision byte := Byte.byte_eq_dec.

Definition b2z (b : byte) : Z := Z.of_N (Byte.to_N b).

Definition z2b (z : Z) : byte := default x00 (Byte.of_N (Z.to_N (z mod 256))).

Lemma b2z_range b : 0 ≤ b2z b < 256.
Proof. unfold b2z. pose proof (Byte.to_N_bounded b). lia. Qed.

Lemma z2b_b2z b : z2b (b2z b) = b.
Proof.
  unfold z2b. rewrite Z.mod_small by apply b2z_range.
  unfold b2z. by rewrite N2Z.id, Byte.of_to_N.
Qed.

Lemma b2z_z2b z : b2z (z2b z) = z mod 256.
Proof.
  unfold z2b, b2z. assert (0 ≤ z mod 256 < 256) by (apply Z.mod_pos_bound; lia).
  destruct (Byte.of_N (Z.to_N (z mod 256))) as [b|] eqn:E; simpl.
  - apply Byte.to_of_N in E. lia.
  - apply Byte.of_N_None_iff in E. lia.
Qed.

Lemma b2z_z2b_small z : 0 ≤ z < 256 → b2z (z2b z) = z.
Proof. intros. rewrite b2z_z2b. by rewrite Z.mod_small. Qed.

Lemma b2z_inj a b : b2z a = b2z b → a = b.
Proof. intros E. by rewrite <- (z2b_b2z a), <- (z2b_b2z b), E. Qed.

Lemma z2b_mod z : z2b (z mod 256) = z2b z.
Proof. unfold z2b. by rewrite Zmod_mod. Qed.

(** ** Machine integers

    An integer of the program is a [Z]; a conversion to a fixed width is
    written out where the code has it. *)

Definition u8 (z : Z) : Z := z mod 2 ^ 8.
Definition u16 (z : Z) : Z := z mod 2 ^ 16.
Definition u32 (z : Z) : Z := z mod 2 ^ 32.
Definition i32 (z : Z) : Z := (z + 2 ^ 31) mod 2 ^ 32 - 2 ^ 31.

Lemma u8_range z : 0 ≤ u8 z < 256.
Proof. unfold u8. mlia. Qed.

Lemma u16_range z : 0 ≤ u16 z < 65536.
Proof. unfold u16. mlia. Qed.

Lemma u16_small z : 0 ≤ z < 65536 → u16 z = z.
Proof. unfold u16. intros. by rewrite Z.mod_small. Qed.

Lemma u8_small z : 0 ≤ z < 256 → u8 z = z.
Proof. unfold u8. intros. by rewrite Z.mod_small. Qed.

Lemma u32_small z : 0 ≤ z < 2 ^ 32 → u32 z = z.
Proof. unfold u32. intros. by rewrite Z.mod_small. Qed.

Lemma i32_small z : - 2 ^ 31 ≤ z < 2 ^ 31 → i32 z = z.
Proof. unfold i32. intros. rewrite Z.mod_small; mlia. Qed.

(** ** The host

    What the C standard leaves to the machine: the byte order of an integer
    in memory, and the content of freshly allocated heap bytes. *)

Inductive endian := LittleEndian | BigEndian.

Class Host := {
  host_endian : endian;
  heap_junk : byte
}.

Definition bswap16 (v : Z) : Z := (v mod 256) * 256 + (v / 256) mod 256.

(** [htons] and [ntohs] of <arpa/inet.h>. *)
Definition htons `{Host} (v : Z) : Z :=
  match host_endian with LittleEndian => bswap16 v | BigEndian => v end.
Definition ntohs `{Host} (v : Z) : Z := htons v.

(** The bytes of a [uint16_t] in memory, and back. *)
Definition store16 `{Host} (v : Z) : list byte :=
  match host_endian with
  | LittleEndian => [z2b v; z2b (v / 256)]
  | BigEndian => [z2b (v / 256); z2b v]
  end.

Definition load16 `{Host} (bs : list byte) : Z :=
  match bs, host_endian with
  | [a; b], LittleEndian => b2z a + 256 * b2z b
  | [a; b], BigEndian => 256 * b2z a + b2z b
  | _, _ => 0
  end.

(** The bytes of a 32-bit integer in memory. *)
Definition store32 `{Host} (v : Z) : list byte :=
  let le := [z2b v; z2b (v / 256); z2b (v / 65536); z2b (v / 16777216)] in
  match host_endian with LittleEndian => le | BigEndian => reverse le end.

(** Network byte order, which the wire format uses. *)
Definition be16 (v : Z) : list byte := [z2b (v / 256); z2b v].

Definition unbe16 (bs : list byte) : Z :=
  match bs with [a; b] => 256 * b2z a + b2z b | _ => 0 end.

Section host_lemmas.
Context `{Host}.

Lemma htons_range v : 0 ≤ v < 65536 → 0 ≤ htons v < 65536.
Proof. unfold htons, bswap16. destruct host_endian; mlia. Qed.

Lemma htons_involutive v : 0 ≤ v < 65536 → htons (htons v) = v.
Proof. unfold htons, bswap16. destruct host_endian; mlia. Qed.

Lemma store16_length v : length (store16 v) = 2%nat.
Proof. unfold store16. by destruct host_endian. Qed.

Lemma store32_length v : length (store32 v) = 4%nat.
Proof. unfold store32. by destruct host_endian. Qed.

Lemma load16_store16 v : 0 ≤ v < 65536 → load16 (store16 v) = v.
Proof.
  intros. unfold load16, store16. destruct host_endian;
    rewrite !b2z_z2b; mlia.
Qed.

Lemma store16_load16 a b : store16 (load16 [a; b]) = [a; b].
Proof.
  pose proof (b2z_range a). pose proof (b2z_range b). unfold store16, load16.
  destruct host_endian; (f_equal; [|f_equal]); apply b2z_inj; rewrite b2z_z2b; mlia.
Qed.

Lemma store16_htons v : 0 ≤ v < 65536 → store16 (htons v) = be16 v.
Proof.
  intros. unfold store16, htons, bswap16, be16. destruct host_endian; [|done].
  f_equal; [|f_equal]; rewrite <- z2b_mod; symmetry; rewrite <- z2b_mod; f_equal; mlia.
Qed.

Lemma load16_be16 v : 0 ≤ v < 65536 → load16 (be16 v) = htons v.
Proof.
  intros. rewrite <- store16_htons by done. by apply load16_store16, htons_range.
Qed.

Lemma ntohs_load16 bs : length bs = 2%nat → ntohs (load16 bs) = unbe16 bs.
Proof.
  destruct bs as [|a [|b [|]]]; intros; simplify_eq/=.
  pose proof (b2z_range a); pose proof (b2z_range b).
  unfold ntohs, htons, bswap16. destruct host_endian; mlia.
Qed.

Lemma load16_range bs : 0 ≤ load16 bs < 65536.
Proof.
  unfold load16. destruct bs as [|a [|b [|]]], host_endian;
    try pose proof (b2z_range a); try pose proof (b2z_range b); lia.
Qed.
End host_lemmas.

Lemma unbe16_be16 v : 0 ≤ v < 65536 → unbe16 (be16 v) = v.
Proof. intros. simpl. rewrite !b2z_z2b. mlia. Qed.

Lemma be16_unbe16 bs : length bs = 2%nat → be16 (unbe16 bs) = bs.
Proof.
  destruct bs as [|a [|b [|]]]; intros; simplify_eq/=.
  pose proof (b2z_range a); pose proof (b2z_range b). unfold be16.
  f_equal; [|f_equal]; apply b2z_inj; rewrite b2z_z2b; mlia.
Qed.

Lemma unbe16_range bs : 0 ≤ unbe16 bs < 65536.
Proof.
  unfold unbe16. destruct bs as [|a [|b [|]]]; try lia.
  pose proof (b2z_range a); pose proof (b2z_range b). lia.
Qed.

(** ** Memory blocks

    A heap block, an array or the rest of a block behind a pointer is the list
    of its bytes. A read or a write outside the block is undefined behaviour:
    the operation is [None], and so is every operation built from it. *)

Definition zlen {A} (l : list A) : Z := Z.of_nat (length l).

Definition mread (blk : list byte) (off n : Z) : option (list byte) :=
  if decide (0 ≤ off ∧ 0 ≤ n ∧ off + n ≤ zlen blk)
  then Some (take (Z.to_nat n) (drop (Z.to_nat off) blk))
  else None.

Definition mwrite (blk : list byte) (off : Z) (bs : list byte) : option (list byte) :=
  if decide (0 ≤ off ∧ off + zlen bs ≤ zlen blk)
  then Some (take (Z.to_nat off) blk ++ bs ++ drop (Z.to_nat off + length bs) blk)
  else None.

(** The block a pointer [blk + off] gives access to. *)
Definition mtail (blk : list byte) (off : Z) : list byte := drop (Z.to_nat off) blk.

(** [realloc (p, n)]: the common prefix is kept, new bytes are indeterminate. *)
Definition realloc `{Host} (blk : option (list byte)) (n : Z) : list byte :=
  let old := default [] blk in
  take (Z.to_nat n) old ++ replicate (Z.to_nat n - length old) heap_junk.

(** [malloc (n)]: a block of exactly [n] indeterminate bytes. *)
Definition malloc `{Host} (n : Z) : list byte := replicate (Z.to_nat n) heap_junk.

Lemma zlen_nil {A} : zlen (@nil A) = 0.
Proof. done. Qed.
Lemma zlen_cons {A} (x : A) l : zlen (x :: l) = 1 + zlen l.
Proof. unfold zlen. simpl. lia. Qed.
Lemma zlen_app {A} (l k : list A) : zlen (l ++ k) = zlen l + zlen k.
Proof. unfold zlen. rewrite length_app. lia. Qed.
Lemma zlen_nonneg {A} (l : list A) : 0 ≤ zlen l.
Proof. unfold zlen. lia. Qed.
Lemma zlen_nat {A} (l : list A) : Z.to_nat (zlen l) = length l.
Proof. unfold zlen. lia. Qed.
Lemma zlen_be16 v : zlen (be16 v) = 2.
Proof. done. Qed.
Lemma zlen_store16 `{Host} v : zlen (store16 v) = 2.
Proof. unfold zlen. by rewrite store16_length. Qed.
Lemma zlen_store32 `{Host} v : zlen (store32 v) = 4.
Proof. unfold zlen. by rewrite store32_length. Qed.

Create HintDb atlas discriminated.
Create Rewrite HintDb zlen.
#[export] Hint Resolve zlen_nonneg b2z_range u16_range u8_range load16_range unbe16_range : atlas.
#[export] Hint Rewrite @zlen_nil @zlen_cons @zlen_app @zlen_be16 @zlen_store16 @zlen_store32 : zlen.

(** Solves a goal on the lengths of byte lists. *)
Ltac zlen_lia :=
  autorewrite with zlen in *;
  repeat match goal with
  | |- context [zlen ?l] => lazymatch goal with
      | _ : 0 ≤ zlen l |- _ => fail | _ => pose proof (zlen_nonneg l) end
  | _ : context [zlen ?l] |- _ => lazymatch goal with
      | _ : 0 ≤ zlen l |- _ => fail | _ => pose proof (zlen_nonneg l) end
  end; lia.

Lemma mread_app pre mid post n :
  n = zlen mid → mread (pre ++ mid ++ post) (zlen pre) n = Some mid.
Proof.
  intros ->. unfold mread. rewrite decide_True by (split_and!; zlen_lia).
  by rewrite !zlen_nat, drop_app_length, take_app_length.
Qed.

Lemma mread_head mid post n : n = zlen mid → mread (mid ++ post) 0 n = Some mid.
Proof. apply (mread_app []). Qed.

Lemma mread_all mid n : n = zlen mid → mread mid 0 n = Some mid.
Proof. intros. rewrite <- (app_nil_r mid) at 1. by apply mread_head. Qed.

Lemma mread_length blk off n bs : mread blk off n = Some bs → zlen bs = n.
Proof.
  unfold mread, zlen. case_decide; [|done]. intros [= <-].
  rewrite length_take, length_drop. lia.
Qed.

Lemma mread_None blk off n : zlen blk < off + n → mread blk off n = None.
Proof. unfold mread. intros. rewrite decide_False by lia. done. Qed.

Lemma mread_Some blk off n :
  0 ≤ off → 0 ≤ n → off + n ≤ zlen blk → is_Some (mread blk off n).
Proof. unfold mread. intros. rewrite decide_True by lia. eauto. Qed.

Lemma mwrite_app pre old new post off :
  off = zlen pre → zlen new = zlen old →
  mwrite (pre ++ old ++ post) off new = Some (pre ++ new ++ post).
Proof.
  intros -> Hn. unfold mwrite. rewrite decide_True by (split_and!; zlen_lia).
  rewrite zlen_nat, take_app_length. do 3 f_equal.
  rewrite drop_app_ge by lia.
  rewrite drop_app_ge by (unfold zlen in Hn; lia).
  replace (_ - _)%nat with 0%nat by (unfold zlen in Hn; lia). done.
Qed.

Lemma mwrite_head old new post :
  zlen new = zlen old → mwrite (old ++ post) 0 new = Some (new ++ post).
Proof. by apply (mwrite_app []). Qed.

Lemma mwrite_None blk off bs : zlen blk < off + zlen bs → mwrite blk off bs = None.
Proof. unfold mwrite. intros. rewrite decide_False by lia. done. Qed.

Lemma mwrite_length blk off bs blk' : mwrite blk off bs = Some blk' → zlen blk' = zlen blk.
Proof.
  unfold mwrite, zlen. case_decide as Hd; [|done]. intros [= <-].
  unfold zlen in Hd. rewrite !length_app, length_take, length_drop. lia.
Qed.

Lemma mtail_app pre post off : off = zlen pre → mtail (pre ++ post) off = post.
Proof. intros ->. unfold mtail. by rewrite zlen_nat, drop_app_length. Qed.

Lemma realloc_grow `{Host} old n :
  zlen (default [] old) ≤ n →
  ∃ junk, realloc old n = default [] old ++ junk ∧ zlen junk = n - zlen (default [] old).
Proof.
  unfold realloc, zlen. intros. eexists. split.
  - rewrite take_ge by lia. done.
  - rewrite length_replicate. lia.
Qed.

Lemma realloc_length `{Host} old n : 0 ≤ n → zlen (realloc old n) = n.
Proof.
  unfold realloc, zlen. intros. rewrite length_app, length_take, length_replicate. lia.
Qed.

Lemma zlen_replicate {A} n (x : A) : zlen (replicate n x) = Z.of_nat n.
Proof. unfold zlen. by rewrite length_replicate. Qed.

Lemma zlen_take_le {A} (l : list A) n : zlen (take n l) ≤ Z.of_nat n.
Proof. unfold zlen. rewrite length_take. lia. Qed.

(** A list cut in two at a position within it. *)
Lemma split_at {A} (l : list A) n :
  0 ≤ n ≤ zlen l → ∃ l1 l2, l = l1 ++ l2 ∧ zlen l1 = n.
Proof.
  intros. exists (take (Z.to_nat n) l), (drop (Z.to_nat n) l).
  rewrite take_drop. split; [done|]. unfold zlen in *. rewrite length_take. lia.
Qed.

(** ** Generic list lemmas *)

(** The first element a boolean test accepts. *)
Definition find_first {A} (f : A → bool) (l : list A) : option A := List.find f l.

(** The last one. *)
Fixpoint find_last {A} (f : A → bool) (l : list A) : option A :=
  match l with
  | [] => None
  | x :: l => match find_last f l with
              | Some y => Some y
              | None => if f x then Some x else None
              end
  end.

(** [l] with its first element accepted by [f] removed, which is what the
    program's delete loops do to a linked list. *)
Fixpoint remove_first {A} (f : A → bool) (l : list A) : list A :=
  match l with
  | [] => []
  | x :: l => if f x then l else x :: remove_first f l
  end.

(** [l] with [g] applied to the first element accepted by [f]. *)
Fixpoint update_first {A} (f : A → bool) (g : A → A) (l : list A) : list A :=
  match l with
  | [] => []
  | x :: l => if f x then g x :: l else x :: update_first f g l
  end.

Lemma sublist_fmap {A C} (f : A → C) (l k : list A) :
  l `sublist_of` k → (f <$> l) `sublist_of` (f <$> k).
Proof.
  induction 1; [done|by apply sublist_skip|by apply sublist_cons].
Qed.

Section first_lemmas.
Context {A : Type}.
Implicit Types (f : A → bool) (l : list A).

Lemma find_last_app f l k :
  find_last f (l ++ k) = match find_last f k with Some y => Some y | None => find_last f l end.
Proof.
  induction l as [|x l IH]; simpl; [by destruct (find_last f k)|].
  rewrite IH. by destruct (find_last f k).
Qed.

Lemma find_last_None f l : find_last f l = None ↔ ∀ x, x ∈ l → f x = false.
Proof.
  induction l as [|x l IH]; simpl; [split; [by intros _ x ?%elem_of_nil|done]|].
  destruct (find_last f l) as [y|] eqn:E.
  - split; [done|]. intros Hf. exfalso.
    assert (Some y = None) by (apply IH; intros z Hz; apply Hf; by right). done.
  - destruct (f x) eqn:Hx; split; try done.
    + intros Hf. rewrite Hf in Hx; [done|]. by left.
    + intros _ y [->|Hy]%elem_of_cons; [done|]. by apply IH.
Qed.

Lemma remove_first_id f l : (∀ x, x ∈ l → f x = false) → remove_first f l = l.
Proof.
  induction l as [|x l IH]; simpl; intros Hf; [done|].
  rewrite Hf by set_solver. f_equal. apply IH. set_solver.
Qed.

Lemma remove_first_app f l1 x l2 :
  (∀ y, y ∈ l1 → f y = false) → f x = true →
  remove_first f (l1 ++ x :: l2) = l1 ++ l2.
Proof.
  induction l1 as [|y l1 IH]; simpl; intros Hf Hx; [by rewrite Hx|].
  rewrite Hf by set_solver. f_equal. apply IH; set_solver.
Qed.

Lemma remove_first_other f x l : x ∈ l → f x = false → x ∈ remove_first f l.
Proof.
  intros Hx Hf. induction Hx as [x l|x y l Hx IH]; cbn [remove_first]; [rewrite Hf; by left|].
  destruct (f y); [exact Hx|]. right. by apply IH.
Qed.

Lemma remove_first_sublist f l : remove_first f l `sublist_of` l.
Proof.
  induction l as [|x l IH]; simpl; [done|].
  destruct (f x); [by apply sublist_cons|by apply sublist_skip].
Qed.

Lemma update_first_app f g l1 x l2 :
  (∀ y, y ∈ l1 → f y = false) → f x = true →
  update_first f g (l1 ++ x :: l2) = l1 ++ g x :: l2.
Proof.
  induction l1 as [|y l1 IH]; simpl; intros Hf Hx; [by rewrite Hx|].
  rewrite Hf by set_solver. f_equal. apply IH; set_solver.
Qed.

Lemma update_first_id f g l : (∀ x, x ∈ l → f x = false) → update_first f g l = l.
Proof.
  induction l as [|x l IH]; simpl; intros Hf; [done|].
  rewrite Hf by set_solver. f_equal. apply IH. set_solver.
Qed.

Lemma update_first_length f g l : length (update_first f g l) = length l.
Proof. induction l as [|x l IH]; simpl; [done|]. destruct (f x); simpl; lia. Qed.

(** The list splits at the first accepted element, or none is accepted. *)
Lemma first_split f l :
  (∀ x, x ∈ l → f x = false) ∨
  ∃ l1 x l2, l = l1 ++ x :: l2 ∧ f x = true ∧ ∀ y, y ∈ l1 → f y = false.
Proof.
  induction l as [|x l IH]; [left; by intros x ?%elem_of_nil|].
  destruct (f x) eqn:E.
  - right. exists [], x, l. split_and!; [done|done|by intros y ?%elem_of_nil].
  - destruct IH as [IH|(l1 & y & l2 & -> & Hy & IH)].
    + left. set_solver.
    + right. exists (x :: l1), y, l2. split_and!; [done|done|].
      intros z [->|Hz]%elem_of_cons; [done|by apply IH].
Qed.
End first_lemmas.

Section FindLemmas.
Context {A : Type}.
Implicit Types (f : A → bool) (l : list A).

Lemma find_first_app f l1 x l2 :
  (∀ y, y ∈ l1 → f y = false) → f x = true → find_first f (l1 ++ x :: l2) = Some x.
Proof.
  unfold find_first. induction l1 as [|y l1 IH]; simpl; intros Hf Hx; [by rewrite Hx|].
  rewrite Hf by set_solver. apply IH; set_solver.
Qed.

Lemma find_first_None f l : (∀ x, x ∈ l → f x = false) → find_first f l = None.
Proof.
  unfold find_first. induction l as [|x l IH]; simpl; intros Hf; [done|].
  rewrite Hf by set_solver. apply IH. set_solver.
Qed.

Lemma find_first_Some f l x :
  find_first f l = Some x →
  f x = true ∧ ∃ l1 l2, l = l1 ++ x :: l2 ∧ ∀ y, y ∈ l1 → f y = false.
Proof.
  intros Hx. destruct (first_split f l) as [Hno|(l1 & y & l2 & -> & Hy & Hl)].
  - by rewrite (find_first_None f l Hno) in Hx.
  - rewrite find_first_app in Hx by done. injection Hx as ->. split; [done|]. by exists l1, l2.
Qed.

Lemma find_first_prefix f l k x :
  l `prefix_of` k → find_first f l = Some x → find_first f k = Some x.
Proof.
  intros [m ->] (Hx & l1 & l2 & -> & Hl1)%find_first_Some. rewrite <- app_assoc. cbn [app].
  by apply find_first_app.
Qed.

Lemma find_first_remove f g l x :
  find_first f l = Some x → g x = false → find_first f (remove_first g l) = Some x.
Proof.
  unfold find_first. induction l as [|y l IH]; simpl; [done|]. destruct (f y) eqn:Hy.
  - intros [= ->] Hg. rewrite Hg. simpl. by rewrite Hy.
  - intros Hf Hg. destruct (g y); [done|]. simpl. rewrite Hy. by apply IH.
Qed.

Lemma find_first_elem f l x : find_first f l = Some x → x ∈ l ∧ f x = true.
Proof. intros (Hx & l1 & l2 & -> & _)%find_first_Some. set_solver. Qed.
End FindLemmas.

(** Entries with a key of their own, such as an address. *)
Section KeyLemmas.
Context {A : Type} (key : A → nat).
Implicit Types l : list A.

Lemma remove_key_gone a l :
  NoDup (key <$> l) → ∀ q, q ∈ remove_first (λ p, bool_decide (key p = a)) l → key q ≠ a.
Proof.
  intros Hnd q Hq Heq.
  destruct (first_split (λ p, bool_decide (key p = a)) l) as [Hno|(l1 & x & l2 & -> & Hx & Hl1)].
  - rewrite remove_first_id in Hq by done. apply Hno in Hq. by rewrite bool_decide_true in Hq.
  - rewrite remove_first_app in Hq by done. apply bool_decide_eq_true in Hx.
    rewrite fmap_app in Hnd. cbn [fmap list_fmap] in Hnd. fold (key <$> l2) in Hnd.
    apply list.NoDup_app in Hnd as (_ & Hd & [Hn _]%list.NoDup_cons). rewrite Hx in *.
    apply elem_of_app in Hq as [Hq|Hq].
    + apply (Hd (key q)); [by apply list_elem_of_fmap_2|rewrite Heq; by left].
    + apply Hn. rewrite <- Heq. by apply list_elem_of_fmap_2.
Qed.

(** The entries in front of [x] have other keys. *)
Lemma key_in_front l1 x l2 :
  NoDup (key <$> (l1 ++ x :: l2)) →
  ∀ y, y ∈ l1 → bool_decide (key y = key x) = false.
Proof.
  intros Hnd y Hy. apply bool_decide_eq_false. intros Heq.
  rewrite fmap_app in Hnd. apply list.NoDup_app in Hnd as (_ & Hd & _). apply (Hd (key y)).
  - by apply list_elem_of_fmap_2.
  - rewrite Heq. by left.
Qed.

Lemma find_key l f p :
  NoDup (key <$> l) → find_first f l = Some p →
  find_first (λ q, bool_decide (key q = key p)) l = Some p.
Proof.
  intros Hnd (Hp & l1 & l2 & -> & Hl1)%find_first_Some.
  apply find_first_app; [by apply key_in_front with l2|by apply bool_decide_eq_true].
Qed.
End KeyLemmas.

(** [replicate]-free equality test of byte strings. *)
Definition bytes_eqb (a b : list byte) : bool := bool_decide (a = b).

#[global] Arguments be16 : simpl never.
#[global] Arguments unbe16 : simpl never.
#[global] Arguments load16 : simpl never.
#[global] Arguments store16 : simpl never.
#[global] Arguments store32 : simpl never.
#[global] Arguments zlen : simpl never.
#[global] Arguments mread : simpl never.
#[global] Arguments mwrite : simpl never.
#[global] Arguments realloc : simpl never.
#[global] Arguments malloc : simpl never.
#[global] Arguments z2b : simpl never.
#[global] Arguments b2z : simpl never.

(** Two hosts, for the concrete instances. *)
Definition le_host : Host := {| host_endian := LittleEndian; heap_junk := xff |}.
Definition be_host : Host := {| host_endian := BigEndian; heap_junk := xff |}.
