(* ===== verification/Protocol.v ===== *)
(** * Shared vocabulary of the program

    The status codes ([utils/atlas_status.h]), the CoAP methods and response
    codes ([coap/atlas_coap_method.h], [coap/atlas_coap_response.h]), the
    command types of the TLV protocol ([commands/atlas_command_types.h]) and
    the command execution types ([commands_execute/atlas_command_execute_types.h]).
    A command type is compared with a [uint16_t] read from the wire, so it is
    its number; the other enumerations are inductive types. *)

From S2P Require Import Prelude.

Inductive atlas_status_t :=
| ATLAS_OK
| ATLAS_GENERAL_ERR
| ATLAS_INVALID_HOSTNAME
| ATLAS_INVALID_PORT
| ATLAS_COAP_SRV_DTLS_NOT_SUPPORTED
| ATLAS_COAP_INVALID_URI
| ATLAS_INVALID_CALLBACK
| ATLAS_INVALID_DTLS_IDENTITY
| ATLAS_INVALID_DTLS_PSK
| ATLAS_IDENTITY_FILE_ERROR
| ATLAS_PSK_FILE_ERROR
| ATLAS_INVALID_INPUT
| ATLAS_CORRUPTED_COMMAND
| ATLAS_SOCKET_ERROR
| ATLAS_CORRUPTED_COMMAND_EXECUTION_PAYLOAD
| ATLAS_DEFERRED_COMMAND_EXECUTION.

#[export] Instance atlas_status_eq_dec : EqDecision atlas_status_t.
Proof. solve_decision. Defined.

Inductive atlas_coap_method_t :=
| ATLAS_COAP_METHOD_GET
| ATLAS_COAP_METHOD_POST
| ATLAS_COAP_METHOD_PUT
| ATLAS_COAP_METHOD_DELETE.

#[export] Instance atlas_coap_method_eq_dec : EqDecision atlas_coap_method_t.
Proof. solve_decision. Defined.

Inductive atlas_coap_response_t :=
| ATLAS_COAP_RESP_OK
| ATLAS_COAP_RESP_NOT_FOUND
| ATLAS_COAP_RESP_NOT_ACCEPTABLE_HERE
| ATLAS_COAP_RESP_TIMEOUT
| ATLAS_COAP_RESP_RESET
| ATLAS_COAP_RESP_UNKNOWN.

#[export] Instance atlas_coap_response_eq_dec : EqDecision atlas_coap_response_t.
Proof. solve_decision. Defined.

(** The numbers of the response enumeration. *)
Definition resp_number (r : atlas_coap_response_t) : Z :=
  match r with
  | ATLAS_COAP_RESP_OK => 200
  | ATLAS_COAP_RESP_NOT_FOUND => 404
  | ATLAS_COAP_RESP_NOT_ACCEPTABLE_HERE => 406
  | ATLAS_COAP_RESP_TIMEOUT => 407
  | ATLAS_COAP_RESP_RESET => 408
  | ATLAS_COAP_RESP_UNKNOWN => 409
  end.

(** ** Command types *)

Definition ATLAS_CMD_REGISTER : Z := 0.
Definition ATLAS_CMD_KEEPALIVE : Z := 1.
Definition ATLAS_CMD_IDENTITY : Z := 2.
Definition ATLAS_CMD_IP_PORT : Z := 3.
Definition ATLAS_CMD_TELEMETRY_HOSTNAME : Z := 500.
Definition ATLAS_CMD_TELEMETRY_KERN_INFO : Z := 501.
Definition ATLAS_CMD_TELEMETRY_SYSINFO_UPTIME : Z := 502.
Definition ATLAS_CMD_TELEMETRY_SYSINFO_TOTALRAM : Z := 503.
Definition ATLAS_CMD_TELEMETRY_SYSINFO_FREERAM : Z := 504.
Definition ATLAS_CMD_TELEMETRY_SYSINFO_SHAREDRAM : Z := 505.
Definition ATLAS_CMD_TELEMETRY_SYSINFO_BUFFERRAM : Z := 506.
Definition ATLAS_CMD_TELEMETRY_SYSINFO_TOTALSWAP : Z := 507.
Definition ATLAS_CMD_TELEMETRY_SYSINFO_FREESWAP : Z := 508.
Definition ATLAS_CMD_TELEMETRY_SYSINFO_PROCS : Z := 509.
Definition ATLAS_CMD_TELEMETRY_SYSINFO_LOAD1 : Z := 510.
Definition ATLAS_CMD_TELEMETRY_SYSINFO_LOAD5 : Z := 511.
Definition ATLAS_CMD_TELEMETRY_SYSINFO_LOAD15 : Z := 512.
Definition ATLAS_CMD_TELEMETRY_ALERT_EXT_PUSH_RATE : Z := 513.
Definition ATLAS_CMD_TELEMETRY_ALERT_INT_SCAN_RATE : Z := 514.
Definition ATLAS_CMD_TELEMETRY_ALERT_THRESHOLD : Z := 515.
Definition ATLAS_CMD_TELEMETRY_PACKETS_PER_MINUTE : Z := 516.
Definition ATLAS_CMD_TELEMETRY_PACKETS_AVG : Z := 517.
Definition ATLAS_CMD_DATA_PLANE_POLICY : Z := 1000.
Definition ATLAS_CMD_DATA_PLANE_PACKETS_PER_MINUTE : Z := 1001.
Definition ATLAS_CMD_DATA_PLANE_PACKETS_AVG : Z := 1002.
Definition ATLAS_CMD_DATA_PLANE_GET_IDENTITY : Z := 1003.
Definition ATLAS_CMD_DATA_PLANE_IDENTITY : Z := 1004.
Definition ATLAS_CMD_DATA_PLANE_POLICY_QOS : Z := 1100.
Definition ATLAS_CMD_DATA_PLANE_POLICY_PACKETS_PER_MINUTE : Z := 1101.
Definition ATLAS_CMD_DATA_PLANE_POLICY_PACKETS_MAXLEN : Z := 1102.
Definition ATLAS_CMD_DATA_PLANE_FEATURE_REPUTATION : Z := 1500.
Definition ATLAS_CMD_DATA_PLANE_FEEDBACK : Z := 1501.
Definition ATLAS_CMD_DATA_PLANE_FEEDBACK_IDENTITY : Z := 1502.
Definition ATLAS_CMD_DATA_PLANE_FEEDBACK_SENSOR_TYPE : Z := 1503.
Definition ATLAS_CMD_DATA_PLANE_FEEDBACK_SENSOR : Z := 1504.
Definition ATLAS_CMD_DATA_PLANE_FEEDBACK_RESPONSE_TIME : Z := 1505.
Definition ATLAS_CMD_DATA_PLANE_FEATURE_ERROR : Z := 1506.

(** ** Command execution types *)

Definition ATLAS_CMD_DEVICE_RESTART : Z := 0.
Definition ATLAS_CMD_DEVICE_SHUTDOWN : Z := 1.
Definition ATLAS_CMD_DEVICE_UNKNOWN : Z := 2.
