(* ===== verification/Command.v ===== *)
(** * Command batches ([commands/atlas_command.c])

    A batch is a heap buffer of type-length-value commands, with 16-bit type
    and length in network byte order. The buffer is modelled as a memory
    block; every access is bounds checked, [None] being undefined behaviour.
    [atlas_cmd_batch_get] converts the header of the command it returns to
    host order in place, inside the buffer, and so does the model. *)

From S2P Require Import Prelude Protocol.

Record atlas_cmd_batch_t := mk_batch {
  length_ : Z;
  buf_ : option (list byte)
}.

(** A [atlas_cmd_batch_t *], which may be NULL. *)
Abbreviation batch_ptr := (option atlas_cmd_batch_t).

(** The command a non-NULL [atlas_cmd_t *] points to: the header, in the byte
    order the buffer holds it, and the bytes reachable from [value], which are
    those up to the end of the buffer. *)
Record atlas_cmd_t := mk_cmd {
  cmd_type : Z;
  cmd_length : Z;
  cmd_value : list byte
}.

Section Command.
Context `{Host}.

Definition atlas_cmd_batch_new : batch_ptr := Some (mk_batch 0 None).

Definition atlas_cmd_batch_add (cmd_batch : batch_ptr) (type length : Z)
    (value : list byte) : option batch_ptr :=
  match cmd_batch with
  | None => Some None
  | Some b =>
      let new_len := u16 (length_ b + 2 * 2 + length) in
      let buf := realloc (buf_ b) new_len in
      let p := length_ b in
      v ← mread value 0 length;
      buf ← mwrite buf (p + 2 * 2) v;
      buf ← mwrite buf p (store16 (htons type));
      buf ← mwrite buf (p + 2) (store16 (htons length));
      Some (Some (mk_batch new_len (Some buf)))
  end.

(** The out-parameters keep their value when the batch is NULL. *)
Definition atlas_cmd_batch_get_buf (cmd_batch : batch_ptr) (buf : option (list byte))
    (len : Z) : option (list byte) * Z :=
  match cmd_batch with
  | None => (buf, len)
  | Some b => (buf_ b, length_ b)
  end.

(** The validation loop of [atlas_cmd_batch_set_raw]; [p] is the offset of the
    read pointer. Every round consumes at least four bytes of [tmp_len]. *)
Fixpoint set_raw_validate (fuel : nat) (buf : list byte) (p tmp_len : Z)
    : option atlas_status_t :=
  match fuel with
  | O => None
  | S fuel =>
      if decide (tmp_len > 0) then
        if decide (tmp_len < 2) then Some ATLAS_CORRUPTED_COMMAND else
        let p := p + 2 in
        let tmp_len := u16 (tmp_len - 2) in
        if decide (tmp_len < 2) then Some ATLAS_CORRUPTED_COMMAND else
        l ← mread buf p 2;
        let cmd_len := ntohs (load16 l) in
        let p := p + 2 in
        let tmp_len := u16 (tmp_len - 2) in
        if decide (tmp_len < cmd_len) then Some ATLAS_CORRUPTED_COMMAND else
        set_raw_validate fuel buf (p + cmd_len) (u16 (tmp_len - cmd_len))
      else Some ATLAS_OK
  end.

Definition atlas_cmd_batch_set_raw (cmd_batch : batch_ptr) (buf : option (list byte))
    (len : Z) : option (atlas_status_t * batch_ptr) :=
  match cmd_batch, buf with
  | Some b, Some raw =>
      if decide (len = 0) then Some (ATLAS_INVALID_INPUT, cmd_batch) else
      st ← set_raw_validate (S (Z.to_nat len)) raw 0 len;
      match st with
      | ATLAS_OK =>
          copy ← mread raw 0 len;
          blk ← mwrite (malloc len) 0 copy;
          Some (ATLAS_OK, Some (mk_batch len (Some blk)))
      | _ => Some (st, cmd_batch)
      end
  | _, _ => Some (ATLAS_INVALID_INPUT, cmd_batch)
  end.

(** [cmd->type = ntohs (cmd->type); cmd->length = ntohs (cmd->length)] on the
    command at offset [p] of the buffer. *)
Definition cmd_swap (buf : list byte) (p : Z) : option (list byte) :=
  t ← mread buf p 2;
  buf ← mwrite buf p (store16 (ntohs (load16 t)));
  l ← mread buf (p + 2) 2;
  mwrite buf (p + 2) (store16 (ntohs (load16 l))).

(** A command pointer is NULL or an offset in the buffer of the batch. *)
Definition atlas_cmd_batch_get (cmd_batch : batch_ptr) (current_cmd : option Z)
    : option (batch_ptr * option Z) :=
  match cmd_batch with
  | None => Some (None, None)
  | Some b =>
      match current_cmd with
      | None =>
          buf ← buf_ b;
          buf ← cmd_swap buf 0;
          Some (Some (mk_batch (length_ b) (Some buf)), Some 0)
      | Some p =>
          buf ← buf_ b;
          l ← mread buf (p + 2) 2;
          let p := p + (2 * 2 + load16 l) in
          if decide (p >= length_ b) then Some (cmd_batch, None) else
          buf ← cmd_swap buf p;
          Some (Some (mk_batch (length_ b) (Some buf)), Some p)
      end
  end.

(** Reading [cmd->type], [cmd->length] and [cmd->value] through a pointer. *)
Definition cmd_at (cmd_batch : batch_ptr) (p : Z) : option atlas_cmd_t :=
  b ← cmd_batch;
  buf ← buf_ b;
  t ← mread buf p 2;
  l ← mread buf (p + 2) 2;
  Some (mk_cmd (load16 t) (load16 l) (mtail buf (p + 4))).

(** The loop every reader of a batch has:
    [cmd = get (batch, NULL); while (cmd) { body; cmd = get (batch, cmd); }].
    The body works on a state and says whether it leaves the loop. *)
Fixpoint cmd_while {St} (fuel : nat) (body : atlas_cmd_t → St → option (St * bool))
    (cmd_batch : batch_ptr) (cmd : option Z) (s : St) : option St :=
  match cmd with
  | None => Some s
  | Some p =>
      match fuel with
      | O => None
      | S fuel =>
          c ← cmd_at cmd_batch p;
          '(s, leave) ← body c s;
          if leave : bool then Some s else
          '(cmd_batch, cmd) ← atlas_cmd_batch_get cmd_batch cmd;
          cmd_while fuel body cmd_batch cmd s
      end
  end.

Definition cmd_foreach {St} (cmd_batch : batch_ptr)
    (body : atlas_cmd_t → St → option (St * bool)) (s : St) : option St :=
  '(cb, cmd) ← atlas_cmd_batch_get cmd_batch None;
  let fuel := match cmd_batch with Some b => S (Z.to_nat (length_ b)) | None => 1%nat end in
  cmd_while fuel body cb cmd s.

End Command.

(** ** The wire format

    The specification of a batch is the list of its commands. *)

Definition wf_cmd (c : Z * list byte) : Prop :=
  0 ≤ c.1 < 65536 ∧ zlen c.2 < 65536.

#[export] Instance wf_cmd_dec c : Decision (wf_cmd c).
Proof. unfold wf_cmd. apply _. Defined.

Definition encode_cmd (c : Z * list byte) : list byte :=
  be16 c.1 ++ be16 (zlen c.2) ++ c.2.

Definition encode (cs : list (Z * list byte)) : list byte := concat (encode_cmd <$> cs).

(** A batch whose buffer is exactly the encoding of [cs]. *)
Definition holds (cb : batch_ptr) (cs : list (Z * list byte)) : Prop :=
  match cb with
  | None => False
  | Some b => length_ b = zlen (encode cs) ∧ default [] (buf_ b) = encode cs
              ∧ zlen (encode cs) < 65536
  end.

(** What a body sees of each command of the encoding: the header, and the
    value followed by the rest of the buffer. *)
Fixpoint views (cs : list (Z * list byte)) : list atlas_cmd_t :=
  match cs with
  | [] => []
  | c :: cs => mk_cmd c.1 (zlen c.2) (c.2 ++ encode cs) :: views cs
  end.

(** The loop as a fold over the commands. *)
Fixpoint fold_views {St} (body : atlas_cmd_t → St → option (St * bool))
    (vs : list atlas_cmd_t) (s : St) : option St :=
  match vs with
  | [] => Some s
  | v :: vs =>
      '(s, leave) ← body v s;
      if leave : bool then Some s else fold_views body vs s
  end.

(** The reference parser. *)
Fixpoint decode_fuel (fuel : nat) (bs : list byte) : option (list (Z * list byte)) :=
  match fuel, bs with
  | _, [] => Some []
  | S fuel, a :: b :: c :: d :: rest =>
      let l := unbe16 [c; d] in
      if decide (zlen rest < l) then None else
      cs ← decode_fuel fuel (drop (Z.to_nat l) rest);
      Some ((unbe16 [a; b], take (Z.to_nat l) rest) :: cs)
  | _, _ => None
  end.

Definition decode (bs : list byte) : option (list (Z * list byte)) :=
  decode_fuel (length bs) bs.

#[global] Arguments encode_cmd : simpl never.
#[global] Arguments encode : simpl never.

(** ** Encoding and decoding *)

Section Wire.

Lemma encode_nil : encode [] = [].
Proof. done. Qed.

Lemma encode_cons c cs : encode (c :: cs) = encode_cmd c ++ encode cs.
Proof. done. Qed.

Lemma encode_app cs ds : encode (cs ++ ds) = encode cs ++ encode ds.
Proof. unfold encode. by rewrite fmap_app, concat_app. Qed.

Lemma zlen_encode_cmd c : zlen (encode_cmd c) = 4 + zlen c.2.
Proof. unfold encode_cmd. zlen_lia. Qed.

Lemma encode_cmd_app c bs :
  encode_cmd c ++ bs = be16 c.1 ++ be16 (zlen c.2) ++ c.2 ++ bs.
Proof. unfold encode_cmd. by rewrite <- !app_assoc. Qed.

Lemma encode_cmd_inj c c' bs bs' :
  wf_cmd c → wf_cmd c' → encode_cmd c ++ bs = encode_cmd c' ++ bs' → c = c' ∧ bs = bs'.
Proof.
  destruct c as [t v], c' as [t' v']. unfold wf_cmd. cbn [fst snd].
  intros [Ht Hv] [Ht' Hv']. rewrite !encode_cmd_app. cbn [fst snd be16 app].
  intros [= E1 E2 E3 E4 E]. pose proof (zlen_nonneg v). pose proof (zlen_nonneg v').
  assert (t = t') as ->
    by (rewrite <- (unbe16_be16 t), <- (unbe16_be16 t') by lia; unfold be16; congruence).
  assert (zlen v = zlen v') as Hl
    by (rewrite <- (unbe16_be16 (zlen v)), <- (unbe16_be16 (zlen v')) by lia;
        unfold be16; congruence).
  apply Nat2Z.inj in Hl. by destruct (app_inj_1 _ _ _ _ Hl E) as [-> ->].
Qed.

Lemma encode_cmd_shape a b c d v :
  zlen v = unbe16 [c; d] → encode_cmd (unbe16 [a; b], v) = a :: b :: c :: d :: v.
Proof.
  intros E. unfold encode_cmd. cbn [fst snd]. rewrite E.
  by rewrite !be16_unbe16.
Qed.

Lemma decode_fuel_spec fuel bs cs :
  (length bs ≤ fuel)%nat →
  decode_fuel fuel bs = Some cs ↔ Forall wf_cmd cs ∧ encode cs = bs.
Proof.
  revert bs cs. induction fuel as [|fuel IH]; intros bs cs Hf.
  { destruct bs; simpl in *; [|lia]. split; [by intros [= <-]|].
    intros [_ E]. destruct cs; [done|discriminate E]. }
  destruct bs as [|a [|b [|c [|d rest]]]];
    try (split; [done|intros [_ E]; destruct cs; discriminate E]).
  { split; [by intros [= <-]|]. intros [_ E]. destruct cs; [done|discriminate E]. }
  cbn [decode_fuel].
  assert (0 ≤ unbe16 [c; d] < 65536) as Hl by apply unbe16_range.
  split.
  - case_decide as Hd; [done|].
    destruct (decode_fuel fuel _) as [cs'|] eqn:E; [|done]. intros [= <-].
    apply IH in E as [Hwf E]; [|simpl in Hf; rewrite length_drop; lia].
    assert (zlen (take (Z.to_nat (unbe16 [c; d])) rest) = unbe16 [c; d]) as Hz.
    { unfold zlen in *. rewrite length_take. lia. }
    split.
    + constructor; [|done]. split; [apply unbe16_range|]. cbn [snd]. lia.
    + rewrite encode_cons, (encode_cmd_shape _ _ _ _ _ Hz), E.
      cbn [app]. by rewrite take_drop.
  - intros [Hwf E]. destruct cs as [|[t v] cs]; [discriminate E|].
    apply Forall_cons_1 in Hwf as [[Ht Hv] Hwf]. simpl in Ht, Hv.
    rewrite encode_cons, encode_cmd_app in E. cbn [fst snd be16 app] in E.
    injection E as <- <- <- <- <-.
    change [z2b (zlen v / 256); z2b (zlen v)] with (be16 (zlen v)).
    change [z2b (t / 256); z2b t] with (be16 t).
    pose proof (zlen_nonneg v).
    rewrite !unbe16_be16 by lia.
    rewrite decide_False by zlen_lia.
    rewrite zlen_nat, drop_app_length, take_app_length.
    by rewrite (proj2 (IH (encode cs) cs ltac:(simpl in Hf; rewrite length_app in Hf; lia))).
Qed.

Lemma decode_spec bs cs : decode bs = Some cs ↔ Forall wf_cmd cs ∧ encode cs = bs.
Proof. by apply decode_fuel_spec. Qed.

Lemma decode_encode cs : Forall wf_cmd cs → decode (encode cs) = Some cs.
Proof. intros. by apply decode_spec. Qed.

Lemma decode_None_encode bs cs : decode bs = None → Forall wf_cmd cs → encode cs ≠ bs.
Proof. intros Hn Hwf E. by rewrite (proj2 (decode_spec bs cs)) in Hn. Qed.

Lemma decode_cmd_app c bs :
  wf_cmd c → decode (encode_cmd c ++ bs) = (c ::.) <$> decode bs.
Proof.
  intros Hc. destruct (decode bs) as [cs|] eqn:E; simpl.
  - apply decode_spec in E as [Hwf <-]. apply decode_spec. by split; [constructor|].
  - destruct (decode (encode_cmd c ++ bs)) as [cs|] eqn:E'; [|done]. exfalso.
    apply decode_spec in E' as [Hwf E'].
    destruct cs as [|c' cs]; [discriminate E'|].
    apply Forall_cons_1 in Hwf as [Hc' Hwf]. rewrite encode_cons in E'.
    apply encode_cmd_inj in E' as [_ <-]; [|done..].
    by eapply decode_None_encode.
Qed.

(** A non-empty buffer is too short for a header, announces more bytes than it
    has, or starts with a command. *)
Lemma decode_cases bs :
  bs ≠ [] →
  (zlen bs < 4 ∧ decode bs = None) ∨
  (∃ h2 l2 rest, bs = h2 ++ l2 ++ rest ∧ length h2 = 2%nat ∧ length l2 = 2%nat ∧
     zlen rest < unbe16 l2 ∧ decode bs = None) ∨
  (∃ c rest, wf_cmd c ∧ bs = encode_cmd c ++ rest).
Proof.
  intros Hne. destruct bs as [|a [|b [|c [|d rest]]]]; [done|by left..|right].
  destruct (decide (zlen rest < unbe16 [c; d])) as [Hlt|Hge].
  - left. exists [a; b], [c; d], rest. split_and!; [done..|].
    unfold decode. cbn [length decode_fuel]. by rewrite decide_True.
  - right. pose proof (unbe16_range [c; d]) as Hr. pose proof (unbe16_range [a; b]).
    exists (unbe16 [a; b], take (Z.to_nat (unbe16 [c; d])) rest),
      (drop (Z.to_nat (unbe16 [c; d])) rest).
    assert (zlen (take (Z.to_nat (unbe16 [c; d])) rest) = unbe16 [c; d]) as Hz.
    { unfold zlen in *. rewrite length_take. lia. }
    split; [split; simpl fst; simpl snd; lia|].
    rewrite (encode_cmd_shape _ _ _ _ _ Hz). cbn [app]. by rewrite take_drop.
Qed.

End Wire.

#[global] Arguments decode : simpl never.

(** ** The operations against the wire format *)

Section Operations.
Context `{Host}.

Lemma holds_new : holds atlas_cmd_batch_new [].
Proof. done. Qed.

Lemma mwrite_tail pre old new off :
  off = zlen pre → zlen new = zlen old → mwrite (pre ++ old) off new = Some (pre ++ new).
Proof.
  intros Ho Hn. rewrite <- (app_nil_r old), (mwrite_app _ _ new [] _ Ho Hn).
  by rewrite app_nil_r.
Qed.

Lemma mwrite_all old new : zlen new = zlen old → mwrite old 0 new = Some new.
Proof. by apply (mwrite_tail []). Qed.

(** Four junk bytes and [n] more, cut at the places [atlas_cmd_batch_add] writes. *)
Lemma junk_split n (junk : list byte) :
  zlen junk = 4 + n → 0 ≤ n →
  ∃ j1 j2 j3, junk = j1 ++ j2 ++ j3 ∧ zlen j1 = 2 ∧ zlen j2 = 2 ∧ zlen j3 = n.
Proof.
  intros Hj Hn. destruct (split_at junk 2) as (j1 & r & -> & H1); [lia|].
  rewrite zlen_app in Hj.
  destruct (split_at r 2) as (j2 & j3 & -> & H2); [lia|].
  rewrite zlen_app in Hj. exists j1, j2, j3. split_and!; (done || lia).
Qed.

Lemma add_holds cb cs t v value :
  holds cb cs → wf_cmd (t, v) → mread value 0 (zlen v) = Some v →
  zlen (encode cs) + 4 + zlen v < 65536 →
  ∃ cb', atlas_cmd_batch_add cb t (zlen v) value = Some cb' ∧ holds cb' (cs ++ [(t, v)]).
Proof.
  destruct cb as [b|]; [|done]. intros (Hlen & Hbuf & _) [Ht Hv] Hr Hfit.
  cbn [fst snd] in Ht, Hv. pose proof (zlen_nonneg v). pose proof (zlen_nonneg (encode cs)).
  unfold atlas_cmd_batch_add. rewrite Hr. cbn [mbind option_bind].
  rewrite (u16_small (length_ b + 2 * 2 + zlen v)) by lia.
  destruct (realloc_grow (buf_ b) (length_ b + 2 * 2 + zlen v)) as (junk & -> & Hj);
    [rewrite Hbuf; lia|].
  rewrite Hbuf in *. rewrite Hlen in *.
  destruct (junk_split (zlen v) junk) as (j1 & j2 & j3 & -> & Hj1 & Hj2 & Hj3); [lia..|].
  replace (encode cs ++ j1 ++ j2 ++ j3) with ((encode cs ++ j1 ++ j2) ++ j3)
    by (by rewrite <- !app_assoc).
  rewrite (mwrite_tail _ _ v) by zlen_lia. cbn [mbind option_bind].
  rewrite <- !app_assoc, mwrite_app by zlen_lia. cbn [mbind option_bind].
  rewrite (app_assoc (encode cs)), mwrite_app by zlen_lia. cbn [mbind option_bind].
  eexists. split; [done|]. unfold holds. cbn [length_ buf_ default].
  rewrite encode_app, encode_cons, encode_nil, app_nil_r.
  rewrite !store16_htons by lia. unfold encode_cmd. cbn [fst snd].
  rewrite <- app_assoc. split_and!; [zlen_lia|done|zlen_lia].
Qed.

(** When the value is exactly the bytes that are added. *)
Lemma add_holds_exact cb cs t v :
  holds cb cs → wf_cmd (t, v) → zlen (encode cs) + 4 + zlen v < 65536 →
  ∃ cb', atlas_cmd_batch_add cb t (zlen v) v = Some cb' ∧ holds cb' (cs ++ [(t, v)]).
Proof. intros. apply add_holds; try done. by apply mread_all. Qed.

Lemma holds_get_buf cb cs :
  holds cb cs → cs ≠ [] →
  atlas_cmd_batch_get_buf cb None 0 = (Some (encode cs), zlen (encode cs)).
Proof.
  destruct cb as [[len [buf|]]|]; [| |done]; intros (Hl & Hb & _) Hne; simpl in *; subst.
  - done.
  - destruct cs as [|c cs]; [done|]. rewrite encode_cons in Hb. discriminate Hb.
Qed.

Lemma validate_spec fuel pre body post :
  (length body < fuel)%nat → zlen body < 65536 →
  set_raw_validate fuel (pre ++ body ++ post) (zlen pre) (zlen body)
  = Some (match decode body with Some _ => ATLAS_OK | None => ATLAS_CORRUPTED_COMMAND end).
Proof.
  revert pre body post. induction fuel as [|fuel IH]; intros pre body post Hf Hb; [lia|].
  cbn [set_raw_validate]. pose proof (zlen_nonneg body).
  destruct (decide (body = [])) as [->|Hne]; [done|].
  destruct (decode_cases body Hne)
    as [[Hs Hd]|[(h2 & l2 & rest & -> & Hh & Hl & Hlt & Hd)|(c & rest & Hc & ->)]].
  - rewrite Hd. rewrite decide_True by (destruct body; [done|zlen_lia]).
    case_decide as H2; [done|]. rewrite u16_small by lia.
    rewrite decide_True by lia. done.
  - assert (zlen h2 = 2) as Hh2 by (unfold zlen; lia).
    assert (zlen l2 = 2) as Hl2 by (unfold zlen; lia).
    rewrite Hd. autorewrite with zlen in *. pose proof (zlen_nonneg rest).
    rewrite decide_True by lia. rewrite decide_False by lia.
    rewrite u16_small by lia. rewrite decide_False by lia.
    rewrite <- !app_assoc, (app_assoc pre).
    replace (zlen pre + 2) with (zlen (pre ++ h2)) by zlen_lia.
    rewrite mread_app by lia. cbn [mbind option_bind].
    rewrite ntohs_load16 by done. rewrite u16_small by lia.
    rewrite decide_True by lia. done.
  - destruct c as [t v]. destruct Hc as [Ht Hv]. cbn [fst snd] in Ht, Hv.
    rewrite decode_cmd_app by done.
    rewrite zlen_app, zlen_encode_cmd in *. cbn [snd] in *.
    pose proof (zlen_nonneg rest). pose proof (zlen_nonneg v).
    rewrite decide_True by lia. rewrite decide_False by lia.
    rewrite u16_small by lia. rewrite decide_False by lia.
    rewrite <- app_assoc, encode_cmd_app. cbn [fst snd].
    rewrite (app_assoc pre). replace (zlen pre + 2) with (zlen (pre ++ be16 t)) by zlen_lia.
    rewrite mread_app by done. cbn [mbind option_bind].
    rewrite ntohs_load16, unbe16_be16 by (done || lia).
    rewrite !u16_small by lia. rewrite decide_False by lia.
    replace (4 + zlen v + zlen rest - 2 - 2 - zlen v) with (zlen rest) by lia.
    replace (zlen (pre ++ be16 t) + 2 + zlen v)
      with (zlen (pre ++ be16 t ++ be16 (zlen v) ++ v)) by zlen_lia.
    replace ((pre ++ be16 t) ++ be16 (zlen v) ++ v ++ rest ++ post)
      with ((pre ++ be16 t ++ be16 (zlen v) ++ v) ++ rest ++ post)
      by (by rewrite <- !app_assoc).
    rewrite IH; [by destruct (decode rest)| |lia].
    rewrite length_app in Hf. unfold encode_cmd in Hf. simpl in Hf.
    rewrite ?length_app in Hf. lia.
Qed.

(** The parser of the program against the reference parser, for a buffer that
    has at least [len] bytes. *)
Lemma set_raw_decode b raw body post len :
  raw = body ++ post → len = zlen body → 0 < len < 65536 →
  atlas_cmd_batch_set_raw (Some b) (Some raw) len =
  Some (match decode body with
        | Some _ => (ATLAS_OK, Some (mk_batch len (Some body)))
        | None => (ATLAS_CORRUPTED_COMMAND, Some b)
        end).
Proof.
  intros -> -> Hl. unfold atlas_cmd_batch_set_raw. rewrite decide_False by lia.
  rewrite (validate_spec _ [] body post) by (unfold zlen in *; lia).
  cbn [mbind option_bind]. destruct (decode body); [|done].
  rewrite mread_head by done. cbn [mbind option_bind].
  rewrite mwrite_all; [done|]. unfold malloc, zlen. rewrite length_replicate. lia.
Qed.

Lemma cmd_swap_spec pre t l post :
  0 ≤ t < 65536 → 0 ≤ l < 65536 →
  cmd_swap (pre ++ be16 t ++ be16 l ++ post) (zlen pre)
  = Some (pre ++ store16 t ++ store16 l ++ post).
Proof.
  intros Ht Hl. unfold cmd_swap. rewrite mread_app by done. cbn [mbind option_bind].
  rewrite ntohs_load16, unbe16_be16, mwrite_app by (done || zlen_lia).
  cbn [mbind option_bind].
  rewrite (app_assoc pre). replace (zlen pre + 2) with (zlen (pre ++ store16 t)) by zlen_lia.
  rewrite mread_app by done. cbn [mbind option_bind].
  rewrite ntohs_load16, unbe16_be16, mwrite_app by (done || zlen_lia).
  by rewrite <- app_assoc.
Qed.

Lemma cmd_at_spec len pre t v post :
  0 ≤ t < 65536 → zlen v < 65536 →
  cmd_at (Some (mk_batch len (Some (pre ++ store16 t ++ store16 (zlen v) ++ v ++ post)))) (zlen pre)
  = Some (mk_cmd t (zlen v) (v ++ post)).
Proof.
  intros Ht Hv. pose proof (zlen_nonneg v). unfold cmd_at. cbn [mbind option_bind buf_].
  rewrite mread_app by zlen_lia. cbn [mbind option_bind].
  rewrite (app_assoc pre). replace (zlen pre + 2) with (zlen (pre ++ store16 t)) by zlen_lia.
  rewrite mread_app by zlen_lia. cbn [mbind option_bind].
  rewrite !load16_store16 by lia. do 2 f_equal.
  rewrite app_assoc, mtail_app by zlen_lia. done.
Qed.

(** The step from a command to the next: the header of the next command is
    converted in place, the end of the buffer gives NULL. *)
Lemma get_next_spec len pre t v rest :
  0 ≤ t < 65536 → zlen v < 65536 → Forall wf_cmd rest →
  let buf := pre ++ store16 t ++ store16 (zlen v) ++ v ++ encode rest in
  len = zlen buf →
  atlas_cmd_batch_get (Some (mk_batch len (Some buf))) (Some (zlen pre)) =
  Some (match rest with
        | [] => (Some (mk_batch len (Some buf)), None)
        | c :: rest =>
            let pre' := pre ++ store16 t ++ store16 (zlen v) ++ v in
            (Some (mk_batch len (Some
               (pre' ++ store16 c.1 ++ store16 (zlen c.2) ++ c.2 ++ encode rest))),
             Some (zlen pre'))
        end).
Proof.
  intros Ht Hv Hwf buf Hlen. pose proof (zlen_nonneg v).
  cbn [atlas_cmd_batch_get buf_ length_ mbind option_bind].
  assert (mread buf (zlen pre + 2) 2 = Some (store16 (zlen v))) as ->.
  { subst buf. rewrite (app_assoc pre).
    replace (zlen pre + 2) with (zlen (pre ++ store16 t)) by zlen_lia.
    apply mread_app. zlen_lia. }
  cbn [mbind option_bind]. rewrite load16_store16 by lia.
  replace (zlen pre + (2 * 2 + zlen v))
    with (zlen (pre ++ store16 t ++ store16 (zlen v) ++ v)) by zlen_lia.
  destruct rest as [|[t' v'] rest].
  - rewrite decide_True; [done|]. rewrite Hlen. subst buf.
    rewrite encode_nil, app_nil_r. lia.
  - apply Forall_cons_1 in Hwf as [[Ht' Hv'] Hwf]. cbn [fst snd] in *.
    pose proof (zlen_nonneg v').
    assert (buf = (pre ++ store16 t ++ store16 (zlen v) ++ v) ++
      be16 t' ++ be16 (zlen v') ++ v' ++ encode rest) as Hbuf.
    { subst buf. by rewrite encode_cons, encode_cmd_app, <- !app_assoc. }
    rewrite decide_False by (rewrite Hlen, Hbuf; zlen_lia).
    rewrite Hbuf, cmd_swap_spec by (done || lia). done.
Qed.

Lemma cmd_while_spec {St} fuel (body : atlas_cmd_t → St → option (St * bool)) len pre c rest s :
  wf_cmd c → Forall wf_cmd rest → (length rest < fuel)%nat →
  let buf := pre ++ store16 c.1 ++ store16 (zlen c.2) ++ c.2 ++ encode rest in
  len = zlen buf →
  cmd_while fuel body (Some (mk_batch len (Some buf))) (Some (zlen pre)) s
  = fold_views body (views (c :: rest)) s.
Proof.
  revert pre c rest s. induction fuel as [|fuel IH]; intros pre [t v] rest s [Ht Hv] Hwf Hf buf Hlen;
    [lia|].
  cbn [fst snd] in *. cbn [cmd_while views fold_views fst snd]. subst buf.
  rewrite cmd_at_spec by done. cbn [mbind option_bind].
  destruct (body _ s) as [[s' leave]|]; [|done]. cbn [mbind option_bind].
  destruct leave; [done|].
  rewrite get_next_spec by done. cbn [mbind option_bind].
  destruct rest as [|c' rest].
  - by destruct fuel.
  - apply Forall_cons_1 in Hwf as [Hc' Hwf]. cbn beta iota zeta.
    rewrite IH; [done..|simpl in Hf; lia|].
    rewrite Hlen, encode_cons, encode_cmd_app. zlen_lia.
Qed.

Lemma encode_length_ge cs : (length cs ≤ length (encode cs))%nat.
Proof.
  induction cs as [|c cs IH]; [done|]. rewrite encode_cons, length_app.
  unfold encode_cmd. simpl. lia.
Qed.

(** Iterating over a batch that holds [cs] is folding over [cs]. *)
Lemma foreach_views {St} (body : atlas_cmd_t → St → option (St * bool)) cs s :
  Forall wf_cmd cs → cs ≠ [] →
  cmd_foreach (Some (mk_batch (zlen (encode cs)) (Some (encode cs)))) body s
  = fold_views body (views cs) s.
Proof.
  intros Hwf Hne. destruct cs as [|[t v] cs]; [done|].
  apply Forall_cons_1 in Hwf as [[Ht Hv] Hwf]. cbn [fst snd] in *.
  pose proof (zlen_nonneg v).
  unfold cmd_foreach. cbn [atlas_cmd_batch_get buf_ length_ mbind option_bind].
  rewrite encode_cons, encode_cmd_app. cbn [fst snd].
  pose proof (cmd_swap_spec [] t (zlen v) (v ++ encode cs)) as Hs.
  cbn [app] in Hs. change (zlen []) with 0 in Hs. rewrite Hs by lia. clear Hs.
  cbn [mbind option_bind].
  apply (cmd_while_spec _ body _ [] (t, v) cs); [done|done| |].
  - cbn [length_]. rewrite zlen_nat. pose proof (encode_length_ge cs).
    rewrite !length_app. lia.
  - cbn [app fst snd]. zlen_lia.
Qed.

End Operations.

(** Adding a list of commands, one after the other. *)
Fixpoint add_all `{Host} (cb : batch_ptr) (cs : list (Z * list byte)) : option batch_ptr :=
  match cs with
  | [] => Some cb
  | (t, v) :: cs => cb ← atlas_cmd_batch_add cb t (zlen v) v; add_all cb cs
  end.

(** The loop body that records every command it is given. *)
Definition collect (c : atlas_cmd_t) (acc : list (Z * list byte))
    : option (list (Z * list byte) * bool) :=
  v ← mread (cmd_value c) 0 (cmd_length c);
  Some (acc ++ [(cmd_type c, v)], false).

Section Reading.
Context `{Host}.

Lemma add_all_holds cb cs ds :
  holds cb cs → Forall wf_cmd ds → zlen (encode (cs ++ ds)) < 65536 →
  ∃ cb', add_all cb ds = Some cb' ∧ holds cb' (cs ++ ds).
Proof.
  revert cb cs. induction ds as [|[t v] ds IH]; intros cb cs Hcb Hwf Hfit.
  { exists cb. by rewrite app_nil_r. }
  apply Forall_cons_1 in Hwf as [Hc Hwf].
  assert (zlen (encode cs) + 4 + zlen v < 65536).
  { rewrite encode_app, encode_cons, !zlen_app, zlen_encode_cmd in Hfit.
    pose proof (zlen_nonneg (encode ds)). cbn [snd] in Hfit. lia. }
  destruct (add_holds_exact cb cs t v) as (cb' & E & Hcb'); [done..|].
  cbn [add_all]. rewrite E. cbn [mbind option_bind].
  replace (cs ++ (t, v) :: ds) with ((cs ++ [(t, v)]) ++ ds) in * by (by rewrite <- app_assoc).
  by apply IH.
Qed.

Lemma collect_view t v post acc :
  collect (mk_cmd t (zlen v) (v ++ post)) acc = Some (acc ++ [(t, v)], false).
Proof. unfold collect. cbn [cmd_value cmd_length cmd_type]. by rewrite mread_head. Qed.

Lemma fold_collect cs acc :
  fold_views collect (views cs) acc = Some (acc ++ cs).
Proof.
  revert acc. induction cs as [|[t v] cs IH]; intros acc; cbn [views fold_views].
  { by rewrite app_nil_r. }
  cbn [fst snd]. rewrite collect_view. cbn [mbind option_bind].
  rewrite IH. by rewrite <- app_assoc.
Qed.

(** Parsing a buffer and iterating over it, as one equation on the reference
    parser: the readers of the program are instances. *)
Lemma parse_foreach {St} b raw body_bytes post len (body : atlas_cmd_t → St → option (St * bool)) s cs :
  raw = body_bytes ++ post → len = zlen body_bytes → 0 < len < 65536 →
  decode body_bytes = Some cs →
  ∃ cb, atlas_cmd_batch_set_raw (Some b) (Some raw) len = Some (ATLAS_OK, cb) ∧
        cmd_foreach cb body s = fold_views body (views cs) s.
Proof.
  intros Hr Hl Hb Hd. rewrite (set_raw_decode b raw body_bytes post len) by done.
  rewrite Hd. eexists. split; [done|].
  apply decode_spec in Hd as [Hwf <-]. subst len. apply foreach_views; [done|].
  intros ->. by destruct Hb as [Hb _]; vm_compute in Hb.
Qed.

End Reading.

(** ** Properties *)

Section Properties.
Context `{Host}.

(** Adding a command to a batch appends its encoding: type and length in
    network byte order whatever the byte order of the host and whatever the
    new heap bytes held, and nothing of what was in the buffer changes. *)
Theorem batch_add_appends (cb : batch_ptr) cs t v value :
  holds cb cs → wf_cmd (t, v) → mread value 0 (zlen v) = Some v →
  zlen (encode cs) + 4 + zlen v < 65536 →
  ∃ b, atlas_cmd_batch_add cb t (zlen v) value = Some (Some b) ∧
       buf_ b = Some (encode cs ++ be16 t ++ be16 (zlen v) ++ v) ∧
       length_ b = zlen (encode cs) + 4 + zlen v.
Proof.
  intros Hcb Hc Hv Hfit.
  destruct (add_holds cb cs t v value Hcb Hc Hv Hfit) as (cb' & E & Hcb').
  destruct cb' as [b|]; [|done]. exists b. split; [done|].
  destruct Hcb' as (Hl & Hb & _). rewrite encode_app, encode_cons, encode_nil, app_nil_r in *.
  unfold encode_cmd in *. cbn [fst snd] in *. split; [|rewrite Hl; zlen_lia].
  destruct (buf_ b); cbn in Hb; [by rewrite Hb|].
  by destruct (encode cs).
Qed.

(** Past 65535 bytes the length of a batch wraps in its 16-bit variable,
    the buffer is reallocated to the wrapped size, and the write of the
    command leaves the buffer: there is no check against it. *)
Theorem batch_add_wraps_out_of_bounds b t len value :
  0 ≤ length_ b < 65536 → 0 ≤ len < 65536 → 65536 ≤ length_ b + 4 + len →
  atlas_cmd_batch_add (Some b) t len value = None.
Proof.
  intros Hb Hl Hov. unfold atlas_cmd_batch_add.
  destruct (mread value 0 len) as [v|] eqn:Hv; [|done]. cbn [mbind option_bind].
  apply mread_length in Hv. pose proof (u16_range (length_ b + 2 * 2 + len)).
  rewrite mwrite_None; [done|]. rewrite realloc_length by lia.
  unfold u16 in *. mlia.
Qed.

(** C5. [atlas_cmd_batch_set_raw] is total on every buffer that has the
    announced number of bytes: it reads nothing outside of it, it accepts
    exactly the encodings of command lists and keeps a copy of them, and it
    answers ATLAS_CORRUPTED_COMMAND with the batch untouched otherwise. *)
Theorem set_raw_accepts_encodings b bs rest :
  0 < zlen bs < 65536 →
  ∃ st cb, atlas_cmd_batch_set_raw (Some b) (Some (bs ++ rest)) (zlen bs) = Some (st, cb) ∧
    (st = ATLAS_OK ↔ ∃ cs, Forall wf_cmd cs ∧ bs = encode cs) ∧
    (st = ATLAS_OK → cb = Some (mk_batch (zlen bs) (Some bs))) ∧
    (st ≠ ATLAS_OK → st = ATLAS_CORRUPTED_COMMAND ∧ cb = Some b).
Proof.
  intros Hl. rewrite (set_raw_decode b _ bs rest) by done.
  destruct (decode bs) as [cs|] eqn:E.
  - apply decode_spec in E as [Hwf <-]. eexists _, _. split; [done|]. naive_solver.
  - eexists _, _. split; [done|]. split_and!; [|done..].
    split; [done|]. intros (cs & Hwf & ->). by rewrite decode_encode in E.
Qed.

(** C25. Iterating over an accepted buffer with [atlas_cmd_batch_get] visits
    each command once, in order, stops at the end of the buffer and never
    leaves it, although the headers are converted in place on the way: the
    loop is a fold over the commands, for any body. *)
Theorem batch_iteration_is_fold {St} (body : atlas_cmd_t → St → option (St * bool)) s b bs rest cb :
  0 < zlen bs < 65536 →
  atlas_cmd_batch_set_raw (Some b) (Some (bs ++ rest)) (zlen bs) = Some (ATLAS_OK, cb) →
  ∃ cs, decode bs = Some cs ∧ cs ≠ [] ∧
        cmd_foreach cb body s = fold_views body (views cs) s.
Proof.
  intros Hl. rewrite (set_raw_decode b _ bs rest) by done.
  destruct (decode bs) as [cs|] eqn:E; [|done]. intros [= <-].
  exists cs. apply decode_spec in E as [Hwf <-].
  assert (cs ≠ []) by (intros ->; by destruct Hl as [Hl _]; vm_compute in Hl).
  by rewrite foreach_views.
Qed.

(** C4. Round trip: a batch built with [atlas_cmd_batch_add], serialised with
    [atlas_cmd_batch_get_buf], parsed on the other side by
    [atlas_cmd_batch_set_raw] and read with [atlas_cmd_batch_get] gives back
    the commands that were added. *)
Theorem batch_roundtrip cs :
  cs ≠ [] → Forall wf_cmd cs → zlen (encode cs) < 65536 →
  (cb ← add_all atlas_cmd_batch_new cs;
   let '(buf, len) := atlas_cmd_batch_get_buf cb None 0 in
   '(st, cb') ← atlas_cmd_batch_set_raw atlas_cmd_batch_new buf len;
   got ← cmd_foreach cb' collect [];
   Some (st, got)) = Some (ATLAS_OK, cs).
Proof.
  intros Hne Hwf Hfit.
  destruct (add_all_holds atlas_cmd_batch_new [] cs) as (cb & -> & Hcb); [done..|].
  cbn [mbind option_bind]. rewrite (holds_get_buf cb cs) by done.
  assert (0 < zlen (encode cs)).
  { destruct cs as [|c cs]; [done|]. rewrite encode_cons, zlen_app, zlen_encode_cmd.
    pose proof (zlen_nonneg c.2). pose proof (zlen_nonneg (encode cs)). lia. }
  destruct (parse_foreach (mk_batch 0 None) (encode cs) (encode cs) [] (zlen (encode cs))
    collect [] cs) as (cb' & E & Hf); [by rewrite app_nil_r|done|lia|by apply decode_encode|].
  unfold atlas_cmd_batch_new. rewrite E. cbn [mbind option_bind].
  rewrite Hf, fold_collect. done.
Qed.

End Properties.

Lemma batch_add_appends_witness :
  ∃ b, @atlas_cmd_batch_add le_host atlas_cmd_batch_new ATLAS_CMD_KEEPALIVE 2 [x01; x02; x03]
       = Some (Some b) ∧ buf_ b = Some [x00; x01; x00; x02; x01; x02] ∧ length_ b = 6.
Proof.
  apply (@batch_add_appends le_host atlas_cmd_batch_new [] ATLAS_CMD_KEEPALIVE [x01; x02]
    [x01; x02; x03]); [done|by apply (bool_decide_unpack _); vm_compute|done|done].
Defined.

Lemma batch_add_wraps_out_of_bounds_witness :
  @atlas_cmd_batch_add be_host (Some (mk_batch 65530 (Some []))) 0 2 [x01; x02] = None.
Proof. apply (@batch_add_wraps_out_of_bounds be_host); simpl; lia. Defined.

Lemma set_raw_accepts_encodings_witness :
  ∃ st cb, @atlas_cmd_batch_set_raw le_host (Some (mk_batch 0 None))
    (Some ([x00; x01; x00; x01; x07] ++ [x55])) 5 = Some (st, cb) ∧
    (st = ATLAS_OK ↔ ∃ cs, Forall wf_cmd cs ∧ [x00; x01; x00; x01; x07] = encode cs) ∧
    (st = ATLAS_OK → cb = Some (mk_batch 5 (Some [x00; x01; x00; x01; x07]))) ∧
    (st ≠ ATLAS_OK → st = ATLAS_CORRUPTED_COMMAND ∧ cb = Some (mk_batch 0 None)).
Proof.
  apply (@set_raw_accepts_encodings le_host (mk_batch 0 None) [x00; x01; x00; x01; x07] [x55]).
  done.
Defined.

Lemma batch_iteration_is_fold_witness :
  ∃ cs, decode [x00; x01; x00; x01; x07] = Some cs ∧ cs ≠ [] ∧
    @cmd_foreach le_host _ (Some (mk_batch 5 (Some [x00; x01; x00; x01; x07]))) collect []
    = fold_views collect (views cs) [].
Proof.
  apply (@batch_iteration_is_fold le_host _ collect [] (mk_batch 0 None)
    [x00; x01; x00; x01; x07] []); [done|vm_compute; reflexivity].
Defined.

Lemma batch_roundtrip_witness :
  (cb ← @add_all le_host atlas_cmd_batch_new [(2, [x61]); (1, [])];
   let '(buf, len) := atlas_cmd_batch_get_buf cb None 0 in
   '(st, cb') ← @atlas_cmd_batch_set_raw le_host atlas_cmd_batch_new buf len;
   got ← @cmd_foreach le_host _ cb' collect [];
   Some (st, got)) = Some (ATLAS_OK, [(2, [x61]); (1, [])]).
Proof.
  apply (@batch_roundtrip le_host [(2, [x61]); (1, [])]);
    [done|by apply (bool_decide_unpack _); vm_compute|done].
Defined.
