(* ===== verification/CString.v ===== *)
(** * C strings

    The functions of <string.h>, <stdlib.h> and <stdio.h> the program uses on
    characters. A string argument is the list of its characters without the
    terminator; a [char] array is a memory block, and the functions that write
    into one are bounds checked. [long] has 64 bits and [int] 32. *)

From Stdlib Require Export (notations) String.
From S2P Require Import Prelude.

(** A string literal of the program. *)
Definition B (s : String.string) : list byte := String.list_byte_of_string s.
#[global] Arguments B _%_string_scope.

Definition nul_free (s : list byte) : Prop := x00 ∉ s.

#[export] Instance nul_free_dec s : Decision (nul_free s).
Proof. unfold nul_free. apply _. Defined.

(** [!strcmp (a, b)] *)
Definition streq (a b : list byte) : bool := bool_decide (a = b).

(** ** Searching *)

Fixpoint prefix_of (p s : list byte) : bool :=
  match p, s with
  | [], _ => true
  | a :: p, b :: s => bool_decide (a = b) && prefix_of p s
  | _ :: _, [] => false
  end.

(** [strstr (s, p)]: the tail of [s] from the first occurrence of [p]. *)
Fixpoint strstr (s p : list byte) : option (list byte) :=
  if prefix_of p s then Some s
  else match s with [] => None | _ :: s => strstr s p end.

(** ** Numbers *)

Definition isspace (b : byte) : bool :=
  let z := b2z b in (z =? 32) || ((9 <=? z) && (z <=? 13)).
Definition isdigit (b : byte) : bool := (48 <=? b2z b) && (b2z b <=? 57).

Definition LONG_MAX : Z := 9223372036854775807.
Definition LONG_MIN : Z := -9223372036854775808.

Fixpoint skip_spaces (s : list byte) : list byte :=
  match s with
  | b :: s' => if isspace b then skip_spaces s' else s
  | [] => []
  end.

Fixpoint digits_value (acc : Z) (s : list byte) : Z :=
  match s with
  | b :: s => if isdigit b then digits_value (acc * 10 + (b2z b - 48)) s else acc
  | [] => acc
  end.

(** [strtol (s, NULL, 10)], and whether [errno] is set to ERANGE. *)
Definition strtol (s : list byte) : Z * bool :=
  let s := skip_spaces s in
  let v := match s with
           | x2d :: s => - digits_value 0 s
           | x2b :: s => digits_value 0 s
           | _ => digits_value 0 s
           end in
  if decide (v > LONG_MAX) then (LONG_MAX, true)
  else if decide (v < LONG_MIN) then (LONG_MIN, true)
  else (v, false).

(** [atoi (s)] is [(int) strtol (s, NULL, 10)]. *)
Definition atoi (s : list byte) : Z := i32 (strtol s).1.

Definition digit (d : Z) : byte := z2b (48 + d).

Fixpoint decimal_fuel (fuel : nat) (n : Z) : list byte :=
  match fuel with
  | O => []
  | S fuel => if decide (n < 10) then [digit n]
              else decimal_fuel fuel (n / 10) ++ [digit (n mod 10)]
  end.

(** [sprintf] of a non-negative number with %u, %lu or %d: at most 20 digits
    for 64 bits. *)
Definition decimal (n : Z) : list byte := decimal_fuel 20 n.

(** ** Tokens

    [strtok] keeps the rest of its string between calls; the state is that
    rest. The separator that ends a token is overwritten, hence skipped. *)

Definition is_sep (seps : list byte) (b : byte) : bool := bool_decide (b ∈ seps).

Fixpoint skip_seps (seps s : list byte) : list byte :=
  match s with
  | b :: s' => if is_sep seps b then skip_seps seps s' else s
  | [] => []
  end.

Fixpoint cut_token (seps s : list byte) : list byte * list byte :=
  match s with
  | [] => ([], [])
  | b :: s => if is_sep seps b then ([], s)
              else let '(t, r) := cut_token seps s in (b :: t, r)
  end.

Definition strtok (seps s : list byte) : option (list byte) * list byte :=
  match skip_seps seps s with
  | [] => (None, [])
  | s => let '(t, r) := cut_token seps s in (Some t, r)
  end.

(** ** Strings in arrays *)

(** [strlen] of the string in an array; reading on past the end is undefined. *)
Fixpoint blk_strlen (blk : list byte) : option Z :=
  match blk with
  | [] => None
  | x00 :: _ => Some 0
  | _ :: blk => n ← blk_strlen blk; Some (1 + n)
  end.

Fixpoint c_string (blk : list byte) : list byte :=
  match blk with
  | [] | x00 :: _ => []
  | b :: blk => b :: c_string blk
  end.

(** The string in an array, for a function that is given the array. *)
Definition cstr_of (blk : list byte) : option (list byte) :=
  _ ← blk_strlen blk; Some (c_string blk).

(** [char a[n] = { 0 }] *)
Definition zeros (n : Z) : list byte := replicate (Z.to_nat n) x00.

Definition strcpy (blk s : list byte) : option (list byte) := mwrite blk 0 (s ++ [x00]).

Definition strcat (blk s : list byte) : option (list byte) :=
  n ← blk_strlen blk; mwrite blk n (s ++ [x00]).

(** [strncpy] copies at most [n] bytes and pads with NUL up to [n]. *)
Definition strncpy (blk s : list byte) (n : Z) : option (list byte) :=
  let k := Z.to_nat n in
  mwrite blk 0 (take k s ++ replicate (k - length s) x00).

(** [strncat] appends at most [n] bytes and a terminator. *)
Definition strncat (blk s : list byte) (n : Z) : option (list byte) :=
  k ← blk_strlen blk; mwrite blk k (take (Z.to_nat n) s ++ [x00]).

(** An array holds a string. *)
Definition cstr_in (blk s : list byte) : Prop :=
  nul_free s ∧ ∃ rest, blk = s ++ x00 :: rest.

Section CStringLemmas.

Lemma nul_free_app s t : nul_free (s ++ t) ↔ nul_free s ∧ nul_free t.
Proof. unfold nul_free. rewrite elem_of_app. tauto. Qed.

Lemma nul_free_cons b s : nul_free (b :: s) ↔ b ≠ x00 ∧ nul_free s.
Proof. unfold nul_free. rewrite elem_of_cons. firstorder. Qed.

Lemma blk_strlen_app s rest : nul_free s → blk_strlen (s ++ x00 :: rest) = Some (zlen s).
Proof.
  induction s as [|b s IH]; intros Hs; [done|].
  apply nul_free_cons in Hs as [Hb Hs]. rewrite zlen_cons.
  specialize (IH Hs). destruct b; [done|..]; cbn; by rewrite IH.
Qed.

Lemma c_string_app s rest : nul_free s → c_string (s ++ x00 :: rest) = s.
Proof.
  induction s as [|b s IH]; intros Hs; [done|].
  apply nul_free_cons in Hs as [Hb Hs]. specialize (IH Hs).
  destruct b; [done|..]; cbn; by rewrite IH.
Qed.

Lemma c_string_in blk s : cstr_in blk s → c_string blk = s.
Proof. intros [Hs [rest ->]]. by apply c_string_app. Qed.

(** An array with a NUL holds a string. *)
Lemma cstr_in_exists blk : x00 ∈ blk → cstr_in blk (c_string blk).
Proof.
  induction blk as [|b blk IH]; [by intros ?%elem_of_nil|]. intros Hin.
  destruct (decide (b = x00)) as [->|Hb].
  { split; [by intros ?%elem_of_nil|by exists blk]. }
  apply elem_of_cons in Hin as [?|Hin]; [done|]. destruct (IH Hin) as [Hnf [r Hr]].
  assert (c_string (b :: blk) = b :: c_string blk) as -> by (destruct b; done).
  split; [by apply nul_free_cons|]. exists r. by rewrite Hr at 1.
Qed.

(** Bytes read into the front of a zeroed array leave a string in it, as long
    as they do not reach its last byte. *)
Lemma mwrite_zeros n bs :
  zlen bs < n → mwrite (zeros n) 0 bs = Some (bs ++ zeros (n - zlen bs)).
Proof.
  intros Hl. pose proof (zlen_nonneg bs). unfold zeros.
  replace (Z.to_nat n) with (length bs + Z.to_nat (n - zlen bs))%nat by (unfold zlen in *; lia).
  rewrite replicate_add. apply mwrite_head. by rewrite zlen_replicate.
Qed.

Lemma zeros_tail_string bs n : 0 < n → cstr_in (bs ++ zeros n) (c_string (bs ++ zeros n)).
Proof.
  intros. apply cstr_in_exists. apply elem_of_app. right. unfold zeros.
  destruct (Z.to_nat n) eqn:?; [lia|]. by left.
Qed.

Lemma cstr_of_in blk s : cstr_in blk s → cstr_of blk = Some s.
Proof.
  intros Hc. unfold cstr_of. rewrite (c_string_in _ _ Hc).
  destruct Hc as [Hs [rest ->]]. by rewrite blk_strlen_app.
Qed.

Lemma cstr_of_Some blk s : cstr_of blk = Some s → cstr_in blk s.
Proof.
  unfold cstr_of. intros (n & Hn & [= <-])%bind_Some. apply cstr_in_exists. revert n Hn.
  induction blk as [|b blk IH]; intros n Hn; [done|].
  destruct (decide (b = x00)) as [->|Hb]; [by left|]. right.
  assert (∃ m, blk_strlen blk = Some m) as [m Hm]; [|by eapply IH].
  destruct b; cbn in Hn; try done; destruct (blk_strlen blk); eauto; done.
Qed.

Lemma zlen_zeros n : 0 ≤ n → zlen (zeros n) = n.
Proof. unfold zeros. rewrite zlen_replicate. lia. Qed.

Lemma cstr_in_zeros n : 0 < n → cstr_in (zeros n) [].
Proof.
  intros. unfold zeros. split; [by intros ?%not_elem_of_nil|].
  destruct (Z.to_nat n) as [|k] eqn:E; [lia|]. by exists (replicate k x00).
Qed.

Lemma cstr_in_write pre old s blk' :
  nul_free (pre ++ s) →
  mwrite (pre ++ old) (zlen pre) (s ++ [x00]) = Some blk' → cstr_in blk' (pre ++ s).
Proof.
  intros Hnf. unfold mwrite. case_decide as Hd; [|done]. intros [= <-].
  split; [done|]. rewrite zlen_nat, take_app_length.
  eexists. rewrite <- !app_assoc. done.
Qed.

(** Appending to a string in an array succeeds exactly when the array has room
    for the result and its terminator. *)
Lemma strcat_in blk s t :
  cstr_in blk s → nul_free t → zlen s + zlen t < zlen blk →
  ∃ blk', strcat blk t = Some blk' ∧ cstr_in blk' (s ++ t) ∧ zlen blk' = zlen blk.
Proof.
  intros [Hs [rest ->]] Ht Hl. unfold strcat. rewrite blk_strlen_app by done.
  cbn [mbind option_bind].
  destruct (mwrite (s ++ x00 :: rest) (zlen s) (t ++ [x00])) as [blk'|] eqn:E.
  - exists blk'. split_and!; [done| |by apply mwrite_length in E].
    eapply cstr_in_write; [by apply nul_free_app|done].
  - unfold mwrite in E. rewrite decide_True in E; [done|]. zlen_lia.
Qed.

Lemma strcat_overflow blk s t :
  cstr_in blk s → zlen blk ≤ zlen s + zlen t → strcat blk t = None.
Proof.
  intros [Hs [rest ->]] Hl. unfold strcat. rewrite blk_strlen_app by done.
  cbn [mbind option_bind]. apply mwrite_None. zlen_lia.
Qed.

Lemma strcpy_in blk s :
  nul_free s → zlen s < zlen blk →
  ∃ blk', strcpy blk s = Some blk' ∧ cstr_in blk' s ∧ zlen blk' = zlen blk.
Proof.
  intros Hs Hl. unfold strcpy. destruct (mwrite blk 0 (s ++ [x00])) as [blk'|] eqn:E.
  - exists blk'. split_and!; [done| |by apply mwrite_length in E].
    by apply (cstr_in_write [] blk).
  - unfold mwrite in E. rewrite decide_True in E; [done|]. zlen_lia.
Qed.

(** [strncpy] of a string that fits, and the zeros behind it. *)
Lemma strncpy_in blk s n :
  nul_free s → zlen s < n → n ≤ zlen blk →
  ∃ blk', strncpy blk s n = Some blk' ∧ cstr_in blk' s ∧ zlen blk' = zlen blk.
Proof.
  intros Hs Hl Hn. unfold strncpy. pose proof (zlen_nonneg s) as Hp.
  set (k := (Z.to_nat n - length s)%nat).
  assert (0 < k)%nat as Hk by (unfold k, zlen in *; lia).
  rewrite take_ge by (unfold zlen in *; lia).
  destruct k as [|k'] eqn:Ek; [lia|].
  destruct (mwrite blk 0 (s ++ replicate (S k') x00)) as [blk'|] eqn:E.
  - exists blk'. split_and!; [done| |by apply mwrite_length in E].
    unfold mwrite in E. case_decide; [|done]. injection E as <-. split; [done|].
    eexists. cbn [take app replicate]. rewrite <- app_assoc. cbn [app]. done.
  - unfold mwrite in E. rewrite decide_True in E; [done|].
    rewrite zlen_app, zlen_replicate. unfold zlen in *. lia.
Qed.

(** [strncpy] into an array of [n] bytes and a NUL that stays. *)
Lemma strncpy_array pre s n :
  nul_free s → zlen pre = n → 0 < n →
  ∃ b, strncpy (pre ++ [x00]) s n = Some (b ++ [x00]) ∧ zlen b = n ∧
    cstr_in (b ++ [x00]) (take (Z.to_nat n) s) ∧
    blk_strlen (b ++ [x00]) = Some (zlen (take (Z.to_nat n) s)).
Proof.
  intros Hs Hl Hn. unfold strncpy. set (k := Z.to_nat n).
  set (b := take k s ++ replicate (k - length s) x00).
  assert (zlen b = n) as Hb.
  { subst b. unfold zlen in *. rewrite length_app, length_take, length_replicate. lia. }
  exists b. rewrite mwrite_head by lia. split_and!; [done..| |].
  all: assert (∃ r, b ++ [x00] = take k s ++ x00 :: r) as [r Hr].
  1,3: subst b; rewrite <- app_assoc; destruct (k - length s)%nat as [|j];
    [by exists []|by exists (replicate j x00 ++ [x00])].
  all: assert (nul_free (take k s)) as Hnf
    by (intros (j & Hj & _)%elem_of_take; by eapply Hs, list_elem_of_lookup_2).
  - split; [done|]. by exists r.
  - rewrite Hr. by apply blk_strlen_app.
Qed.

(** [strncat] of a string within its bound is [strcat]. *)
Lemma strncat_strcat blk s n : zlen s ≤ n → strncat blk s n = strcat blk s.
Proof. intros. unfold strncat, strcat. by rewrite take_ge by (unfold zlen in *; lia). Qed.

Lemma strcpy_overflow blk s : zlen blk ≤ zlen s → strcpy blk s = None.
Proof. intros. apply mwrite_None. zlen_lia. Qed.

Lemma strcpy_Some blk s blk' :
  strcpy blk s = Some blk' → nul_free s → cstr_in blk' s ∧ zlen blk' = zlen blk.
Proof.
  intros Hs Hn. destruct (decide (zlen s < zlen blk)) as [Hl|Hl].
  - destruct (strcpy_in blk s Hn Hl) as (b & Hb & Hc & Hz). by simplify_eq.
  - by rewrite strcpy_overflow in Hs by lia.
Qed.

(** ** Tokens *)

(** A token is not empty, and has no separator; token and rest are parts of
    the string. *)
Lemma cut_token_spec seps s t r :
  cut_token seps s = (t, r) →
  (∀ b, b ∈ t → b ∈ s ∧ is_sep seps b = false) ∧ (∀ b, b ∈ r → b ∈ s).
Proof.
  revert t r. induction s as [|b s IH]; intros t r; cbn [cut_token].
  { intros [= <- <-]. split; by intros b ?%elem_of_nil. }
  destruct (is_sep seps b) eqn:Hb.
  { intros [= <- <-]. split; [by intros x ?%elem_of_nil|]. by right. }
  destruct (cut_token seps s) as [t' r'] eqn:Hc. intros [= <- <-].
  destruct (IH t' r' eq_refl) as [Ht Hr]. split.
  - intros x [->|Hx]%elem_of_cons; [split; [by left|done]|]. apply Ht in Hx as [? ?].
    split; [by right|done].
  - intros x Hx. right. by apply Hr.
Qed.

Lemma skip_seps_spec seps s :
  (∀ b, b ∈ skip_seps seps s → b ∈ s) ∧
  match skip_seps seps s with [] => True | b :: _ => is_sep seps b = false end.
Proof.
  induction s as [|b s [IH1 IH2]]; cbn [skip_seps]; [done|].
  destruct (is_sep seps b) eqn:Hb; [|done]. split; [|done]. intros x Hx. right. by apply IH1.
Qed.

Lemma strtok_spec seps s t r :
  strtok seps s = (Some t, r) →
  t ≠ [] ∧ (∀ b, b ∈ t → b ∈ s ∧ is_sep seps b = false) ∧ (∀ b, b ∈ r → b ∈ s).
Proof.
  unfold strtok. destruct (skip_seps_spec seps s) as [Hin Hhd].
  destruct (skip_seps seps s) as [|b s'] eqn:Hs; [done|].
  destruct (cut_token seps (b :: s')) as [t' r'] eqn:Hc. intros [= <- <-].
  apply cut_token_spec in Hc as Hc'. destruct Hc' as [Ht Hr]. split_and!.
  - cbn [cut_token] in Hc. rewrite Hhd in Hc. destruct (cut_token seps s'). by injection Hc as <- _.
  - intros x Hx. apply Ht in Hx as [Hx ?]. split; [by apply Hin|done].
  - intros x Hx. by apply Hin, Hr.
Qed.

Lemma strtok_nul_free seps s t r :
  strtok seps s = (Some t, r) → nul_free s → nul_free t ∧ nul_free r.
Proof.
  intros (_ & Ht & Hr)%strtok_spec Hs. split; intros Hin; apply Hs; [by apply Ht|by apply Hr].
Qed.

(** The next token of a string that starts with one. *)
Lemma strtok_token seps sep t r :
  t ≠ [] → Forall (λ b, is_sep seps b = false) t → is_sep seps sep = true →
  strtok seps (t ++ sep :: r) = (Some t, r).
Proof.
  intros Hne Ht Hsep. unfold strtok.
  assert (∀ u, Forall (λ b, is_sep seps b = false) u → cut_token seps (u ++ sep :: r) = (u, r)) as Hc.
  { induction 1 as [|b u Hb Hu IH]; cbn [app cut_token]; [by rewrite Hsep|]. by rewrite Hb, IH. }
  assert (skip_seps seps (t ++ sep :: r) = t ++ sep :: r) as ->.
  { destruct t as [|b t]; [done|]. apply Forall_cons_1 in Ht as [Hb _]. cbn [app skip_seps]. by rewrite Hb. }
  specialize (Hc t Ht). destruct (t ++ sep :: r) eqn:E; [by destruct t|]. by rewrite Hc.
Qed.

Lemma strtok_last seps t :
  t ≠ [] → Forall (λ b, is_sep seps b = false) t → strtok seps t = (Some t, []).
Proof.
  intros Hne Ht. unfold strtok.
  assert (∀ u, Forall (λ b, is_sep seps b = false) u → cut_token seps u = (u, [])) as Hc.
  { induction 1 as [|b u Hb Hu IH]; cbn [cut_token]; [done|]. by rewrite Hb, IH. }
  assert (skip_seps seps t = t) as ->.
  { destruct t as [|b t]; [done|]. apply Forall_cons_1 in Ht as [Hb _]. cbn [skip_seps]. by rewrite Hb. }
  specialize (Hc t Ht). destruct t eqn:E; [done|]. by rewrite Hc.
Qed.

(** A run of [strcat]s. *)
Fixpoint strcats (blk : list byte) (ts : list (list byte)) : option (list byte) :=
  match ts with
  | [] => Some blk
  | t :: ts => blk ← strcat blk t; strcats blk ts
  end.

Lemma strcats_spec ts blk s :
  cstr_in blk s → Forall nul_free ts →
  match strcats blk ts with
  | Some blk' => cstr_in blk' (s ++ concat ts) ∧ zlen (s ++ concat ts) < zlen blk
  | None => zlen blk ≤ zlen (s ++ concat ts)
  end.
Proof.
  revert blk s. induction ts as [|t ts IH]; intros blk s Hc Hts.
  { cbn [strcats concat]. rewrite app_nil_r. split; [done|].
    destruct Hc as [_ [r ->]]. zlen_lia. }
  apply Forall_cons_1 in Hts as [Ht Hts]. cbn [strcats concat].
  destruct (decide (zlen s + zlen t < zlen blk)) as [Hl|Hl].
  - destruct (strcat_in blk s t Hc Ht Hl) as (b & -> & Hc' & Hz). cbn [mbind option_bind].
    specialize (IH b (s ++ t) Hc' Hts). by rewrite <- app_assoc, Hz in IH.
  - rewrite (strcat_overflow blk s t Hc) by lia. cbn [mbind option_bind].
    zlen_lia.
Qed.

(** ** Printing and parsing numbers *)

Lemma digit_isdigit d : 0 ≤ d < 10 → isdigit (digit d) = true.
Proof. intros. unfold isdigit, digit. rewrite b2z_z2b_small by lia. lia. Qed.

Lemma digit_value d : 0 ≤ d < 10 → b2z (digit d) - 48 = d.
Proof. intros. unfold digit. rewrite b2z_z2b_small by lia. lia. Qed.

Lemma digits_value_app acc s t :
  Forall (λ b, isdigit b = true) s →
  digits_value acc (s ++ t) = digits_value (digits_value acc s) t.
Proof.
  intros Hs. revert acc. induction Hs as [|b s Hb Hs IH]; intros acc; simpl; [done|].
  by rewrite Hb.
Qed.

Lemma decimal_fuel_spec fuel n :
  0 ≤ n < 10 ^ Z.of_nat fuel → (0 < fuel)%nat →
  Forall (λ b, isdigit b = true) (decimal_fuel fuel n) ∧
  digits_value 0 (decimal_fuel fuel n) = n ∧ decimal_fuel fuel n ≠ [] ∧
  (length (decimal_fuel fuel n) ≤ fuel)%nat.
Proof.
  revert n. induction fuel as [|fuel IH]; intros n Hn Hf; [lia|].
  cbn [decimal_fuel]. case_decide as Hd.
  - split_and!; [|simpl; rewrite digit_isdigit by lia; rewrite digit_value by lia; lia|done|simpl; lia].
    constructor; [apply digit_isdigit; lia|done].
  - assert (0 < fuel)%nat as Hf0.
    { destruct fuel; [|lia]. change (10 ^ Z.of_nat 1) with 10 in Hn. lia. }
    rewrite Nat2Z.inj_succ, Z.pow_succ_r in Hn by lia.
    assert (0 ≤ n / 10 < 10 ^ Z.of_nat fuel) as Hq by mlia.
    assert (0 ≤ n mod 10 < 10) as Hm by mlia.
    destruct (IH _ Hq Hf0) as (H1 & H2 & H3 & H4).
    split_and!.
    + apply Forall_app_2; [done|]. constructor; [by apply digit_isdigit|done].
    + rewrite digits_value_app by done. simpl.
      rewrite digit_isdigit, digit_value, H2 by done. mlia.
    + by destruct (decimal_fuel fuel (n / 10)).
    + rewrite length_app. simpl. lia.
Qed.

Lemma isdigit_not_sign b : isdigit b = true → isspace b = false ∧ b ≠ x2d ∧ b ≠ x2b.
Proof. by destruct b. Qed.

(** A printed number is read back by [strtol]. *)
Lemma strtol_decimal n : 0 ≤ n ≤ LONG_MAX → strtol (decimal n) = (n, false).
Proof.
  intros Hn. assert (0 ≤ n < 10 ^ Z.of_nat 20) as Hn'.
  { unfold LONG_MAX in Hn. change (10 ^ Z.of_nat 20) with 100000000000000000000. lia. }
  destruct (decimal_fuel_spec 20 n Hn' ltac:(lia)) as (Hd & Hv & Hne & _).
  fold (decimal n) in *. unfold strtol.
  destruct (decimal n) as [|b s] eqn:E; [done|]. clear E Hne.
  apply Forall_cons_1 in Hd as [Hb Hd].
  destruct (isdigit_not_sign b Hb) as (Hsp & H1 & H2).
  cbn [skip_spaces]. rewrite Hsp.
  assert (match b with x2d => - digits_value 0 s | x2b => digits_value 0 s
          | _ => digits_value 0 (b :: s) end = n) as Hm.
  { clear -Hb Hv. destruct b; try done. }
  clear -Hm Hn. unfold LONG_MAX, LONG_MIN in *.
  destruct b; (rewrite Hm; by rewrite !decide_False by lia).
Qed.

Lemma decimal_length n : 0 ≤ n ≤ LONG_MAX → 0 < zlen (decimal n) ≤ 20.
Proof.
  intros Hn. assert (0 ≤ n < 10 ^ Z.of_nat 20) as Hn'.
  { unfold LONG_MAX in Hn. change (10 ^ Z.of_nat 20) with 100000000000000000000. lia. }
  destruct (decimal_fuel_spec 20 n Hn' ltac:(lia)) as (_ & _ & Hne & Hl).
  fold (decimal n) in *. unfold zlen. destruct (decimal n); [done|]. simpl in *. lia.
Qed.

(** ** Searching *)

Lemma prefix_of_app p s : prefix_of p (p ++ s) = true.
Proof. induction p as [|b p IH]; simpl; [by destruct s|]. by rewrite bool_decide_true. Qed.

Lemma prefix_of_true p s : prefix_of p s = true → ∃ r, s = p ++ r.
Proof.
  revert s. induction p as [|a p IH]; intros s; [by exists s|].
  destruct s as [|b s]; simpl; [done|].
  intros [Ha%bool_decide_eq_true Hp]%andb_prop. destruct (IH _ Hp) as [r ->].
  exists r. by rewrite Ha.
Qed.

(** [strstr] finds a string exactly when it occurs. *)
Lemma strstr_spec s p : is_Some (strstr s p) ↔ ∃ l r, s = l ++ p ++ r.
Proof.
  split.
  - induction s as [|b s IH]; simpl; destruct (prefix_of p _) eqn:E.
    + intros _. apply prefix_of_true in E as [r ->]. by exists [], r.
    + by intros [? ?].
    + intros _. apply prefix_of_true in E as [r ->]. by exists [], r.
    + intros Hs. destruct (IH Hs) as (l & r & ->). by exists (b :: l), r.
  - intros (l & r & ->). induction l as [|b l IH]; simpl.
    + destruct (p ++ r) eqn:E; simpl; rewrite <- E, prefix_of_app; eauto.
    + destruct (prefix_of p _); eauto.
Qed.

End CStringLemmas.

(** A printed 64-bit number. *)
Lemma decimal_64 n : 0 ≤ n < 2 ^ 64 → nul_free (decimal n) ∧ 0 < zlen (decimal n) ≤ 20.
Proof.
  intros Hn. assert (0 ≤ n < 10 ^ Z.of_nat 20) as Hn'.
  { change (2 ^ 64) with 18446744073709551616 in Hn.
    change (10 ^ Z.of_nat 20) with 100000000000000000000. lia. }
  destruct (decimal_fuel_spec 20 n Hn' ltac:(lia)) as (Hd & _ & Hne & Hl).
  fold (decimal n) in *. split.
  - intros Hin. by apply (proj1 (list.Forall_forall _ _) Hd) in Hin.
  - unfold zlen. destruct (decimal n); [done|]. simpl in *. lia.
Qed.

(** [strtol] of a printed number of up to twenty digits saturates. *)
Lemma decimal_20 n :
  0 ≤ n < 10 ^ 20 →
  nul_free (decimal n) ∧ 0 < zlen (decimal n) ≤ 20 ∧
  strtol (decimal n) = if decide (n ≤ LONG_MAX) then (n, false) else (LONG_MAX, true).
Proof.
  intros Hn. change (10 ^ 20) with (10 ^ Z.of_nat 20) in Hn.
  destruct (decimal_fuel_spec 20 n Hn ltac:(lia)) as (Hd & Hv & Hne & Hl).
  fold (decimal n) in *. split_and!.
  - intros Hin. by apply (proj1 (list.Forall_forall _ _) Hd) in Hin.
  - unfold zlen. destruct (decimal n); [done|]. simpl in *. lia.
  - unfold zlen. lia.
  - unfold strtol. destruct (decimal n) as [|b s] eqn:E; [done|]. clear E Hne Hl.
    apply Forall_cons_1 in Hd as [Hb Hd].
    destruct (isdigit_not_sign b Hb) as (Hsp & H1 & H2).
    cbn [skip_spaces]. rewrite Hsp.
    assert (match b with x2d => - digits_value 0 s | x2b => digits_value 0 s
            | _ => digits_value 0 (b :: s) end = n) as Hm.
    { clear -Hb Hv. destruct b; try done. }
    clear -Hm Hn. unfold LONG_MAX, LONG_MIN in *.
    destruct b; rewrite Hm; repeat case_decide; (done || lia).
Qed.

(** A port has at most five digits. *)
Lemma decimal_port n : 0 ≤ n < 65536 → zlen (decimal n) ≤ 5.
Proof.
  intros Hn. assert (∀ f m, 0 ≤ m < 10 → decimal_fuel (S f) m = [digit m]) as H1.
  { intros. cbn [decimal_fuel]. by rewrite decide_True by lia. }
  assert (∀ f m, 10 ≤ m → decimal_fuel (S f) m = decimal_fuel f (m / 10) ++ [digit (m mod 10)]) as H2.
  { intros. cbn [decimal_fuel]. by rewrite decide_False by lia. }
  unfold decimal.
  destruct (decide (n < 10)); [rewrite H1 by lia; unfold zlen; simpl; lia|]. rewrite H2 by lia.
  destruct (decide (n / 10 < 10)); [rewrite H1 by mlia; unfold zlen; simpl; lia|]. rewrite H2 by lia.
  destruct (decide (n / 10 / 10 < 10)); [rewrite H1 by mlia; unfold zlen; simpl; lia|]. rewrite H2 by lia.
  destruct (decide (n / 10 / 10 / 10 < 10)); [rewrite H1 by mlia; unfold zlen; simpl; lia|].
  rewrite H2, H1 by mlia. unfold zlen. simpl. lia.
Qed.

(** A printed number has no NUL. *)
Lemma decimal_nul_free n : 0 ≤ n ≤ LONG_MAX → nul_free (decimal n).
Proof.
  intros Hn. assert (0 ≤ n < 10 ^ Z.of_nat 20) as Hn'.
  { unfold LONG_MAX in Hn. change (10 ^ Z.of_nat 20) with 100000000000000000000. lia. }
  destruct (decimal_fuel_spec 20 n Hn' ltac:(lia)) as (Hd & _).
  fold (decimal n) in *. intros Hin. by apply (proj1 (list.Forall_forall _ _) Hd) in Hin.
Qed.

#[global] Arguments decimal : simpl never.
#[global] Arguments cstr_of : simpl never.
#[global] Arguments zeros : simpl never.
#[global] Arguments strcpy : simpl never.
#[global] Arguments strcat : simpl never.
#[global] Arguments strncpy : simpl never.
#[global] Arguments strncat : simpl never.
