(* ===== verification/Float.v ===== *)
(** * Floating point and its text

    The application of the data plane computes with [float] and [double], reads
    numbers with [atof] and prints them with "%f". The arithmetic is the one of
    IEEE 754, in the executable form of the Standard Library's [SpecFloat]; an
    expression is rounded to the format of its C type after each operation, and
    the sign of a NaN is not represented. *)

From Stdlib Require Import SpecFloat.
From stdpp Require Import base list.
From S2P Require Import Prelude CString.

(** ** Formats

    [float] has 24 bits of precision and exponents below 128, [double] 53 and
    1024. *)

(** A conversion from an integer, and one between the formats. *)
Definition d_of_Z (z : Z) : spec_float := binary_normalize 53 1024 z 0 false.
Definition f_of_Z (z : Z) : spec_float := binary_normalize 24 128 z 0 false.

Definition round_to (prec emax : Z) (x : spec_float) : spec_float :=
  match x with S754_finite s m e => binary_round prec emax s m e | x => x end.
Definition f_of_d : spec_float → spec_float := round_to 24 128.
Definition d_of_f : spec_float → spec_float := round_to 53 1024.

(** To an integer: towards zero. A NaN and an infinity have no value. *)
Definition d_trunc (x : spec_float) : option Z :=
  match x with
  | S754_zero _ => Some 0
  | S754_finite s m e =>
      let v := if decide (0 ≤ e) then Zpos m * 2 ^ e else Zpos m / 2 ^ (- e) in
      Some (if s then - v else v)
  | _ => None
  end.

Definition d_add : spec_float → spec_float → spec_float := SFadd 53 1024.
Definition d_sub : spec_float → spec_float → spec_float := SFsub 53 1024.
Definition d_mul : spec_float → spec_float → spec_float := SFmul 53 1024.
Definition d_div : spec_float → spec_float → spec_float := SFdiv 53 1024.
Definition f_add : spec_float → spec_float → spec_float := SFadd 24 128.
Definition f_sub : spec_float → spec_float → spec_float := SFsub 24 128.
Definition f_mul : spec_float → spec_float → spec_float := SFmul 24 128.
Definition f_div : spec_float → spec_float → spec_float := SFdiv 24 128.

(** ** [atof] *)

Definition dec_value (b : byte) : option Z := if isdigit b then Some (b2z b - 48) else None.

Definition hex_value (b : byte) : option Z :=
  let v := b2z b in
  if isdigit b then Some (v - 48)
  else if decide (97 ≤ v ≤ 102) then Some (v - 87)
  else if decide (65 ≤ v ≤ 70) then Some (v - 55) else None.

(** The digits at the head of a string, added to [acc], and how many. *)
Fixpoint scan_digits (value : byte → option Z) (base : Z) (s : list byte) (acc n : Z)
    : Z * Z * list byte :=
  match s with
  | b :: r => match value b with
              | Some v => scan_digits value base r (base * acc + v) (n + 1)
              | None => (acc, n, s)
              end
  | [] => (acc, n, [])
  end.

(** Digits with at most one point: the number without the point, and how many
    digits are after it. *)
Definition scan_mantissa (value : byte → option Z) (base : Z) (s : list byte)
    : option (Z * Z * list byte) :=
  let '(m, n, r) := scan_digits value base s 0 0 in
  let '(m, k, r) := match r with x2e :: r => scan_digits value base r m 0 | _ => (m, 0, r) end in
  if decide (n + k = 0) then None else Some (m, k, r).

Definition scan_sign (s : list byte) : bool * list byte :=
  match s with x2d :: s => (true, s) | x2b :: s => (false, s) | _ => (false, s) end.

(** The exponent after one of two letters; 0 when there is none. *)
Definition scan_exponent (lower upper : byte) (s : list byte) : Z :=
  match s with
  | b :: s =>
      if decide (b = lower ∨ b = upper) then
        let '(neg, s) := scan_sign s in
        let '(x, _, _) := scan_digits dec_value 10 s 0 0 in
        if neg : bool then - x else x
      else 0
  | [] => 0
  end.

(** The double nearest to [n / d]. *)
Definition d_ratio (s : bool) (n d : positive) : spec_float :=
  let '(q, e, l) := SFdiv_core_binary 53 1024 (Zpos n) 0 (Zpos d) 0 in
  binary_round_aux 53 1024 s q e l.

(** The double nearest to [m * 10 ^ e]. *)
Definition d_of_decimal (s : bool) (m e : Z) : spec_float :=
  match m with
  | Zpos m =>
      if decide (0 ≤ e) then binary_round 53 1024 s (m * Z.to_pos (10 ^ e)) 0
      else d_ratio s m (Z.to_pos (10 ^ (- e)))
  | _ => S754_zero s
  end.

Definition d_of_hex (s : bool) (m e : Z) : spec_float :=
  match m with Zpos m => binary_round 53 1024 s m e | _ => S754_zero s end.

Definition lower (b : byte) : byte := if decide (65 ≤ b2z b ≤ 90) then z2b (b2z b + 32) else b.

Definition starts_with (p s : list byte) : bool := prefix_of p (lower <$> s).

(** [atof (s)] is [strtod (s, NULL)]. *)
Definition atof (s : list byte) : spec_float :=
  let '(neg, s) := scan_sign (skip_spaces s) in
  if starts_with (B "inf") s then S754_infinity neg
  else if starts_with (B "nan") s then S754_nan
  else if starts_with (B "0x") s then
    match scan_mantissa hex_value 16 (drop 2 s) with
    | Some (m, k, r) => d_of_hex neg m (scan_exponent x70 x50 r - 4 * k)
    | None => S754_zero neg
    end
  else
    match scan_mantissa dec_value 10 s with
    | Some (m, k, r) => d_of_decimal neg m (scan_exponent x65 x45 r - k)
    | None => S754_zero false
    end.

(** ** [printf ("%f")] *)

Definition round_half_even (n d : Z) : Z :=
  let q := n / d in
  match 2 * (n mod d) ?= d with
  | Lt => q
  | Gt => q + 1
  | Eq => if Z.even q then q else q + 1
  end.

(** The number of millionths, rounded. *)
Definition millionths (m : positive) (e : Z) : Z :=
  if decide (0 ≤ e) then Zpos m * 2 ^ e * 10 ^ 6 else round_half_even (Zpos m * 10 ^ 6) (2 ^ (- e)).

Definition six_digits (n : Z) : list byte :=
  (λ k, digit (n / k mod 10)) <$> [100000; 10000; 1000; 100; 10; 1].

Definition minus (s : bool) : list byte := if s then B "-" else [].

(** A finite double has at most 309 digits before the point. *)
Definition sprintf_f (x : spec_float) : list byte :=
  match x with
  | S754_zero s => minus s ++ B "0.000000"
  | S754_infinity s => minus s ++ B "inf"
  | S754_nan => B "nan"
  | S754_finite s m e =>
      let n := millionths m e in
      minus s ++ decimal_fuel 400 (n / 10 ^ 6) ++ B "." ++ six_digits (n mod 10 ^ 6)
  end.

Example atof_examples :
  (λ s, sprintf_f (atof (B s))) <$> ["21.5"; " -3.25e-2xyz"; "1e22"; "0x1.8p1"; "-INF"; "abc"; "0.1"; "."]%string =
  B <$> ["21.500000"; "-0.032500"; "10000000000000000000000.000000"; "3.000000"; "-inf"; "0.000000"; "0.100000"; "0.000000"]%string.
Proof. vm_compute. reflexivity. Qed.

Example atof_rounds :
  (atof (B "0.1"), d_of_f (f_of_d (atof (B "0.1")))) =
  (S754_finite false 7205759403792794 (-56), S754_finite false 7205759511166976 (-56)).
Proof. vm_compute. reflexivity. Qed.

(** ** Rounding: lemmas

    [inb N D m l]: the integer [m] is the quotient of [N] by [D], and [l] says
    where [N / D] is between [m] and [m + 1]. *)
Record inb (N D m : Z) (l : location) : Prop := mk_inb {
  inb_pos : 0 < D;
  inb_floor : m * D ≤ N < (m + 1) * D;
  inb_loc : match l with
            | loc_Exact => N = m * D
            | loc_Inexact c => N ≠ m * D ∧ (2 * (N - m * D) ?= D) = c
            end
}.

Section Rounding.

Lemma inb_exact m : inb m 1 m loc_Exact.
Proof. split; lia. Qed.

Lemma loc_of_record_of_loc m l : loc_of_shr_record (shr_record_of_loc m l) = l.
Proof. by destruct l as [|[]]. Qed.

Lemma shr_m_record m l : shr_m (shr_record_of_loc m l) = m.
Proof. by destruct l as [|[]]. Qed.

(** One bit to the right. *)
Lemma inb_shr_1 N D r :
  0 ≤ shr_m r → inb N D (shr_m r) (loc_of_shr_record r) →
  0 ≤ shr_m (shr_1 r) ∧ inb N (D * 2) (shr_m (shr_1 r)) (loc_of_shr_record (shr_1 r)).
Proof.
  destruct r as [m b t]. cbn [shr_m]. intros Hm [HD HN Hl].
  destruct m as [|[p|p|]|p]; try lia; cbn [shr_1 shr_m]; (split; [lia|]);
    destruct b, t; cbn [loc_of_shr_record orb] in *; split; try lia;
    try (apply proj2 in Hl; rewrite ?Z.compare_lt_iff, ?Z.compare_gt_iff, ?Z.compare_eq_iff in *;
         split; [lia|]; rewrite ?Z.compare_lt_iff, ?Z.compare_gt_iff, ?Z.compare_eq_iff; lia);
    try (split; [lia|]; rewrite ?Z.compare_lt_iff, ?Z.compare_gt_iff, ?Z.compare_eq_iff; lia).
Qed.

Lemma inb_iter N p D r :
  0 ≤ shr_m r → inb N D (shr_m r) (loc_of_shr_record r) →
  0 ≤ shr_m (SpecFloat.iter_pos shr_1 p r) ∧
  inb N (D * 2 ^ Zpos p) (shr_m (SpecFloat.iter_pos shr_1 p r)) (loc_of_shr_record (SpecFloat.iter_pos shr_1 p r)).
Proof.
  revert D r. induction p as [p IH|p IH|]; intros D r Hm Hi; cbn [SpecFloat.iter_pos].
  - apply inb_shr_1 in Hi as [Hm1 Hi]; [|done]. apply IH in Hi as [Hm2 Hi]; [|done].
    apply IH in Hi as [Hm3 Hi]; [|done]. split; [done|].
    replace (D * 2 ^ Zpos p~1) with (D * 2 * 2 ^ Zpos p * 2 ^ Zpos p); [done|].
    replace (Zpos p~1) with (1 + Zpos p + Zpos p) by lia. rewrite !Z.pow_add_r by lia. lia.
  - apply IH in Hi as [Hm2 Hi]; [|done].
    apply IH in Hi as [Hm3 Hi]; [|done]. split; [done|].
    replace (D * 2 ^ Zpos p~0) with (D * 2 ^ Zpos p * 2 ^ Zpos p); [done|].
    replace (Zpos p~0) with (Zpos p + Zpos p) by lia. rewrite Z.pow_add_r by lia. lia.
  - change (2 ^ 1) with 2. by apply inb_shr_1.
Qed.

Lemma digits2_bounds p :
  2 ^ (Zpos (digits2_pos p) - 1) ≤ Zpos p < 2 ^ Zpos (digits2_pos p).
Proof.
  induction p as [p IH|p IH|]; cbn [digits2_pos]; [..|done];
    rewrite Pos2Z.inj_succ; replace (Z.succ (Zpos (digits2_pos p)) - 1)
      with (Z.succ (Zpos (digits2_pos p) - 1)) by lia; rewrite !Z.pow_succ_r by lia; lia.
Qed.

Lemma Zdigits2_bounds m :
  0 ≤ m → 0 ≤ Zdigits2 m ∧ m < 2 ^ Zdigits2 m ∧ (0 < m → 2 ^ (Zdigits2 m - 1) ≤ m).
Proof. destruct m as [|p|p]; cbn [Zdigits2]; [lia| |lia]. pose proof (digits2_bounds p). lia. Qed.

(** A number below a power of two has at most so many digits. *)
Lemma Zdigits2_le m k : 0 ≤ m → 0 ≤ k → m < 2 ^ k → Zdigits2 m ≤ k.
Proof.
  intros Hm Hk Hlt. destruct (decide (m = 0)) as [->|Hn]; [done|].
  destruct (Zdigits2_bounds m) as (_ & _ & Hd); [done|]. specialize (Hd ltac:(lia)).
  assert (Zdigits2 m - 1 < k); [|lia]. apply (Z.pow_lt_mono_r_iff 2); lia.
Qed.

(** What the shift to the exponent of the format does. *)
Lemma shr_fexp_spec prec emax m e l N D :
  0 ≤ m → inb N D m l →
  let k := Z.max 0 (fexp prec emax (Zdigits2 m + e) - e) in
  ∃ r, shr_fexp prec emax m e l = (r, e + k) ∧ 0 ≤ shr_m r ∧
       inb N (D * 2 ^ k) (shr_m r) (loc_of_shr_record r).
Proof.
  intros Hm Hi. unfold shr_fexp, shr. destruct (_ - e) as [|p|p] eqn:Hk.
  - exists (shr_record_of_loc m l). rewrite shr_m_record, loc_of_record_of_loc.
    change (2 ^ Z.max 0 0) with 1. rewrite Z.mul_1_r, Z.add_0_r. by split_and!.
  - destruct (inb_iter N p D (shr_record_of_loc m l)) as [Hr Hi'];
      [by rewrite shr_m_record|by rewrite shr_m_record, loc_of_record_of_loc|].
    rewrite Z.max_r by lia. eexists. by split_and!.
  - exists (shr_record_of_loc m l). rewrite shr_m_record, loc_of_record_of_loc.
    change (2 ^ Z.max 0 (Zneg p)) with 1. rewrite Z.mul_1_r. change (Z.max 0 (Zneg p)) with 0.
    rewrite Z.add_0_r. by split_and!.
Qed.

(** Rounding does not go past an integer. *)
Lemma round_le N D m l B :
  inb N D m l → N ≤ B * D → round_nearest_even m l ≤ B.
Proof.
  intros [HD HN Hl] HB. assert (m ≤ B) as Hm by nia.
  destruct (decide (m = B)) as [->|Hne].
  - destruct l as [|c]; cbn [round_nearest_even]; [lia|]. destruct Hl as [Hl _]. lia.
  - destruct l as [|[]]; cbn [round_nearest_even]; try lia. destruct (Z.even m); lia.
Qed.

Lemma round_ge m l : m ≤ round_nearest_even m l.
Proof. destruct l as [|[]]; cbn [round_nearest_even]; try lia. destruct (Z.even m); lia. Qed.

(** Where a rounded number is: [z] is the integer nearest to the quotient at
    the exponent of the format. *)
Lemma binary_round_aux_spec prec emax s m e l N D :
  0 ≤ m → inb N D m l →
  let k := Z.max 0 (fexp prec emax (Zdigits2 m + e) - e) in
  ∃ q lq, inb N (D * 2 ^ k) q lq ∧ 0 ≤ q ∧
    let z := round_nearest_even q lq in
    let k' := Z.max 0 (fexp prec emax (Zdigits2 z + (e + k)) - (e + k)) in
    ∃ m', 0 ≤ m' ∧ m' * 2 ^ k' ≤ z < (m' + 1) * 2 ^ k' ∧
      binary_round_aux prec emax s m e l =
        match m' with
        | Zpos p => if decide (e + k + k' ≤ emax - prec) then S754_finite s p (e + k + k')
                    else S754_infinity s
        | _ => S754_zero s
        end.
Proof.
  intros Hm Hi k. destruct (shr_fexp_spec prec emax m e l N D Hm Hi) as (r & Hr & Hr0 & Hri).
  fold k in Hr, Hri. exists (shr_m r), (loc_of_shr_record r). split_and!; [done..|]. intros z k'.
  assert (0 ≤ z) as Hz by (unfold z; pose proof (round_ge (shr_m r) (loc_of_shr_record r)); lia).
  destruct (shr_fexp_spec prec emax z (e + k) loc_Exact z 1 Hz (inb_exact z)) as (r' & Hr' & Hr0' & Hri').
  fold k' in Hr', Hri'. exists (shr_m r'). destruct Hri' as [_ Hf _]. rewrite Z.mul_1_l in Hf.
  split; [done|]. split; [done|]. unfold binary_round_aux. rewrite Hr. cbn [fst snd]. fold z. rewrite Hr'.
  destruct (shr_m r') as [|p|p]; [done| |lia].
  destruct (Z.leb_spec (e + k + k') (emax - prec)); case_decide; (done || lia).
Qed.
End Rounding.

(** ** Results that fit a format *)

Definition in_format (prec emax : Z) (x : spec_float) : Prop :=
  match x with
  | S754_finite _ m e => Zpos m < 2 ^ prec ∧ 3 - emax - prec ≤ e ≤ emax - prec
  | _ => True
  end.

(** A double that is not negative, and at most the integer [B]. *)
Definition upto (B : Z) (x : spec_float) : Prop :=
  match x with
  | S754_zero _ => 0 ≤ B
  | S754_finite false m e => e ≤ 0 ∧ Zpos m ≤ B * 2 ^ (- e)
  | _ => False
  end.

(** A double that is this integer. *)
Definition is_integer (z : Z) (x : spec_float) : Prop :=
  match x with
  | S754_zero _ => z = 0
  | S754_finite false m e => e ≤ 0 ∧ Zpos m = z * 2 ^ (- e)
  | _ => False
  end.

Section Formats.

Lemma pow_split a b : 0 ≤ a → 0 ≤ b → 2 ^ (a + b) = 2 ^ a * 2 ^ b.
Proof. intros. by rewrite Z.pow_add_r. Qed.

Lemma round_aux_format prec emax s m e l N D :
  0 < prec → 0 ≤ m → inb N D m l → in_format prec emax (binary_round_aux prec emax s m e l).
Proof.
  intros Hp Hm Hi. destruct (binary_round_aux_spec prec emax s m e l N D Hm Hi)
    as (q & lq & _ & Hq & m' & Hm' & Hz & ->).
  set (k := Z.max 0 (_ - e)) in *. set (z := round_nearest_even q lq) in *.
  set (k' := Z.max 0 (_ - (e + k))) in *.
  assert (0 ≤ z) as Hz0 by (unfold z; pose proof (round_ge q lq); lia).
  destruct m' as [|p|p]; [done| |done]. case_decide as He; [|done].
  split; [|split; [unfold k', k, fexp, emin; lia|done]].
  destruct (Zdigits2_bounds z Hz0) as (Hd0 & Hd & _).
  assert (2 ^ Zdigits2 z ≤ 2 ^ (prec + k')) as Hpow.
  { apply Z.pow_le_mono_r; [lia|]. unfold k', fexp. lia. }
  rewrite pow_split in Hpow by (unfold k'; lia).
  apply (Z.mul_lt_mono_pos_r (2 ^ k')); [apply Z.pow_pos_nonneg; unfold k'; lia|]. lia.
Qed.

Lemma round_aux_upto m e l N D B :
  0 ≤ m → inb N D m l → e ≤ 0 → 0 ≤ B < 2 ^ 53 → N ≤ B * D * 2 ^ (- e) →
  upto B (binary_round_aux 53 1024 false m e l).
Proof.
  intros Hm Hi He HB HN. destruct (binary_round_aux_spec 53 1024 false m e l N D Hm Hi)
    as (q & lq & Hi' & Hq & m' & Hm' & Hz & ->).
  set (k := Z.max 0 (_ - e)) in *. set (z := round_nearest_even q lq) in *.
  set (k' := Z.max 0 (_ - (e + k))) in *.
  assert (∀ y f, 0 ≤ y → f ≤ 0 → y ≤ B * 2 ^ (- f) → fexp 53 1024 (Zdigits2 y + f) ≤ 0) as Hf.
  { intros y f Hy Hf Hle. unfold fexp, emin. enough (Zdigits2 y ≤ 53 - f) by lia.
    apply Zdigits2_le; [done|lia|]. replace (53 - f) with (53 + - f) by lia.
    rewrite pow_split by lia. pose proof (Z.pow_pos_nonneg 2 (- f)). nia. }
  destruct Hi as [HD Hfl _].
  assert (0 < 2 ^ (- e)) as Hpe by (apply Z.pow_pos_nonneg; lia).
  assert (m ≤ B * 2 ^ (- e)) as Hme by nia.
  pose proof (Hf m e Hm He Hme) as Hk. assert (0 ≤ k ≤ - e) as Hke by (unfold k; lia).
  assert (z ≤ B * 2 ^ (- (e + k))) as Hzb.
  { apply (round_le _ _ _ _ _ Hi'). replace (- e) with (k + - (e + k)) in HN by lia.
    rewrite pow_split in HN by lia. lia. }
  assert (0 ≤ z) as Hz0 by (unfold z; pose proof (round_ge q lq); lia).
  pose proof (Hf z (e + k) Hz0 ltac:(lia) Hzb) as Hk'. assert (0 ≤ k' ≤ - (e + k)) as Hke' by (unfold k'; lia).
  destruct m' as [|p|p]; cbn [upto]; [lia| |lia]. rewrite decide_True by lia. split; [lia|].
  replace (- (e + k)) with (k' + - (e + k + k')) in Hzb by lia. rewrite pow_split in Hzb by lia.
  assert (0 < 2 ^ k') by (apply Z.pow_pos_nonneg; lia). nia.
Qed.

(** Aligning only moves the point. *)
Lemma shl_align_spec p e e' :
  let '(m, f) := shl_align p e e' in f = Z.min e e' ∧ Zpos m = Zpos p * 2 ^ (e - f).
Proof.
  unfold shl_align. destruct (e' - e) as [|d|d] eqn:Hd.
  - split; [lia|]. rewrite Z.sub_diag. lia.
  - split; [lia|]. rewrite Z.sub_diag. lia.
  - split; [lia|]. replace (e - e') with (Zpos d) by lia.
    clear. induction d as [|d IH] using Pos.peano_ind; [change (2 ^ 1) with 2; cbn [Pos.iter]; lia|].
    rewrite Pos.iter_succ, Pos2Z.inj_succ, Z.pow_succ_r by lia.
    rewrite (Pos2Z.inj_xO (Pos.iter _ _ _)), IH. lia.
Qed.

Lemma binary_round_format prec emax s p e : 0 < prec → in_format prec emax (binary_round prec emax s p e).
Proof.
  intros Hp. unfold binary_round. destruct (shl_align _ _ _) as [m f].
  by eapply round_aux_format, inb_exact.
Qed.

Lemma binary_round_upto p e B :
  e ≤ 0 → 0 ≤ B < 2 ^ 53 → Zpos p ≤ B * 2 ^ (- e) → upto B (binary_round 53 1024 false p e).
Proof.
  intros He HB Hp. unfold binary_round. pose proof (shl_align_spec p e) as Hs.
  destruct (shl_align _ _ _) as [m f] eqn:Hm. specialize (Hs (fexp 53 1024 (Zpos (digits2_pos p) + e))).
  rewrite Hm in Hs. destruct Hs as [Hf Hv].
  eapply round_aux_upto; [done|apply inb_exact|lia|done|].
  replace (- f) with (- e + (e - f)) by lia. rewrite pow_split by lia.
  pose proof (Z.pow_pos_nonneg 2 (e - f)). nia.
Qed.

End Formats.

(** ** Operations *)

Section Operations.

(** A number that fits the format is not rounded. *)
Lemma d_round_exact s p e :
  Zpos p < 2 ^ 53 → -1074 ≤ e ≤ 971 →
  ∃ m f, binary_round 53 1024 s p e = S754_finite s m f ∧ f ≤ e ∧ Zpos m = Zpos p * 2 ^ (e - f).
Proof.
  intros Hp He. unfold binary_round.
  pose proof (shl_align_spec p e (fexp 53 1024 (Zpos (digits2_pos p) + e))) as Hs.
  destruct (digits2_bounds p) as [Hd1 Hd2].
  assert (Zpos (digits2_pos p) ≤ 53) as Hd by (apply (Zdigits2_le (Zpos p)); lia).
  destruct (shl_align _ _ _) as [m f]. destruct Hs as [Hf Hv].
  set (d := Zpos (digits2_pos p)) in *.
  assert (Zpos m < 2 ^ (d + (e - f))) as Hm.
  { rewrite Hv, pow_split by lia. pose proof (Z.pow_pos_nonneg 2 (e - f)). nia. }
  assert (Z.max 0 (fexp 53 1024 (Zdigits2 (Zpos m) + f) - f) = 0) as Hk.
  { pose proof (Zdigits2_le (Zpos m) (d + (e - f)) ltac:(lia) ltac:(lia) Hm).
    unfold fexp, emin in *. lia. }
  destruct (binary_round_aux_spec 53 1024 s (Zpos m) f loc_Exact (Zpos m) 1)
    as (q & lq & Hi & Hq & m' & Hm' & Hz' & ->); [done|apply inb_exact|].
  rewrite Hk in *. destruct Hi as [_ Hq' Hl]. change (1 * 2 ^ 0) with 1 in *.
  assert (q = Zpos m) as -> by lia.
  assert (round_nearest_even (Zpos m) lq = Zpos m) as Hr.
  { destruct lq as [|c]; [done|]. destruct Hl as [Hl _]. lia. }
  rewrite Hr, Z.add_0_r, Hk in *. change (2 ^ 0) with 1 in Hz'.
  assert (m' = Zpos m) as -> by lia. rewrite decide_True by lia.
  exists m, (f + 0). rewrite Z.add_0_r. split_and!; (done || lia).
Qed.

Lemma d_of_Z_integer z : 0 ≤ z < 2 ^ 53 → is_integer z (d_of_Z z).
Proof.
  intros Hz. unfold d_of_Z. destruct z as [|p|p]; cbn [binary_normalize]; [done| |lia].
  destruct (d_round_exact false p 0) as (m & f & -> & Hf & Hm); [lia..|]. by split.
Qed.

(** The remainder of a division says where the quotient is. *)
Lemma new_location_inb n d :
  0 ≤ n → 0 < d → inb n d (n / d) (new_location d (n mod d)).
Proof.
  intros Hn Hd. pose proof (Z.div_mod n d ltac:(lia)) as Hdm.
  pose proof (Z.mod_pos_bound n d Hd) as Hr.
  split; [done|lia|]. unfold new_location, new_location_even, new_location_odd.
  replace (n - n / d * d) with (n mod d) by lia.
  destruct (n mod d) as [|r|r] eqn:Hm; [|cbn [Z.eqb]|lia].
  { rewrite Z.add_0_r, Z.mul_comm in Hdm. by destruct (Z.even d). }
  destruct (Z.even d) eqn:He; (split; [lia|]); [done|].
  assert (d mod 2 = 1) as Hodd by (by rewrite Zmod_odd, <- Z.negb_even, He).
  destruct (Z.compare_spec (2 * Zpos r + 1) d);
    rewrite ?Z.compare_lt_iff, ?Z.compare_gt_iff; Z.div_mod_to_equations; lia.
Qed.

(** An integer, as a mantissa and an exponent. *)
Lemma is_integer_inv z x :
  is_integer z x → 0 < z →
  ∃ m e, x = S754_finite false m e ∧ e ≤ 0 ∧ Zpos m = z * 2 ^ (- e).
Proof. destruct x as [| | |[] m e]; cbn; try lia. intros [He Hm] _. by exists m, e. Qed.

Lemma is_integer_upto z x B : is_integer z x → z ≤ B → upto B x.
Proof.
  destruct x as [| | |[] m e]; cbn; try lia. intros [He ->] Hz. split; [done|].
  pose proof (Z.pow_pos_nonneg 2 (- e)). nia.
Qed.

(** The quotient of two integers. *)
Lemma d_div_upto n c x y B :
  is_integer n x → is_integer c y → 0 ≤ n < 2 ^ 53 → 0 < c → 0 ≤ B < 2 ^ 53 → n ≤ B * c →
  upto B (d_div x y).
Proof.
  intros Hx Hy Hn Hc HB Hle. apply is_integer_inv in Hy as (my & ey & -> & Hey & Hmy); [|done].
  destruct x as [| | |[] mx ex]; cbn in Hx; try done; [cbn; lia|]. destruct Hx as [Hex Hmx].
  unfold d_div. cbn [SFdiv xorb]. unfold SFdiv_core_binary. cbn [Zdigits2].
  set (e' := Z.min _ (ex - ey)).
  assert (e' ≤ 0) as He'.
  { unfold e', fexp, emin. assert (Zpos (digits2_pos mx) + ex ≤ 53).
    { enough (Zpos (digits2_pos mx) ≤ 53 + - ex) by lia. apply (Zdigits2_le (Zpos mx)); [lia..|].
      rewrite pow_split, Hmx by lia. pose proof (Z.pow_pos_nonneg 2 (- ex)). nia. }
    assert (- ey < Zpos (digits2_pos my)); [|lia]. apply (Z.pow_lt_mono_r_iff 2); [lia..|].
    pose proof (digits2_bounds my). pose proof (Z.pow_pos_nonneg 2 (- ey)). nia. }
  assert (0 ≤ ex - ey - e') as Hs by (unfold e'; lia).
  set (m' := match ex - ey - e' with Z0 => _ | Zpos _ => _ | Zneg _ => _ end).
  assert (m' = Zpos mx * 2 ^ (ex - ey - e')) as Hm'.
  { unfold m'. destruct (ex - ey - e') as [|p|p] eqn:Hp; [lia| |lia].
    by rewrite Z.shiftl_mul_pow2 by lia. }
  pose proof (Z.pow_pos_nonneg 2 (ex - ey - e') ltac:(lia) Hs) as Hps.
  assert (0 ≤ m') as Hm0 by nia.
  destruct (Z.div_eucl m' (Zpos my)) as [q r] eqn:Hqr.
  assert (q = m' / Zpos my ∧ r = m' mod Zpos my) as [-> ->] by (unfold Z.div, Z.modulo; by rewrite Hqr).
  apply (round_aux_upto _ _ _ m' (Zpos my)); [apply Z.div_pos; lia| |done..|].
  { apply new_location_inb; lia. }
  rewrite Hm', Hmx, Hmy.
  assert (2 ^ (- ex) * 2 ^ (ex - ey - e') = 2 ^ (- ey) * 2 ^ (- e')) as Hpow.
  { rewrite <- !pow_split by lia. f_equal. lia. }
  pose proof (Z.pow_pos_nonneg 2 (- ey)). pose proof (Z.pow_pos_nonneg 2 (- e')).
  replace (n * 2 ^ (- ex) * 2 ^ (ex - ey - e')) with (n * (2 ^ (- ex) * 2 ^ (ex - ey - e'))) by lia.
  rewrite Hpow. nia.
Qed.

(** A product with an integer. *)
Lemma d_mul_upto A c x y :
  upto A x → is_integer c y → 0 ≤ A → 0 < c → A * c < 2 ^ 53 → upto (A * c) (d_mul x y).
Proof.
  intros Hx Hy HA Hc HB. apply is_integer_inv in Hy as (my & ey & -> & Hey & Hmy); [|done].
  destruct x as [| | |[] mx ex]; cbn in Hx; try done; [cbn; nia|]. destruct Hx as [Hex Hmx].
  unfold d_mul. cbn [SFmul xorb]. eapply round_aux_upto; [lia|apply inb_exact|lia|nia|].
  rewrite Pos2Z.inj_mul, Hmy. replace (- (ex + ey)) with (- ex + - ey) by lia.
  rewrite pow_split by lia. pose proof (Z.pow_pos_nonneg 2 (- ey)).
  pose proof (Z.pow_pos_nonneg 2 (- ex)). nia.
Qed.

(** A sum. *)
Lemma d_add_upto A C x y :
  upto A x → upto C y → 0 ≤ A → 0 ≤ C → A + C < 2 ^ 53 → upto (A + C) (d_add x y).
Proof.
  intros Hx Hy HA HC HB. assert (∀ D x, upto D x → ∀ D', D ≤ D' → upto D' x) as Hmono.
  { clear. intros D [| | |[] m e]; cbn; try lia. intros [He Hm] D' HD. split; [done|].
    pose proof (Z.pow_pos_nonneg 2 (- e)). nia. }
  unfold d_add. destruct x as [sx| | |[] mx ex], y as [sy| | |[] my ey]; try done; cbn [SFadd].
  - destruct sx, sy; cbn; lia.
  - apply (Hmono C); [done|lia].
  - apply (Hmono A); [done|lia].
  - destruct Hx as [Hex Hmx], Hy as [Hey Hmy]. pose proof (shl_align_spec mx ex (Z.min ex ey)) as Hax.
    pose proof (shl_align_spec my ey (Z.min ex ey)) as Hay.
    destruct (shl_align mx _ _) as [ax fx], (shl_align my _ _) as [ay fy]. cbn [fst cond_Zopp].
    destruct Hax as [-> Hax], Hay as [-> Hay]. set (ez := Z.min ex ey) in *.
    replace (Z.min ex ez) with ez in Hax by lia. replace (Z.min ey ez) with ez in Hay by lia.
    change (Zpos ax + Zpos ay) with (Zpos (ax + ay)). cbn [binary_normalize].
    apply binary_round_upto; [lia..|]. rewrite Pos2Z.inj_add, Hax, Hay.
    assert (2 ^ (- ez) = 2 ^ (- ex) * 2 ^ (ex - ez) ∧ 2 ^ (- ez) = 2 ^ (- ey) * 2 ^ (ey - ez)) as [He1 He2].
    { rewrite <- !pow_split by lia. split; f_equal; lia. }
    pose proof (Z.pow_pos_nonneg 2 (ex - ez)). pose proof (Z.pow_pos_nonneg 2 (ey - ez)).
    rewrite Z.mul_add_distr_r. rewrite He1 at 1. rewrite He2. nia.
Qed.

(** What is left of an integer. *)
Lemma d_sub_upto c x y :
  is_integer c x → upto c y → 0 < c < 2 ^ 53 → upto c (d_sub x y).
Proof.
  intros Hx Hy Hc. pose proof (is_integer_upto c x c Hx ltac:(lia)) as Hxc.
  apply is_integer_inv in Hx as (mx & ex & -> & Hex & Hmx); [|lia].
  unfold d_sub. destruct y as [sy| | |[] my ey]; try done; cbn [SFsub].
  destruct Hy as [Hey Hmy]. pose proof (shl_align_spec mx ex (Z.min ex ey)) as Hax.
  pose proof (shl_align_spec my ey (Z.min ex ey)) as Hay.
  destruct (shl_align mx _ _) as [ax fx], (shl_align my _ _) as [ay fy]. cbn [fst cond_Zopp].
  destruct Hax as [-> Hax], Hay as [-> Hay]. set (ez := Z.min ex ey) in *.
  replace (Z.min ex ez) with ez in Hax by lia. replace (Z.min ey ez) with ez in Hay by lia.
  assert (2 ^ (- ez) = 2 ^ (- ex) * 2 ^ (ex - ez) ∧ 2 ^ (- ez) = 2 ^ (- ey) * 2 ^ (ey - ez)) as [He1 He2].
  { rewrite <- !pow_split by lia. split; f_equal; lia. }
  pose proof (Z.pow_pos_nonneg 2 (ex - ez)). pose proof (Z.pow_pos_nonneg 2 (ey - ez)).
  assert (Zpos ax = c * 2 ^ (- ez)) as Hax' by nia.
  assert (Zpos ay ≤ c * 2 ^ (- ez)) as Hay' by nia.
  destruct (Zpos ax - Zpos ay) as [|p|p] eqn:Hp; cbn [binary_normalize]; [cbn; lia| |lia].
  apply binary_round_upto; lia.
Qed.

Lemma d_trunc_upto B x : upto B x → 0 ≤ B → ∃ v, d_trunc x = Some v ∧ 0 ≤ v ≤ B.
Proof.
  destruct x as [s| | |[] m e]; cbn [upto d_trunc]; try done; [by exists 0|].
  intros [He Hm] HB. eexists. split; [done|].
  pose proof (Z.pow_pos_nonneg 2 (- e)) as Hp. case_decide.
  - replace e with 0 in * by lia. change (2 ^ 0) with 1. change (2 ^ (- 0)) with 1 in Hm. lia.
  - split; [apply Z.div_pos; lia|]. apply Z.div_le_upper_bound; lia.
Qed.
End Operations.

(** ** The text of a float *)

Section Text.

Lemma f_of_Z_format z : in_format 24 128 (f_of_Z z).
Proof. unfold f_of_Z. destruct z; cbn [binary_normalize]; [done|by apply binary_round_format..]. Qed.

Lemma f_of_d_format x : in_format 24 128 (f_of_d x).
Proof. unfold f_of_d, round_to. destruct x; try done. by apply binary_round_format. Qed.

Lemma normalize_format prec emax m e s : 0 < prec → in_format prec emax (binary_normalize prec emax m e s).
Proof. intros Hp. destruct m; cbn [binary_normalize]; [done|by apply binary_round_format..]. Qed.

Lemma f_add_format x y : in_format 24 128 x → in_format 24 128 y → in_format 24 128 (f_add x y).
Proof.
  unfold f_add. destruct x as [[]|[]| |], y as [[]|[]| |]; cbn [SFadd]; try done.
  intros _ _. by apply normalize_format.
Qed.

Lemma f_sub_format x y : in_format 24 128 x → in_format 24 128 y → in_format 24 128 (f_sub x y).
Proof.
  unfold f_sub. destruct x as [[]|[]| |], y as [[]|[]| |]; cbn [SFsub]; try done.
  intros _ _. by apply normalize_format.
Qed.

Lemma f_mul_format x y : in_format 24 128 (f_mul x y).
Proof.
  unfold f_mul. destruct x, y; cbn [SFmul]; try done. by eapply round_aux_format, inb_exact.
Qed.

Lemma decimal_fuel_length fuel n k :
  0 ≤ n < 10 ^ Z.of_nat (S k) → (length (decimal_fuel fuel n) ≤ S k)%nat.
Proof.
  revert n k. induction fuel as [|fuel IH]; intros n k Hn; cbn [decimal_fuel]; [simpl; lia|].
  case_decide as H10; [simpl; lia|]. rewrite length_app. cbn [length].
  destruct k as [|k]; [change (10 ^ Z.of_nat 1) with 10 in Hn; lia|].
  assert (0 ≤ n / 10 < 10 ^ Z.of_nat (S k)) as Hd.
  { rewrite (Nat2Z.inj_succ (S k)), Z.pow_succ_r in Hn by lia. Z.div_mod_to_equations. lia. }
  apply IH in Hd. lia.
Qed.

Lemma isdigit_not_nul b : isdigit b = true → b ≠ x00.
Proof. by intros Hb ->. Qed.

Lemma six_digits_nul_free n : nul_free (six_digits n) ∧ zlen (six_digits n) = 6.
Proof.
  split; [|done]. assert (∀ k, digit (n / k mod 10) ≠ x00) as Hd.
  { intros k He. apply (f_equal b2z) in He. unfold digit in He. rewrite b2z_z2b in He.
    change (b2z x00) with 0 in He. pose proof (Z.mod_pos_bound (n / k) 10). mlia. }
  unfold nul_free, six_digits. cbn [fmap list_fmap]. rewrite !elem_of_cons.
  pose proof (Hd 100000). pose proof (Hd 10000). pose proof (Hd 1000). pose proof (Hd 100).
  pose proof (Hd 10). pose proof (Hd 1). intros [?|[?|[?|[?|[?|[?|?%elem_of_nil]]]]]]; congruence.
Qed.

Lemma round_half_even_bounds n d B : 0 ≤ n → 0 < d → n ≤ B * d → 0 ≤ round_half_even n d ≤ B + 1.
Proof.
  intros Hn Hd HB. assert (0 ≤ n / d ≤ B) as Hq.
  { split; [by apply Z.div_pos|]. apply Z.div_le_upper_bound; lia. }
  unfold round_half_even. destruct (_ ?= _); [destruct (Z.even _)|..]; lia.
Qed.

(** A [float] is below [2 ^ 128]: 39 digits before the point. *)
Lemma millionths_bounds s m e :
  in_format 24 128 (S754_finite s m e) →
  ∃ m' f, d_of_f (S754_finite s m e) = S754_finite s m' f ∧ 0 ≤ millionths m' f < 10 ^ 45.
Proof.
  intros [Hm He]. destruct (d_round_exact s m e) as (m' & f & Hr & Hf & Hv); [lia..|].
  exists m', f. split; [exact Hr|].
  assert (Zpos m' ≤ (2 ^ 128 - 1) * 2 ^ (Z.max 0 (- f)) ∧ (0 ≤ f → Zpos m' * 2 ^ f ≤ 2 ^ 128 - 1)) as [Hb1 Hb2].
  { assert (Zpos m * 2 ^ (104 - f) ≤ (2 ^ 24 - 1) * 2 ^ (104 - f)) as Hx.
    { apply Z.mul_le_mono_nonneg_r; [apply Z.pow_nonneg; lia|lia]. }
    assert (2 ^ (e - f) ≤ 2 ^ (104 - f)) as Hy by (apply Z.pow_le_mono_r; lia).
    assert (Zpos m' ≤ (2 ^ 24 - 1) * 2 ^ (104 - f)) as Hz by nia. split.
    - destruct (decide (0 ≤ f)).
      + rewrite Z.max_l by lia. change (2 ^ 0) with 1.
        assert (2 ^ (104 - f) ≤ 2 ^ 104) by (apply Z.pow_le_mono_r; lia). lia.
      + rewrite Z.max_r by lia. replace (104 - f) with (104 + - f) in Hz by lia.
        rewrite pow_split in Hz by lia. pose proof (Z.pow_pos_nonneg 2 (- f)).
        change (2 ^ 104) with 20282409603651670423947251286016 in Hz. lia.
    - intros H0. rewrite Hv. assert (2 ^ (e - f) * 2 ^ f ≤ 2 ^ 104) as He'.
      { rewrite <- pow_split by lia. apply Z.pow_le_mono_r; lia. }
      assert (0 ≤ 2 ^ (e - f) * 2 ^ f) by (apply Z.mul_nonneg_nonneg; apply Z.pow_nonneg; lia).
      rewrite <- Z.mul_assoc. change (2 ^ 128) with (2 ^ 24 * 2 ^ 104). nia. }
  assert ((2 ^ 128 - 1) * 10 ^ 6 + 1 < 10 ^ 45) as Hc by done.
  unfold millionths. case_decide as H0.
  - specialize (Hb2 H0). split; [|lia]. apply Z.mul_nonneg_nonneg; [|done].
    apply Z.mul_nonneg_nonneg; [lia|apply Z.pow_nonneg; lia].
  - rewrite Z.max_r in Hb1 by lia. pose proof (Z.pow_pos_nonneg 2 (- f)).
    destruct (round_half_even_bounds (Zpos m' * 10 ^ 6) (2 ^ (- f)) ((2 ^ 128 - 1) * 10 ^ 6)); lia.
Qed.

Lemma minus_nul_free s : nul_free (minus s).
Proof. destruct s; by apply (bool_decide_unpack (nul_free _)). Qed.

Lemma sprintf_f_short x :
  in_format 24 128 x → nul_free (sprintf_f (d_of_f x)) ∧ 0 < zlen (sprintf_f (d_of_f x)) ≤ 47.
Proof.
  destruct x as [[]|[]| |s m e]; intros Hx;
    [split; [by apply (bool_decide_unpack (nul_free _))|done]..|].
  destruct (millionths_bounds s m e Hx) as (m' & f & -> & Hn). cbn [sprintf_f].
  set (n := millionths m' f) in *. destruct (six_digits_nul_free (n mod 10 ^ 6)) as [H6 Hl6].
  assert (0 ≤ n / 10 ^ 6 < 10 ^ Z.of_nat 39) as Hd.
  { split; [apply Z.div_pos; lia|]. apply Z.div_lt_upper_bound; [done|]. exact (proj2 Hn). }
  destruct (decimal_fuel_spec 400 (n / 10 ^ 6)) as (Hdig & _ & Hne & _); [|lia|].
  { split; [apply Hd|]. eapply Z.lt_le_trans; [apply Hd|]. by apply Z.pow_le_mono_r. }
  apply decimal_fuel_length with (fuel := 400%nat) in Hd as Hlen. split.
  - rewrite !nul_free_app.
    split; [apply minus_nul_free|split; [|split; [by apply (bool_decide_unpack (nul_free (B ".")))|exact H6]]].
    intros Hin. by apply (proj1 (list.Forall_forall _ _) Hdig), isdigit_not_nul in Hin.
  - rewrite !zlen_app, Hl6. change (zlen (B ".")) with 1.
    assert (0 ≤ zlen (minus s) ≤ 1) by (by destruct s).
    assert (0 ≤ zlen (decimal_fuel 400 (n / 10 ^ 6)) ≤ 39) by (unfold zlen; lia). lia.
Qed.

(** A text has no ":" in it. *)
Lemma sprintf_f_seps x :
  in_format 24 128 x → Forall (λ b, is_sep (B ":") b = false) (sprintf_f (d_of_f x)).
Proof.
  assert (∀ b, isdigit b = true → is_sep (B ":") b = false) as Hdig by (by intros []).
  destruct x as [[]|[]| |s m e]; intros Hx; [by repeat constructor..|].
  destruct (millionths_bounds s m e Hx) as (m' & f & -> & Hn). cbn [sprintf_f].
  set (n := millionths m' f) in *.
  destruct (decimal_fuel_spec 400 (n / 10 ^ 6)) as (Hd & _); [|lia|].
  { split; [apply Z.div_pos; lia|]. eapply Z.lt_le_trans; [|by apply (Z.pow_le_mono_r 10 39)].
    apply Z.div_lt_upper_bound; [done|]. exact (proj2 Hn). }
  repeat apply Forall_app_2; [by destruct s; repeat constructor| |by repeat constructor|].
  - eapply Forall_impl; [|exact Hd]. exact Hdig.
  - unfold six_digits. apply Forall_fmap, list.Forall_true. intros k. cbn. apply Hdig.
    apply digit_isdigit. apply Z.mod_pos_bound. done.
Qed.
End Text.
