(* ===== verification/AlertUtils.v ===== *)
(** * Telemetry alert requests ([telemetry/atlas_alert_utils.c])

    The gateway installs an alert by sending a batch with the push rate, or
    with the scan rate and the threshold. An out-parameter is the value it
    points to, [None] when the pointer is NULL. *)

From S2P Require Import Prelude Protocol Command.

Section AlertUtils.
Context `{Host}.

(** The body of the loop over the commands: [push_rate] and [push_found]. *)
Definition push_cmd_body (cmd : atlas_cmd_t) (s : Z * bool) : option ((Z * bool) * bool) :=
  if decide (cmd_type cmd = ATLAS_CMD_TELEMETRY_ALERT_EXT_PUSH_RATE ∧ cmd_length cmd = 2) then
    v ← mread (cmd_value cmd) 0 2;
    Some ((ntohs (load16 v), true), true)
  else Some (s, false).

Definition atlas_alert_push_cmd_parse (buf : option (list byte)) (buf_len : Z)
    (push_rate : option Z) : option (atlas_status_t * option Z) :=
  match buf with
  | None => Some (ATLAS_INVALID_INPUT, push_rate)
  | Some _ =>
      if decide (buf_len = 0) then Some (ATLAS_INVALID_INPUT, push_rate) else
      match push_rate with
      | None => Some (ATLAS_INVALID_INPUT, push_rate)
      | Some rate =>
          let cmd_batch := atlas_cmd_batch_new in
          '(status, cmd_batch) ← atlas_cmd_batch_set_raw cmd_batch buf buf_len;
          if decide (status = ATLAS_OK) then
            '(rate, push_found) ← cmd_foreach cmd_batch push_cmd_body (rate, false);
            if push_found : bool then Some (status, Some rate)
            else Some (ATLAS_CORRUPTED_COMMAND, Some rate)
          else Some (ATLAS_CORRUPTED_COMMAND, push_rate)
      end
  end.

(** [scan_rate], the allocated [*threshold] block and [scan_found]. *)
Record threshold_state := mk_threshold_state {
  ts_scan_rate : Z;
  ts_threshold : option (list byte);
  ts_scan_found : bool
}.

Definition threshold_cmd_body (cmd : atlas_cmd_t) (s : threshold_state)
    : option (threshold_state * bool) :=
  if decide (cmd_type cmd = ATLAS_CMD_TELEMETRY_ALERT_INT_SCAN_RATE ∧ cmd_length cmd = 2) then
    v ← mread (cmd_value cmd) 0 2;
    Some (mk_threshold_state (ntohs (load16 v)) (ts_threshold s) true, false)
  else if decide (cmd_type cmd = ATLAS_CMD_TELEMETRY_ALERT_THRESHOLD ∧ cmd_length cmd > 0) then
    v ← mread (cmd_value cmd) 0 (cmd_length cmd);
    blk ← mwrite (replicate (Z.to_nat (cmd_length cmd + 1)) x00) 0 v;
    Some (mk_threshold_state (ts_scan_rate s) (Some blk) (ts_scan_found s), false)
  else Some (s, false).

(** The pointer [threshold] itself is what the code tests at the end, and it
    is not NULL there: [*threshold] is not tested. *)
Definition atlas_alert_threshold_cmd_parse (buf : option (list byte)) (buf_len : Z)
    (scan_rate : option Z) (threshold : option (option (list byte)))
    : option (atlas_status_t * option Z * option (option (list byte))) :=
  match buf with
  | None => Some (ATLAS_INVALID_INPUT, scan_rate, threshold)
  | Some _ =>
      if decide (buf_len = 0) then Some (ATLAS_INVALID_INPUT, scan_rate, threshold) else
      match scan_rate, threshold with
      | Some rate, Some _ =>
          '(status, cmd_batch) ← atlas_cmd_batch_set_raw atlas_cmd_batch_new buf buf_len;
          if decide (status = ATLAS_OK) then
            s ← cmd_foreach cmd_batch threshold_cmd_body (mk_threshold_state rate None false);
            if ts_scan_found s
            then Some (ATLAS_OK, Some (ts_scan_rate s), Some (ts_threshold s))
            else Some (ATLAS_CORRUPTED_COMMAND, Some (ts_scan_rate s), Some None)
          else Some (ATLAS_CORRUPTED_COMMAND, scan_rate, Some None)
      | _, _ => Some (ATLAS_INVALID_INPUT, scan_rate, threshold)
      end
  end.

(** ** Specification

    The commands of the request that carry each parameter. *)

Definition is_push_rate (c : Z * list byte) : bool :=
  bool_decide (c.1 = ATLAS_CMD_TELEMETRY_ALERT_EXT_PUSH_RATE ∧ zlen c.2 = 2).
Definition is_scan_rate (c : Z * list byte) : bool :=
  bool_decide (c.1 = ATLAS_CMD_TELEMETRY_ALERT_INT_SCAN_RATE ∧ zlen c.2 = 2).
Definition is_threshold (c : Z * list byte) : bool :=
  bool_decide (c.1 = ATLAS_CMD_TELEMETRY_ALERT_THRESHOLD ∧ zlen c.2 > 0).

Lemma push_cmd_body_view t v post s :
  push_cmd_body (mk_cmd t (zlen v) (v ++ post)) s =
  Some (if is_push_rate (t, v) then ((unbe16 v, true), true) else (s, false)).
Proof.
  unfold push_cmd_body, is_push_rate. cbn [cmd_type cmd_length cmd_value fst snd].
  case_decide as Hd; [|by rewrite bool_decide_false].
  rewrite bool_decide_true by done. destruct Hd as [-> Hl].
  rewrite mread_head by lia. cbn [mbind option_bind].
  rewrite ntohs_load16; [done|]. unfold zlen in Hl. lia.
Qed.

Lemma threshold_cmd_body_view t v post s :
  threshold_cmd_body (mk_cmd t (zlen v) (v ++ post)) s =
  Some (if is_scan_rate (t, v) then mk_threshold_state (unbe16 v) (ts_threshold s) true
        else if is_threshold (t, v)
        then mk_threshold_state (ts_scan_rate s) (Some (v ++ [x00])) (ts_scan_found s)
        else s, false).
Proof.
  unfold threshold_cmd_body, is_scan_rate, is_threshold.
  cbn [cmd_type cmd_length cmd_value fst snd]. case_decide as Hs.
  - rewrite bool_decide_true by done. destruct Hs as [-> Hl].
    rewrite mread_head by lia. cbn [mbind option_bind].
    rewrite ntohs_load16; [done|]. unfold zlen in Hl. lia.
  - rewrite bool_decide_false by done. case_decide as Ht; [|by rewrite bool_decide_false].
    rewrite bool_decide_true by done. rewrite mread_head by done. cbn [mbind option_bind].
    replace (Z.to_nat (zlen v + 1)) with (length v + 1)%nat by (unfold zlen; lia).
    rewrite replicate_add.
    rewrite mwrite_head; [done|]. by rewrite zlen_replicate.
Qed.

Lemma fold_push_cmd cs rate :
  fold_views push_cmd_body (views cs) (rate, false) =
  Some (match find_first is_push_rate cs with
        | Some c => (unbe16 c.2, true)
        | None => (rate, false)
        end).
Proof.
  unfold find_first. induction cs as [|[t v] cs IH]; [done|].
  cbn [views fold_views List.find]. cbn [fst snd]. rewrite push_cmd_body_view.
  cbn [mbind option_bind]. by destruct (is_push_rate (t, v)).
Qed.

Lemma fold_threshold_cmd cs s :
  fold_views threshold_cmd_body (views cs) s =
  Some (mk_threshold_state
    (match find_last is_scan_rate cs with Some c => unbe16 c.2 | None => ts_scan_rate s end)
    (match find_last is_threshold cs with Some c => Some (c.2 ++ [x00]) | None => ts_threshold s end)
    (match find_last is_scan_rate cs with Some _ => true | None => ts_scan_found s end)).
Proof.
  revert s. induction cs as [|[t v] cs IH]; intros s; [by destruct s|].
  cbn [views fold_views find_last]. cbn [fst snd]. rewrite threshold_cmd_body_view.
  cbn [mbind option_bind]. rewrite IH.
  assert (is_scan_rate (t, v) = true → is_threshold (t, v) = false) as Hx.
  { unfold is_scan_rate, is_threshold. intros [Hs _]%bool_decide_eq_true.
    apply bool_decide_eq_false. intros [Ht _]. cbn [fst] in *. by rewrite Hs in Ht. }
  destruct (find_last is_scan_rate cs), (find_last is_threshold cs),
    (is_scan_rate (t, v)), (is_threshold (t, v)); try done; by specialize (Hx eq_refl).
Qed.

(** The whole push parser as one equation. *)
Lemma push_cmd_parse_eq bs rest rate :
  0 < zlen bs < 65536 →
  atlas_alert_push_cmd_parse (Some (bs ++ rest)) (zlen bs) (Some rate) =
  Some (match decode bs ≫= find_first is_push_rate with
        | Some c => (ATLAS_OK, Some (unbe16 c.2))
        | None => (ATLAS_CORRUPTED_COMMAND, Some rate)
        end).
Proof.
  intros Hl. unfold atlas_alert_push_cmd_parse. rewrite decide_False by lia.
  destruct (decode bs) as [cs|] eqn:E.
  - destruct (parse_foreach (mk_batch 0 None) (bs ++ rest) bs rest (zlen bs) push_cmd_body (rate, false) cs)
      as (cb & Hp & Hf); [done..|].
    unfold atlas_cmd_batch_new. rewrite Hp. cbn [mbind option_bind].
    rewrite decide_True, Hf, fold_push_cmd by done. cbn [mbind option_bind].
    by destruct (find_first is_push_rate cs).
  - unfold atlas_cmd_batch_new. rewrite (set_raw_decode _ _ bs rest), E by done. done.
Qed.

Lemma threshold_cmd_parse_eq bs rest rate thr :
  0 < zlen bs < 65536 →
  atlas_alert_threshold_cmd_parse (Some (bs ++ rest)) (zlen bs) (Some rate) (Some thr) =
  Some (match decode bs with
        | Some cs =>
            match find_last is_scan_rate cs with
            | Some c => (ATLAS_OK, Some (unbe16 c.2),
                         Some ((λ d, d.2 ++ [x00]) <$> find_last is_threshold cs))
            | None => (ATLAS_CORRUPTED_COMMAND, Some rate, Some None)
            end
        | None => (ATLAS_CORRUPTED_COMMAND, Some rate, Some None)
        end).
Proof.
  intros Hl. unfold atlas_alert_threshold_cmd_parse. rewrite decide_False by lia.
  destruct (decode bs) as [cs|] eqn:E.
  - destruct (parse_foreach (mk_batch 0 None) (bs ++ rest) bs rest (zlen bs) threshold_cmd_body
      (mk_threshold_state rate None false) cs) as (cb & Hp & Hf); [done..|].
    unfold atlas_cmd_batch_new. rewrite Hp. cbn [mbind option_bind].
    rewrite decide_True, Hf, fold_threshold_cmd by done. cbn [mbind option_bind].
    destruct (find_last is_scan_rate cs), (find_last is_threshold cs); done.
  - unfold atlas_cmd_batch_new. rewrite (set_raw_decode _ _ bs rest), E by done. done.
Qed.

(** ** Properties *)

(** C36. A push alert request is accepted exactly when its bytes are a list of
    commands with a two-byte push rate command among them: the rate is the
    value of the first one in network byte order. Any other request is
    ATLAS_CORRUPTED_COMMAND and leaves the caller's variable alone. *)
Theorem push_cmd_parse_spec bs rest rate :
  0 < zlen bs < 65536 →
  (∀ cs, Forall wf_cmd cs → bs = encode cs →
     atlas_alert_push_cmd_parse (Some (bs ++ rest)) (zlen bs) (Some rate) =
     Some (match find_first is_push_rate cs with
           | Some c => (ATLAS_OK, Some (unbe16 c.2))
           | None => (ATLAS_CORRUPTED_COMMAND, Some rate)
           end)) ∧
  ((∀ cs, Forall wf_cmd cs → bs ≠ encode cs) →
     atlas_alert_push_cmd_parse (Some (bs ++ rest)) (zlen bs) (Some rate) =
     Some (ATLAS_CORRUPTED_COMMAND, Some rate)).
Proof.
  intros Hl. rewrite push_cmd_parse_eq by done. split.
  - intros cs Hwf ->. by rewrite decode_encode.
  - intros Hno. destruct (decode bs) as [cs|] eqn:E; [|done].
    apply decode_spec in E as [Hwf <-]. by destruct (Hno cs).
Qed.

(** A threshold alert request is accepted as soon as it is a list of
    commands with a scan rate: the last scan rate and the last threshold win,
    and without any threshold command the answer is still ATLAS_OK, with the
    NULL threshold the callers dereference. *)
Theorem threshold_cmd_parse_spec cs rest rate thr :
  Forall wf_cmd cs → 0 < zlen (encode cs) < 65536 →
  atlas_alert_threshold_cmd_parse (Some (encode cs ++ rest)) (zlen (encode cs)) (Some rate) (Some thr)
  = Some (match find_last is_scan_rate cs with
          | Some c => (ATLAS_OK, Some (unbe16 c.2),
                       Some (match find_last is_threshold cs with
                             | Some d => Some (d.2 ++ [x00])
                             | None => None
                             end))
          | None => (ATLAS_CORRUPTED_COMMAND, Some rate, Some None)
          end).
Proof.
  intros Hwf Hl. rewrite threshold_cmd_parse_eq, decode_encode by done.
  destruct (find_last is_scan_rate cs); [|done]. by destruct (find_last is_threshold cs).
Qed.

End AlertUtils.

Lemma push_cmd_parse_spec_witness :
  @atlas_alert_push_cmd_parse le_host (Some ([x02; x01; x00; x02; x00; x3c] ++ [])) 6 (Some 7)
  = Some (ATLAS_OK, Some 60).
Proof.
  apply (proj1 (@push_cmd_parse_spec le_host [x02; x01; x00; x02; x00; x3c] [] 7 ltac:(done))
    [(513, [x00; x3c])]); [by apply (bool_decide_unpack _); vm_compute|done].
Defined.

Lemma threshold_cmd_parse_spec_witness :
  @atlas_alert_threshold_cmd_parse le_host (Some ([x02; x02; x00; x02; x00; x0a] ++ [])) 6
    (Some 0) (Some None) = Some (ATLAS_OK, Some 10, Some None).
Proof.
  apply (@threshold_cmd_parse_spec le_host [(514, [x00; x0a])] [] 0 None);
    [by apply (bool_decide_unpack _); vm_compute|done].
Defined.
