(* ===== verification/Scheduler.v ===== *)
(** * The select loop ([scheduler/atlas_scheduler.c])

    The program has one thread, which waits in [select] on the registered file
    descriptors and calls the callback of each ready one. The list of entries
    is the linked list [sched_entry]; a deletion only marks an entry, which
    the next round unlinks, so that a callback may delete any entry while the
    loop walks over the list.

    The component is generic in the callbacks and in the world they work on.
    What it needs of the callbacks is the class [SchedClient]: they add and
    delete entries through this component's operations and nothing else. *)

From stdpp Require Import gmap.
From S2P Require Import Prelude.

(** FD_SET outside of this bound is undefined. *)
Definition FD_SETSIZE : Z := 1024.

Record atlas_sched_entry_t (CB : Type) := mk_sched_entry {
  se_fd : Z;
  se_callback : CB;
  se_dirty : bool
}.
Arguments mk_sched_entry {CB} _ _ _.
Arguments se_fd {CB} _.
Arguments se_callback {CB} _.
Arguments se_dirty {CB} _.

Section Entries.
Context {CB : Type}.
Implicit Types (l : list (atlas_sched_entry_t CB)).

Definition atlas_sched_add_entry (fd : Z) (cb : option CB) l : list (atlas_sched_entry_t CB) :=
  if decide (fd < 0) then l
  else match cb with
       | None => l
       | Some cb => l ++ [mk_sched_entry fd cb false]
       end.

Definition mark_dirty (e : atlas_sched_entry_t CB) : atlas_sched_entry_t CB :=
  mk_sched_entry (se_fd e) (se_callback e) true.

(** The first entry with this descriptor, dirty or not. *)
Definition atlas_sched_del_entry (fd : Z) l : list (atlas_sched_entry_t CB) :=
  update_first (λ p, bool_decide (se_fd p = fd)) mark_dirty l.

(** The first half of a round: unlink the dirty entries, and collect the
    descriptors of the others. *)
Fixpoint sched_sweep l (max_fd : Z) (readfds : gset Z)
    : option (list (atlas_sched_entry_t CB) * Z * gset Z) :=
  match l with
  | [] => Some ([], max_fd, readfds)
  | ent :: l =>
      if se_dirty ent then sched_sweep l max_fd readfds
      else
        let max_fd := if decide (se_fd ent > max_fd) then se_fd ent else max_fd in
        if decide (0 ≤ se_fd ent < FD_SETSIZE) then
          '(kept, max_fd, readfds) ← sched_sweep l max_fd ({[se_fd ent]} ∪ readfds);
          Some (ent :: kept, max_fd, readfds)
        else None
  end.

(** The entries that are still registered. *)
Definition live l : list (atlas_sched_entry_t CB) := filter (λ e, se_dirty e = false) l.

End Entries.

(** The world of the callbacks holds the list of entries. *)
Class SchedState (CB W : Type) := {
  get_sched : W → list (atlas_sched_entry_t CB);
  set_sched : list (atlas_sched_entry_t CB) → W → W;
  get_set_sched l w : get_sched (set_sched l w) = l
}.

(** A bounded loop ends, meets undefined behaviour, or runs out of fuel. *)
Inductive outcome (A : Type) :=
| Done (a : A)
| Fault
| NoFuel.
Arguments Done {A} _.
Arguments Fault {A}.
Arguments NoFuel {A}.

Section Loop.
Context {CB W : Type} `{SchedState CB W}.
Context (run : CB → Z → W → option W).
Context (select : Z → gset Z → W → Z * gset Z * W).

(** The second half of a round, from the entry at position [i]; the result
    also lists the calls that were made. *)
Fixpoint sched_dispatch (fuel : nat) (i : nat) (readfds : gset Z) (w : W)
    : outcome (W * list (CB * Z)) :=
  match get_sched w !! i with
  | None => Done (w, [])
  | Some ent =>
      match fuel with
      | O => NoFuel
      | S fuel =>
          if negb (se_dirty ent) && bool_decide (se_fd ent ∈ readfds) then
            match run (se_callback ent) (se_fd ent) w with
            | None => Fault
            | Some w =>
                match sched_dispatch fuel (S i) (readfds ∖ {[se_fd ent]}) w with
                | Done (w, calls) => Done (w, (se_callback ent, se_fd ent) :: calls)
                | r => r
                end
            end
          else sched_dispatch fuel (S i) readfds w
      end
  end.

(** One round of [atlas_sched_loop]. *)
Definition sched_round (fuel : nat) (w : W) : outcome (W * list (CB * Z)) :=
  match sched_sweep (get_sched w) 0 ∅ with
  | None => Fault
  | Some (kept, max_fd, readfds) =>
      let w := set_sched kept w in
      let '(result, readfds, w) := select (max_fd + 1) readfds w in
      if decide (result > 0) then sched_dispatch fuel 0 readfds w
      else Done (w, [])
  end.

(** [n] rounds of the endless loop. *)
Fixpoint atlas_sched_loop (n fuel : nat) (w : W) : outcome (W * list (CB * Z)) :=
  match n with
  | O => Done (w, [])
  | S n =>
      match sched_round fuel w with
      | Done (w, calls) =>
          match atlas_sched_loop n fuel w with
          | Done (w, calls') => Done (w, calls ++ calls')
          | r => r
          end
      | r => r
      end
  end.
End Loop.

(** ** How the list evolves while a callback runs *)

Section Evolution.
Context {CB : Type}.
Implicit Types (l k : list (atlas_sched_entry_t CB)) (e : atlas_sched_entry_t CB).

Definition entry_le e e' : Prop :=
  se_fd e = se_fd e' ∧ se_callback e = se_callback e' ∧ (se_dirty e = true → se_dirty e' = true).

(** [k] is [l] with some entries marked and some appended. *)
Definition sched_ext l k : Prop := ∃ k1 k2, k = k1 ++ k2 ∧ Forall2 entry_le l k1.

#[export] Instance entry_le_preorder : PreOrder entry_le.
Proof. unfold entry_le. split; [by intros ?|]. intros x y z (? & ? & ?) (? & ? & ?); split_and!; [congruence|congruence|auto]. Qed.

#[export] Instance sched_ext_preorder : PreOrder sched_ext.
Proof.
  split.
  - intros l. exists l, []. rewrite app_nil_r. split; [done|reflexivity].
  - intros l k m (k1 & k2 & -> & Hlk) (m1 & m2 & -> & Hkm).
    apply Forall2_app_inv_l in Hkm as (m11 & m12 & H1 & H2 & ->).
    exists m11, (m12 ++ m2). rewrite app_assoc. split; [done|].
    by transitivity k1.
Qed.

Lemma sched_ext_length l k : sched_ext l k → (length l ≤ length k)%nat.
Proof. intros (k1 & k2 & -> & Hf). rewrite length_app. apply Forall2_length in Hf. lia. Qed.

Lemma sched_ext_lookup l k i e :
  sched_ext l k → l !! i = Some e → ∃ e', k !! i = Some e' ∧ entry_le e e'.
Proof.
  intros (k1 & k2 & -> & Hf) Hi. destruct (Forall2_lookup_l _ _ _ _ _ Hf Hi) as (e' & He & Hle).
  exists e'. split; [|done]. apply lookup_app_l_Some. done.
Qed.

Lemma sched_ext_app l k : sched_ext l (l ++ k).
Proof. exists l, k. split; [done|reflexivity]. Qed.

Lemma sched_ext_add fd cb l : sched_ext l (atlas_sched_add_entry fd cb l).
Proof.
  unfold atlas_sched_add_entry. case_decide; [reflexivity|].
  destruct cb; [apply sched_ext_app|reflexivity].
Qed.

Lemma sched_ext_del fd l : sched_ext l (atlas_sched_del_entry fd l).
Proof.
  exists (atlas_sched_del_entry fd l), []. rewrite app_nil_r. split; [done|].
  unfold atlas_sched_del_entry. induction l as [|e l IH]; simpl; [constructor|].
  case_bool_decide; constructor; (done || reflexivity).
Qed.

Lemma live_add fd cb l :
  0 ≤ fd → live (atlas_sched_add_entry fd (Some cb) l) = live l ++ [mk_sched_entry fd cb false].
Proof.
  intros. unfold atlas_sched_add_entry, live. rewrite decide_False by lia.
  by rewrite list.filter_app.
Qed.

Lemma live_del_sublist fd l : live (atlas_sched_del_entry fd l) `sublist_of` live l.
Proof.
  unfold live, atlas_sched_del_entry. induction l as [|e l IH]; simpl; [done|].
  case_bool_decide.
  - rewrite filter_cons_False by done. rewrite filter_cons.
    case_decide; [by apply sublist_cons|reflexivity].
  - rewrite !filter_cons. case_decide; [by apply sublist_skip|done].
Qed.

Lemma del_other fd l e : e ∈ l → se_fd e ≠ fd → e ∈ atlas_sched_del_entry fd l.
Proof.
  unfold atlas_sched_del_entry. induction l as [|e' l IH]; [done|]. simpl.
  intros [->|Hin]%elem_of_cons Hfd.
  - rewrite bool_decide_false by done. by left.
  - case_bool_decide; right; [done|by apply IH].
Qed.

(** Deleting a descriptor no dirty entry has removes its first live entry. *)
Lemma live_del fd l :
  (∀ e, e ∈ l → se_fd e = fd → se_dirty e = false) →
  live (atlas_sched_del_entry fd l) = remove_first (λ e, bool_decide (se_fd e = fd)) (live l).
Proof.
  unfold live, atlas_sched_del_entry. induction l as [|e l IH]; intros Hd; [done|].
  simpl. case_bool_decide as He.
  - rewrite !filter_cons. simpl. rewrite decide_True by (apply Hd; [by left|done]).
    simpl. rewrite bool_decide_true by done. done.
  - rewrite !filter_cons. rewrite IH by (intros; apply Hd; [by right|done]).
    destruct (decide _); simpl; [|done]. by rewrite bool_decide_false.
Qed.

End Evolution.

#[export] Hint Resolve sched_ext_add sched_ext_del : atlas.

(** What the loop relies on in its callbacks. *)
Class SchedClient {CB W} `{SchedState CB W} (run : CB → Z → W → option W) : Prop :=
  run_extends cb fd w w' : run cb fd w = Some w' → sched_ext (get_sched w) (get_sched w').

(** ** The sweep *)

Section Sweep.
Context {CB : Type}.
Implicit Types (l : list (atlas_sched_entry_t CB)).

Definition fds l : gset Z := list_to_set (se_fd <$> l).

Lemma sched_sweep_spec l m r :
  (∀ e, e ∈ live l → 0 ≤ se_fd e < FD_SETSIZE) →
  ∃ m', sched_sweep l m r = Some (live l, m', fds (live l) ∪ r) ∧
        m ≤ m' ∧ ∀ e, e ∈ live l → se_fd e ≤ m'.
Proof.
  revert m r. induction l as [|e l IH]; intros m r Hfd.
  { exists m. simpl. split_and!; [|lia|by intros e ?%elem_of_nil]. f_equal. f_equal. set_solver. }
  cbn [sched_sweep]. unfold live in *. rewrite filter_cons in *.
  destruct (se_dirty e) eqn:Hd.
  - rewrite decide_False in * by done. by apply IH.
  - rewrite decide_True in * by done.
    assert (0 ≤ se_fd e < FD_SETSIZE) by (apply Hfd; by left).
    rewrite (decide_True (P := 0 ≤ se_fd e < FD_SETSIZE)) by done.
    destruct (IH (if decide (se_fd e > m) then se_fd e else m) ({[se_fd e]} ∪ r))
      as (m' & -> & Hm & Hle); [intros; apply Hfd; by right|].
    exists m'. cbn [mbind option_bind]. split_and!.
    + f_equal. f_equal. unfold fds. cbn. set_solver.
    + case_decide; lia.
    + intros e' [->|He']%elem_of_cons; [case_decide; lia|by apply Hle].
Qed.

End Sweep.

(** ** The dispatch *)

Section Dispatch.
Context {CB W : Type} `{SchedState CB W}.
Context (run : CB → Z → W → option W).
Implicit Types (w : W) (calls : list (CB * Z)) (readfds : gset Z).

Lemma dispatch_more_fuel fuel fuel' i readfds w :
  (fuel ≤ fuel')%nat → sched_dispatch run fuel i readfds w ≠ NoFuel →
  sched_dispatch run fuel' i readfds w = sched_dispatch run fuel i readfds w.
Proof.
  revert fuel' i readfds w. induction fuel as [|fuel IH]; intros fuel' i readfds w Hle Hn.
  - destruct fuel'; simpl in *; destruct (get_sched w !! i); done.
  - destruct fuel' as [|fuel']; [lia|]. simpl in *.
    destruct (get_sched w !! i) as [ent|]; [|done].
    destruct (negb _ && _).
    + destruct (run _ _ w) as [w'|]; [|done].
      rewrite IH; [done|lia|]. intros E. rewrite E in Hn. done.
    + apply IH; [lia|done].
Qed.

(** A callback clears its descriptor, so the number of ready descriptors
    bounds how often the list can grow under the loop. *)
Lemma dispatch_terminates_aux n readfds i w :
  (size readfds ≤ n)%nat → ∃ fuel, sched_dispatch run fuel i readfds w ≠ NoFuel.
Proof.
  revert readfds i w. induction n as [n IHn] using lt_wf_ind. intros readfds i w Hn.
  remember (length (get_sched w) - i)%nat as k eqn:Hk.
  revert i Hk. induction k as [|k IHk]; intros i Hk.
  { exists 0%nat. simpl. destruct (get_sched w !! i) eqn:E; [|done].
    apply lookup_lt_Some in E. lia. }
  destruct (get_sched w !! i) as [ent|] eqn:E; [|exists 0%nat; simpl; by rewrite E].
  destruct (negb (se_dirty ent) && bool_decide (se_fd ent ∈ readfds)) eqn:Hc.
  - destruct (run (se_callback ent) (se_fd ent) w) as [w'|] eqn:Hrun.
    + destruct (andb_prop _ _ Hc) as [_ Hin%bool_decide_eq_true].
      assert (size (readfds ∖ {[se_fd ent]}) < size readfds)%nat as Hlt.
      { apply subset_size. set_solver. }
      destruct (IHn (size (readfds ∖ {[se_fd ent]})) ltac:(lia) _ (S i) w' ltac:(done)) as [fuel Hf].
      exists (S fuel). simpl. rewrite E, Hc, Hrun.
      destruct (sched_dispatch run fuel _ _ w') as [[??]| |]; done.
    + exists 1%nat. simpl. by rewrite E, Hc, Hrun.
  - destruct (IHk (S i) ltac:(lia)) as [fuel Hf].
    exists (S fuel). simpl. by rewrite E, Hc.
Qed.

Context `{!SchedClient run}.

Lemma dispatch_extends fuel i readfds w w' calls :
  sched_dispatch run fuel i readfds w = Done (w', calls) →
  sched_ext (get_sched w) (get_sched w').
Proof.
  revert i readfds w calls. induction fuel as [|fuel IH]; intros i readfds w calls; simpl;
    destruct (get_sched w !! i) as [ent|] eqn:E; try done; try by intros [= <- <-].
  destruct (negb _ && _); [|by apply IH].
  destruct (run _ _ w) as [w1|] eqn:Hrun; [|done].
  destruct (sched_dispatch run fuel _ _ w1) as [[w2 c2]| |] eqn:Hd; [|done..].
  intros [= -> <-]. apply run_extends in Hrun. rewrite Hrun. by eapply IH.
Qed.

(** Between two states the loop called [cb] on [fd]: at that moment the
    descriptor had an entry with this callback that was not deleted. *)
Definition called_live w w' (cb : CB) (fd : Z) : Prop :=
  ∃ wa wb e, sched_ext (get_sched w) (get_sched wa) ∧ e ∈ get_sched wa ∧ se_dirty e = false ∧
    se_fd e = fd ∧ se_callback e = cb ∧ run cb fd wa = Some wb ∧
    sched_ext (get_sched wb) (get_sched w').

(** Every call is of a ready descriptor, and of an entry of the list that is
    not deleted; no descriptor is served twice. *)
Lemma dispatch_calls fuel i readfds w w' calls :
  sched_dispatch run fuel i readfds w = Done (w', calls) →
  NoDup calls.*2 ∧
  ∀ cb fd, (cb, fd) ∈ calls → fd ∈ readfds ∧ called_live w w' cb fd ∧
    ∃ e, e ∈ get_sched w' ∧ se_fd e = fd ∧ se_callback e = cb.
Proof.
  revert i readfds w calls. induction fuel as [|fuel IH]; intros i readfds w calls; simpl;
    destruct (get_sched w !! i) as [ent|] eqn:E; try done;
    try (intros [= <- <-]; split; [constructor|by intros ?? ?%elem_of_nil]).
  destruct (negb _ && _) eqn:Hc; [|by apply IH].
  destruct (run _ _ w) as [w1|] eqn:Hrun; [|done].
  destruct (sched_dispatch run fuel _ _ w1) as [[w2 c2]| |] eqn:Hd; [|done..].
  intros [= -> <-]. apply andb_prop in Hc as [Hlive%negb_true_iff Hin%bool_decide_eq_true].
  destruct (IH _ _ _ _ Hd) as [Hnd Hcalls]. apply dispatch_extends in Hd.
  split.
  - simpl. constructor; [|done].
    intros ([cb fd'] & Heq & Hin')%list_elem_of_fmap. simpl in Heq.
    apply Hcalls in Hin' as [Hin' _]. set_solver.
  - intros cb fd' [[= -> ->]|Hin']%elem_of_cons.
    + split; [done|]. split.
      { exists w, w1, ent. by split_and!; [|eapply list_elem_of_lookup_2|..]. }
      apply run_extends in Hrun.
      assert (sched_ext (get_sched w) (get_sched w')) as Hext by (by transitivity (get_sched w1)).
      destruct (sched_ext_lookup _ _ _ _ Hext E) as (e' & He' & Hle).
      exists e'. split; [by eapply list_elem_of_lookup_2|].
      destruct Hle as (? & ? & ?). split; congruence.
    + apply Hcalls in Hin' as (? & (wa & wb & e & Hx & Hrest) & ?). split_and!; [set_solver| |done].
      exists wa, wb, e. split; [|done]. apply run_extends in Hrun. by transitivity (get_sched w1).
Qed.

(** A registered entry whose descriptor is ready is served, unless it is
    deleted before its turn. *)
Lemma dispatch_serves fuel i readfds w w' calls j e :
  sched_dispatch run fuel i readfds w = Done (w', calls) →
  get_sched w !! j = Some e → (i ≤ j)%nat → se_fd e ∈ readfds →
  se_fd e ∈ calls.*2 ∨ ∃ e', get_sched w' !! j = Some e' ∧ se_dirty e' = true.
Proof.
  revert i readfds w calls e. induction fuel as [|fuel IH]; intros i readfds w calls e; simpl;
    intros Hdisp Hj Hij Hfd;
    (destruct (get_sched w !! i) as [ent|] eqn:E;
     [|exfalso; apply lookup_ge_None in E; apply lookup_lt_Some in Hj; lia]); [done|].
  destruct (negb (se_dirty ent) && bool_decide (se_fd ent ∈ readfds)) eqn:Hc.
  - destruct (run _ _ w) as [w1|] eqn:Hrun; [|done].
    destruct (sched_dispatch run fuel _ _ w1) as [[w2 c2]| |] eqn:Hd; [|done..].
    simplify_eq. simpl.
    destruct (decide (se_fd e = se_fd ent)) as [->|Hne]; [left; by left|].
    apply run_extends in Hrun.
    destruct (sched_ext_lookup _ _ _ _ Hrun Hj) as (e1 & He1 & Hfd1 & _ & _).
    destruct (IH _ _ _ _ e1 Hd He1) as [Hin|Hdirty].
    + destruct (decide (i = j)) as [->|]; [|lia]. simplify_eq.
    + rewrite <- Hfd1. set_solver.
    + left. rewrite <- Hfd1 in Hin. by right.
    + by right.
  - destruct (decide (i = j)) as [<-|].
    + assert (ent = e) as -> by congruence. rewrite bool_decide_true in Hc by done.
      destruct (se_dirty e) eqn:Hde; [|done].
      right. apply dispatch_extends in Hdisp.
      destruct (sched_ext_lookup _ _ _ _ Hdisp Hj) as (e' & He' & _ & _ & Hdirty).
      exists e'. split; [done|]. by apply Hdirty.
    + eapply IH; [done..|lia|done].
Qed.

End Dispatch.

(** ** Properties *)

Section Reuse.
Context {CB : Type}.

(** When a descriptor number is reused while the deleted entry that had it
    is still in the list, deleting the new entry marks the old one again: the
    new entry stays registered. Without such an entry the deletion works. *)
Theorem reused_descriptor_survives_delete (l : list (atlas_sched_entry_t CB)) fd cb :
  0 ≤ fd → (∀ e, e ∈ l → se_fd e = fd → se_dirty e = true) →
  let l' := atlas_sched_del_entry fd (atlas_sched_add_entry fd (Some cb) l) in
  ((∃ e, e ∈ l ∧ se_fd e = fd) → live l' = live l ++ [mk_sched_entry fd cb false]) ∧
  ((∀ e, e ∈ l → se_fd e ≠ fd) → live l' = live l).
Proof.
  intros Hfd Hdirty l'. subst l'. unfold atlas_sched_add_entry. rewrite decide_False by lia.
  set (f := λ p : atlas_sched_entry_t CB, bool_decide (se_fd p = fd)).
  unfold atlas_sched_del_entry. fold f.
  destruct (first_split f l) as [Hno|(l1 & e & l2 & -> & He & Hl1)].
  - split.
    + intros (e & He & Hefd). apply Hno in He. subst f. simpl in He.
      by rewrite bool_decide_true in He.
    + intros _. rewrite update_first_app; [|done|by subst f; apply bool_decide_eq_true].
      unfold live. rewrite list.filter_app, filter_cons_False by done. by rewrite app_nil_r.
  - assert (se_fd e = fd) as Hefd by (by apply bool_decide_eq_true in He). split.
    + intros _. rewrite <- app_assoc. cbn [app].
      rewrite update_first_app by done.
      assert (se_dirty e = true) as Hd by (apply Hdirty; [set_solver|done]).
      replace (mark_dirty e) with e by (destruct e; unfold mark_dirty; simpl in *; by subst).
      unfold live. by rewrite app_comm_cons, app_assoc, list.filter_app.
    + intros Hno. destruct (Hno e); [set_solver|done].
Qed.

End Reuse.

Section Properties.
Context {CB W : Type} `{SchedState CB W}.
Context (run : CB → Z → W → option W).
Context (select : Z → gset Z → W → Z * gset Z * W).
Implicit Types (w : W) (calls : list (CB * Z)) (readfds : gset Z).

Lemma sched_round_unfold fuel w :
  (∀ e, e ∈ live (get_sched w) → 0 ≤ se_fd e < FD_SETSIZE) →
  ∃ m, (∀ e, e ∈ live (get_sched w) → se_fd e ≤ m) ∧
  sched_round run select fuel w =
    let '(result, ready, w1) :=
      select (m + 1) (fds (live (get_sched w))) (set_sched (live (get_sched w)) w) in
    if decide (result > 0) then sched_dispatch run fuel 0 ready w1 else Done (w1, []).
Proof.
  intros Hfd. destruct (sched_sweep_spec (get_sched w) 0 ∅ Hfd) as (m & Hs & _ & Hm).
  exists m. split; [done|]. unfold sched_round. rewrite Hs.
  by replace (fds (live (get_sched w)) ∪ ∅) with (fds (live (get_sched w))) by set_solver.
Qed.

(** C20. A round of the scheduler loop always ends, whatever the callbacks do
    and however many entries they register while it runs. *)
Theorem sched_round_terminates w :
  ∃ fuel, ∀ fuel', (fuel ≤ fuel')%nat →
    sched_round run select fuel' w ≠ NoFuel ∧
    sched_round run select fuel' w = sched_round run select fuel w.
Proof.
  unfold sched_round. destruct (sched_sweep _ _ _) as [[[kept m] r]|]; [|by (exists 0%nat; intros)].
  destruct (select _ _ _) as [[result ready] w1]. case_decide; [|by (exists 0%nat; intros)].
  destruct (dispatch_terminates_aux run (size ready) ready 0 w1 (le_n _)) as [fuel Hf].
  exists fuel. intros fuel' Hle. rewrite (dispatch_more_fuel _ fuel fuel') by done. done.
Qed.

(** C12. In a round that wakes up, each ready descriptor is served at most once,
    only ready descriptors are, and a callback only runs while its entry is in
    the list and not deleted; every entry that was registered and ready is
    served, unless a callback of this round deletes it before its turn. *)
Theorem sched_round_serves `{!SchedClient run} fuel w w' calls result ready w1 :
  (∀ e, e ∈ live (get_sched w) → 0 ≤ se_fd e < FD_SETSIZE) →
  (∀ n, select n (fds (live (get_sched w))) (set_sched (live (get_sched w)) w) = (result, ready, w1)) →
  result > 0 → get_sched w1 = live (get_sched w) →
  sched_round run select fuel w = Done (w', calls) →
  NoDup calls.*2 ∧
  (∀ cb fd, (cb, fd) ∈ calls → fd ∈ ready ∧ called_live run w1 w' cb fd ∧
     ∃ e, e ∈ get_sched w' ∧ se_fd e = fd ∧ se_callback e = cb) ∧
  (∀ j e, live (get_sched w) !! j = Some e → se_fd e ∈ ready →
     se_fd e ∈ calls.*2 ∨ ∃ e', get_sched w' !! j = Some e' ∧ se_dirty e' = true).
Proof.
  intros Hfd Hsel Hres Hw1. destruct (sched_round_unfold fuel w Hfd) as (m' & _ & ->).
  rewrite Hsel, decide_True by done. intros Hd.
  destruct (dispatch_calls run _ _ _ _ _ _ Hd) as [Hnd Hcalls]. split_and!; [done..|].
  intros j e Hj He. rewrite <- Hw1 in Hj.
  apply (dispatch_serves run fuel 0 ready w1 w' calls j e Hd Hj ltac:(lia) He).
Qed.

(** A registered entry whose descriptor is closed makes [select] fail at
    every round: no callback of any entry ever runs again. *)
Theorem stale_entry_starves_loop bad n fuel w :
  (∀ e, e ∈ live (get_sched w) → 0 ≤ se_fd e < FD_SETSIZE) →
  (∃ e, e ∈ live (get_sched w) ∧ se_fd e = bad) →
  (∀ m r w, bad ∈ r → ∃ w', select m r w = (-1, r, w') ∧ get_sched w' = get_sched w) →
  ∃ w', atlas_sched_loop run select n fuel w = Done (w', []) ∧
        live (get_sched w') = live (get_sched w).
Proof.
  intros Hfd Hbad Hsel. revert w Hfd Hbad.
  induction n as [|n IH]; intros w Hfd Hbad; [by exists w|].
  destruct (sched_round_unfold fuel w Hfd) as (m & _ & Hr).
  destruct (Hsel (m + 1) (fds (live (get_sched w))) (set_sched (live (get_sched w)) w))
    as (w1 & Hs & Hw1).
  { destruct Hbad as (e & He & <-). unfold fds. apply elem_of_list_to_set, list_elem_of_fmap.
    by exists e. }
  rewrite get_set_sched in Hw1.
  assert (live (get_sched w1) = live (get_sched w)) as Hlive.
  { rewrite Hw1. unfold live. rewrite list_filter_filter_l; [done|]. done. }
  rewrite <- Hlive in Hfd, Hbad. destruct (IH w1 Hfd Hbad) as (w2 & Hl & Hlive2).
  exists w2. cbn [atlas_sched_loop]. rewrite Hr, Hs. simpl. rewrite Hl.
  split; [done|congruence].
Qed.

End Properties.

(** A world that is just the list of entries, for the instances. *)
#[export] Instance list_sched_state CB : SchedState CB (list (atlas_sched_entry_t CB)) := {|
  get_sched l := l;
  set_sched l _ := l;
  get_set_sched _ _ := eq_refl
|}.

(** A callback that deletes its own entry. *)
Definition run_delete (cb : nat) (fd : Z) (l : list (atlas_sched_entry_t nat))
    : option (list (atlas_sched_entry_t nat)) := Some (atlas_sched_del_entry fd l).

#[export] Instance run_delete_client : SchedClient run_delete.
Proof. intros cb fd w w' [= <-]. apply sched_ext_del. Qed.

Definition select_first (m : Z) (r : gset Z) (l : list (atlas_sched_entry_t nat))
    : Z * gset Z * list (atlas_sched_entry_t nat) := (1, {[3]}, l).

Definition select_bad (m : Z) (r : gset Z) (l : list (atlas_sched_entry_t nat))
    : Z * gset Z * list (atlas_sched_entry_t nat) := (-1, r, l).

Lemma sched_round_serves_witness :
  let l := [mk_sched_entry 3 7%nat false; mk_sched_entry 4 8%nat false] in
  let l' := [mk_sched_entry 3 7%nat true; mk_sched_entry 4 8%nat false] in
  NoDup [(7%nat, 3)].*2 ∧
  (∀ cb fd, (cb, fd) ∈ [(7%nat, 3)] → fd ∈ ({[3]} : gset Z) ∧ called_live run_delete l l' cb fd ∧
     ∃ e, e ∈ l' ∧ se_fd e = fd ∧ se_callback e = cb) ∧
  (∀ j e, live l !! j = Some e → se_fd e ∈ ({[3]} : gset Z) →
     se_fd e ∈ [(7%nat, 3)].*2 ∨ ∃ e', l' !! j = Some e' ∧ se_dirty e' = true).
Proof.
  intros l l'. refine (sched_round_serves run_delete select_first 5 l l' [(7%nat, 3)] 1 {[3]} l _ _ _ _ _).
  - intros e He. unfold live in He. cbn in He.
    repeat (apply elem_of_cons in He as [->|He]); [cbn; unfold FD_SETSIZE; lia..|].
    by apply elem_of_nil in He.
  - done.
  - done.
  - done.
  - vm_compute. done.
Defined.

Lemma reused_descriptor_survives_delete_witness :
  let l := [mk_sched_entry 3 7%nat true] in
  let l' := atlas_sched_del_entry 3 (atlas_sched_add_entry 3 (Some 8%nat) l) in
  ((∃ e, e ∈ l ∧ se_fd e = 3) → live l' = live l ++ [mk_sched_entry 3 8%nat false]) ∧
  ((∀ e, e ∈ l → se_fd e ≠ 3) → live l' = live l).
Proof.
  apply (reused_descriptor_survives_delete [mk_sched_entry 3 7%nat true] 3 8%nat); [lia|].
  intros e He. by apply list_elem_of_singleton in He as ->.
Defined.

Lemma stale_entry_starves_loop_witness :
  ∃ w', atlas_sched_loop run_delete select_bad 10 5 [mk_sched_entry 3 7%nat false] = Done (w', []) ∧
        live w' = live [mk_sched_entry 3 7%nat false].
Proof.
  refine (stale_entry_starves_loop run_delete select_bad 3 10 5 [mk_sched_entry 3 7%nat false] _ _ _).
  - intros e He. cbn in He. apply list_elem_of_singleton in He as ->. cbn. unfold FD_SETSIZE. lia.
  - exists (mk_sched_entry 3 7%nat false). split; [by apply list_elem_of_singleton|done].
  - intros m r w _. by exists w.
Defined.
