(* ===== verification/State.v ===== *)
(** * The state of the program

    The C files keep their state in static variables. Each component's
    variables are a record here, and [World] is all of them, with the state of
    the kernel and of the libraries, about which the program only knows what
    their functions answer.

    Function pointers are values of an enumeration per pointer type: the
    functions the program stores in it. [Client] maps them to the functions.

    The functions of the kernel, of libcoap, libuuid and OpenSSL are the fields
    of [Env], which every definition that calls them takes; the calls that only
    have an effect are [event]s. Every call whose effect can be observed from
    outside is recorded, in order, in the trace of the world. *)

From stdpp Require Import gmap.
From S2P Require Import Prelude Protocol CString Command Scheduler.

(** ** Function pointers *)

(** [atlas_sched_cb_t] *)
Inductive sched_cb :=
| SC_atlas_alarm_trigger
| SC_coap_client_sched_callback
| SC_atlas_coap_server_sched_callback
| SC_atlas_data_plane_accept_cb
| SC_atlas_data_plane_read_cb.

(** [atlas_alarm_cb_t] *)
Inductive alarm_cb :=
| AC_request_alarm_cb
| AC_reg_alarm_callback
| AC_keepalive_alarm_callback
| AC_policy_alarm_callback
| AC_push_alert_alarm_cb
| AC_threshold_alert_alarm_cb
| AC_command_execution_shutdown
| AC_command_execution_restart.

(** [atlas_coap_client_cb_t] *)
Inductive client_cb :=
| CC_reg_callback
| CC_keepalive_callback
| CC_telemetry_callback
| CC_policy_callback
| CC_feature_reputation_callback
| CC_feedback_callback.

(** [atlas_coap_server_cb_t]; two files have an [atlas_push_alert_cb]. *)
Inductive server_cb :=
| SV_sysinfo_push_alert_cb
| SV_threshold_alert_procs_cb
| SV_packets_push_alert_cb
| SV_execute_command_cb.

(** [atlas_telemetry_payload_cb] *)
Inductive payload_cb :=
| PL_hostname
| PL_kern_info
| PL_uptime
| PL_totalram
| PL_freeram
| PL_sharedram
| PL_bufferram
| PL_totalswap
| PL_freeswap
| PL_procs
| PL_load1
| PL_load5
| PL_load15
| PL_packets_per_minute
| PL_packets_avg.

#[export] Instance sched_cb_eq_dec : EqDecision sched_cb.
Proof. solve_decision. Defined.
#[export] Instance alarm_cb_eq_dec : EqDecision alarm_cb.
Proof. solve_decision. Defined.
#[export] Instance client_cb_eq_dec : EqDecision client_cb.
Proof. solve_decision. Defined.
#[export] Instance server_cb_eq_dec : EqDecision server_cb.
Proof. solve_decision. Defined.

(** ** libcoap

    The parts of its structures the program reads or writes. *)

Definition COAP_MESSAGE_CON : Z := 0.
Definition COAP_MESSAGE_NON : Z := 1.
Definition COAP_MESSAGE_RST : Z := 3.
Definition COAP_REQUEST_GET : Z := 1.
Definition COAP_REQUEST_POST : Z := 2.
Definition COAP_REQUEST_PUT : Z := 3.
Definition COAP_REQUEST_DELETE : Z := 4.
Definition COAP_OPTION_URI_PATH : Z := 11.
Definition COAP_OPTION_URI_QUERY : Z := 15.

(** [COAP_RESPONSE_CLASS] and [COAP_RESPONSE_CODE] of its header. *)
Definition COAP_RESPONSE_CLASS (c : Z) : Z := Z.land (Z.shiftr c 5) 255.
Definition COAP_RESPONSE_CODE (n : Z) : Z := Z.lor (Z.shiftl (n / 100) 5) (n mod 100).

Record coap_pdu_t := mk_pdu {
  pdu_type : Z;
  pdu_tid : Z;
  pdu_code : Z;
  pdu_token : list byte;
  pdu_options : list (Z * list byte);
  pdu_data : option (list byte)
}.

Record coap_uri_t := mk_uri {
  uri_secure : bool;        (* the scheme is COAP_URI_SCHEME_COAPS *)
  uri_host : list byte;
  uri_port : Z;
  uri_path : list byte;
  uri_query : list byte
}.

(** The request handlers the server registers. *)
Inductive server_handler :=
| get_default_index_handler
| get_handler
| post_handler
| put_handler
| delete_handler.

(** What [coap_io_process] hands to the handlers of the program. *)
Inductive coap_input :=
| InResponse (session : Z) (sent : bool) (received : coap_pdu_t)
| InRequest (handler : server_handler) (resource session : Z) (uri : option (list byte))
    (payload : option (list byte)).

(** ** Calls that only have an effect *)

Inductive event :=
| EvSetTimer (fd : Z) (interval value : Z * Z)
| EvClose (fd : Z)
| EvRead (fd : Z)
| EvWrite (fd : Z) (bs : list byte)
| EvUnlink (path : list byte)
| EvRemove (path : list byte)
| EvSystem (command : list byte)
| EvSend (session : Z) (pdu : coap_pdu_t)
| EvSendRst (session : Z)
| EvRelease (session : option Z)
| EvFreeContext (ctx : Z)
| EvFreeEndpoint
| EvSetPsk (ctx : Z) (key : list byte)
| EvRegisterHandler (resource method : Z) (handler : server_handler)
| EvAddResource (ctx : option Z) (resource : Z)
| EvDeleteResource (ctx : option Z) (resource : Z)
| EvResponseCode (session code : Z)
| EvResponseData (resource session : Z) (data : list byte).

(** ** Kernel structures *)

Record sysinfo_t := mk_sysinfo {
  si_uptime : Z;
  si_loads : Z * Z * Z;
  si_totalram : Z;
  si_freeram : Z;
  si_sharedram : Z;
  si_bufferram : Z;
  si_totalswap : Z;
  si_freeswap : Z;
  si_procs : Z
}.

Record utsname_t := mk_utsname {
  un_sysname : list byte;
  un_nodename : list byte;
  un_release : list byte;
  un_version : list byte;
  un_machine : list byte
}.

Inductive open_mode := O_RDONLY | O_WRONLY_CREAT_TRUNC.

(** ** The environment *)

Class Env (E : Type) := {
  env_do : event → E → E;
  (* kernel *)
  sys_select : Z → gset Z → E → Z * gset Z * E;
  sys_timerfd_create : E → Z * E;
  sys_timerfd_settime : Z → Z * Z → Z * Z → E → Z * E;
  sys_read : Z → Z → E → Z * list byte * E;
  sys_write : Z → list byte → E → Z * E;
  sys_accept : Z → E → Z * E;
  sys_socket_unix : E → Z * E;
  sys_socket_inet : E → Z * E;
  sys_bind : Z → list byte → E → Z * E;
  sys_listen : Z → Z → E → Z * E;
  sys_open : list byte → open_mode → E → Z * E;
  sys_sysinfo : E → option sysinfo_t * E;
  sys_uname : E → option utsname_t * E;
  sys_ifaddr : Z → list byte → E → list byte * E;
  sys_geteuid : E → Z * E;
  (* libuuid and OpenSSL *)
  uuid_unparsed : E → list byte * E;
  RAND_bytes : Z → E → option (list byte) * E;
  base64 : list byte → list byte;
  (* libc's resolver: for each address, whether it is IPv4 or IPv6 *)
  getaddrinfo : list byte → E → option (list (bool * list byte)) * E;
  (* libcoap *)
  coap_split_uri : list byte → option coap_uri_t;
  coap_split_path : list byte → list (list byte);
  coap_split_query : list byte → list (list byte);
  coap_new_context : E → option Z * E;
  coap_new_client_session : Z → option (list byte * list byte) → list byte → Z → E → option Z * E;
  coap_new_pdu : Z → E → bool * E;
  coap_new_message_id : Z → E → Z * E;
  coap_add_token : Z → list byte → E → bool * E;
  coap_pdu_room : coap_pdu_t → list byte → bool;
  coap_context_get_coap_fd : Z → E → Z * E;
  coap_io_process : Z → E → list coap_input * E;
  coap_dtls_is_supported : E → bool * E;
  coap_new_endpoint : Z → Z → bool → E → bool * E;
  coap_resource_init : option (list byte) → E → option Z * E
}.

(** What the program relies on: an answer of the resolver has an IPv4 or IPv6
    address, a read stores at most what was asked and answers with the number
    of bytes it stored. *)
Class EnvLaws (E : Type) `{Env E} : Prop := {
  getaddrinfo_law h e l e' : getaddrinfo h e = (Some l, e') → is_Some (find_first fst l);
  read_law fd n e rc bs e' : sys_read fd n e = (rc, bs, e') → 0 ≤ n → rc ≤ n ∧ (0 ≤ rc → zlen bs = rc)
}.

(** ** The variables of each component *)

(** [alarm/atlas_alarm.c]; [al_addr] is the address of the entry. *)
Record atlas_alarm_entry_t := mk_alarm {
  al_addr : nat;
  alarm_id : Z;
  al_callback : alarm_cb;
  run_once : bool
}.

(** [coap/atlas_coap_client.c] *)
Record atlas_coap_client_req_t := mk_req {
  rq_addr : nat;
  coap_fd : Z;
  rq_alarm_id : Z;
  rq_ctx : Z;
  rq_session : Z;
  rq_uri : list byte;
  rq_token : Z;
  rq_callback : client_cb;
  rq_dirty : bool
}.

(** [dtls_psk], whose strings are in the arrays [dtls_identity], [dtls_key]. *)
Record coap_dtls_cpsk_t := mk_cpsk {
  dtls_identity : list byte;
  dtls_key : list byte;
  psk_identity_len : Z;
  psk_key_len : Z
}.

(** [coap/atlas_coap_server.c] *)
Record atlas_coap_server_listener_t := mk_listener {
  ls_addr : nat;
  ls_resource : Z;
  ls_callback : server_cb;
  ls_uri_path : list byte
}.

Record coap_server_t := mk_server {
  srv_key : list byte;
  srv_ctx : option Z;
  srv_fd : Z;
  server_listeners : atlas_coap_method_t → list atlas_coap_server_listener_t
}.

(** [utils/atlas_config.c]: heap blocks, or NULL. *)
Record config_t := mk_config {
  gw_hostname : option (list byte);
  gw_port : option (list byte);
  local_iface : option (list byte);
  local_port : Z
}.

(** [identity/atlas_identity.c]: two arrays of 65 characters. *)
Record identity_t := mk_identity {
  identity : list byte;
  psk : list byte
}.

(** [register/atlas_register.c] *)
Record register_t := mk_register {
  registered : Z;
  ka_token : Z;
  ka_count : Z;
  ka_alarm_id : Z
}.

(** [telemetry/atlas_telemetry.c] *)
Record atlas_telemetry_t := mk_telemetry {
  tl_uri_path : list byte;
  tl_payload_cb : payload_cb;
  push_id : Z;
  threshold_id : Z
}.

(** [data_plane_connector/atlas_data_plane_connector.c] *)
Record connector_t := mk_connector {
  connected_socket : Z;
  policy_qos : Z;
  policy_packets_per_min : Z;
  policy_packets_maxlen : Z;
  active_policy : Z;
  packets_per_min : Z;
  packets_avg : Z
}.

(** ** The world *)

Section World.
Context {E : Type}.

Record World := mk_world {
  w_env : E;
  w_trace : list event;
  w_brk : nat;
  w_sched : list (atlas_sched_entry_t sched_cb);
  w_alarms : list atlas_alarm_entry_t;
  w_reqs : list atlas_coap_client_req_t;
  w_token : Z;
  w_dtls : coap_dtls_cpsk_t;
  w_server : coap_server_t;
  w_cfg : config_t;
  w_id : identity_t;
  w_register : register_t;
  w_features : list atlas_telemetry_t;
  w_procs_threshold : Z;
  w_connector : connector_t;
  w_cmdInProgress : bool
}.

Definition with_env (x : E) (w : World) : World :=
  mk_world x (w_trace w) (w_brk w) (w_sched w) (w_alarms w) (w_reqs w) (w_token w) (w_dtls w) (w_server w) (w_cfg w) (w_id w) (w_register w) (w_features w) (w_procs_threshold w) (w_connector w) (w_cmdInProgress w).
Definition with_trace (x : list event) (w : World) : World :=
  mk_world (w_env w) x (w_brk w) (w_sched w) (w_alarms w) (w_reqs w) (w_token w) (w_dtls w) (w_server w) (w_cfg w) (w_id w) (w_register w) (w_features w) (w_procs_threshold w) (w_connector w) (w_cmdInProgress w).
Definition with_brk (x : nat) (w : World) : World :=
  mk_world (w_env w) (w_trace w) x (w_sched w) (w_alarms w) (w_reqs w) (w_token w) (w_dtls w) (w_server w) (w_cfg w) (w_id w) (w_register w) (w_features w) (w_procs_threshold w) (w_connector w) (w_cmdInProgress w).
Definition with_sched (x : list (atlas_sched_entry_t sched_cb)) (w : World) : World :=
  mk_world (w_env w) (w_trace w) (w_brk w) x (w_alarms w) (w_reqs w) (w_token w) (w_dtls w) (w_server w) (w_cfg w) (w_id w) (w_register w) (w_features w) (w_procs_threshold w) (w_connector w) (w_cmdInProgress w).
Definition with_alarms (x : list atlas_alarm_entry_t) (w : World) : World :=
  mk_world (w_env w) (w_trace w) (w_brk w) (w_sched w) x (w_reqs w) (w_token w) (w_dtls w) (w_server w) (w_cfg w) (w_id w) (w_register w) (w_features w) (w_procs_threshold w) (w_connector w) (w_cmdInProgress w).
Definition with_reqs (x : list atlas_coap_client_req_t) (w : World) : World :=
  mk_world (w_env w) (w_trace w) (w_brk w) (w_sched w) (w_alarms w) x (w_token w) (w_dtls w) (w_server w) (w_cfg w) (w_id w) (w_register w) (w_features w) (w_procs_threshold w) (w_connector w) (w_cmdInProgress w).
Definition with_token (x : Z) (w : World) : World :=
  mk_world (w_env w) (w_trace w) (w_brk w) (w_sched w) (w_alarms w) (w_reqs w) x (w_dtls w) (w_server w) (w_cfg w) (w_id w) (w_register w) (w_features w) (w_procs_threshold w) (w_connector w) (w_cmdInProgress w).
Definition with_dtls (x : coap_dtls_cpsk_t) (w : World) : World :=
  mk_world (w_env w) (w_trace w) (w_brk w) (w_sched w) (w_alarms w) (w_reqs w) (w_token w) x (w_server w) (w_cfg w) (w_id w) (w_register w) (w_features w) (w_procs_threshold w) (w_connector w) (w_cmdInProgress w).
Definition with_server (x : coap_server_t) (w : World) : World :=
  mk_world (w_env w) (w_trace w) (w_brk w) (w_sched w) (w_alarms w) (w_reqs w) (w_token w) (w_dtls w) x (w_cfg w) (w_id w) (w_register w) (w_features w) (w_procs_threshold w) (w_connector w) (w_cmdInProgress w).
Definition with_cfg (x : config_t) (w : World) : World :=
  mk_world (w_env w) (w_trace w) (w_brk w) (w_sched w) (w_alarms w) (w_reqs w) (w_token w) (w_dtls w) (w_server w) x (w_id w) (w_register w) (w_features w) (w_procs_threshold w) (w_connector w) (w_cmdInProgress w).
Definition with_id (x : identity_t) (w : World) : World :=
  mk_world (w_env w) (w_trace w) (w_brk w) (w_sched w) (w_alarms w) (w_reqs w) (w_token w) (w_dtls w) (w_server w) (w_cfg w) x (w_register w) (w_features w) (w_procs_threshold w) (w_connector w) (w_cmdInProgress w).
Definition with_register (x : register_t) (w : World) : World :=
  mk_world (w_env w) (w_trace w) (w_brk w) (w_sched w) (w_alarms w) (w_reqs w) (w_token w) (w_dtls w) (w_server w) (w_cfg w) (w_id w) x (w_features w) (w_procs_threshold w) (w_connector w) (w_cmdInProgress w).
Definition with_features (x : list atlas_telemetry_t) (w : World) : World :=
  mk_world (w_env w) (w_trace w) (w_brk w) (w_sched w) (w_alarms w) (w_reqs w) (w_token w) (w_dtls w) (w_server w) (w_cfg w) (w_id w) (w_register w) x (w_procs_threshold w) (w_connector w) (w_cmdInProgress w).
Definition with_procs_threshold (x : Z) (w : World) : World :=
  mk_world (w_env w) (w_trace w) (w_brk w) (w_sched w) (w_alarms w) (w_reqs w) (w_token w) (w_dtls w) (w_server w) (w_cfg w) (w_id w) (w_register w) (w_features w) x (w_connector w) (w_cmdInProgress w).
Definition with_connector (x : connector_t) (w : World) : World :=
  mk_world (w_env w) (w_trace w) (w_brk w) (w_sched w) (w_alarms w) (w_reqs w) (w_token w) (w_dtls w) (w_server w) (w_cfg w) (w_id w) (w_register w) (w_features w) (w_procs_threshold w) x (w_cmdInProgress w).
Definition with_cmdInProgress (x : bool) (w : World) : World :=
  mk_world (w_env w) (w_trace w) (w_brk w) (w_sched w) (w_alarms w) (w_reqs w) (w_token w) (w_dtls w) (w_server w) (w_cfg w) (w_id w) (w_register w) (w_features w) (w_procs_threshold w) (w_connector w) x.

End World.
Arguments World : clear implicits.

(** The values static variables start with. *)
Definition initial_world {E} (e : E) : World E := {|
  w_env := e; w_trace := []; w_brk := 0; w_sched := []; w_alarms := []; w_reqs := [];
  w_token := 0;
  w_dtls := mk_cpsk (replicate 65 x00) (replicate 65 x00) 0 0;
  w_server := mk_server (replicate 65 x00) None 0 (λ _, []);
  w_cfg := mk_config None None None 0;
  w_id := mk_identity (replicate 65 x00) (replicate 65 x00);
  w_register := mk_register 0 0 0 0;
  w_features := [];
  w_procs_threshold := 0;
  w_connector := mk_connector (-1) 0 0 0 0 0 0;
  w_cmdInProgress := false
|}.

#[export] Instance world_sched {E} : SchedState sched_cb (World E) := {|
  get_sched := w_sched;
  set_sched := with_sched;
  get_set_sched _ _ := eq_refl
|}.

(** ** Calls to the environment *)

Section Calls.
Context `{Env E}.

(** A call that answers. *)
Definition call {A} (f : E → A * E) (w : World E) : A * World E :=
  let '(a, e) := f (w_env w) in (a, with_env e w).

(** A call is recorded in the trace. *)
Definition log (ev : event) (w : World E) : World E := with_trace (w_trace w ++ [ev]) w.

(** A call that only has an effect. *)
Definition emit (ev : event) (w : World E) : World E :=
  log ev (with_env (env_do ev (w_env w)) w).

Definition sched_add (fd : Z) (cb : sched_cb) (w : World E) : World E :=
  with_sched (atlas_sched_add_entry fd (Some cb) (w_sched w)) w.

Definition sched_del (fd : Z) (w : World E) : World E :=
  with_sched (atlas_sched_del_entry fd (w_sched w)) w.

(** [read (fd, blk, n)] into an array: the kernel stores at most [n] bytes. *)
Definition read_into (fd n : Z) (blk : list byte) (w : World E)
    : option (Z * list byte * World E) :=
  let '(rc, bs, w) := call (sys_read fd n) (log (EvRead fd) w) in
  blk ← mwrite blk 0 (take (Z.to_nat (Z.min rc n)) bs);
  Some (rc, blk, w).

Definition write_fd (fd : Z) (bs : list byte) (w : World E) : Z * World E :=
  call (sys_write fd bs) (log (EvWrite fd bs) w).

(** A fresh heap address. *)
Definition alloc (w : World E) : nat * World E := (w_brk w, with_brk (S (w_brk w)) w).

End Calls.

(** A call only changes the environment. *)
Lemma call_eq {E A} (f : E → A * E) (w : World E) :
  ∃ a e, call f w = (a, with_env e w) ∧ f (w_env w) = (a, e).
Proof. unfold call. destruct (f (w_env w)) as [a e]. by exists a, e. Qed.

(** Names the answer of the next call of the goal. *)
Ltac dcall a e := match goal with
  | |- context [call ?f ?w] =>
      let E := fresh "E" in let F := fresh "F" in
      destruct (call_eq f w) as (a & e & E & F); rewrite E; clear E
  end.

(** The PDUs that were sent. *)
Definition sent {E} (w : World E) : list (Z * coap_pdu_t) :=
  omap (λ ev, match ev with EvSend s p => Some (s, p) | _ => None end) (w_trace w).

(** The variables of the application above CoAP. *)
Definition app_state {E} (w : World E) :=
  (w_dtls w, w_server w, w_cfg w, w_id w, w_register w, w_features w, w_procs_threshold w,
   w_connector w, w_cmdInProgress w).

(** Computes the fields of an updated world. *)
Ltac wsimpl := cbn [
  w_env w_trace w_brk w_sched w_alarms w_reqs w_token w_dtls w_server w_cfg w_id
  w_register w_features w_procs_threshold w_connector w_cmdInProgress with_env with_trace
  with_brk with_sched with_alarms with_reqs with_token with_dtls with_server with_cfg
  with_id with_register with_features with_procs_threshold with_connector
  with_cmdInProgress log emit fst snd registered ka_token ka_count ka_alarm_id mbind
  option_bind].

(** ** A small environment, for the concrete instances

    Its state is the next number to give out; reads deliver [data] and CoAP
    contexts deliver [inputs]. *)
Definition sim_env (data : list byte) (inputs : list coap_input) : Env Z := {|
  env_do _ n := n;
  sys_select _ r n := (Z.of_nat (size r), r, n);
  sys_timerfd_create n := (Z.abs n, n + 1);
  sys_timerfd_settime _ _ _ n := (0, n);
  sys_read _ k n := (Z.min k (zlen data), take (Z.to_nat k) data, n);
  sys_write _ bs n := (zlen bs, n);
  sys_accept _ n := (n, n + 1);
  sys_socket_unix n := (n, n + 1);
  sys_socket_inet n := (n, n + 1);
  sys_bind _ _ n := (0, n);
  sys_listen _ _ n := (0, n);
  sys_open _ _ n := (Z.abs n, n + 1);
  sys_sysinfo n := (Some (mk_sysinfo 100 (1, 5, 15) 2000 1000 10 20 500 400 42), n);
  sys_uname n := (Some (mk_utsname (B "Linux") (B "iot") (B "5.4") (B "1") (B "armv7l")), n);
  sys_ifaddr _ _ n := (B "10.0.0.2", n);
  sys_geteuid n := (0, n);
  uuid_unparsed n := (B "1b4e28ba-2fa1-11d2-883f-0016d3cca427", n);
  RAND_bytes k n := (Some (replicate (Z.to_nat k) x41), n);
  base64 bs := bs;
  getaddrinfo _ n := (Some [(true, [x7f; x00; x00; x01])], n);
  coap_split_uri s := Some (mk_uri true (B "gw") 5684 (drop 13 s) []);
  coap_split_path p := [p];
  coap_split_query q := [q];
  coap_new_context n := (Some n, n + 1);
  coap_new_client_session _ _ _ _ n := (Some n, n + 1);
  coap_new_pdu _ n := (true, n);
  coap_new_message_id _ n := (n, n + 1);
  coap_add_token _ _ n := (true, n);
  coap_pdu_room _ _ := true;
  coap_context_get_coap_fd c n := (Z.abs c, n);
  coap_io_process _ n := (inputs, n);
  coap_dtls_is_supported n := (true, n);
  coap_new_endpoint _ _ _ n := (true, n);
  coap_resource_init _ n := (Some n, n + 1)
|}.

#[export] Instance sim_env_laws data inputs : @EnvLaws Z (sim_env data inputs).
Proof.
  split.
  - intros h e l e' [= <- <-]. by eexists.
  - intros fd n e rc bs e' [= <- <- <-] Hn. pose proof (zlen_nonneg data). split; [lia|].
    intros _. unfold zlen in *. rewrite length_take. lia.
Qed.
