(* ===== verification/Config.v ===== *)
(** * Configuration ([utils/atlas_config.c])

    The command line options of the client, and the strings made from them.
    The setters copy a string into a block of [malloc (strlen (s))] bytes,
    without room for the terminator: what they do depends on how many bytes
    the allocator really gives, [malloc_usable]. *)

From S2P Require Import Prelude Protocol CString State.

Definition ATLAS_MAX_PORT_VAL : Z := 65535.
Definition ATLAS_COAPS_SCHEMA : list byte := B "coaps://".
Definition ATLAS_PORT_MAX_LEN : Z := 6.
Definition ATLAS_IP_MAX_LEN : Z := 16.
Definition ATLAS_URI_MAX_LEN : Z := 256.
Definition ATLAS_URI_HOSTNAME_MAX_LEN : Z := 128.
Definition IFNAMSIZ : Z := 16.

(** The allocator: a request of [n] bytes gets a block of [malloc_usable n]. *)
Class Malloc := {
  malloc_usable : Z → Z;
  malloc_usable_ge n : n ≤ malloc_usable n
}.

Section Setters.
Context `{Host, Malloc}.

(** [p = malloc (strlen (s)); strcpy (p, s);] *)
Definition copy_string (s : list byte) : option (list byte) :=
  strcpy (malloc (malloc_usable (zlen s))) s.

Definition atlas_cfg_set_hostname (hostname : option (list byte)) (c : config_t)
    : option (atlas_status_t * config_t) :=
  match hostname with
  | None => Some (ATLAS_INVALID_INPUT, c)
  | Some hostname =>
      p ← copy_string hostname;
      Some (ATLAS_OK, mk_config (Some p) (gw_port c) (local_iface c) (local_port c))
  end.

Definition atlas_cfg_set_port (port : option (list byte)) (c : config_t)
    : option (atlas_status_t * config_t) :=
  match port with
  | None => Some (ATLAS_INVALID_INPUT, c)
  | Some port =>
      let port_val := atoi port in
      if decide (port_val <= 0 ∨ port_val > ATLAS_MAX_PORT_VAL) then Some (ATLAS_INVALID_INPUT, c)
      else
        p ← copy_string port;
        Some (ATLAS_OK, mk_config (gw_hostname c) (Some p) (local_iface c) (local_port c))
  end.

Definition atlas_cfg_set_local_iface (iface : option (list byte)) (c : config_t)
    : option (atlas_status_t * config_t) :=
  match iface with
  | None => Some (ATLAS_INVALID_INPUT, c)
  | Some iface =>
      p ← copy_string iface;
      Some (ATLAS_OK, mk_config (gw_hostname c) (gw_port c) (Some p) (local_port c))
  end.

Definition atlas_cfg_set_local_port (port : option (list byte)) (c : config_t)
    : atlas_status_t * config_t :=
  match port with
  | None => (ATLAS_INVALID_INPUT, c)
  | Some port =>
      let port_val := atoi port in
      if decide (port_val <= 0 ∨ port_val > ATLAS_MAX_PORT_VAL) then (ATLAS_INVALID_INPUT, c)
      else (ATLAS_OK, mk_config (gw_hostname c) (gw_port c) (local_iface c) (u16 port_val))
  end.

End Setters.

Definition atlas_cfg_get_hostname (c : config_t) : option (list byte) := gw_hostname c.
Definition atlas_cfg_get_port (c : config_t) : option (list byte) := gw_port c.
Definition atlas_cfg_get_local_iface (c : config_t) : option (list byte) := local_iface c.
Definition atlas_cfg_get_local_port (c : config_t) : Z := local_port c.

(** The string behind a pointer that must not be NULL. *)
Definition deref_str (p : option (list byte)) : option (list byte) :=
  blk ← p; cstr_of blk.

(** [uri] is the array the caller passes. *)
Definition atlas_cfg_coap_get_uri (c : config_t) (path : option (list byte))
    (uri : option (list byte)) : option (option (list byte)) :=
  match path, uri with
  | Some path, Some uri =>
      uri ← strcpy uri ATLAS_COAPS_SCHEMA;
      h ← deref_str (gw_hostname c);
      uri ← strcat uri h;
      uri ← strcat uri (B ":");
      p ← deref_str (gw_port c);
      uri ← strcat uri p;
      uri ← strcat uri (B "/");
      uri ← strcat uri path;
      Some (Some uri)
  | _, _ => Some uri
  end.

(** [char uri[ATLAS_URI_MAX_LEN] = { 0 }; atlas_cfg_coap_get_uri (path, uri);]
    and the string in [uri]. *)
Definition cfg_uri (c : config_t) (path : list byte) : option (list byte) :=
  uri ← atlas_cfg_coap_get_uri c (Some path) (Some (zeros ATLAS_URI_MAX_LEN));
  deref_str uri.

Section LocalAddress.
Context `{Env E}.

(** [ip] is the array the caller passes. *)
Definition atlas_cfg_get_local_ip (ip : option (list byte)) (w : World E)
    : option (atlas_status_t * option (list byte) * World E) :=
  match ip with
  | None => Some (ATLAS_INVALID_INPUT, ip, w)
  | Some ip =>
      let '(fd, w) := call sys_socket_inet w in
      if decide (fd < 0) then Some (ATLAS_GENERAL_ERR, Some ip, w) else
      iface ← deref_str (local_iface (w_cfg w));
      let '(addr, w) := call (sys_ifaddr fd (take (Z.to_nat (IFNAMSIZ - 1)) iface)) w in
      let w := emit (EvClose fd) w in
      ip ← strcpy ip addr;
      Some (ATLAS_OK, Some ip, w)
  end.

Definition atlas_cfg_get_local_ipPort (ipPort : list byte) (w : World E)
    : option (atlas_status_t * list byte * World E) :=
  '(status, ip, w) ← atlas_cfg_get_local_ip (Some (zeros ATLAS_IP_MAX_LEN)) w;
  if decide (status = ATLAS_OK) then
    ip ← deref_str ip;
    (* snprintf keeps at most ATLAS_PORT_MAX_LEN - 1 characters *)
    let port := take (Z.to_nat (ATLAS_PORT_MAX_LEN - 1)) (decimal (local_port (w_cfg w))) in
    ipPort ← strncpy ipPort ip ATLAS_IP_MAX_LEN;
    ipPort ← strcat ipPort (B ":");
    ipPort ← strncat ipPort port ATLAS_PORT_MAX_LEN;
    Some (ATLAS_OK, ipPort, w)
  else Some (status, ipPort, w).

End LocalAddress.

(** ** Lemmas *)

Section ConfigLemmas.

Lemma deref_str_in blk s : cstr_in blk s → deref_str (Some blk) = Some s.
Proof. apply cstr_of_in. Qed.

(** A string is copied exactly when the allocator gives a byte more than asked. *)
Lemma copy_string_spec `{Host, Malloc} s :
  nul_free s →
  (zlen s < malloc_usable (zlen s) → ∃ p, copy_string s = Some p ∧ cstr_in p s) ∧
  (malloc_usable (zlen s) = zlen s → copy_string s = None).
Proof.
  intros Hs. unfold copy_string. pose proof (zlen_nonneg s).
  assert (∀ n, 0 ≤ n → zlen (malloc n) = n) as Hm
    by (intros; unfold malloc; rewrite zlen_replicate; lia).
  split; intros Hu.
  - destruct (strcpy_in (malloc (malloc_usable (zlen s))) s Hs) as (p & -> & Hp & _);
      [rewrite Hm; lia|]. eauto.
  - apply strcpy_overflow. rewrite Hm; lia.
Qed.

Definition uri_of (h p path : list byte) : list byte :=
  ATLAS_COAPS_SCHEMA ++ h ++ B ":" ++ p ++ B "/" ++ path.

Lemma cfg_uri_eq c hb pb h p path :
  gw_hostname c = Some hb → cstr_in hb h → gw_port c = Some pb → cstr_in pb p → nul_free path →
  cfg_uri c path =
  if decide (zlen (uri_of h p path) < ATLAS_URI_MAX_LEN) then Some (uri_of h p path) else None.
Proof.
  intros Hh Hch Hp Hcp Hpath. unfold cfg_uri, atlas_cfg_coap_get_uri. rewrite Hh, Hp.
  rewrite (deref_str_in hb h), (deref_str_in pb p) by done.
  pose proof (proj1 Hch) as Hhn. pose proof (proj1 Hcp) as Hpn.
  assert (nul_free ATLAS_COAPS_SCHEMA ∧ nul_free (B ":") ∧ nul_free (B "/")) as (Hs & Hcol & Hsl)
    by (split_and!; apply (bool_decide_unpack _); by vm_compute).
  destruct (strcpy_in (zeros ATLAS_URI_MAX_LEN) ATLAS_COAPS_SCHEMA Hs ltac:(done))
    as (b0 & -> & C0 & Z0).
  pose proof (strcats_spec [h; B ":"; p; B "/"; path] b0 _ C0
    ltac:(apply (Forall_cons_2 _); [done|]; repeat (apply Forall_cons_2; [done|]); apply Forall_nil_2)) as HS.
  rewrite Z0, (zlen_zeros ATLAS_URI_MAX_LEN) in HS by done.
  replace (ATLAS_COAPS_SCHEMA ++ concat [h; B ":"; p; B "/"; path]) with (uri_of h p path) in HS
    by (unfold uri_of; cbn [concat]; by rewrite app_nil_r).
  transitivity (b ← strcats b0 [h; B ":"; p; B "/"; path]; cstr_of b).
  { cbn [strcats mbind option_bind].
    repeat (destruct (strcat _ _); cbn [mbind option_bind]; [|done]). done. }
  destruct (strcats b0 _) as [b|]; cbn [mbind option_bind].
  - destruct HS as [HS Hlt]. rewrite decide_True by exact Hlt. by apply cstr_of_in.
  - by rewrite decide_False by lia.
Qed.

Lemma deref_str_None : deref_str None = None.
Proof. done. Qed.

(** The address and port string fits its array. *)
Lemma local_ipPort_eq `{Env E} (w : World E) fd e addr e' iface ib :
  sys_socket_inet (w_env w) = (fd, e) → 0 ≤ fd →
  local_iface (w_cfg w) = Some ib → cstr_in ib iface →
  sys_ifaddr fd (take 15 iface) e = (addr, e') →
  nul_free addr → zlen addr < 16 → 0 ≤ local_port (w_cfg w) < 65536 →
  ∃ blk, atlas_cfg_get_local_ipPort (zeros 22) w =
    Some (ATLAS_OK, blk, emit (EvClose fd) (with_env e' (with_env e w))) ∧
  cstr_in blk (addr ++ B ":" ++ decimal (local_port (w_cfg w))).
Proof.
  intros Hsock Hfd Hif Hib Haddr Hnf Hl Hport.
  unfold atlas_cfg_get_local_ipPort, atlas_cfg_get_local_ip, call.
  rewrite Hsock, decide_False by lia. cbn [with_env w_cfg w_env]. rewrite Hif.
  rewrite (deref_str_in ib iface Hib). cbn [mbind option_bind].
  replace (Z.to_nat (IFNAMSIZ - 1)) with 15%nat by done. rewrite Haddr.
  destruct (strcpy_in (zeros ATLAS_IP_MAX_LEN) addr Hnf ltac:(by rewrite zlen_zeros))
    as (ib' & -> & Hc & Hz). cbn [mbind option_bind].
  rewrite decide_True by done. rewrite (deref_str_in ib' addr Hc). cbn [mbind option_bind].
  destruct (strncpy_in (zeros 22) addr ATLAS_IP_MAX_LEN Hnf Hl ltac:(done)) as (b1 & -> & C1 & Z1).
  cbn [mbind option_bind].
  assert (nul_free (B ":")) as Hcol by (apply (bool_decide_unpack _); by vm_compute).
  pose proof (decimal_port (local_port (w_cfg w)) Hport) as Hd.
  pose proof (decimal_nul_free (local_port (w_cfg w)) ltac:(unfold LONG_MAX; lia)) as Hdn.
  destruct (strcat_in b1 addr (B ":") C1 Hcol) as (b2 & -> & C2 & Z2).
  { rewrite Z1. change (zlen (zeros 22)) with 22. change (zlen (B ":")) with 1. lia. }
  cbn [mbind option_bind emit log with_trace with_env w_cfg].
  rewrite take_ge by (unfold zlen, ATLAS_PORT_MAX_LEN in *; lia).
  rewrite strncat_strcat by (unfold ATLAS_PORT_MAX_LEN; lia).
  destruct (strcat_in b2 _ (decimal (local_port (w_cfg w))) C2 Hdn) as (b3 & -> & C3 & Z3).
  { rewrite Z2, Z1. change (zlen (zeros 22)) with 22. rewrite zlen_app.
    change (zlen (B ":")) with 1. lia. }
  cbn [mbind option_bind]. exists b3. split; [done|]. by rewrite <- app_assoc in C3.
Qed.

End ConfigLemmas.

(** ** Properties *)

Section Properties.
Context `{Host, Malloc}.

(** A string option is stored when the allocator gives more bytes than the
    code asks for; when it gives exactly what is asked, the terminator is
    written past the block, for every string, the empty one included. *)
Theorem string_options_off_by_one s c :
  nul_free s →
  (malloc_usable (zlen s) = zlen s →
     atlas_cfg_set_hostname (Some s) c = None ∧ atlas_cfg_set_local_iface (Some s) c = None) ∧
  (zlen s < malloc_usable (zlen s) → ∃ p,
     cstr_in p s ∧
     atlas_cfg_set_hostname (Some s) c =
       Some (ATLAS_OK, mk_config (Some p) (gw_port c) (local_iface c) (local_port c)) ∧
     atlas_cfg_set_local_iface (Some s) c =
       Some (ATLAS_OK, mk_config (gw_hostname c) (gw_port c) (Some p) (local_port c))).
Proof.
  intros Hs. destruct (copy_string_spec s Hs) as [Hroom Hno].
  unfold atlas_cfg_set_hostname, atlas_cfg_set_local_iface. split.
  - intros Hu. by rewrite Hno.
  - intros Hu. destruct (Hroom Hu) as (p & -> & Hp). by exists p.
Qed.

(** A printed port number is accepted, and stored as that number, exactly
    in the range 1 to 65535. *)
Theorem local_port_range n c :
  0 ≤ n < 2 ^ 31 →
  atlas_cfg_set_local_port (Some (decimal n)) c =
  if decide (1 ≤ n ≤ 65535)
  then (ATLAS_OK, mk_config (gw_hostname c) (gw_port c) (local_iface c) n)
  else (ATLAS_INVALID_INPUT, c).
Proof.
  intros Hn. unfold atlas_cfg_set_local_port, atoi, ATLAS_MAX_PORT_VAL.
  rewrite strtol_decimal by (unfold LONG_MAX; lia). cbn [fst].
  rewrite i32_small by lia.
  repeat case_decide; try done; try lia. by rewrite u16_small by lia.
Qed.

(** With the hostname [h] and the port string [p] stored by the setters,
    the URI of a path is coaps://h:p/path, and it is written without leaving
    the array of 256 characters exactly when it has at most 255. The setters
    do not bound [p], which may have any number of leading zeros. *)
Theorem coap_uri_bounds c0 c1 c2 h p path :
  nul_free h → nul_free p → nul_free path →
  (∀ n, 0 ≤ n → n < malloc_usable n) → 1 ≤ atoi p ≤ 65535 →
  atlas_cfg_set_hostname (Some h) c0 = Some (ATLAS_OK, c1) →
  atlas_cfg_set_port (Some p) c1 = Some (ATLAS_OK, c2) →
  cfg_uri c2 path =
  if decide (zlen (uri_of h p path) ≤ 255) then Some (uri_of h p path) else None.
Proof.
  intros Hh Hp Hpath Hu Hat. unfold atlas_cfg_set_hostname, atlas_cfg_set_port.
  destruct (proj1 (copy_string_spec h Hh) (Hu _ (zlen_nonneg h))) as (hb & -> & Ch).
  destruct (proj1 (copy_string_spec p Hp) (Hu _ (zlen_nonneg p))) as (pb & -> & Cp).
  cbn [mbind option_bind]. intros [= <-].
  rewrite decide_False by (unfold ATLAS_MAX_PORT_VAL; lia). intros [= <-].
  rewrite (cfg_uri_eq _ hb pb h p path) by done. unfold ATLAS_URI_MAX_LEN.
  repeat case_decide; (done || lia).
Qed.

(** The address sent to the gateway is the address of the interface, a
    colon and the decimal local port; with a dotted address of at most 15
    characters it fits the array of the callers, and the socket is closed. *)
Theorem local_address_string `{Env E} (w : World E) fd e addr e' iface ib :
  sys_socket_inet (w_env w) = (fd, e) → 0 ≤ fd →
  local_iface (w_cfg w) = Some ib → cstr_in ib iface →
  sys_ifaddr fd (take 15 iface) e = (addr, e') →
  nul_free addr → zlen addr < 16 → 0 ≤ local_port (w_cfg w) < 65536 →
  ∃ blk w', atlas_cfg_get_local_ipPort (zeros 22) w = Some (ATLAS_OK, blk, w') ∧
    cstr_in blk (addr ++ B ":" ++ decimal (local_port (w_cfg w))) ∧
    w_trace w' = w_trace w ++ [EvClose fd].
Proof.
  intros. destruct (local_ipPort_eq w fd e addr e' iface ib) as (blk & Heq & Hc); [done..|].
  eexists blk, _. split_and!; [exact Heq|done|done].
Qed.

End Properties.

(** An allocator that gives exactly what is asked, and one that rounds up. *)
Definition exact_malloc : Malloc := {| malloc_usable n := n; malloc_usable_ge n := Z.le_refl n |}.

Definition padded_malloc : Malloc.
Proof. refine {| malloc_usable n := n + 8 |}. intros. lia. Defined.

Definition config0 : config_t := mk_config None None None 0.

Lemma string_options_off_by_one_witness :
  @atlas_cfg_set_hostname le_host exact_malloc (Some (B "gw")) config0 = None ∧
  @atlas_cfg_set_local_iface le_host exact_malloc (Some (B "gw")) config0 = None.
Proof.
  apply (@string_options_off_by_one le_host exact_malloc (B "gw") config0);
    [by apply (bool_decide_unpack _); vm_compute|done].
Defined.

Lemma local_port_range_witness :
  atlas_cfg_set_local_port (Some (decimal 5684)) config0 =
  (ATLAS_OK, mk_config None None None 5684).
Proof. apply (local_port_range 5684 config0). lia. Defined.

Lemma coap_uri_bounds_witness :
  let gw := Some (B "gw" ++ x00 :: replicate 7 xff) in
  let port := Some (B "5684" ++ x00 :: replicate 7 xff) in
  cfg_uri (mk_config gw port None 0) (B "x") = Some (B "coaps://gw:5684/x").
Proof.
  intros gw port.
  refine (@coap_uri_bounds le_host padded_malloc config0 (mk_config gw None None 0) _
    (B "gw") (B "5684") (B "x") _ _ _ _ _ _ _);
    [by apply (bool_decide_unpack _); vm_compute..| | | |]; [|by vm_compute..].
  intros n _. cbn. lia.
Defined.

Lemma local_address_string_witness :
  let w := with_cfg (mk_config None None (Some (B "eth0" ++ [x00])) 5684) (initial_world 3) in
  ∃ blk w', @atlas_cfg_get_local_ipPort _ (sim_env [] []) (zeros 22) w = Some (ATLAS_OK, blk, w') ∧
    cstr_in blk (B "10.0.0.2" ++ B ":" ++ decimal 5684) ∧ w_trace w' = [] ++ [EvClose 3].
Proof.
  intros w.
  apply (@local_address_string _ (sim_env [] []) w 3 4 (B "10.0.0.2") 4 (B "eth0") (B "eth0" ++ [x00]));
    [done|lia|done| |done|by apply (bool_decide_unpack _); vm_compute|done|].
  - split; [by apply (bool_decide_unpack _); vm_compute|by exists []].
  - split; [by vm_compute|done].
Defined.

(** A configured world, for the instances. *)
Definition world_cfg : World Z :=
  with_cfg (mk_config (Some (B "gw" ++ [x00])) (Some (B "5684" ++ [x00]))
    (Some (B "eth0" ++ [x00])) 5683) (initial_world 20).
