(* ===== verification/Identity.v ===== *)
(** * Identity ([identity/atlas_identity.c])

    The identity and the pre-shared key of the device live in two files of the
    working directory, which the first start creates. *)

From S2P Require Import Prelude Protocol CString State.

Definition ATLAS_IDENTITY_FILE : list byte := B "atlas_client.identity".
Definition ATLAS_PSK_FILE : list byte := B "atlas_client.psk".
Definition ATLAS_IDENTITY_LEN : Z := 64.
Definition ATLAS_PSK_LEN : Z := 64.

Section Identity.
Context `{Host, Env E}.
Implicit Types w : World E.

Definition put_identity (x : list byte) w : World E :=
  with_id (mk_identity x (psk (w_id w))) w.
Definition put_psk (x : list byte) w : World E :=
  with_id (mk_identity (identity (w_id w)) x) w.

Definition atlas_generate_identity w : option (atlas_status_t * World E) :=
  let '(fd, w) := call (sys_open ATLAS_IDENTITY_FILE O_WRONLY_CREAT_TRUNC) w in
  if decide (fd < 0) then Some (ATLAS_IDENTITY_FILE_ERROR, w) else
  let '(uuid, w) := call uuid_unparsed w in
  arr ← strcpy (identity (w_id w)) uuid;
  let w := put_identity arr w in
  s ← cstr_of (identity (w_id w));
  let '(_, w) := write_fd fd s w in
  let w := emit (EvClose fd) w in
  Some (ATLAS_OK, w).

Definition to_base64 (inp : list byte) (out : list byte) (out_len : Z) : option (list byte) :=
  let data := base64 inp in
  let n := if decide (out_len > zlen data) then zlen data else out_len in
  d ← mread data 0 n;
  mwrite out 0 d.

Definition atlas_generate_psk w : option (atlas_status_t * World E) :=
  let '(fd, w) := call (sys_open ATLAS_PSK_FILE O_WRONLY_CREAT_TRUNC) w in
  if decide (fd < 0) then Some (ATLAS_PSK_FILE_ERROR, w) else
  let '(rand_bytes, w) := call (RAND_bytes (ATLAS_PSK_LEN / 2)) w in
  match rand_bytes with
  | None => Some (ATLAS_PSK_FILE_ERROR, emit (EvClose fd) w)
  | Some rand_bytes =>
      arr ← to_base64 rand_bytes (zeros (ATLAS_PSK_LEN + 1)) ATLAS_PSK_LEN;
      let w := put_psk arr w in
      let '(_, w) := write_fd fd (psk (w_id w)) w in
      Some (ATLAS_OK, emit (EvClose fd) w)
  end.

(** The label [ERR]. *)
Definition identity_err (status : atlas_status_t) w : option (atlas_status_t * World E) :=
  Some (status, emit (EvRemove ATLAS_PSK_FILE) (emit (EvRemove ATLAS_IDENTITY_FILE) w)).

(** The second half of [atlas_identity_init]. *)
Definition identity_init_psk w : option (atlas_status_t * World E) :=
  let '(fd, w) := call (sys_open ATLAS_PSK_FILE O_RDONLY) w in
  if decide (fd < 0) then
    '(status, w) ← atlas_generate_psk w;
    if decide (status = ATLAS_OK) then Some (ATLAS_OK, w)
    else identity_err ATLAS_PSK_FILE_ERROR w
  else
    '(len, arr, w) ← read_into fd ATLAS_PSK_LEN (zeros (ATLAS_PSK_LEN + 1)) w;
    let w := emit (EvClose fd) (put_psk arr w) in
    if decide (len <= 0) then identity_err ATLAS_PSK_FILE_ERROR w
    else Some (ATLAS_OK, w).

Definition atlas_identity_init w : option (atlas_status_t * World E) :=
  let '(fd, w) := call (sys_open ATLAS_IDENTITY_FILE O_RDONLY) w in
  if decide (fd < 0) then
    '(status, w) ← atlas_generate_identity w;
    if decide (status = ATLAS_OK) then identity_init_psk w
    else identity_err ATLAS_IDENTITY_FILE_ERROR w
  else
    '(len, arr, w) ← read_into fd ATLAS_IDENTITY_LEN (zeros (ATLAS_IDENTITY_LEN + 1)) w;
    let w := emit (EvClose fd) (put_identity arr w) in
    if decide (len <= 0) then identity_err ATLAS_IDENTITY_FILE_ERROR w
    else identity_init_psk w.

(** What a caller that reads the string behind the pointer gets. *)
Definition atlas_identity_get w : option (list byte) := cstr_of (identity (w_id w)).
Definition atlas_psk_get w : option (list byte) := cstr_of (psk (w_id w)).

(** The two arrays hold strings. *)
Definition identity_ok w : Prop :=
  ∃ i p, cstr_in (identity (w_id w)) i ∧ cstr_in (psk (w_id w)) p ∧
    zlen (identity (w_id w)) = 65 ∧ zlen (psk (w_id w)) = 65.

End Identity.

(** Computes the fields of an updated world, the two arrays included. *)
Ltac idsimpl := unfold put_psk, put_identity; wsimpl; cbn [identity psk].

(** ** Lemmas *)

Section IdentityLemmas.
Context `{Host, Env E}.
Implicit Types w : World E.

(** The first [n] bytes a read stores. *)
Definition stored (n rc : Z) (bs : list byte) : list byte := take (Z.to_nat (Z.min rc n)) bs.

Lemma zlen_stored n rc bs : 0 ≤ n → zlen (stored n rc bs) ≤ n.
Proof. unfold stored, zlen. rewrite length_take. lia. Qed.

Lemma read_into_zeros fd n m w rc bs e :
  0 ≤ n < m → sys_read fd n (w_env w) = (rc, bs, e) →
  read_into fd n (zeros m) w =
  Some (rc, stored n rc bs ++ zeros (m - zlen (stored n rc bs)), with_env e (log (EvRead fd) w)).
Proof.
  intros Hn Hr. unfold read_into, call. cbn [log with_trace w_env]. rewrite Hr.
  fold (stored n rc bs). pose proof (zlen_stored n rc bs ltac:(lia)).
  by rewrite mwrite_zeros by lia.
Qed.

(** The array after [to_base64] of 64 characters at most. *)
Lemma to_base64_zeros inp :
  to_base64 inp (zeros 65) 64 =
  Some (take 64 (base64 inp) ++ zeros (65 - zlen (take 64 (base64 inp)))).
Proof.
  unfold to_base64. set (d := base64 inp). pose proof (zlen_nonneg d).
  assert (zlen (take 64 d) ≤ 64) by (unfold zlen; rewrite length_take; lia).
  destruct (decide (64 > zlen d)) as [Hd|Hd].
  - unfold mread. rewrite decide_True by lia. cbn [mbind option_bind].
    change (drop (Z.to_nat 0) d) with d. rewrite zlen_nat, firstn_all.
    rewrite (take_ge d 64) by (unfold zlen in *; lia). apply mwrite_zeros. lia.
  - unfold mread. rewrite decide_True by lia. cbn [mbind option_bind].
    change (drop (Z.to_nat 0) d) with d. change (Z.to_nat 64) with 64%nat.
    apply mwrite_zeros. lia.
Qed.

(** The first 64 bytes of the key array, and a zero. *)
Lemma key_array (key : list byte) :
  zlen key ≤ 64 →
  let a := key ++ zeros (65 - zlen key) in
  take 64 a ++ zeros (65 - zlen (take 64 a)) = a.
Proof.
  intros Hk a. pose proof (zlen_nonneg key).
  assert (a = (key ++ zeros (64 - zlen key)) ++ [x00]) as Ha.
  { subst a. rewrite <- app_assoc. f_equal. unfold zeros.
    replace (Z.to_nat (65 - zlen key)) with (Z.to_nat (64 - zlen key) + 1)%nat by lia.
    by rewrite replicate_add. }
  assert (length (key ++ zeros (64 - zlen key)) = 64%nat) as Hl.
  { rewrite length_app. unfold zeros. rewrite length_replicate. unfold zlen in *. lia. }
  assert (take 64 a = key ++ zeros (64 - zlen key)) as Ht by (rewrite Ha; by apply take_app_length').
  rewrite Ht. unfold zlen at 2. rewrite Hl. by rewrite Ha.
Qed.

End IdentityLemmas.

(** ** Properties *)

Section IdentityProperties.
Context `{Host, Env E}.
Implicit Types w : World E.

(** What the program relies on in libuuid: [uuid_unparse_lower] gives a string
    that fits the array, 36 characters. *)
Definition uuid_law : Prop :=
  ∀ e : E, nul_free (uuid_unparsed e).1 ∧ zlen (uuid_unparsed e).1 = 36.

Lemma identity_err_removes st w :
  st ≠ ATLAS_OK →
  ∃ w', identity_err st w = Some (st, w') ∧
    (st = ATLAS_OK → identity_ok w') ∧
    (st ≠ ATLAS_OK → ∃ l, w_trace w' =
      l ++ [EvRemove ATLAS_IDENTITY_FILE; EvRemove ATLAS_PSK_FILE]).
Proof.
  intros. eexists. split; [reflexivity|]. split; [done|]. exists (w_trace w).
  wsimpl. by rewrite <- app_assoc.
Qed.

(** The calls for the identity: what the environment is afterwards, or [None]
    when the file can neither be read nor created. *)
Definition identity_phase (e : E) : option E :=
  let '(fd, e) := sys_open ATLAS_IDENTITY_FILE O_RDONLY e in
  if decide (fd < 0) then
    let '(fd, e) := sys_open ATLAS_IDENTITY_FILE O_WRONLY_CREAT_TRUNC e in
    if decide (fd < 0) then None else
    let '(uuid, e) := uuid_unparsed e in
    Some (env_do (EvClose fd) (sys_write fd uuid e).2)
  else
    let '(len, _, e) := sys_read fd 64 e in
    if decide (len <= 0) then None else Some (env_do (EvClose fd) e).

(** Whether the calls for the key succeed: its file can be read, or else it
    can be created and there are random bytes. *)
Definition psk_phase (e : E) : bool :=
  let '(fd, e) := sys_open ATLAS_PSK_FILE O_RDONLY e in
  if decide (fd < 0) then
    let '(fd, e) := sys_open ATLAS_PSK_FILE O_WRONLY_CREAT_TRUNC e in
    bool_decide (0 ≤ fd) && bool_decide (is_Some (RAND_bytes 32 e).1)
  else bool_decide (0 < (sys_read fd 64 e).1.1).

(** The answer of the initialisation. *)
Definition identity_status (e : E) : atlas_status_t :=
  match identity_phase e with
  | None => ATLAS_IDENTITY_FILE_ERROR
  | Some e => if psk_phase e then ATLAS_OK else ATLAS_PSK_FILE_ERROR
  end.

Lemma init_psk_outcome w :
  cstr_in (identity (w_id w)) (c_string (identity (w_id w))) → zlen (identity (w_id w)) = 65 →
  let status := if psk_phase (w_env w) then ATLAS_OK else ATLAS_PSK_FILE_ERROR in
  ∃ w', identity_init_psk w = Some (status, w') ∧
    (status = ATLAS_OK → identity_ok w') ∧
    (status ≠ ATLAS_OK → ∃ l, w_trace w' =
       l ++ [EvRemove ATLAS_IDENTITY_FILE; EvRemove ATLAS_PSK_FILE]).
Proof.
  intros Hi Hl. unfold identity_init_psk, psk_phase, call.
  destruct (sys_open _ _ _) as [fd e1]. case_decide.
  - unfold atlas_generate_psk, call. cbn [with_env w_env].
    destruct (sys_open _ _ _) as [fd2 e2]. case_decide.
    { rewrite bool_decide_false by lia. by apply identity_err_removes. }
    rewrite bool_decide_true by lia. cbn [with_env w_env andb].
    change (ATLAS_PSK_LEN / 2) with 32. destruct (RAND_bytes _ _) as [[rb|] e3]; cbn [fst].
    2:{ rewrite bool_decide_false by (by intros []). by apply identity_err_removes. }
    rewrite bool_decide_true by done.
    change (ATLAS_PSK_LEN + 1) with 65. unfold ATLAS_PSK_LEN. rewrite to_base64_zeros.
    cbn [mbind option_bind]. unfold write_fd, call. destruct (sys_write _ _ _) as [rc e4].
    eexists. split; [reflexivity|]. split; [intros _|done].
    pose proof (zlen_take_le (base64 rb) 64).
    eexists (c_string (identity (w_id w))), _. idsimpl.
    split_and!; [done| |done|].
    + apply zeros_tail_string. lia.
    + rewrite zlen_app, zlen_zeros by lia. lia.
  - change (ATLAS_PSK_LEN + 1) with 65. unfold ATLAS_PSK_LEN.
    destruct (sys_read fd 64 e1) as [[rc bs] e2] eqn:Er. cbn [fst].
    rewrite (read_into_zeros fd 64 65 (with_env e1 w) rc bs e2) by (lia || done).
    cbn [mbind option_bind].
    pose proof (zlen_stored 64 rc bs ltac:(lia)). case_decide.
    + rewrite bool_decide_false by lia. by apply identity_err_removes.
    + rewrite bool_decide_true by lia. eexists. split; [reflexivity|]. split; [intros _|done].
      eexists (c_string (identity (w_id w))), _. idsimpl.
      split_and!; [done| |done|].
      * apply zeros_tail_string. lia.
      * rewrite zlen_app, zlen_zeros by lia. lia.
Qed.

(** C33. Whatever the files hold and whichever call fails, the initialisation
    stays within its arrays. It answers the error of the identity file when
    that can neither be read nor created, the error of the key file when the
    identity is there and the key can neither be read nor made, and OK
    otherwise. On OK both arrays hold a string; on an error both files have
    been removed, so that the next start generates a new pair. *)
Theorem identity_init_outcome w :
  uuid_law → zlen (identity (w_id w)) = 65 →
  let status := identity_status (w_env w) in
  ∃ w', atlas_identity_init w = Some (status, w') ∧
    (status = ATLAS_OK → identity_ok w') ∧
    (status ≠ ATLAS_OK → ∃ l, w_trace w' =
       l ++ [EvRemove ATLAS_IDENTITY_FILE; EvRemove ATLAS_PSK_FILE]).
Proof.
  intros Huuid Hl. unfold atlas_identity_init, identity_status, identity_phase, call.
  destruct (sys_open _ _ _) as [fd e1]. case_decide.
  - unfold atlas_generate_identity, call. cbn [with_env w_env].
    destruct (sys_open _ _ _) as [fd2 e2]. case_decide.
    { by apply identity_err_removes. }
    cbn [with_env w_env]. destruct (Huuid e2) as [Hnf Hz].
    destruct (uuid_unparsed e2) as [u e3]. cbn [fst] in Hnf, Hz. cbn [with_env w_id].
    destruct (strcpy_in (identity (w_id w)) u Hnf ltac:(lia)) as (arr & -> & Hc & Hzl).
    cbn [mbind option_bind put_identity with_id w_id identity].
    rewrite (cstr_of_in _ _ Hc). cbn [mbind option_bind]. unfold write_fd, call.
    cbn [log with_trace with_env w_env with_id]. destruct (sys_write _ _ _) as [rc e4].
    cbn [mbind option_bind]. rewrite decide_True by done.
    edestruct init_psk_outcome as (w' & Heq & Hout); cycle 2.
    + exists w'. split; [exact Heq|exact Hout].
    + idsimpl. by rewrite (c_string_in _ _ Hc).
    + idsimpl. lia.
  - change (ATLAS_IDENTITY_LEN + 1) with 65. unfold ATLAS_IDENTITY_LEN.
    destruct (sys_read fd 64 e1) as [[rc bs] e2] eqn:Er.
    rewrite (read_into_zeros fd 64 65 (with_env e1 w) rc bs e2) by (lia || done).
    cbn [mbind option_bind].
    pose proof (zlen_stored 64 rc bs ltac:(lia)). case_decide.
    + by apply identity_err_removes.
    + edestruct init_psk_outcome as (w' & Heq & Hout); cycle 2.
      * exists w'. split; [exact Heq|exact Hout].
      * idsimpl. apply zeros_tail_string. lia.
      * idsimpl. rewrite zlen_app, zlen_zeros by lia. lia.
Qed.

(** C34. The pair a first start generates is the pair a later start loads: the
    bytes written to the two files, read back up to 64 of them, give the same
    identity string and the same key array. *)
Theorem identity_survives_restart w w1 w2 :
  uuid_law → zlen (identity (w_id w)) = 65 →
  atlas_generate_identity w = Some (ATLAS_OK, w1) →
  atlas_generate_psk w1 = Some (ATLAS_OK, w2) →
  ∃ fd1 i fd2 k,
    w_trace w2 = w_trace w ++ [EvWrite fd1 i; EvClose fd1; EvWrite fd2 k; EvClose fd2] ∧
    ∀ w' fa ea er fb eb ef,
      sys_open ATLAS_IDENTITY_FILE O_RDONLY (w_env w') = (fa, ea) → 0 ≤ fa →
      sys_read fa 64 ea = (zlen i, i, er) →
      sys_open ATLAS_PSK_FILE O_RDONLY (env_do (EvClose fa) er) = (fb, eb) → 0 ≤ fb →
      sys_read fb 64 eb = (64, take 64 k, ef) →
      ∃ w'', atlas_identity_init w' = Some (ATLAS_OK, w'') ∧
        c_string (identity (w_id w'')) = c_string (identity (w_id w2)) ∧
        psk (w_id w'') = psk (w_id w2).
Proof.
  intros Huuid Hl. unfold atlas_generate_identity, call.
  destruct (sys_open _ _ _) as [fd2 e2]. case_decide; [done|].
  cbn [with_env w_env]. destruct (Huuid e2) as [Hnf Hz].
  destruct (uuid_unparsed e2) as [u e3]. cbn [fst] in Hnf, Hz. cbn [with_env w_id].
  destruct (strcpy_in (identity (w_id w)) u Hnf ltac:(lia)) as (arr & -> & Hc & Hzl).
  cbn [mbind option_bind put_identity with_id w_id identity].
  rewrite (cstr_of_in _ _ Hc). cbn [mbind option_bind]. unfold write_fd, call.
  destruct (sys_write fd2 u _) as [rc e4]. intros [= <-].
  unfold atlas_generate_psk, call.
  destruct (sys_open ATLAS_PSK_FILE _ _) as [fd3 e5]. case_decide; [done|].
  cbn [with_env w_env]. destruct (RAND_bytes _ e5) as [[rb|] e6]; [|done].
  change (ATLAS_PSK_LEN + 1) with 65. unfold ATLAS_PSK_LEN. rewrite to_base64_zeros.
  cbn [mbind option_bind]. unfold write_fd, call.
  destruct (sys_write fd3 _ _) as [rc2 e7]. intros [= <-].
  pose proof (zlen_take_le (base64 rb) 64) as Hk. set (key := take 64 (base64 rb)) in *.
  exists fd2, u, fd3, (key ++ zeros (65 - zlen key)).
  split. { idsimpl. by rewrite <- !app_assoc. }
  intros w' fa ea er fb eb ef Ho Hfa Hr Ho2 Hfb Hr2.
  unfold atlas_identity_init, call. rewrite Ho, decide_False by lia.
  change (ATLAS_IDENTITY_LEN + 1) with 65. unfold ATLAS_IDENTITY_LEN.
  rewrite (read_into_zeros fa 64 65 _ (zlen u) u er) by (lia || done).
  cbn [mbind option_bind]. rewrite decide_False by lia.
  unfold identity_init_psk, call. idsimpl.
  rewrite Ho2, decide_False by lia. change (ATLAS_PSK_LEN + 1) with 65. unfold ATLAS_PSK_LEN.
  rewrite (read_into_zeros fb 64 65 _ 64 (take 64 (key ++ zeros (65 - zlen key))) ef)
    by (lia || done).
  cbn [mbind option_bind]. rewrite decide_False by lia.
  eexists. split; [reflexivity|]. idsimpl.
  unfold stored. rewrite Z.min_l, zlen_nat, firstn_all by lia. split.
  - rewrite (c_string_in _ _ Hc). apply c_string_in. split; [done|].
    rewrite Hz. by exists (zeros 28).
  - change (Z.to_nat (Z.min 64 64)) with 64%nat. rewrite take_take. by apply key_array.
Qed.

End IdentityProperties.

(** ** A device with two files *)

(** The contents of the two files, [None] when a file does not exist; their
    descriptors are 3 and 4. *)
Record disk := mk_disk { dk_identity : option (list byte); dk_psk : option (list byte) }.

Definition disk_open (path : list byte) (mode : open_mode) (d : disk) : Z * disk :=
  if decide (path = ATLAS_IDENTITY_FILE) then
    match mode, dk_identity d with
    | O_RDONLY, None => (-1, d)
    | O_RDONLY, Some _ => (3, d)
    | O_WRONLY_CREAT_TRUNC, _ => (3, mk_disk (Some []) (dk_psk d))
    end
  else
    match mode, dk_psk d with
    | O_RDONLY, None => (-1, d)
    | O_RDONLY, Some _ => (4, d)
    | O_WRONLY_CREAT_TRUNC, _ => (4, mk_disk (dk_identity d) (Some []))
    end.

Definition disk_read (fd n : Z) (d : disk) : Z * list byte * disk :=
  let bs := take (Z.to_nat n) (default [] (if decide (fd = 3) then dk_identity d else dk_psk d)) in
  (zlen bs, bs, d).

Definition disk_write (fd : Z) (bs : list byte) (d : disk) : Z * disk :=
  (zlen bs,
   if decide (fd = 3) then mk_disk (Some (default [] (dk_identity d) ++ bs)) (dk_psk d)
   else mk_disk (dk_identity d) (Some (default [] (dk_psk d) ++ bs))).

Definition disk_do (ev : event) (d : disk) : disk :=
  match ev with
  | EvRemove path =>
      if decide (path = ATLAS_IDENTITY_FILE) then mk_disk None (dk_psk d)
      else mk_disk (dk_identity d) None
  | _ => d
  end.

(** Only the files change; there is no network. *)
Definition disk_env : Env disk := {|
  env_do := disk_do;
  sys_select _ r d := (0, r, d);
  sys_timerfd_create d := (5, d);
  sys_timerfd_settime _ _ _ d := (0, d);
  sys_read := disk_read;
  sys_write := disk_write;
  sys_accept _ d := (-1, d);
  sys_socket_unix d := (-1, d);
  sys_socket_inet d := (-1, d);
  sys_bind _ _ d := (-1, d);
  sys_listen _ _ d := (-1, d);
  sys_open := disk_open;
  sys_sysinfo d := (None, d);
  sys_uname d := (None, d);
  sys_ifaddr _ _ d := ([], d);
  sys_geteuid d := (0, d);
  uuid_unparsed d := (B "1b4e28ba-2fa1-11d2-883f-0016d3cca427", d);
  RAND_bytes k d := (Some (replicate (Z.to_nat k) x41), d);
  base64 bs := bs;
  getaddrinfo _ d := (None, d);
  coap_split_uri _ := None;
  coap_split_path _ := [];
  coap_split_query _ := [];
  coap_new_context d := (None, d);
  coap_new_client_session _ _ _ _ d := (None, d);
  coap_new_pdu _ d := (false, d);
  coap_new_message_id _ d := (0, d);
  coap_add_token _ _ d := (false, d);
  coap_pdu_room _ _ := false;
  coap_context_get_coap_fd _ d := (-1, d);
  coap_io_process _ d := ([], d);
  coap_dtls_is_supported d := (false, d);
  coap_new_endpoint _ _ _ d := (false, d);
  coap_resource_init _ d := (None, d)
|}.

Definition disk_start (d : disk) : World disk := initial_world d.

(** A first start, with no files; a start with an empty identity file, which
    removes both. *)
Lemma identity_init_outcome_witness :
  (∃ w', @atlas_identity_init _ disk_env (disk_start (mk_disk None None)) = Some (ATLAS_OK, w') ∧
     identity_ok w') ∧
  ∃ w' l, @atlas_identity_init _ disk_env (disk_start (mk_disk (Some []) None)) =
      Some (ATLAS_IDENTITY_FILE_ERROR, w') ∧
    w_trace w' = l ++ [EvRemove ATLAS_IDENTITY_FILE; EvRemove ATLAS_PSK_FILE].
Proof.
  assert (@uuid_law _ disk_env) as Hu by (intros e; by apply (bool_decide_unpack _); vm_compute).
  split.
  - destruct (@identity_init_outcome _ disk_env (disk_start (mk_disk None None)) Hu ltac:(done))
      as (w' & Hw & Hok & _).
    exists w'. split; [exact Hw|]. apply Hok. by vm_compute.
  - destruct (@identity_init_outcome _ disk_env (disk_start (mk_disk (Some []) None)) Hu ltac:(done))
      as (w' & Hw & _ & Herr).
    destruct (Herr ltac:(by vm_compute)) as [l Hl]. exists w', l. split; [exact Hw|exact Hl].
Defined.

(** The worlds after generating the identity and the key. *)
Definition generated_identity : World disk :=
  default (disk_start (mk_disk None None))
    (snd <$> @atlas_generate_identity _ disk_env (disk_start (mk_disk None None))).
Definition generated_psk : World disk :=
  default (disk_start (mk_disk None None)) (snd <$> @atlas_generate_psk _ disk_env generated_identity).

(** A second start, on the disk the first one left. *)
Definition second_start : World disk := disk_start (w_env generated_psk).

Lemma identity_survives_restart_witness :
  ∃ w'', @atlas_identity_init _ disk_env second_start = Some (ATLAS_OK, w'') ∧
    c_string (identity (w_id w'')) = B "1b4e28ba-2fa1-11d2-883f-0016d3cca427" ∧
    psk (w_id w'') = psk (w_id generated_psk).
Proof.
  destruct (@identity_survives_restart _ disk_env (disk_start (mk_disk None None))
    generated_identity generated_psk) as (fd1 & i & fd2 & k & Ht & Hload).
  - intros e. by apply (bool_decide_unpack _); vm_compute.
  - done.
  - by vm_compute.
  - by vm_compute.
  - assert (w_trace generated_psk = [EvWrite 3 (B "1b4e28ba-2fa1-11d2-883f-0016d3cca427"); EvClose 3;
      EvWrite 4 (replicate 32 x41 ++ zeros 33); EvClose 4]) as Heq by (by vm_compute).
    rewrite Heq in Ht. change (w_trace (disk_start (mk_disk None None))) with (@nil event) in Ht.
    injection Ht as H1 H2 H3 H4. subst fd1 i fd2 k.
    destruct (Hload second_start 3 (w_env generated_psk) (w_env generated_psk)
      4 (w_env generated_psk) (w_env generated_psk)) as (w'' & Hw & Hi & Hp);
      [by vm_compute|done|by vm_compute|by vm_compute|done|by vm_compute|].
    exists w''. split; [exact Hw|]. split; [rewrite Hi; by vm_compute|exact Hp].
Defined.
