(* ===== verification/Alarm.v ===== *)
(** * Alarms ([alarm/atlas_alarm.c])

    An alarm is a timer descriptor, registered in the scheduler with
    [atlas_alarm_trigger] as its callback; its number is the alarm's id. The
    entry of an alarm that is cancelled while its own callback runs is freed
    memory when the trigger goes on to read it, which is undefined behaviour
    and shows as [None]. *)

From stdpp Require Import gmap.
From S2P Require Import Prelude Protocol CString Scheduler State.

Definition ATLAS_1MS_TO_NS : Z := 1000000.
Definition ATLAS_1SEC_TO_MS : Z := 1000.

Section Alarm.
Context `{Env E}.
Implicit Types w : World E.

Definition timer_spec (ms : Z) : Z * Z :=
  (ms / ATLAS_1SEC_TO_MS, (ms mod ATLAS_1SEC_TO_MS) * ATLAS_1MS_TO_NS).

Definition atlas_alarm_set (ms : Z) (cb : alarm_cb) (once : bool) w : Z * World E :=
  let '(fd, w) := call sys_timerfd_create w in
  if decide (fd = -1) then (-1, w) else
  let interval := if once then (0, 0) else timer_spec ms in
  let w := log (EvSetTimer fd interval (timer_spec ms)) w in
  let '(res, w) := call (sys_timerfd_settime fd interval (timer_spec ms)) w in
  if decide (res < 0) then (-1, emit (EvClose fd) w) else
  let w := sched_add fd SC_atlas_alarm_trigger w in
  let '(a, w) := alloc w in
  (fd, with_alarms (w_alarms w ++ [mk_alarm a fd cb once]) w).

Definition has_id (id : Z) (p : atlas_alarm_entry_t) : bool := bool_decide (alarm_id p = id).
Definition alarm_at (a : nat) (p : atlas_alarm_entry_t) : bool := bool_decide (al_addr p = a).

Definition atlas_alarm_cancel (id : Z) w : World E :=
  match find_first (has_id id) (w_alarms w) with
  | None => w
  | Some p =>
      let w := with_alarms (remove_first (has_id id) (w_alarms w)) w in
      let w := sched_del (alarm_id p) w in
      emit (EvClose (alarm_id p)) w
  end.

(** [run] is the call through the function pointer of an alarm. *)
Definition atlas_alarm_trigger (run : alarm_cb → Z → World E → option (World E))
    (fd : Z) w : option (World E) :=
  match find_first (has_id fd) (w_alarms w) with
  | None => Some w
  | Some p =>
      let '(_, w) := call (sys_read fd 8) (log (EvRead fd) w) in
      w ← run (al_callback p) (alarm_id p) w;
      (* p->run_once: the entry must not have been freed *)
      q ← find_first (alarm_at (al_addr p)) (w_alarms w);
      if run_once q then Some (atlas_alarm_cancel (alarm_id q) w) else Some w
  end.

End Alarm.

(** ** Lemmas *)

Section AlarmLemmas.
Context `{Env E}.
Implicit Types w : World E.

(** The three outcomes of [atlas_alarm_set]. *)
Inductive alarm_set_result (ms : Z) (cb : alarm_cb) (once : bool) w : Z * World E → Prop :=
| set_no_timer e :
    (sys_timerfd_create (w_env w)) = (-1, e) →
    alarm_set_result ms cb once w (-1, with_env e w)
| set_not_armed fd e1 rc e2 :
    sys_timerfd_create (w_env w) = (fd, e1) → fd ≠ -1 → rc < 0 →
    alarm_set_result ms cb once w (-1, emit (EvClose fd) (with_env e2
      (log (EvSetTimer fd (if once then (0, 0) else timer_spec ms) (timer_spec ms)) (with_env e1 w))))
| set_armed fd e1 rc e2 :
    sys_timerfd_create (w_env w) = (fd, e1) → fd ≠ -1 → 0 ≤ rc →
    alarm_set_result ms cb once w (fd,
      with_alarms (w_alarms w ++ [mk_alarm (w_brk w) fd cb once])
       (with_brk (S (w_brk w)) (sched_add fd SC_atlas_alarm_trigger (with_env e2
        (log (EvSetTimer fd (if once then (0, 0) else timer_spec ms) (timer_spec ms))
          (with_env e1 w)))))).

Lemma alarm_set_cases ms cb once w :
  alarm_set_result ms cb once w (atlas_alarm_set ms cb once w).
Proof.
  unfold atlas_alarm_set, call. destruct (sys_timerfd_create _) as [fd e1] eqn:E1.
  case_decide as Hfd; [subst; by econstructor|].
  destruct (sys_timerfd_settime _ _ _ _) as [rc e2] eqn:E2.
  case_decide.
  - exact (set_not_armed ms cb once w fd e1 rc e2 E1 Hfd ltac:(lia)).
  - exact (set_armed ms cb once w fd e1 rc e2 E1 Hfd ltac:(lia)).
Qed.

(** What [atlas_alarm_set] leaves alone. *)
Lemma alarm_set_frame ms cb once w :
  let w' := (atlas_alarm_set ms cb once w).2 in
  sched_ext (w_sched w) (w_sched w') ∧
  w_reqs w' = w_reqs w ∧ w_token w' = w_token w ∧ w_dtls w' = w_dtls w ∧
  w_server w' = w_server w ∧ w_cfg w' = w_cfg w ∧ w_id w' = w_id w ∧
  w_register w' = w_register w ∧ w_features w' = w_features w ∧
  w_procs_threshold w' = w_procs_threshold w ∧ w_connector w' = w_connector w ∧
  w_cmdInProgress w' = w_cmdInProgress w ∧ (w_brk w ≤ w_brk w')%nat.
Proof.
  destruct (alarm_set_cases ms cb once w); cbn; split_and!;
    (done || lia || apply sched_ext_add || reflexivity).
Qed.

Lemma alarm_cancel_frame id w :
  let w' := atlas_alarm_cancel id w in
  sched_ext (w_sched w) (w_sched w') ∧
  w_reqs w' = w_reqs w ∧ w_token w' = w_token w ∧ w_dtls w' = w_dtls w ∧
  w_server w' = w_server w ∧ w_cfg w' = w_cfg w ∧ w_id w' = w_id w ∧
  w_register w' = w_register w ∧ w_features w' = w_features w ∧
  w_procs_threshold w' = w_procs_threshold w ∧ w_connector w' = w_connector w ∧
  w_cmdInProgress w' = w_cmdInProgress w ∧ w_brk w' = w_brk w.
Proof.
  unfold atlas_alarm_cancel. destruct (find_first _ _) as [p|]; cbn; split_and!;
    (done || apply sched_ext_del || reflexivity).
Qed.

(** ** The invariant *)

(** Every alarm is registered once in the scheduler, under its own number. *)
Definition alarms_ok w : Prop :=
  NoDup (alarm_id <$> w_alarms w) ∧
  NoDup (se_fd <$> live (w_sched w)) ∧
  ∀ a, a ∈ w_alarms w →
    mk_sched_entry (alarm_id a) SC_atlas_alarm_trigger false ∈ w_sched w.

(** The kernel gives the number of an open descriptor to nobody else. *)
Definition fresh_timer w : Prop :=
  ∀ fd e, sys_timerfd_create (w_env w) = (fd, e) → fd ≠ -1 →
    0 ≤ fd ∧ fd ∉ (se_fd <$> live (w_sched w)).

Lemma alarms_ok_live w a :
  alarms_ok w → a ∈ w_alarms w → alarm_id a ∈ (se_fd <$> live (w_sched w)).
Proof.
  intros (_ & _ & Hin) Ha. apply list_elem_of_fmap. eexists. split; [|].
  2:{ unfold live. apply list_elem_of_filter. split; [|by apply Hin]. done. }
  done.
Qed.

Lemma alarms_ok_set ms cb once w :
  alarms_ok w → fresh_timer w → alarms_ok (atlas_alarm_set ms cb once w).2.
Proof.
  intros Hok Hfresh. destruct (alarm_set_cases ms cb once w) as [| |fd e1 rc e2 Hc Hfd]; [done..|].
  destruct (Hfresh fd e1 Hc Hfd) as [Hpos Hnew].
  pose proof (alarms_ok_live w) as Hlive. destruct Hok as (Hnd & Hndl & Hin).
  unfold alarms_ok. cbn [snd with_alarms w_alarms with_brk w_sched]. split_and!.
  - rewrite fmap_app. apply list.NoDup_app. split_and!; [done| |apply list.NoDup_singleton].
    intros x (a & -> & Ha)%list_elem_of_fmap Hx. apply list_elem_of_singleton in Hx. cbn in Hx.
    apply Hnew. rewrite <- Hx. by apply Hlive.
  - wsimpl. unfold sched_add. wsimpl. rewrite live_add by done. rewrite fmap_app.
    apply list.NoDup_app. split_and!; [done| |apply list.NoDup_singleton].
    intros x Hx Hx'. apply list_elem_of_singleton in Hx'. cbn in Hx'. by subst.
  - intros a [Ha|Ha]%elem_of_app; unfold sched_add, atlas_sched_add_entry; wsimpl;
      rewrite decide_False by lia; apply elem_of_app.
    + left. by apply Hin.
    + right. apply list_elem_of_singleton in Ha as ->. by left.
Qed.

(** No entry of this descriptor waits to be unlinked. *)
Definition no_stale id w : Prop :=
  ∀ e, e ∈ w_sched w → se_fd e = id → se_dirty e = false.

Lemma alarms_ok_cancel id w :
  alarms_ok w → alarms_ok (atlas_alarm_cancel id w).
Proof.
  intros (Hnd & Hndl & Hin). unfold atlas_alarm_cancel.
  destruct (find_first (has_id id) (w_alarms w)) as [p|] eqn:Hp; [|done].
  apply find_first_Some in Hp as (Hid & l1 & l2 & Hl & Hl1).
  apply bool_decide_eq_true in Hid. unfold alarms_ok, sched_del. wsimpl.
  rewrite Hl in *. rewrite remove_first_app by (done || by apply bool_decide_eq_true).
  rewrite fmap_app in Hnd |- *. cbn [fmap list_fmap] in Hnd. fold (alarm_id <$> l2) in Hnd.
  apply list.NoDup_app in Hnd as (Hn1 & Hd & [Hn Hn2]%list.NoDup_cons). split_and!.
  - apply list.NoDup_app. split_and!; [done| |done]. intros x Hx Hx2. apply (Hd x Hx). by right.
  - eapply sublist_NoDup; [exact Hndl|]. apply sublist_fmap, live_del_sublist.
  - intros a Ha. apply del_other; [apply Hin; set_solver|]. cbn. intros Heq.
    apply elem_of_app in Ha as [Ha|Ha].
    + apply (Hd (alarm_id a)); [by apply list_elem_of_fmap_2|rewrite Heq; by left].
    + apply Hn. rewrite <- Heq. by apply list_elem_of_fmap_2.
Qed.

(** A cancelled alarm is gone from both lists. *)
Lemma alarm_cancel_gone id w :
  alarms_ok w → no_stale id w →
  (∃ a, a ∈ w_alarms w ∧ alarm_id a = id) →
  let w' := atlas_alarm_cancel id w in
  id ∉ (alarm_id <$> w_alarms w') ∧ id ∉ (se_fd <$> live (w_sched w')).
Proof.
  intros (Hnd & Hndl & Hin) Hstale (a & Ha & Haid). unfold atlas_alarm_cancel.
  destruct (find_first (has_id id) (w_alarms w)) as [p|] eqn:Hp.
  2:{ exfalso. destruct (first_split (has_id id) (w_alarms w)) as [Hno|(l1 & x & l2 & Hl & Hx & Hl1)].
      - apply Hno in Ha. unfold has_id in Ha. by rewrite bool_decide_true in Ha.
      - by rewrite Hl, find_first_app in Hp. }
  apply find_first_Some in Hp as (Hid & l1 & l2 & Hl & Hl1).
  apply bool_decide_eq_true in Hid. cbn zeta. unfold sched_del. wsimpl.
  split.
  - rewrite Hl in *. rewrite remove_first_app by (done || by apply bool_decide_eq_true).
    rewrite fmap_app in Hnd |- *. cbn [fmap list_fmap] in Hnd. fold (alarm_id <$> l2) in Hnd.
    apply list.NoDup_app in Hnd as (Hn1 & Hd & [Hn Hn2]%list.NoDup_cons).
    rewrite <- Hid. intros [Hx|Hx]%elem_of_app; [|done]. apply (Hd _ Hx). by left.
  - rewrite Hid. rewrite live_del by done.
    assert (mk_sched_entry id SC_atlas_alarm_trigger false ∈ live (w_sched w)) as Hlive.
    { unfold live. apply list_elem_of_filter. split; [done|]. rewrite <- Hid. apply Hin.
      rewrite Hl. set_solver. }
    destruct (first_split (λ e, bool_decide (se_fd e = id)) (live (w_sched w)))
      as [Hno|(k1 & x & k2 & Hk & Hx & Hk1)].
    + apply Hno in Hlive. cbn in Hlive. by rewrite bool_decide_true in Hlive.
    + rewrite Hk in *. rewrite remove_first_app by done. apply bool_decide_eq_true in Hx.
      rewrite fmap_app in Hndl |- *. cbn [fmap list_fmap] in Hndl. fold (se_fd <$> k2) in Hndl.
      rewrite Hx in Hndl. apply list.NoDup_app in Hndl as (_ & Hd & [Hn _]%list.NoDup_cons).
      intros [Hy|Hy]%elem_of_app; [|done]. apply (Hd _ Hy). by left.
Qed.

(** The kernel creates and arms every timer. *)
Definition timers_work : Prop :=
  (∀ e, 0 ≤ (sys_timerfd_create e).1) ∧ ∀ fd i v e, 0 ≤ (sys_timerfd_settime fd i v e).1.

Lemma alarm_set_works ms cb once w :
  timers_work →
  0 ≤ (atlas_alarm_set ms cb once w).1 ∧
  ∃ a, w_alarms (atlas_alarm_set ms cb once w).2 = w_alarms w ++ [a] ∧ al_callback a = cb.
Proof.
  intros [Hcr Hset]. unfold atlas_alarm_set, call.
  pose proof (Hcr (w_env w)). destruct (sys_timerfd_create (w_env w)) as [fd e1]. cbn [fst] in *.
  rewrite decide_False by lia. cbn zeta.
  match goal with |- context [sys_timerfd_settime ?f ?i ?v ?x] => pose proof (Hset f i v x);
    destruct (sys_timerfd_settime f i v x) as [rc e2] end. cbn [fst] in *.
  rewrite decide_False by lia. cbn zeta beta iota. unfold alloc. cbn [fst snd].
  split; [lia|]. by eexists.
Qed.

End AlarmLemmas.

(** ** Properties *)

Section AlarmProperties.
Context `{Env E}.
Implicit Types w : World E.

(** A new alarm is the timer the kernel created, armed with exactly [ms]
    milliseconds and repeated exactly when it is not run once, and listed last
    with its callback; when the timer cannot be created or armed the answer is
    -1, nothing is listed or scheduled, and no descriptor is left open. *)
Theorem alarm_set_arms ms cb once w id w' :
  0 ≤ ms < 2 ^ 32 → atlas_alarm_set ms cb once w = (id, w') →
  (id ≠ -1 ∧
   w_alarms w' = w_alarms w ++ [mk_alarm (w_brk w) id cb once] ∧
   w_sched w' = atlas_sched_add_entry id (Some SC_atlas_alarm_trigger) (w_sched w) ∧
   ∃ s ns, w_trace w' = w_trace w ++ [EvSetTimer id (if once then (0, 0) else (s, ns)) (s, ns)] ∧
     0 ≤ ns < 10 ^ 9 ∧ 0 ≤ s ∧ s * 10 ^ 9 + ns = ms * 10 ^ 6) ∨
  (id = -1 ∧ w_alarms w' = w_alarms w ∧ w_sched w' = w_sched w ∧
   (w_trace w' = w_trace w ∨
    ∃ fd i v, w_trace w' = w_trace w ++ [EvSetTimer fd i v; EvClose fd])).
Proof.
  intros Hms Hset. pose proof (alarm_set_cases ms cb once w) as Hc. rewrite Hset in Hc.
  inversion Hc; subst; clear Hc.
  - right. split_and!; try done. by left.
  - right. split_and!; try done. right. eexists fd, _, _. wsimpl. by rewrite <- app_assoc.
  - left. split_and!; try done. eexists _, _. split; [by unfold timer_spec; destruct once|].
    unfold ATLAS_1SEC_TO_MS, ATLAS_1MS_TO_NS. change (2 ^ 32) with 4294967296 in Hms.
    change (10 ^ 9) with 1000000000. change (10 ^ 6) with 1000000. mlia.
Qed.

(** C31. Setting and cancelling alarms keeps the two lists in step: every alarm
    has its own number, which is registered exactly once in the scheduler. A
    new alarm is in both lists when its timer could be made, which it always is
    when timers work, and otherwise the lists are unchanged; for this the kernel
    must not give the number of a registered descriptor to the new timer. A
    cancelled alarm is in neither list any more, as long as no deleted entry
    with its number is still linked: the scheduler would delete that one again.
    The other alarms stay. *)
Theorem alarm_lists_in_step w :
  alarms_ok w →
  (∀ ms cb once, fresh_timer w →
     let '(id, w') := atlas_alarm_set ms cb once w in
     alarms_ok w' ∧ (timers_work → id ≠ -1) ∧
     (id ≠ -1 → w_alarms w' = w_alarms w ++ [mk_alarm (w_brk w) id cb once] ∧
        id ∈ (se_fd <$> live (w_sched w'))) ∧
     (id = -1 → w_alarms w' = w_alarms w ∧ w_sched w' = w_sched w)) ∧
  (∀ id, let w' := atlas_alarm_cancel id w in
     alarms_ok w' ∧ (∀ a, a ∈ w_alarms w → alarm_id a ≠ id → a ∈ w_alarms w') ∧
     (no_stale id w → id ∈ (alarm_id <$> w_alarms w) →
        id ∉ (alarm_id <$> w_alarms w') ∧ id ∉ (se_fd <$> live (w_sched w')))).
Proof.
  intros Hok. split.
  - intros ms cb once Hf. pose proof (alarms_ok_set ms cb once w Hok Hf) as Hok'.
    pose proof (λ Ht, proj1 (alarm_set_works ms cb once w Ht)) as Hw.
    pose proof (alarm_set_cases ms cb once w) as Hc. destruct (atlas_alarm_set ms cb once w) as [id w'].
    cbn [fst snd] in *. split; [exact Hok'|]. split; [intros Ht ->; by specialize (Hw Ht)|].
    inversion Hc; subst; try (by split; [intros ?|intros _; split]).
    split; [|done]. intros _. split; [done|].
    apply (alarms_ok_live _ (mk_alarm (w_brk w) id cb once) Hok'). apply elem_of_app. right. by left.
  - intros id w'. split; [by apply alarms_ok_cancel|]. split; [|intros Hs (a & -> & Ha)%list_elem_of_fmap].
    + intros a Ha Hne. subst w'. unfold atlas_alarm_cancel. destruct (find_first _ _); [|exact Ha].
      apply remove_first_other; [exact Ha|]. by apply bool_decide_eq_false.
    + apply alarm_cancel_gone; [done..|eauto].
Qed.

(** When the timer of an alarm fires, its callback runs once, on the state
    after the read; then a run-once alarm is cancelled and a periodic one is
    left as it is. If the callback has cancelled the alarm, the trigger reads
    freed memory. *)
Theorem alarm_trigger_runs_callback run fd w p w0 w1 :
  find_first (has_id fd) (w_alarms w) = Some p →
  w0 = (call (sys_read fd 8) (log (EvRead fd) w)).2 →
  run (al_callback p) fd w0 = Some w1 →
  (find_first (alarm_at (al_addr p)) (w_alarms w1) = Some p →
     atlas_alarm_trigger run fd w =
     Some (if run_once p then atlas_alarm_cancel fd w1 else w1)) ∧
  ((∀ q, q ∈ w_alarms w1 → al_addr q ≠ al_addr p) → atlas_alarm_trigger run fd w = None).
Proof.
  intros Hp -> Hrun. destruct (find_first_elem _ _ _ Hp) as [_ Hid%bool_decide_eq_true].
  unfold atlas_alarm_trigger. rewrite Hp. destruct (call _ _) as [r w0]. cbn [snd] in Hrun.
  rewrite Hid, Hrun. cbn [mbind option_bind]. split.
  - intros ->. cbn [mbind option_bind]. rewrite Hid. by destruct (run_once p).
  - intros Hno. rewrite find_first_None; [done|]. intros q Hq.
    apply bool_decide_eq_false. by apply Hno.
Qed.

End AlarmProperties.

Lemma alarm_set_arms_witness :
  let w := initial_world 3 in
  let w' := (@atlas_alarm_set _ (sim_env [] []) 5500 AC_reg_alarm_callback true w).2 in
  (3 ≠ -1 ∧
   w_alarms w' = w_alarms w ++ [mk_alarm (w_brk w) 3 AC_reg_alarm_callback true] ∧
   w_sched w' = atlas_sched_add_entry 3 (Some SC_atlas_alarm_trigger) (w_sched w) ∧
   ∃ s ns, w_trace w' = w_trace w ++ [EvSetTimer 3 (0, 0) (s, ns)] ∧
     0 ≤ ns < 10 ^ 9 ∧ 0 ≤ s ∧ s * 10 ^ 9 + ns = 5500 * 10 ^ 6) ∨
  (3 = -1 ∧ w_alarms w' = w_alarms w ∧ w_sched w' = w_sched w ∧
   (w_trace w' = w_trace w ∨
    ∃ fd i v, w_trace w' = w_trace w ++ [EvSetTimer fd i v; EvClose fd])).
Proof.
  intros w w'.
  apply (@alarm_set_arms _ (sim_env [] []) 5500 AC_reg_alarm_callback true w 3 w'); [lia|].
  by vm_compute.
Defined.

(** A world with one alarm, as 3, and its cancellation. *)
Definition world_alarm : World Z :=
  (@atlas_alarm_set _ (sim_env [] []) 5000 AC_reg_alarm_callback true (initial_world 3)).2.

Lemma alarm_lists_in_step_witness :
  alarms_ok world_alarm ∧ (alarm_id <$> w_alarms world_alarm) = [3] ∧
  let w' := @atlas_alarm_cancel _ (sim_env [] []) 3 world_alarm in
  alarms_ok w' ∧ 3 ∉ (alarm_id <$> w_alarms w') ∧ 3 ∉ (se_fd <$> live (w_sched w')).
Proof.
  assert (alarms_ok (initial_world 3)) as H0
    by (split_and!; [constructor|constructor|by intros a ?%elem_of_nil]).
  assert (alarms_ok world_alarm) as H1.
  { refine (proj1 (proj1 (@alarm_lists_in_step _ (sim_env [] []) (initial_world 3) H0) 5000
      AC_reg_alarm_callback true _)).
    intros fd e [= <- <-] _. split; [done|]. by intros ?%elem_of_nil. }
  split; [exact H1|]. split; [by vm_compute|].
  destruct (proj2 (@alarm_lists_in_step _ (sim_env [] []) world_alarm H1) 3) as (Hc & _ & Hgone).
  split; [exact Hc|]. apply Hgone.
  - intros x Hx. vm_compute in Hx. apply list_elem_of_singleton in Hx as ->. done.
  - apply list_elem_of_fmap. eexists. split; [|apply list_elem_of_singleton; reflexivity]. done.
Defined.

Lemma alarm_trigger_runs_callback_witness :
  let w := with_alarms [mk_alarm 0 3 AC_reg_alarm_callback true] (initial_world 4) in
  @atlas_alarm_trigger _ (sim_env [] []) (λ _ _ w, Some w) 3 w =
  Some (@atlas_alarm_cancel _ (sim_env [] []) 3 (log (EvRead 3) w)).
Proof.
  intros w.
  refine (proj1 (@alarm_trigger_runs_callback _ (sim_env [] []) (λ _ _ w, Some w) 3 w
    (mk_alarm 0 3 AC_reg_alarm_callback true) _ _ eq_refl eq_refl eq_refl) _).
  by vm_compute.
Defined.
