(* ===== verification/CoapClient.v ===== *)
(** * CoAP requests ([coap/atlas_coap_client.c])

    A request in flight is an entry of a list: its CoAP context and session,
    its token, its timeout alarm and the callback of the component that made
    it. It ends in one of two ways: the response handler marks the entry, and
    the scheduler callback of its descriptor unlinks it, or the timeout alarm
    unlinks it. *)

From stdpp Require Import gmap.
From S2P Require Import Prelude Protocol CString Scheduler State Alarm.

Definition ATLAS_COAP_CLIENT_DTLS_IDENTITY_LEN : Z := 64.
Definition ATLAS_COAP_CLIENT_DTLS_KEY_LEN : Z := 64.

Section CoapClient.
Context `{Host, Env E}.
Implicit Types w : World E.

(** The call through the function pointer of a request: the URI, the status
    and the payload, [None] for NULL, with its length. *)
Context (run : client_cb → list byte → atlas_coap_response_t →
               option (list byte) → Z → World E → option (World E)).

Definition get_new_token w : Z * World E :=
  (w_token w, with_token (u32 (w_token w + 1)) w).

(** The address for [connect], or the status -1; with no IPv4 or IPv6 address
    in the answer, [len] is returned uninitialised. *)
Definition resolve_address (hostname : list byte) w
    : option (option (list byte) * World E) :=
  let '(res, w) := call (getaddrinfo (c_string (hostname ++ [x00]))) w in
  match res with
  | None => Some (None, w)
  | Some ainfo =>
      a ← find_first fst ainfo;
      Some (Some a.2, w)
  end.

Definition get_session (ctx : Z) (dtls : bool) (dst : list byte) (port : Z) w
    : option Z * World E :=
  if dtls then
    call (coap_new_client_session ctx
      (Some (take (Z.to_nat (psk_identity_len (w_dtls w))) (dtls_identity (w_dtls w)),
             take (Z.to_nat (psk_key_len (w_dtls w))) (dtls_key (w_dtls w)))) dst port) w
  else call (coap_new_client_session ctx None dst port) w.

(** [memcmp] of the token bytes with the integer in memory. *)
Definition validate_token (received : coap_pdu_t) (token : Z) : bool :=
  if decide (zlen (pdu_token received) = 4)
  then bool_decide (pdu_token received = store32 token) else false.

Definition in_session (ctx session : Z) (e : atlas_coap_client_req_t) : bool :=
  bool_decide (rq_ctx e = ctx ∧ rq_session e = session).

Definition mark_req (e : atlas_coap_client_req_t) : atlas_coap_client_req_t :=
  mk_req (rq_addr e) (coap_fd e) (rq_alarm_id e) (rq_ctx e) (rq_session e) (rq_uri e)
    (rq_token e) (rq_callback e) true.

Definition req_at (a : nat) (e : atlas_coap_client_req_t) : bool := bool_decide (rq_addr e = a).

(** The status and payload the callback gets for a response with a valid token. *)
Definition response_args (received : coap_pdu_t)
    : atlas_coap_response_t * option (list byte) * Z :=
  if decide (pdu_type received = COAP_MESSAGE_RST) then (ATLAS_COAP_RESP_RESET, None, 0)
  else if decide (COAP_RESPONSE_CLASS (pdu_code received) = 2) then
    (ATLAS_COAP_RESP_OK, pdu_data received, zlen (default [] (pdu_data received)))
  else if decide (COAP_RESPONSE_CLASS (pdu_code received) = 4) then
    (ATLAS_COAP_RESP_NOT_FOUND, None, 0)
  else (ATLAS_COAP_RESP_UNKNOWN, None, 0).

Definition message_handler (ctx session : Z) (sent : bool) (received : coap_pdu_t) w
    : option (World E) :=
  match find_first (in_session ctx session) (w_reqs w) with
  | None => Some w
  | Some ent =>
      if validate_token received (rq_token ent) then
        let w := with_reqs (update_first (in_session ctx session) mark_req (w_reqs w)) w in
        let '(status, payload, len) := response_args received in
        run (rq_callback ent) (rq_uri ent) status payload len w
      else if decide ((pdu_type received = COAP_MESSAGE_CON ∨ pdu_type received = COAP_MESSAGE_NON)
                      ∧ sent = false)
      then Some (emit (EvSendRst session) w)
      else Some w
  end.

(** [coap_io_process] of a client context: libcoap hands the responses it
    has received to [message_handler], one after the other. *)
Fixpoint client_io (ctx : Z) (inputs : list coap_input) w : option (World E) :=
  match inputs with
  | [] => Some w
  | InResponse session sent received :: inputs =>
      w ← message_handler ctx session sent received w;
      client_io ctx inputs w
  | InRequest _ _ _ _ _ :: inputs => client_io ctx inputs w
  end.

Definition has_fd (fd : Z) (e : atlas_coap_client_req_t) : bool := bool_decide (coap_fd e = fd).
Definition has_alarm (id : Z) (e : atlas_coap_client_req_t) : bool := bool_decide (rq_alarm_id e = id).

Definition coap_client_sched_callback (fd : Z) w : option (World E) :=
  match find_first (has_fd fd) (w_reqs w) with
  | None => Some w
  | Some p =>
      let '(inputs, w) := call (coap_io_process (rq_ctx p)) w in
      w ← client_io (rq_ctx p) inputs w;
      (* p->dirty: the entry must not have been freed *)
      q ← find_first (req_at (rq_addr p)) (w_reqs w);
      if rq_dirty q then
        let w := with_reqs (remove_first (req_at (rq_addr p)) (w_reqs w)) w in
        let w := sched_del (coap_fd q) w in
        let w := atlas_alarm_cancel (rq_alarm_id q) w in
        let w := emit (EvRelease (Some (rq_session q))) w in
        Some (emit (EvFreeContext (rq_ctx q)) w)
      else Some w
  end.

Definition request_alarm_cb (id : Z) w : option (World E) :=
  match find_first (has_alarm id) (w_reqs w) with
  | None => Some w
  | Some p =>
      w ← run (rq_callback p) (rq_uri p) ATLAS_COAP_RESP_TIMEOUT None 0 w;
      q ← find_first (req_at (rq_addr p)) (w_reqs w);
      let w := with_reqs (remove_first (req_at (rq_addr p)) (w_reqs w)) w in
      let w := sched_del (coap_fd q) w in
      let w := emit (EvRelease (Some (rq_session q))) w in
      Some (emit (EvFreeContext (rq_ctx q)) w)
  end.

Definition add_request (ctx session : Z) (uri : list byte) (token timeout : Z)
    (cb : client_cb) w : atlas_status_t * World E :=
  let '(a, w) := alloc w in
  let '(fd, w) := call (coap_context_get_coap_fd ctx) w in
  if decide (fd = -1) then (ATLAS_GENERAL_ERR, w) else
  let '(id, w) := atlas_alarm_set timeout AC_request_alarm_cb true w in
  if decide (id < 0) then (ATLAS_GENERAL_ERR, w) else
  let w := sched_add fd SC_coap_client_sched_callback w in
  (ATLAS_OK, with_reqs (w_reqs w ++ [mk_req a fd id ctx session uri token cb false]) w).

Definition request_code (method : atlas_coap_method_t) : Z :=
  match method with
  | ATLAS_COAP_METHOD_GET => COAP_REQUEST_GET
  | ATLAS_COAP_METHOD_POST => COAP_REQUEST_POST
  | ATLAS_COAP_METHOD_PUT => COAP_REQUEST_PUT
  | ATLAS_COAP_METHOD_DELETE => COAP_REQUEST_DELETE
  end.

(** The options of the path, then those of the query. *)
Definition uri_options (u : coap_uri_t) : list (Z * list byte) :=
  (if decide (zlen (uri_path u) = 0) then []
   else (λ s, (COAP_OPTION_URI_PATH, s)) <$> coap_split_path (uri_path u)) ++
  (if decide (zlen (uri_query u) = 0) then []
   else (λ s, (COAP_OPTION_URI_QUERY, s)) <$> coap_split_query (uri_query u)).

(** [coap_add_data] leaves the PDU alone when the data does not fit. *)
Definition add_data (payload : option (list byte)) (pdu : coap_pdu_t) : coap_pdu_t :=
  match payload with
  | Some (b :: d) =>
      if coap_pdu_room pdu (b :: d)
      then mk_pdu (pdu_type pdu) (pdu_tid pdu) (pdu_code pdu) (pdu_token pdu) (pdu_options pdu)
             (Some (b :: d))
      else pdu
  | _ => pdu
  end.

(** The label [ERR]. *)
Definition request_err (ctx : Z) (session : option Z) w : atlas_status_t * World E :=
  (ATLAS_GENERAL_ERR, emit (EvFreeContext ctx) (emit (EvRelease session) w)).

Definition atlas_coap_client_request (uri : option (list byte)) (method : atlas_coap_method_t)
    (req_payload : option (list byte)) (timeout : Z) (cb : option client_cb) w
    : option (atlas_status_t * World E) :=
  match uri, cb with
  | None, _ => Some (ATLAS_COAP_INVALID_URI, w)
  | _, None => Some (ATLAS_INVALID_CALLBACK, w)
  | Some uri, Some cb =>
      match coap_split_uri uri with
      | None => Some (ATLAS_GENERAL_ERR, w)
      | Some coap_uri =>
          '(res, w) ← resolve_address (uri_host coap_uri) w;
          match res with
          | None => Some (ATLAS_GENERAL_ERR, w)
          | Some dst =>
              let '(ctx, w) := call coap_new_context w in
              match ctx with
              | None => Some (ATLAS_GENERAL_ERR, w)
              | Some ctx =>
                  let '(session, w) :=
                    get_session ctx (uri_secure coap_uri) dst (uri_port coap_uri) w in
                  match session with
                  | None => Some (request_err ctx None w)
                  | Some session =>
                      let '(pdu_ok, w) := call (coap_new_pdu session) w in
                      if negb pdu_ok then Some (request_err ctx (Some session) w) else
                      let '(tid, w) := call (coap_new_message_id session) w in
                      let '(token, w) := get_new_token w in
                      let '(token_ok, w) := call (coap_add_token session (store32 token)) w in
                      if negb token_ok then Some (request_err ctx (Some session) w) else
                      let pdu := add_data req_payload
                        (mk_pdu COAP_MESSAGE_CON tid (request_code method) (store32 token)
                           (uri_options coap_uri) None) in
                      let '(status, w) := add_request ctx session uri token timeout cb w in
                      if decide (status = ATLAS_OK)
                      then Some (ATLAS_OK, emit (EvSend session pdu) w)
                      else Some (request_err ctx (Some session) w)
                  end
              end
          end
      end
  end.

Definition atlas_coap_client_set_dtls_info (identity psk : option (list byte)) w
    : option (atlas_status_t * World E) :=
  match identity, psk with
  | None, _ => Some (ATLAS_INVALID_DTLS_IDENTITY, w)
  | _, None => Some (ATLAS_INVALID_DTLS_PSK, w)
  | Some identity, Some psk =>
      i ← strncpy (dtls_identity (w_dtls w)) identity ATLAS_COAP_CLIENT_DTLS_IDENTITY_LEN;
      k ← strncpy (dtls_key (w_dtls w)) psk ATLAS_COAP_CLIENT_DTLS_KEY_LEN;
      il ← blk_strlen i;
      kl ← blk_strlen k;
      Some (ATLAS_OK, with_dtls (mk_cpsk i k il kl) w)
  end.

End CoapClient.

(** ** Lemmas *)

Section ClientLemmas.
Context `{Host, Env E}.
Implicit Types w : World E.

Lemma sent_emit ev w :
  sent (emit ev w) = sent w ++ match ev with EvSend s p => [(s, p)] | _ => [] end.
Proof. unfold sent. wsimpl. rewrite omap_app. by destruct ev. Qed.

Lemma sent_log ev w :
  sent (log ev w) = sent w ++ match ev with EvSend s p => [(s, p)] | _ => [] end.
Proof. unfold sent. wsimpl. rewrite omap_app. by destruct ev. Qed.

(** [atlas_alarm_set] sends nothing, and fails without a trace in the lists. *)
Lemma alarm_set_quiet ms cb once w :
  let '(id, w') := atlas_alarm_set ms cb once w in
  sent w' = sent w ∧ app_state w' = app_state w ∧ w_reqs w' = w_reqs w ∧
  w_token w' = w_token w ∧ sched_ext (w_sched w) (w_sched w') ∧
  (id = -1 → w_sched w' = w_sched w ∧ w_alarms w' = w_alarms w).
Proof.
  destruct (alarm_set_cases ms cb once w).
  - split_and!; (done || reflexivity).
  - split_and!; try (done || reflexivity).
    etrans; [apply sent_emit|]. etrans; [apply app_nil_r|].
    etrans; [apply (sent_log (EvSetTimer _ _ _) (with_env e1 w))|]. apply app_nil_r.
  - split_and!; try (done || apply sched_ext_add).
    etrans; [apply (sent_log (EvSetTimer _ _ _) (with_env e1 w))|]. apply app_nil_r.
Qed.

(** The evolution of the list of requests while a callback runs. *)
Definition req_le (e e' : atlas_coap_client_req_t) : Prop :=
  e' = e ∨ e' = mark_req e.

Definition reqs_ext (l k : list atlas_coap_client_req_t) : Prop :=
  ∃ k1 k2, k = k1 ++ k2 ∧ Forall2 req_le l k1.

#[export] Instance req_le_preorder : PreOrder req_le.
Proof.
  split; [by left|]. intros x y z [->| ->] [->| ->]; [by left|by right..].
Qed.

#[export] Instance reqs_ext_preorder : PreOrder reqs_ext.
Proof.
  split.
  - intros l. exists l, []. rewrite app_nil_r. split; [done|reflexivity].
  - intros l k m (k1 & k2 & -> & Hlk) (m1 & m2 & -> & Hkm).
    apply Forall2_app_inv_l in Hkm as (m11 & m12 & H1 & H2 & ->).
    exists m11, (m12 ++ m2). rewrite app_assoc. split; [done|].
    by transitivity k1.
Qed.

Lemma reqs_ext_app l k : reqs_ext l (l ++ k).
Proof. exists l, k. split; [done|reflexivity]. Qed.

Lemma reqs_ext_mark f l : reqs_ext l (update_first f mark_req l).
Proof.
  exists (update_first f mark_req l), []. rewrite app_nil_r. split; [done|].
  induction l as [|e l IH]; simpl; [constructor|].
  destruct (f e); constructor; (done || by right || by left || reflexivity).
Qed.

(** An entry stays where it was, maybe marked. *)
Lemma reqs_ext_find a l k p :
  reqs_ext l k → find_first (req_at a) l = Some p →
  ∃ q, find_first (req_at a) k = Some q ∧ req_le p q.
Proof.
  intros (k1 & k2 & -> & Hf). unfold find_first.
  induction Hf as [|x y l k1 Hxy Hf IH]; simpl; [done|].
  assert (req_at a y = req_at a x) as -> by (by destruct Hxy as [->| ->]).
  destruct (req_at a x); [|done]. intros [= <-]. eauto.
Qed.

Lemma find_req_at l f p :
  NoDup (rq_addr <$> l) → find_first f l = Some p → find_first (req_at (rq_addr p)) l = Some p.
Proof. apply find_key. Qed.

End ClientLemmas.

#[export] Hint Resolve reqs_ext_app reqs_ext_mark : atlas.

(** What the requests need of the callbacks they run: they may add requests,
    never remove one. *)
Class ClientCallbacks {E} `{Env E}
    (run : client_cb → list byte → atlas_coap_response_t → option (list byte) → Z →
           World E → option (World E)) : Prop := {
  callback_reqs cb uri st pl n w w' :
    run cb uri st pl n w = Some w' → reqs_ext (w_reqs w) (w_reqs w');
  callback_sched cb uri st pl n w w' :
    run cb uri st pl n w = Some w' → sched_ext (w_sched w) (w_sched w')
}.

Section RequestLemmas.
Context `{Host, Env E}.
Implicit Types w : World E.

Lemma add_request_outcome ctx session uri token timeout cb w st w' :
  add_request ctx session uri token timeout cb w = (st, w') →
  app_state w' = app_state w ∧ sent w' = sent w ∧ w_token w' = w_token w ∧
  sched_ext (w_sched w) (w_sched w') ∧
  (st ≠ ATLAS_OK ∧ w_reqs w' = w_reqs w ∨
   st = ATLAS_OK ∧ ∃ fd id,
     w_reqs w' = w_reqs w ++ [mk_req (w_brk w) fd id ctx session uri token cb false]).
Proof.
  unfold add_request, alloc. dcall fd e. cbn zeta beta iota.
  case_decide.
  { intros [= <- <-]. split_and!; try (done || reflexivity). by left. }
  match goal with |- context [atlas_alarm_set _ _ _ ?x] => set (w1 := x) end.
  pose proof (alarm_set_quiet timeout AC_request_alarm_cb true w1) as Hq.
  destruct (atlas_alarm_set _ _ _ w1) as [id w2].
  destruct Hq as (Hsent & Happ & Hreqs & Htok & Hs & _). case_decide.
  - intros [= <- <-]. split_and!; [exact Happ|exact Hsent|exact Htok|exact Hs|].
    left. split; [done|exact Hreqs].
  - intros [= <- <-]. split_and!; [exact Happ|exact Hsent|exact Htok| |].
    + etrans; [exact Hs|]. apply sched_ext_add.
    + right. split; [done|]. exists fd, id. wsimpl. unfold sched_add. wsimpl. by rewrite Hreqs.
Qed.

Lemma sent_request_err ctx s w : sent (request_err ctx s w).2 = sent w.
Proof.
  etrans; [apply (sent_emit (EvFreeContext _))|]. rewrite app_nil_r.
  etrans; [apply (sent_emit (EvRelease _))|]. apply app_nil_r.
Qed.

Lemma get_session_eq ctx dtls dst port w :
  ∃ s e, get_session ctx dtls dst port w = (s, with_env e w) ∧
    ∃ psk, coap_new_client_session ctx psk dst port (w_env w) = (s, e).
Proof. unfold get_session. destruct dtls; dcall s e; exists s, e; eauto. Qed.

(** Ends a branch of the request that fails. *)
Ltac request_failed := intros [= <- <-]; split_and!;
  [done|reflexivity|left; split_and!; [done|done|(done || exact (sent_request_err _ _ _))]].

Lemma request_outcome uri method pl timeout cb w st w' :
  atlas_coap_client_request (Some uri) method pl timeout (Some cb) w = Some (st, w') →
  app_state w' = app_state w ∧ sched_ext (w_sched w) (w_sched w') ∧
  (st ≠ ATLAS_OK ∧ w_reqs w' = w_reqs w ∧ sent w' = sent w ∨
   st = ATLAS_OK ∧ ∃ u a fd id ctx session tid,
     coap_split_uri uri = Some u ∧
     w_reqs w' = w_reqs w ++ [mk_req a fd id ctx session uri (w_token w) cb false] ∧
     w_token w' = u32 (w_token w + 1) ∧
     sent w' = sent w ++ [(session, add_data pl
       (mk_pdu COAP_MESSAGE_CON tid (request_code method) (store32 (w_token w))
          (uri_options u) None))]).
Proof.
  unfold atlas_coap_client_request.
  destruct (coap_split_uri uri) as [u|] eqn:Hu; [|request_failed].
  unfold resolve_address. dcall ainfo e0. destruct ainfo as [ainfo|]; [|request_failed].
  destruct (find_first fst ainfo) as [dst|]; [|done]. cbn [mbind option_bind].
  dcall ctx e1. destruct ctx as [ctx|]; [|request_failed].
  destruct (get_session_eq ctx (uri_secure u) dst.2 (uri_port u)
    (with_env e1 (with_env e0 w))) as (s & e2 & -> & _).
  destruct s as [s|]; [|request_failed].
  dcall ok e3. destruct ok; cbn [negb]; [|request_failed].
  dcall tid e4. unfold get_new_token. dcall ok e5. destruct ok; cbn [negb]; [|request_failed].
  match goal with |- context [add_request _ _ _ _ _ _ ?x] => set (w1 := x) end.
  destruct (add_request _ _ _ _ _ _ w1) as [st1 w2] eqn:Ha.
  apply add_request_outcome in Ha as (Happ & Hsent & Htok & Hs & Hr).
  case_decide as Hst.
  - intros [= <- <-]. destruct Hr as [[? ?]|(_ & fd & id & Hr)]; [done|].
    split_and!; [exact Happ|exact Hs|]. right. split; [done|].
    exists u, (w_brk w1), fd, id, ctx, s, tid. split_and!; [done|exact Hr|exact Htok|].
    rewrite sent_emit. by rewrite Hsent.
  - intros [= <- <-]. destruct Hr as [[_ Hr]|[? _]]; [|done].
    split_and!; [exact Happ|exact Hs|]. left. split_and!; [done|exact Hr|].
    etrans; [exact (sent_request_err _ _ w2)|exact Hsent].
Qed.

(** The network works: the host of the URI is resolved, libcoap has memory for
    a context, a session and a message, and timers can be set. *)
Definition network_works (uri : list byte) : Prop :=
  timers_work ∧ is_Some (coap_split_uri uri) ∧ (∀ h e, is_Some (getaddrinfo h e).1) ∧
  (∀ e, is_Some (coap_new_context e).1) ∧
  (∀ ctx psk dst port e, is_Some (coap_new_client_session ctx psk dst port e).1) ∧
  (∀ s e, (coap_new_pdu s e).1 = true) ∧ (∀ s t e, (coap_add_token s t e).1 = true) ∧
  (∀ ctx e, (coap_context_get_coap_fd ctx e).1 ≠ -1).

Lemma add_request_works ctx session uri token timeout cb w :
  timers_work → (∀ ctx e, (coap_context_get_coap_fd ctx e).1 ≠ -1) →
  (add_request ctx session uri token timeout cb w).1 = ATLAS_OK.
Proof.
  intros Ht Hfd. unfold add_request, alloc. cbn zeta beta iota. unfold call.
  match goal with |- context [coap_context_get_coap_fd ctx ?e] => specialize (Hfd ctx e);
    destruct (coap_context_get_coap_fd ctx e) as [fd e1] end. cbn [fst] in Hfd.
  rewrite decide_False by done.
  match goal with |- context [atlas_alarm_set ?a ?b ?c ?x] =>
    pose proof (proj1 (alarm_set_works a b c x Ht)); destruct (atlas_alarm_set a b c x) as [id w2] end.
  cbn [fst] in *. by rewrite decide_False by lia.
Qed.

(** With a working network a request is accepted. *)
Lemma request_accepted uri method pl timeout cb w st w' :
  network_works uri →
  atlas_coap_client_request (Some uri) method pl timeout (Some cb) w = Some (st, w') → st = ATLAS_OK.
Proof.
  intros (Ht & [u Hu] & Hres & Hctx & Hses & Hpdu & Htok & Hfd).
  unfold atlas_coap_client_request. rewrite Hu.
  unfold resolve_address. dcall ainfo e0. destruct (Hres (c_string (uri_host u ++ [x00])) (w_env w)) as [l Hl].
  rewrite F in Hl. cbn [fst] in Hl. subst ainfo.
  destruct (find_first fst l) as [dst|]; [|done]. cbn [mbind option_bind]. clear F.
  dcall ctx e1. destruct (Hctx e0) as [c Hc]. cbn [w_env with_env] in F. rewrite F in Hc. cbn [fst] in Hc.
  subst ctx. clear F.
  destruct (get_session_eq c (uri_secure u) dst.2 (uri_port u)
    (with_env e1 (with_env e0 w))) as (s & e2 & -> & psk & Hs).
  destruct (Hses c psk dst.2 (uri_port u) e1) as [s' Hs']. cbn [w_env with_env] in Hs.
  rewrite Hs in Hs'. cbn [fst] in Hs'. subst s.
  dcall ok e3. cbn [w_env with_env] in F. pose proof (Hpdu s' e2) as Hok. rewrite F in Hok.
  cbn [fst] in Hok. subst ok. cbn [negb]. clear F.
  dcall tid e4. unfold get_new_token. clear F. dcall ok e5. cbn [w_env with_env with_token] in F.
  match type of F with coap_add_token ?x ?t ?e = _ => pose proof (Htok x t e) as Hok end.
  rewrite F in Hok. cbn [fst] in Hok. subst ok. cbn [negb].
  match goal with |- context [add_request ?a ?b ?x ?d ?e ?f ?v] =>
    pose proof (add_request_works a b x d e f v Ht Hfd); destruct (add_request a b x d e f v) as [st1 w2] end.
  cbn [fst] in *. rewrite decide_True by done. by intros [= <- _].
Qed.

(** A request always answers. *)
Lemma request_total `{!EnvLaws E} uri method pl timeout cb w :
  is_Some (atlas_coap_client_request (Some uri) method pl timeout (Some cb) w).
Proof.
  unfold atlas_coap_client_request. destruct (coap_split_uri uri) as [u|]; [|eauto].
  unfold resolve_address. dcall ainfo e0. destruct ainfo as [ainfo|]; [|eauto].
  destruct (getaddrinfo_law _ _ _ _ F) as [dst ->]. cbn [mbind option_bind].
  dcall ctx e1. destruct ctx as [ctx|]; [|eauto].
  destruct (get_session_eq ctx (uri_secure u) dst.2 (uri_port u)
    (with_env e1 (with_env e0 w))) as (s & e2 & -> & _).
  destruct s as [s|]; [|eauto].
  dcall ok e3. destruct ok; cbn [negb]; [|eauto].
  dcall tid e4. unfold get_new_token. dcall ok e5. destruct ok; cbn [negb]; [|eauto].
  destruct (add_request _ _ _ _ _ _ _) as [st1 w2]. case_decide; eauto.
Qed.

End RequestLemmas.

Section CompletionLemmas.
Context `{Host, Env E}.
Context (run : client_cb → list byte → atlas_coap_response_t →
               option (list byte) → Z → World E → option (World E)) `{!ClientCallbacks run}.
Implicit Types w : World E.

(** Unlinking the entry and releasing what it holds. *)
Definition req_closed (q : atlas_coap_client_req_t) w : World E :=
  emit (EvFreeContext (rq_ctx q)) (emit (EvRelease (Some (rq_session q)))
    (atlas_alarm_cancel (rq_alarm_id q) (sched_del (coap_fd q)
      (with_reqs (remove_first (req_at (rq_addr q)) (w_reqs w)) w)))).

Lemma reqs_closed q w : w_reqs (req_closed q w) = remove_first (req_at (rq_addr q)) (w_reqs w).
Proof.
  unfold req_closed. wsimpl.
  match goal with |- context [atlas_alarm_cancel ?i ?x] =>
    destruct (alarm_cancel_frame i x) as (_ & -> & _) end. done.
Qed.

Lemma message_handler_valid ctx session sent received w ent :
  find_first (in_session ctx session) (w_reqs w) = Some ent →
  pdu_token received = store32 (rq_token ent) →
  message_handler run ctx session sent received w =
  (let '(st, pl, n) := response_args received in
   run (rq_callback ent) (rq_uri ent) st pl n
     (with_reqs (update_first (in_session ctx session) mark_req (w_reqs w)) w)).
Proof.
  intros Hf Ht. unfold message_handler, validate_token. rewrite Hf, Ht.
  rewrite decide_True by (apply zlen_store32). by rewrite bool_decide_true.
Qed.

Lemma message_handler_invalid ctx session sent received w ent :
  find_first (in_session ctx session) (w_reqs w) = Some ent →
  pdu_token received ≠ store32 (rq_token ent) →
  message_handler run ctx session sent received w = Some w ∨
  message_handler run ctx session sent received w = Some (emit (EvSendRst session) w).
Proof.
  intros Hf Ht. unfold message_handler, validate_token. rewrite Hf.
  rewrite (bool_decide_false _ Ht). case_decide; case_decide; auto.
Qed.

(** The marked entry is the one that is found, before and after marking. *)
Lemma marked_find ctx session l ent :
  NoDup (rq_addr <$> l) → find_first (in_session ctx session) l = Some ent →
  find_first (in_session ctx session) (update_first (in_session ctx session) mark_req l)
    = Some (mark_req ent) ∧
  find_first (req_at (rq_addr ent)) (update_first (in_session ctx session) mark_req l)
    = Some (mark_req ent).
Proof.
  intros Hnd (Hp & l1 & l2 & -> & Hl1)%find_first_Some. rewrite update_first_app by done. split.
  - by apply find_first_app.
  - apply find_first_app; [by apply (key_in_front rq_addr) with l2|by apply bool_decide_eq_true].
Qed.

Lemma find_marked a l k p :
  reqs_ext l k → find_first (req_at a) l = Some (mark_req p) →
  find_first (req_at a) k = Some (mark_req p).
Proof.
  intros Hext Hf. destruct (reqs_ext_find a l k _ Hext Hf) as (q & Hq & [->| ->]); done.
Qed.

Lemma sched_callback_answered fd w p e sent received st pl n w2 :
  find_first (has_fd fd) (w_reqs w) = Some p →
  coap_io_process (rq_ctx p) (w_env w) = ([InResponse (rq_session p) sent received], e) →
  find_first (in_session (rq_ctx p) (rq_session p)) (w_reqs w) = Some p →
  NoDup (rq_addr <$> w_reqs w) →
  pdu_token received = store32 (rq_token p) →
  response_args received = (st, pl, n) →
  run (rq_callback p) (rq_uri p) st pl n
    (with_reqs (update_first (in_session (rq_ctx p) (rq_session p)) mark_req (w_reqs w))
       (with_env e w)) = Some w2 →
  coap_client_sched_callback run fd w = Some (req_closed p w2).
Proof.
  intros Hf Hio Hs Hnd Ht Ha Hrun. unfold coap_client_sched_callback, call. rewrite Hf, Hio.
  cbn [client_io]. rewrite (message_handler_valid _ _ _ _ _ p) by done. rewrite Ha.
  wsimpl. rewrite Hrun. wsimpl.
  destruct (marked_find _ _ _ _ Hnd Hs) as [_ Hm].
  pose proof (callback_reqs _ _ _ _ _ _ _ Hrun) as Hext.
  rewrite (find_marked _ _ _ p Hext Hm). done.
Qed.

End CompletionLemmas.

(** ** Properties *)

Section ClientProperties.
Context `{Host, Env E}.
Context (run : client_cb → list byte → atlas_coap_response_t →
               option (list byte) → Z → World E → option (World E)) `{!ClientCallbacks run}.
Implicit Types w : World E.

(** C17. A request that is accepted sends exactly one confirmable PDU, with the
    code of its method, the options of its URI and its payload, and a token
    that is the counter's value before the call; it is listed last, unmarked,
    with that token, and the counter moves on modulo 2^32. A request that is
    not accepted sends nothing and is not listed. *)
Theorem request_sends_once uri method pl timeout cb w st w' :
  atlas_coap_client_request (Some uri) method pl timeout (Some cb) w = Some (st, w') →
  app_state w' = app_state w ∧
  (st ≠ ATLAS_OK ∧ w_reqs w' = w_reqs w ∧ sent w' = sent w ∨
   st = ATLAS_OK ∧ ∃ u a fd id ctx session tid,
     coap_split_uri uri = Some u ∧
     w_reqs w' = w_reqs w ++ [mk_req a fd id ctx session uri (w_token w) cb false] ∧
     w_token w' = u32 (w_token w + 1) ∧
     sent w' = sent w ++ [(session, add_data pl
       (mk_pdu COAP_MESSAGE_CON tid (request_code method) (store32 (w_token w))
          (uri_options u) None))]).
Proof. intros Hr. apply request_outcome in Hr as (? & _ & ?). done. Qed.

(** C16. When the descriptor of a request becomes ready and its response with
    the right token is there, the component's callback runs exactly once, with
    the status the code stands for; then the request is unlinked, its
    descriptor and its timeout alarm are cancelled and its session and context
    released. The response with another token leaves every request as it is,
    and no callback runs. *)
Theorem response_completes_request fd w p e resp received :
  find_first (has_fd fd) (w_reqs w) = Some p →
  find_first (in_session (rq_ctx p) (rq_session p)) (w_reqs w) = Some p →
  NoDup (rq_addr <$> w_reqs w) → rq_dirty p = false →
  coap_io_process (rq_ctx p) (w_env w) = ([InResponse (rq_session p) resp received], e) →
  (pdu_token received = store32 (rq_token p) →
     ∀ st pl n w2, response_args received = (st, pl, n) →
     run (rq_callback p) (rq_uri p) st pl n
       (with_reqs (update_first (in_session (rq_ctx p) (rq_session p)) mark_req (w_reqs w))
          (with_env e w)) = Some w2 →
     NoDup (rq_addr <$> w_reqs w2) →
     ∃ w', coap_client_sched_callback run fd w = Some w' ∧
       (∀ q, q ∈ w_reqs w' → rq_addr q ≠ rq_addr p) ∧
       w' = emit (EvFreeContext (rq_ctx p)) (emit (EvRelease (Some (rq_session p)))
             (atlas_alarm_cancel (rq_alarm_id p) (sched_del (coap_fd p)
               (with_reqs (w_reqs w') w2))))) ∧
  (pdu_token received ≠ store32 (rq_token p) →
     ∃ w', coap_client_sched_callback run fd w = Some w' ∧
       w_reqs w' = w_reqs w ∧ w_sched w' = w_sched w ∧ w_alarms w' = w_alarms w).
Proof.
  intros Hf Hs Hnd Hdirty Hio. split.
  - intros Ht st pl n w2 Ha Hrun Hnd2. exists (req_closed p w2). split_and!.
    + by eapply sched_callback_answered.
    + rewrite reqs_closed. by apply (remove_key_gone rq_addr).
    + rewrite reqs_closed. done.
  - intros Ht. unfold coap_client_sched_callback, call. rewrite Hf, Hio. cbn [client_io].
    pose proof (find_req_at _ _ _ Hnd Hf) as Hfa.
    destruct (message_handler_invalid run _ _ resp received (with_env e w) p Hs Ht) as [-> | ->];
      wsimpl; rewrite Hfa; wsimpl; rewrite Hdirty; by eexists.
Qed.

(** C28. When the timeout alarm of a request fires first, its callback runs
    exactly once with ATLAS_COAP_RESP_TIMEOUT, and the request is unlinked,
    its descriptor removed from the scheduler and its session and context
    released; nothing freed is used, whatever requests the callback makes. *)
Theorem timeout_completes_request id w p w2 :
  find_first (has_alarm id) (w_reqs w) = Some p →
  NoDup (rq_addr <$> w_reqs w) →
  run (rq_callback p) (rq_uri p) ATLAS_COAP_RESP_TIMEOUT None 0 w = Some w2 →
  NoDup (rq_addr <$> w_reqs w2) →
  ∃ w', request_alarm_cb run id w = Some w' ∧
    (∀ q, q ∈ w_reqs w' → rq_addr q ≠ rq_addr p) ∧
    w_sched w' = atlas_sched_del_entry (coap_fd p) (w_sched w2) ∧
    w_trace w' = w_trace w2 ++ [EvRelease (Some (rq_session p)); EvFreeContext (rq_ctx p)].
Proof.
  intros Hf Hnd Hrun Hnd2. unfold request_alarm_cb. rewrite Hf, Hrun. cbn [mbind option_bind].
  pose proof (find_req_at _ _ _ Hnd Hf) as Hfa.
  destruct (reqs_ext_find _ _ _ _ (callback_reqs _ _ _ _ _ _ _ Hrun) Hfa) as (q & -> & Hle).
  cbn [mbind option_bind]. eexists. split; [reflexivity|]. unfold sched_del. wsimpl. split_and!.
  - by apply (remove_key_gone rq_addr).
  - by destruct Hle as [->| ->].
  - rewrite <- app_assoc. by destruct Hle as [->| ->].
Qed.

(** The response handler does not look at the mark it leaves: a response
    that libcoap hands over twice before the request is unlinked runs the
    callback a second time. *)
Theorem duplicate_response_runs_twice ctx session resp received w p st pl n w1 w2 :
  find_first (in_session ctx session) (w_reqs w) = Some p →
  NoDup (rq_addr <$> w_reqs w) →
  pdu_token received = store32 (rq_token p) → response_args received = (st, pl, n) →
  run (rq_callback p) (rq_uri p) st pl n
    (with_reqs (update_first (in_session ctx session) mark_req (w_reqs w)) w) = Some w1 →
  w_reqs w1 = update_first (in_session ctx session) mark_req (w_reqs w) →
  run (rq_callback p) (rq_uri p) st pl n
    (with_reqs (update_first (in_session ctx session) mark_req (w_reqs w1)) w1) = Some w2 →
  client_io run ctx [InResponse session resp received; InResponse session resp received] w = Some w2.
Proof.
  intros Hf Hnd Ht Ha Hrun Hw1 Hrun2. cbn [client_io].
  rewrite (message_handler_valid run _ _ _ _ w p), Ha, Hrun by done. cbn [mbind option_bind].
  rewrite (message_handler_valid run _ _ _ _ w1 (mark_req p)), Ha; [|rewrite Hw1|done].
  - cbn [rq_callback rq_uri mark_req]. by rewrite Hrun2.
  - by apply marked_find.
Qed.

(** The DTLS identity and key given to libcoap are the first 64 characters
    of the strings of the identity component, with their exact lengths,
    however often they are set. *)
Theorem dtls_info_truncates w i k pi pk :
  nul_free i → nul_free k →
  dtls_identity (w_dtls w) = pi ++ [x00] → zlen pi = 64 →
  dtls_key (w_dtls w) = pk ++ [x00] → zlen pk = 64 →
  ∃ bi bk, atlas_coap_client_set_dtls_info (Some i) (Some k) w =
    Some (ATLAS_OK, with_dtls (mk_cpsk (bi ++ [x00]) (bk ++ [x00]) (zlen (take 64 i)) (zlen (take 64 k))) w) ∧
    zlen bi = 64 ∧ zlen bk = 64 ∧
    cstr_in (bi ++ [x00]) (take 64 i) ∧ cstr_in (bk ++ [x00]) (take 64 k).
Proof.
  intros Hi Hk Ei Li Ek Lk. unfold atlas_coap_client_set_dtls_info,
    ATLAS_COAP_CLIENT_DTLS_IDENTITY_LEN, ATLAS_COAP_CLIENT_DTLS_KEY_LEN. rewrite Ei, Ek.
  destruct (strncpy_array pi i 64 Hi Li ltac:(lia)) as (bi & -> & Lbi & Ci & Si).
  destruct (strncpy_array pk k 64 Hk Lk ltac:(lia)) as (bk & -> & Lbk & Ck & Sk).
  cbn [mbind option_bind]. change (Z.to_nat 64) with 64%nat in *. rewrite Si, Sk.
  cbn [mbind option_bind]. by exists bi, bk.
Qed.

End ClientProperties.

(** A request in flight and a callback that does nothing, for the instances. *)
Definition req0 : atlas_coap_client_req_t :=
  mk_req 0 5 6 7 8 (B "coaps://gw:5684/x") 9 CC_reg_callback false.
Definition world_req0 : World Z := with_reqs [req0] (initial_world 10).
Definition run_nothing (cb : client_cb) (uri : list byte) (st : atlas_coap_response_t)
  (pl : option (list byte)) (n : Z) (w : World Z) : option (World Z) := Some w.
Definition pdu_ok (token : Z) : coap_pdu_t :=
  mk_pdu 2 1 69 (@store32 le_host token) [] (Some [x41]).
Definition env_ok (token : Z) : Env Z := sim_env [] [InResponse 8 false (pdu_ok token)].

#[export] Instance run_nothing_callbacks e : @ClientCallbacks Z e run_nothing.
Proof. split; intros * [= <-]; reflexivity. Qed.

Lemma request_sends_once_witness :
  ∃ u a fd id ctx session,
    w_reqs (default (initial_world 3) (snd <$> @atlas_coap_client_request le_host Z (sim_env [] [])
      (Some (B "coaps://gw:5684/x")) ATLAS_COAP_METHOD_PUT None 5000 (Some CC_reg_callback)
      (initial_world 3))) =
    [] ++ [mk_req a fd id ctx session (B "coaps://gw:5684/x") 0 CC_reg_callback false] ∧
    uri_secure u = true.
Proof.
  destruct (@request_sends_once le_host Z (sim_env [] []) (B "coaps://gw:5684/x")
    ATLAS_COAP_METHOD_PUT None 5000 CC_reg_callback (initial_world 3) ATLAS_OK
    (default (initial_world 3) (snd <$> @atlas_coap_client_request le_host Z (sim_env [] [])
      (Some (B "coaps://gw:5684/x")) ATLAS_COAP_METHOD_PUT None 5000 (Some CC_reg_callback)
      (initial_world 3)))) as (_ & [(Hn & _)|(_ & u & a & fd & id & ctx & s & tid & Hu & Hr & _)]).
  - by vm_compute.
  - by destruct Hn.
  - exists u, a, fd, id, ctx, s. split; [exact Hr|].
    vm_compute in Hu. by injection Hu as <-.
Defined.

Lemma response_completes_request_witness :
  ∃ w', @coap_client_sched_callback le_host Z (env_ok 4) run_nothing 5 world_req0 = Some w' ∧
    w_reqs w' = w_reqs world_req0.
Proof.
  destruct (proj2 (@response_completes_request le_host Z (env_ok 4) run_nothing _ 5 world_req0 req0 10
    false (pdu_ok 4) eq_refl eq_refl ltac:(by apply (bool_decide_unpack _); vm_compute) eq_refl eq_refl))
    as (w' & Hw & Hr & _); [by vm_compute|]. by exists w'.
Defined.

Lemma timeout_completes_request_witness :
  ∃ w', @request_alarm_cb Z (env_ok 9) run_nothing 6 world_req0 = Some w' ∧
    (∀ q, q ∈ w_reqs w' → rq_addr q ≠ 0%nat) ∧
    w_sched w' = atlas_sched_del_entry 5 (w_sched world_req0) ∧
    w_trace w' = w_trace world_req0 ++ [EvRelease (Some 8); EvFreeContext 7].
Proof.
  by apply (@timeout_completes_request Z (env_ok 9) run_nothing _ 6 world_req0 req0 world_req0
    eq_refl ltac:(by apply (bool_decide_unpack _); vm_compute) eq_refl
    ltac:(by apply (bool_decide_unpack _); vm_compute)).
Defined.

Lemma duplicate_response_runs_twice_witness :
  let w := with_reqs [mark_req req0] world_req0 in
  @client_io le_host Z (env_ok 9) run_nothing 7
    [InResponse 8 false (pdu_ok 9); InResponse 8 false (pdu_ok 9)] world_req0 = Some w.
Proof.
  intros w.
  by apply (@duplicate_response_runs_twice le_host Z (env_ok 9) run_nothing 7 8 false (pdu_ok 9)
    world_req0 req0 ATLAS_COAP_RESP_OK (Some [x41]) 1 w w eq_refl
    ltac:(by apply (bool_decide_unpack _); vm_compute)).
Defined.

Lemma dtls_info_truncates_witness :
  ∃ bi bk, atlas_coap_client_set_dtls_info (Some (B "id")) (Some (B "key")) (initial_world 0) =
    Some (ATLAS_OK, with_dtls (mk_cpsk (bi ++ [x00]) (bk ++ [x00]) 2 3) (initial_world 0)) ∧
    zlen bi = 64 ∧ zlen bk = 64 ∧
    cstr_in (bi ++ [x00]) (take 64 (B "id")) ∧ cstr_in (bk ++ [x00]) (take 64 (B "key")).
Proof.
  by apply (@dtls_info_truncates Z (initial_world 0) (B "id") (B "key") (zeros 64) (zeros 64));
    try (by apply (bool_decide_unpack _); vm_compute); vm_compute.
Defined.
