(* ===== verification/Request.v ===== *)
(** * Sending a batch to the gateway

    The components above CoAP share one pattern: build a batch, make the URI of
    a gateway path, and send the batch in a request. *)

From stdpp Require Import gmap.
From S2P Require Import Prelude Protocol Command CString Scheduler State Config Alarm.
From S2P Require Import CoapClient.

Section Request.
Context `{Host, Env E}.
Implicit Types w : World E.

(** [atlas_cmd_batch_new], an [atlas_cmd_batch_add] per command, and
    [atlas_cmd_batch_get_buf]. *)
Definition build_batch (cs : list (Z * list byte)) : option (option (list byte) * Z) :=
  cb ← add_all atlas_cmd_batch_new cs;
  Some (atlas_cmd_batch_get_buf cb None 0).

(** What a function given [buf] and [len] reads; NULL stays NULL. *)
Definition buf_bytes (buf : option (list byte)) (len : Z) : option (option (list byte)) :=
  match buf with
  | None => Some None
  | Some b => d ← mread b 0 len; Some (Some d)
  end.

Definition send_batch (path : list byte) (method : atlas_coap_method_t)
    (cs : list (Z * list byte)) (timeout : Z) (cb : client_cb) w : option (World E) :=
  '(buf, len) ← build_batch cs;
  uri ← cfg_uri (w_cfg w) path;
  pl ← buf_bytes buf len;
  '(_, w) ← atlas_coap_client_request (Some uri) method pl timeout (Some cb) w;
  Some w.

(** The batch as the bytes written to a descriptor. *)
Definition write_batch (fd : Z) (cs : list (Z * list byte)) w : option (Z * Z * World E) :=
  '(buf, len) ← build_batch cs;
  pl ← buf_bytes buf len;
  let '(rc, w) := write_fd fd (default [] pl) w in
  Some (rc, len, w).

(** The lists of commands that fit a batch. *)
Definition fits (cs : list (Z * list byte)) : Prop :=
  cs ≠ [] ∧ Forall wf_cmd cs ∧ zlen (encode cs) < 65536.

#[export] Instance fits_dec cs : Decision (fits cs).
Proof. unfold fits. apply _. Defined.

Lemma build_batch_eq cs : fits cs → build_batch cs = Some (Some (encode cs), zlen (encode cs)).
Proof.
  intros (Hne & Hwf & Hl). unfold build_batch.
  destruct (add_all_holds atlas_cmd_batch_new [] cs) as (cb & -> & Hcb); [apply holds_new|done..|].
  cbn [mbind option_bind]. by rewrite (holds_get_buf cb cs).
Qed.

Lemma send_batch_eq path method cs timeout cb w uri :
  fits cs → cfg_uri (w_cfg w) path = Some uri →
  send_batch path method cs timeout cb w =
  ('(_, w) ← atlas_coap_client_request (Some uri) method (Some (encode cs)) timeout (Some cb) w;
   Some w).
Proof.
  intros Hf Hu. unfold send_batch. rewrite (build_batch_eq cs Hf). cbn [mbind option_bind].
  rewrite Hu. cbn [mbind option_bind buf_bytes]. by rewrite mread_all.
Qed.

Lemma write_batch_eq fd cs w :
  fits cs →
  write_batch fd cs w =
  (let '(rc, w) := write_fd fd (encode cs) w in Some (rc, zlen (encode cs), w)).
Proof.
  intros Hf. unfold write_batch. rewrite (build_batch_eq cs Hf). cbn [mbind option_bind buf_bytes].
  by rewrite mread_all.
Qed.

(** Nothing but the environment and the trace differs, and nothing was sent. *)
Definition same_lists w w' : Prop :=
  app_state w' = app_state w ∧ w_sched w' = w_sched w ∧ w_alarms w' = w_alarms w ∧
  w_reqs w' = w_reqs w ∧ sent w' = sent w ∧ w_token w' = w_token w.

(** One request was made between two worlds, with this URI, method, payload,
    timeout and callback. When CoAP accepts it, which it does when the network
    works, it is listed and one message is sent; otherwise nothing is. *)
Definition requested (uri : list byte) (method : atlas_coap_method_t) (pl : option (list byte))
    (timeout : Z) (cb : client_cb) w w' : Prop :=
  app_state w' = app_state w ∧ sched_ext (w_sched w) (w_sched w') ∧
  ∃ w1 st, same_lists w w1 ∧
    atlas_coap_client_request (Some uri) method pl timeout (Some cb) w1 = Some (st, w') ∧
    (network_works uri → st = ATLAS_OK) ∧
    (st ≠ ATLAS_OK ∧ w_reqs w' = w_reqs w ∧ sent w' = sent w ∨
     st = ATLAS_OK ∧ ∃ u a fd id ctx session tid,
       coap_split_uri uri = Some u ∧
       w_reqs w' = w_reqs w ++ [mk_req a fd id ctx session uri (w_token w) cb false] ∧
       sent w' = sent w ++ [(session, add_data pl
         (mk_pdu COAP_MESSAGE_CON tid (request_code method) (store32 (w_token w))
            (uri_options u) None))]).

Lemma same_lists_refl w : same_lists w w.
Proof. done. Qed.

Lemma request_requested uri method pl timeout cb w w1 st w' :
  same_lists w w1 →
  atlas_coap_client_request (Some uri) method pl timeout (Some cb) w1 = Some (st, w') →
  requested uri method pl timeout cb w w'.
Proof.
  intros Hsame Hr. pose proof Hsame as (Ha & Hs & _ & Hq & Hse & Ht).
  pose proof Hr as (Ha' & Hs' & Hc)%request_outcome.
  split; [congruence|]. split; [by rewrite <- Hs|]. exists w1, st. split; [done|]. split; [done|].
  split; [intros Hn; by eapply request_accepted|]. rewrite <- Hq, <- Hse, <- Ht.
  destruct Hc as [?|(? & u & a & fd & id & ctx & s & tid & Hu & Hr' & _ & Hsent)]; [by left|right].
  split; [done|]. by exists u, a, fd, id, ctx, s, tid.
Qed.

(** With a working network the message is sent. *)
Lemma requested_sent uri method pl timeout cb w w' :
  network_works uri → requested uri method pl timeout cb w w' →
  ∃ u session tid, coap_split_uri uri = Some u ∧
    sent w' = sent w ++ [(session, add_data pl
      (mk_pdu COAP_MESSAGE_CON tid (request_code method) (store32 (w_token w)) (uri_options u) None))] ∧
    (rq_uri <$> w_reqs w') = (rq_uri <$> w_reqs w) ++ [uri].
Proof.
  intros Hn (_ & _ & w1 & st & _ & _ & Hok & [[? _]|(_ & u & a & fd & id & ctx & s & tid & Hu & Hr & Hs)]).
  { by specialize (Hok Hn). }
  exists u, s, tid. by rewrite Hr, fmap_app.
Qed.

Lemma send_batch_requested path method cs timeout cb w w' :
  send_batch path method cs timeout cb w = Some w' →
  ∃ uri pl, cfg_uri (w_cfg w) path = Some uri ∧ requested uri method pl timeout cb w w'.
Proof.
  unfold send_batch. destruct (build_batch cs) as [[buf len]|]; [|done]. cbn [mbind option_bind].
  destruct (cfg_uri _ _) as [uri|]; [|done]. cbn [mbind option_bind].
  destruct (buf_bytes buf len) as [pl|]; [|done]. cbn [mbind option_bind].
  destruct (atlas_coap_client_request _ _ _ _ _ _) as [[st w1]|] eqn:Hr; [|done].
  cbn [mbind option_bind]. intros [= <-]. exists uri, pl. split; [done|].
  by eapply request_requested.
Qed.

Lemma requested_reqs uri method pl timeout cb w w' :
  requested uri method pl timeout cb w w' → reqs_ext (w_reqs w) (w_reqs w').
Proof.
  intros (_ & _ & w1 & st & _ & _ & _ & [(_ & -> & _)|(_ & u & a & fd & id & ctx & s & tid & _ & -> & _)]);
    [reflexivity|apply reqs_ext_app].
Qed.

(** Sending a batch always ends, and makes one request, whose payload is the
    encoding of the batch; what is prepared for it changes nothing. *)
Lemma send_batch_sends `{!EnvLaws E} path method cs timeout cb w w1 uri :
  fits cs → same_lists w w1 → cfg_uri (w_cfg w1) path = Some uri →
  ∃ w', send_batch path method cs timeout cb w1 = Some w' ∧
        requested uri method (Some (encode cs)) timeout cb w w'.
Proof.
  intros Hf Hsame Hu. rewrite (send_batch_eq path method cs timeout cb w1 uri Hf Hu).
  destruct (request_total uri method (Some (encode cs)) timeout cb w1) as [[st w2] Hr].
  rewrite Hr. exists w2. split; [done|]. by eapply request_requested.
Qed.

End Request.

(** A network that always answers. *)
Lemma sim_network_works inputs data uri : @network_works Z (sim_env data inputs) uri.
Proof.
  split_and!; try (intros; by eexists); try (intros; cbn; lia); try done.
  split; intros; cbn; lia.
Qed.
