(* ===== verification/CoapServer.v ===== *)
(** * CoAP server ([coap/atlas_coap_server.c])

    The server of the client device: one list of listeners per method, each a
    libcoap resource with the callback of the component that installed it. *)

From stdpp Require Import gmap.
From S2P Require Import Prelude Protocol CString Scheduler State.

Definition ATLAS_COAP_DEFAULT_STRING : list byte := B "ATLAS client CoAP server".
Definition ATLAS_MAX_PSK_KEY_BYTES : Z := 64.

(** [atlas_coap_server_mode_t] *)
Definition ATLAS_COAP_SERVER_MODE_UDP : Z := 1.
Definition ATLAS_COAP_SERVER_MODE_DTLS_PSK : Z := 2.
Definition ATLAS_COAP_SERVER_MODE_BOTH : Z := 3.

Definition ATLAS_COAP_SERVER_IS_UDP (mode : Z) : bool := negb (Z.land mode 1 =? 0).
Definition ATLAS_COAP_SERVER_IS_DTLS (mode : Z) : bool := negb (Z.land mode 2 =? 0).

Section CoapServer.
Context `{Env E}.
Implicit Types w : World E.

(** The call through the function pointer of a listener: it answers with the
    response code and the response payload, if it allocates one. *)
Context (run : server_cb → list byte → option (list byte) → Z → World E →
               option (atlas_coap_response_t * option (list byte) * World E)).

Definition put_server (s : coap_server_t) w : World E := with_server s w.

(** [psk_val] is a pointer to a string. *)
Definition set_dtls_psk (ctx : Z) (psk_val : option (list byte)) w : option (World E) :=
  let '(supported, w) := call coap_dtls_is_supported w in
  if negb supported then Some w else
  psk_val ← psk_val;
  key ← strncpy (srv_key (w_server w)) psk_val ATLAS_MAX_PSK_KEY_BYTES;
  k ← cstr_of key;
  let s := w_server w in
  let w := put_server (mk_server key (srv_ctx s) (srv_fd s) (server_listeners s)) w in
  Some (emit (EvSetPsk ctx k) w).

(** The label [ERROR]: both endpoints, which may be NULL, and the context. *)
Definition context_error (ctx : Z) w : option (option Z * World E) :=
  Some (None, emit (EvFreeContext ctx) (emit EvFreeEndpoint (emit EvFreeEndpoint w))).

Definition get_context (port server_mode : Z) (psk : option (list byte)) w
    : option (option Z * World E) :=
  let '(ctx, w) := call coap_new_context w in
  match ctx with
  | None => Some (None, w)
  | Some ctx =>
      w ← (if ATLAS_COAP_SERVER_IS_DTLS server_mode then set_dtls_psk ctx psk w else Some w);
      let dtls_port :=
        if ATLAS_COAP_SERVER_IS_UDP server_mode && ATLAS_COAP_SERVER_IS_DTLS server_mode
        then u16 (port + 1) else port in
      let '(ep, w) :=
        if ATLAS_COAP_SERVER_IS_UDP server_mode
        then call (coap_new_endpoint ctx port false) w else (true, w) in
      if negb ep then context_error ctx w else
      let '(eps, w) :=
        if ATLAS_COAP_SERVER_IS_DTLS server_mode
        then call (coap_new_endpoint ctx dtls_port true) w else (true, w) in
      if negb eps then context_error ctx w else
      Some (Some ctx, w)
  end.

(** With a NULL resource libcoap dereferences NULL. *)
Definition init_default_resources (ctx : Z) w : option (World E) :=
  let '(resource, w) := call (coap_resource_init None) w in
  resource ← resource;
  let w := emit (EvRegisterHandler resource COAP_REQUEST_GET get_default_index_handler) w in
  Some (emit (EvAddResource (Some ctx) resource) w).

Definition set_ctx (ctx : option Z) w : World E :=
  let s := w_server w in
  put_server (mk_server (srv_key s) ctx (srv_fd s) (server_listeners s)) w.

Definition atlas_coap_server_start (port server_mode : Z) (psk : option (list byte)) w
    : option (atlas_status_t * World E) :=
  if decide (port = 0) then Some (ATLAS_INVALID_PORT, w) else
  '(ctx, w) ← get_context port server_mode psk w;
  let w := set_ctx ctx w in
  match ctx with
  | None => Some (ATLAS_GENERAL_ERR, w)
  | Some ctx =>
      w ← init_default_resources ctx w;
      let '(fd, w) := call (coap_context_get_coap_fd ctx) w in
      let s := w_server w in
      let w := put_server (mk_server (srv_key s) (srv_ctx s) fd (server_listeners s)) w in
      if decide (fd = -1) then
        Some (ATLAS_GENERAL_ERR, set_ctx None (emit (EvFreeContext ctx) w))
      else Some (ATLAS_OK, sched_add fd SC_atlas_coap_server_sched_callback w)
  end.

Definition atlas_coap_get_method (method : atlas_coap_method_t) : Z :=
  match method with
  | ATLAS_COAP_METHOD_GET => COAP_REQUEST_GET
  | ATLAS_COAP_METHOD_POST => COAP_REQUEST_POST
  | ATLAS_COAP_METHOD_PUT => COAP_REQUEST_PUT
  | ATLAS_COAP_METHOD_DELETE => COAP_REQUEST_DELETE
  end.

Definition method_handler (method : atlas_coap_method_t) : server_handler :=
  match method with
  | ATLAS_COAP_METHOD_GET => get_handler
  | ATLAS_COAP_METHOD_POST => post_handler
  | ATLAS_COAP_METHOD_PUT => put_handler
  | ATLAS_COAP_METHOD_DELETE => delete_handler
  end.

Definition set_listeners (m : atlas_coap_method_t) (l : list atlas_coap_server_listener_t) w
    : World E :=
  let s := w_server w in
  put_server (mk_server (srv_key s) (srv_ctx s) (srv_fd s)
    (λ m', if decide (m' = m) then l else server_listeners s m')) w.

Definition atlas_coap_server_add_resource (uri_path : option (list byte))
    (method : atlas_coap_method_t) (cb : option server_cb) w : atlas_status_t * World E :=
  match uri_path, cb with
  | None, _ => (ATLAS_COAP_INVALID_URI, w)
  | _, None => (ATLAS_INVALID_CALLBACK, w)
  | Some uri_path, Some cb =>
      let '(resource, w) := call (coap_resource_init (Some uri_path)) w in
      match resource with
      | None => (ATLAS_GENERAL_ERR, w)
      | Some resource =>
          let w := emit (EvRegisterHandler resource (atlas_coap_get_method method)
                           (method_handler method)) w in
          let w := emit (EvAddResource (srv_ctx (w_server w)) resource) w in
          let '(a, w) := alloc w in
          (ATLAS_OK, set_listeners method
             (server_listeners (w_server w) method ++ [mk_listener a resource cb uri_path]) w)
      end
  end.

Definition listener_at (a : nat) (p : atlas_coap_server_listener_t) : bool :=
  bool_decide (ls_addr p = a).

(** [p->next] of the entry at address [a]; reading a freed entry is undefined. *)
Fixpoint next_of (a : nat) (l : list atlas_coap_server_listener_t) : option (option nat) :=
  match l with
  | [] => None
  | x :: t => if listener_at a x then Some (ls_addr <$> head t) else next_of a t
  end.

(** The loop of [atlas_coap_server_del_resource]; it goes on after a match. *)
Fixpoint del_resource_loop (fuel : nat) (uri_path : list byte) (method : atlas_coap_method_t)
    (cur : option nat) w : option (World E) :=
  match cur, fuel with
  | None, _ => Some w
  | Some _, O => None
  | Some a, S fuel =>
      p ← find_first (listener_at a) (server_listeners (w_server w) method);
      let w :=
        if streq (ls_uri_path p) uri_path then
          emit (EvDeleteResource (srv_ctx (w_server w)) (ls_resource p))
            (set_listeners method
               (remove_first (listener_at a) (server_listeners (w_server w) method)) w)
        else w in
      next ← next_of a (server_listeners (w_server w) method);
      del_resource_loop fuel uri_path method next w
  end.

Definition atlas_coap_server_del_resource (uri_path : list byte) (method : atlas_coap_method_t) w
    : option (World E) :=
  let l := server_listeners (w_server w) method in
  del_resource_loop (length l) uri_path method (ls_addr <$> head l) w.

Definition has_resource (r : Z) (p : atlas_coap_server_listener_t) : bool :=
  bool_decide (ls_resource p = r).

(** [uri] is the path libcoap finds in the request, if any. *)
Definition process_request_handler (resource session : Z) (uri : option (list byte))
    (payload : option (list byte)) (listeners : list atlas_coap_server_listener_t) w
    : option (World E) :=
  match uri with
  | None => Some w
  | Some uri =>
      let uri_path := c_string (uri ++ [x00]) in
      match find_first (has_resource resource) listeners with
      | None => Some w
      | Some listener =>
          '(resp_code, resp_payload, w) ←
            run (ls_callback listener) uri_path payload (zlen (default [] payload)) w;
          let w := emit (EvResponseCode session (COAP_RESPONSE_CODE (resp_number resp_code))) w in
          match resp_payload with
          | Some (b :: d) =>
              if decide (resp_code = ATLAS_COAP_RESP_OK)
              then Some (emit (EvResponseData resource session (b :: d)) w) else Some w
          | _ => Some w
          end
      end
  end.

(** The handlers libcoap calls. *)
Definition server_handle (h : server_handler) (resource session : Z) (uri : option (list byte))
    (payload : option (list byte)) w : option (World E) :=
  let listeners m := server_listeners (w_server w) m in
  match h with
  | get_default_index_handler =>
      Some (emit (EvResponseData resource session ATLAS_COAP_DEFAULT_STRING) w)
  | get_handler =>
      process_request_handler resource session uri payload (listeners ATLAS_COAP_METHOD_GET) w
  | post_handler =>
      process_request_handler resource session uri payload (listeners ATLAS_COAP_METHOD_POST) w
  | put_handler =>
      process_request_handler resource session uri payload (listeners ATLAS_COAP_METHOD_PUT) w
  | delete_handler =>
      process_request_handler resource session uri payload (listeners ATLAS_COAP_METHOD_DELETE) w
  end.

(** [coap_io_process] of the server context. *)
Fixpoint server_io (inputs : list coap_input) w : option (World E) :=
  match inputs with
  | [] => Some w
  | InRequest h resource session uri payload :: inputs =>
      w ← server_handle h resource session uri payload w;
      server_io inputs w
  | InResponse _ _ _ :: inputs => server_io inputs w
  end.

Definition atlas_coap_server_sched_callback (fd : Z) w : option (World E) :=
  ctx ← srv_ctx (w_server w);
  let '(inputs, w) := call (coap_io_process ctx) w in
  server_io inputs w.

End CoapServer.

(** ** Lemmas *)

Section ServerLemmas.
Context `{Env E}.
Implicit Types w : World E.

Lemma set_listeners_same m l w : server_listeners (w_server (set_listeners m l w)) m = l.
Proof. unfold set_listeners, put_server. wsimpl. cbn [server_listeners]. by rewrite decide_True. Qed.

Lemma next_of_None a l : (∀ p, p ∈ l → ls_addr p ≠ a) → next_of a l = None.
Proof.
  induction l as [|x l IH]; intros Hno; [done|]. cbn [next_of]. unfold listener_at.
  rewrite bool_decide_false by (apply Hno; by left). apply IH. set_solver.
Qed.

(** The walk reaches the first listener with the path, if any. *)
Lemma del_walk uri m fuel l2 : ∀ l1 w,
  server_listeners (w_server w) m = l1 ++ l2 → (length l2 ≤ fuel)%nat →
  NoDup (ls_addr <$> (l1 ++ l2)) →
  del_resource_loop fuel uri m (ls_addr <$> head l2) w =
  if existsb (λ p, streq (ls_uri_path p) uri) l2 then None else Some w.
Proof.
  revert fuel. induction l2 as [|p l2 IH]; intros fuel l1 w Hl Hf Hnd; [by destruct fuel|].
  destruct fuel as [|fuel]; [simpl in Hf; lia|]. cbn [head fmap option_fmap option_map del_resource_loop].
  rewrite Hl. pose proof (key_in_front ls_addr l1 p l2 Hnd) as Hfront.
  rewrite find_first_app by (done || by apply bool_decide_eq_true). cbn [mbind option_bind existsb].
  destruct (streq (ls_uri_path p) uri); cbn [orb].
  - wsimpl. rewrite set_listeners_same, next_of_None; [done|].
    apply (remove_key_gone ls_addr _ _ Hnd).
  - rewrite Hl. assert (next_of (ls_addr p) (l1 ++ p :: l2) = Some (ls_addr <$> head l2)) as ->.
    { clear -Hfront. induction l1 as [|x l1 IH]; cbn [app next_of].
      - unfold listener_at. by rewrite bool_decide_true.
      - unfold listener_at. rewrite (Hfront x) by (by left). apply IH.
        intros y Hy. apply Hfront. by right. }
    cbn [mbind option_bind]. apply (IH fuel (l1 ++ [p])); [by rewrite <- app_assoc|simpl in Hf; lia|].
    by rewrite <- app_assoc.
Qed.

(** Everything but the server, the trace and the environment. *)
Definition but_server w w' : Prop :=
  w_brk w' = w_brk w ∧ w_sched w' = w_sched w ∧ w_alarms w' = w_alarms w ∧ w_reqs w' = w_reqs w ∧
  w_token w' = w_token w ∧ w_dtls w' = w_dtls w ∧ w_cfg w' = w_cfg w ∧ w_id w' = w_id w ∧
  w_register w' = w_register w ∧ w_features w' = w_features w ∧
  w_procs_threshold w' = w_procs_threshold w ∧ w_connector w' = w_connector w ∧
  w_cmdInProgress w' = w_cmdInProgress w.

Lemma get_context_frame port mode psk w ctx w' :
  get_context port mode psk w = Some (ctx, w') →
  but_server w w' ∧ server_listeners (w_server w') = server_listeners (w_server w).
Proof.
  unfold get_context. dcall c e. destruct c as [c|]; [|by intros [= <- <-]].
  assert (∀ w1, (if ATLAS_COAP_SERVER_IS_DTLS mode then set_dtls_psk c psk (with_env e w)
                 else Some (with_env e w)) = Some w1 →
    but_server w w1 ∧ server_listeners (w_server w1) = server_listeners (w_server w)) as Hpsk.
  { destruct (ATLAS_COAP_SERVER_IS_DTLS mode); [|by intros w1 [= <-]].
    intros w1. unfold set_dtls_psk. dcall ok e1. destruct ok; [|by intros [= <-]]. cbn [negb].
    destruct psk as [k|]; [|done]. cbn [mbind option_bind].
    destruct (strncpy _ _ _); [|done]. cbn [mbind option_bind].
    destruct (cstr_of _); [|done]. cbn [mbind option_bind]. by intros [= <-]. }
  destruct (if ATLAS_COAP_SERVER_IS_DTLS mode then _ else _) as [w1|]; [|done].
  destruct (Hpsk w1 eq_refl) as [Hb Hl]. cbn [mbind option_bind].
  destruct (ATLAS_COAP_SERVER_IS_UDP mode), (ATLAS_COAP_SERVER_IS_DTLS mode);
    try (dcall ep e1; destruct ep); cbn [negb]; try (by intros [= <- <-]);
    try (dcall eps e2; destruct eps); cbn [negb]; by intros [= <- <-].
Qed.

Lemma get_context_sched port mode psk w ctx w' :
  get_context port mode psk w = Some (ctx, w') →
  w_sched w' = w_sched w ∧ server_listeners (w_server w') = server_listeners (w_server w).
Proof. by intros [(_ & ? & _) ?]%get_context_frame. Qed.

End ServerLemmas.

(** ** Properties *)

Section ServerProperties.
Context `{Env E}.
Context (run : server_cb → list byte → option (list byte) → Z → World E →
               option (atlas_coap_response_t * option (list byte) * World E)).
Implicit Types w : World E.

(** C35. A resource that was added is served: a request libcoap delivers for it
    to the handler registered for its method runs the component's callback
    once, with the path and the payload of the request, answers with the code
    of the callback's response, and with the callback's payload exactly when
    the response is OK and the payload is not empty. *)
Theorem added_resource_is_served uri m cb w w1 r e session path payload resp rp w2 :
  coap_resource_init (Some uri) (w_env w) = (Some r, e) →
  (∀ p, p ∈ server_listeners (w_server w) m → ls_resource p ≠ r) →
  atlas_coap_server_add_resource (Some uri) m (Some cb) w = (ATLAS_OK, w1) →
  nul_free path →
  run cb path payload (zlen (default [] payload)) w1 = Some (resp, rp, w2) →
  w_trace w1 = w_trace w ++ [EvRegisterHandler r (atlas_coap_get_method m) (method_handler m);
                             EvAddResource (srv_ctx (w_server w)) r] ∧
  ∃ w3, server_handle run (method_handler m) r session (Some path) payload w1 = Some w3 ∧
    w_trace w3 = w_trace w2 ++
      EvResponseCode session (COAP_RESPONSE_CODE (resp_number resp)) ::
      match rp with
      | Some (b :: d) => if decide (resp = ATLAS_COAP_RESP_OK)
                         then [EvResponseData r session (b :: d)] else []
      | _ => []
      end.
Proof.
  intros Hinit Hnew Hadd Hpath Hrun. unfold atlas_coap_server_add_resource, call in Hadd.
  rewrite Hinit in Hadd. apply (inj2 pair) in Hadd as [_ <-].
  split; [unfold set_listeners, put_server; wsimpl; by rewrite <- app_assoc|].
  match goal with Hr : run _ _ _ _ ?x = _ |- _ => set (w1 := x) in * end.
  assert (find_first (has_resource r) (server_listeners (w_server w1) m) =
          Some (mk_listener (w_brk w) r cb uri)) as Hf.
  { unfold w1. rewrite set_listeners_same. apply find_first_app.
    - intros y Hy. apply bool_decide_eq_false. by apply Hnew.
    - by apply bool_decide_eq_true. }
  assert (server_handle run (method_handler m) r session (Some path) payload w1 =
    process_request_handler run r session (Some path) payload
      (server_listeners (w_server w1) m) w1) as -> by (by destruct m).
  unfold process_request_handler. rewrite Hf. cbn [ls_callback].
  rewrite c_string_app, Hrun by done. cbn [mbind option_bind].
  destruct rp as [[|b d]|]; [|case_decide|]; eexists; (split; [reflexivity|]); wsimpl;
    [done| |done..].
  by rewrite <- app_assoc.
Qed.

(** A request for a resource no component has installed under its method,
    or without a path, is dropped: no callback runs and nothing is answered. *)
Theorem unknown_resource_is_dropped m r session uri payload w :
  (∀ p, p ∈ server_listeners (w_server w) m → ls_resource p ≠ r) ∨ uri = None →
  server_handle run (method_handler m) r session uri payload w = Some w.
Proof.
  intros Hno.
  assert (server_handle run (method_handler m) r session uri payload w =
    process_request_handler run r session uri payload (server_listeners (w_server w) m) w) as ->
    by (by destruct m).
  unfold process_request_handler. destruct uri as [uri|]; [|done].
  rewrite find_first_None; [done|]. intros p Hp. apply bool_decide_eq_false.
  destruct Hno as [Hno|]; [by apply Hno|done].
Qed.

(** Deleting a resource reads the entry it has just freed to go on with
    the list: the deletion is undefined whenever there is something to delete,
    and does nothing otherwise. *)
Theorem del_resource_uses_freed_entry uri m w :
  NoDup (ls_addr <$> server_listeners (w_server w) m) →
  atlas_coap_server_del_resource uri m w =
  if existsb (λ p, streq (ls_uri_path p) uri) (server_listeners (w_server w) m)
  then None else Some w.
Proof. intros Hnd. by apply (del_walk uri m _ _ []). Qed.

(** The server starts on a non-zero port with the context libcoap gives
    it, and then its descriptor is scheduled; in every other case nothing is
    scheduled, and port 0 is refused at once. *)
Theorem server_start_schedules port mode psk w st w' :
  atlas_coap_server_start port mode psk w = Some (st, w') →
  (port = 0 ∧ st = ATLAS_INVALID_PORT ∧ w' = w) ∨
  (port ≠ 0 ∧ st = ATLAS_GENERAL_ERR ∧ w_sched w' = w_sched w ∧ srv_ctx (w_server w') = None) ∨
  (port ≠ 0 ∧ st = ATLAS_OK ∧ ∃ ctx fd, srv_ctx (w_server w') = Some ctx ∧ fd ≠ -1 ∧
     srv_fd (w_server w') = fd ∧
     w_sched w' = atlas_sched_add_entry fd (Some SC_atlas_coap_server_sched_callback) (w_sched w)).
Proof.
  unfold atlas_coap_server_start. case_decide as Hp; [intros [= <- <-]; by left|].
  destruct (get_context port mode psk w) as [[ctx w1]|] eqn:Hc; [|done].
  apply get_context_sched in Hc as [Hs _]. cbn [mbind option_bind]. intros Hst. right. revert Hst.
  destruct ctx as [ctx|]; [|intros [= <- <-]; by left].
  unfold init_default_resources. dcall res e. destruct res as [res|]; [|done].
  wsimpl. dcall fd e2. case_decide.
  - intros [= <- <-]. by left.
  - intros [= <- <-]. right. split_and!; [done..|]. exists ctx, fd.
    unfold sched_add, set_ctx, put_server. wsimpl. by rewrite Hs.
Qed.

End ServerProperties.

(** A callback that accepts everything, for the instances. *)
Definition serve_ok (cb : server_cb) (path : list byte) (pl : option (list byte)) (n : Z)
  (w : World Z) : option (atlas_coap_response_t * option (list byte) * World Z) :=
  Some (ATLAS_COAP_RESP_OK, Some [x41], w).

Definition world_resource : World Z :=
  (@atlas_coap_server_add_resource Z (sim_env [] []) (Some (B "a")) ATLAS_COAP_METHOD_PUT
     (Some SV_execute_command_cb) (initial_world 3)).2.

Lemma added_resource_is_served_witness :
  w_trace world_resource = [] ++ [EvRegisterHandler 3 3 put_handler; EvAddResource None 3] ∧
  ∃ w3, @server_handle Z (sim_env [] []) serve_ok put_handler 3 9 (Some (B "a")) None world_resource = Some w3 ∧
    w_trace w3 = w_trace world_resource ++ [EvResponseCode 9 64; EvResponseData 3 9 [x41]].
Proof.
  apply (@added_resource_is_served Z (sim_env [] []) serve_ok (B "a") ATLAS_COAP_METHOD_PUT
    SV_execute_command_cb (initial_world 3) world_resource 3 4 9 (B "a") None
    ATLAS_COAP_RESP_OK (Some [x41]) world_resource); try done.
  - by intros p ?%elem_of_nil.
  - by apply (bool_decide_unpack _); vm_compute.
Defined.

Lemma unknown_resource_is_dropped_witness :
  @server_handle Z (sim_env [] []) serve_ok get_handler 8 9 (Some (B "a")) None world_resource
  = Some world_resource.
Proof.
  apply (@unknown_resource_is_dropped Z (sim_env [] []) serve_ok ATLAS_COAP_METHOD_GET).
  left. by intros p ?%elem_of_nil.
Defined.

Lemma del_resource_uses_freed_entry_witness :
  @atlas_coap_server_del_resource Z (sim_env [] []) (B "a") ATLAS_COAP_METHOD_PUT world_resource = None.
Proof.
  refine (@del_resource_uses_freed_entry Z (sim_env [] []) (B "a") ATLAS_COAP_METHOD_PUT
    world_resource _). by apply (bool_decide_unpack _); vm_compute.
Defined.

Lemma server_start_schedules_witness :
  let w' := (@atlas_coap_server_start Z (sim_env [] []) 0 2 None (initial_world 3)) in
  (0 = 0 ∧ ATLAS_INVALID_PORT = ATLAS_INVALID_PORT ∧ initial_world 3 = initial_world 3) ∨ w' = None.
Proof.
  intros w'. left.
  destruct (@server_start_schedules Z (sim_env [] []) 0 2 None (initial_world 3)
    ATLAS_INVALID_PORT (initial_world 3) eq_refl) as [H|[(H & _)|(H & _)]]; done.
Defined.
