(* ===== verification/Connector.v ===== *)
(** * Data plane connector ([data_plane_connector/atlas_data_plane_connector.c])

    The client listens on a Unix socket for the data plane application of the
    device, one connection at a time. The application sends its firewall
    policy, its traffic statistics, reputation requests and feedback; the
    connector stores or forwards them, and relays the answers of the gateway. *)

From stdpp Require Import gmap.
From S2P Require Import Prelude Protocol Command CString Scheduler State Config Identity Alarm.
From S2P Require Import CoapClient Request.

Definition ATLAS_CLIENT_DATA_PLANE_BUFFER_LEN : Z := 2048.
Definition ATLAS_CLIENT_POLICY_TIMEOUT_MS : Z := 5000.
Definition ATLAS_CLIENT_FEATURE_TIMEOUT_MS : Z := 5000.
Definition ATLAS_CLIENT_POLICY_COAP_PATH : list byte := B "gateway/policy".
Definition ATLAS_CLIENT_FEATURE_COAP_PATH : list byte := B "gateway/reputation/feature".
Definition ATLAS_CLIENT_FEEDBACK_COAP_PATH : list byte := B "gateway/reputation/feedback".
Definition ATLAS_CLIENT_POLICY_ACTIVE : Z := 1.

Section Connector.
Context `{Host, Env E}.
Implicit Types w : World E.

(** [memcpy (&variable, value, sizeof (variable))]: the two bytes are not
    checked to belong to the command. *)
Definition set_policy_qos (qos : list byte) w : option (World E) :=
  v ← mread qos 0 2;
  let c := w_connector w in
  Some (with_connector (mk_connector (connected_socket c) (load16 v) (policy_packets_per_min c)
    (policy_packets_maxlen c) (active_policy c) (packets_per_min c) (packets_avg c)) w).

Definition set_policy_packets_per_min (ppm : list byte) w : option (World E) :=
  v ← mread ppm 0 2;
  let c := w_connector w in
  Some (with_connector (mk_connector (connected_socket c) (policy_qos c) (load16 v)
    (policy_packets_maxlen c) (active_policy c) (packets_per_min c) (packets_avg c)) w).

Definition set_policy_packets_maxlen (pack_maxlen : list byte) w : option (World E) :=
  v ← mread pack_maxlen 0 2;
  let c := w_connector w in
  Some (with_connector (mk_connector (connected_socket c) (policy_qos c) (policy_packets_per_min c)
    (load16 v) (active_policy c) (packets_per_min c) (packets_avg c)) w).

Definition set_packets_per_min (ppm : list byte) w : option (World E) :=
  v ← mread ppm 0 2;
  let c := w_connector w in
  Some (with_connector (mk_connector (connected_socket c) (policy_qos c) (policy_packets_per_min c)
    (policy_packets_maxlen c) (active_policy c) (load16 v) (packets_avg c)) w).

Definition set_packets_avg (pack_avg : list byte) w : option (World E) :=
  v ← mread pack_avg 0 2;
  let c := w_connector w in
  Some (with_connector (mk_connector (connected_socket c) (policy_qos c) (policy_packets_per_min c)
    (policy_packets_maxlen c) (active_policy c) (packets_per_min c) (load16 v)) w).

Definition set_active_policy w : World E :=
  let c := w_connector w in
  with_connector (mk_connector (connected_socket c) (policy_qos c) (policy_packets_per_min c)
    (policy_packets_maxlen c) ATLAS_CLIENT_POLICY_ACTIVE (packets_per_min c) (packets_avg c)) w.

Definition set_connected_socket (fd : Z) w : World E :=
  let c := w_connector w in
  with_connector (mk_connector fd (policy_qos c) (policy_packets_per_min c)
    (policy_packets_maxlen c) (active_policy c) (packets_per_min c) (packets_avg c)) w.

Definition get_packets_per_min w : Z := packets_per_min (w_connector w).
Definition get_packets_avg w : Z := packets_avg (w_connector w).

(** The batch of the policy, each value converted with [htons] first. *)
Definition policy_cmds (c : connector_t) : list (Z * list byte) :=
  [(ATLAS_CMD_DATA_PLANE_POLICY_QOS, store16 (htons (policy_qos c)));
   (ATLAS_CMD_DATA_PLANE_POLICY_PACKETS_PER_MINUTE, store16 (htons (policy_packets_per_min c)));
   (ATLAS_CMD_DATA_PLANE_POLICY_PACKETS_MAXLEN, store16 (htons (policy_packets_maxlen c)))].

Definition send_policy_command w : option (World E) :=
  if decide (active_policy (w_connector w) ≠ ATLAS_CLIENT_POLICY_ACTIVE) then Some w else
  send_batch ATLAS_CLIENT_POLICY_COAP_PATH ATLAS_COAP_METHOD_PUT (policy_cmds (w_connector w))
    ATLAS_CLIENT_POLICY_TIMEOUT_MS CC_policy_callback w.

Definition policy_alarm_callback w : option (World E) := send_policy_command w.

Definition policy_callback (resp_status : atlas_coap_response_t) w : World E :=
  if decide (resp_status ≠ ATLAS_COAP_RESP_OK)
  then (atlas_alarm_set ATLAS_CLIENT_POLICY_TIMEOUT_MS AC_policy_alarm_callback true w).2
  else w.

(** The loop body: each reputation command is copied into a batch of its own
    and written to the data plane. *)
Definition reputation_resp_body (cmd : atlas_cmd_t) w : option (World E * bool) :=
  if decide (cmd_type cmd = ATLAS_CMD_DATA_PLANE_FEATURE_REPUTATION) then
    v ← mread (cmd_value cmd) 0 (cmd_length cmd);
    '(_, _, w) ← write_batch (connected_socket (w_connector w))
      [(ATLAS_CMD_DATA_PLANE_FEATURE_REPUTATION, v)] w;
    Some (w, false)
  else Some (w, false).

Definition atlas_reputation_resp_parse (buf : option (list byte)) (buf_len : Z) w
    : option (atlas_status_t * World E) :=
  match buf with
  | None => Some (ATLAS_INVALID_INPUT, w)
  | Some _ =>
      if decide (buf_len = 0) then Some (ATLAS_INVALID_INPUT, w) else
      '(status, cmd_batch) ← atlas_cmd_batch_set_raw atlas_cmd_batch_new buf buf_len;
      if decide (status = ATLAS_OK) then
        w ← cmd_foreach cmd_batch reputation_resp_body w;
        Some (ATLAS_OK, w)
      else Some (ATLAS_CORRUPTED_COMMAND, w)
  end.

Definition feature_reputation_callback (resp_status : atlas_coap_response_t)
    (resp_payload : option (list byte)) (resp_payload_len : Z) w : option (World E) :=
  if decide (resp_status ≠ ATLAS_COAP_RESP_OK) then
    '(_, _, w) ← write_batch (connected_socket (w_connector w))
      [(ATLAS_CMD_DATA_PLANE_FEATURE_ERROR, [])] w;
    Some w
  else
    '(_, w) ← atlas_reputation_resp_parse resp_payload (u16 resp_payload_len) w;
    Some w.

(** [feature] and [feedback] point into the batch of the caller. *)
Definition atlas_feature_reputation_handle (feature : list byte) (length : Z) w
    : option (World E) :=
  if decide (length = 0) then Some w else
  identity ← atlas_identity_get w;
  v ← mread feature 0 length;
  send_batch ATLAS_CLIENT_FEATURE_COAP_PATH ATLAS_COAP_METHOD_PUT
    [(ATLAS_CMD_IDENTITY, identity); (ATLAS_CMD_DATA_PLANE_FEATURE_REPUTATION, v)]
    ATLAS_CLIENT_FEATURE_TIMEOUT_MS CC_feature_reputation_callback w.

(** [feedback_callback] only logs. *)
Definition feedback_callback (resp_status : atlas_coap_response_t) w : World E := w.

Definition atlas_feature_feedback_handle (feedback : list byte) (length : Z) w
    : option (World E) :=
  if decide (length = 0) then Some w else
  identity ← atlas_identity_get w;
  v ← mread feedback 0 length;
  send_batch ATLAS_CLIENT_FEEDBACK_COAP_PATH ATLAS_COAP_METHOD_PUT
    [(ATLAS_CMD_IDENTITY, identity); (ATLAS_CMD_DATA_PLANE_FEEDBACK, v)]
    ATLAS_CLIENT_FEATURE_TIMEOUT_MS CC_feedback_callback w.

Definition policy_body (cmd : atlas_cmd_t) w : option (World E * bool) :=
  w ← (if decide (cmd_type cmd = ATLAS_CMD_DATA_PLANE_POLICY_QOS)
       then set_policy_qos (cmd_value cmd) w
       else if decide (cmd_type cmd = ATLAS_CMD_DATA_PLANE_POLICY_PACKETS_PER_MINUTE)
       then set_policy_packets_per_min (cmd_value cmd) w
       else if decide (cmd_type cmd = ATLAS_CMD_DATA_PLANE_POLICY_PACKETS_MAXLEN)
       then set_policy_packets_maxlen (cmd_value cmd) w
       else Some w);
  Some (w, false).

Definition atlas_data_plane_parse_policy (buf : option (list byte)) (buf_len : Z) w
    : option (World E) :=
  match buf with
  | None => Some w
  | Some _ =>
      if decide (buf_len = 0) then Some w else
      '(status, cmd_batch) ← atlas_cmd_batch_set_raw atlas_cmd_batch_new buf buf_len;
      if decide (status = ATLAS_OK) then
        w ← cmd_foreach cmd_batch policy_body w;
        send_policy_command (set_active_policy w)
      else Some w
  end.

Definition atlas_data_plane_identity w : option (World E) :=
  identity ← atlas_identity_get w;
  '(_, _, w) ← write_batch (connected_socket (w_connector w))
    [(ATLAS_CMD_DATA_PLANE_IDENTITY, identity)] w;
  Some w.

Definition data_plane_body (cmd : atlas_cmd_t) w : option (World E * bool) :=
  w ← (if decide (cmd_type cmd = ATLAS_CMD_DATA_PLANE_POLICY)
       then atlas_data_plane_parse_policy (Some (cmd_value cmd)) (cmd_length cmd) w
       else if decide (cmd_type cmd = ATLAS_CMD_DATA_PLANE_PACKETS_PER_MINUTE)
       then set_packets_per_min (cmd_value cmd) w
       else if decide (cmd_type cmd = ATLAS_CMD_DATA_PLANE_PACKETS_AVG)
       then set_packets_avg (cmd_value cmd) w
       else if decide (cmd_type cmd = ATLAS_CMD_DATA_PLANE_FEATURE_REPUTATION)
       then atlas_feature_reputation_handle (cmd_value cmd) (cmd_length cmd) w
       else if decide (cmd_type cmd = ATLAS_CMD_DATA_PLANE_FEEDBACK)
       then atlas_feature_feedback_handle (cmd_value cmd) (cmd_length cmd) w
       else if decide (cmd_type cmd = ATLAS_CMD_DATA_PLANE_GET_IDENTITY)
       then atlas_data_plane_identity w
       else Some w);
  Some (w, false).

Definition atlas_data_plane_read_cb (fd : Z) w : option (World E) :=
  '(rc, buf, w) ← read_into fd ATLAS_CLIENT_DATA_PLANE_BUFFER_LEN
                    (malloc ATLAS_CLIENT_DATA_PLANE_BUFFER_LEN) w;
  if decide (rc <= 0) then Some (sched_del fd w) else
  '(status, cmd_batch) ← atlas_cmd_batch_set_raw atlas_cmd_batch_new (Some buf) (u16 rc);
  if decide (status = ATLAS_OK) then cmd_foreach cmd_batch data_plane_body w
  else Some w.

Definition atlas_data_plane_accept_cb (fd : Z) w : World E :=
  let s := connected_socket (w_connector w) in
  let w := if decide (s ≠ -1) then emit (EvClose s) (sched_del s w) else w in
  let '(s, w) := call (sys_accept fd) w in
  let w := set_connected_socket s w in
  if decide (s = -1) then w else sched_add s SC_atlas_data_plane_read_cb w.

(** The path of the socket comes from a header the build generates. *)
Context (ATLAS_DATA_PLANE_UNIX_SOCKET_PATH : list byte).

(** [sun_path] has 108 bytes, of which the last stays NUL. *)
Definition sun_path : list byte := take 107 ATLAS_DATA_PLANE_UNIX_SOCKET_PATH.

Definition atlas_data_plane_connector_start w : atlas_status_t * World E :=
  let w := emit (EvUnlink sun_path) w in
  let '(fd, w) := call sys_socket_unix w in
  if decide (fd = -1) then (ATLAS_SOCKET_ERROR, w) else
  let '(rc, w) := call (sys_bind fd sun_path) w in
  if decide (rc = -1) then (ATLAS_SOCKET_ERROR, w) else
  let '(rc, w) := call (sys_listen fd 1) w in
  if decide (rc = -1) then (ATLAS_SOCKET_ERROR, w) else
  (ATLAS_OK, sched_add fd SC_atlas_data_plane_accept_cb w).

End Connector.

(** ** Lemmas *)

Section ConnectorLemmas.
Context `{Host, Env E}.
Implicit Types w : World E.

(** A value of two bytes is read whatever follows it. *)
Lemma read2 v post : 0 ≤ v < 65536 → mread (store16 v ++ post) 0 2 = Some (store16 v).
Proof. intros. apply mread_head. by rewrite zlen_store16. Qed.

(** The policy as the data plane sends it: integers of its host. *)
Definition native_policy (qos ppm maxlen : Z) : list (Z * list byte) :=
  [(ATLAS_CMD_DATA_PLANE_POLICY_QOS, store16 qos);
   (ATLAS_CMD_DATA_PLANE_POLICY_PACKETS_PER_MINUTE, store16 ppm);
   (ATLAS_CMD_DATA_PLANE_POLICY_PACKETS_MAXLEN, store16 maxlen)].

(** The policy as the gateway gets it: network byte order. *)
Definition network_policy (qos ppm maxlen : Z) : list (Z * list byte) :=
  [(ATLAS_CMD_DATA_PLANE_POLICY_QOS, be16 qos);
   (ATLAS_CMD_DATA_PLANE_POLICY_PACKETS_PER_MINUTE, be16 ppm);
   (ATLAS_CMD_DATA_PLANE_POLICY_PACKETS_MAXLEN, be16 maxlen)].

Lemma wf_store16 t v : 0 ≤ t < 65536 → wf_cmd (t, store16 v).
Proof. intros. split; [done|]. cbn [snd]. by rewrite zlen_store16. Qed.

Lemma wf_be16 t v : 0 ≤ t < 65536 → wf_cmd (t, be16 v).
Proof. intros. split; [done|]. cbn [snd]. by rewrite zlen_be16. Qed.

Lemma native_policy_wf qos ppm maxlen : Forall wf_cmd (native_policy qos ppm maxlen).
Proof. repeat (apply Forall_cons_2; [by apply wf_store16|]). apply Forall_nil_2. Qed.

Lemma zlen_native_policy qos ppm maxlen : zlen (encode (native_policy qos ppm maxlen)) = 18.
Proof.
  unfold native_policy. rewrite !encode_cons, encode_nil, !zlen_app, !zlen_encode_cmd. cbn [snd].
  by rewrite !zlen_store16.
Qed.

Lemma network_policy_fits qos ppm maxlen : fits (network_policy qos ppm maxlen).
Proof.
  split_and!; [done| |].
  - repeat (apply Forall_cons_2; [by apply wf_be16|]). apply Forall_nil_2.
  - unfold network_policy. rewrite !encode_cons, encode_nil, !zlen_app, !zlen_encode_cmd. done.
Qed.

Definition with_policy (qos ppm maxlen : Z) w : World E :=
  let c := w_connector w in
  with_connector (mk_connector (connected_socket c) qos ppm maxlen ATLAS_CLIENT_POLICY_ACTIVE
    (packets_per_min c) (packets_avg c)) w.

Lemma fold_native_policy qos ppm maxlen w :
  0 ≤ qos < 65536 → 0 ≤ ppm < 65536 → 0 ≤ maxlen < 65536 →
  (w ← fold_views policy_body (views (native_policy qos ppm maxlen)) w;
   Some (set_active_policy w)) = Some (with_policy qos ppm maxlen w).
Proof.
  intros Hq Hp Hm. unfold native_policy. cbn [views fold_views fst snd].
  unfold policy_body, set_policy_qos, set_policy_packets_per_min, set_policy_packets_maxlen.
  cbn [cmd_type cmd_value].
  repeat (case_decide; try done; rewrite ?read2 by done; cbn [mbind option_bind]).
  rewrite !load16_store16 by done. done.
Qed.

Lemma policy_cmds_network c :
  0 ≤ policy_qos c < 65536 → 0 ≤ policy_packets_per_min c < 65536 →
  0 ≤ policy_packets_maxlen c < 65536 →
  policy_cmds c = network_policy (policy_qos c) (policy_packets_per_min c) (policy_packets_maxlen c).
Proof. intros. unfold policy_cmds. by rewrite !store16_htons. Qed.

Lemma parse_policy_eq qos ppm maxlen rest w :
  0 ≤ qos < 65536 → 0 ≤ ppm < 65536 → 0 ≤ maxlen < 65536 →
  atlas_data_plane_parse_policy (Some (encode (native_policy qos ppm maxlen) ++ rest)) 18 w =
  send_batch ATLAS_CLIENT_POLICY_COAP_PATH ATLAS_COAP_METHOD_PUT (network_policy qos ppm maxlen)
    ATLAS_CLIENT_POLICY_TIMEOUT_MS CC_policy_callback (with_policy qos ppm maxlen w).
Proof.
  intros Hq Hp Hm. unfold atlas_data_plane_parse_policy. rewrite decide_False by done.
  destruct (parse_foreach (mk_batch 0 None) (encode (native_policy qos ppm maxlen) ++ rest)
    (encode (native_policy qos ppm maxlen)) rest 18 policy_body w (native_policy qos ppm maxlen))
    as (cb & Hr & Hf); [done|by rewrite zlen_native_policy|done| |].
  { apply decode_encode, native_policy_wf. }
  unfold atlas_cmd_batch_new. rewrite Hr. cbn [mbind option_bind]. rewrite decide_True by done.
  pose proof (fold_native_policy qos ppm maxlen w Hq Hp Hm) as Hn. rewrite <- Hf in Hn.
  destruct (cmd_foreach cb policy_body w) as [w1|]; [|done]. cbn [mbind option_bind] in *.
  apply (inj Some) in Hn as ->. unfold send_policy_command. rewrite decide_False; [|by intros []].
  by rewrite policy_cmds_network.
Qed.

(** What the relay writes for each command of the gateway's answer. *)
Definition relayed (sock : Z) (cs : list (Z * list byte)) : list event :=
  (λ c, EvWrite sock (encode [(ATLAS_CMD_DATA_PLANE_FEATURE_REPUTATION, c.2)])) <$>
  filter (λ c, c.1 = ATLAS_CMD_DATA_PLANE_FEATURE_REPUTATION) cs.

Lemma reputation_body_view t v post w :
  wf_cmd (t, v) → zlen v < 65532 →
  ∃ w', reputation_resp_body (mk_cmd t (zlen v) (v ++ post)) w = Some (w', false) ∧
    w_trace w' = w_trace w ++ relayed (connected_socket (w_connector w)) [(t, v)] ∧
    w_connector w' = w_connector w ∧ w_reqs w' = w_reqs w ∧ w_sched w' = w_sched w.
Proof.
  intros [Ht Hv] Hsm. unfold reputation_resp_body. cbn [cmd_type cmd_length cmd_value].
  unfold relayed. rewrite filter_cons. cbn [fst] in *. case_decide as Hr.
  2:{ exists w. cbn. by rewrite app_nil_r. }
  rewrite mread_head by done. cbn [mbind option_bind]. rewrite write_batch_eq.
  2:{ split_and!; [done| |rewrite encode_cons, encode_nil, zlen_app, zlen_encode_cmd; cbn [snd]; zlen_lia].
      apply Forall_cons_2; [|apply Forall_nil_2]. split; [done|]. cbn [snd]. lia. }
  unfold write_fd. dcall rc e. cbn [mbind option_bind]. by eexists.
Qed.

Lemma fold_reputation cs w :
  Forall wf_cmd cs → Forall (λ c, zlen c.2 < 65532) cs →
  ∃ w', fold_views reputation_resp_body (views cs) w = Some w' ∧
    w_trace w' = w_trace w ++ relayed (connected_socket (w_connector w)) cs ∧
    w_connector w' = w_connector w ∧ w_reqs w' = w_reqs w ∧ w_sched w' = w_sched w.
Proof.
  revert w. induction cs as [|[t v] cs IH]; intros w Hwf Hsm.
  { exists w. unfold relayed. cbn. by rewrite app_nil_r. }
  apply Forall_cons_1 in Hwf as [Hc Hwf]. apply Forall_cons_1 in Hsm as [Hv Hsm].
  cbn [views fold_views fst snd] in *.
  destruct (reputation_body_view t v (encode cs) w Hc Hv) as (w1 & -> & Ht1 & Hc1 & Hr1 & Hs1).
  cbn [mbind option_bind]. destruct (IH w1 Hwf Hsm) as (w' & -> & Ht' & Hc' & Hr' & Hs').
  exists w'. split_and!; try congruence.
  rewrite Ht', Ht1, Hc1, <- app_assoc. unfold relayed. f_equal.
  rewrite <- fmap_app, <- list.filter_app. done.
Qed.

Lemma reputation_parse_eq cs rest w :
  Forall wf_cmd cs → Forall (λ c, zlen c.2 < 65532) cs → 0 < zlen (encode cs) < 65536 →
  ∃ w', atlas_reputation_resp_parse (Some (encode cs ++ rest)) (zlen (encode cs)) w =
    Some (ATLAS_OK, w') ∧
    w_trace w' = w_trace w ++ relayed (connected_socket (w_connector w)) cs ∧
    w_connector w' = w_connector w ∧ w_reqs w' = w_reqs w ∧ w_sched w' = w_sched w.
Proof.
  intros Hwf Hsm Hl. destruct (fold_reputation cs w Hwf Hsm) as (w' & Hf & Hrest).
  exists w'. split; [|done]. unfold atlas_reputation_resp_parse. rewrite decide_False by lia.
  destruct (parse_foreach (mk_batch 0 None) (encode cs ++ rest) (encode cs) rest
    (zlen (encode cs)) reputation_resp_body w cs) as (cb & Hr & Hfe); [done..| |].
  { by apply decode_encode. }
  unfold atlas_cmd_batch_new. rewrite Hr. cbn [mbind option_bind]. rewrite decide_True by done.
  by rewrite Hfe, Hf.
Qed.

(** The first two bytes of a 32-bit integer in memory. *)
Lemma first_two_bytes v post :
  0 ≤ v < 2 ^ 32 →
  ∃ b, mread (store32 v ++ post) 0 2 = Some b ∧
       load16 b = match host_endian with LittleEndian => v mod 65536 | BigEndian => v / 65536 end.
Proof.
  intros Hv. change (2 ^ 32) with 4294967296 in Hv. unfold store32.
  destruct host_endian eqn:He; cbn zeta.
  - exists [z2b v; z2b (v / 256)]. split; [by apply (mread_head [z2b v; z2b (v / 256)])|].
    unfold load16. rewrite He, !b2z_z2b. mlia.
  - exists [z2b (v / 16777216); z2b (v / 65536)].
    split; [by apply (mread_head [z2b (v / 16777216); z2b (v / 65536)])|].
    unfold load16. rewrite He, !b2z_z2b. mlia.
Qed.

End ConnectorLemmas.

(** ** Properties *)

Section ConnectorProperties.
Context `{Host, Env E, !EnvLaws E}.
Implicit Types w : World E.

(** The policy of the data plane, in the byte order of the host, is stored
    and forwarded to the gateway in network byte order, in one PUT request to
    gateway/policy. *)
Theorem policy_reaches_gateway qos ppm maxlen rest w uri :
  0 ≤ qos < 65536 → 0 ≤ ppm < 65536 → 0 ≤ maxlen < 65536 →
  cfg_uri (w_cfg w) (B "gateway/policy") = Some uri →
  ∃ w', atlas_data_plane_parse_policy
          (Some (encode [(ATLAS_CMD_DATA_PLANE_POLICY_QOS, store16 qos);
                         (ATLAS_CMD_DATA_PLANE_POLICY_PACKETS_PER_MINUTE, store16 ppm);
                         (ATLAS_CMD_DATA_PLANE_POLICY_PACKETS_MAXLEN, store16 maxlen)] ++ rest))
          18 w = Some w' ∧
    policy_qos (w_connector w') = qos ∧ policy_packets_per_min (w_connector w') = ppm ∧
    policy_packets_maxlen (w_connector w') = maxlen ∧ active_policy (w_connector w') = 1 ∧
    requested uri ATLAS_COAP_METHOD_PUT
      (Some (encode [(ATLAS_CMD_DATA_PLANE_POLICY_QOS, be16 qos);
                     (ATLAS_CMD_DATA_PLANE_POLICY_PACKETS_PER_MINUTE, be16 ppm);
                     (ATLAS_CMD_DATA_PLANE_POLICY_PACKETS_MAXLEN, be16 maxlen)]))
      ATLAS_CLIENT_POLICY_TIMEOUT_MS CC_policy_callback (with_policy qos ppm maxlen w) w'.
Proof.
  intros Hq Hp Hm Hu. pose proof (parse_policy_eq qos ppm maxlen rest w Hq Hp Hm) as Heq.
  destruct (send_batch_sends ATLAS_CLIENT_POLICY_COAP_PATH ATLAS_COAP_METHOD_PUT
    (network_policy qos ppm maxlen) ATLAS_CLIENT_POLICY_TIMEOUT_MS CC_policy_callback
    (with_policy qos ppm maxlen w) (with_policy qos ppm maxlen w) uri (network_policy_fits _ _ _)
    (same_lists_refl _) Hu) as (w' & Hs & Hr).
  rewrite Hs in Heq. exists w'. split; [exact Heq|].
  pose proof Hr as (Ha & _). apply (f_equal (λ x, snd (fst x))) in Ha. cbn in Ha.
  rewrite Ha. split_and!; (done || exact Hr).
Qed.

(** The value of a policy command is not checked to have two bytes: when
    the last command of the batch is a policy command with an empty value, the
    copy reads past the buffer. *)
Theorem short_policy_reads_past_buffer t w :
  t ∈ [ATLAS_CMD_DATA_PLANE_POLICY_QOS; ATLAS_CMD_DATA_PLANE_POLICY_PACKETS_PER_MINUTE;
       ATLAS_CMD_DATA_PLANE_POLICY_PACKETS_MAXLEN] →
  atlas_data_plane_parse_policy (Some (encode [(t, [])])) 4 w = None.
Proof.
  intros Ht. unfold atlas_data_plane_parse_policy. rewrite decide_False by done.
  destruct (parse_foreach (mk_batch 0 None) (encode [(t, [])]) (encode [(t, [])]) [] 4
    policy_body w [(t, [])]) as (cb & Hr & Hf); [by rewrite app_nil_r|done|done| |].
  { apply decode_encode, Forall_cons_2; [|apply Forall_nil_2].
    repeat (apply elem_of_cons in Ht as [->|Ht]; [done|]). by apply elem_of_nil in Ht. }
  unfold atlas_cmd_batch_new. rewrite Hr. cbn [mbind option_bind]. rewrite decide_True, Hf by done.
  repeat (apply elem_of_cons in Ht as [->|Ht]; [done|]). by apply elem_of_nil in Ht.
Qed.

(** C38. A reputation answer of the gateway is relayed to the data plane: one
    write per reputation command, in order, each the command in a batch of its
    own; any failure of the request is relayed as one error command. *)
Theorem reputation_is_relayed cs w :
  Forall wf_cmd cs → Forall (λ c, zlen c.2 < 65532) cs → 0 < zlen (encode cs) < 65536 →
  (∃ w', feature_reputation_callback ATLAS_COAP_RESP_OK (Some (encode cs)) (zlen (encode cs)) w = Some w' ∧
     w_trace w' = w_trace w ++ relayed (connected_socket (w_connector w)) cs) ∧
  (∀ st pl n, st ≠ ATLAS_COAP_RESP_OK →
     ∃ w', feature_reputation_callback st pl n w = Some w' ∧
       w_trace w' = w_trace w ++ [EvWrite (connected_socket (w_connector w))
         (encode [(ATLAS_CMD_DATA_PLANE_FEATURE_ERROR, [])])]).
Proof.
  intros Hwf Hsm Hl. unfold feature_reputation_callback. split.
  - rewrite decide_False by tauto. rewrite u16_small by lia.
    destruct (reputation_parse_eq cs [] w Hwf Hsm Hl) as (w' & Hp & Ht & _).
    rewrite app_nil_r in Hp. rewrite Hp. by exists w'.
  - intros st pl n Hst. rewrite decide_True by done. rewrite write_batch_eq
      by (by apply (bool_decide_unpack _); vm_compute).
    unfold write_fd. dcall rc e. cbn [mbind option_bind]. by eexists.
Qed.

(** Accepting a connection drops the previous one: it is removed from the
    scheduler and closed, and only the new descriptor is remembered and read. *)
Theorem accept_replaces_connection fd s e w :
  let old := connected_socket (w_connector w) in
  old ≠ -1 → sys_accept fd (env_do (EvClose old) (w_env w)) = (s, e) →
  let w' := atlas_data_plane_accept_cb fd w in
  connected_socket (w_connector w') = s ∧
  w_trace w' = w_trace w ++ [EvClose old] ∧
  w_sched w' = (if decide (s = -1) then atlas_sched_del_entry old (w_sched w)
                else atlas_sched_add_entry s (Some SC_atlas_data_plane_read_cb)
                       (atlas_sched_del_entry old (w_sched w))).
Proof.
  intros old Hold Hacc. unfold atlas_data_plane_accept_cb. fold old. rewrite decide_True by done.
  unfold call. unfold sched_del. wsimpl. rewrite Hacc. by case_decide.
Qed.

(** The statistics of the data plane are C ints of four bytes, of which
    the connector copies the first two: the low half on a little-endian host,
    the high half on a big-endian one. *)
Theorem statistics_take_two_bytes v post w :
  0 ≤ v < 2 ^ 32 →
  ∃ w', data_plane_body (mk_cmd ATLAS_CMD_DATA_PLANE_PACKETS_PER_MINUTE 4 (store32 v ++ post)) w
        = Some (w', false) ∧
    get_packets_per_min w' = match host_endian with
                             | LittleEndian => v mod 65536
                             | BigEndian => v / 65536
                             end.
Proof.
  intros Hv. unfold data_plane_body. cbn [cmd_type cmd_value cmd_length].
  repeat (case_decide; try done; []). unfold set_packets_per_min.
  pose proof (first_two_bytes v post Hv) as (b & -> & Hb). cbn [mbind option_bind].
  eexists. split; [done|]. exact Hb.
Qed.

End ConnectorProperties.

Lemma policy_reaches_gateway_witness :
  ∃ w', @atlas_data_plane_parse_policy le_host Z (sim_env [] [])
      (Some (encode (@native_policy le_host 1 200 4096) ++ [])) 18 world_cfg = Some w' ∧
    policy_qos (w_connector w') = 1 ∧ policy_packets_per_min (w_connector w') = 200 ∧
    policy_packets_maxlen (w_connector w') = 4096 ∧ active_policy (w_connector w') = 1 ∧
    @requested le_host Z (sim_env [] []) (B "coaps://gw:5684/gateway/policy") ATLAS_COAP_METHOD_PUT
      (Some (encode [(1100, be16 1); (1101, be16 200); (1102, be16 4096)]))
      ATLAS_CLIENT_POLICY_TIMEOUT_MS CC_policy_callback (with_policy 1 200 4096 world_cfg) w'.
Proof.
  apply (@policy_reaches_gateway le_host Z (sim_env [] []) _ 1 200 4096 [] world_cfg
    (B "coaps://gw:5684/gateway/policy")); [lia..|by vm_compute].
Defined.

Lemma short_policy_reads_past_buffer_witness :
  @atlas_data_plane_parse_policy le_host Z (sim_env [] []) (Some (encode [(1101, [])])) 4 world_cfg
  = None.
Proof.
  apply (@short_policy_reads_past_buffer le_host Z (sim_env [] []) 1101 world_cfg). right. by left.
Defined.

Lemma reputation_is_relayed_witness :
  ∃ w', @feature_reputation_callback le_host Z (sim_env [] []) ATLAS_COAP_RESP_OK
      (Some (encode [(1500, B "dev")])) 7 world_cfg = Some w' ∧
    w_trace w' = [] ++ relayed (-1) [(1500, B "dev")].
Proof.
  apply (proj1 (@reputation_is_relayed le_host Z (sim_env [] []) [(1500, B "dev")] world_cfg
    ltac:(by apply (bool_decide_unpack _); vm_compute)
    ltac:(by apply (bool_decide_unpack _); vm_compute) ltac:(done))).
Defined.

Lemma accept_replaces_connection_witness :
  let w := set_connected_socket 7 world_cfg in
  w_trace (@atlas_data_plane_accept_cb Z (sim_env [] []) 4 w) = [] ++ [EvClose 7].
Proof.
  intros w. by apply (@accept_replaces_connection Z (sim_env [] []) 4 20 21 w).
Defined.

Lemma statistics_take_two_bytes_witness :
  ∃ w', @data_plane_body be_host Z (sim_env [] [])
      (mk_cmd ATLAS_CMD_DATA_PLANE_PACKETS_PER_MINUTE 4 (@store32 be_host 90 ++ [])) world_cfg
      = Some (w', false) ∧ get_packets_per_min w' = 90 / 65536.
Proof.
  apply (@statistics_take_two_bytes be_host Z (sim_env [] []) 90 [] world_cfg). lia.
Defined.
