(* ===== verification/TelemetryPayload.v ===== *)
(** * Telemetry payloads

    The callbacks that produce the payload of each feature
    ([telemetry/atlas_telemetry_sysinfo.c], [atlas_telemetry_hostname.c],
    [atlas_telemetry_kern_info.c], [atlas_telemetry_packets_info.c]): a batch
    of two commands, the identity of the device and the value as text. The
    out-parameters [*payload] and [*payload_len] are the result, [None] when
    the callback leaves them NULL and 0. *)

From stdpp Require Import gmap.
From S2P Require Import Prelude Protocol Command CString Scheduler State Config Identity Alarm.
From S2P Require Import CoapClient Request Connector.

Definition ATLAS_SYSINFO_FEATURE_MAX_LEN : Z := 32.
Definition ATLAS_HOSTNAME_FILE : list byte := B "/etc/hostname".
Definition ATLAS_HOSTNAME_MAX_LEN : Z := 32.
Definition ATLAS_KERNEL_INFO_MAX_LEN : Z := 128.

Section Payload.
Context `{Host, Env E}.
Implicit Types w : World E.

(** [char s[33] = { 0 }; sprintf (s, "%lu", n);] and the string in [s]. *)
Definition sprintf_number (n : Z) : option (list byte) :=
  s ← strcpy (zeros (ATLAS_SYSINFO_FEATURE_MAX_LEN + 1)) (decimal n);
  cstr_of s.

(** The common end: the batch of the identity and the value, copied. *)
Definition payload_batch (type : Z) (text : list byte) w
    : option (option (list byte) * World E) :=
  identity ← atlas_identity_get w;
  '(buf, len) ← build_batch [(ATLAS_CMD_IDENTITY, identity); (type, text)];
  pl ← buf_bytes buf len;
  Some (pl, w).

(** A feature of [sysinfo] without a threshold. *)
Definition sysinfo_payload (type : Z) (field : sysinfo_t → Z) (use_threshold : bool) w
    : option (option (list byte) * World E) :=
  if use_threshold then Some (None, w) else
  let '(info, w) := call sys_sysinfo w in
  match info with
  | None => Some (None, w)
  | Some info => s ← sprintf_number (field info); payload_batch type s w
  end.

Definition atlas_telemetry_payload_uptime := sysinfo_payload ATLAS_CMD_TELEMETRY_SYSINFO_UPTIME si_uptime.
Definition atlas_telemetry_payload_totalram := sysinfo_payload ATLAS_CMD_TELEMETRY_SYSINFO_TOTALRAM si_totalram.
Definition atlas_telemetry_payload_freeram := sysinfo_payload ATLAS_CMD_TELEMETRY_SYSINFO_FREERAM si_freeram.
Definition atlas_telemetry_payload_sharedram := sysinfo_payload ATLAS_CMD_TELEMETRY_SYSINFO_SHAREDRAM si_sharedram.
Definition atlas_telemetry_payload_bufferram := sysinfo_payload ATLAS_CMD_TELEMETRY_SYSINFO_BUFFERRAM si_bufferram.
Definition atlas_telemetry_payload_totalswap := sysinfo_payload ATLAS_CMD_TELEMETRY_SYSINFO_TOTALSWAP si_totalswap.
Definition atlas_telemetry_payload_freeswap := sysinfo_payload ATLAS_CMD_TELEMETRY_SYSINFO_FREESWAP si_freeswap.
Definition atlas_telemetry_payload_load1 :=
  sysinfo_payload ATLAS_CMD_TELEMETRY_SYSINFO_LOAD1 (λ i, (si_loads i).1.1).
Definition atlas_telemetry_payload_load5 :=
  sysinfo_payload ATLAS_CMD_TELEMETRY_SYSINFO_LOAD5 (λ i, (si_loads i).1.2).
Definition atlas_telemetry_payload_load15 :=
  sysinfo_payload ATLAS_CMD_TELEMETRY_SYSINFO_LOAD15 (λ i, (si_loads i).2).

(** The one feature with a threshold. *)
Definition atlas_telemetry_payload_procs (use_threshold : bool) w
    : option (option (list byte) * World E) :=
  let '(info, w) := call sys_sysinfo w in
  match info with
  | None => Some (None, w)
  | Some info =>
      if use_threshold && bool_decide (si_procs info < w_procs_threshold w) then Some (None, w)
      else s ← sprintf_number (si_procs info);
           payload_batch ATLAS_CMD_TELEMETRY_SYSINFO_PROCS s w
  end.

Fixpoint after_newline (s : list byte) : option (list byte) :=
  match s with
  | [] => None
  | b :: s => if decide (b = x0a) then Some s else after_newline s
  end.

(** The loop from the end of the string that overwrites the last newline. *)
Definition cut_last_newline (s : list byte) : list byte :=
  match after_newline (reverse s) with
  | Some r => reverse r
  | None => s
  end.

Definition atlas_telemetry_payload_hostname (use_threshold : bool) w
    : option (option (list byte) * World E) :=
  if use_threshold then Some (None, w) else
  let '(fd, w) := call (sys_open ATLAS_HOSTNAME_FILE O_RDONLY) w in
  if decide (fd < 0) then Some (None, w) else
  '(len, hostname, w) ← read_into fd ATLAS_HOSTNAME_MAX_LEN (zeros (ATLAS_HOSTNAME_MAX_LEN + 1)) w;
  let w := emit (EvClose fd) w in
  if decide (len <= 0) then Some (None, w) else
  s ← cstr_of hostname;
  payload_batch ATLAS_CMD_TELEMETRY_HOSTNAME (cut_last_newline s) w.

(** [strncat (kern_info, s, sizeof (kern_info) - strlen (kern_info) - 1)] *)
Definition kern_cat (blk s : list byte) : option (list byte) :=
  n ← blk_strlen blk;
  strncat blk s (ATLAS_KERNEL_INFO_MAX_LEN + 1 - n - 1).

Definition atlas_telemetry_payload_kern_info (use_threshold : bool) w
    : option (option (list byte) * World E) :=
  if use_threshold then Some (None, w) else
  let '(buffer, w) := call sys_uname w in
  match buffer with
  | None => Some (None, w)
  | Some u =>
      k ← strncpy (zeros (ATLAS_KERNEL_INFO_MAX_LEN + 1)) (un_sysname u) ATLAS_KERNEL_INFO_MAX_LEN;
      k ← kern_cat k (B " ");
      k ← kern_cat k (un_nodename u);
      k ← kern_cat k (B " ");
      k ← kern_cat k (un_release u);
      k ← kern_cat k (B " ");
      k ← kern_cat k (un_version u);
      k ← kern_cat k (B " ");
      k ← kern_cat k (un_machine u);
      s ← cstr_of k;
      payload_batch ATLAS_CMD_TELEMETRY_KERN_INFO s w
  end.

Definition atlas_telemetry_payload_packets_per_minute (use_threshold : bool) w
    : option (option (list byte) * World E) :=
  s ← sprintf_number (get_packets_per_min w);
  payload_batch ATLAS_CMD_TELEMETRY_PACKETS_PER_MINUTE s w.

Definition atlas_telemetry_payload_packets_avg (use_threshold : bool) w
    : option (option (list byte) * World E) :=
  s ← sprintf_number (get_packets_avg w);
  payload_batch ATLAS_CMD_TELEMETRY_PACKETS_AVG s w.

(** The call through the function pointer of a feature. *)
Definition run_payload (cb : payload_cb) : bool → World E → option (option (list byte) * World E) :=
  match cb with
  | PL_hostname => atlas_telemetry_payload_hostname
  | PL_kern_info => atlas_telemetry_payload_kern_info
  | PL_uptime => atlas_telemetry_payload_uptime
  | PL_totalram => atlas_telemetry_payload_totalram
  | PL_freeram => atlas_telemetry_payload_freeram
  | PL_sharedram => atlas_telemetry_payload_sharedram
  | PL_bufferram => atlas_telemetry_payload_bufferram
  | PL_totalswap => atlas_telemetry_payload_totalswap
  | PL_freeswap => atlas_telemetry_payload_freeswap
  | PL_procs => atlas_telemetry_payload_procs
  | PL_load1 => atlas_telemetry_payload_load1
  | PL_load5 => atlas_telemetry_payload_load5
  | PL_load15 => atlas_telemetry_payload_load15
  | PL_packets_per_minute => atlas_telemetry_payload_packets_per_minute
  | PL_packets_avg => atlas_telemetry_payload_packets_avg
  end.

End Payload.

(** ** Specification *)

(** The command each feature is reported with. *)
Definition payload_type (cb : payload_cb) : Z :=
  match cb with
  | PL_hostname => 500 | PL_kern_info => 501 | PL_uptime => 502 | PL_totalram => 503
  | PL_freeram => 504 | PL_sharedram => 505 | PL_bufferram => 506 | PL_totalswap => 507
  | PL_freeswap => 508 | PL_procs => 509 | PL_load1 => 510 | PL_load5 => 511
  | PL_load15 => 512 | PL_packets_per_minute => 516 | PL_packets_avg => 517
  end.

(** What the kernel promises of [sysinfo] and [uname]: 64-bit numbers, and
    strings of at most 64 characters. *)
Definition sysinfo_ok (i : sysinfo_t) : Prop :=
  Forall (λ n, 0 ≤ n < 2 ^ 64)
    [si_uptime i; (si_loads i).1.1; (si_loads i).1.2; (si_loads i).2; si_totalram i; si_freeram i;
     si_sharedram i; si_bufferram i; si_totalswap i; si_freeswap i; si_procs i].

Definition uname_ok (u : utsname_t) : Prop :=
  Forall (λ s, nul_free s ∧ zlen s ≤ 64)
    [un_sysname u; un_nodename u; un_release u; un_version u; un_machine u].

Class KernelLaws (E : Type) `{Env E} : Prop := {
  sysinfo_law e i e' : sys_sysinfo e = (Some i, e') → sysinfo_ok i;
  uname_law e u e' : sys_uname e = (Some u, e') → uname_ok u
}.

(** ** Lemmas *)

(** A source that failed does not work. *)
Ltac sources_fail := let Hs := fresh in
  intros (Hs & Hu & _); match goal with
  | F : sys_sysinfo ?e = _ |- _ => specialize (Hs e); rewrite F in Hs; by destruct Hs
  | F : sys_uname ?e = _ |- _ => specialize (Hu e); rewrite F in Hu; by destruct Hu
  end.

(** A field of [sysinfo] is a 64-bit number. *)
Ltac sysinfo_field := let i := fresh in let Hi := fresh in
  intros i Hi; unfold sysinfo_ok in Hi; rewrite !list.Forall_cons in Hi; tauto.

Section PayloadLemmas.
Context `{Host, Env E, !KernelLaws E, !EnvLaws E}.
Implicit Types w : World E.

Lemma sprintf_number_eq n : 0 ≤ n < 2 ^ 64 → sprintf_number n = Some (decimal n).
Proof.
  intros Hn. unfold sprintf_number.
  destruct (decimal_64 n Hn) as [Hnf Hl].
  destruct (strcpy_in (zeros (ATLAS_SYSINFO_FEATURE_MAX_LEN + 1)) (decimal n) Hnf) as (b & -> & Hc & _).
  { rewrite zlen_zeros by done. unfold ATLAS_SYSINFO_FEATURE_MAX_LEN. lia. }
  cbn [mbind option_bind]. by apply cstr_of_in.
Qed.

Lemma payload_batch_eq type text w id :
  atlas_identity_get w = Some id → zlen id ≤ 64 → 0 ≤ type < 65536 → zlen text ≤ 1024 →
  payload_batch type text w =
  Some (Some (encode [(ATLAS_CMD_IDENTITY, id); (type, text)]), w).
Proof.
  intros Hid Hl Ht Htext. unfold payload_batch. rewrite Hid. cbn [mbind option_bind].
  rewrite build_batch_eq.
  - cbn [mbind option_bind buf_bytes]. by rewrite mread_all.
  - split_and!; [done| |].
    + apply Forall_cons_2; [|apply Forall_cons_2; [|apply Forall_nil_2]]; split; cbn [fst snd];
        (done || lia).
    + rewrite !encode_cons, encode_nil, !zlen_app, !zlen_encode_cmd. cbn [snd]. rewrite zlen_nil. lia.
Qed.

(** A payload of the expected format, or none. *)
Definition payload_ok (cb : payload_cb) (id : list byte) (pl : option (list byte)) : Prop :=
  pl = None ∨
  ∃ text, nul_free text ∧ zlen text ≤ 128 ∧
    pl = Some (encode [(ATLAS_CMD_IDENTITY, id); (payload_type cb, text)]).

(** The sources of the telemetry: [sysinfo] and [uname] do not fail, and the
    file of the host name can be read. *)
Definition sources_work : Prop :=
  (∀ e, is_Some (sys_sysinfo e).1) ∧ (∀ e, is_Some (sys_uname e).1) ∧
  (∀ e, 0 ≤ (sys_open ATLAS_HOSTNAME_FILE O_RDONLY e).1) ∧ (∀ fd e, 0 < (sys_read fd 32 e).1.1).

(** A payload or none; without a threshold there is one when its source works. *)
Definition payload_result (cb : payload_cb) (th : bool) (id : list byte) w
    (r : option (option (list byte) * World E)) : Prop :=
  ∃ pl w', r = Some (pl, w') ∧ payload_ok cb id pl ∧ same_lists w w' ∧
    (sources_work → th = false → pl ≠ None).

Lemma payload_none cb th id w w' :
  same_lists w w' → (sources_work → th = true) → payload_result cb th id w (Some (None, w')).
Proof. intros Hs Ht. exists None, w'. split_and!; [done|by left|done|]. intros Hw. by rewrite Ht. Qed.

Lemma payload_some cb th text w w' id :
  atlas_identity_get w' = Some id → zlen id ≤ 64 → nul_free text → zlen text ≤ 128 →
  same_lists w w' → payload_result cb th id w (payload_batch (payload_type cb) text w').
Proof.
  intros Hid Hl Hnf Ht Hs. rewrite (payload_batch_eq _ text w' id); [|done..|by destruct cb|lia].
  eexists _, w'. split_and!; [reflexivity| |done|done]. right. by exists text.
Qed.

Lemma same_env e w : same_lists w (with_env e w).
Proof. done. Qed.

Lemma same_refl w : same_lists w w.
Proof. done. Qed.

Lemma number_result cb th n w w' id :
  atlas_identity_get w' = Some id → zlen id ≤ 64 → 0 ≤ n < 2 ^ 64 → same_lists w w' →
  payload_result cb th id w (s ← sprintf_number n; payload_batch (payload_type cb) s w').
Proof.
  intros Hid Hl Hn Hs. rewrite sprintf_number_eq by done. cbn [mbind option_bind].
  destruct (decimal_64 n Hn). apply payload_some; (done || lia).
Qed.

Lemma sysinfo_result cb field th w id :
  atlas_identity_get w = Some id → zlen id ≤ 64 →
  (∀ i, sysinfo_ok i → 0 ≤ field i < 2 ^ 64) →
  payload_result cb th id w (sysinfo_payload (payload_type cb) field th w).
Proof.
  intros Hid Hl Hf. unfold sysinfo_payload. destruct th; [by apply payload_none|].
  dcall info e. destruct info as [info|]; [|by apply payload_none; [|sources_fail]].
  apply sysinfo_law in F. apply number_result; [done|done|by apply Hf|done].
Qed.

Lemma procs_result th w id :
  atlas_identity_get w = Some id → zlen id ≤ 64 →
  payload_result PL_procs th id w (atlas_telemetry_payload_procs th w).
Proof.
  intros Hid Hl. unfold atlas_telemetry_payload_procs.
  dcall info e. destruct info as [info|]; [|by apply payload_none; [|sources_fail]].
  all: try (destruct th; cbn [andb]; [destruct (bool_decide _); [by apply payload_none|]|]).
  all: apply sysinfo_law in F; apply number_result; [done|done| |done]; revert info F; sysinfo_field.
Qed.

(** What the loop on the last newline leaves is a prefix of the string. *)
Lemma after_newline_suffix s r : after_newline s = Some r → ∃ p, s = p ++ r.
Proof.
  induction s as [|b s IH]; cbn [after_newline]; [done|]. case_decide.
  - intros [= <-]. by exists [b].
  - intros Hr. destruct (IH Hr) as [p ->]. by exists (b :: p).
Qed.

Lemma cut_last_newline_prefix s : cut_last_newline s `prefix_of` s.
Proof.
  unfold cut_last_newline. destruct (after_newline (reverse s)) as [r|] eqn:Hr; [|done].
  apply after_newline_suffix in Hr as [p Hp]. exists (reverse p).
  by rewrite <- reverse_app, <- Hp, reverse_involutive.
Qed.

Lemma hostname_result th w id :
  atlas_identity_get w = Some id → zlen id ≤ 64 →
  payload_result PL_hostname th id w (atlas_telemetry_payload_hostname th w).
Proof.
  intros Hid Hl. unfold atlas_telemetry_payload_hostname. destruct th; [by apply payload_none|].
  dcall fd e1. case_decide.
  { apply payload_none; [done|]. intros (_ & _ & Hf & _). specialize (Hf (w_env w)). rewrite F in Hf.
    cbn in Hf. lia. }
  change (ATLAS_HOSTNAME_MAX_LEN + 1) with 33. change ATLAS_HOSTNAME_MAX_LEN with 32.
  destruct (sys_read fd 32 (w_env (with_env e1 w))) as [[rc bs] e2] eqn:Er.
  rewrite (read_into_zeros fd 32 33 _ rc bs e2) by (lia || done). cbn [mbind option_bind].
  pose proof (zlen_stored 32 rc bs ltac:(lia)) as Hst. set (s0 := stored 32 rc bs) in *.
  assert (∀ x, sent (emit (EvClose fd) (with_env x (log (EvRead fd) (with_env e1 w)))) = sent w) as Hsent.
  { intros x. etrans; [apply (sent_emit (EvClose fd))|]. rewrite app_nil_r.
    etrans; [apply (sent_log (EvRead fd) (with_env e1 w))|]. apply app_nil_r. }
  assert (same_lists w (emit (EvClose fd) (with_env e2 (log (EvRead fd) (with_env e1 w))))) as Hsame
    by (split_and!; (done || apply Hsent)).
  case_decide.
  { apply payload_none; [done|]. intros (_ & _ & _ & Hf). specialize (Hf fd (w_env (with_env e1 w))).
    rewrite Er in Hf. cbn in Hf. lia. }
  set (arr := s0 ++ zeros (33 - zlen s0)).
  assert (cstr_in arr (c_string arr)) as Hc by (apply zeros_tail_string; lia).
  rewrite (cstr_of_in _ _ Hc). cbn [mbind option_bind].
  destruct (cut_last_newline_prefix (c_string arr)) as [r Hr]. pose proof Hc as [Hnf [r2 Hr2]].
  apply payload_some; [done|done| | |done].
  - rewrite Hr in Hnf. by apply nul_free_app in Hnf as [Hnf _].
  - assert (zlen arr = 33) as Ha by (unfold arr; rewrite zlen_app, zlen_zeros by lia; lia).
    apply (f_equal zlen) in Hr, Hr2. rewrite zlen_app in Hr, Hr2. rewrite zlen_cons in Hr2.
    pose proof (zlen_nonneg r). pose proof (zlen_nonneg r2). lia.
Qed.

(** Appending with what is left of the array as the bound truncates. *)
Lemma kern_cat_in b s t :
  cstr_in b s → zlen b = 129 → nul_free t →
  ∃ b', kern_cat b t = Some b' ∧ cstr_in b' (take 128 (s ++ t)) ∧ zlen b' = 129.
Proof.
  intros Hc Hb Ht. pose proof Hc as [Hs [r Hr]].
  assert (zlen s ≤ 128) as Hl by (rewrite Hr in Hb; zlen_lia).
  unfold kern_cat.
  assert (blk_strlen b = Some (zlen s)) as -> by (rewrite Hr; by apply blk_strlen_app). cbn [mbind option_bind].
  change (ATLAS_KERNEL_INFO_MAX_LEN + 1 - zlen s - 1) with (129 - zlen s - 1).
  set (n := 129 - zlen s - 1).
  assert (nul_free (take (Z.to_nat n) t)) as Hn
    by (intros (j & Hj & _)%elem_of_take; by eapply Ht, list_elem_of_lookup_2).
  assert (zlen (take (Z.to_nat n) t) ≤ n) as Hln
    by (pose proof (zlen_take_le t (Z.to_nat n)); lia).
  destruct (strcat_in b s (take (Z.to_nat n) t) Hc Hn ltac:(lia)) as (b' & Hb' & Hc' & Hz).
  exists b'. split_and!; [exact Hb'| |lia].
  rewrite take_app, (take_ge s) by (unfold zlen in *; lia).
  by replace (128 - length s)%nat with (Z.to_nat n) by (unfold n, zlen in *; lia).
Qed.

(** The next piece of the kernel information. *)
Ltac kern_step := match goal with
  | Hc : cstr_in ?b ?s, Hb : zlen ?b = 129 |- context [kern_cat ?b ?t] =>
      let H1 := fresh in let H2 := fresh in
      destruct (kern_cat_in b s t Hc Hb ltac:(done)) as (? & -> & H1 & H2);
      clear Hc Hb; cbn [mbind option_bind]
  end.

Lemma kern_info_result th w id :
  atlas_identity_get w = Some id → zlen id ≤ 64 →
  payload_result PL_kern_info th id w (atlas_telemetry_payload_kern_info th w).
Proof.
  intros Hid Hl. unfold atlas_telemetry_payload_kern_info. destruct th; [by apply payload_none|].
  dcall u e. destruct u as [u|]; [|by apply payload_none; [|sources_fail]]. apply uname_law in F.
  unfold uname_ok in F. do 5 (apply Forall_cons_1 in F as [[? ?] F]). clear F.
  assert (nul_free (B " ")) as Hsp by (apply (bool_decide_unpack _); by vm_compute).
  destruct (strncpy_in (zeros (ATLAS_KERNEL_INFO_MAX_LEN + 1)) (un_sysname u)
    ATLAS_KERNEL_INFO_MAX_LEN) as (b & -> & Hc & Hb); [done|unfold ATLAS_KERNEL_INFO_MAX_LEN; lia|done|].
  change (zlen (zeros (ATLAS_KERNEL_INFO_MAX_LEN + 1))) with 129 in Hb. cbn [mbind option_bind].
  do 8 kern_step.
  match goal with Hc : cstr_in ?b ?s |- _ => rewrite (cstr_of_in b s Hc); pose proof (proj1 Hc) end.
  cbn [mbind option_bind]. apply payload_some; [done|done|done| |done].
  apply zlen_take_le.
Qed.

(** Every callback gives a payload of its format. *)
Lemma payload_results cb th w id :
  atlas_identity_get w = Some id → zlen id ≤ 64 →
  0 ≤ packets_per_min (w_connector w) < 65536 → 0 ≤ packets_avg (w_connector w) < 65536 →
  payload_result cb th id w (run_payload cb th w).
Proof.
  intros Hid Hl Hp Ha. assert (2 ^ 64 = 18446744073709551616) as H64 by done.
  destruct cb; cbn [run_payload].
  - by apply hostname_result.
  - by apply kern_info_result.
  - exact (sysinfo_result PL_uptime si_uptime th w id Hid Hl ltac:(sysinfo_field)).
  - exact (sysinfo_result PL_totalram si_totalram th w id Hid Hl ltac:(sysinfo_field)).
  - exact (sysinfo_result PL_freeram si_freeram th w id Hid Hl ltac:(sysinfo_field)).
  - exact (sysinfo_result PL_sharedram si_sharedram th w id Hid Hl ltac:(sysinfo_field)).
  - exact (sysinfo_result PL_bufferram si_bufferram th w id Hid Hl ltac:(sysinfo_field)).
  - exact (sysinfo_result PL_totalswap si_totalswap th w id Hid Hl ltac:(sysinfo_field)).
  - exact (sysinfo_result PL_freeswap si_freeswap th w id Hid Hl ltac:(sysinfo_field)).
  - by apply procs_result.
  - exact (sysinfo_result PL_load1 (λ i, (si_loads i).1.1) th w id Hid Hl ltac:(sysinfo_field)).
  - exact (sysinfo_result PL_load5 (λ i, (si_loads i).1.2) th w id Hid Hl ltac:(sysinfo_field)).
  - exact (sysinfo_result PL_load15 (λ i, (si_loads i).2) th w id Hid Hl ltac:(sysinfo_field)).
  - exact (number_result PL_packets_per_minute th (packets_per_min (w_connector w)) w w id Hid Hl
      ltac:(lia) (same_refl w)).
  - exact (number_result PL_packets_avg th (packets_avg (w_connector w)) w w id Hid Hl
      ltac:(lia) (same_refl w)).
Qed.

End PayloadLemmas.

(** ** Properties *)

Section PayloadProperties.
Context `{Host, Env E, !KernelLaws E, !EnvLaws E}.
Implicit Types w : World E.

(** C29. Every telemetry callback ends without leaving its buffers, changes
    none of the program's lists, and produces either nothing or the batch of
    two commands the gateway expects: the identity of the device, then the
    value as text under the feature's own command type. *)
Theorem payload_format cb th w id :
  atlas_identity_get w = Some id → zlen id ≤ 64 →
  0 ≤ packets_per_min (w_connector w) < 65536 → 0 ≤ packets_avg (w_connector w) < 65536 →
  ∃ pl w', run_payload cb th w = Some (pl, w') ∧ same_lists w w' ∧
    (pl = None ∨ ∃ text bs, nul_free text ∧ zlen text ≤ 128 ∧ pl = Some bs ∧
       decode bs = Some [(ATLAS_CMD_IDENTITY, id); (payload_type cb, text)]).
Proof.
  intros Hid Hl Hp Ha.
  destruct (payload_results cb th w id Hid Hl Hp Ha) as (pl & w' & Hr & Hok & Hs & _).
  exists pl, w'. split_and!; [done|done|].
  destruct Hok as [Hn|(text & Hnf & Ht & ->)]; [by left|right].
  exists text. eexists. split_and!; [done|done|done|]. apply decode_encode.
  apply Forall_cons_2; [split; cbn [fst snd]; [done|lia]|].
  apply Forall_cons_2; [split; cbn [fst snd]; [by destruct cb|lia]|apply Forall_nil_2].
Qed.

(** Only the number of processes has a threshold: with the threshold in
    use it is reported exactly when it reaches the threshold, the packet
    statistics are reported in any case, and every other feature is skipped
    without a call to the kernel. *)
Theorem payload_threshold cb w id i e :
  atlas_identity_get w = Some id → zlen id ≤ 64 →
  0 ≤ packets_per_min (w_connector w) < 65536 → 0 ≤ packets_avg (w_connector w) < 65536 →
  sys_sysinfo (w_env w) = (Some i, e) →
  ∃ pl w', run_payload cb true w = Some (pl, w') ∧
    match cb with
    | PL_procs => pl ≠ None ↔ w_procs_threshold w ≤ si_procs i
    | PL_packets_per_minute | PL_packets_avg => pl ≠ None
    | _ => pl = None ∧ w' = w
    end.
Proof.
  intros Hid Hl Hp Ha Hi.
  assert (∀ t n, 0 ≤ t < 65536 → 0 ≤ n < 2 ^ 64 → ∀ w1, atlas_identity_get w1 = Some id →
    ∃ pl w', (s ← sprintf_number n; payload_batch t s w1) = Some (pl, w') ∧ pl ≠ None) as Hnum.
  { intros t n Ht Hn w1 Hid1. rewrite sprintf_number_eq by done. cbn [mbind option_bind].
    destruct (decimal_64 n Hn). rewrite (payload_batch_eq t (decimal n) w1 id) by (done || lia).
    by eexists _, _. }
  destruct cb; cbn [run_payload];
    try (eexists _, _; split; [reflexivity|by split]).
  - unfold atlas_telemetry_payload_procs, call. rewrite Hi. cbn [with_env w_procs_threshold].
    cbn [andb]. case_bool_decide.
    + eexists _, _. split; [reflexivity|]. split; [done|lia].
    + apply sysinfo_law in Hi. assert (0 ≤ si_procs i < 2 ^ 64) as Hn
        by (clear -Hi; revert i Hi; sysinfo_field).
      destruct (Hnum ATLAS_CMD_TELEMETRY_SYSINFO_PROCS (si_procs i) ltac:(done) Hn (with_env e w) Hid)
        as (pl & w' & -> & Hpl).
      exists pl, w'. split; [done|]. split; [lia|done].
  - apply Hnum; [done| |done]. unfold get_packets_per_min.
    change (2 ^ 64) with 18446744073709551616. lia.
  - apply Hnum; [done| |done]. unfold get_packets_avg.
    change (2 ^ 64) with 18446744073709551616. lia.
Qed.

End PayloadProperties.

#[export] Instance sim_env_kernel_laws data inputs : @KernelLaws Z (sim_env data inputs).
Proof.
  split.
  - intros e i e' [= <- <-]. by apply (bool_decide_unpack _); vm_compute.
  - intros e u e' [= <- <-]. by apply (bool_decide_unpack _); vm_compute.
Qed.

(** A world with an identity, for the instances. *)
Definition world_id : World Z :=
  with_id (mk_identity (B "dev" ++ zeros 62) (B "key" ++ zeros 62)) world_cfg.

Lemma payload_format_witness :
  ∃ pl w', @run_payload le_host Z (sim_env [] []) PL_uptime false world_id = Some (pl, w') ∧
    same_lists world_id w' ∧
    (pl = None ∨ ∃ text bs, nul_free text ∧ zlen text ≤ 128 ∧ pl = Some bs ∧
       decode bs = Some [(ATLAS_CMD_IDENTITY, B "dev"); (502, text)]).
Proof.
  by apply (@payload_format le_host Z (sim_env [] []) _ PL_uptime false world_id (B "dev")).
Defined.

Lemma payload_threshold_witness :
  ∃ pl w', @run_payload le_host Z (sim_env [] []) PL_procs true
      (with_procs_threshold 50 world_id) = Some (pl, w') ∧ (pl ≠ None ↔ 50 ≤ 42).
Proof.
  by apply (@payload_threshold le_host Z (sim_env [] []) _ PL_procs
    (with_procs_threshold 50 world_id) (B "dev") (mk_sysinfo 100 (1, 5, 15) 2000 1000 10 20 500 400 42) 20).
Defined.
