(* ===== verification/Telemetry.v ===== *)
(** * Telemetry ([telemetry/atlas_telemetry.c])

    The list of features: each has a gateway path, the callback that produces
    its payload, and the ids of the two alarms the gateway may install, -1
    without one. *)

From stdpp Require Import gmap.
From S2P Require Import Prelude Protocol Command CString Scheduler State Config Identity Alarm.
From S2P Require Import CoapClient Request Connector TelemetryPayload.

Definition ATLAS_CLIENT_TELEMETRY_FEATURE_TIMEOUT_MS : Z := 40000.
Definition ATLAS_ALARM_SEC_TO_MS (sec : Z) : Z := sec * 1000.

Section Telemetry.
Context `{Host, Env E}.
Implicit Types w : World E.

Definition atlas_is_registered w : Z := registered (w_register w).

Definition atlas_telemetry_push (feature : atlas_telemetry_t) (use_threshold : bool) w
    : option (World E) :=
  if decide (atlas_is_registered w = 0) then Some w else
  '(payload, w) ← run_payload (tl_payload_cb feature) use_threshold w;
  match payload with
  | Some (b :: d) =>
      uri ← cfg_uri (w_cfg w) (tl_uri_path feature);
      '(_, w) ← atlas_coap_client_request (Some uri) ATLAS_COAP_METHOD_PUT (Some (b :: d))
        ATLAS_CLIENT_TELEMETRY_FEATURE_TIMEOUT_MS (Some CC_telemetry_callback) w;
      Some w
  | _ => Some w
  end.

(** Pushes the first feature a test accepts, if any. *)
Definition push_first (f : atlas_telemetry_t → bool) (use_threshold : bool) w
    : option (World E) :=
  match find_first f (w_features w) with
  | Some p => atlas_telemetry_push p use_threshold w
  | None => Some w
  end.

Definition push_alert_alarm_cb (alarm_id : Z) w : option (World E) :=
  push_first (λ p, bool_decide (push_id p = alarm_id)) false w.

Definition threshold_alert_alarm_cb (alarm_id : Z) w : option (World E) :=
  push_first (λ p, bool_decide (threshold_id p = alarm_id)) true w.

Definition occurs_in (uri : list byte) (p : atlas_telemetry_t) : bool :=
  bool_decide (is_Some (strstr uri (tl_uri_path p))).

Definition telemetry_callback (uri : list byte) (resp_status : atlas_coap_response_t) w
    : option (World E) :=
  if decide (resp_status = ATLAS_COAP_RESP_OK) then Some w
  else if decide (resp_status ≠ ATLAS_COAP_RESP_TIMEOUT) then Some w
  else push_first (occurs_in uri) false w.

Definition atlas_telemetry_add (uri_path : option (list byte)) (cb : option payload_cb) w : World E :=
  match uri_path, cb with
  | Some uri_path, Some cb =>
      with_features (w_features w ++ [mk_telemetry uri_path cb (-1) (-1)]) w
  | _, _ => w
  end.

Definition has_path (uri_path : list byte) (p : atlas_telemetry_t) : bool :=
  streq (tl_uri_path p) uri_path.

Definition atlas_telemetry_del (uri_path : option (list byte)) w : World E :=
  match uri_path with
  | Some uri_path => with_features (remove_first (has_path uri_path) (w_features w)) w
  | None => w
  end.

(** The walk over the list; a push never changes it. *)
Fixpoint push_features (l : list atlas_telemetry_t) w : option (World E) :=
  match l with
  | [] => Some w
  | p :: l => w ← atlas_telemetry_push p false w; push_features l w
  end.

Definition atlas_telemetry_push_all w : option (World E) := push_features (w_features w) w.

Definition set_push_id (id : Z) (p : atlas_telemetry_t) : atlas_telemetry_t :=
  mk_telemetry (tl_uri_path p) (tl_payload_cb p) id (threshold_id p).
Definition set_threshold_id (id : Z) (p : atlas_telemetry_t) : atlas_telemetry_t :=
  mk_telemetry (tl_uri_path p) (tl_payload_cb p) (push_id p) id.

Definition atlas_telemetry_push_set (uri_path : list byte) (push_rate : Z) w
    : option (World E) :=
  match find_first (has_path uri_path) (w_features w) with
  | None => Some w
  | Some p =>
      if decide (push_rate = 0) then atlas_telemetry_push p false w else
      let w := if decide (push_id p >= 0) then atlas_alarm_cancel (push_id p) w else w in
      let '(id, w) := atlas_alarm_set (ATLAS_ALARM_SEC_TO_MS push_rate) AC_push_alert_alarm_cb false w in
      Some (with_features (update_first (has_path uri_path) (set_push_id id) (w_features w)) w)
  end.

Definition atlas_telemetry_threshold_set (uri_path : list byte) (scan_rate : Z) w
    : option (World E) :=
  if decide (scan_rate = 0) then Some w else
  match find_first (has_path uri_path) (w_features w) with
  | None => Some w
  | Some p =>
      let w := if decide (threshold_id p >= 0) then atlas_alarm_cancel (threshold_id p) w else w in
      let '(id, w) := atlas_alarm_set (ATLAS_ALARM_SEC_TO_MS scan_rate)
                        AC_threshold_alert_alarm_cb false w in
      Some (with_features (update_first (has_path uri_path) (set_threshold_id id) (w_features w)) w)
  end.

End Telemetry.

(** ** Lemmas *)

Section TelemetryLemmas.
Context `{Host, Env E, !KernelLaws E, !EnvLaws E}.
Implicit Types w : World E.

(** What a push relies on: the strings and the statistics are sound. *)
Definition telemetry_ok w : Prop :=
  (∃ id, atlas_identity_get w = Some id ∧ zlen id ≤ 64) ∧
  0 ≤ packets_per_min (w_connector w) < 65536 ∧ 0 ≤ packets_avg (w_connector w) < 65536 ∧
  Forall (λ p, is_Some (cfg_uri (w_cfg w) (tl_uri_path p))) (w_features w).

(** The requests pushes add: at most one telemetry request per URI, in order,
    with its message; exactly one per URI when the client is registered, and
    the sources of the payloads and the network work. *)
Definition pushed (uris : list (list byte)) w w' : Prop :=
  app_state w' = app_state w ∧ w_register w' = w_register w ∧
  sched_ext (w_sched w) (w_sched w') ∧
  ∃ rs ps, w_reqs w' = w_reqs w ++ rs ∧ sent w' = sent w ++ ps ∧ length ps = length rs ∧
    (rq_uri <$> rs) `sublist_of` uris ∧ Forall (λ r, rq_callback r = CC_telemetry_callback) rs ∧
    Forall (λ p, ∃ tid opts d, p.2 = mk_pdu COAP_MESSAGE_CON tid COAP_REQUEST_PUT (pdu_token p.2) opts d) ps ∧
    (registered (w_register w) ≠ 0 → sources_work → Forall network_works uris → rq_uri <$> rs = uris).

Lemma app_state_register w w' : app_state w' = app_state w → w_register w' = w_register w.
Proof. unfold app_state. intros Ha. by injection Ha. Qed.

Lemma app_state_features w w' : app_state w' = app_state w → w_features w' = w_features w.
Proof. unfold app_state. intros Ha. by injection Ha. Qed.

Lemma telemetry_ok_app w w' : app_state w' = app_state w → telemetry_ok w → telemetry_ok w'.
Proof.
  unfold app_state. intros Ha. injection Ha as _ _ Hc Hi _ Hf _ Hcn _.
  unfold telemetry_ok, atlas_identity_get. by rewrite Hc, Hi, Hf, Hcn.
Qed.

Lemma add_data_put tid tok opts pl d :
  ∃ d', add_data pl (mk_pdu COAP_MESSAGE_CON tid COAP_REQUEST_PUT tok opts d) =
        mk_pdu COAP_MESSAGE_CON tid COAP_REQUEST_PUT tok opts d'.
Proof. unfold add_data. destruct pl as [[|b pl]|]; [eauto| |eauto]. destruct (coap_pdu_room _ _); eauto. Qed.

(** No request, because there is nothing to send. *)
Lemma pushed_none us w w1 :
  same_lists w w1 → (registered (w_register w) ≠ 0 → sources_work → us = []) → pushed us w w1.
Proof.
  intros (Ha & Hs & _ & Hr & Hse & _) Hno.
  split_and!; [done|by apply app_state_register|by rewrite Hs|].
  exists [], []. rewrite !app_nil_r. split_and!; try done; [apply sublist_nil_l|].
  intros Hreg Hw _. by rewrite Hno.
Qed.

(** One request. *)
Lemma pushed_one uri pl w w1 w2 :
  same_lists w w1 →
  requested uri ATLAS_COAP_METHOD_PUT pl ATLAS_CLIENT_TELEMETRY_FEATURE_TIMEOUT_MS
    CC_telemetry_callback w1 w2 →
  pushed [uri] w w2.
Proof.
  intros (Ha1 & Hs1 & _ & Hr1 & Hse1 & _) (Ha2 & Hs2 & _ & st & _ & _ & Hok & Hcase).
  assert (app_state w2 = app_state w) as Ha3 by congruence.
  split_and!; [done|by apply app_state_register|by rewrite <- Hs1|].
  destruct Hcase as [(Hst & Hr2 & Hse2)|(_ & u & a & fd & aid & ctx & s & tid & Hu2 & Hr2 & Hse2)].
  - exists [], []. rewrite !app_nil_r. split_and!; try congruence; try done; [apply sublist_nil_l|].
    intros _ _ [Hn _]%Forall_cons_1. by specialize (Hok Hn).
  - eexists [_], [_]. rewrite Hr2, Hse2, Hr1, Hse1. split_and!; [reflexivity|reflexivity|done|done| | |done].
    + apply Forall_cons_2; [done|apply Forall_nil_2].
    + apply Forall_cons_2; [|apply Forall_nil_2]. cbn [snd request_code].
      destruct (add_data_put tid (store32 (w_token w1)) (uri_options u) pl None) as [d' ->].
      by exists tid, (uri_options u), d'.
Qed.

Lemma push_spec p w :
  telemetry_ok w → is_Some (cfg_uri (w_cfg w) (tl_uri_path p)) →
  ∃ w', atlas_telemetry_push p false w = Some w' ∧
    pushed (option_list (cfg_uri (w_cfg w) (tl_uri_path p))) w w' ∧
    (registered (w_register w) = 0 → w' = w).
Proof.
  intros ((id & Hid & Hl) & Hp & Ha & _) [uri Hu]. unfold atlas_telemetry_push, atlas_is_registered.
  rewrite Hu. case_decide as Hreg.
  { exists w. split_and!; [done|by apply pushed_none|done]. }
  assert (payload_result (tl_payload_cb p) false id w (run_payload (tl_payload_cb p) false w))
    as (pl & w1 & -> & Hok & Hs & Hsome) by (by apply payload_results).
  cbn [mbind option_bind]. pose proof Hs as (Ha1 & _).
  assert (w_cfg w1 = w_cfg w) as Hcfg by (unfold app_state in Ha1; by injection Ha1).
  destruct Hok as [->|(text & _ & _ & ->)].
  { exists w1. split_and!; [done| |done]. apply pushed_none; [done|]. intros _ Hw. by specialize (Hsome Hw eq_refl). }
  rewrite encode_cons. unfold encode_cmd, be16. cbn [app fst snd]. rewrite Hcfg, Hu. cbn [mbind option_bind].
  match goal with |- context [atlas_coap_client_request ?a ?b ?c ?d ?e ?f] =>
    destruct (request_total uri b c d CC_telemetry_callback f) as [[st w2] Hr] end.
  rewrite Hr. cbn [mbind option_bind]. exists w2. split_and!; [done| |done].
  eapply pushed_one; [exact Hs|]. by eapply request_requested; [apply same_lists_refl|].
Qed.

Lemma pushed_trans us vs w1 w2 w3 :
  pushed us w1 w2 → pushed vs w2 w3 → pushed (us ++ vs) w1 w3.
Proof.
  intros (Ha & Hr & Hs & rs & ps & H1 & H2 & H3 & H4 & H5 & H6 & H7)
    (Ha' & Hr' & Hs' & rs' & ps' & H1' & H2' & H3' & H4' & H5' & H6' & H7').
  split_and!; [congruence|congruence|by etrans|].
  exists (rs ++ rs'), (ps ++ ps'). rewrite H1', H1, H2', H2, !length_app, fmap_app, !app_assoc.
  split_and!; [done|done|lia|by apply sublist_app|by apply Forall_app_2|by apply Forall_app_2|].
  intros Hreg Hw [Hu Hv]%Forall_app. rewrite H7 by done. f_equal. apply H7'; [by rewrite Hr|done..].
Qed.

Lemma push_features_spec l w :
  telemetry_ok w → Forall (λ p, is_Some (cfg_uri (w_cfg w) (tl_uri_path p))) l →
  ∃ w', push_features l w = Some w' ∧
    pushed (omap (λ p, cfg_uri (w_cfg w) (tl_uri_path p)) l) w w' ∧
    (registered (w_register w) = 0 → w' = w).
Proof.
  revert w. induction l as [|p l IH]; intros w Hok Hl; cbn [push_features].
  { exists w. split_and!; [done| |done]. split_and!; try done.
    exists [], []. rewrite !app_nil_r. split_and!; done. }
  apply Forall_cons_1 in Hl as [Hp Hl].
  destruct (push_spec p w Hok Hp) as (w1 & -> & Hpush & Hreg). cbn [mbind option_bind].
  pose proof Hpush as (Ha & _).
  assert (w_cfg w1 = w_cfg w) as Hcfg by (unfold app_state in Ha; by injection Ha).
  destruct (IH w1) as (w2 & -> & Hpush2 & Hreg2); [by eapply telemetry_ok_app|by rewrite Hcfg|].
  exists w2. split_and!; [done| |].
  - rewrite Hcfg in Hpush2. destruct Hp as [u Hu]. rewrite Hu in Hpush.
    replace (omap (λ p, cfg_uri (w_cfg w) (tl_uri_path p)) (p :: l))
      with ([u] ++ omap (λ p, cfg_uri (w_cfg w) (tl_uri_path p)) l) by (by csimpl; rewrite Hu).
    exact (pushed_trans [u] _ w w1 w2 Hpush Hpush2).
  - intros Hr. specialize (Hreg Hr) as ->. by apply Hreg2.
Qed.

End TelemetryLemmas.

(** ** Properties *)

Section TelemetryProperties.
Context `{Host, Env E, !KernelLaws E, !EnvLaws E}.
Implicit Types w : World E.

(** C30. Pushing all features always ends; before the registration it does
    nothing at all; after it, it makes at most one PUT request per feature, in
    the order of the list, each to the feature's own URI and with the telemetry
    callback, and sends one message for each. When the sources of the payloads
    and the network work, it is exactly one per feature. *)
Theorem push_all_pushes_in_order w :
  telemetry_ok w →
  ∃ w', atlas_telemetry_push_all w = Some w' ∧
    (registered (w_register w) = 0 → w' = w) ∧
    app_state w' = app_state w ∧
    ∃ rs ps, w_reqs w' = w_reqs w ++ rs ∧ sent w' = sent w ++ ps ∧ length ps = length rs ∧
      (rq_uri <$> rs) `sublist_of` omap (λ p, cfg_uri (w_cfg w) (tl_uri_path p)) (w_features w) ∧
      Forall (λ r, rq_callback r = CC_telemetry_callback) rs ∧
      Forall (λ p, ∃ tid opts d,
        p.2 = mk_pdu COAP_MESSAGE_CON tid COAP_REQUEST_PUT (pdu_token p.2) opts d) ps ∧
      (registered (w_register w) ≠ 0 → sources_work →
       Forall (λ p, ∀ uri, cfg_uri (w_cfg w) (tl_uri_path p) = Some uri → network_works uri) (w_features w) →
       (rq_uri <$> rs) = omap (λ p, cfg_uri (w_cfg w) (tl_uri_path p)) (w_features w)).
Proof.
  intros Hok. destruct (push_features_spec (w_features w) w Hok) as (w' & Hp & Hpush & Hreg).
  { by destruct Hok as (_ & _ & _ & ?). }
  destruct Hpush as (Ha & _ & _ & rs & ps & H1 & H2 & H3 & H4 & H5 & H6 & H7).
  exists w'. split_and!; [done..|]. exists rs, ps. split_and!; [done..|]. intros Hr Hw Hn.
  apply H7; [done..|]. clear -Hn. induction Hn as [|p l Hp _ IH]; csimpl; [constructor|].
  destruct (cfg_uri _ _) as [uri|]; [|done]. by apply Forall_cons_2; [apply Hp|].
Qed.

(** A feature whose push times out is pushed again as the first feature
    whose path occurs in the URI: with one path a prefix of another, the wrong
    feature can be sent again. Any other failure is not retried. *)
Theorem timeout_retries_first_match w uri p l1 l2 :
  w_features w = l1 ++ p :: l2 →
  (∀ q, q ∈ l1 → strstr uri (tl_uri_path q) = None) →
  (∃ l r, uri = l ++ tl_uri_path p ++ r) →
  telemetry_callback uri ATLAS_COAP_RESP_TIMEOUT w = atlas_telemetry_push p false w ∧
  ∀ st, st ≠ ATLAS_COAP_RESP_TIMEOUT → telemetry_callback uri st w = Some w.
Proof.
  intros Hf Hno Hocc. unfold telemetry_callback. split.
  - rewrite decide_False, decide_False by naive_solver. unfold push_first. rewrite Hf.
    rewrite find_first_app; [done| |].
    + intros q Hq. apply bool_decide_eq_false. rewrite Hno by done. by intros [].
    + apply bool_decide_eq_true. by apply strstr_spec.
  - intros st Hst. case_decide; [done|]. by rewrite decide_True.
Qed.

(** Installing a push rate cancels the alarm the feature had and sets a
    periodic one of that many seconds, whose id is remembered for the feature;
    when that alarm fires, it is this feature that is pushed. A rate of 0
    pushes at once and leaves an installed alarm running. *)
Theorem push_rate_installs_alarm path rate p l1 l2 w :
  w_features w = l1 ++ p :: l2 → tl_uri_path p = path →
  (∀ q, q ∈ l1 → tl_uri_path q ≠ path) → 0 < rate < 65536 →
  let w0 := if decide (push_id p >= 0) then atlas_alarm_cancel (push_id p) w else w in
  let '(id, w1) := atlas_alarm_set (rate * 1000) AC_push_alert_alarm_cb false w0 in
  let w' := with_features (l1 ++ set_push_id id p :: l2) w1 in
  atlas_telemetry_push_set path rate w = Some w' ∧
  atlas_telemetry_push_set path 0 w = atlas_telemetry_push p false w ∧
  ((∀ q, q ∈ l1 → push_id q ≠ id) →
   push_alert_alarm_cb id w' = atlas_telemetry_push (set_push_id id p) false w').
Proof.
  intros Hf Hp Hno Hrate w0.
  destruct (atlas_alarm_set (rate * 1000) AC_push_alert_alarm_cb false w0) as [id w1] eqn:Hset.
  intros w'.
  assert (∀ q, q ∈ l1 → has_path path q = false) as Hno'
    by (intros q Hq; apply bool_decide_eq_false; by apply Hno).
  assert (has_path path p = true) as Hp' by (by apply bool_decide_eq_true).
  assert (w_features w1 = w_features w) as Hf1.
  { assert (w_features w0 = w_features w) as <-.
    { unfold w0. case_decide; [|done]. apply alarm_cancel_frame. }
    pose proof (alarm_set_frame (rate * 1000) AC_push_alert_alarm_cb false w0) as Hfr.
    rewrite Hset in Hfr. apply Hfr. }
  unfold atlas_telemetry_push_set. rewrite Hf, find_first_app by done. split_and!.
  - rewrite decide_False by lia. fold w0. unfold ATLAS_ALARM_SEC_TO_MS. rewrite Hset, Hf1, Hf.
    by rewrite update_first_app.
  - by rewrite decide_True.
  - intros Hid. unfold push_alert_alarm_cb, push_first, w'. wsimpl.
    rewrite find_first_app; [done| |by apply bool_decide_eq_true].
    intros q Hq. apply bool_decide_eq_false. by apply Hid.
Qed.

End TelemetryProperties.

(** Two features, as [atlas_telemetry_add_sysinfo] adds them. *)
Definition load1_feature : atlas_telemetry_t :=
  mk_telemetry (B "gateway/telemetry/sysinfo/load1") PL_load1 (-1) (-1).
Definition load15_feature : atlas_telemetry_t :=
  mk_telemetry (B "gateway/telemetry/sysinfo/load15") PL_load15 (-1) (-1).
Definition world_loads : World Z := with_features [load1_feature; load15_feature] world_id.

(** The same, registered. *)
Definition world_loads_registered : World Z := with_register (mk_register 1 0 0 22) world_loads.

(** Sources that always answer. *)
Lemma sim_sources_work b data inputs : @sources_work Z (sim_env (b :: data) inputs).
Proof.
  split_and!; try (intros; by eexists); intros; cbn [sys_open sys_read sim_env fst]; [lia|].
  rewrite zlen_cons. pose proof (zlen_nonneg data). lia.
Qed.

Lemma push_all_pushes_in_order_witness :
  ∃ w', @atlas_telemetry_push_all le_host Z (sim_env (B "iot") []) world_loads_registered = Some w' ∧
    (rq_uri <$> w_reqs w') = [B "coaps://gw:5684/gateway/telemetry/sysinfo/load1";
                              B "coaps://gw:5684/gateway/telemetry/sysinfo/load15"] ∧
    length (sent w') = 2%nat.
Proof.
  destruct (@push_all_pushes_in_order le_host Z (sim_env (B "iot") []) _ _ world_loads_registered)
    as (w' & Hw & _ & _ & rs & ps & Hr & Hs & Hl & _ & _ & _ & Hall).
  - split_and!; [exists (B "dev"); by vm_compute|done..|]. by apply (bool_decide_unpack _); vm_compute.
  - specialize (Hall ltac:(done) (sim_sources_work _ _ _)
      ltac:(apply list.Forall_true; intros; apply sim_network_works)).
    exists w'. split; [exact Hw|]. split; [rewrite Hr; rewrite fmap_app, Hall; by vm_compute|].
    rewrite Hs, length_app, Hl. apply (f_equal length) in Hall. rewrite length_fmap in Hall.
    rewrite Hall. by vm_compute.
Defined.

(** The retry of load15 pushes load1. *)
Lemma timeout_retries_first_match_witness :
  @telemetry_callback le_host Z (sim_env [] []) (B "coaps://gw:5684/gateway/telemetry/sysinfo/load15")
    ATLAS_COAP_RESP_TIMEOUT world_loads =
  @atlas_telemetry_push le_host Z (sim_env [] []) load1_feature false world_loads.
Proof.
  refine (proj1 (@timeout_retries_first_match le_host Z (sim_env [] []) world_loads _ load1_feature []
    [load15_feature] eq_refl _ _)).
  - by intros q ?%elem_of_nil.
  - exists (B "coaps://gw:5684/"), (B "5"). by vm_compute.
Defined.

Lemma push_rate_installs_alarm_witness :
  ∃ id w1, @atlas_telemetry_push_set le_host Z (sim_env [] [])
      (B "gateway/telemetry/sysinfo/load15") 60 world_loads
    = Some (with_features ([load1_feature] ++ set_push_id id load15_feature :: []) w1).
Proof.
  pose proof (@push_rate_installs_alarm le_host Z (sim_env [] []) (B "gateway/telemetry/sysinfo/load15") 60
    load15_feature [load1_feature] [] world_loads eq_refl eq_refl) as Hx.
  assert (∀ q, q ∈ [load1_feature] → tl_uri_path q ≠ B "gateway/telemetry/sysinfo/load15") as Hq
    by (intros q Hq; apply list_elem_of_singleton in Hq as ->; by vm_compute).
  specialize (Hx Hq ltac:(done)). cbv zeta in Hx.
  match type of Hx with context [atlas_alarm_set ?a ?b ?c ?d] =>
    destruct (atlas_alarm_set a b c d) as [id w1] end.
  exists id, w1. exact (proj1 Hx).
Defined.
