(* ===== verification/TelemetryAlerts.v ===== *)
(** * Telemetry features and their alerts

    The features the client reports and the end-points on which the gateway
    installs their alerts ([telemetry/atlas_telemetry_sysinfo.c],
    [atlas_telemetry_packets_info.c], [atlas_telemetry_hostname.c],
    [atlas_telemetry_kern_info.c], [atlas_telemetry_features.c]). *)

From stdpp Require Import gmap.
From S2P Require Import Prelude Protocol Command CString AlertUtils Scheduler State Config.
From S2P Require Import Identity Alarm CoapClient CoapServer Request Connector.
From S2P Require Import TelemetryPayload Telemetry.

Definition ATLAS_SYSINFO_UPTIME_PATH : list byte := B "gateway/telemetry/sysinfo/uptime".
Definition ATLAS_SYSINFO_TOTALRAM_PATH : list byte := B "gateway/telemetry/sysinfo/totalram".
Definition ATLAS_SYSINFO_FREERAM_PATH : list byte := B "gateway/telemetry/sysinfo/freeram".
Definition ATLAS_SYSINFO_SHAREDRAM_PATH : list byte := B "gateway/telemetry/sysinfo/sharedram".
Definition ATLAS_SYSINFO_BUFFERRAM_PATH : list byte := B "gateway/telemetry/sysinfo/bufferram".
Definition ATLAS_SYSINFO_TOTALSWAP_PATH : list byte := B "gateway/telemetry/sysinfo/totalswap".
Definition ATLAS_SYSINFO_FREESWAP_PATH : list byte := B "gateway/telemetry/sysinfo/freeswap".
Definition ATLAS_SYSINFO_PROCS_PATH : list byte := B "gateway/telemetry/sysinfo/procs".
Definition ATLAS_SYSINFO_LOAD1_PATH : list byte := B "gateway/telemetry/sysinfo/load1".
Definition ATLAS_SYSINFO_LOAD5_PATH : list byte := B "gateway/telemetry/sysinfo/load5".
Definition ATLAS_SYSINFO_LOAD15_PATH : list byte := B "gateway/telemetry/sysinfo/load15".
Definition ATLAS_PUSH_ALERT_SYSINFO_PROCS_PATH : list byte :=
  B "client/telemetry/sysinfo/procs/alerts/push".
Definition ATLAS_PUSH_ALERT_SYSINFO_UPTIME_PATH : list byte :=
  B "client/telemetry/sysinfo/uptime/alerts/push".
Definition ATLAS_PUSH_ALERT_SYSINFO_FREERAM_PATH : list byte :=
  B "client/telemetry/sysinfo/freeram/alerts/push".
Definition ATLAS_PUSH_ALERT_SYSINFO_SHAREDRAM_PATH : list byte :=
  B "client/telemetry/sysinfo/sharedram/alerts/push".
Definition ATLAS_PUSH_ALERT_SYSINFO_BUFFERRAM_PATH : list byte :=
  B "client/telemetry/sysinfo/bufferram/alerts/push".
Definition ATLAS_PUSH_ALERT_SYSINFO_TOTALSWAP_PATH : list byte :=
  B "client/telemetry/sysinfo/totalswap/alerts/push".
Definition ATLAS_PUSH_ALERT_SYSINFO_FREESWAP_PATH : list byte :=
  B "client/telemetry/sysinfo/freeswap/alerts/push".
Definition ATLAS_PUSH_ALERT_SYSINFO_LOAD1_PATH : list byte :=
  B "client/telemetry/sysinfo/load1/alerts/push".
Definition ATLAS_PUSH_ALERT_SYSINFO_LOAD5_PATH : list byte :=
  B "client/telemetry/sysinfo/load5/alerts/push".
Definition ATLAS_PUSH_ALERT_SYSINFO_LOAD15_PATH : list byte :=
  B "client/telemetry/sysinfo/load15/alerts/push".
Definition ATLAS_THRESHOLD_ALERT_SYSINFO_PROCS_PATH : list byte :=
  B "client/telemetry/sysinfo/procs/alerts/threshold".
Definition ATLAS_PACKETS_INFO_PACKETS_PER_MINUTE : list byte := B "gateway/telemetry/packets_per_minute".
Definition ATLAS_PACKETS_INFO_PACKETS_AVG : list byte := B "gateway/telemetry/packets_avg".
Definition ATLAS_PUSH_ALERT_DATA_PLANE_PPM_PATH : list byte :=
  B "client/telemetry/packets_info/packets_per_min/alerts/push".
Definition ATLAS_PUSH_ALERT_DATA_PLANE_PKT_AVG_PATH : list byte :=
  B "client/telemetry/packets_info/packets_avg/alerts/push".
Definition ATLAS_HOSTNAME_PATH : list byte := B "gateway/telemetry/hostname".
Definition ATLAS_KERNEL_INFO_PATH : list byte := B "gateway/telemetry/kernel_info".

Section Alerts.
Context `{Host, Env E}.
Implicit Types w : World E.

(** The [if / else if] chains on the path, in their order: the alert path and
    the feature it is for. *)
Definition sysinfo_push_paths : list (list byte * list byte) :=
  [(ATLAS_PUSH_ALERT_SYSINFO_PROCS_PATH, ATLAS_SYSINFO_PROCS_PATH);
   (ATLAS_PUSH_ALERT_SYSINFO_UPTIME_PATH, ATLAS_SYSINFO_UPTIME_PATH);
   (ATLAS_PUSH_ALERT_SYSINFO_FREERAM_PATH, ATLAS_SYSINFO_FREERAM_PATH);
   (ATLAS_PUSH_ALERT_SYSINFO_SHAREDRAM_PATH, ATLAS_SYSINFO_SHAREDRAM_PATH);
   (ATLAS_PUSH_ALERT_SYSINFO_BUFFERRAM_PATH, ATLAS_SYSINFO_BUFFERRAM_PATH);
   (ATLAS_PUSH_ALERT_SYSINFO_TOTALSWAP_PATH, ATLAS_SYSINFO_TOTALSWAP_PATH);
   (ATLAS_PUSH_ALERT_SYSINFO_FREESWAP_PATH, ATLAS_SYSINFO_FREESWAP_PATH);
   (ATLAS_PUSH_ALERT_SYSINFO_LOAD1_PATH, ATLAS_SYSINFO_LOAD1_PATH);
   (ATLAS_PUSH_ALERT_SYSINFO_LOAD5_PATH, ATLAS_SYSINFO_LOAD5_PATH);
   (ATLAS_PUSH_ALERT_SYSINFO_LOAD15_PATH, ATLAS_SYSINFO_LOAD15_PATH)].

Definition packets_push_paths : list (list byte * list byte) :=
  [(ATLAS_PUSH_ALERT_DATA_PLANE_PPM_PATH, ATLAS_PACKETS_INFO_PACKETS_PER_MINUTE);
   (ATLAS_PUSH_ALERT_DATA_PLANE_PKT_AVG_PATH, ATLAS_PACKETS_INFO_PACKETS_AVG)].

(** Both files have this callback, with their own paths. [push_rate] is not
    initialised; any value does. *)
Definition push_alert_cb (paths : list (list byte * list byte)) (uri_path : list byte)
    (req_payload : option (list byte)) (req_payload_len : Z) w
    : option (atlas_coap_response_t * option (list byte) * World E) :=
  '(status, push_rate) ← atlas_alert_push_cmd_parse req_payload (u16 req_payload_len)
                           (Some (b2z heap_junk));
  if decide (status = ATLAS_OK) then
    push_rate ← push_rate;
    match find_first (λ p, streq uri_path p.1) paths with
    | Some (_, feature) =>
        w ← atlas_telemetry_push_set feature push_rate w;
        Some (ATLAS_COAP_RESP_OK, None, w)
    | None => Some (ATLAS_COAP_RESP_OK, None, w)
    end
  else Some (ATLAS_COAP_RESP_NOT_ACCEPTABLE_HERE, None, w).

Definition sysinfo_push_alert_cb := push_alert_cb sysinfo_push_paths.
Definition packets_push_alert_cb := push_alert_cb packets_push_paths.

(** [strtol] of the threshold, which is NULL when the request has none. A
    [uint16_t] never equals LONG_MAX or LONG_MIN. *)
Definition atlas_threshold_alert_procs_cb (uri_path : list byte) (req_payload : option (list byte))
    (req_payload_len : Z) w : option (atlas_coap_response_t * option (list byte) * World E) :=
  '(status, scan_rate, threshold) ← atlas_alert_threshold_cmd_parse req_payload
      (u16 req_payload_len) (Some (b2z heap_junk)) (Some None);
  if decide (status = ATLAS_OK) then
    scan_rate ← scan_rate;
    threshold ← threshold;
    s ← deref_str threshold;
    let '(v, erange) := strtol s in
    let procs_threshold := u16 v in
    let w := with_procs_threshold procs_threshold w in
    if (erange && (bool_decide (procs_threshold = LONG_MAX) || bool_decide (procs_threshold = LONG_MIN)))
       || (erange && bool_decide (procs_threshold = 0))
    then Some (ATLAS_COAP_RESP_NOT_ACCEPTABLE_HERE, None, w)
    else
      w ← atlas_telemetry_threshold_set ATLAS_SYSINFO_PROCS_PATH scan_rate w;
      Some (ATLAS_COAP_RESP_OK, None, w)
  else Some (ATLAS_COAP_RESP_NOT_ACCEPTABLE_HERE, None, w).

(** Installs the end-points in order, and stops at the first failure. *)
Fixpoint install_resources (l : list (list byte * server_cb)) w : World E :=
  match l with
  | [] => w
  | (path, cb) :: l =>
      let '(status, w) := atlas_coap_server_add_resource (Some path) ATLAS_COAP_METHOD_PUT (Some cb) w in
      if decide (status = ATLAS_OK) then install_resources l w else w
  end.

Fixpoint add_features (l : list (list byte * payload_cb)) w : World E :=
  match l with
  | [] => w
  | (path, cb) :: l => add_features l (atlas_telemetry_add (Some path) (Some cb) w)
  end.

Definition sysinfo_features : list (list byte * payload_cb) :=
  [(ATLAS_SYSINFO_UPTIME_PATH, PL_uptime);
   (ATLAS_SYSINFO_TOTALRAM_PATH, PL_totalram);
   (ATLAS_SYSINFO_FREERAM_PATH, PL_freeram);
   (ATLAS_SYSINFO_SHAREDRAM_PATH, PL_sharedram);
   (ATLAS_SYSINFO_BUFFERRAM_PATH, PL_bufferram);
   (ATLAS_SYSINFO_TOTALSWAP_PATH, PL_totalswap);
   (ATLAS_SYSINFO_FREESWAP_PATH, PL_freeswap);
   (ATLAS_SYSINFO_PROCS_PATH, PL_procs);
   (ATLAS_SYSINFO_LOAD1_PATH, PL_load1);
   (ATLAS_SYSINFO_LOAD5_PATH, PL_load5);
   (ATLAS_SYSINFO_LOAD15_PATH, PL_load15)].

Definition sysinfo_resources : list (list byte * server_cb) :=
  ((λ p, (p.1, SV_sysinfo_push_alert_cb)) <$> sysinfo_push_paths) ++
  [(ATLAS_THRESHOLD_ALERT_SYSINFO_PROCS_PATH, SV_threshold_alert_procs_cb)].

Definition atlas_telemetry_add_sysinfo w : World E :=
  install_resources sysinfo_resources (add_features sysinfo_features w).

Definition atlas_telemetry_add_packets_info w : World E :=
  install_resources ((λ p, (p.1, SV_packets_push_alert_cb)) <$> packets_push_paths)
    (add_features [(ATLAS_PACKETS_INFO_PACKETS_PER_MINUTE, PL_packets_per_minute);
                   (ATLAS_PACKETS_INFO_PACKETS_AVG, PL_packets_avg)] w).

Definition atlas_telemetry_add_hostname w : World E :=
  atlas_telemetry_add (Some ATLAS_HOSTNAME_PATH) (Some PL_hostname) w.

Definition atlas_telemetry_add_kern_info w : World E :=
  atlas_telemetry_add (Some ATLAS_KERNEL_INFO_PATH) (Some PL_kern_info) w.

Definition atlas_telemetry_features_init w : World E :=
  atlas_telemetry_add_packets_info (atlas_telemetry_add_sysinfo
    (atlas_telemetry_add_kern_info (atlas_telemetry_add_hostname w))).

End Alerts.

(** ** Lemmas *)

Section AlertsLemmas.
Context `{Host, Env E}.
Implicit Types w : World E.

Definition features_of (l : list (list byte * payload_cb)) : list atlas_telemetry_t :=
  (λ p, mk_telemetry p.1 p.2 (-1) (-1)) <$> l.

Lemma add_features_eq l w :
  add_features l w = with_features (w_features w ++ features_of l) w.
Proof.
  revert w. induction l as [|[path cb] l IH]; intros w; cbn [add_features].
  - unfold features_of. cbn. rewrite app_nil_r. by destruct w.
  - rewrite IH. unfold atlas_telemetry_add. wsimpl. by rewrite <- app_assoc.
Qed.

Lemma add_resource_features path m cb w :
  w_features (atlas_coap_server_add_resource path m cb w).2 = w_features w.
Proof.
  unfold atlas_coap_server_add_resource. destruct path as [path|], cb as [cb|]; try done.
  dcall r e. by destruct r.
Qed.

Lemma install_resources_features l w : w_features (install_resources l w) = w_features w.
Proof.
  revert w. induction l as [|[path cb] l IH]; intros w; cbn [install_resources]; [done|].
  pose proof (add_resource_features (Some path) ATLAS_COAP_METHOD_PUT (Some cb) w) as Hf.
  destruct (atlas_coap_server_add_resource _ _ _ w) as [st w1]. cbn [snd] in Hf.
  case_decide; [by rewrite IH|done].
Qed.

(** The table of features of a client. *)
Definition all_features : list (list byte * payload_cb) :=
  [(ATLAS_HOSTNAME_PATH, PL_hostname); (ATLAS_KERNEL_INFO_PATH, PL_kern_info)] ++
  sysinfo_features ++
  [(ATLAS_PACKETS_INFO_PACKETS_PER_MINUTE, PL_packets_per_minute);
   (ATLAS_PACKETS_INFO_PACKETS_AVG, PL_packets_avg)].

Lemma features_init_eq w :
  w_features (atlas_telemetry_features_init w) = w_features w ++ features_of all_features.
Proof.
  unfold atlas_telemetry_features_init, atlas_telemetry_add_packets_info, atlas_telemetry_add_sysinfo,
    atlas_telemetry_add_kern_info, atlas_telemetry_add_hostname, atlas_telemetry_add.
  rewrite install_resources_features, add_features_eq. cbn [w_features with_features].
  rewrite install_resources_features, add_features_eq. cbn [w_features with_features].
  rewrite <- !app_assoc. done.
Qed.

(** The parser of the push request, for a request that is a batch. *)
Lemma push_alert_cb_eq paths uri cs rest w :
  Forall wf_cmd cs → 0 < zlen (encode cs) < 65536 →
  push_alert_cb paths uri (Some (encode cs ++ rest)) (zlen (encode cs)) w =
  match find_first is_push_rate cs with
  | Some c =>
      match find_first (λ p, streq uri p.1) paths with
      | Some (_, feature) =>
          w ← atlas_telemetry_push_set feature (unbe16 c.2) w; Some (ATLAS_COAP_RESP_OK, None, w)
      | None => Some (ATLAS_COAP_RESP_OK, None, w)
      end
  | None => Some (ATLAS_COAP_RESP_NOT_ACCEPTABLE_HERE, None, w)
  end.
Proof.
  intros Hwf Hl. unfold push_alert_cb. rewrite u16_small by lia.
  rewrite push_cmd_parse_eq, decode_encode by done. cbn [mbind option_bind].
  by destruct (find_first is_push_rate cs).
Qed.

Lemma threshold_alert_cb_eq uri cs rest w :
  Forall wf_cmd cs → 0 < zlen (encode cs) < 65536 →
  atlas_threshold_alert_procs_cb uri (Some (encode cs ++ rest)) (zlen (encode cs)) w =
  match find_last is_scan_rate cs, find_last is_threshold cs with
  | None, _ => Some (ATLAS_COAP_RESP_NOT_ACCEPTABLE_HERE, None, w)
  | Some _, None => None
  | Some c, Some d =>
      let '(v, erange) := strtol (c_string (d.2 ++ [x00])) in
      if erange && bool_decide (u16 v = 0)
      then Some (ATLAS_COAP_RESP_NOT_ACCEPTABLE_HERE, None, with_procs_threshold (u16 v) w)
      else
        w ← atlas_telemetry_threshold_set ATLAS_SYSINFO_PROCS_PATH (unbe16 c.2)
              (with_procs_threshold (u16 v) w);
        Some (ATLAS_COAP_RESP_OK, None, w)
  end.
Proof.
  intros Hwf Hl. unfold atlas_threshold_alert_procs_cb. rewrite u16_small by lia.
  rewrite threshold_cmd_parse_eq, decode_encode by done. cbn [mbind option_bind].
  destruct (find_last is_scan_rate cs) as [c|]; [|done].
  destruct (find_last is_threshold cs) as [d|]; [|done].
  cbn [fmap option_fmap option_map mbind option_bind deref_str].
  assert (cstr_in (d.2 ++ [x00]) (c_string (d.2 ++ [x00]))) as Hc
    by (apply cstr_in_exists; set_solver).
  rewrite (cstr_of_in _ _ Hc). cbn [mbind option_bind].
  destruct (strtol _) as [v erange]. pose proof (u16_range v).
  rewrite !(bool_decide_false (u16 v = _)) by (unfold LONG_MAX, LONG_MIN; lia).
  by rewrite andb_false_r.
Qed.

End AlertsLemmas.

(** ** Properties *)

Section AlertsProperties.
Context `{Host, Env E}.
Implicit Types w : World E.

(** The initialisation registers fifteen features, all paths different and
    no alarm installed, and every push end-point is for one of them. *)
Theorem features_are_registered w :
  w_features w = [] →
  let l := w_features (atlas_telemetry_features_init w) in
  length l = 15%nat ∧ NoDup (tl_uri_path <$> l) ∧
  Forall (λ p, push_id p = -1 ∧ threshold_id p = -1) l ∧
  ∀ a f, (a, f) ∈ sysinfo_push_paths ++ packets_push_paths →
    ∃ p, find_first (has_path f) l = Some p ∧ tl_uri_path p = f.
Proof.
  intros Hw l. unfold l. rewrite features_init_eq, Hw. cbn [app]. split_and!.
  - done.
  - by apply (bool_decide_unpack _); vm_compute.
  - by apply (bool_decide_unpack _); vm_compute.
  - intros a f Hin.
    assert (Forall (λ p, is_Some (find_first (has_path p.2) (features_of all_features)))
      (sysinfo_push_paths ++ packets_push_paths)) as Hall
      by (by apply (bool_decide_unpack _); vm_compute).
    apply (proj1 (list.Forall_forall _ _) Hall) in Hin as [p Hp]. exists p.
    split; [exact Hp|]. by apply find_first_elem in Hp as [_ Hp%bool_decide_eq_true].
Qed.

(** A request on a push end-point is answered 406 and changes nothing when
    its batch has no two-byte push rate; otherwise the first rate, in network
    byte order, is installed for the feature of the path the request was sent
    to, and the answer is OK. *)
Theorem push_alert_request uri cs rest w :
  Forall wf_cmd cs → 0 < zlen (encode cs) < 65536 →
  sysinfo_push_alert_cb uri (Some (encode cs ++ rest)) (zlen (encode cs)) w =
  match find_first is_push_rate cs with
  | None => Some (ATLAS_COAP_RESP_NOT_ACCEPTABLE_HERE, None, w)
  | Some c =>
      match find_first (λ p, streq uri p.1) sysinfo_push_paths with
      | Some (_, feature) =>
          w ← atlas_telemetry_push_set feature (unbe16 c.2) w; Some (ATLAS_COAP_RESP_OK, None, w)
      | None => Some (ATLAS_COAP_RESP_OK, None, w)
      end
  end.
Proof.
  intros Hwf Hl. unfold sysinfo_push_alert_cb. rewrite push_alert_cb_eq by done.
  by destruct (find_first is_push_rate cs).
Qed.

(** A threshold request with a scan rate but no threshold makes the client
    dereference NULL. *)
Theorem threshold_request_crashes uri cs rest w :
  Forall wf_cmd cs → 0 < zlen (encode cs) < 65536 →
  (∃ c, c ∈ cs ∧ is_scan_rate c = true) → (∀ c, c ∈ cs → is_threshold c = false) →
  atlas_threshold_alert_procs_cb uri (Some (encode cs ++ rest)) (zlen (encode cs)) w = None.
Proof.
  intros Hwf Hl (c & Hc & Hs) Ht. rewrite threshold_alert_cb_eq by done.
  rewrite (proj2 (find_last_None is_threshold cs) Ht).
  destruct (find_last is_scan_rate cs) eqn:Hf; [done|].
  by rewrite (proj1 (find_last_None is_scan_rate cs) Hf c Hc) in Hs.
Qed.

(** A printed threshold becomes the threshold modulo 65536: the range
    check compares a 16-bit value with the limits of long, so that a number
    beyond long is not refused either but becomes 65535. *)
Theorem threshold_is_truncated uri scan n w :
  0 ≤ scan < 65536 → 0 ≤ n < 10 ^ 20 → ∃ k, 0 < k ∧
  let cs := [(ATLAS_CMD_TELEMETRY_ALERT_INT_SCAN_RATE, be16 scan);
             (ATLAS_CMD_TELEMETRY_ALERT_THRESHOLD, decimal n)] in
  k = zlen (encode cs) ∧
  atlas_threshold_alert_procs_cb uri (Some (encode cs)) k w =
  (w ← atlas_telemetry_threshold_set ATLAS_SYSINFO_PROCS_PATH scan
         (with_procs_threshold (if decide (n ≤ LONG_MAX) then n mod 65536 else 65535) w);
   Some (ATLAS_COAP_RESP_OK, None, w)).
Proof.
  intros Hscan Hn. destruct (decimal_20 n Hn) as (Hnf & Hlen & Hst).
  set (cs := [(ATLAS_CMD_TELEMETRY_ALERT_INT_SCAN_RATE, be16 scan);
              (ATLAS_CMD_TELEMETRY_ALERT_THRESHOLD, decimal n)]).
  assert (0 < zlen (encode cs) < 65536) as Hz.
  { unfold cs. rewrite !encode_cons, encode_nil, !zlen_app, !zlen_encode_cmd. cbn [snd].
    change (zlen (be16 scan)) with 2. change (zlen (@nil byte)) with 0. lia. }
  exists (zlen (encode cs)). split; [lia|]. split; [done|].
  rewrite <- (app_nil_r (encode cs)) at 1. rewrite threshold_alert_cb_eq; [|unfold cs|done].
  2:{ apply Forall_cons_2; [by apply wf_be16|]. apply Forall_cons_2; [|apply Forall_nil_2].
      split; [done|]. cbn [snd]. lia. }
  assert (is_scan_rate (ATLAS_CMD_TELEMETRY_ALERT_INT_SCAN_RATE, be16 scan) = true ∧
    is_threshold (ATLAS_CMD_TELEMETRY_ALERT_THRESHOLD, decimal n) = true ∧
    is_scan_rate (ATLAS_CMD_TELEMETRY_ALERT_THRESHOLD, decimal n) = false) as (E1 & E2 & E3).
  { unfold is_scan_rate, is_threshold. cbn [fst snd]. split_and!.
    - by apply bool_decide_eq_true.
    - apply bool_decide_eq_true. split; [done|lia].
    - apply bool_decide_eq_false. by intros [? _]. }
  unfold cs. cbn [find_last]. rewrite E1, E2, E3. cbn [snd].
  rewrite c_string_app, Hst, unbe16_be16 by done. unfold u16. case_decide.
  - cbn [andb]. by change (2 ^ 16) with 65536.
  - cbn [andb]. by rewrite bool_decide_false.
Qed.

End AlertsProperties.

Lemma features_are_registered_witness :
  length (w_features (@atlas_telemetry_features_init Z (sim_env [] []) (initial_world 0))) = 15%nat.
Proof. apply (@features_are_registered Z (sim_env [] []) (initial_world 0) eq_refl). Defined.

Lemma push_alert_request_witness :
  @sysinfo_push_alert_cb le_host Z (sim_env [] []) (B "client/telemetry/sysinfo/load1/alerts/push")
    (Some (encode [(513, [x00; x3c; x00])] ++ [])) 7 world_loads
  = Some (ATLAS_COAP_RESP_NOT_ACCEPTABLE_HERE, None, world_loads).
Proof.
  apply (@push_alert_request le_host Z (sim_env [] []) _ [(513, [x00; x3c; x00])] [] world_loads);
    [by apply (bool_decide_unpack _); vm_compute|done].
Defined.

Lemma threshold_request_crashes_witness :
  @atlas_threshold_alert_procs_cb le_host Z (sim_env [] []) (B "x")
    (Some (encode [(514, [x00; x0a])] ++ [])) 6 world_loads = None.
Proof.
  apply (@threshold_request_crashes le_host Z (sim_env [] []) (B "x") [(514, [x00; x0a])] [] world_loads).
  - by apply (bool_decide_unpack _); vm_compute.
  - done.
  - exists (514, [x00; x0a]). split; [by left|done].
  - intros c Hc. by apply list_elem_of_singleton in Hc as ->.
Defined.

Lemma threshold_is_truncated_witness :
  ∃ k, 0 < k ∧
  let cs := [(514, be16 10); (515, decimal 65537)] in
  k = zlen (encode cs) ∧
  @atlas_threshold_alert_procs_cb le_host Z (sim_env [] []) (B "x") (Some (encode cs)) k world_loads =
  (w ← @atlas_telemetry_threshold_set Z (sim_env [] []) ATLAS_SYSINFO_PROCS_PATH 10
         (with_procs_threshold 1 world_loads);
   Some (ATLAS_COAP_RESP_OK, None, w)).
Proof. by apply (@threshold_is_truncated le_host Z (sim_env [] []) (B "x") 10 65537 world_loads). Defined.
