(* ===== verification/Register.v ===== *)
(** * Registration and keep-alive ([register/atlas_register.c])

    The client registers to its gateway and then sends a keep-alive every 20
    seconds. Each keep-alive carries a fresh token, which the answer must give
    back; a counter says how many failures are left before the client registers
    again. *)

From stdpp Require Import gmap.
From S2P Require Import Prelude Protocol Command CString Scheduler State Config Identity Alarm.
From S2P Require Import CoapClient Request Connector TelemetryPayload Telemetry.

Definition ATLAS_CLIENT_REGISTER_TIMEOUT_MS : Z := 5000.
Definition ATLAS_CLIENT_KEEPALIVE_TIMEOUT_MS : Z := 20000.
Definition ATLAS_CLIENT_REGISTERED : Z := 1.
Definition ATLAS_CLIENT_NOT_REGISTERED : Z := 0.
Definition ATLAS_CLIENT_KEEPALIVE_COUNT : Z := 3.
Definition ATLAS_CLIENT_REGISTER_COAP_PATH : list byte := B "gateway/register".
Definition ATLAS_CLIENT_KEEPALIVE_COAP_PATH : list byte := B "gateway/keepalive".

Section Register.
Context `{Host, Env E}.
Implicit Types w : World E.

Definition set_registered (v : Z) w : World E :=
  let r := w_register w in
  with_register (mk_register v (ka_token r) (ka_count r) (ka_alarm_id r)) w.
Definition set_ka_token (v : Z) w : World E :=
  let r := w_register w in
  with_register (mk_register (registered r) v (ka_count r) (ka_alarm_id r)) w.
Definition set_ka_count (v : Z) w : World E :=
  let r := w_register w in
  with_register (mk_register (registered r) (ka_token r) v (ka_alarm_id r)) w.
Definition set_ka_alarm_id (v : Z) w : World E :=
  let r := w_register w in
  with_register (mk_register (registered r) (ka_token r) (ka_count r) v) w.

(** [char ipPort[ATLAS_IP_MAX_LEN+6] = { 0 }], filled in; its string is empty
    when the address cannot be read, and is sent all the same. *)
Definition local_ipPort w : option (list byte * World E) :=
  '(_, ipPort, w) ← atlas_cfg_get_local_ipPort (zeros (ATLAS_IP_MAX_LEN + 6)) w;
  s ← cstr_of ipPort;
  Some (s, w).

Definition send_keepalive_command w : option (World E) :=
  identity ← atlas_identity_get w;
  '(ipPort, w) ← local_ipPort w;
  let w := set_ka_token (u16 (ka_token (w_register w) + 1)) w in
  send_batch ATLAS_CLIENT_KEEPALIVE_COAP_PATH ATLAS_COAP_METHOD_PUT
    [(ATLAS_CMD_IDENTITY, identity);
     (ATLAS_CMD_KEEPALIVE, store16 (ka_token (w_register w)));
     (ATLAS_CMD_IP_PORT, ipPort)]
    ATLAS_CLIENT_REGISTER_TIMEOUT_MS CC_keepalive_callback w.

Definition send_register_command w : option (World E) :=
  identity ← atlas_identity_get w;
  '(ipPort, w) ← local_ipPort w;
  send_batch ATLAS_CLIENT_REGISTER_COAP_PATH ATLAS_COAP_METHOD_POST
    [(ATLAS_CMD_REGISTER, identity); (ATLAS_CMD_IP_PORT, ipPort)]
    ATLAS_CLIENT_REGISTER_TIMEOUT_MS CC_reg_callback w.

Definition keepalive_alarm_callback w : option (World E) := send_keepalive_command w.
Definition reg_alarm_callback w : option (World E) := send_register_command w.

(** The label [ERR] of [keepalive_callback]. *)
Definition keepalive_err w : option (World E) :=
  let w := set_ka_count (u8 (ka_count (w_register w) - 1)) w in
  if decide (ka_count (w_register w) = 0) then
    let w := set_registered ATLAS_CLIENT_NOT_REGISTERED w in
    let w := atlas_alarm_cancel (ka_alarm_id (w_register w)) w in
    send_register_command (set_ka_alarm_id (-1) w)
  else Some w.

Definition keepalive_callback (resp_status : atlas_coap_response_t)
    (resp_payload : option (list byte)) (resp_payload_len : Z) w : option (World E) :=
  if decide (resp_status ≠ ATLAS_COAP_RESP_OK) then
    keepalive_err
      (if decide (resp_status = ATLAS_COAP_RESP_NOT_FOUND ∨
                  resp_status = ATLAS_COAP_RESP_NOT_ACCEPTABLE_HERE)
       then set_ka_count 1 w else w)
  else match resp_payload with
  | None => keepalive_err w
  | Some resp_payload =>
      if decide (resp_payload_len < 2) then keepalive_err w else
      v ← mread resp_payload 0 2;
      if decide (ka_token (w_register w) ≠ load16 v) then keepalive_err w else
      Some (set_ka_count ATLAS_CLIENT_KEEPALIVE_COUNT w)
  end.

Definition reg_callback (resp_status : atlas_coap_response_t) w : option (World E) :=
  if decide (resp_status ≠ ATLAS_COAP_RESP_OK) then
    Some (atlas_alarm_set ATLAS_CLIENT_REGISTER_TIMEOUT_MS AC_reg_alarm_callback true w).2
  else
    w ← (if decide (registered (w_register w) = ATLAS_CLIENT_NOT_REGISTERED)
         then send_policy_command w else Some w);
    let w := set_registered ATLAS_CLIENT_REGISTERED w in
    w ← atlas_telemetry_push_all w;
    let '(id, w) := atlas_alarm_set ATLAS_CLIENT_KEEPALIVE_TIMEOUT_MS
                      AC_keepalive_alarm_callback false w in
    Some (set_ka_alarm_id id w).

Definition atlas_register_start w : option (World E) := send_register_command w.

End Register.

(** ** Lemmas *)

Section RegisterLemmas.
Context `{Host, Env E}.
Implicit Types w : World E.

(** The address of the client can be read, and is this string. *)
Definition local_address w (addr : list byte) : Prop :=
  ∃ fd e ip e' iface ib,
    sys_socket_inet (w_env w) = (fd, e) ∧ 0 ≤ fd ∧
    local_iface (w_cfg w) = Some ib ∧ cstr_in ib iface ∧
    sys_ifaddr fd (take 15 iface) e = (ip, e') ∧ nul_free ip ∧ zlen ip < 16 ∧
    0 ≤ local_port (w_cfg w) < 65536 ∧ addr = ip ++ B ":" ++ decimal (local_port (w_cfg w)).

(** What sending a command of this component relies on. *)
Definition can_send w (path id addr uri : list byte) : Prop :=
  atlas_identity_get w = Some id ∧ zlen id ≤ 64 ∧ local_address w addr ∧
  cfg_uri (w_cfg w) path = Some uri.

Lemma local_ipPort_ok w addr :
  local_address w addr →
  ∃ w1, local_ipPort w = Some (addr, w1) ∧ same_lists w w1 ∧ zlen addr < 22.
Proof.
  intros (fd & e & ip & e' & iface & ib & Hs & Hfd & Hif & Hib & Ha & Hn & Hl & Hp & ->).
  destruct (local_ipPort_eq w fd e ip e' iface ib) as (blk & Heq & Hc); [done..|].
  unfold local_ipPort. change (ATLAS_IP_MAX_LEN + 6) with 22. rewrite Heq. cbn [mbind option_bind].
  rewrite (cstr_of_in _ _ Hc). cbn [mbind option_bind].
  eexists. split; [done|]. split.
  - split_and!; try done. rewrite sent_emit. apply app_nil_r.
  - pose proof (decimal_port _ Hp). rewrite !zlen_app. change (zlen (B ":")) with 1. lia.
Qed.

Definition register_cmds (id addr : list byte) : list (Z * list byte) :=
  [(ATLAS_CMD_REGISTER, id); (ATLAS_CMD_IP_PORT, addr)].
Definition keepalive_cmds (token : Z) (id addr : list byte) : list (Z * list byte) :=
  [(ATLAS_CMD_IDENTITY, id); (ATLAS_CMD_KEEPALIVE, store16 token); (ATLAS_CMD_IP_PORT, addr)].

Lemma register_cmds_fits id addr :
  zlen id ≤ 64 → zlen addr < 22 → fits (register_cmds id addr).
Proof.
  intros Hi Ha. split_and!; [done| |].
  - repeat apply Forall_cons_2; [..|apply Forall_nil_2]; split; cbn [fst snd]; (done || lia).
  - unfold register_cmds. rewrite !encode_cons, encode_nil, !zlen_app, !zlen_encode_cmd.
    cbn [snd]. zlen_lia.
Qed.

Lemma keepalive_cmds_fits t id addr :
  zlen id ≤ 64 → zlen addr < 22 → fits (keepalive_cmds t id addr).
Proof.
  intros Hi Ha. split_and!; [done| |].
  - repeat apply Forall_cons_2; [..|apply Forall_nil_2]; split; cbn [fst snd];
      rewrite ?zlen_store16; (done || lia).
  - unfold keepalive_cmds. rewrite !encode_cons, encode_nil, !zlen_app, !zlen_encode_cmd.
    cbn [snd]. rewrite zlen_store16. zlen_lia.
Qed.

Lemma app_state_cfg w w' : app_state w' = app_state w → w_cfg w' = w_cfg w.
Proof. unfold app_state. intros Ha. by injection Ha. Qed.

Context `{!EnvLaws E}.

(** Exactly one request is made: the registration. *)
Lemma send_register_sends w id addr uri :
  can_send w ATLAS_CLIENT_REGISTER_COAP_PATH id addr uri →
  ∃ w', send_register_command w = Some w' ∧
    requested uri ATLAS_COAP_METHOD_POST (Some (encode (register_cmds id addr)))
      ATLAS_CLIENT_REGISTER_TIMEOUT_MS CC_reg_callback w w'.
Proof.
  intros (Hid & Hil & Haddr & Hu). unfold send_register_command. rewrite Hid.
  destruct (local_ipPort_ok w addr Haddr) as (w1 & -> & Hs & Hl). cbn [mbind option_bind].
  apply send_batch_sends; [by apply register_cmds_fits|done|].
  by rewrite (app_state_cfg w w1 (proj1 Hs)).
Qed.

Lemma send_keepalive_sends w id addr uri :
  can_send w ATLAS_CLIENT_KEEPALIVE_COAP_PATH id addr uri →
  ∃ w', send_keepalive_command w = Some w' ∧
    requested uri ATLAS_COAP_METHOD_PUT
      (Some (encode (keepalive_cmds (u16 (ka_token (w_register w) + 1)) id addr)))
      ATLAS_CLIENT_REGISTER_TIMEOUT_MS CC_keepalive_callback
      (set_ka_token (u16 (ka_token (w_register w) + 1)) w) w'.
Proof.
  intros (Hid & Hil & Haddr & Hu). unfold send_keepalive_command. rewrite Hid.
  destruct (local_ipPort_ok w addr Haddr) as (w1 & -> & Hs & Hl). cbn [mbind option_bind].
  pose proof Hs as (Ha & Hrest). rewrite (app_state_register w w1 Ha).
  set (t := u16 (ka_token (w_register w) + 1)). change (ka_token (w_register (set_ka_token t w1))) with t.
  apply send_batch_sends; [by apply keepalive_cmds_fits| |by cbn; rewrite (app_state_cfg w w1)].
  split; [|exact Hrest]. unfold app_state in *. unfold set_ka_token. wsimpl.
  by injection Ha as -> -> -> -> -> -> -> -> ->.
Qed.

End RegisterLemmas.

Section KeepaliveLemmas.
Context `{Host, Env E, !EnvLaws E}.
Implicit Types w : World E.

(** The answer to a keep-alive gives the token back. *)
Definition gives_back (token : Z) (st : atlas_coap_response_t) (pl : option (list byte)) (n : Z)
    : Prop :=
  st = ATLAS_COAP_RESP_OK ∧ 2 ≤ n ∧ ∃ rest, pl = Some (store16 token ++ rest).

(** The failures left, once the status of the answer is taken into account. *)
Definition failures_left (st : atlas_coap_response_t) w : Z :=
  if decide (st = ATLAS_COAP_RESP_NOT_FOUND ∨ st = ATLAS_COAP_RESP_NOT_ACCEPTABLE_HERE)
  then 1 else ka_count (w_register w).

(** The state in which the client registers again. *)
Definition unregistered w : World E :=
  set_ka_alarm_id (-1) (atlas_alarm_cancel (ka_alarm_id (w_register w))
    (set_registered ATLAS_CLIENT_NOT_REGISTERED (set_ka_count 0 w))).

Lemma unregistered_register w :
  w_register (unregistered w) = mk_register 0 (ka_token (w_register w)) 0 (-1).
Proof.
  unfold unregistered, set_ka_alarm_id.
  match goal with |- context [atlas_alarm_cancel ?i ?x] =>
    destruct (alarm_cancel_frame i x) as (_ & _ & _ & _ & _ & _ & _ & Hr & _) end.
  wsimpl. by rewrite Hr.
Qed.

Lemma unregistered_count c w : unregistered (set_ka_count c w) = unregistered w.
Proof. done. Qed.

Lemma set_ka_count_twice a b w : set_ka_count a (set_ka_count b w) = set_ka_count a w.
Proof. done. Qed.

Lemma set_ka_count_same w : set_ka_count (ka_count (w_register w)) w = w.
Proof. destruct w as [? ? ? ? ? ? ? ? ? ? ? [] ? ? ? ?]. done. Qed.

Lemma keepalive_err_eq w :
  0 ≤ ka_count (w_register w) < 256 →
  keepalive_err w =
  if decide (ka_count (w_register w) = 1) then send_register_command (unregistered w)
  else Some (set_ka_count (u8 (ka_count (w_register w) - 1)) w).
Proof.
  intros Hc. unfold keepalive_err. cbn [w_register set_ka_count with_register ka_count].
  unfold u8. case_decide as H1; case_decide as H2; try done.
  - by rewrite H2.
  - exfalso. mlia.
  - exfalso. by rewrite H2 in H1.
Qed.

Lemma keepalive_fails st pl n w :
  (∀ p, pl = Some p → n ≤ zlen p) →
  ¬ gives_back (ka_token (w_register w)) st pl n → 0 ≤ ka_token (w_register w) < 65536 →
  keepalive_callback st pl n w = keepalive_err (set_ka_count (failures_left st w) w).
Proof.
  intros Hpl Hno Ht. unfold keepalive_callback, failures_left. case_decide as Hst.
  { case_decide; [done|]. by rewrite set_ka_count_same. }
  subst st. rewrite decide_False by (by intros [|]).
  rewrite set_ka_count_same. destruct pl as [p|]; [|done]. specialize (Hpl p eq_refl).
  case_decide as Hn; [done|].
  destruct p as [|b1 [|b2 rest]]; [change (zlen []) with 0 in Hpl; lia|change (zlen [b1]) with 1 in Hpl; lia|].
  change (b1 :: b2 :: rest) with ([b1; b2] ++ rest). rewrite mread_head by done.
  cbn [mbind option_bind]. case_decide as Hl; [done|]. exfalso. apply Hno.
  split_and!; [done|lia|]. exists rest. rewrite Hl.
  by rewrite store16_load16.
Qed.

(** Timeouts in a row. *)
Fixpoint keepalive_timeouts (n : nat) w : option (World E) :=
  match n with
  | O => Some w
  | S n => w ← keepalive_callback ATLAS_COAP_RESP_TIMEOUT None 0 w; keepalive_timeouts n w
  end.

Lemma keepalive_timeout_eq w :
  0 ≤ ka_count (w_register w) < 256 →
  keepalive_callback ATLAS_COAP_RESP_TIMEOUT None 0 w =
  if decide (ka_count (w_register w) = 1) then send_register_command (unregistered w)
  else Some (set_ka_count (u8 (ka_count (w_register w) - 1)) w).
Proof.
  intros Hc. unfold keepalive_callback. rewrite decide_True by done.
  rewrite decide_False by (by intros [|]). by apply keepalive_err_eq.
Qed.

(** [k] failures away from the next registration: a count of 0 wraps first. *)
Definition until_registration w : nat :=
  if decide (ka_count (w_register w) = 0) then 256 else Z.to_nat (ka_count (w_register w)).

Lemma timeouts_eq n w :
  0 ≤ ka_count (w_register w) < 256 →
  ((n < until_registration w)%nat →
     keepalive_timeouts n w = Some (set_ka_count (u8 (ka_count (w_register w) - Z.of_nat n)) w)) ∧
  (n = until_registration w → keepalive_timeouts n w = send_register_command (unregistered w)).
Proof.
  revert w. induction n as [|n IH]; intros w Hc; cbn [keepalive_timeouts].
  - split; [|unfold until_registration; case_decide; lia]. intros _. f_equal.
    replace (u8 (ka_count (w_register w) - Z.of_nat 0)) with (ka_count (w_register w))
      by (unfold u8; mlia). by rewrite set_ka_count_same.
  - rewrite keepalive_timeout_eq by done. unfold until_registration in *.
    destruct (decide (ka_count (w_register w) = 1)) as [H1|H1].
    { rewrite H1. rewrite (decide_False (P := 1 = 0)) by done.
      change (Z.to_nat 1) with 1%nat. split; [intros; lia|].
      intros [= ->]. cbn [keepalive_timeouts]. by destruct (send_register_command _). }
    cbn [mbind option_bind].
    destruct (IH (set_ka_count (u8 (ka_count (w_register w) - 1)) w)) as [IH1 IH2];
      [cbn; unfold u8; mlia|].
    cbn [w_register set_ka_count with_register ka_count] in *.
    assert (Hk : (if decide (u8 (ka_count (w_register w) - 1) = 0) then 256%nat
              else Z.to_nat (u8 (ka_count (w_register w) - 1))) =
             (pred (if decide (ka_count (w_register w) = 0%Z) then 256%nat
              else Z.to_nat (ka_count (w_register w))))%nat).
    { unfold u8. repeat case_decide; try mlia. }
    rewrite Hk in *. split.
    + intros Hn. rewrite IH1 by lia. rewrite set_ka_count_twice. do 2 f_equal. unfold u8. mlia.
    + intros Hn. rewrite IH2 by lia. by rewrite unregistered_count.
Qed.

End KeepaliveLemmas.

Section RegLemmas.
Context `{Host, Env E, !KernelLaws E, !EnvLaws E}.
Implicit Types w : World E.

Lemma policy_cmds_fits c : fits (policy_cmds c).
Proof.
  split_and!; [done| |].
  - repeat (apply Forall_cons_2; [by apply wf_store16|]). apply Forall_nil_2.
  - unfold policy_cmds. rewrite !encode_cons, encode_nil, !zlen_app, !zlen_encode_cmd. cbn [snd].
    by rewrite !zlen_store16.
Qed.

Lemma send_policy_spec w uri :
  cfg_uri (w_cfg w) ATLAS_CLIENT_POLICY_COAP_PATH = Some uri →
  ∃ w', send_policy_command w = Some w' ∧
    (active_policy (w_connector w) ≠ 1 → w' = w) ∧
    (active_policy (w_connector w) = 1 →
     requested uri ATLAS_COAP_METHOD_PUT (Some (encode (policy_cmds (w_connector w))))
       ATLAS_CLIENT_POLICY_TIMEOUT_MS CC_policy_callback w w').
Proof.
  intros Hu. unfold send_policy_command, ATLAS_CLIENT_POLICY_ACTIVE. case_decide as Ha.
  - exists w. split_and!; [done|done|]. intros. done.
  - destruct (send_batch_sends ATLAS_CLIENT_POLICY_COAP_PATH ATLAS_COAP_METHOD_PUT
      (policy_cmds (w_connector w)) ATLAS_CLIENT_POLICY_TIMEOUT_MS CC_policy_callback w w uri)
      as (w' & Hw & Hr); [apply policy_cmds_fits|done|done|].
    exists w'. by split_and!.
Qed.

(** What is sent first when the gateway accepts the registration. *)
Definition policy_sent w (uri : list byte) w' : Prop :=
  if decide (registered (w_register w) = 0 ∧ active_policy (w_connector w) = 1)
  then requested uri ATLAS_COAP_METHOD_PUT (Some (encode (policy_cmds (w_connector w))))
         ATLAS_CLIENT_POLICY_TIMEOUT_MS CC_policy_callback w w'
  else w' = w.

Lemma policy_phase w uri :
  cfg_uri (w_cfg w) ATLAS_CLIENT_POLICY_COAP_PATH = Some uri →
  ∃ w', (if decide (registered (w_register w) = ATLAS_CLIENT_NOT_REGISTERED)
         then send_policy_command w else Some w) = Some w' ∧
    policy_sent w uri w' ∧ app_state w' = app_state w.
Proof.
  intros Hu. unfold policy_sent, ATLAS_CLIENT_NOT_REGISTERED. case_decide as Hr.
  - destruct (send_policy_spec w uri Hu) as (w' & -> & Hno & Hyes). exists w'.
    destruct (decide (active_policy (w_connector w) = 1)) as [Ha|Ha].
    + rewrite decide_True by done. specialize (Hyes Ha). split_and!; [done|done|apply Hyes].
    + rewrite decide_False by tauto. specialize (Hno Ha) as ->. done.
  - exists w. rewrite decide_False by tauto. done.
Qed.

End RegLemmas.

(** ** Properties *)

Section RegisterProperties.
Context `{Host, Env E, !KernelLaws E, !EnvLaws E}.
Implicit Types w : World E.

(** C19. What the answer to a keep-alive does. The answer that is OK and gives
    the token back sets the counter to 3. Any other answer takes one off the
    counter, which a 404 or a 406 has first set to 1, and which wraps from 0 to
    255; when the counter reaches 0 the client is no longer registered, its
    keep-alive alarm is cancelled, and exactly one request is made, the
    registration, which is sent when the network works. *)
Theorem keepalive_outcome st pl n w :
  (∀ p, pl = Some p → n ≤ zlen p) → 0 ≤ ka_token (w_register w) < 65536 →
  0 ≤ ka_count (w_register w) < 256 →
  (gives_back (ka_token (w_register w)) st pl n →
     keepalive_callback st pl n w = Some (set_ka_count 3 w)) ∧
  (¬ gives_back (ka_token (w_register w)) st pl n →
     (failures_left st w ≠ 1 →
        keepalive_callback st pl n w = Some (set_ka_count (u8 (failures_left st w - 1)) w)) ∧
     (failures_left st w = 1 → ∀ id addr uri,
        can_send (unregistered w) ATLAS_CLIENT_REGISTER_COAP_PATH id addr uri →
        ∃ w', keepalive_callback st pl n w = Some w' ∧
          w_register w' = mk_register 0 (ka_token (w_register w)) 0 (-1) ∧
          requested uri ATLAS_COAP_METHOD_POST (Some (encode (register_cmds id addr)))
            ATLAS_CLIENT_REGISTER_TIMEOUT_MS CC_reg_callback (unregistered w) w')).
Proof.
  intros Hpl Ht Hc. split.
  - intros (-> & Hn & rest & ->). unfold keepalive_callback. rewrite decide_False by tauto.
    rewrite decide_False by lia. rewrite mread_head by (by rewrite zlen_store16).
    cbn [mbind option_bind]. rewrite load16_store16 by done. by rewrite decide_False by tauto.
  - intros Hno. rewrite keepalive_fails by done.
    assert (0 ≤ failures_left st w < 256) as Hf by (unfold failures_left; case_decide; lia).
    rewrite keepalive_err_eq by done. cbn [w_register set_ka_count with_register ka_count]. split.
    + intros H1. by rewrite decide_False by done.
    + intros H1 id addr uri Hs. rewrite decide_True, unregistered_count by done.
      destruct (send_register_sends _ id addr uri Hs) as (w' & Hw & Hr).
      exists w'. split_and!; [done| |done].
      rewrite (app_state_register _ _ (proj1 Hr)). apply unregistered_register.
Qed.

(** C18. A client whose counter is [c] registers again after exactly [c]
    timeouts in a row, three after a keep-alive that succeeded. The counter is
    0 after the start and after every registration, as nothing sets it before
    the first keep-alive succeeds: then it takes 256 timeouts. The registration
    is the one request that is made, and it is sent when the network works. *)
Theorem timeouts_until_registration w id addr uri :
  0 ≤ ka_count (w_register w) < 256 →
  can_send (unregistered w) ATLAS_CLIENT_REGISTER_COAP_PATH id addr uri →
  let k := if decide (ka_count (w_register w) = 0) then 256%nat
           else Z.to_nat (ka_count (w_register w)) in
  (∀ n, (n < k)%nat →
     keepalive_timeouts n w = Some (set_ka_count (u8 (ka_count (w_register w) - Z.of_nat n)) w)) ∧
  (∃ w', keepalive_timeouts k w = Some w' ∧
     w_register w' = mk_register 0 (ka_token (w_register w)) 0 (-1) ∧
     requested uri ATLAS_COAP_METHOD_POST (Some (encode (register_cmds id addr)))
       ATLAS_CLIENT_REGISTER_TIMEOUT_MS CC_reg_callback (unregistered w) w').
Proof.
  intros Hc Hs k. split; [intros n Hn; by apply timeouts_eq|].
  destruct (send_register_sends _ id addr uri Hs) as (w' & Hw & Hr).
  exists w'. split_and!; [rewrite (proj2 (timeouts_eq k w Hc)); done| |done].
  rewrite (app_state_register _ _ (proj1 Hr)). apply unregistered_register.
Qed.

(** C26. When the gateway refuses the registration, or does not answer, the
    client only sets an alarm to register again in 5 seconds. When it accepts,
    a client that was not registered requests its active policy to be stored,
    in one request; then the client is registered, pushes its features, one
    request for each when their sources and the network work, and sets the
    periodic keep-alive alarm of 20 seconds; the counter of failures stays as
    it was. *)
Theorem registration_outcome w uri :
  telemetry_ok w → cfg_uri (w_cfg w) ATLAS_CLIENT_POLICY_COAP_PATH = Some uri →
  (∀ st, st ≠ ATLAS_COAP_RESP_OK →
     reg_callback st w = Some (atlas_alarm_set 5000 AC_reg_alarm_callback true w).2) ∧
  (∃ w1 w2 id w3,
     policy_sent w uri w1 ∧
     pushed (omap (λ p, cfg_uri (w_cfg w) (tl_uri_path p)) (w_features w)) (set_registered 1 w1) w2 ∧
     atlas_alarm_set 20000 AC_keepalive_alarm_callback false w2 = (id, w3) ∧
     reg_callback ATLAS_COAP_RESP_OK w = Some (set_ka_alarm_id id w3) ∧
     w_register (set_ka_alarm_id id w3) =
       mk_register 1 (ka_token (w_register w)) (ka_count (w_register w)) id).
Proof.
  intros Hok Hu. split; [intros st Hst; unfold reg_callback; by rewrite decide_True|].
  destruct (policy_phase w uri Hu) as (w1 & Hp & Hsent & Ha).
  assert (Hok1 : telemetry_ok (set_registered 1 w1))
    by (exact (telemetry_ok_app w w1 Ha Hok)).
  assert (w_cfg w1 = w_cfg w) as Hcfg by (by apply app_state_cfg).
  assert (w_features w1 = w_features w) as Hf by (by apply app_state_features).
  destruct (push_features_spec (w_features w1) (set_registered 1 w1) Hok1) as (w2 & Hw2 & Hpush & _).
  { by destruct Hok1 as (_ & _ & _ & ?). }
  destruct (atlas_alarm_set 20000 AC_keepalive_alarm_callback false w2) as [id w3] eqn:Hset.
  exists w1, w2, id, w3. cbn [w_cfg set_registered with_register] in Hpush. rewrite Hcfg, Hf in Hpush.
  split_and!; [done|done|done| |].
  - unfold reg_callback. rewrite decide_False, Hp by tauto. cbn [mbind option_bind].
    unfold atlas_telemetry_push_all. cbn [w_features set_registered with_register] in *.
    unfold ATLAS_CLIENT_REGISTERED, ATLAS_CLIENT_KEEPALIVE_TIMEOUT_MS.
    rewrite Hw2. cbn [mbind option_bind]. by rewrite Hset.
  - pose proof (alarm_set_frame 20000 AC_keepalive_alarm_callback false w2) as Hfr.
    rewrite Hset in Hfr. destruct Hfr as (_ & _ & _ & _ & _ & _ & _ & Hr & _).
    destruct Hpush as (_ & Hr2 & _). unfold set_ka_alarm_id. wsimpl. cbn [snd] in Hr.
    rewrite Hr, Hr2. unfold set_registered. wsimpl.
    by rewrite (app_state_register w w1 Ha).
Qed.

(** C27. A keep-alive makes one PUT request, which carries the identity,
    a token that is one more than the last one modulo 65536, in the byte order
    of the host, and the address; the answer that gives those two bytes back
    is the success of the keep-alive, and no answer with another token is. *)
Theorem keepalive_token_echo w id addr uri :
  can_send w ATLAS_CLIENT_KEEPALIVE_COAP_PATH id addr uri → 0 ≤ ka_token (w_register w) < 65536 →
  let t := (ka_token (w_register w) + 1) mod 65536 in
  ∃ w', send_keepalive_command w = Some w' ∧
    requested uri ATLAS_COAP_METHOD_PUT
      (Some (encode [(ATLAS_CMD_IDENTITY, id); (ATLAS_CMD_KEEPALIVE, store16 t);
                     (ATLAS_CMD_IP_PORT, addr)]))
      ATLAS_CLIENT_REGISTER_TIMEOUT_MS CC_keepalive_callback (set_ka_token t w) w' ∧
    ∀ t' rest, 0 ≤ t' < 65536 →
      keepalive_callback ATLAS_COAP_RESP_OK (Some (store16 t' ++ rest)) (2 + zlen rest) w' =
      if decide (t' = t) then Some (set_ka_count 3 w') else keepalive_err w'.
Proof.
  intros Hs Ht t. destruct (send_keepalive_sends w id addr uri Hs) as (w' & Hw & Hr).
  exists w'. split_and!; [done|exact Hr|]. intros t' rest Ht'. unfold keepalive_callback.
  rewrite decide_False by tauto. pose proof (zlen_nonneg rest). rewrite decide_False by lia.
  rewrite mread_head by (by rewrite zlen_store16). cbn [mbind option_bind].
  rewrite load16_store16 by done. rewrite (app_state_register _ _ (proj1 Hr)).
  unfold set_ka_token. wsimpl. change (u16 (ka_token (w_register w) + 1)) with t.
  by repeat case_decide.
Qed.

End RegisterProperties.

(** A configured client can send. *)
Lemma world_id_can_send (w : World Z) path uri :
  w_cfg w = w_cfg world_id → w_id w = w_id world_id → 0 ≤ w_env w →
  cfg_uri (w_cfg world_id) path = Some uri →
  @can_send Z (sim_env [] []) w path (B "dev") (B "10.0.0.2:5683") uri.
Proof.
  intros Hc Hi He Hu. unfold can_send, atlas_identity_get. rewrite Hc, Hi. split_and!; [done|done| |done].
  exists (w_env w), (w_env w + 1), (B "10.0.0.2"), (w_env w + 1), (B "eth0"), (B "eth0" ++ [x00]).
  rewrite Hc. split_and!;
    first [done|apply (bool_decide_unpack _); by vm_compute|idtac].
  split; [by apply (bool_decide_unpack _); vm_compute|by exists []].
Qed.

(** A client that has just registered, with its keep-alive alarm, as 22. *)
Definition world_registered (count : Z) : World Z :=
  with_alarms [mk_alarm 0 22 AC_keepalive_alarm_callback false]
    (with_register (mk_register 1 7 count 22) world_id).

Lemma keepalive_outcome_witness :
  @keepalive_callback le_host Z (sim_env [] []) ATLAS_COAP_RESP_OK (Some [x07; x00]) 2
    (world_registered 1) = Some (set_ka_count 3 (world_registered 1)) ∧
  (∃ w', @keepalive_callback le_host Z (sim_env [] []) ATLAS_COAP_RESP_NOT_FOUND None 0
      (world_registered 200) = Some w' ∧ w_register w' = mk_register 0 7 0 (-1) ∧
      length (sent w') = 1%nat) ∧
  @keepalive_callback le_host Z (sim_env [] []) ATLAS_COAP_RESP_TIMEOUT None 0
    (world_registered 0) = Some (set_ka_count 255 (world_registered 0)).
Proof.
  split_and!.
  - refine (proj1 (@keepalive_outcome le_host Z (sim_env [] []) _ ATLAS_COAP_RESP_OK
      (Some [x07; x00]) 2 (world_registered 1) ltac:(by intros p [= <-]) ltac:(done) ltac:(done)) _).
    split_and!; [done|done|by exists []].
  - destruct (proj2 (proj2 (@keepalive_outcome le_host Z (sim_env [] []) _ ATLAS_COAP_RESP_NOT_FOUND
      None 0 (world_registered 200) ltac:(done) ltac:(done) ltac:(done)) ltac:(by intros [])) eq_refl
      (B "dev") (B "10.0.0.2:5683") (B "coaps://gw:5684/gateway/register")) as (w' & Hw & Hr & Hq);
      [by apply world_id_can_send|]. exists w'. split; [exact Hw|]. split; [exact Hr|].
    apply requested_sent in Hq as (u & s & tid & _ & -> & _); [by vm_compute|apply sim_network_works].
  - refine (proj1 (proj2 (@keepalive_outcome le_host Z (sim_env [] []) _ ATLAS_COAP_RESP_TIMEOUT
      None 0 (world_registered 0) ltac:(done) ltac:(done) ltac:(done)) ltac:(by intros [])) _). done.
Defined.

Lemma timeouts_until_registration_witness :
  (∃ w', @keepalive_timeouts le_host Z (sim_env [] []) 3 (world_registered 3) = Some w' ∧
     registered (w_register w') = 0 ∧ length (sent w') = 1%nat) ∧
  @keepalive_timeouts le_host Z (sim_env [] []) 255 (world_registered 0) =
    Some (set_ka_count 1 (world_registered 0)).
Proof.
  split.
  - destruct (proj2 (@timeouts_until_registration le_host Z (sim_env [] []) _ (world_registered 3)
      (B "dev") (B "10.0.0.2:5683") (B "coaps://gw:5684/gateway/register") ltac:(done)
      ltac:(by apply world_id_can_send))) as (w' & Hw & Hr & Hq).
    exists w'. split; [exact Hw|]. split; [by rewrite Hr|].
    apply requested_sent in Hq as (u & s & tid & _ & -> & _); [by vm_compute|apply sim_network_works].
  - refine (proj1 (@timeouts_until_registration le_host Z (sim_env [] []) _ (world_registered 0)
      (B "dev") (B "10.0.0.2:5683") (B "coaps://gw:5684/gateway/register") ltac:(done)
      ltac:(by apply world_id_can_send)) 255%nat _).
    cbn [ka_count w_register world_registered with_alarms with_register].
    rewrite decide_True by done. lia.
Defined.

(** A client with a policy of its data plane and two features. *)
Definition world_policy : World Z :=
  with_connector (mk_connector 7 1 200 4096 1 10 20) world_loads.

Lemma registration_outcome_witness :
  ∃ id w3, @reg_callback le_host Z (sim_env (B "iot") []) ATLAS_COAP_RESP_OK world_policy =
      Some (set_ka_alarm_id id w3) ∧
    w_register (set_ka_alarm_id id w3) = mk_register 1 0 0 id ∧
    ∃ w1 (w2 : World Z), @policy_sent le_host Z (sim_env (B "iot") []) world_policy
        (B "coaps://gw:5684/gateway/policy") w1 ∧
      length (sent w1) = 1%nat ∧ length (w_reqs w2) = 3%nat.
Proof.
  destruct (proj2 (@registration_outcome le_host Z (sim_env (B "iot") []) _ _ world_policy
    (B "coaps://gw:5684/gateway/policy") ltac:(split_and!;
      [by exists (B "dev")|done..|by apply (bool_decide_unpack _); vm_compute]) ltac:(done)))
    as (w1 & w2 & id & w3 & Hp & Hpush & _ & Hw & Hr).
  exists id, w3. split; [exact Hw|]. split; [exact Hr|]. exists w1, w2. split; [exact Hp|].
  unfold policy_sent in Hp.
  destruct (decide _) as [_|Hno] in Hp; [|exfalso; apply Hno; by split].
  apply requested_sent in Hp as (u & s & tid & _ & Hs & Hq); [|apply sim_network_works].
  split; [by rewrite Hs; vm_compute|].
  destruct Hpush as (_ & _ & _ & rs & ps & Hrs & _ & _ & _ & _ & _ & Hall).
  specialize (Hall (Z.neq_succ_diag_l 0) (sim_sources_work _ _ _)
    ltac:(apply list.Forall_true; intros; apply sim_network_works)).
  apply (f_equal length) in Hq, Hall. rewrite !length_fmap in Hall. rewrite !length_app, !length_fmap in Hq.
  rewrite Hrs, length_app. cbn [w_reqs set_registered with_register]. rewrite Hq, Hall. by vm_compute.
Defined.

Lemma keepalive_token_echo_witness :
  ∃ w', @send_keepalive_command le_host Z (sim_env [] []) (world_registered 3) = Some w' ∧
    @keepalive_callback le_host Z (sim_env [] []) ATLAS_COAP_RESP_OK (Some [x08; x00]) 2 w' =
    Some (set_ka_count 3 w').
Proof.
  destruct (@keepalive_token_echo le_host Z (sim_env [] []) _ (world_registered 3)
    (B "dev") (B "10.0.0.2:5683") (B "coaps://gw:5684/gateway/keepalive")
    ltac:(by apply world_id_can_send) ltac:(done)) as (w' & Hw & _ & He).
  exists w'. split; [exact Hw|]. specialize (He 8 [] ltac:(lia)). rewrite decide_True in He by (by vm_compute).
  exact He.
Defined.
