(* ===== verification/CommandExecute.v ===== *)
(** * Approved commands ([commands_execute/atlas_command_execute*.c])

    The gateway sends the commands an administrator has approved. A command is
    not executed in the callback of the end-point but 10 ms later, by an alarm,
    so that the answer is sent first; the flag [cmdInProgress] defers what
    arrives meanwhile, and is never reset. *)

From stdpp Require Import gmap.
From S2P Require Import Prelude Protocol Command CString Scheduler State Alarm CoapServer.

Definition ATLAS_COMMAND_EXECUTE_PATH : list byte := B "client/approved/command/push".
Definition ATLAS_CLIENT_COMMAND_EXECUTE_TIMEOUT_MS : Z := 10.

Section CommandExecute.
Context `{Host, Env E}.
Implicit Types w : World E.

Definition atlas_command_execute_shutdown w : World E := emit (EvSystem (B "systemctl poweroff")) w.
Definition atlas_command_execute_restart w : World E := emit (EvSystem (B "systemctl reboot")) w.

Definition command_execution_shutdown_alarm_callback w : World E :=
  atlas_command_execute_shutdown w.
Definition command_execution_restart_alarm_callback w : World E :=
  atlas_command_execute_restart w.

(** A branch of the [switch]: the alarm, and the flag when it could be set. *)
Definition schedule_command (cb : alarm_cb) w : World E :=
  let '(id, w) := atlas_alarm_set ATLAS_CLIENT_COMMAND_EXECUTE_TIMEOUT_MS cb true w in
  if decide (id < 0) then w else with_cmdInProgress true w.

Definition command_execution_body (cmd : atlas_cmd_t) w : option (World E * bool) :=
  Some (if decide (cmd_type cmd = ATLAS_CMD_DEVICE_RESTART)
        then schedule_command AC_command_execution_restart w
        else if decide (cmd_type cmd = ATLAS_CMD_DEVICE_SHUTDOWN)
        then schedule_command AC_command_execution_shutdown w
        else w, false).

Definition atlas_alert_command_execution_parse (buf : option (list byte)) (buf_len : Z) w
    : option (atlas_status_t * World E) :=
  if w_cmdInProgress w then Some (ATLAS_DEFERRED_COMMAND_EXECUTION, w) else
  match buf with
  | None => Some (ATLAS_INVALID_INPUT, w)
  | Some _ =>
      if decide (buf_len = 0) then Some (ATLAS_INVALID_INPUT, w) else
      '(status, cmd_batch) ← atlas_cmd_batch_set_raw atlas_cmd_batch_new buf buf_len;
      if decide (status = ATLAS_OK) then
        w ← cmd_foreach cmd_batch command_execution_body w;
        Some (status, w)
      else Some (ATLAS_CORRUPTED_COMMAND_EXECUTION_PAYLOAD, w)
  end.

Definition atlas_execute_command_cb (uri_path : list byte) (req_payload : option (list byte))
    (req_payload_len : Z) w : option (atlas_coap_response_t * option (list byte) * World E) :=
  '(status, w) ← atlas_alert_command_execution_parse req_payload (u16 req_payload_len) w;
  if decide (status = ATLAS_OK) then Some (ATLAS_COAP_RESP_OK, None, w)
  else if decide (status = ATLAS_DEFERRED_COMMAND_EXECUTION)
  then Some (ATLAS_COAP_RESP_UNKNOWN, None, w)
  else Some (ATLAS_COAP_RESP_NOT_ACCEPTABLE_HERE, None, w).

Definition atlas_command_execute_init w : bool * World E :=
  let '(status, w) := atlas_coap_server_add_resource (Some ATLAS_COMMAND_EXECUTE_PATH)
                        ATLAS_COAP_METHOD_PUT (Some SV_execute_command_cb) w in
  (bool_decide (status = ATLAS_OK), w).

End CommandExecute.

(** ** Lemmas *)

Section ExecuteLemmas.
Context `{Host, Env E}.
Implicit Types w : World E.

(** The alarm that executes a command, if it is one. *)
Definition command_alarm (c : Z * list byte) : option alarm_cb :=
  if decide (c.1 = ATLAS_CMD_DEVICE_RESTART) then Some AC_command_execution_restart
  else if decide (c.1 = ATLAS_CMD_DEVICE_SHUTDOWN) then Some AC_command_execution_shutdown
  else None.

(** Some of the commands were scheduled, in order. *)
Definition scheduled (cbs : list alarm_cb) w w' : Prop :=
  w_reqs w' = w_reqs w ∧ sched_ext (w_sched w) (w_sched w') ∧
  ∃ l, w_alarms w' = w_alarms w ++ l ∧ (al_callback <$> l) `sublist_of` cbs ∧
    Forall (λ a, run_once a = true) l ∧
    (w_cmdInProgress w' = true ↔ w_cmdInProgress w = true ∨ ∃ a, a ∈ l ∧ 0 ≤ alarm_id a).

Lemma scheduled_trans cs ds w1 w2 w3 :
  scheduled cs w1 w2 → scheduled ds w2 w3 → scheduled (cs ++ ds) w1 w3.
Proof.
  intros (Hr & Hs & l & Hl & Hc & Ho & Hf) (Hr' & Hs' & l' & Hl' & Hc' & Ho' & Hf').
  split_and!; [congruence|by etrans|]. exists (l ++ l').
  rewrite Hl', Hl, fmap_app, app_assoc. split_and!; [done|by apply sublist_app|by apply Forall_app_2|].
  rewrite Hf', Hf. setoid_rewrite elem_of_app. naive_solver.
Qed.

Lemma scheduled_none cs w : scheduled cs w w.
Proof.
  split_and!; [done|reflexivity|]. exists []. rewrite app_nil_r.
  split_and!; [done|apply sublist_nil_l|apply Forall_nil_2|]. set_solver.
Qed.

Lemma schedule_command_spec cb w : scheduled [cb] w (schedule_command cb w).
Proof.
  unfold schedule_command.
  destruct (alarm_set_cases ATLAS_CLIENT_COMMAND_EXECUTE_TIMEOUT_MS cb true w)
    as [e| |fd e1 rc e2 Hc Hfd Hrc].
  - rewrite decide_True by done. exact (scheduled_none [cb] w).
  - rewrite decide_True by done. exact (scheduled_none [cb] w).
  - set (a := mk_alarm (w_brk w) fd cb true).
    case_decide as Hlt; (split_and!; [done|apply sched_ext_add|]; exists [a]; wsimpl;
      split_and!; [done|done|by apply Forall_cons_2; [|apply Forall_nil_2]|]).
    + split; [by left|]. intros [?|(b & ->%list_elem_of_singleton & Hb)]; [done|]. cbn in Hb. lia.
    + split; [|done]. intros _. right. exists a. split; [by left|]. cbn. lia.
Qed.

(** With working timers the alarm is always set. *)
Lemma schedule_command_works cb w :
  timers_work → ∃ a, w_alarms (schedule_command cb w) = w_alarms w ++ [a] ∧ al_callback a = cb.
Proof.
  intros Hw. unfold schedule_command.
  destruct (alarm_set_works ATLAS_CLIENT_COMMAND_EXECUTE_TIMEOUT_MS cb true w Hw) as (Hid & a & Ha & Hcb).
  destruct (atlas_alarm_set _ _ _ w) as [id w']. cbn [fst snd] in *. rewrite decide_False by lia.
  by exists a.
Qed.

Lemma command_body_view t v post w :
  command_execution_body (mk_cmd t (zlen v) (v ++ post)) w =
  Some (match command_alarm (t, v) with Some cb => schedule_command cb w | None => w end, false).
Proof.
  unfold command_execution_body, command_alarm. cbn [cmd_type fst].
  case_decide; [done|]. by case_decide.
Qed.

Lemma fold_commands cs w :
  ∃ w', fold_views command_execution_body (views cs) w = Some w' ∧
    scheduled (omap command_alarm cs) w w' ∧
    (timers_work → ∃ l, w_alarms w' = w_alarms w ++ l ∧ al_callback <$> l = omap command_alarm cs).
Proof.
  revert w. induction cs as [|[t v] cs IH]; intros w; cbn [views fold_views].
  { exists w. split_and!; [done|apply scheduled_none|]. intros _. exists []. by rewrite app_nil_r. }
  cbn [fst snd]. rewrite command_body_view. cbn [mbind option_bind].
  assert (omap command_alarm ((t, v) :: cs) =
          option_list (command_alarm (t, v)) ++ omap command_alarm cs) as Hcs
    by (csimpl; by destruct (command_alarm (t, v))).
  rewrite Hcs.
  assert (∀ cb, ∃ w', fold_views command_execution_body (views cs) (schedule_command cb w) = Some w' ∧
    scheduled ([cb] ++ omap command_alarm cs) w w' ∧
    (timers_work → ∃ l, w_alarms w' = w_alarms w ++ l ∧
       al_callback <$> l = [cb] ++ omap command_alarm cs)) as Hstep.
  { intros cb. destruct (IH (schedule_command cb w)) as (w' & Hw & Hs & Ht). exists w'.
    split_and!; [done| |].
    - eapply scheduled_trans; [apply schedule_command_spec|done].
    - intros Hwork. destruct (schedule_command_works cb w Hwork) as (a & Ha & Hcb).
      destruct (Ht Hwork) as (l & Hl & Hm). exists (a :: l). rewrite Hl, Ha, <- app_assoc.
      split; [done|]. cbn. by rewrite Hcb, Hm. }
  destruct (command_alarm (t, v)) as [cb|]; [apply Hstep|apply IH].
Qed.

Lemma command_parse_eq cs rest w :
  Forall wf_cmd cs → 0 < zlen (encode cs) < 65536 → w_cmdInProgress w = false →
  ∃ w', atlas_execute_command_cb ATLAS_COMMAND_EXECUTE_PATH (Some (encode cs ++ rest))
          (zlen (encode cs)) w = Some (ATLAS_COAP_RESP_OK, None, w') ∧
    scheduled (omap command_alarm cs) w w' ∧
    (timers_work → ∃ l, w_alarms w' = w_alarms w ++ l ∧ al_callback <$> l = omap command_alarm cs).
Proof.
  intros Hwf Hl Hp. destruct (fold_commands cs w) as (w' & Hf & Hrest). exists w'. split; [|done].
  unfold atlas_execute_command_cb, atlas_alert_command_execution_parse.
  rewrite u16_small, Hp, decide_False by lia.
  destruct (parse_foreach (mk_batch 0 None) (encode cs ++ rest) (encode cs) rest
    (zlen (encode cs)) command_execution_body w cs) as (cb & Hr & Hfe); [done..| |].
  { by apply decode_encode. }
  unfold atlas_cmd_batch_new. rewrite Hr. cbn [mbind option_bind]. rewrite decide_True by done.
  by rewrite Hfe, Hf.
Qed.

End ExecuteLemmas.

(** ** Properties *)

Section ExecuteProperties.
Context `{Host, Env E}.
Implicit Types w : World E.

(** C37. A well-formed request is answered OK. Each of its restart and shutdown
    commands is scheduled, in order, as an alarm that runs once, as long as the
    kernel gives the timer; a batch with both schedules both, as the flag is
    tested before the first command only. The flag is set exactly when an alarm
    was set, and from then on every request is deferred: it is answered with an
    unknown status and does nothing. *)
Theorem approved_commands uri cs rest w :
  Forall wf_cmd cs → 0 < zlen (encode cs) < 65536 →
  (w_cmdInProgress w = true → ∀ pl n,
     atlas_execute_command_cb uri pl n w = Some (ATLAS_COAP_RESP_UNKNOWN, None, w)) ∧
  (w_cmdInProgress w = false → ∃ w' l,
     atlas_execute_command_cb uri (Some (encode cs ++ rest)) (zlen (encode cs)) w =
       Some (ATLAS_COAP_RESP_OK, None, w') ∧
     w_alarms w' = w_alarms w ++ l ∧ (al_callback <$> l) `sublist_of` omap command_alarm cs ∧
     (timers_work → al_callback <$> l = omap command_alarm cs) ∧
     Forall (λ a, run_once a = true) l ∧
     (w_cmdInProgress w' = true ↔ ∃ a, a ∈ l ∧ 0 ≤ alarm_id a)).
Proof.
  intros Hwf Hl. split.
  - intros Hp pl n. unfold atlas_execute_command_cb, atlas_alert_command_execution_parse.
    by rewrite Hp.
  - intros Hp. destruct (command_parse_eq cs rest w Hwf Hl Hp)
      as (w' & Hw & (_ & _ & l & Ha & Hsub & Honce & Hflag) & Hwork).
    exists w', l. split_and!; [exact Hw|done|done| |done|rewrite Hflag, Hp; naive_solver].
    intros Ht. destruct (Hwork Ht) as (l' & Ha' & <-). rewrite Ha in Ha'.
    by apply app_inv_head in Ha' as ->.
Qed.

End ExecuteProperties.

Lemma approved_commands_witness :
  ∃ w' l, @atlas_execute_command_cb le_host Z (sim_env [] []) (B "p")
      (Some (encode [(ATLAS_CMD_DEVICE_RESTART, []); (ATLAS_CMD_DEVICE_SHUTDOWN, [])] ++ [])) 8
      (initial_world 3) = Some (ATLAS_COAP_RESP_OK, None, w') ∧
    w_alarms w' = [] ++ l ∧
    al_callback <$> l = [AC_command_execution_restart; AC_command_execution_shutdown].
Proof.
  destruct (proj2 (@approved_commands le_host Z (sim_env [] []) (B "p")
    [(ATLAS_CMD_DEVICE_RESTART, []); (ATLAS_CMD_DEVICE_SHUTDOWN, [])] [] (initial_world 3)
    ltac:(by apply (bool_decide_unpack _); vm_compute) ltac:(done)) eq_refl)
    as (w' & l & Hw & Ha & _ & Ht & _).
  exists w', l. split_and!; [exact Hw|exact Ha|].
  apply Ht. split; [intros e; apply Z.abs_nonneg|done].
Defined.
