(* ===== verification/Client.v ===== *)
(** * The client ([atlas_main.c])

    The functions behind the function pointers, and the program: the options,
    the order of the initialisation and the loop. The theorems of the
    components that take the callbacks as a parameter hold of these: the
    classes [SchedClient] and [ClientCallbacks] are instantiated here, for the
    whole program. *)

From stdpp Require Import gmap.
From S2P Require Import Prelude Protocol Command CString Scheduler State Config Identity Alarm.
From S2P Require Import CoapClient Request CoapServer Connector TelemetryPayload Telemetry.
From S2P Require Import TelemetryAlerts Register CommandExecute.

Section Dispatch.
Context `{Host, Env E}.
Implicit Types w : World E.

Definition run_client_cb (cb : client_cb) (uri : list byte) (status : atlas_coap_response_t)
    (payload : option (list byte)) (len : Z) w : option (World E) :=
  match cb with
  | CC_reg_callback => reg_callback status w
  | CC_keepalive_callback => keepalive_callback status payload len w
  | CC_telemetry_callback => telemetry_callback uri status w
  | CC_policy_callback => Some (policy_callback status w)
  | CC_feature_reputation_callback => feature_reputation_callback status payload len w
  | CC_feedback_callback => Some (feedback_callback status w)
  end.

Definition run_alarm_cb (cb : alarm_cb) (id : Z) w : option (World E) :=
  match cb with
  | AC_request_alarm_cb => request_alarm_cb run_client_cb id w
  | AC_reg_alarm_callback => reg_alarm_callback w
  | AC_keepalive_alarm_callback => keepalive_alarm_callback w
  | AC_policy_alarm_callback => policy_alarm_callback w
  | AC_push_alert_alarm_cb => push_alert_alarm_cb id w
  | AC_threshold_alert_alarm_cb => threshold_alert_alarm_cb id w
  | AC_command_execution_shutdown => Some (command_execution_shutdown_alarm_callback w)
  | AC_command_execution_restart => Some (command_execution_restart_alarm_callback w)
  end.

Definition run_server_cb (cb : server_cb) (uri_path : list byte) (payload : option (list byte))
    (len : Z) w : option (atlas_coap_response_t * option (list byte) * World E) :=
  match cb with
  | SV_sysinfo_push_alert_cb => sysinfo_push_alert_cb uri_path payload len w
  | SV_threshold_alert_procs_cb => atlas_threshold_alert_procs_cb uri_path payload len w
  | SV_packets_push_alert_cb => packets_push_alert_cb uri_path payload len w
  | SV_execute_command_cb => atlas_execute_command_cb uri_path payload len w
  end.

Definition run_sched_cb (cb : sched_cb) (fd : Z) w : option (World E) :=
  match cb with
  | SC_atlas_alarm_trigger => atlas_alarm_trigger run_alarm_cb fd w
  | SC_coap_client_sched_callback => coap_client_sched_callback run_client_cb fd w
  | SC_atlas_coap_server_sched_callback => atlas_coap_server_sched_callback run_server_cb fd w
  | SC_atlas_data_plane_accept_cb => Some (atlas_data_plane_accept_cb fd w)
  | SC_atlas_data_plane_read_cb => atlas_data_plane_read_cb fd w
  end.

Definition run_select (n : Z) (readfds : gset Z) w : Z * gset Z * World E :=
  let '(r, w) := call (sys_select n readfds) w in (r, w).

End Dispatch.

(** ** The program *)

Section Main.
Context `{Host, Malloc, Env E}.
Implicit Types w : World E.

(** The options [getopt] delivers: the letter and [optarg]. *)
Inductive cli_option := Opt_h | Opt_p | Opt_i | Opt_l | Opt_unknown.

#[global] Instance cli_option_eq_dec : EqDecision cli_option.
Proof. solve_decision. Defined.

(** How the program ends before its loop. *)
Inductive startup (A : Type) :=
| Running (a : A)
| Exit (code : Z)
| Crash.
Arguments Running {A} _.
Arguments Exit {A} _.
Arguments Crash {A}.

(** A setter of the configuration: anything but ATLAS_OK is [exit (1)]. *)
Definition set_option (r : option (atlas_status_t * config_t)) : startup config_t :=
  match r with
  | None => Crash
  | Some (st, c) => if decide (st = ATLAS_OK) then Running c else Exit 1
  end.

Definition parse_option (o : cli_option) (optarg : list byte) (c : config_t) : startup config_t :=
  match o with
  | Opt_h =>
      if decide (zlen optarg > ATLAS_URI_HOSTNAME_MAX_LEN) then Exit 1
      else set_option (atlas_cfg_set_hostname (Some optarg) c)
  | Opt_p => set_option (atlas_cfg_set_port (Some optarg) c)
  | Opt_i => set_option (atlas_cfg_set_local_iface (Some optarg) c)
  | Opt_l => set_option (Some (atlas_cfg_set_local_port (Some optarg) c))
  | Opt_unknown => Exit 1
  end.

(** The loop over the options; [seen] are the four flags. *)
Fixpoint parse_options_loop (args : list (cli_option * list byte)) (seen : list cli_option)
    (c : config_t) : startup (list cli_option * config_t) :=
  match args with
  | [] => Running (seen, c)
  | (o, optarg) :: args =>
      match parse_option o optarg c with
      | Running c => parse_options_loop args (o :: seen) c
      | Exit n => Exit n
      | Crash => Crash
      end
  end.

Definition parse_options (args : list (cli_option * list byte)) w : startup (World E) :=
  match parse_options_loop args [] (w_cfg w) with
  | Running (seen, c) =>
      if decide (Forall (λ o, o ∈ seen) [Opt_h; Opt_p; Opt_i; Opt_l])
      then Running (with_cfg c w) else Exit 1
  | Exit n => Exit n
  | Crash => Crash
  end.

(** A step of [main] whose status must be ATLAS_OK. *)
Definition start_step (r : option (atlas_status_t * World E)) (k : World E → startup (World E))
    : startup (World E) :=
  match r with
  | None => Crash
  | Some (st, w) => if decide (st = ATLAS_OK) then k w else Exit (-1)
  end.

Context (ATLAS_DATA_PLANE_UNIX_SOCKET_PATH : list byte).

(** [main] up to the loop. *)
Definition main_init (args : list (cli_option * list byte)) w : startup (World E) :=
  match parse_options args w with
  | Running w =>
      let '(euid, w) := call sys_geteuid w in
      if decide (euid ≠ 0) then Exit (-1) else
      start_step (atlas_identity_init w) (λ w,
      start_step (i ← atlas_identity_get w; p ← atlas_psk_get w;
                  atlas_coap_client_set_dtls_info (Some i) (Some p) w) (λ w,
      match atlas_register_start w with
      | None => Crash
      | Some w =>
          let local_port := atlas_cfg_get_local_port (w_cfg w) in
          start_step (atlas_coap_server_start local_port ATLAS_COAP_SERVER_MODE_DTLS_PSK
                        (atlas_psk_get w) w) (λ w,
          start_step (Some (atlas_data_plane_connector_start ATLAS_DATA_PLANE_UNIX_SOCKET_PATH w)) (λ w,
          let w := atlas_telemetry_features_init w in
          Running (atlas_command_execute_init w).2))
      end))
  | r => r
  end.

(** [n] rounds of the loop of a client that has started. *)
Definition main (n fuel : nat) (args : list (cli_option * list byte)) w
    : startup (outcome (World E * list (sched_cb * Z))) :=
  match main_init args w with
  | Running w => Running (atlas_sched_loop run_sched_cb run_select n fuel w)
  | Exit c => Exit c
  | Crash => Crash
  end.

End Main.
Arguments Running {A} _.
Arguments Exit {A} _.
Arguments Crash {A}.

(** ** What the callbacks leave in place *)

(** The fields the loop, the alarms and the requests walk over. *)
Definition quiet {E} (w w' : World E) : Prop :=
  w_reqs w' = w_reqs w ∧ w_sched w' = w_sched w ∧ w_alarms w' = w_alarms w.

(** Nothing is removed: requests and scheduler entries may be marked, alarms
    only added. *)
Definition steady {E} (w w' : World E) : Prop :=
  reqs_ext (w_reqs w) (w_reqs w') ∧ sched_ext (w_sched w) (w_sched w') ∧
  w_alarms w `prefix_of` w_alarms w'.

(** Alarms may be cancelled too. *)
Definition grows {E} (w w' : World E) : Prop :=
  reqs_ext (w_reqs w) (w_reqs w') ∧ sched_ext (w_sched w) (w_sched w').

#[export] Instance steady_preorder {E} : PreOrder (@steady E).
Proof.
  split; [by intros w; split_and!|].
  intros w1 w2 w3 (? & ? & ?) (? & ? & ?). split_and!; by etrans.
Qed.

#[export] Instance grows_preorder {E} : PreOrder (@grows E).
Proof.
  split; [by intros w; split|]. intros w1 w2 w3 (? & ?) (? & ?). split; by etrans.
Qed.

Lemma quiet_steady {E} (w w' : World E) : quiet w w' → steady w w'.
Proof. intros (Hr & Hs & Ha). unfold steady. rewrite Hr, Hs, Ha. by split_and!. Qed.

Lemma steady_grows {E} (w w' : World E) : steady w w' → grows w w'.
Proof. by intros (? & ? & _). Qed.

(** Takes a computation that answered apart, one call, bind or test at a time. *)
Ltac binv_step := match goal with
  | H : None = Some _ |- _ => discriminate H
  | H : mbind ?f ?m = Some _ |- _ =>
      let x := fresh "x" in let Hx := fresh "Hx" in apply bind_Some in H as (x & Hx & H)
  | H : context [call ?f ?w] |- _ =>
      let a := fresh "a" in let e := fresh "e" in let X := fresh "X" in let F := fresh "F" in
      destruct (call_eq f w) as (a & e & X & F); rewrite X in H; clear X F
  | H : (if ?b then _ else _) = Some _ |- _ => destruct b
  | H : (match ?x with _ => _ end) = Some _ |- _ => is_var x; destruct x
  | H : (match ?x with _ => _ end) = Some _ |- _ => destruct x eqn:?
  | H : Some _ = Some _ |- _ => apply (inj Some) in H
  | H : (_, _) = (_, _) |- _ => apply (inj2 pair) in H as [??]
  end; cbn beta iota zeta in *.
Ltac binv := repeat binv_step; subst.

Section Growth.
Context `{Host, Env E}.
Implicit Types w : World E.

Lemma alarm_set_steady ms cb once w : steady w (atlas_alarm_set ms cb once w).2.
Proof.
  pose proof (alarm_set_frame ms cb once w) as (Hs & Hr & _). split_and!; [by rewrite Hr|done|].
  destruct (alarm_set_cases ms cb once w); [done|done|by eexists].
Qed.

Lemma alarm_cancel_grows id w : grows w (atlas_alarm_cancel id w).
Proof. pose proof (alarm_cancel_frame id w) as (Hs & Hr & _). split; [by rewrite Hr|done]. Qed.

Lemma emit_quiet ev w : quiet w (emit ev w).
Proof. done. Qed.

(** *** Below the components *)

Lemma add_request_alarms ctx session uri token timeout cb w :
  w_alarms w `prefix_of` w_alarms (add_request ctx session uri token timeout cb w).2.
Proof.
  unfold add_request, alloc. dcall fd e. cbn zeta beta iota. case_decide; [done|].
  match goal with |- context [atlas_alarm_set ?a ?b ?c ?x] =>
    pose proof (proj2 (proj2 (alarm_set_steady a b c x))) as Hp; destruct (atlas_alarm_set a b c x) end.
  by case_decide.
Qed.

Lemma request_alarms uri method pl timeout cb w st w' :
  atlas_coap_client_request (Some uri) method pl timeout (Some cb) w = Some (st, w') →
  w_alarms w `prefix_of` w_alarms w'.
Proof.
  unfold atlas_coap_client_request, resolve_address, get_new_token, request_err. intros Hr. binv;
    try done;
    repeat match goal with
    | Hs : get_session ?c ?d ?a ?p ?x = (_, _) |- _ =>
        let s := fresh "s" in let e := fresh "e" in let X := fresh "X" in
        destruct (get_session_eq c d a p x) as (s & e & X & _); rewrite X in Hs;
        apply (inj2 pair) in Hs as [??]; subst; clear X
    | Ha : add_request ?c ?s ?u ?t ?to ?cb ?x = (_, _) |- _ =>
        pose proof (add_request_alarms c s u t to cb x); rewrite Ha in *; clear Ha
    end; done.
Qed.

Lemma request_steady uri method pl timeout cb w st w' :
  atlas_coap_client_request (Some uri) method pl timeout (Some cb) w = Some (st, w') → steady w w'.
Proof.
  intros Hr. pose proof (request_alarms _ _ _ _ _ _ _ _ Hr).
  pose proof (request_requested _ _ _ _ _ _ _ _ _ (same_lists_refl w) Hr) as Hq.
  pose proof (requested_reqs _ _ _ _ _ _ _ Hq).
  destruct Hq as (_ & ? & _). by split_and!.
Qed.

Lemma send_batch_steady path method cs timeout cb w w' :
  send_batch path method cs timeout cb w = Some w' → steady w w'.
Proof.
  unfold send_batch. intros Hs. binv. by eapply request_steady.
Qed.

Lemma write_batch_quiet fd cs w rc len w' : write_batch fd cs w = Some (rc, len, w') → quiet w w'.
Proof. unfold write_batch, write_fd. intros Hs. by binv. Qed.

Lemma read_into_quiet fd n blk w rc blk' w' : read_into fd n blk w = Some (rc, blk', w') → quiet w w'.
Proof. unfold read_into. intros Hs. by binv. Qed.

Lemma payload_batch_same type text w pl w' : payload_batch type text w = Some (pl, w') → w' = w.
Proof. unfold payload_batch. intros Hs. by binv. Qed.

Lemma run_payload_quiet cb th w pl w' : run_payload cb th w = Some (pl, w') → quiet w w'.
Proof.
  assert (∀ t f w w' pl, sysinfo_payload t f th w = Some (pl, w') → quiet w w') as Hsys.
  { clear. unfold sysinfo_payload. intros t f w w' pl Hs. binv; try done.
    by apply payload_batch_same in Hs as ->. }
  destruct cb; try apply Hsys; cbn [run_payload].
  - unfold atlas_telemetry_payload_hostname. intros Hs. binv; try done;
      match goal with Hr : read_into _ _ _ _ = Some _ |- _ => apply read_into_quiet in Hr end;
      [done|]. by apply payload_batch_same in Hs as ->.
  - unfold atlas_telemetry_payload_kern_info. intros Hs. binv; try done.
    by apply payload_batch_same in Hs as ->.
  - unfold atlas_telemetry_payload_procs. intros Hs. binv; try done.
    by apply payload_batch_same in Hs as ->.
  - unfold atlas_telemetry_payload_packets_per_minute. intros Hs. binv.
    by apply payload_batch_same in Hs as ->.
  - unfold atlas_telemetry_payload_packets_avg. intros Hs. binv.
    by apply payload_batch_same in Hs as ->.
Qed.

Lemma push_steady p th w w' : atlas_telemetry_push p th w = Some w' → steady w w'.
Proof.
  unfold atlas_telemetry_push. intros Hs. binv; try done;
    match goal with Hr : run_payload _ _ _ = Some _ |- _ =>
      apply run_payload_quiet, quiet_steady in Hr as Hq end; try done.
  etrans; [exact Hq|]. by eapply request_steady.
Qed.

Lemma push_first_steady f th w w' : push_first f th w = Some w' → steady w w'.
Proof. unfold push_first. intros Hs. binv; [by eapply push_steady|done]. Qed.

Lemma push_features_steady l w w' : push_features l w = Some w' → steady w w'.
Proof.
  revert w. induction l as [|p l IH]; intros w Hs; cbn [push_features] in Hs; binv; [done|].
  etrans; [by eapply push_steady|by apply IH].
Qed.

Lemma push_set_grows path rate w w' : atlas_telemetry_push_set path rate w = Some w' → grows w w'.
Proof.
  unfold atlas_telemetry_push_set. destruct (find_first _ _) as [p|]; [|by intros [= ->]].
  case_decide; [intros Hs; apply steady_grows; by eapply push_steady|].
  set (w0 := if decide (push_id p >= 0) then atlas_alarm_cancel (push_id p) w else w).
  pose proof (alarm_set_steady (ATLAS_ALARM_SEC_TO_MS rate) AC_push_alert_alarm_cb false w0) as Ha.
  destruct (atlas_alarm_set _ _ _ w0) as [id w1]. intros [= <-].
  apply steady_grows in Ha. transitivity w0; [|exact Ha].
  unfold w0. case_decide; [apply alarm_cancel_grows|done].
Qed.

Lemma threshold_set_grows path rate w w' :
  atlas_telemetry_threshold_set path rate w = Some w' → grows w w'.
Proof.
  unfold atlas_telemetry_threshold_set. case_decide; [by intros [= ->]|].
  destruct (find_first _ _) as [p|]; [|by intros [= ->]].
  set (w0 := if decide (threshold_id p >= 0) then atlas_alarm_cancel (threshold_id p) w else w).
  pose proof (alarm_set_steady (ATLAS_ALARM_SEC_TO_MS rate) AC_threshold_alert_alarm_cb false w0) as Ha.
  destruct (atlas_alarm_set _ _ _ w0) as [id w1]. intros [= <-].
  apply steady_grows in Ha. transitivity w0; [|exact Ha].
  unfold w0. case_decide; [apply alarm_cancel_grows|done].
Qed.

(** *** Registration *)

Lemma local_ipPort_quiet w s w' : local_ipPort w = Some (s, w') → quiet w w'.
Proof.
  unfold local_ipPort, atlas_cfg_get_local_ipPort, atlas_cfg_get_local_ip. intros Hs.
  binv; done.
Qed.

Lemma send_register_steady w w' : send_register_command w = Some w' → steady w w'.
Proof.
  unfold send_register_command. intros Hs. binv.
  etrans; [by eapply quiet_steady, local_ipPort_quiet|by eapply send_batch_steady].
Qed.

Lemma send_keepalive_steady w w' : send_keepalive_command w = Some w' → steady w w'.
Proof.
  unfold send_keepalive_command. intros Hs. binv.
  match goal with Hq : local_ipPort _ = Some (_, ?x) |- _ => transitivity x;
    [by eapply quiet_steady, local_ipPort_quiet|] end.
  by apply send_batch_steady in Hs.
Qed.

Lemma send_policy_steady w w' : send_policy_command w = Some w' → steady w w'.
Proof. unfold send_policy_command. intros Hs. binv; [done|by eapply send_batch_steady]. Qed.

Lemma keepalive_err_grows w w' : keepalive_err w = Some w' → grows w w'.
Proof.
  unfold keepalive_err. intros Hs. cbn zeta in Hs. case_decide; [|by binv].
  apply send_register_steady, steady_grows in Hs. etrans; [|exact Hs].
  apply (alarm_cancel_grows _ (set_registered _ (set_ka_count _ w))).
Qed.

Lemma keepalive_callback_grows st pl n w w' : keepalive_callback st pl n w = Some w' → grows w w'.
Proof.
  unfold keepalive_callback. intros Hs. case_decide.
  { apply keepalive_err_grows in Hs. by case_decide. }
  destruct pl as [p|]; [|by apply keepalive_err_grows].
  case_decide; [by apply keepalive_err_grows|]. apply bind_Some in Hs as (v & _ & Hs).
  case_decide; [by apply keepalive_err_grows|]. by apply (inj Some) in Hs as <-.
Qed.

Lemma reg_callback_steady st w w' : reg_callback st w = Some w' → steady w w'.
Proof.
  unfold reg_callback. case_decide; [intros [= <-]; apply alarm_set_steady|].
  intros Hs. apply bind_Some in Hs as (w1 & Hp & Hs). apply bind_Some in Hs as (w2 & Hf & Hs).
  apply push_features_steady in Hf.
  pose proof (alarm_set_steady ATLAS_CLIENT_KEEPALIVE_TIMEOUT_MS AC_keepalive_alarm_callback false w2) as Ha.
  destruct (atlas_alarm_set _ _ _ w2) as [id w3]. apply (inj Some) in Hs as <-.
  transitivity w1; [case_decide; [by apply send_policy_steady|by simplify_eq]|].
  transitivity w2; [exact Hf|exact Ha].
Qed.

(** *** The data plane connector *)

(** A loop over commands does what its body does, many times. *)
Lemma cmd_while_rel (R : relation (World E)) `{!PreOrder R} fuel body b cmd w w' :
  (∀ c w w' l, body c w = Some (w', l) → R w w') →
  cmd_while fuel body b cmd w = Some w' → R w w'.
Proof.
  intros Hb. revert b cmd w. induction fuel as [|fuel IH]; intros b [p|] w Hw; cbn [cmd_while] in Hw;
    try done; try (by apply (inj Some) in Hw as <-).
  apply bind_Some in Hw as (c & _ & Hw). apply bind_Some in Hw as ([w1 l] & Hc & Hw).
  apply Hb in Hc. destruct l; [by apply (inj Some) in Hw as <-|].
  apply bind_Some in Hw as ([b' cmd'] & _ & Hw). etrans; [exact Hc|by eapply IH].
Qed.

Lemma cmd_foreach_rel (R : relation (World E)) `{!PreOrder R} body b w w' :
  (∀ c w w' l, body c w = Some (w', l) → R w w') →
  cmd_foreach b body w = Some w' → R w w'.
Proof.
  intros Hb Hw. unfold cmd_foreach in Hw. apply bind_Some in Hw as ([b' cmd'] & _ & Hw).
  by eapply cmd_while_rel.
Qed.

Lemma reputation_resp_steady buf len w st w' :
  atlas_reputation_resp_parse buf len w = Some (st, w') → steady w w'.
Proof.
  unfold atlas_reputation_resp_parse. intros Hs.
  destruct buf as [buf|]; [|by binv]. case_decide; [by binv|].
  apply bind_Some in Hs as ([st1 b] & _ & Hs). case_decide; [|by binv].
  apply bind_Some in Hs as (w1 & Hf & Hs). binv.
  eapply (cmd_foreach_rel steady); [|exact Hf]. clear. intros c w w' l Hb.
  unfold reputation_resp_body in Hb. case_decide; [|by binv].
  apply bind_Some in Hb as (v & _ & Hb). apply bind_Some in Hb as ([[rc n] w1] & Hw & Hb).
  apply write_batch_quiet, quiet_steady in Hw. by binv.
Qed.

Lemma feature_reputation_steady st pl n w w' :
  feature_reputation_callback st pl n w = Some w' → steady w w'.
Proof.
  unfold feature_reputation_callback. intros Hs. case_decide.
  - apply bind_Some in Hs as ([[rc k] w1] & Hw & Hs).
    apply write_batch_quiet, quiet_steady in Hw. by binv.
  - apply bind_Some in Hs as ([st1 w1] & Hw & Hs). apply reputation_resp_steady in Hw. by binv.
Qed.

Lemma set_policy_steady c w w' l : policy_body c w = Some (w', l) → steady w w'.
Proof.
  unfold policy_body, set_policy_qos, set_policy_packets_per_min, set_policy_packets_maxlen.
  intros Hs. by binv.
Qed.

Lemma parse_policy_steady buf len w w' :
  atlas_data_plane_parse_policy buf len w = Some w' → steady w w'.
Proof.
  unfold atlas_data_plane_parse_policy. intros Hs. destruct buf as [buf|]; [|by binv].
  case_decide; [by binv|]. apply bind_Some in Hs as ([st1 b] & _ & Hs). case_decide; [|by binv].
  apply bind_Some in Hs as (w1 & Hf & Hs).
  transitivity w1; [eapply (cmd_foreach_rel steady); [apply set_policy_steady|exact Hf]|].
  by apply send_policy_steady in Hs.
Qed.

Lemma data_plane_body_steady c w w' l : data_plane_body c w = Some (w', l) → steady w w'.
Proof.
  unfold data_plane_body. intros Hs. apply bind_Some in Hs as (w1 & Hw & Hs).
  apply (inj Some), (inj2 pair) in Hs as [-> _]. revert Hw.
  case_decide; [apply parse_policy_steady|].
  case_decide; [unfold set_packets_per_min; intros Hs; by binv|].
  case_decide; [unfold set_packets_avg; intros Hs; by binv|].
  case_decide.
  { unfold atlas_feature_reputation_handle. intros Hs. binv; [done|by eapply send_batch_steady]. }
  case_decide.
  { unfold atlas_feature_feedback_handle. intros Hs. binv; [done|by eapply send_batch_steady]. }
  case_decide; [|intros Hs; by binv].
  unfold atlas_data_plane_identity. intros Hs. apply bind_Some in Hs as (i & _ & Hs).
  apply bind_Some in Hs as ([[rc k] w2] & Hw & Hs). apply write_batch_quiet, quiet_steady in Hw.
  by binv.
Qed.

Lemma sched_del_grows fd w : grows w (sched_del fd w).
Proof. split; [done|apply sched_ext_del]. Qed.

Lemma sched_add_grows fd cb w : grows w (sched_add fd cb w).
Proof. split; [done|apply sched_ext_add]. Qed.

Lemma read_cb_grows fd w w' : atlas_data_plane_read_cb fd w = Some w' → grows w w'.
Proof.
  unfold atlas_data_plane_read_cb. intros Hs.
  apply bind_Some in Hs as ([[rc buf] w1] & Hr & Hs).
  apply read_into_quiet, quiet_steady, steady_grows in Hr. transitivity w1; [exact Hr|].
  case_decide; [apply (inj Some) in Hs as <-; apply sched_del_grows|].
  apply bind_Some in Hs as ([st b] & _ & Hs). case_decide; [|by binv].
  apply steady_grows. eapply (cmd_foreach_rel steady); [apply data_plane_body_steady|exact Hs].
Qed.

Lemma accept_cb_grows fd w : grows w (atlas_data_plane_accept_cb fd w).
Proof.
  unfold atlas_data_plane_accept_cb. set (s := connected_socket _).
  set (w0 := if decide (s ≠ -1) then emit (EvClose s) (sched_del s w) else w).
  assert (grows w w0) as Hw by (unfold w0; case_decide; [apply (sched_del_grows s w)|done]).
  dcall a e. case_decide; [exact Hw|]. etrans; [exact Hw|].
  apply (sched_add_grows a SC_atlas_data_plane_read_cb w0).
Qed.

(** *** The end-points *)

Lemma push_alert_grows paths uri pl n w r w' :
  push_alert_cb paths uri pl n w = Some (r, w') → grows w w'.
Proof.
  unfold push_alert_cb. intros Hs. apply bind_Some in Hs as ([st rate] & _ & Hs).
  case_decide; [|by binv]. apply bind_Some in Hs as (k & _ & Hs).
  destruct (find_first _ _) as [[a f]|]; [|by binv].
  apply bind_Some in Hs as (w1 & Hp & Hs). apply push_set_grows in Hp. by binv.
Qed.

Lemma threshold_alert_grows uri pl n w r w' :
  atlas_threshold_alert_procs_cb uri pl n w = Some (r, w') → grows w w'.
Proof.
  unfold atlas_threshold_alert_procs_cb. intros Hs. apply bind_Some in Hs as ([[st rate] t] & _ & Hs).
  case_decide; [|by binv]. apply bind_Some in Hs as (k & _ & Hs).
  apply bind_Some in Hs as (p & _ & Hs). apply bind_Some in Hs as (s & _ & Hs).
  destruct (strtol s) as [v er]. destruct (_ || _); [by binv|].
  apply bind_Some in Hs as (w1 & Hp & Hs). apply threshold_set_grows in Hp. by binv.
Qed.

Lemma execute_command_grows uri pl n w r w' :
  atlas_execute_command_cb uri pl n w = Some (r, w') → grows w w'.
Proof.
  unfold atlas_execute_command_cb, atlas_alert_command_execution_parse. intros Hs.
  apply bind_Some in Hs as ([st w1] & Hp & Hs).
  assert (w' = w1) as -> by (repeat case_decide; by binv). clear Hs.
  destruct (w_cmdInProgress w); [by binv|]. destruct pl as [pl|]; [|by binv].
  case_decide; [by binv|]. apply bind_Some in Hp as ([st1 b] & _ & Hp). case_decide; [|by binv].
  apply bind_Some in Hp as (w2 & Hf & Hp). binv.
  eapply (cmd_foreach_rel grows); [|exact Hf]. clear. intros c w w' l Hb.
  apply (inj Some), (inj2 pair) in Hb as [<- _].
  assert (∀ cb, grows w (schedule_command cb w)) as Hc.
  { intros cb. destruct (schedule_command_spec cb w) as (Hr & Hs & _). split; [by rewrite Hr|done]. }
  case_decide; [apply Hc|]. case_decide; [apply Hc|done].
Qed.

Lemma run_server_cb_grows cb uri pl n w r w' :
  run_server_cb cb uri pl n w = Some (r, w') → grows w w'.
Proof.
  destruct cb; cbn [run_server_cb];
    [apply push_alert_grows|apply threshold_alert_grows|apply push_alert_grows|apply execute_command_grows].
Qed.

Lemma server_io_grows inputs w w' : server_io run_server_cb inputs w = Some w' → grows w w'.
Proof.
  assert (∀ r s u pl l w w', process_request_handler run_server_cb r s u pl l w = Some w' → grows w w')
    as Hp.
  { clear. intros r s u pl l w w' Hs. unfold process_request_handler in Hs.
    destruct u as [u|]; [|by binv]. destruct (find_first _ l) as [x|]; [|by binv].
    apply bind_Some in Hs as ([[rc rp] w1] & Hr & Hs). apply run_server_cb_grows in Hr.
    etrans; [exact Hr|]. by destruct rp as [[|b d]|]; [|case_decide|]; apply (inj Some) in Hs as <-. }
  revert w. induction inputs as [|[| h r s u pl] inputs IH]; intros w Hs; cbn [server_io] in Hs;
    [by binv|by apply IH|].
  apply bind_Some in Hs as (w1 & Hh & Hs). etrans; [|by apply IH].
  destruct h; cbn [server_handle] in Hh; [by apply (inj Some) in Hh as <-|by eapply Hp..].
Qed.

(** *** The dispatchers *)

Lemma run_client_cb_grows cb uri st pl n w w' :
  run_client_cb cb uri st pl n w = Some w' → grows w w'.
Proof.
  destruct cb; cbn [run_client_cb].
  - intros Hs. by eapply steady_grows, reg_callback_steady.
  - apply keepalive_callback_grows.
  - unfold telemetry_callback. intros Hs. case_decide; [by binv|]. case_decide; [by binv|].
    by eapply steady_grows, push_first_steady.
  - unfold policy_callback. intros [= <-]. case_decide; [|done].
    apply steady_grows, alarm_set_steady.
  - intros Hs. by eapply steady_grows, feature_reputation_steady.
  - by intros [= <-].
Qed.

#[export] Instance run_client_cb_callbacks : ClientCallbacks run_client_cb.
Proof. split; intros * Hr; by apply run_client_cb_grows in Hr as [??]. Qed.

Lemma client_io_grows ctx inputs w w' : client_io run_client_cb ctx inputs w = Some w' → grows w w'.
Proof.
  revert w. induction inputs as [|[s b r|] inputs IH]; intros w Hs; cbn [client_io] in Hs;
    [by binv| |by apply IH].
  apply bind_Some in Hs as (w1 & Hh & Hs). etrans; [|by apply IH]. revert Hh.
  unfold message_handler. destruct (find_first _ _) as [ent|]; [|by intros [= ->]].
  destruct (validate_token r _).
  - destruct (response_args r) as [[st pl] n]. intros Hr. apply run_client_cb_grows in Hr.
    etrans; [|exact Hr]. split; [apply reqs_ext_mark|reflexivity].
  - by case_decide; intros [= <-].
Qed.

Lemma request_alarm_cb_sched id w w' :
  request_alarm_cb run_client_cb id w = Some w' → sched_ext (w_sched w) (w_sched w').
Proof.
  unfold request_alarm_cb. destruct (find_first _ _) as [p|]; [|by intros [= ->]]. intros Hs.
  apply bind_Some in Hs as (w1 & Hr & Hs). apply bind_Some in Hs as (q & _ & Hs).
  apply (inj Some) in Hs as <-. apply run_client_cb_grows in Hr as [_ Hr].
  etrans; [exact Hr|apply sched_ext_del].
Qed.

Lemma run_alarm_cb_sched cb id w w' :
  run_alarm_cb cb id w = Some w' → sched_ext (w_sched w) (w_sched w').
Proof.
  destruct cb; cbn [run_alarm_cb]; intros Hs.
  - by eapply request_alarm_cb_sched.
  - by apply send_register_steady in Hs as (_ & ? & _).
  - by apply send_keepalive_steady in Hs as (_ & ? & _).
  - by apply send_policy_steady in Hs as (_ & ? & _).
  - by apply push_first_steady in Hs as (_ & ? & _).
  - by apply push_first_steady in Hs as (_ & ? & _).
  - by apply (inj Some) in Hs as <-.
  - by apply (inj Some) in Hs as <-.
Qed.

Lemma alarm_cancel_sched id w : sched_ext (w_sched w) (w_sched (atlas_alarm_cancel id w)).
Proof. by destruct (alarm_cancel_frame id w). Qed.

Lemma run_sched_cb_sched cb fd w w' :
  run_sched_cb cb fd w = Some w' → sched_ext (w_sched w) (w_sched w').
Proof.
  destruct cb; cbn [run_sched_cb]; intros Hs.
  - unfold atlas_alarm_trigger in Hs. destruct (find_first _ _) as [p|]; [|by binv].
    destruct (call_eq (sys_read fd 8) (log (EvRead fd) w)) as (a & e & X & _). rewrite X in Hs.
    apply bind_Some in Hs as (w1 & Hr & Hs). apply run_alarm_cb_sched in Hr.
    apply bind_Some in Hs as (q & _ & Hs). etrans; [exact Hr|].
    destruct (run_once q); apply (inj Some) in Hs as <-; [apply alarm_cancel_sched|done].
  - unfold coap_client_sched_callback in Hs. destruct (find_first _ _) as [p|]; [|by binv].
    destruct (call_eq (coap_io_process (rq_ctx p)) w) as (a & e & X & _). rewrite X in Hs.
    apply bind_Some in Hs as (w1 & Hr & Hs). apply client_io_grows in Hr as [_ Hr].
    apply bind_Some in Hs as (q & _ & Hs). etrans; [exact Hr|].
    destruct (rq_dirty q); apply (inj Some) in Hs as <-; [|done].
    etrans; [apply (sched_ext_del (coap_fd q))|].
    apply (alarm_cancel_sched _ (sched_del (coap_fd q) (with_reqs _ w1))).
  - unfold atlas_coap_server_sched_callback in Hs. apply bind_Some in Hs as (ctx & _ & Hs).
    destruct (call_eq (coap_io_process ctx) w) as (a & e & X & _). rewrite X in Hs.
    by apply server_io_grows in Hs as [_ ?].
  - apply (inj Some) in Hs as <-. apply accept_cb_grows.
  - by apply read_cb_grows in Hs as [_ ?].
Qed.

#[export] Instance run_sched_cb_client : SchedClient run_sched_cb.
Proof. intros cb fd w w'. apply run_sched_cb_sched. Qed.

End Growth.

(** ** Lemmas on the alarms and the options *)

Section AlarmsOfTheProgram.
Context `{Host, Env E}.
Implicit Types w : World E.

(** An alarm that is found by its address, before and after. *)
Definition keeps_alarm (p : atlas_alarm_entry_t) w w' : Prop :=
  find_first (alarm_at (al_addr p)) (w_alarms w) = Some p →
  find_first (alarm_at (al_addr p)) (w_alarms w') = Some p.

Lemma steady_keeps p w w' : steady w w' → keeps_alarm p w w'.
Proof. intros (_ & _ & Ha) Hp. by eapply find_first_prefix. Qed.

Lemma cancel_keeps p id w : alarm_id p ≠ id → keeps_alarm p w (atlas_alarm_cancel id w).
Proof.
  intros Hid Hp. unfold atlas_alarm_cancel. destruct (find_first (has_id id) _) as [q|]; [|done].
  unfold sched_del. wsimpl. apply find_first_remove; [done|]. by apply bool_decide_eq_false.
Qed.

Lemma keepalive_keeps p st pl n w w' :
  alarm_id p ≠ ka_alarm_id (w_register w) →
  keepalive_callback st pl n w = Some w' → keeps_alarm p w w'.
Proof.
  assert (∀ w w', alarm_id p ≠ ka_alarm_id (w_register w) → keepalive_err w = Some w' →
    keeps_alarm p w w') as He.
  { clear. unfold keepalive_err. intros w w' Hid Hs. cbn zeta in Hs.
    case_decide; [|apply (inj Some) in Hs as <-; by intros ?]. apply send_register_steady in Hs.
    intros Hp. apply (steady_keeps p _ _ Hs).
    by apply (cancel_keeps p (ka_alarm_id (w_register w))
      (set_registered ATLAS_CLIENT_NOT_REGISTERED (set_ka_count (u8 (ka_count (w_register w) - 1)) w))). }
  intros Hid Hs. unfold keepalive_callback in Hs. case_decide.
  { case_decide; [|by apply He in Hs]. by apply (He (set_ka_count 1 w)) in Hs. }
  destruct pl as [q|]; [|by apply He]. case_decide; [by apply He|].
  apply bind_Some in Hs as (v & _ & Hs). case_decide; [by apply He|].
  apply (inj Some) in Hs as <-; by intros ?.
Qed.

Lemma run_client_cb_keeps p cb uri st pl n w w' :
  alarm_id p ≠ ka_alarm_id (w_register w) →
  run_client_cb cb uri st pl n w = Some w' → keeps_alarm p w w'.
Proof.
  intros Hid. destruct cb; cbn [run_client_cb].
  - intros Hs. by eapply steady_keeps, reg_callback_steady.
  - by apply keepalive_keeps.
  - unfold telemetry_callback. intros Hs. case_decide; [binv; by intros ?|]. case_decide; [binv; by intros ?|].
    by eapply steady_keeps, push_first_steady.
  - unfold policy_callback. intros [= <-]. case_decide; [|by intros ?].
    apply steady_keeps, alarm_set_steady.
  - intros Hs. by eapply steady_keeps, feature_reputation_steady.
  - intros [= <-]. by intros ?.
Qed.

Lemma run_alarm_cb_keeps p cb id w w' :
  (cb = AC_request_alarm_cb → alarm_id p ≠ ka_alarm_id (w_register w)) →
  run_alarm_cb cb id w = Some w' → keeps_alarm p w w'.
Proof.
  intros Hid. destruct cb; cbn [run_alarm_cb]; intros Hs.
  - specialize (Hid eq_refl). unfold request_alarm_cb in Hs. destruct (find_first _ _) as [q|]; [|binv; by intros ?].
    apply bind_Some in Hs as (w1 & Hr & Hs). apply bind_Some in Hs as (q' & _ & Hs).
    apply (inj Some) in Hs as <-. by eapply run_client_cb_keeps in Hr.
  - by eapply steady_keeps, send_register_steady.
  - by eapply steady_keeps, send_keepalive_steady.
  - by eapply steady_keeps, send_policy_steady.
  - by eapply steady_keeps, push_first_steady.
  - by eapply steady_keeps, push_first_steady.
  - apply (inj Some) in Hs as <-; by intros ?.
  - apply (inj Some) in Hs as <-; by intros ?.
Qed.

End AlarmsOfTheProgram.

Section OptionLemmas.
Context `{Host, Malloc}.

(** The variable an option sets. *)
Definition option_stored (o : cli_option) (c : config_t) : Prop :=
  match o with
  | Opt_h => is_Some (gw_hostname c)
  | Opt_p => is_Some (gw_port c)
  | Opt_i => is_Some (local_iface c)
  | Opt_l => 1 ≤ local_port c ≤ 65535
  | Opt_unknown => False
  end.

Lemma parse_option_stores o optarg c c' :
  parse_option o optarg c = Running c' →
  option_stored o c' ∧ ∀ o', option_stored o' c → option_stored o' c'.
Proof.
  unfold parse_option, atlas_cfg_set_hostname, atlas_cfg_set_port, atlas_cfg_set_local_iface,
    atlas_cfg_set_local_port, set_option.
  destruct o; intros Hp;
    repeat first
      [ discriminate Hp
      | match type of Hp with
        | context [copy_string ?s] => destruct (copy_string s) as [blk|]; cbn [mbind option_bind] in Hp
        | context [decide ?P] => destruct (decide P); cbn [mbind option_bind] in Hp
        end ];
    injection Hp as <-; (split; [|intros []]); cbn; try done.
  all: unfold u16, ATLAS_MAX_PORT_VAL in *; mlia.
Qed.

Lemma parse_loop_stores args seen c seen' c' :
  Forall (λ o, option_stored o c) seen →
  parse_options_loop args seen c = Running (seen', c') →
  Forall (λ o, option_stored o c') seen'.
Proof.
  revert seen c. induction args as [|[o a] args IH]; intros seen c Hs; cbn [parse_options_loop].
  - by intros [= <- <-].
  - destruct (parse_option o a c) as [c1| |] eqn:Hp; [|done..].
    apply parse_option_stores in Hp as [Ho Hk]. apply IH. apply Forall_cons_2; [done|].
    eapply Forall_impl; [|exact Hs]. intros o' Ho'. by apply Hk.
Qed.

End OptionLemmas.

(** ** Properties *)

Section ClientProperties.
Context `{Host, Env E}.
Implicit Types w : World E.

(** C13. No callback of the program disturbs the list its caller walks over:
    whatever a callback of the scheduler does, the entries it found stay in
    their place, at most marked, and new ones come last; whatever a response
    or timeout callback does, the requests in flight stay linked. *)
Theorem callbacks_keep_entries :
  (∀ cb fd w w', run_sched_cb cb fd w = Some w' → sched_ext (w_sched w) (w_sched w')) ∧
  (∀ cb uri st pl n w w', run_client_cb cb uri st pl n w = Some w' →
     reqs_ext (w_reqs w) (w_reqs w') ∧ sched_ext (w_sched w) (w_sched w')).
Proof.
  split; [apply run_sched_cb_sched|]. intros cb uri st pl n w w' Hr. by eapply run_client_cb_grows.
Qed.

(** No alarm callback of the program frees the alarm it runs for: the
    trigger finds its entry again, cancels it when it runs once and leaves it
    otherwise. Only the timeout of a request could, by cancelling the
    keep-alive alarm, if both had the same number. *)
Theorem trigger_finds_entry fd w p w1 :
  find_first (has_id fd) (w_alarms w) = Some p → NoDup (al_addr <$> w_alarms w) →
  (al_callback p = AC_request_alarm_cb → ka_alarm_id (w_register w) ≠ fd) →
  run_alarm_cb (al_callback p) fd (call (sys_read fd 8) (log (EvRead fd) w)).2 = Some w1 →
  atlas_alarm_trigger run_alarm_cb fd w =
  Some (if run_once p then atlas_alarm_cancel fd w1 else w1).
Proof.
  intros Hp Hnd Hka Hr. unfold atlas_alarm_trigger. rewrite Hp.
  pose proof (find_first_elem _ _ _ Hp) as [_ Hid%bool_decide_eq_true].
  pose proof (find_key al_addr _ _ _ Hnd Hp) as Hfa.
  destruct (call_eq (sys_read fd 8) (log (EvRead fd) w)) as (a & e & X & _). rewrite X in *.
  cbn [snd] in Hr. rewrite Hid, Hr. cbn [mbind option_bind].
  apply (run_alarm_cb_keeps p) in Hr; [|intros Hc; specialize (Hka Hc); cbn; congruence].
  rewrite (Hr Hfa). cbn [mbind option_bind]. rewrite Hid. by destruct (run_once p).
Qed.

(** The client goes on only when the four options were given: then the
    hostname, the port string and the interface are set, and the local port is
    in the range 1 to 65535, which is what the rest of the program relies on. *)
Theorem options_complete `{Malloc} args w w' :
  parse_options args w = Running w' →
  ∃ c, w' = with_cfg c w ∧ is_Some (gw_hostname c) ∧ is_Some (gw_port c) ∧
    is_Some (local_iface c) ∧ 1 ≤ local_port c ≤ 65535.
Proof.
  unfold parse_options. destruct (parse_options_loop args [] (w_cfg w)) as [[seen c]| |] eqn:Hl; [|done..].
  case_decide as Hall; [|done]. intros [= <-]. exists c. split; [done|].
  apply parse_loop_stores in Hl; [|apply Forall_nil_2].
  assert (∀ o, o ∈ [Opt_h; Opt_p; Opt_i; Opt_l] → option_stored o c) as Hst.
  { intros o Ho. apply (proj1 (list.Forall_forall _ _) Hl).
    by apply (proj1 (list.Forall_forall _ _) Hall). }
  split_and!; [apply (Hst Opt_h)|apply (Hst Opt_p)|apply (Hst Opt_i)|apply (Hst Opt_l)..]; set_solver.
Qed.

End ClientProperties.

Lemma callbacks_keep_entries_witness :
  let w := world_registered 3 in
  ∃ w', @run_sched_cb le_host Z (sim_env [] []) SC_atlas_alarm_trigger 22 w = Some w' ∧
    sched_ext (w_sched w) (w_sched w').
Proof.
  intros w. destruct (@run_sched_cb le_host Z (sim_env [] []) SC_atlas_alarm_trigger 22 w) as [w'|] eqn:Hr.
  - exists w'. split; [done|].
    exact (proj1 (@callbacks_keep_entries le_host Z (sim_env [] [])) SC_atlas_alarm_trigger 22 w w' Hr).
  - exfalso. revert Hr. by vm_compute.
Defined.

(** The keep-alive alarm of a registered client fires. *)
Lemma trigger_finds_entry_witness :
  let w := world_registered 3 in
  ∃ w1, @run_alarm_cb le_host Z (sim_env [] []) AC_keepalive_alarm_callback 22
      (@call Z _ (@sys_read Z (sim_env [] []) 22 8) (log (EvRead 22) w)).2 = Some w1 ∧
    @atlas_alarm_trigger Z (sim_env [] []) (@run_alarm_cb le_host Z (sim_env [] [])) 22 w = Some w1.
Proof.
  intros w.
  destruct (@run_alarm_cb le_host Z (sim_env [] []) AC_keepalive_alarm_callback 22
      (@call Z _ (@sys_read Z (sim_env [] []) 22 8) (log (EvRead 22) w)).2) as [w1|] eqn:Hr.
  - exists w1. split; [done|].
    exact (@trigger_finds_entry le_host Z (sim_env [] []) 22 w
      (mk_alarm 0 22 AC_keepalive_alarm_callback false) w1 eq_refl
      ltac:(by apply (bool_decide_unpack _); vm_compute) ltac:(done) Hr).
  - exfalso. revert Hr. by vm_compute.
Defined.

Definition cli_args : list (cli_option * list byte) :=
  [(Opt_h, B "gw"); (Opt_p, B "5684"); (Opt_i, B "eth0"); (Opt_l, B "5683")].

Lemma options_complete_witness :
  ∃ c, @parse_options le_host padded_malloc Z cli_args (initial_world 20) =
       Running (with_cfg c (initial_world 20)) ∧ 1 ≤ local_port c ≤ 65535.
Proof.
  destruct (@parse_options le_host padded_malloc Z cli_args (initial_world 20)) as [w'| |] eqn:Hr.
  - destruct (@options_complete le_host Z padded_malloc cli_args (initial_world 20) w' Hr)
      as (c & -> & _ & _ & _ & Hc). by exists c.
  - exfalso. revert Hr. by vm_compute.
  - exfalso. revert Hr. by vm_compute.
Defined.
