(* ===== verification/DpClient.v ===== *)
(** * The data plane library ([data_plane/atlas_client.c])

    The other end of the connector's socket, linked into the data plane
    application: its own process, with its own state. It registers the firewall
    policy, counts the packets the application receives and reports them every
    minute, asks for the identity with the best reputation and sends feedback.

    The loops that write until the whole command is accepted, and that connect
    until the client answers, have no bound in the code: they take fuel here and
    end in an [outcome]. The counters are shared by two threads under a mutex;
    the critical sections are the operations on [dp_stats]. *)

From stdpp Require Import gmap.
From S2P Require Import Prelude Protocol Command CString Scheduler State Config Identity Alarm.
From S2P Require Import CoapClient Request Connector.

Definition SLEEPTIME : Z := 60.
Definition ATLAS_CLIENT_DATA_PLANE_BUFFER_LEN : Z := 2048.
Definition ATLAS_CLIENT_DATA_PLANE_FEEDBACKS_SCORE_MAX : Z := 100.
Definition ATLAS_IDENTITY_MAX_LEN : Z := 64.
Definition ATLAS_SENSOR_TEMPERATURE : Z := 101.

Record client_info_t := mk_client_info {
  ci_qos : Z;
  ci_packets_per_min : Z;
  ci_packets_maxlen : Z
}.

Record atlas_feedback_t := mk_feedback {
  fb_identity : list byte;     (* the array of ATLAS_IDENTITY_MAX_LEN characters *)
  fb_sensor_type : Z;
  fb_sensor_score : Z;
  fb_time_score : Z
}.

(** The three counters, which are C ints. *)
Record dp_stats := mk_stats {
  payload_samples : Z;
  payload_total : Z;
  payload_avg : Z
}.

(** ** The counters *)

(** Overflow of an int, and a division without a result, are undefined. *)
Definition int_add (a b : Z) : option Z :=
  if decide (- 2 ^ 31 ≤ a + b < 2 ^ 31) then Some (a + b) else None.
Definition int_div (a b : Z) : option Z :=
  if decide (b = 0 ∨ a = - 2 ^ 31 ∧ b = -1) then None else Some (Z.quot a b).

(** The critical section of [atlas_pkt_received]. *)
Definition atlas_pkt_received (payload_len : Z) (s : dp_stats) : option dp_stats :=
  samples ← int_add (payload_samples s) 1;
  total ← int_add (payload_total s) payload_len;
  avg ← int_div total samples;
  Some (mk_stats samples total avg).

(** The critical section of [send_statistics_command]: the commands of the
    batch, and the counters reset. *)
Definition take_statistics `{Host} (s : dp_stats) : list (Z * list byte) * dp_stats :=
  ([(ATLAS_CMD_DATA_PLANE_PACKETS_PER_MINUTE, store32 (payload_samples s));
    (ATLAS_CMD_DATA_PLANE_PACKETS_AVG, store32 (payload_avg s))], mk_stats 0 0 0).

(** ** The socket *)

Class DpEnv (E : Type) := {
  dp_close : Z → E → E;
  dp_sleep : Z → E → E;
  dp_socket : E → Z * E;
  dp_connect : Z → E → Z * E;
  dp_write : Z → list byte → E → Z * E;
  dp_read : Z → Z → E → Z * list byte * E
}.

Inductive dp_event :=
| DpClose (fd : Z)
| DpConnected (fd : Z)
| DpWrite (fd : Z) (bs : list byte).

#[export] Instance outcome_bind : MBind outcome := λ A B f m,
  match m with Done a => f a | Fault => Fault | NoFuel => NoFuel end.

Definition of_option {A} (x : option A) : outcome A :=
  match x with Some a => Done a | None => Fault end.

Section DataPlane.
Context `{Host} {E : Type} `{DpEnv E}.

Record dp_state := mk_dp {
  dp_env : E;
  dp_trace : list dp_event;
  dp_fd : Z;
  dp_client : client_info_t;
  dp_stat : dp_stats
}.

Implicit Types s : dp_state.

Definition dp_log (ev : dp_event) s : dp_state :=
  mk_dp (dp_env s) (dp_trace s ++ [ev]) (dp_fd s) (dp_client s) (dp_stat s).
Definition dp_with_env (e : E) s : dp_state :=
  mk_dp e (dp_trace s) (dp_fd s) (dp_client s) (dp_stat s).
Definition dp_with_fd (fd : Z) s : dp_state :=
  mk_dp (dp_env s) (dp_trace s) fd (dp_client s) (dp_stat s).
Definition dp_with_stat (x : dp_stats) s : dp_state :=
  mk_dp (dp_env s) (dp_trace s) (dp_fd s) (dp_client s) x.

Definition write_to_socket (cmd_buf : list byte) s : Z * dp_state :=
  let '(rc, e) := dp_write (dp_fd s) cmd_buf (dp_env s) in
  (rc, dp_with_env e (dp_log (DpWrite (dp_fd s) cmd_buf) s)).

(** The bytes of a batch of these commands. *)
Definition batch_bytes (cs : list (Z * list byte)) : option (list byte) :=
  '(buf, len) ← build_batch cs;
  pl ← buf_bytes buf len;
  Some (default [] pl).

(** The buffer [send_registration_command] writes: a batch in a batch. *)
Definition registration_bytes (c : client_info_t) : option (list byte) :=
  inner ← batch_bytes
    [(ATLAS_CMD_DATA_PLANE_POLICY_QOS, store16 (ci_qos c));
     (ATLAS_CMD_DATA_PLANE_POLICY_PACKETS_PER_MINUTE, store16 (ci_packets_per_min c));
     (ATLAS_CMD_DATA_PLANE_POLICY_PACKETS_MAXLEN, store16 (ci_packets_maxlen c))];
  batch_bytes [(ATLAS_CMD_DATA_PLANE_POLICY, inner)].

(** [while (rc) { rc = connect (...); ... sleep (1); }] *)
Fixpoint connect_loop (fuel : nat) s : outcome dp_state :=
  match fuel with
  | O => NoFuel
  | S fuel =>
      let '(rc, e) := dp_connect (dp_fd s) (dp_env s) in
      if decide (rc = 0) then Done (dp_log (DpConnected (dp_fd s)) (dp_with_env e s))
      else connect_loop fuel (dp_with_env (dp_sleep 1 e) s)
  end.

(** [retry] is [write_to_socket_retry], which this function calls in turn. *)
Definition socket_connect (retry : list byte → dp_state → outcome dp_state) (fuel : nat) s
    : outcome dp_state :=
  let s := dp_with_env (dp_close (dp_fd s) (dp_env s)) (dp_log (DpClose (dp_fd s)) s) in
  let '(fd, e) := dp_socket (dp_env s) in
  let s := dp_with_fd fd (dp_with_env e s) in
  if decide (fd = -1) then Done s else
  s ← connect_loop fuel s;
  cmd_buf ← of_option (registration_bytes (dp_client s));
  retry cmd_buf s.

Fixpoint write_to_socket_retry (fuel : nat) (cmd_buf : list byte) s : outcome dp_state :=
  let '(bytes, s) := write_to_socket cmd_buf s in
  if decide (bytes = zlen cmd_buf) then Done s else
  match fuel with
  | O => NoFuel
  | S fuel =>
      s ← socket_connect (write_to_socket_retry fuel) fuel s;
      write_to_socket_retry fuel cmd_buf s
  end.

Definition send_statistics_command (fuel : nat) s : outcome dp_state :=
  let '(cs, st) := take_statistics (dp_stat s) in
  let s := dp_with_stat st s in
  cmd_buf ← of_option (batch_bytes cs);
  write_to_socket_retry fuel cmd_buf s.

(** [n] turns of the background thread. *)
Fixpoint register_to_atlas_client (n fuel : nat) s : outcome dp_state :=
  match n with
  | O => Done s
  | S n =>
      s ← send_statistics_command fuel s;
      register_to_atlas_client n fuel (dp_with_env (dp_sleep SLEEPTIME (dp_env s)) s)
  end.

(** [bytes = read (fd, buf, sizeof (buf))] into an uninitialised array. *)
Definition dp_read_buf s : option (Z * list byte * dp_state) :=
  let '(rc, bs, e) := dp_read (dp_fd s) ATLAS_CLIENT_DATA_PLANE_BUFFER_LEN (dp_env s) in
  buf ← mwrite (malloc ATLAS_CLIENT_DATA_PLANE_BUFFER_LEN) 0
          (take (Z.to_nat (Z.min rc ATLAS_CLIENT_DATA_PLANE_BUFFER_LEN)) bs);
  Some (rc, buf, dp_with_env e s).

(** [calloc (1, cmd->length + 1)] and the copy of the value. *)
Definition copy_value (cmd : atlas_cmd_t) : option (list byte) :=
  v ← mread (cmd_value cmd) 0 (cmd_length cmd);
  mwrite (zeros (cmd_length cmd + 1)) 0 v.

Definition identity_body (cmd : atlas_cmd_t) (identity : option (list byte))
    : option (option (list byte) * bool) :=
  if decide (cmd_type cmd = ATLAS_CMD_DATA_PLANE_IDENTITY) then
    blk ← copy_value cmd;
    Some (Some blk, true)
  else Some (identity, false).

(** [identity] is [*identity]. *)
Definition send_identity_command (fuel : nat) (identity : option (list byte)) s
    : outcome (atlas_status_t * option (list byte) * dp_state) :=
  cmd_buf ← of_option (batch_bytes [(ATLAS_CMD_DATA_PLANE_GET_IDENTITY, [])]);
  s ← write_to_socket_retry fuel cmd_buf s;
  '(bytes, buf, s) ← of_option (dp_read_buf s);
  if decide (bytes <= 0) then Done (ATLAS_SOCKET_ERROR, identity, s) else
  '(status, cmd_batch) ← of_option (atlas_cmd_batch_set_raw atlas_cmd_batch_new (Some buf) (u16 bytes));
  if decide (status = ATLAS_OK) then
    identity ← of_option (cmd_foreach cmd_batch identity_body None);
    Done (ATLAS_OK, identity, s)
  else Done (status, identity, s).

(** [sensor_score] and [time_score] are 16-bit, [sensor_type] an enum. *)
Definition feedback_bytes (f : atlas_feedback_t) : option (list byte) :=
  identity ← cstr_of (fb_identity f);
  inner ← batch_bytes
    [(ATLAS_CMD_DATA_PLANE_FEEDBACK_IDENTITY, identity);
     (ATLAS_CMD_DATA_PLANE_FEEDBACK_SENSOR_TYPE, store16 (htons (u16 (fb_sensor_type f))));
     (ATLAS_CMD_DATA_PLANE_FEEDBACK_SENSOR, store16 (htons (fb_sensor_score f)));
     (ATLAS_CMD_DATA_PLANE_FEEDBACK_RESPONSE_TIME, store16 (htons (fb_time_score f)))];
  batch_bytes [(ATLAS_CMD_DATA_PLANE_FEEDBACK, inner)].

Definition send_feedback_command (f : atlas_feedback_t) s : option (atlas_status_t * dp_state) :=
  cmd_buf ← feedback_bytes f;
  let '(bytes, s) := write_to_socket cmd_buf s in
  if decide (bytes = zlen cmd_buf) then Some (ATLAS_OK, s) else Some (ATLAS_GENERAL_ERR, s).

(** The loop; the address of the array [identity] is never NULL. *)
Fixpoint feedback_loop (l : list atlas_feedback_t) s : option (atlas_status_t * dp_state) :=
  match l with
  | [] => Some (ATLAS_OK, s)
  | f :: l =>
      if decide (fb_sensor_score f > ATLAS_CLIENT_DATA_PLANE_FEEDBACKS_SCORE_MAX)
      then Some (ATLAS_INVALID_INPUT, s)
      else if decide (fb_time_score f > ATLAS_CLIENT_DATA_PLANE_FEEDBACKS_SCORE_MAX)
      then Some (ATLAS_INVALID_INPUT, s)
      else
        '(_, s) ← send_feedback_command f s;
        feedback_loop l s
  end.

Definition atlas_reputation_feedback (feedback : option (list atlas_feedback_t)) s
    : option (atlas_status_t * dp_state) :=
  match feedback with
  | None | Some [] => Some (ATLAS_INVALID_INPUT, s)
  | Some l => feedback_loop l s
  end.

(** The state of the loop: [*identity] and [status]. *)
Definition reputation_body (cmd : atlas_cmd_t) (st : option (list byte) * atlas_status_t)
    : option ((option (list byte) * atlas_status_t) * bool) :=
  if decide (cmd_type cmd = ATLAS_CMD_DATA_PLANE_FEATURE_REPUTATION) then
    blk ← copy_value cmd;
    Some ((Some blk, st.2), true)
  else if decide (cmd_type cmd = ATLAS_CMD_DATA_PLANE_FEATURE_ERROR)
  then Some ((st.1, ATLAS_GENERAL_ERR), true)
  else Some (st, false).

(** [identity] is the pointer, and what it points to. *)
Definition atlas_reputation_request (sensor_type : Z) (identity : option (option (list byte))) s
    : option (atlas_status_t * option (list byte) * dp_state) :=
  match identity with
  | None => Some (ATLAS_INVALID_INPUT, None, s)
  | Some identity =>
  cmd_buf ← batch_bytes [(ATLAS_CMD_DATA_PLANE_FEATURE_REPUTATION, store16 (htons (u16 sensor_type)))];
  let '(bytes, s) := write_to_socket cmd_buf s in
  if decide (bytes ≠ zlen cmd_buf) then Some (ATLAS_SOCKET_ERROR, identity, s) else
  '(bytes, buf, s) ← dp_read_buf s;
  if decide (bytes <= 0) then Some (ATLAS_SOCKET_ERROR, identity, s) else
  '(status, cmd_batch) ← atlas_cmd_batch_set_raw atlas_cmd_batch_new (Some buf) (u16 bytes);
  if decide (status = ATLAS_OK) then
    '(identity, status) ← cmd_foreach cmd_batch reputation_body (identity, ATLAS_OK);
    Some (status, identity, s)
  else Some (status, identity, s)
  end.

(** Up to the creation of the background thread. *)
Definition atlas_init (fuel : nat) (qos ppm pack_maxlen : Z)
    (identity : option (option (list byte))) s
    : outcome (atlas_status_t * option (list byte) * dp_state) :=
  match identity with
  | None => Done (ATLAS_INVALID_INPUT, None, s)
  | Some identity =>
      let s := mk_dp (dp_env s) (dp_trace s) (dp_fd s) (mk_client_info qos ppm pack_maxlen)
                 (dp_stat s) in
      s ← socket_connect (write_to_socket_retry fuel) fuel s;
      send_identity_command fuel identity s
  end.

End DataPlane.
Arguments dp_state : clear implicits.

(** ** The counters, under any interleaving of the two threads *)

(** What the threads do, in the order of the mutex. *)
Inductive stat_op := Packet (len : Z) | Report.

(** The commands of each report, and the counters left. *)
Fixpoint run_stats `{Host} (ops : list stat_op) (s : dp_stats)
    : option (list (list (Z * list byte)) * dp_stats) :=
  match ops with
  | [] => Some ([], s)
  | Packet len :: ops => s ← atlas_pkt_received len s; run_stats ops s
  | Report :: ops =>
      let '(cmds, s) := take_statistics s in
      '(reports, s) ← run_stats ops s;
      Some (cmds :: reports, s)
  end.

(** The packets of each report, and those since the last one. *)
Fixpoint report_packets (ops : list stat_op) (cur : list Z) : list (list Z) * list Z :=
  match ops with
  | [] => ([], cur)
  | Packet len :: ops => report_packets ops (cur ++ [len])
  | Report :: ops => let '(segs, last) := report_packets ops [] in (cur :: segs, last)
  end.

Definition total (l : list Z) : Z := foldr Z.add 0 l.
Definition average (l : list Z) : Z := Z.quot (total l) (zlen l).
Definition stats_of (l : list Z) : dp_stats := mk_stats (zlen l) (total l) (average l).

Lemma total_app l k : total (l ++ k) = total l + total k.
Proof. unfold total. induction l as [|x l IH]; simpl; [done|]. rewrite IH. lia. Qed.

Lemma int_add_Some a b c : int_add a b = Some c → c = a + b.
Proof. unfold int_add. case_decide; [by intros [= <-]|done]. Qed.

Lemma int_div_Some a b c : int_div a b = Some c → c = Z.quot a b.
Proof. unfold int_div. case_decide; [done|by intros [= <-]]. Qed.

Lemma pkt_received_stats_of len l s :
  atlas_pkt_received len (stats_of l) = Some s → s = stats_of (l ++ [len]).
Proof.
  unfold atlas_pkt_received, stats_of. cbn [payload_samples payload_total].
  intros Hs. apply bind_Some in Hs as (n & ->%int_add_Some & Hs).
  apply bind_Some in Hs as (m & ->%int_add_Some & Hs).
  apply bind_Some in Hs as (a & ->%int_div_Some & Hs).
  apply (inj Some) in Hs as <-. unfold average. rewrite total_app, zlen_app.
  change (total [len]) with (len + 0). rewrite Z.add_0_r. done.
Qed.

(** What is reported of these packets: their number and their average. *)
Definition report_cmds `{Host} (l : list Z) : list (Z * list byte) :=
  [(ATLAS_CMD_DATA_PLANE_PACKETS_PER_MINUTE, store32 (zlen l));
   (ATLAS_CMD_DATA_PLANE_PACKETS_AVG, store32 (average l))].

Lemma run_stats_spec `{Host} ops l reports s :
  run_stats ops (stats_of l) = Some (reports, s) →
  let '(segs, last) := report_packets ops l in
  reports = report_cmds <$> segs ∧ s = stats_of last.
Proof.
  revert l reports s. induction ops as [|[len|] ops IH]; intros l reports s;
    cbn [run_stats report_packets].
  - by intros [= <- <-].
  - destruct (atlas_pkt_received len (stats_of l)) as [s1|] eqn:Hp; [|done].
    apply pkt_received_stats_of in Hp as ->. apply IH.
  - unfold take_statistics. change (mk_stats 0 0 0) with (stats_of []).
    intros Hr. apply bind_Some in Hr as ([reports' s'] & Hr & [= <- <-]). specialize (IH [] _ _ Hr).
    destruct (report_packets ops []) as [segs last]. destruct IH as [-> ->]. done.
Qed.

(** All the packets of a run. *)
Fixpoint packets (ops : list stat_op) : list Z :=
  match ops with
  | [] => []
  | Packet len :: ops => len :: packets ops
  | Report :: ops => packets ops
  end.

Lemma total_nonneg l : Forall (λ x, 0 ≤ x) l → 0 ≤ total l.
Proof. unfold total. induction 1; simpl; lia. Qed.

(** No counter overflows as long as neither the packets nor their bytes reach
    the largest int. *)
Lemma run_stats_total `{Host} ops l :
  Forall (λ x, 0 ≤ x) (l ++ packets ops) → zlen (l ++ packets ops) < 2 ^ 31 →
  total (l ++ packets ops) < 2 ^ 31 → is_Some (run_stats ops (stats_of l)).
Proof.
  revert l. induction ops as [|[len|] ops IH]; intros l Hl Hn Ht; cbn [run_stats packets] in *;
    [eauto|..].
  - assert (0 ≤ total l ∧ 0 ≤ len ∧ 0 ≤ total (packets ops)) as (Hp & Hx & Ho).
    { apply Forall_app in Hl as [Hl Ho]. apply Forall_cons_1 in Ho as [? Ho].
      split_and!; [by apply total_nonneg|done|by apply total_nonneg]. }
    replace (l ++ len :: packets ops) with ((l ++ [len]) ++ packets ops) in * by (by rewrite <- app_assoc).
    assert (is_Some (atlas_pkt_received len (stats_of l))) as [s Hs].
    { rewrite !total_app in Ht. change (total [len]) with (len + 0) in Ht.
      rewrite !zlen_app in Hn. change (zlen [len]) with 1 in Hn.
      pose proof (zlen_nonneg l). pose proof (zlen_nonneg (packets ops)).
      unfold atlas_pkt_received, int_add, int_div, stats_of. cbn [payload_samples payload_total].
      rewrite decide_True by lia. cbn [mbind option_bind]. rewrite decide_True by lia.
      cbn [mbind option_bind]. rewrite decide_False by lia. eauto. }
    rewrite Hs. apply pkt_received_stats_of in Hs as ->. by apply IH.
  - unfold take_statistics. change (mk_stats 0 0 0) with (stats_of []).
    apply Forall_app in Hl as [Hl Ho]. apply total_nonneg in Hl. rewrite total_app in Ht.
    rewrite zlen_app in Hn. pose proof (zlen_nonneg l).
    destruct (IH [] Ho ltac:(cbn [app]; lia) ltac:(cbn [app]; lia)) as [[r s] ->]. eauto.
Qed.

Lemma report_packets_concat ops cur :
  let '(segs, last) := report_packets ops cur in concat segs ++ last = cur ++ packets ops.
Proof.
  revert cur. induction ops as [|[len|] ops IH]; intros cur; cbn [report_packets packets].
  - by rewrite app_nil_r.
  - specialize (IH (cur ++ [len])). by rewrite <- app_assoc in IH.
  - specialize (IH []). destruct (report_packets ops []) as [segs last].
    cbn [concat]. by rewrite <- app_assoc, IH.
Qed.

(** How many reports there were. *)
Fixpoint reports (ops : list stat_op) : nat :=
  match ops with
  | [] => 0
  | Packet _ :: ops => reports ops
  | Report :: ops => S (reports ops)
  end.

Lemma report_packets_length ops cur : length (report_packets ops cur).1 = reports ops.
Proof.
  revert cur. induction ops as [|[len|] ops IH]; intros cur; cbn [report_packets reports]; [done|by rewrite IH|].
  specialize (IH []). destruct (report_packets ops []) as [segs last]. cbn in *. by rewrite IH.
Qed.

(** ** The socket: lemmas *)

Section SocketLemmas.
Context `{Host} {E : Type} `{DpEnv E}.
Implicit Types s : dp_state E.

(** [connect] succeeds after this many failures, each followed by a second of
    sleep. *)
Inductive connects (fd : Z) : nat → E → E → Prop :=
| connects_now e e' : dp_connect fd e = (0, e') → connects fd 0 e e'
| connects_later k e rc e1 e' :
    dp_connect fd e = (rc, e1) → rc ≠ 0 → connects fd k (dp_sleep 1 e1) e' →
    connects fd (S k) e e'.

Lemma connect_loop_ok k fuel fd s e' :
  dp_fd s = fd → connects fd k (dp_env s) e' → (k < fuel)%nat →
  connect_loop fuel s = Done (dp_log (DpConnected fd) (dp_with_env e' s)).
Proof.
  intros Hfd Hc. remember (dp_env s) as e eqn:He. revert s fuel He Hfd.
  induction Hc as [e e' Hc|k e rc e1 e' Hc Hrc Hk IH]; intros s [|fuel] -> Hfd Hf; try lia;
    cbn [connect_loop]; rewrite Hfd, Hc.
  - done.
  - rewrite decide_False by done.
    rewrite (IH (dp_with_env (dp_sleep 1 e1) s)) by (done || lia). done.
Qed.

Lemma batch_bytes_eq cs : fits cs → batch_bytes cs = Some (encode cs).
Proof.
  intros Hf. unfold batch_bytes. rewrite build_batch_eq by done. cbn [mbind option_bind buf_bytes].
  by rewrite mread_all.
Qed.

(** The registration, as the list of its commands. *)
Definition registration_cmds (c : client_info_t) : list (Z * list byte) :=
  [(ATLAS_CMD_DATA_PLANE_POLICY,
    encode (native_policy (ci_qos c) (ci_packets_per_min c) (ci_packets_maxlen c)))].

Lemma native_policy_fits q p l : fits (native_policy q p l).
Proof. split_and!; [done|apply native_policy_wf|by rewrite zlen_native_policy]. Qed.

Lemma zlen_registration c : zlen (encode (registration_cmds c)) = 22.
Proof.
  unfold registration_cmds. rewrite encode_cons, encode_nil, zlen_app, zlen_encode_cmd. cbn [snd].
  by rewrite zlen_native_policy.
Qed.

Lemma registration_fits c : fits (registration_cmds c).
Proof.
  split_and!; [done| |].
  - apply Forall_cons_2; [|apply Forall_nil_2]. split; [done|]. cbn [snd].
    by rewrite zlen_native_policy.
  - by rewrite zlen_registration.
Qed.

Lemma registration_bytes_eq c : registration_bytes c = Some (encode (registration_cmds c)).
Proof.
  transitivity (inner ← batch_bytes (native_policy (ci_qos c) (ci_packets_per_min c) (ci_packets_maxlen c));
    batch_bytes [(ATLAS_CMD_DATA_PLANE_POLICY, inner)]); [done|].
  rewrite batch_bytes_eq by apply native_policy_fits.
  cbn [mbind option_bind]. apply (batch_bytes_eq (registration_cmds c)), registration_fits.
Qed.

(** A write that the kernel takes whole. *)
Lemma retry_ok fuel buf s e :
  dp_write (dp_fd s) buf (dp_env s) = (zlen buf, e) →
  write_to_socket_retry fuel buf s =
  Done (dp_with_env e (dp_log (DpWrite (dp_fd s) buf) s)).
Proof.
  intros Hw. destruct fuel; cbn [write_to_socket_retry]; unfold write_to_socket; rewrite Hw;
    by rewrite decide_True.
Qed.

Lemma retry_never_done fuel buf s :
  (∀ fd bs e, (dp_write fd bs e).1 ≠ zlen bs) →
  ∀ s', write_to_socket_retry fuel buf s ≠ Done s'.
Proof.
  intros Hw. revert buf s. induction fuel as [|fuel IH]; intros buf s s';
    cbn [write_to_socket_retry]; unfold write_to_socket;
    pose proof (Hw (dp_fd s) buf (dp_env s)) as Hn;
    destruct (dp_write (dp_fd s) buf (dp_env s)) as [rc e]; cbn [fst] in Hn;
    rewrite decide_False by done; [done|].
  destruct (socket_connect _ _ _) as [s1| |]; cbn [mbind outcome_bind]; [apply IH|done..].
Qed.

End SocketLemmas.

(** ** The answers of the client: lemmas *)

Section AnswerLemmas.
Context `{Host} {E : Type} `{DpEnv E}.
Implicit Types s : dp_state E.

(** The value of a command, as the string that is allocated for it. *)
Lemma copy_value_view t v post :
  copy_value (mk_cmd t (zlen v) (v ++ post)) = Some (v ++ [x00]).
Proof.
  unfold copy_value. cbn [cmd_value cmd_length]. rewrite mread_head by done.
  cbn [mbind option_bind]. rewrite mwrite_zeros by lia.
  by replace (zlen v + 1 - zlen v) with 1 by lia.
Qed.

(** The command that decides the answer to a reputation request. *)
Definition is_reputation_answer (c : Z * list byte) : bool :=
  bool_decide (c.1 = ATLAS_CMD_DATA_PLANE_FEATURE_REPUTATION ∨
               c.1 = ATLAS_CMD_DATA_PLANE_FEATURE_ERROR).

Definition reputation_answer (id : option (list byte)) (cs : list (Z * list byte))
    : option (list byte) * atlas_status_t :=
  match find_first is_reputation_answer cs with
  | None => (id, ATLAS_OK)
  | Some c => if decide (c.1 = ATLAS_CMD_DATA_PLANE_FEATURE_REPUTATION)
              then (Some (c.2 ++ [x00]), ATLAS_OK) else (id, ATLAS_GENERAL_ERR)
  end.

Lemma reputation_answer_view t v post st :
  reputation_body (mk_cmd t (zlen v) (v ++ post)) st =
  Some (if decide (t = ATLAS_CMD_DATA_PLANE_FEATURE_REPUTATION)
        then ((Some (v ++ [x00]), st.2), true)
        else if decide (t = ATLAS_CMD_DATA_PLANE_FEATURE_ERROR)
        then ((st.1, ATLAS_GENERAL_ERR), true) else (st, false)).
Proof.
  unfold reputation_body. cbn [cmd_type]. case_decide; [by rewrite copy_value_view|].
  by case_decide.
Qed.

Lemma fold_reputation_answer cs id :
  fold_views reputation_body (views cs) (id, ATLAS_OK) = Some (reputation_answer id cs).
Proof.
  unfold reputation_answer, find_first, is_reputation_answer.
  induction cs as [|[t v] cs IH]; [done|].
  cbn [views fold_views fst snd List.find]. rewrite reputation_answer_view.
  cbn [mbind option_bind fst snd].
  destruct (decide (t = ATLAS_CMD_DATA_PLANE_FEATURE_REPUTATION)) as [->|Hr].
  { rewrite bool_decide_true by (by left). by rewrite decide_True. }
  destruct (decide (t = ATLAS_CMD_DATA_PLANE_FEATURE_ERROR)) as [->|He].
  { rewrite bool_decide_true by (by right). by rewrite decide_False. }
  rewrite bool_decide_false by tauto. exact IH.
Qed.

(** What [read] stores in the buffer of the callers. *)
Lemma dp_read_buf_eq s bs e :
  dp_read (dp_fd s) ATLAS_CLIENT_DATA_PLANE_BUFFER_LEN (dp_env s) = (zlen bs, bs, e) →
  zlen bs ≤ 2048 →
  ∃ junk, dp_read_buf s = Some (zlen bs, bs ++ junk, dp_with_env e s).
Proof.
  intros Hr Hl. unfold dp_read_buf. rewrite Hr. unfold ATLAS_CLIENT_DATA_PLANE_BUFFER_LEN.
  rewrite take_ge by (unfold zlen in *; lia). unfold malloc.
  replace (Z.to_nat 2048) with (length bs + Z.to_nat (2048 - zlen bs))%nat by (unfold zlen in *; lia).
  rewrite replicate_add, mwrite_head by (by rewrite zlen_replicate).
  cbn [mbind option_bind]. by eexists.
Qed.

Lemma sensor_request_fits v : fits [(ATLAS_CMD_DATA_PLANE_FEATURE_REPUTATION, store16 v)].
Proof.
  split_and!; [done|apply Forall_cons_2; [by apply wf_store16|apply Forall_nil_2]|].
  rewrite encode_cons, encode_nil, zlen_app, zlen_encode_cmd. cbn [snd]. by rewrite zlen_store16.
Qed.

End AnswerLemmas.

(** ** Feedback: lemmas *)

Section FeedbackLemmas.
Context `{Host} {E : Type} `{DpEnv E}.
Implicit Types s : dp_state E.

Definition feedback_cmds (f : atlas_feedback_t) : list (Z * list byte) :=
  [(ATLAS_CMD_DATA_PLANE_FEEDBACK_IDENTITY, c_string (fb_identity f));
   (ATLAS_CMD_DATA_PLANE_FEEDBACK_SENSOR_TYPE, be16 (fb_sensor_type f));
   (ATLAS_CMD_DATA_PLANE_FEEDBACK_SENSOR, be16 (fb_sensor_score f));
   (ATLAS_CMD_DATA_PLANE_FEEDBACK_RESPONSE_TIME, be16 (fb_time_score f))].

(** The array of the identity holds a string, and the numbers fit their types. *)
Definition feedback_ok (f : atlas_feedback_t) : Prop :=
  x00 ∈ fb_identity f ∧ zlen (fb_identity f) = 64 ∧ 0 ≤ fb_sensor_type f < 65536 ∧
  0 ≤ fb_sensor_score f < 65536 ∧ 0 ≤ fb_time_score f < 65536.

#[export] Instance feedback_ok_dec f : Decision (feedback_ok f).
Proof. unfold feedback_ok. apply _. Defined.

Definition in_range (f : atlas_feedback_t) : bool :=
  bool_decide (fb_sensor_score f ≤ 100 ∧ fb_time_score f ≤ 100).

(** The feedback before the first one that is out of range. *)
Fixpoint valid_prefix (l : list atlas_feedback_t) : list atlas_feedback_t :=
  match l with
  | [] => []
  | f :: l => if in_range f then f :: valid_prefix l else []
  end.

Lemma feedback_bytes_eq f :
  feedback_ok f →
  feedback_bytes f = Some (encode [(ATLAS_CMD_DATA_PLANE_FEEDBACK, encode (feedback_cmds f))]).
Proof.
  intros (Hn & Hl & Ht & Hs & Hr). apply cstr_in_exists in Hn as Hc.
  assert (zlen (c_string (fb_identity f)) ≤ 64) as Hid.
  { destruct Hc as (_ & rest & Hb). apply (f_equal zlen) in Hb. rewrite zlen_app, zlen_cons in Hb.
    pose proof (zlen_nonneg rest). lia. }
  unfold feedback_bytes. rewrite (cstr_of_in _ _ Hc). cbn [mbind option_bind].
  rewrite u16_small, !store16_htons by done.
  assert (zlen (encode (feedback_cmds f)) ≤ 86) as Hz.
  { unfold feedback_cmds. rewrite !encode_cons, encode_nil, !zlen_app, !zlen_encode_cmd. cbn [snd].
    rewrite !zlen_be16. change (zlen (@nil byte)) with 0. lia. }
  pose proof (zlen_nonneg (c_string (fb_identity f))).
  rewrite (batch_bytes_eq (feedback_cmds f)).
  2:{ split_and!; [done| |lia].
      repeat apply Forall_cons_2; [..|apply Forall_nil_2]; split; cbn [fst snd];
        rewrite ?zlen_be16; (done || lia). }
  cbn [mbind option_bind]. apply batch_bytes_eq. split_and!; [done| |].
  - apply Forall_cons_2; [|apply Forall_nil_2]. split; cbn [fst snd]; (done || lia).
  - rewrite encode_cons, encode_nil, zlen_app, zlen_encode_cmd. cbn [snd]. zlen_lia.
Qed.

Lemma feedback_loop_spec l s :
  Forall feedback_ok l →
  ∃ s', feedback_loop l s =
      Some (if forallb in_range l then ATLAS_OK else ATLAS_INVALID_INPUT, s') ∧
    dp_fd s' = dp_fd s ∧
    dp_trace s' = dp_trace s ++
      ((λ f, DpWrite (dp_fd s) (encode [(ATLAS_CMD_DATA_PLANE_FEEDBACK, encode (feedback_cmds f))])) <$>
       valid_prefix l).
Proof.
  revert s. induction l as [|f l IH]; intros s Hl; cbn [feedback_loop forallb valid_prefix].
  { exists s. by rewrite app_nil_r. }
  apply Forall_cons_1 in Hl as [Hf Hl].
  unfold in_range at 1 3, ATLAS_CLIENT_DATA_PLANE_FEEDBACKS_SCORE_MAX.
  destruct (decide (fb_sensor_score f > 100)) as [Hs|Hs].
  { exists s. rewrite bool_decide_false by lia. by rewrite app_nil_r. }
  destruct (decide (fb_time_score f > 100)) as [Ht|Ht].
  { exists s. rewrite bool_decide_false by lia. by rewrite app_nil_r. }
  rewrite bool_decide_true by lia. cbn [andb].
  unfold send_feedback_command. rewrite feedback_bytes_eq by done. cbn [mbind option_bind].
  unfold write_to_socket. destruct (dp_write _ _ _) as [rc e].
  set (s1 := dp_with_env e _).
  destruct (IH s1 Hl) as (s' & Hr & Hfd & Htr). exists s'. split_and!.
  - by case_decide; cbn [mbind option_bind].
  - exact Hfd.
  - rewrite Htr. unfold s1. cbn [dp_trace dp_with_env dp_log dp_fd]. by rewrite <- app_assoc.
Qed.

End FeedbackLemmas.

(** ** Properties *)

Section DataPlaneProperties.
Context `{Host} {E : Type} `{DpEnv E}.
Implicit Types s : dp_state E.

(** C22. Under any interleaving of received packets and reports, no packet is
    lost and none is counted twice, as long as the packets fit an int: each
    report carries the number and the average of the packets since the report
    before it, the counters that remain are those of the packets since the last
    one, and together these groups are all the packets, in order. *)
Theorem no_packet_lost ops :
  Forall (λ x, 0 ≤ x) (packets ops) → zlen (packets ops) < 2 ^ 31 → total (packets ops) < 2 ^ 31 →
  let '(groups, last) := report_packets ops [] in
  concat groups ++ last = packets ops ∧ length groups = reports ops ∧
  run_stats ops (mk_stats 0 0 0) =
    Some ((λ l, [(ATLAS_CMD_DATA_PLANE_PACKETS_PER_MINUTE, store32 (zlen l));
                 (ATLAS_CMD_DATA_PLANE_PACKETS_AVG, store32 (average l))]) <$> groups,
          mk_stats (zlen last) (total last) (average last)).
Proof.
  intros Hp Hn Ht. destruct (run_stats_total ops [] Hp Hn Ht) as [[rs s] Hr].
  apply run_stats_spec in Hr as Hs. pose proof (report_packets_concat ops []) as Hc.
  pose proof (report_packets_length ops []) as Hl.
  destruct (report_packets ops []) as [groups last]. destruct Hs as [-> ->]. by split_and!.
Qed.

(** C32. A write that fails makes the library connect again, however many
    attempts that takes, send the registration of its policy first and then the
    command again; when no write ever succeeds, it never ends. *)
Theorem lost_connection_registers_again fuel buf s rc e1 fd' e2 k e3 :
  dp_write (dp_fd s) buf (dp_env s) = (rc, e1) → rc ≠ zlen buf →
  dp_socket (dp_close (dp_fd s) e1) = (fd', e2) → fd' ≠ -1 →
  connects fd' k e2 e3 → (k < fuel)%nat →
  (∀ bs e, (dp_write fd' bs e).1 = zlen bs) →
  ∃ s', write_to_socket_retry (S fuel) buf s = Done s' ∧
    dp_fd s' = fd' ∧ dp_stat s' = dp_stat s ∧
    dp_trace s' = dp_trace s ++
      [DpWrite (dp_fd s) buf; DpClose (dp_fd s); DpConnected fd';
       DpWrite fd' (encode [(ATLAS_CMD_DATA_PLANE_POLICY,
         encode (native_policy (ci_qos (dp_client s)) (ci_packets_per_min (dp_client s))
                   (ci_packets_maxlen (dp_client s))))]);
       DpWrite fd' buf].
Proof.
  intros Hw Hrc Hsock Hfd Hc Hk Hok. cbn [write_to_socket_retry]. unfold write_to_socket. rewrite Hw.
  rewrite decide_False by done. unfold socket_connect.
  cbn [dp_fd dp_env dp_with_env dp_log]. rewrite Hsock. rewrite decide_False by done.
  match goal with |- context [connect_loop fuel ?x] => set (s1 := x) end.
  rewrite (connect_loop_ok k fuel fd' s1 e3) by done. cbn [mbind outcome_bind].
  rewrite registration_bytes_eq. cbn [of_option mbind outcome_bind].
  set (s2 := dp_log (DpConnected fd') (dp_with_env e3 s1)).
  set (reg := encode (registration_cmds (dp_client s2))).
  destruct (dp_write fd' reg (dp_env s2)) as [rc1 e4] eqn:Hw1.
  pose proof (Hok reg (dp_env s2)) as Hrc1. rewrite Hw1 in Hrc1. cbn [fst] in Hrc1. subst rc1.
  rewrite (retry_ok fuel reg s2 e4 Hw1). cbn [mbind outcome_bind].
  set (s3 := dp_with_env e4 (dp_log (DpWrite (dp_fd s2) reg) s2)).
  destruct (dp_write fd' buf (dp_env s3)) as [rc2 e5] eqn:Hw2.
  pose proof (Hok buf (dp_env s3)) as Hrc2. rewrite Hw2 in Hrc2. cbn [fst] in Hrc2. subst rc2.
  rewrite (retry_ok fuel buf s3 e5 Hw2). eexists. split_and!; [done..|].
  unfold s3, s2, s1. cbn [dp_trace dp_with_env dp_with_fd dp_log dp_fd].
  rewrite <- !app_assoc. done.
Qed.

(** When no write is ever taken whole, writing a command never ends,
    whatever the fuel: each failed registration starts another one. *)
Theorem failing_writes_never_end fuel buf s :
  (∀ fd bs e, (dp_write fd bs e).1 ≠ zlen bs) →
  ∀ s', write_to_socket_retry fuel buf s ≠ Done s'.
Proof. intros Hw. by apply retry_never_done. Qed.

(** A reputation request sends the sensor type in network byte order. The
    first reputation or error command of the answer decides: the first gives
    its value as a string, the second an error; an answer with neither is OK
    and leaves the identity as it was, and bytes that are not a list of
    commands are a corrupted command. *)
Theorem reputation_request_answer sensor id s e1 bs e2 :
  0 ≤ sensor < 65536 →
  let req := encode [(ATLAS_CMD_DATA_PLANE_FEATURE_REPUTATION, be16 sensor)] in
  dp_write (dp_fd s) req (dp_env s) = (zlen req, e1) →
  dp_read (dp_fd s) 2048 e1 = (zlen bs, bs, e2) → 0 < zlen bs ≤ 2048 →
  ∃ s', atlas_reputation_request sensor (Some id) s =
    Some (match decode bs with
          | None => (ATLAS_CORRUPTED_COMMAND, id, s')
          | Some cs =>
              match find_first is_reputation_answer cs with
              | None => (ATLAS_OK, id, s')
              | Some c => if decide (c.1 = ATLAS_CMD_DATA_PLANE_FEATURE_REPUTATION)
                          then (ATLAS_OK, Some (c.2 ++ [x00]), s')
                          else (ATLAS_GENERAL_ERR, id, s')
              end
          end) ∧
    dp_trace s' = dp_trace s ++ [DpWrite (dp_fd s) req].
Proof.
  intros Hv req Hw Hr Hl. unfold atlas_reputation_request.
  rewrite u16_small, (batch_bytes_eq _ (sensor_request_fits _)) by done.
  rewrite store16_htons by done. fold req. cbn [mbind option_bind]. unfold write_to_socket.
  rewrite Hw, decide_False by tauto.
  set (s1 := dp_with_env e1 (dp_log (DpWrite (dp_fd s) req) s)).
  destruct (dp_read_buf_eq s1 bs e2) as [junk ->]; [done|lia|]. cbn [mbind option_bind].
  rewrite decide_False, u16_small by lia. exists (dp_with_env e2 s1). split; [|done].
  destruct (decode bs) as [cs|] eqn:Hd.
  - destruct (parse_foreach (mk_batch 0 None) (bs ++ junk) bs junk (zlen bs) reputation_body
      (id, ATLAS_OK) cs) as (cb & Hp & Hf); [done|done|lia|done|].
    unfold atlas_cmd_batch_new. rewrite Hp. cbn [mbind option_bind]. rewrite decide_True by done.
    rewrite Hf, fold_reputation_answer. cbn [mbind option_bind]. unfold reputation_answer.
    destruct (find_first is_reputation_answer cs) as [c|]; [by case_decide|done].
  - unfold atlas_cmd_batch_new. rewrite (set_raw_decode _ _ bs junk), Hd by (done || lia). done.
Qed.

(** Feedback is sent one write per device, in order, each with the string
    of the identity and the numbers in network byte order, up to the first
    score above 100: then the answer is an invalid input, although what came
    before has been sent. Otherwise it is OK, even when writes have failed. *)
Theorem feedback_sends_valid_prefix l s :
  l ≠ [] → Forall feedback_ok l →
  ∃ s', atlas_reputation_feedback (Some l) s =
      Some (if forallb in_range l then ATLAS_OK else ATLAS_INVALID_INPUT, s') ∧
    dp_trace s' = dp_trace s ++
      ((λ f, DpWrite (dp_fd s) (encode [(ATLAS_CMD_DATA_PLANE_FEEDBACK, encode (feedback_cmds f))])) <$>
       valid_prefix l).
Proof.
  intros Hne Hl. destruct (feedback_loop_spec l s Hl) as (s' & Hr & _ & Ht).
  exists s'. split; [|done]. by destruct l.
Qed.

End DataPlaneProperties.

(** ** Both ends of the socket *)

Section EndToEnd.
Context `{Host} {E : Type} `{Env E, !EnvLaws E}.
Implicit Types w : World E.

(** A buffer of commands that the kernel delivers whole. *)
Lemma connector_read_eq fd cs w e :
  Forall wf_cmd cs → 0 < zlen (encode cs) ≤ 2048 →
  sys_read fd 2048 (w_env w) = (zlen (encode cs), encode cs, e) →
  atlas_data_plane_read_cb fd w =
  fold_views data_plane_body (views cs) (with_env e (log (EvRead fd) w)).
Proof.
  intros Hwf Hl Hr. unfold atlas_data_plane_read_cb, read_into, call.
  unfold Connector.ATLAS_CLIENT_DATA_PLANE_BUFFER_LEN. cbn [log with_trace w_env]. rewrite Hr.
  rewrite take_ge by (unfold zlen in *; lia). unfold malloc.
  replace (Z.to_nat 2048) with (length (encode cs) + Z.to_nat (2048 - zlen (encode cs)))%nat
    by (unfold zlen in *; lia).
  rewrite replicate_add, mwrite_head by (by rewrite zlen_replicate).
  cbn [mbind option_bind]. rewrite decide_False, u16_small by lia.
  destruct (parse_foreach (mk_batch 0 None) (encode cs ++ replicate (Z.to_nat (2048 - zlen (encode cs))) heap_junk)
    (encode cs) (replicate (Z.to_nat (2048 - zlen (encode cs))) heap_junk) (zlen (encode cs))
    data_plane_body (with_env e (log (EvRead fd) w)) cs) as (cb & Hp & Hf); [done|done|lia| |].
  { by apply decode_encode. }
  unfold atlas_cmd_batch_new. rewrite Hp. cbn [mbind option_bind]. by rewrite decide_True, Hf.
Qed.

(** C21. The policy an application gives the library arrives at the gateway: the
    bytes of the registration, read by the connector at the other end of the
    socket, set its policy to the numbers the application gave and are
    forwarded, in network byte order, in one PUT request, which is sent when
    the network works. *)
Theorem registration_reaches_gateway c fd w e uri :
  0 ≤ ci_qos c < 65536 → 0 ≤ ci_packets_per_min c < 65536 → 0 ≤ ci_packets_maxlen c < 65536 →
  cfg_uri (w_cfg w) (B "gateway/policy") = Some uri →
  let reg := encode (registration_cmds c) in
  sys_read fd 2048 (w_env w) = (zlen reg, reg, e) →
  registration_bytes c = Some reg ∧
  ∃ w', atlas_data_plane_read_cb fd w = Some w' ∧
    policy_qos (w_connector w') = ci_qos c ∧
    policy_packets_per_min (w_connector w') = ci_packets_per_min c ∧
    policy_packets_maxlen (w_connector w') = ci_packets_maxlen c ∧
    active_policy (w_connector w') = 1 ∧
    requested uri ATLAS_COAP_METHOD_PUT
      (Some (encode [(ATLAS_CMD_DATA_PLANE_POLICY_QOS, be16 (ci_qos c));
                     (ATLAS_CMD_DATA_PLANE_POLICY_PACKETS_PER_MINUTE, be16 (ci_packets_per_min c));
                     (ATLAS_CMD_DATA_PLANE_POLICY_PACKETS_MAXLEN, be16 (ci_packets_maxlen c))]))
      ATLAS_CLIENT_POLICY_TIMEOUT_MS CC_policy_callback
      (with_policy (ci_qos c) (ci_packets_per_min c) (ci_packets_maxlen c)
         (with_env e (log (EvRead fd) w))) w'.
Proof.
  destruct c as [q p l]. cbn [ci_qos ci_packets_per_min ci_packets_maxlen].
  intros Hq Hp Hm Hu Hr. split; [apply registration_bytes_eq|].
  destruct (registration_fits (mk_client_info q p l)) as (_ & Hwf & _).
  rewrite (connector_read_eq fd _ w e) by (done || by rewrite zlen_registration).
  set (w1 := with_env e (log (EvRead fd) w)). cbn [registration_cmds views fold_views fst snd].
  unfold data_plane_body. cbn [cmd_type cmd_value cmd_length]. rewrite decide_True by done.
  rewrite zlen_native_policy, (parse_policy_eq q p l) by done.
  destruct (send_batch_sends ATLAS_CLIENT_POLICY_COAP_PATH ATLAS_COAP_METHOD_PUT
    (network_policy q p l) ATLAS_CLIENT_POLICY_TIMEOUT_MS CC_policy_callback
    (with_policy q p l w1) (with_policy q p l w1) uri (network_policy_fits _ _ _)
    (same_lists_refl _) Hu) as (w' & -> & Hreq).
  cbn [mbind option_bind]. exists w'. split; [done|].
  pose proof Hreq as (Ha & _). apply (f_equal (λ x, snd (fst x))) in Ha. cbn in Ha.
  rewrite Ha. split_and!; (done || exact Hreq).
Qed.

End EndToEnd.

(** ** Concrete instances *)

(** A client that answers [answer], and accepts a connection after three
    seconds; the state is the time. Only descriptors of sockets take data. *)
Definition sim_dp (answer : list byte) : DpEnv Z := {|
  dp_close _ n := n;
  dp_sleep k n := n + k;
  dp_socket n := (5, n);
  dp_connect _ n := (if decide (n < 3) then -1 else 0, n);
  dp_write fd bs n := (if decide (fd < 0) then -1 else zlen bs, n);
  dp_read _ _ n := (zlen answer, answer, n)
|}.

(** A client that takes no data. *)
Definition broken_dp : DpEnv Z := {|
  dp_close _ n := n;
  dp_sleep k n := n + k;
  dp_socket n := (5, n);
  dp_connect _ n := (0, n);
  dp_write _ _ n := (-1, n);
  dp_read _ _ n := (-1, [], n)
|}.

Definition dp_world (fd : Z) : dp_state Z := mk_dp 0 [] fd (mk_client_info 1 200 4096) (mk_stats 0 0 0).

Lemma no_packet_lost_witness :
  report_packets [Packet 10; Packet 20; Report; Packet 7] [] = ([[10; 20]], [7]) ∧
  @run_stats le_host [Packet 10; Packet 20; Report; Packet 7] (mk_stats 0 0 0) =
    Some ([[(ATLAS_CMD_DATA_PLANE_PACKETS_PER_MINUTE, [x02; x00; x00; x00]);
            (ATLAS_CMD_DATA_PLANE_PACKETS_AVG, [x0f; x00; x00; x00])]], mk_stats 1 7 7).
Proof.
  split; [done|].
  refine (proj2 (proj2 (@no_packet_lost le_host [Packet 10; Packet 20; Report; Packet 7] _ _ _)));
    by apply (bool_decide_unpack _); vm_compute.
Defined.

Lemma lost_connection_registers_again_witness :
  let s := dp_world (-1) in
  ∃ s', @write_to_socket_retry le_host Z (sim_dp []) 5 [x01] s = Done s' ∧
    dp_fd s' = 5 ∧ dp_stat s' = dp_stat s ∧
    dp_trace s' = dp_trace s ++
      [DpWrite (dp_fd s) [x01]; DpClose (dp_fd s); DpConnected 5;
       DpWrite 5 (encode [(ATLAS_CMD_DATA_PLANE_POLICY,
         encode (@native_policy le_host 1 200 4096))]);
       DpWrite 5 [x01]].
Proof.
  apply (@lost_connection_registers_again le_host Z (sim_dp []) 4 [x01] (dp_world (-1)) (-1) 0 5 0 3 3);
    [done..| |lia|].
  - do 3 (eapply (@connects_later Z (sim_dp []) 5); [reflexivity|done|]). by apply (@connects_now Z (sim_dp []) 5).
  - intros bs e. by cbn.
Defined.

Lemma failing_writes_never_end_witness :
  ∀ s', @write_to_socket_retry le_host Z broken_dp 100 [x01] (dp_world 5) ≠ Done s'.
Proof.
  apply (@failing_writes_never_end le_host Z broken_dp 100 [x01] (dp_world 5)).
  intros fd bs e. cbn. pose proof (zlen_nonneg bs). lia.
Defined.

Lemma reputation_request_answer_witness :
  ∃ s', @atlas_reputation_request le_host Z (sim_dp (encode [(1500, B "dev")])) 101 (Some None)
      (dp_world 5) = Some (ATLAS_OK, Some (B "dev" ++ [x00]), s') ∧
    dp_trace s' = [] ++ [DpWrite 5 (encode [(1500, be16 101)])].
Proof.
  apply (@reputation_request_answer le_host Z (sim_dp (encode [(1500, B "dev")])) 101 None
    (dp_world 5) 0 (encode [(1500, B "dev")]) 0); by vm_compute.
Defined.

Definition feedback_of (score : Z) : atlas_feedback_t :=
  mk_feedback (B "device" ++ zeros 58) 101 score 50.

Lemma feedback_sends_valid_prefix_witness :
  ∃ s', @atlas_reputation_feedback le_host Z (sim_dp []) (Some [feedback_of 90; feedback_of 101])
      (dp_world 5) = Some (ATLAS_INVALID_INPUT, s') ∧
    dp_trace s' = [] ++ [DpWrite 5 (encode [(ATLAS_CMD_DATA_PLANE_FEEDBACK,
                                             encode (feedback_cmds (feedback_of 90)))])].
Proof.
  apply (@feedback_sends_valid_prefix le_host Z (sim_dp []) [feedback_of 90; feedback_of 101]
    (dp_world 5)); [done|].
  by apply (bool_decide_unpack _); vm_compute.
Defined.

(** The bytes of the registration of [dp_world], as the kernel delivers them. *)
Definition registration_data : list byte := encode (@registration_cmds le_host (mk_client_info 1 200 4096)).

Lemma registration_reaches_gateway_witness :
  ∃ w', @atlas_data_plane_read_cb le_host Z (sim_env registration_data []) 7 world_cfg = Some w' ∧
    policy_qos (w_connector w') = 1 ∧ policy_packets_per_min (w_connector w') = 200 ∧
    policy_packets_maxlen (w_connector w') = 4096 ∧ active_policy (w_connector w') = 1 ∧
    ∃ session tid u, sent w' = [(session, @add_data Z (sim_env registration_data [])
      (Some (encode [(1100, be16 1); (1101, be16 200); (1102, be16 4096)]))
      (mk_pdu COAP_MESSAGE_CON tid COAP_REQUEST_PUT (@store32 le_host 0) u None))].
Proof.
  destruct (@registration_reaches_gateway le_host Z (sim_env registration_data []) _
    (mk_client_info 1 200 4096) 7 world_cfg (w_env world_cfg) (B "coaps://gw:5684/gateway/policy"))
    as (_ & w' & Hw & Hq & Hp & Hm & Ha & Hr); [done..|by vm_compute|by vm_compute|].
  exists w'. split; [exact Hw|]. split_and!; [exact Hq|exact Hp|exact Hm|exact Ha|].
  apply requested_sent in Hr as (u & s & tid & _ & -> & _); [|apply sim_network_works].
  exists s, tid, (@uri_options Z (sim_env registration_data []) u). reflexivity.
Defined.
