(* ===== verification/EventLoop.v ===== *)
(** * The loop as a step relation

    What a program built on the scheduler does, seen from outside: it drops
    the deleted entries, it waits, and it runs the callback of an entry that
    is in the list and not deleted at the moment of the call. [loop_steps]
    allows these steps in any order; the executable loop of Scheduler.v is one
    of its schedules, so what every step keeps holds in every state of the
    loop. *)

From stdpp Require Import gmap.
From S2P Require Import Prelude Scheduler.

Section EventLoop.
Context {CB W : Type} `{SchedState CB W}.
Context (run : CB → Z → W → option W).
Context (select : Z → gset Z → W → Z * gset Z * W).
Implicit Types (w : W) (calls : list (CB * Z)).

(** From a state to another, with the calls made on the way. *)
Inductive loop_steps : W → list (CB * Z) → W → Prop :=
| steps_done w : loop_steps w [] w
| steps_sweep w calls w' :
    loop_steps (set_sched (live (get_sched w)) w) calls w' → loop_steps w calls w'
| steps_wait n readfds w calls w' :
    loop_steps (select n readfds w).2 calls w' → loop_steps w calls w'
| steps_call w ent w1 calls w' :
    ent ∈ get_sched w → se_dirty ent = false →
    run (se_callback ent) (se_fd ent) w = Some w1 →
    loop_steps w1 calls w' → loop_steps w ((se_callback ent, se_fd ent) :: calls) w'.

Lemma loop_steps_trans w1 c1 w2 c2 w3 :
  loop_steps w1 c1 w2 → loop_steps w2 c2 w3 → loop_steps w1 (c1 ++ c2) w3.
Proof.
  intros H1 H2. induction H1 as [|w c w' _ IH|n r w c w' _ IH|w ent w1 c w' Hin Hd Hr _ IH]; cbn [app].
  - done.
  - by apply steps_sweep, IH.
  - by eapply steps_wait, IH.
  - by eapply steps_call, IH.
Qed.

(** A relation that every step respects relates the ends. *)
Lemma loop_steps_rel (R : relation W) `{!PreOrder R} w calls w' :
  (∀ w, R w (set_sched (live (get_sched w)) w)) → (∀ n r w, R w (select n r w).2) →
  (∀ cb fd w w1, run cb fd w = Some w1 → R w w1) →
  loop_steps w calls w' → R w w'.
Proof.
  intros Hsw Hsel Hrun Hl.
  induction Hl as [|w c w' _ IH|n r w c w' _ IH|w ent w1 c w' Hin Hd Hr _ IH]; [done|..].
  - etrans; [apply Hsw|exact IH].
  - etrans; [apply Hsel|exact IH].
  - etrans; [by eapply Hrun|exact IH].
Qed.

(** ** The loop is one of its schedules *)

Lemma sched_sweep_live (l : list (atlas_sched_entry_t CB)) m r kept m' r' :
  sched_sweep l m r = Some (kept, m', r') → kept = live l.
Proof.
  revert m r kept. unfold live. induction l as [|e l IH]; intros m r kept; cbn [sched_sweep].
  { intros Hs. by simplify_eq. }
  rewrite filter_cons. destruct (se_dirty e) eqn:Hd.
  - rewrite decide_False by done. apply IH.
  - rewrite (decide_True (P := false = false)) by done. destruct (decide (0 ≤ se_fd e < FD_SETSIZE)); [|done].
    intros ([[k m1] r1] & Hk & [= <- <- <-])%bind_Some. f_equal. by eapply IH.
Qed.

Lemma dispatch_steps fuel i readfds w calls w' :
  sched_dispatch run fuel i readfds w = Done (w', calls) → loop_steps w calls w'.
Proof.
  revert i readfds w calls. induction fuel as [|fuel IH]; intros i readfds w calls;
    cbn [sched_dispatch]; destruct (get_sched w !! i) as [ent|] eqn:Hi; try done;
    try (intros [= <- <-]; constructor).
  destruct (negb (se_dirty ent) && bool_decide (se_fd ent ∈ readfds)) eqn:Hc; [|apply IH].
  destruct (run (se_callback ent) (se_fd ent) w) as [w1|] eqn:Hr; [|done].
  destruct (sched_dispatch run fuel _ _ w1) as [[w2 c2]| |] eqn:Hd; [|done..].
  intros [= <- <-]. apply andb_prop in Hc as [Hdirty _].
  eapply steps_call; [by eapply list_elem_of_lookup_2| |exact Hr|by eapply IH].
  by apply negb_true_iff.
Qed.

Lemma round_steps fuel w calls w' :
  sched_round run select fuel w = Done (w', calls) → loop_steps w calls w'.
Proof.
  unfold sched_round. destruct (sched_sweep (get_sched w) 0 ∅) as [[[kept m] r]|] eqn:Hs; [|done].
  apply sched_sweep_live in Hs as ->. intros Hr. apply steps_sweep, (steps_wait (m + 1) r). revert Hr.
  destruct (select (m + 1) r _) as [[result ready] w1]. cbn [snd]. case_decide.
  - apply dispatch_steps.
  - intros [= <- <-]. constructor.
Qed.

Lemma loop_is_steps n fuel w calls w' :
  atlas_sched_loop run select n fuel w = Done (w', calls) → loop_steps w calls w'.
Proof.
  revert w calls. induction n as [|n IH]; intros w calls; cbn [atlas_sched_loop].
  { intros [= <- <-]. constructor. }
  destruct (sched_round run select fuel w) as [[w1 c1]| |] eqn:Hr; [|done..].
  destruct (atlas_sched_loop run select n fuel w1) as [[w2 c2]| |] eqn:Hl; [|done..].
  intros [= <- <-]. eapply loop_steps_trans; [by eapply round_steps|by apply IH].
Qed.

End EventLoop.
