(* ===== verification/Invariant.v ===== *)
(** * What holds in every state of the client

    The invariant of the whole program, which every callback keeps, and what no
    callback changes: the configuration, the identity and its keys, the
    resources of the server and the set of features. The loop is related to a
    step relation, whose steps are the sweep, the answer of [select] and one
    callback; the states of a client that has started are those the steps
    reach. *)

From stdpp Require Import gmap.
From S2P Require Import Prelude Protocol Command CString Scheduler State Config Identity Alarm.
From S2P Require Import CoapClient Request CoapServer Connector TelemetryPayload Telemetry.
From S2P Require Import TelemetryAlerts Register CommandExecute Client EventLoop.

(** ** The invariant *)

(** The addresses of live heap entries: pairwise different, and already
    given out. *)
Definition addrs_ok (brk : nat) (l : list nat) : Prop :=
  NoDup l ∧ Forall (λ a, a < brk)%nat l.

(** The variables of fixed width hold values of their type. *)
Definition register_ok (r : register_t) : Prop :=
  (registered r = ATLAS_CLIENT_REGISTERED ∨ registered r = ATLAS_CLIENT_NOT_REGISTERED) ∧
  0 ≤ ka_token r < 65536 ∧ 0 ≤ ka_count r < 256.

Definition connector_ok (c : connector_t) : Prop :=
  0 ≤ policy_qos c < 65536 ∧ 0 ≤ policy_packets_per_min c < 65536 ∧
  0 ≤ policy_packets_maxlen c < 65536 ∧ 0 ≤ packets_per_min c < 65536 ∧
  0 ≤ packets_avg c < 65536.

Record wf_parts (brk : nat) (s : list (atlas_sched_entry_t sched_cb))
    (al : list atlas_alarm_entry_t) (rq : list atlas_coap_client_req_t) (token : Z)
    (r : register_t) (threshold : Z) (c : connector_t) : Prop := mk_wf {
  wf_fds : Forall (λ e, 0 ≤ se_fd e) s;
  wf_alarm_addrs : addrs_ok brk (al_addr <$> al);
  wf_req_addrs : addrs_ok brk (rq_addr <$> rq);
  wf_token : 0 ≤ token < 2 ^ 32;
  wf_register : register_ok r;
  wf_threshold : 0 ≤ threshold < 65536;
  wf_connector : connector_ok c
}.

Definition wf {E} (w : World E) : Prop :=
  wf_parts (w_brk w) (w_sched w) (w_alarms w) (w_reqs w) (w_token w) (w_register w)
    (w_procs_threshold w) (w_connector w).

(** What the initialisation sets up, for good. *)
Definition setup {E} (w : World E) :=
  (w_cfg w, w_id w, w_dtls w, w_server w,
   (λ p, (tl_uri_path p, tl_payload_cb p)) <$> w_features w).

(** What a step of the program does to both. The two flags are never reset. *)
Definition keeps {E} (w w' : World E) : Prop :=
  (wf w → wf w') ∧ setup w' = setup w ∧
  (w_cmdInProgress w = true → w_cmdInProgress w' = true) ∧
  (active_policy (w_connector w) = ATLAS_CLIENT_POLICY_ACTIVE →
   active_policy (w_connector w') = ATLAS_CLIENT_POLICY_ACTIVE).

(** Most steps also leave the registration alone. *)
Definition calm {E} (w w' : World E) : Prop :=
  (wf w → wf w') ∧ setup w' = setup w ∧
  (w_cmdInProgress w = true → w_cmdInProgress w' = true) ∧
  (active_policy (w_connector w) = ATLAS_CLIENT_POLICY_ACTIVE →
   active_policy (w_connector w') = ATLAS_CLIENT_POLICY_ACTIVE) ∧
  w_register w' = w_register w.

#[export] Instance keeps_preorder {E} : PreOrder (@keeps E).
Proof.
  split; [by intros w; split_and!|].
  intros w1 w2 w3 (? & ? & ? & ?) (? & ? & ? & ?). split_and!; [tauto|congruence|tauto|tauto].
Qed.

#[export] Instance calm_preorder {E} : PreOrder (@calm E).
Proof.
  split; [by intros w; split_and!|].
  intros w1 w2 w3 (? & ? & ? & ? & ?) (? & ? & ? & ? & ?). split_and!; [tauto|congruence|tauto|tauto|congruence].
Qed.

Lemma calm_keeps {E} (w w' : World E) : calm w w' → keeps w w'.
Proof. by intros (? & ? & ? & ? & _). Qed.

Lemma addrs_ok_snoc brk l : addrs_ok brk l → addrs_ok (S brk) (l ++ [brk]).
Proof.
  intros [Hn Hb]. split.
  - apply list.NoDup_app. split_and!; [done| |apply list.NoDup_singleton].
    intros a Ha ->%list_elem_of_singleton. apply (proj1 (list.Forall_forall _ _) Hb) in Ha. lia.
  - apply Forall_app_2; [|apply Forall_cons_2; [lia|apply Forall_nil_2]].
    eapply Forall_impl; [|exact Hb]. cbn. lia.
Qed.

Lemma addrs_ok_brk brk brk' l : (brk ≤ brk')%nat → addrs_ok brk l → addrs_ok brk' l.
Proof. intros Hle [Hn Hb]. split; [done|]. eapply Forall_impl; [|exact Hb]. cbn. lia. Qed.

Lemma addrs_ok_sublist brk l k : l `sublist_of` k → addrs_ok brk k → addrs_ok brk l.
Proof. intros Hs [Hn Hb]. split; [by eapply sublist_NoDup|].
  apply list.Forall_forall. intros a Ha. apply (proj1 (list.Forall_forall _ _) Hb).
  by eapply elem_of_submseteq, sublist_submseteq.
Qed.

Lemma update_first_fmap {A B} (f : A → bool) (g : A → A) (h : A → B) l :
  (∀ x, h (g x) = h x) → h <$> update_first f g l = h <$> l.
Proof.
  intros Hh. induction l as [|x l IH]; cbn [update_first]; [done|].
  destruct (f x); rewrite !fmap_cons; congruence.
Qed.

Lemma sched_fds_del {CB} fd (l : list (atlas_sched_entry_t CB)) :
  Forall (λ e, 0 ≤ se_fd e) l → Forall (λ e, 0 ≤ se_fd e) (atlas_sched_del_entry fd l).
Proof.
  unfold atlas_sched_del_entry. intros Hl.
  induction Hl as [|e l He Hl IH]; cbn [update_first]; [constructor|].
  destruct (bool_decide _); by constructor.
Qed.

Lemma sched_fds_add {CB} fd cb (l : list (atlas_sched_entry_t CB)) :
  Forall (λ e, 0 ≤ se_fd e) l → Forall (λ e, 0 ≤ se_fd e) (atlas_sched_add_entry fd cb l).
Proof.
  unfold atlas_sched_add_entry. intros Hl. case_decide; [done|]. destruct cb; [|done].
  apply Forall_app_2; [done|]. apply Forall_cons_2; [cbn; lia|apply Forall_nil_2].
Qed.

(** ** The operations keep it *)

Section Keeps.
Context `{Host, Env E}.
Implicit Types w : World E.

Lemma calm_sched_add fd cb w : calm w (sched_add fd cb w).
Proof. split_and!; [|done..]. intros []. split; try done. by apply sched_fds_add. Qed.

Lemma calm_sched_del fd w : calm w (sched_del fd w).
Proof. split_and!; [|done..]. intros []. split; try done. by apply sched_fds_del. Qed.

Lemma calm_reqs_remove f w : calm w (with_reqs (remove_first f (w_reqs w)) w).
Proof.
  split_and!; [|done..]. intros Hw. pose proof Hw as []. split; try done.
  eapply addrs_ok_sublist; [|exact (wf_req_addrs _ _ _ _ _ _ _ _ Hw)]. apply fmap_sublist, remove_first_sublist.
Qed.

Lemma calm_reqs_mark f w : calm w (with_reqs (update_first f mark_req (w_reqs w)) w).
Proof.
  split_and!; [|done..]. intros []. split; try done. wsimpl. by rewrite update_first_fmap.
Qed.

Lemma calm_alarms_remove f w : calm w (with_alarms (remove_first f (w_alarms w)) w).
Proof.
  split_and!; [|done..]. intros Hw. pose proof Hw as []. split; try done.
  eapply addrs_ok_sublist; [|exact (wf_alarm_addrs _ _ _ _ _ _ _ _ Hw)]. apply fmap_sublist, remove_first_sublist.
Qed.

Lemma calm_alarm_alloc fd cb once w :
  calm w (with_alarms (w_alarms w ++ [mk_alarm (w_brk w) fd cb once]) (with_brk (S (w_brk w)) w)).
Proof.
  split_and!; [|done..]. intros [Hs Ha Hr]. split; try done; wsimpl.
  - rewrite fmap_app. by apply addrs_ok_snoc.
  - eapply addrs_ok_brk; [|exact Hr]. lia.
Qed.

Lemma calm_alarm_set ms cb once w : calm w (atlas_alarm_set ms cb once w).2.
Proof.
  destruct (alarm_set_cases ms cb once w) as [| |fd e1 rc e2]; [done..|]. cbn [snd].
  match goal with |- calm w (with_alarms _ (with_brk _ (sched_add fd ?c ?x))) =>
    transitivity (sched_add fd c x); [by apply (calm_sched_add fd c x)|];
    apply (calm_alarm_alloc fd cb once (sched_add fd c x)) end.
Qed.

Lemma calm_alarm_cancel id w : calm w (atlas_alarm_cancel id w).
Proof.
  unfold atlas_alarm_cancel. destruct (find_first _ _) as [p|]; [|done].
  etrans; [apply (calm_alarms_remove (has_id id))|].
  apply (calm_sched_del (alarm_id p) (with_alarms _ w)).
Qed.

(** *** Requests *)

Lemma calm_new_token w : calm w (get_new_token w).2.
Proof.
  split_and!; [|done..]. intros []. split; try done. unfold get_new_token, u32. wsimpl. mlia.
Qed.

(** The entry of a request is allocated before its alarm. *)
Lemma calm_add_request ctx session uri token timeout cb w :
  calm w (add_request ctx session uri token timeout cb w).2.
Proof.
  unfold add_request, alloc. dcall fd e. cbn zeta beta iota.
  assert (calm w (with_env e (with_brk (S (w_brk w)) w))) as Hb.
  { split_and!; [|done..]. intros [Hs Ha Hr]. split; try done.
    - eapply addrs_ok_brk; [|exact Ha]. wsimpl. lia.
    - eapply addrs_ok_brk; [|exact Hr]. wsimpl. lia. }
  case_decide; [exact Hb|].
  match goal with |- context [atlas_alarm_set ?a ?b ?c ?x] =>
    pose proof (calm_alarm_set a b c x) as Ha;
    pose proof (alarm_set_frame a b c x) as (_ & Hr & _ & _ & _ & _ & _ & _ & _ & _ & _ & _ & Hk);
    destruct (atlas_alarm_set a b c x) as [id w1] end.
  cbn [snd w_reqs with_env with_brk w_brk] in *.
  case_decide; [by etrans|].
  assert (calm w w1) as (Hwf & Hset & Hcm & Hap & Hrg) by (by etrans).
  split_and!; [|exact Hset|exact Hcm|exact Hap|exact Hrg]. intros Hw.
  pose proof (Hwf Hw) as []. destruct Hw as [_ _ Hreqs]. split; try done.
  - by apply sched_fds_add.
  - wsimpl. unfold sched_add. wsimpl. rewrite Hr, fmap_app. cbn [rq_addr fmap list_fmap].
    eapply addrs_ok_brk; [exact Hk|]. by apply addrs_ok_snoc.
Qed.

Lemma calm_request uri method pl timeout cb w st w' :
  atlas_coap_client_request (Some uri) method pl timeout (Some cb) w = Some (st, w') → calm w w'.
Proof.
  unfold atlas_coap_client_request, resolve_address, request_err. intros Hr. binv;
    try done;
    repeat match goal with
    | Hs : get_session ?c ?d ?a ?p ?x = (_, _) |- _ =>
        let s := fresh "s" in let e := fresh "e" in let X := fresh "X" in
        destruct (get_session_eq c d a p x) as (s & e & X & _); rewrite X in Hs;
        apply (inj2 pair) in Hs as [??]; subst; clear X
    | Ha : add_request ?c ?s ?u ?t ?to ?cb ?x = (_, _) |- _ =>
        pose proof (calm_add_request c s u t to cb x); rewrite Ha in *; clear Ha
    | Ht : get_new_token ?x = (_, _) |- _ =>
        pose proof (calm_new_token x); rewrite Ht in *; clear Ht
    end; cbn [snd] in *; try done; by (etrans; [|eassumption]).
Qed.

Lemma calm_send_batch path method cs timeout cb w w' :
  send_batch path method cs timeout cb w = Some w' → calm w w'.
Proof. unfold send_batch. intros Hs. binv. by eapply calm_request. Qed.

(** What leaves every component's variables alone. *)
Lemma write_batch_calm fd cs w rc len w' : write_batch fd cs w = Some (rc, len, w') → calm w w'.
Proof. unfold write_batch, write_fd. intros Hs. by binv. Qed.

Lemma read_into_calm fd n blk w rc blk' w' : read_into fd n blk w = Some (rc, blk', w') → calm w w'.
Proof. unfold read_into. intros Hs. by binv. Qed.

Lemma local_ipPort_calm w s w' : local_ipPort w = Some (s, w') → calm w w'.
Proof.
  unfold local_ipPort, atlas_cfg_get_local_ipPort, atlas_cfg_get_local_ip. intros Hs. by binv.
Qed.

Lemma run_payload_calm cb th w pl w' : run_payload cb th w = Some (pl, w') → calm w w'.
Proof.
  assert (∀ t f w w' pl, sysinfo_payload t f th w = Some (pl, w') → calm w w') as Hsys.
  { clear. unfold sysinfo_payload. intros t f w w' pl Hs. binv; try done.
    by apply payload_batch_same in Hs as ->. }
  destruct cb; try apply Hsys; cbn [run_payload];
    unfold atlas_telemetry_payload_hostname, atlas_telemetry_payload_kern_info,
      atlas_telemetry_payload_procs, atlas_telemetry_payload_packets_per_minute,
      atlas_telemetry_payload_packets_avg; intros Hs; binv; try done;
    repeat match goal with
    | Hr : read_into _ _ _ _ = Some _ |- _ => apply read_into_calm in Hr
    | Hp : payload_batch _ _ _ = Some _ |- _ => apply payload_batch_same in Hp as ->
    end; done.
Qed.

(** *** Telemetry *)

Lemma push_calm p th w w' : atlas_telemetry_push p th w = Some w' → calm w w'.
Proof.
  unfold atlas_telemetry_push. intros Hs. binv; try done;
    match goal with Hr : run_payload _ _ _ = Some _ |- _ =>
      apply run_payload_calm in Hr as Hq end; try done.
  etrans; [exact Hq|]. by eapply calm_request.
Qed.

Lemma push_first_calm f th w w' : push_first f th w = Some w' → calm w w'.
Proof. unfold push_first. intros Hs. binv; [by eapply push_calm|done]. Qed.

Lemma push_features_calm l w w' : push_features l w = Some w' → calm w w'.
Proof.
  revert w. induction l as [|p l IH]; intros w Hs; cbn [push_features] in Hs; binv; [done|].
  etrans; [by eapply push_calm|by apply IH].
Qed.

Lemma calm_features f g w :
  (∀ p, tl_uri_path (g p) = tl_uri_path p ∧ tl_payload_cb (g p) = tl_payload_cb p) →
  calm w (with_features (update_first f g (w_features w)) w).
Proof.
  intros Hg. split_and!; [done| |done..]. unfold setup. wsimpl.
  rewrite update_first_fmap; [done|]. intros p. by destruct (Hg p) as [-> ->].
Qed.

(** The alarm of a feature is replaced. *)
Lemma replace_alarm_calm f g (old ms : Z) cb w :
  (∀ id p, tl_uri_path (g id p) = tl_uri_path p ∧ tl_payload_cb (g id p) = tl_payload_cb p) →
  let w0 := if decide (old >= 0) then atlas_alarm_cancel old w else w in
  let '(id, w1) := atlas_alarm_set ms cb false w0 in
  calm w (with_features (update_first f (g id) (w_features w1)) w1).
Proof.
  intros Hg w0. pose proof (calm_alarm_set ms cb false w0) as Ha.
  destruct (atlas_alarm_set ms cb false w0) as [id w1]. cbn [snd] in Ha.
  transitivity w0; [unfold w0; case_decide; [apply calm_alarm_cancel|done]|].
  etrans; [exact Ha|]. by apply calm_features.
Qed.

Lemma push_set_calm path rate w w' : atlas_telemetry_push_set path rate w = Some w' → calm w w'.
Proof.
  unfold atlas_telemetry_push_set. destruct (find_first _ _) as [p|]; [|by intros [= ->]].
  case_decide; [apply push_calm|].
  pose proof (replace_alarm_calm (has_path path) set_push_id (push_id p) (ATLAS_ALARM_SEC_TO_MS rate)
    AC_push_alert_alarm_cb w ltac:(done)) as Hr. cbn zeta in Hr.
  destruct (atlas_alarm_set _ _ _ _) as [id w1]. by intros [= <-].
Qed.

Lemma threshold_set_calm path rate w w' :
  atlas_telemetry_threshold_set path rate w = Some w' → calm w w'.
Proof.
  unfold atlas_telemetry_threshold_set. case_decide; [by intros [= ->]|].
  destruct (find_first _ _) as [p|]; [|by intros [= ->]].
  pose proof (replace_alarm_calm (has_path path) set_threshold_id (threshold_id p)
    (ATLAS_ALARM_SEC_TO_MS rate) AC_threshold_alert_alarm_cb w ltac:(done)) as Hr. cbn zeta in Hr.
  destruct (atlas_alarm_set _ _ _ _) as [id w1]. by intros [= <-].
Qed.

(** *** Registration *)

Lemma register_keeps r w : (register_ok (w_register w) → register_ok r) → keeps w (with_register r w).
Proof. intros Hr. split_and!; [|done..]. intros []. split; try done. by apply Hr. Qed.

Lemma send_register_calm w w' : send_register_command w = Some w' → calm w w'.
Proof.
  unfold send_register_command. intros Hs. binv.
  etrans; [by eapply local_ipPort_calm|by eapply calm_send_batch].
Qed.

Lemma send_keepalive_keeps w w' : send_keepalive_command w = Some w' → keeps w w'.
Proof.
  unfold send_keepalive_command. intros Hs. binv.
  match goal with Hq : local_ipPort _ = Some (_, ?x) |- _ => transitivity x;
    [by eapply calm_keeps, local_ipPort_calm|]; apply calm_send_batch, calm_keeps in Hs;
    etrans; [|exact Hs];
    apply (register_keeps _ x) end.
  intros (? & ? & ?). split; [done|]. split; [apply u16_range|done].
Qed.

Lemma send_policy_calm w w' : send_policy_command w = Some w' → calm w w'.
Proof. unfold send_policy_command. intros Hs. binv; [done|by eapply calm_send_batch]. Qed.

Lemma ka_count_keeps n w : 0 ≤ n < 256 → keeps w (set_ka_count n w).
Proof. intros Hn. apply register_keeps. by intros (? & ? & ?). Qed.

Lemma keepalive_err_keeps w w' : keepalive_err w = Some w' → keeps w w'.
Proof.
  unfold keepalive_err. set (w0 := set_ka_count _ w). intros Hs. cbn zeta in Hs.
  assert (keeps w w0) as H0' by (apply ka_count_keeps, u8_range). case_decide; [|by binv].
  apply send_register_calm, calm_keeps in Hs. transitivity w0; [exact H0'|]. etrans; [|exact Hs].
  transitivity (set_registered ATLAS_CLIENT_NOT_REGISTERED w0).
  { apply register_keeps. intros (? & ? & ?). split; [by right|done]. }
  etrans; [apply calm_keeps, calm_alarm_cancel|]. by apply register_keeps.
Qed.

Lemma keepalive_callback_keeps st pl n w w' : keepalive_callback st pl n w = Some w' → keeps w w'.
Proof.
  unfold keepalive_callback. intros Hs. case_decide.
  { apply keepalive_err_keeps in Hs. case_decide; [|done]. etrans; [|exact Hs].
    by apply ka_count_keeps. }
  destruct pl as [p|]; [|by apply keepalive_err_keeps].
  case_decide; [by apply keepalive_err_keeps|]. apply bind_Some in Hs as (v & _ & Hs).
  case_decide; [by apply keepalive_err_keeps|]. apply (inj Some) in Hs as <-.
  by apply ka_count_keeps.
Qed.

Lemma reg_callback_keeps st w w' : reg_callback st w = Some w' → keeps w w'.
Proof.
  unfold reg_callback. case_decide; [intros [= <-]; apply calm_keeps, calm_alarm_set|].
  intros Hs. apply bind_Some in Hs as (w1 & Hp & Hs). apply bind_Some in Hs as (w2 & Hf & Hs).
  apply push_features_calm, calm_keeps in Hf.
  pose proof (calm_keeps _ _ (calm_alarm_set ATLAS_CLIENT_KEEPALIVE_TIMEOUT_MS
    AC_keepalive_alarm_callback false w2)) as Ha.
  destruct (atlas_alarm_set _ _ _ w2) as [id w3]. apply (inj Some) in Hs as <-. cbn [snd] in Ha.
  transitivity w1; [case_decide; [by apply calm_keeps, send_policy_calm|by simplify_eq]|].
  transitivity (set_registered ATLAS_CLIENT_REGISTERED w1).
  { apply register_keeps. intros (? & ? & ?). split; [by left|done]. }
  etrans; [exact Hf|]. etrans; [exact Ha|]. by apply register_keeps.
Qed.

(** *** The data plane connector *)

Lemma connector_calm c w :
  (connector_ok (w_connector w) → connector_ok c) →
  (active_policy (w_connector w) = ATLAS_CLIENT_POLICY_ACTIVE →
   active_policy c = ATLAS_CLIENT_POLICY_ACTIVE) →
  calm w (with_connector c w).
Proof.
  intros Hc Ha. split_and!; [|done|done|exact Ha|done]. intros []. split; try done. by apply Hc.
Qed.

(** Each variable is what it was, or two bytes. *)
Ltac in_width := unfold connector_ok; cbn;
  repeat first [assumption|apply load16_range|apply conj].

Lemma reputation_resp_calm buf len w st w' :
  atlas_reputation_resp_parse buf len w = Some (st, w') → calm w w'.
Proof.
  unfold atlas_reputation_resp_parse. intros Hs.
  destruct buf as [buf|]; [|by binv]. case_decide; [by binv|].
  apply bind_Some in Hs as ([st1 b] & _ & Hs). case_decide; [|by binv].
  apply bind_Some in Hs as (w1 & Hf & Hs). binv.
  eapply (cmd_foreach_rel calm); [|exact Hf]. clear. intros c w w' l Hb.
  unfold reputation_resp_body in Hb. case_decide; [|by binv].
  apply bind_Some in Hb as (v & _ & Hb). apply bind_Some in Hb as ([[rc n] w1] & Hw & Hb).
  apply write_batch_calm in Hw. by binv.
Qed.

Lemma feature_reputation_calm st pl n w w' :
  feature_reputation_callback st pl n w = Some w' → calm w w'.
Proof.
  unfold feature_reputation_callback. intros Hs. case_decide.
  - apply bind_Some in Hs as ([[rc k] w1] & Hw & Hs). apply write_batch_calm in Hw. by binv.
  - apply bind_Some in Hs as ([st1 w1] & Hw & Hs). apply reputation_resp_calm in Hw. by binv.
Qed.

Lemma policy_body_calm c w w' l : policy_body c w = Some (w', l) → calm w w'.
Proof.
  unfold policy_body, set_policy_qos, set_policy_packets_per_min, set_policy_packets_maxlen.
  intros Hs. binv; try done; apply connector_calm; try done; intros (? & ? & ? & ? & ?); in_width.
Qed.

Lemma parse_policy_calm buf len w w' :
  atlas_data_plane_parse_policy buf len w = Some w' → calm w w'.
Proof.
  unfold atlas_data_plane_parse_policy. intros Hs. destruct buf as [buf|]; [|by binv].
  case_decide; [by binv|]. apply bind_Some in Hs as ([st1 b] & _ & Hs). case_decide; [|by binv].
  apply bind_Some in Hs as (w1 & Hf & Hs).
  transitivity w1; [eapply (cmd_foreach_rel calm); [apply policy_body_calm|exact Hf]|].
  apply send_policy_calm in Hs. etrans; [|exact Hs]. by apply connector_calm.
Qed.

Lemma data_plane_body_calm c w w' l : data_plane_body c w = Some (w', l) → calm w w'.
Proof.
  unfold data_plane_body. intros Hs. apply bind_Some in Hs as (w1 & Hw & Hs).
  apply (inj Some), (inj2 pair) in Hs as [-> _]. revert Hw.
  case_decide; [apply parse_policy_calm|].
  case_decide; [unfold set_packets_per_min; intros Hs; binv; apply connector_calm;
    [intros (? & ? & ? & ? & ?); in_width|done]|].
  case_decide; [unfold set_packets_avg; intros Hs; binv; apply connector_calm;
    [intros (? & ? & ? & ? & ?); in_width|done]|].
  case_decide.
  { unfold atlas_feature_reputation_handle. intros Hs. binv; [done|by eapply calm_send_batch]. }
  case_decide.
  { unfold atlas_feature_feedback_handle. intros Hs. binv; [done|by eapply calm_send_batch]. }
  case_decide; [|intros Hs; by binv].
  unfold atlas_data_plane_identity. intros Hs. apply bind_Some in Hs as (i & _ & Hs).
  apply bind_Some in Hs as ([[rc k] w2] & Hw & Hs). apply write_batch_calm in Hw.
  by binv.
Qed.

Lemma read_cb_calm fd w w' : atlas_data_plane_read_cb fd w = Some w' → calm w w'.
Proof.
  unfold atlas_data_plane_read_cb. intros Hs.
  apply bind_Some in Hs as ([[rc buf] w1] & Hr & Hs).
  apply read_into_calm in Hr. transitivity w1; [exact Hr|].
  case_decide; [apply (inj Some) in Hs as <-; apply calm_sched_del|].
  apply bind_Some in Hs as ([st b] & _ & Hs). case_decide; [|by binv].
  eapply (cmd_foreach_rel calm); [apply data_plane_body_calm|exact Hs].
Qed.

Lemma accept_cb_calm fd w : calm w (atlas_data_plane_accept_cb fd w).
Proof.
  unfold atlas_data_plane_accept_cb. set (s := connected_socket _).
  set (w0 := if decide (s ≠ -1) then emit (EvClose s) (sched_del s w) else w).
  assert (calm w w0) as Hw by (unfold w0; case_decide; [apply (calm_sched_del s w)|done]).
  dcall a e. assert (calm w (set_connected_socket a (with_env e w0))) as Hc.
  { etrans; [exact Hw|]. by apply (connector_calm _ (with_env e w0)). }
  case_decide; [exact Hc|]. etrans; [exact Hc|].
  apply (calm_sched_add a SC_atlas_data_plane_read_cb (set_connected_socket a (with_env e w0))).
Qed.

(** *** The end-points *)

Lemma push_alert_calm paths uri pl n w r w' :
  push_alert_cb paths uri pl n w = Some (r, w') → calm w w'.
Proof.
  unfold push_alert_cb. intros Hs. apply bind_Some in Hs as ([st rate] & _ & Hs).
  case_decide; [|by binv]. apply bind_Some in Hs as (k & _ & Hs).
  destruct (find_first _ _) as [[a f]|]; [|by binv].
  apply bind_Some in Hs as (w1 & Hp & Hs). apply push_set_calm in Hp. by binv.
Qed.

Lemma threshold_alert_calm uri pl n w r w' :
  atlas_threshold_alert_procs_cb uri pl n w = Some (r, w') → calm w w'.
Proof.
  unfold atlas_threshold_alert_procs_cb. intros Hs. apply bind_Some in Hs as ([[st rate] t] & _ & Hs).
  case_decide; [|by binv]. apply bind_Some in Hs as (k & _ & Hs).
  apply bind_Some in Hs as (p & _ & Hs). apply bind_Some in Hs as (s & _ & Hs).
  destruct (strtol s) as [v er].
  assert (calm w (with_procs_threshold (u16 v) w)) as Hv.
  { split_and!; [|done..]. intros []. split; try done. apply u16_range. }
  destruct (_ || _); [by binv|].
  apply bind_Some in Hs as (w1 & Hp & Hs). apply threshold_set_calm in Hp. binv. by etrans.
Qed.

Lemma schedule_command_calm cb w : calm w (schedule_command cb w).
Proof.
  unfold schedule_command.
  pose proof (calm_alarm_set ATLAS_CLIENT_COMMAND_EXECUTE_TIMEOUT_MS cb true w) as Ha.
  destruct (atlas_alarm_set _ _ _ w) as [id w1]. case_decide; [exact Ha|]. etrans; [exact Ha|].
  by split_and!.
Qed.

Lemma execute_command_calm uri pl n w r w' :
  atlas_execute_command_cb uri pl n w = Some (r, w') → calm w w'.
Proof.
  unfold atlas_execute_command_cb, atlas_alert_command_execution_parse. intros Hs.
  apply bind_Some in Hs as ([st w1] & Hp & Hs).
  assert (w' = w1) as -> by (repeat case_decide; by binv). clear Hs.
  destruct (w_cmdInProgress w); [by binv|]. destruct pl as [pl|]; [|by binv].
  case_decide; [by binv|]. apply bind_Some in Hp as ([st1 b] & _ & Hp). case_decide; [|by binv].
  apply bind_Some in Hp as (w2 & Hf & Hp). binv.
  eapply (cmd_foreach_rel calm); [|exact Hf]. clear. intros c w w' l Hb.
  apply (inj Some), (inj2 pair) in Hb as [<- _].
  case_decide; [apply schedule_command_calm|]. case_decide; [apply schedule_command_calm|done].
Qed.

Lemma run_server_cb_calm cb uri pl n w r w' :
  run_server_cb cb uri pl n w = Some (r, w') → calm w w'.
Proof.
  destruct cb; cbn [run_server_cb];
    [apply push_alert_calm|apply threshold_alert_calm|apply push_alert_calm|apply execute_command_calm].
Qed.

Lemma server_io_calm inputs w w' : server_io run_server_cb inputs w = Some w' → calm w w'.
Proof.
  assert (∀ r s u pl l w w', process_request_handler run_server_cb r s u pl l w = Some w' → calm w w')
    as Hp.
  { clear. intros r s u pl l w w' Hs. unfold process_request_handler in Hs.
    destruct u as [u|]; [|by binv]. destruct (find_first _ l) as [x|]; [|by binv].
    apply bind_Some in Hs as ([[rc rp] w1] & Hr & Hs). apply run_server_cb_calm in Hr.
    etrans; [exact Hr|]. by destruct rp as [[|b d]|]; [|case_decide|]; apply (inj Some) in Hs as <-. }
  revert w. induction inputs as [|[| h r s u pl] inputs IH]; intros w Hs; cbn [server_io] in Hs;
    [by binv|by apply IH|].
  apply bind_Some in Hs as (w1 & Hh & Hs). etrans; [|by apply IH].
  destruct h; cbn [server_handle] in Hh; [by apply (inj Some) in Hh as <-|by eapply Hp..].
Qed.

(** *** The dispatchers *)

Lemma client_cb_keeps cb uri st pl n w w' :
  run_client_cb cb uri st pl n w = Some w' → keeps w w'.
Proof.
  destruct cb; cbn [run_client_cb].
  - apply reg_callback_keeps.
  - apply keepalive_callback_keeps.
  - unfold telemetry_callback. intros Hs. case_decide; [by binv|]. case_decide; [by binv|].
    by eapply calm_keeps, push_first_calm.
  - unfold policy_callback. intros [= <-]. case_decide; [|done]. apply calm_keeps, calm_alarm_set.
  - intros Hs. by eapply calm_keeps, feature_reputation_calm.
  - by intros [= <-].
Qed.

Lemma client_io_keeps ctx inputs w w' : client_io run_client_cb ctx inputs w = Some w' → keeps w w'.
Proof.
  revert w. induction inputs as [|[s b r|] inputs IH]; intros w Hs; cbn [client_io] in Hs;
    [by binv| |by apply IH].
  apply bind_Some in Hs as (w1 & Hh & Hs). etrans; [|by apply IH]. revert Hh.
  unfold message_handler. destruct (find_first _ _) as [ent|]; [|by intros [= ->]].
  destruct (validate_token r _).
  - destruct (response_args r) as [[st pl] n]. intros Hr. apply client_cb_keeps in Hr.
    etrans; [apply calm_keeps, calm_reqs_mark|exact Hr].
  - by case_decide; intros [= <-].
Qed.

Lemma request_alarm_cb_keeps id w w' : request_alarm_cb run_client_cb id w = Some w' → keeps w w'.
Proof.
  unfold request_alarm_cb. destruct (find_first _ _) as [p|]; [|by intros [= ->]]. intros Hs.
  apply bind_Some in Hs as (w1 & Hr & Hs). apply bind_Some in Hs as (q & _ & Hs).
  apply (inj Some) in Hs as <-. apply client_cb_keeps in Hr.
  etrans; [exact Hr|]. etrans; [apply calm_keeps, calm_reqs_remove|].
  apply (calm_keeps _ _ (calm_sched_del (coap_fd q) (with_reqs _ w1))).
Qed.

Lemma run_alarm_cb_all_keeps cb id w w' : run_alarm_cb cb id w = Some w' → keeps w w'.
Proof.
  destruct cb; cbn [run_alarm_cb].
  - apply request_alarm_cb_keeps.
  - intros Hs. by apply calm_keeps, send_register_calm.
  - apply send_keepalive_keeps.
  - intros Hs. by apply calm_keeps, send_policy_calm.
  - intros Hs. by eapply calm_keeps, push_first_calm.
  - intros Hs. by eapply calm_keeps, push_first_calm.
  - by intros [= <-].
  - by intros [= <-].
Qed.

(** Every callback of the scheduler. *)
Lemma run_sched_cb_keeps cb fd w w' : run_sched_cb cb fd w = Some w' → keeps w w'.
Proof.
  destruct cb; cbn [run_sched_cb]; intros Hs.
  - unfold atlas_alarm_trigger in Hs. destruct (find_first _ _) as [p|]; [|by binv].
    destruct (call_eq (sys_read fd 8) (log (EvRead fd) w)) as (a & e & X & _). rewrite X in Hs.
    apply bind_Some in Hs as (w1 & Hr & Hs). apply run_alarm_cb_all_keeps in Hr.
    apply bind_Some in Hs as (q & _ & Hs). transitivity w1; [exact Hr|].
    destruct (run_once q); apply (inj Some) in Hs as <-; [apply calm_keeps, calm_alarm_cancel|done].
  - unfold coap_client_sched_callback in Hs. destruct (find_first _ _) as [p|]; [|by binv].
    destruct (call_eq (coap_io_process (rq_ctx p)) w) as (a & e & X & _). rewrite X in Hs.
    apply bind_Some in Hs as (w1 & Hr & Hs). apply client_io_keeps in Hr.
    apply bind_Some in Hs as (q & _ & Hs). transitivity w1; [exact Hr|].
    destruct (rq_dirty q); apply (inj Some) in Hs as <-; [|done].
    etrans; [apply calm_keeps, calm_reqs_remove|]. etrans; [apply (calm_keeps _ _ (calm_sched_del (coap_fd q) _))|].
    apply (calm_keeps _ _ (calm_alarm_cancel _ (sched_del (coap_fd q) (with_reqs _ w1)))).
  - unfold atlas_coap_server_sched_callback in Hs. apply bind_Some in Hs as (ctx & _ & Hs).
    destruct (call_eq (coap_io_process ctx) w) as (a & e & X & _). rewrite X in Hs.
    by apply server_io_calm, calm_keeps in Hs.
  - apply (inj Some) in Hs as <-. apply calm_keeps, accept_cb_calm.
  - by eapply calm_keeps, read_cb_calm.
Qed.

End Keeps.

(** ** The start *)

Section Start.
Context `{Host, Malloc, Env E}.
Implicit Types w : World E.

(** The steps of the initialisation that are not callbacks only keep [wf]. *)
Lemma identity_init_wf w st w' : atlas_identity_init w = Some (st, w') → wf w → wf w'.
Proof.
  unfold atlas_identity_init, atlas_generate_identity, identity_init_psk, atlas_generate_psk,
    identity_err, read_into, write_fd, put_identity, put_psk. intros Hs Hw. by binv.
Qed.

Lemma set_dtls_info_wf i p w st w' :
  atlas_coap_client_set_dtls_info i p w = Some (st, w') → wf w → wf w'.
Proof. unfold atlas_coap_client_set_dtls_info. intros Hs Hw. by binv. Qed.

Lemma sched_add_wf fd cb w : wf w → wf (sched_add fd cb w).
Proof. apply (calm_sched_add fd cb w). Qed.

Lemma but_server_wf w w' : but_server w w' → wf w → wf w'.
Proof.
  unfold wf. intros (-> & -> & -> & -> & -> & _ & _ & _ & -> & _ & -> & -> & _). done.
Qed.

Lemma server_start_wf port mode p w st w' :
  atlas_coap_server_start port mode p w = Some (st, w') → wf w → wf w'.
Proof.
  unfold atlas_coap_server_start, init_default_resources. case_decide; [by intros [= <- <-]|].
  intros ([ctx w1] & [Hb _]%get_context_frame & Hs)%bind_Some Hw.
  apply (but_server_wf _ _ Hb) in Hw. binv; try done.
  match goal with |- wf (sched_add ?fd ?c ?x) => by apply (sched_add_wf fd c x) end.
Qed.

Lemma connector_start_wf path w : wf w → wf (atlas_data_plane_connector_start path w).2.
Proof.
  intros Hw. unfold atlas_data_plane_connector_start. dcall fd e. case_decide; [done|].
  dcall rc e1. case_decide; [done|]. dcall rc2 e2. case_decide; [done|]. by apply sched_add_wf.
Qed.

Lemma add_resource_wf uri m cb w : wf w → wf (atlas_coap_server_add_resource uri m cb w).2.
Proof.
  intros Hw. unfold atlas_coap_server_add_resource, alloc. destruct uri, cb; try done.
  dcall r e. destruct r as [r|]; [|done]. destruct Hw as [Hs Ha Hr]. split; try done; wsimpl.
  - eapply addrs_ok_brk; [|exact Ha]. cbn. lia.
  - eapply addrs_ok_brk; [|exact Hr]. cbn. lia.
Qed.

Lemma install_resources_wf l w : wf w → wf (install_resources l w).
Proof.
  revert w. induction l as [|[path cb] l IH]; intros w Hw; cbn [install_resources]; [done|].
  pose proof (add_resource_wf (Some path) ATLAS_COAP_METHOD_PUT (Some cb) w Hw) as Ha.
  destruct (atlas_coap_server_add_resource _ _ _ w) as [st w1]. case_decide; [by apply IH|done].
Qed.

Lemma add_features_wf l w : wf w → wf (add_features l w).
Proof. revert w. induction l as [|[path cb] l IH]; intros w Hw; [done|]. by apply IH. Qed.

Lemma features_init_wf w : wf w → wf (atlas_telemetry_features_init w).
Proof.
  intros Hw. unfold atlas_telemetry_features_init, atlas_telemetry_add_packets_info,
    atlas_telemetry_add_sysinfo.
  repeat first [apply install_resources_wf|apply add_features_wf|done].
Qed.

Context (sock_path : list byte).

Lemma parse_options_wf args w w' : parse_options args w = Running w' → wf w → wf w'.
Proof.
  unfold parse_options. destruct (parse_options_loop _ _ _) as [[seen c]| |]; [|done..].
  case_decide; [|done]. by intros [= <-].
Qed.

(** Takes a step of [main] apart. *)
Lemma start_step_running (r : option (atlas_status_t * World E)) k w' :
  start_step r k = Running w' → ∃ w, r = Some (ATLAS_OK, w) ∧ k w = Running w'.
Proof.
  unfold start_step. destruct r as [[st w]|]; [|done]. case_decide as Hs; [|done]. subst. by exists w.
Qed.

Lemma main_init_wf args w w' : main_init sock_path args w = Running w' → wf w → wf w'.
Proof.
  unfold main_init. destruct (parse_options args w) as [w1| |] eqn:Hp; [|done..].
  intros Hm Hw. apply (parse_options_wf _ _ _ Hp) in Hw. revert Hm. dcall euid e.
  case_decide; [done|].
  intros (w2 & Hi & (w3 & Hd & Hm)%start_step_running)%start_step_running.
  apply identity_init_wf in Hi; [|exact Hw].
  apply bind_Some in Hd as (i & _ & (p & _ & Hd)%bind_Some). apply set_dtls_info_wf in Hd; [|done].
  destruct (atlas_register_start w3) as [w4|] eqn:Hr; [|done].
  apply send_register_calm in Hr as [Hr _].
  apply start_step_running in Hm as (w5 & Hs & (w6 & Hc & Hm)%start_step_running).
  apply server_start_wf in Hs; [|by apply Hr].
  apply (inj Some) in Hc. pose proof (connector_start_wf sock_path w5 Hs) as Hc'. rewrite Hc in Hc'.
  injection Hm as <-. unfold atlas_command_execute_init.
  pose proof (add_resource_wf (Some ATLAS_COMMAND_EXECUTE_PATH) ATLAS_COAP_METHOD_PUT
    (Some SV_execute_command_cb) (atlas_telemetry_features_init w6)
    (features_init_wf _ Hc')) as Hx.
  by destruct (atlas_coap_server_add_resource _ _ _ _).
Qed.

Lemma initial_wf (e : E) : wf (initial_world e).
Proof.
  split; cbn; try (by apply Forall_nil_2); try (split; [apply NoDup_nil_2|apply Forall_nil_2]).
  all: unfold register_ok, connector_ok, ATLAS_CLIENT_NOT_REGISTERED; cbn; lia.
Qed.

End Start.

(** ** Reachable states *)

Section Reachable.
Context `{Host, Malloc, Env E}.
Context (sock_path : list byte).
Implicit Types w : World E.

(** A state of a client that was started with these options in this
    environment, and the callbacks its loop has called so far. *)
Definition reachable (args : list (cli_option * list byte)) (e : E)
    (calls : list (sched_cb * Z)) w : Prop :=
  ∃ w0, main_init sock_path args (initial_world e) = Running w0 ∧
        loop_steps run_sched_cb run_select w0 calls w.

Lemma run_select_keeps n r w : keeps w (run_select n r w).2.
Proof. unfold run_select. by dcall x e. Qed.

Lemma sweep_keeps w : keeps w (with_sched (live (w_sched w)) w).
Proof.
  split_and!; [|done..]. intros [Hs]. split; try done. wsimpl.
  apply list.Forall_forall. intros x Hx. apply list_elem_of_filter in Hx as [_ Hx].
  by apply (proj1 (list.Forall_forall _ _) Hs).
Qed.

Lemma steps_keep w calls w' : loop_steps run_sched_cb run_select w calls w' → keeps w w'.
Proof.
  apply loop_steps_rel; [apply _|apply sweep_keeps|apply run_select_keeps|apply run_sched_cb_keeps].
Qed.

Lemma reachable_wf args e calls w : reachable args e calls w → wf w.
Proof.
  intros (w0 & Hi & Hl). apply main_init_wf in Hi; [|apply initial_wf]. apply steps_keep in Hl as [Hl _]. by apply Hl.
Qed.

(** C1. The loop refines the step relation: what [main] computes in any number
    of rounds is a reachable state, and the callbacks it has called are those
    of entries that were registered, and not deleted, when they were called. *)
Theorem main_refines_steps n fuel args e w calls :
  main sock_path n fuel args (initial_world e) = Running (Done (w, calls)) →
  reachable args e calls w.
Proof.
  unfold main. destruct (main_init _ _ _) as [w0| |] eqn:Hi; [|done..]. intros [= Hl].
  exists w0. split; [exact Hi|]. by eapply loop_is_steps.
Qed.

(** C2. In every reachable state the variables hold values of their types, the
    entries of the alarms and of the requests have addresses of their own, and
    all descriptors are valid numbers. The configuration, the identity and its
    keys, the resources of the server, and the set of features are what the
    initialisation made them. *)
Theorem client_invariant args e calls w :
  reachable args e calls w →
  wf w ∧ ∃ w0, main_init sock_path args (initial_world e) = Running w0 ∧ setup w = setup w0.
Proof.
  intros Hr. split; [by eapply reachable_wf|]. destruct Hr as (w0 & Hi & Hl). exists w0.
  split; [exact Hi|]. by apply steps_keep in Hl as (_ & ? & _).
Qed.

(** C10. No reachable state of the client lets the code that called a callback
    use an entry the callback has freed: a timer, a response and a timeout
    fail only when the callback itself does. An alarm that is found runs its
    callback once, and is cancelled when it runs once. The one exception is a
    timeout alarm with the number of the keep-alive alarm. *)
Theorem no_use_after_free args e calls w :
  reachable args e calls w →
  (∀ fd p, find_first (has_id fd) (w_alarms w) = Some p →
     (al_callback p = AC_request_alarm_cb → ka_alarm_id (w_register w) ≠ fd) →
     atlas_alarm_trigger run_alarm_cb fd w =
     (w1 ← run_alarm_cb (al_callback p) fd (call (sys_read fd 8) (log (EvRead fd) w)).2;
      Some (if run_once p then atlas_alarm_cancel fd w1 else w1))) ∧
  (∀ fd p, find_first (has_fd fd) (w_reqs w) = Some p →
     let '(inputs, w1) := call (coap_io_process (rq_ctx p)) w in
     is_Some (coap_client_sched_callback run_client_cb fd w) ↔
     is_Some (client_io run_client_cb (rq_ctx p) inputs w1)) ∧
  (∀ id p, find_first (has_alarm id) (w_reqs w) = Some p →
     is_Some (request_alarm_cb run_client_cb id w) ↔
     is_Some (run_client_cb (rq_callback p) (rq_uri p) ATLAS_COAP_RESP_TIMEOUT None 0 w)).
Proof.
  intros [_ [Hna _] [Hnr _] _ _ _ _]%reachable_wf. split_and!.
  - intros fd p Hp Hka.
    destruct (run_alarm_cb (al_callback p) fd (call (sys_read fd 8) (log (EvRead fd) w)).2) as [w1|] eqn:Hr.
    + by rewrite (trigger_finds_entry fd w p w1).
    + unfold atlas_alarm_trigger. rewrite Hp. apply find_first_elem in Hp as [_ Hid%bool_decide_eq_true].
      destruct (call _ _) as [a w1]. rewrite Hid. cbn [snd] in Hr. by rewrite Hr.
  - intros fd p Hp. pose proof (find_req_at _ _ _ Hnr Hp) as Hfa.
    unfold coap_client_sched_callback. rewrite Hp. dcall inputs e1.
    destruct (client_io _ _ _ _) as [w1|] eqn:Hio; [|done]. apply client_io_grows in Hio as [Hio _].
    destruct (reqs_ext_find _ _ _ _ Hio Hfa) as (q & Hq & _). cbn [mbind option_bind]. rewrite Hq.
    cbn [mbind option_bind]. by destruct (rq_dirty q).
  - intros id p Hp. pose proof (find_req_at _ _ _ Hnr Hp) as Hfa.
    unfold request_alarm_cb. rewrite Hp.
    destruct (run_client_cb _ _ _ _ _ _) as [w1|] eqn:Hr; [|done].
    apply run_client_cb_grows in Hr as [Hr _].
    destruct (reqs_ext_find _ _ _ _ Hr Hfa) as (q & Hq & _). cbn [mbind option_bind]. rewrite Hq.
    cbn [mbind option_bind]. split; eauto.
Qed.

(** C11. Once a command has been accepted, no later request of any reachable
    state is: each is answered "unknown" and changes nothing, since the flag
    is never reset. *)
Theorem commands_deferred_for_good args e calls w calls' w' uri pl n :
  reachable args e calls w → w_cmdInProgress w = true →
  loop_steps run_sched_cb run_select w calls' w' →
  reachable args e (calls ++ calls') w' ∧
  atlas_execute_command_cb uri pl n w' = Some (ATLAS_COAP_RESP_UNKNOWN, None, w').
Proof.
  intros (w0 & Hi & Hl) Hc Hl'. split.
  - exists w0. split; [exact Hi|by eapply loop_steps_trans].
  - apply steps_keep in Hl' as (_ & _ & Hf & _). unfold atlas_execute_command_cb,
      atlas_alert_command_execution_parse. by rewrite (Hf Hc).
Qed.

End Reachable.
