(* ===== verification/Startup.v ===== *)
(** * The state a client starts its loop in

    What the steps of [main] leave behind, put together: the options, the
    identity and the keys, the server, the connector, the features, and at
    most one request, the registration. *)

From stdpp Require Import gmap.
From S2P Require Import Prelude Protocol Command CString Scheduler State Config Identity Alarm.
From S2P Require Import CoapClient Request CoapServer Connector TelemetryPayload Telemetry.
From S2P Require Import TelemetryAlerts Register CommandExecute Client EventLoop Invariant.

Section Frames.
Context `{Host, Env E}.
Implicit Types w : World E.

(** What the installation of the resources leaves alone. *)
Definition installs w w' : Prop :=
  w_sched w' = w_sched w ∧ w_reqs w' = w_reqs w ∧ w_alarms w' = w_alarms w ∧ w_cfg w' = w_cfg w ∧
  w_id w' = w_id w ∧ w_dtls w' = w_dtls w ∧ w_register w' = w_register w ∧
  w_cmdInProgress w' = w_cmdInProgress w ∧
  srv_ctx (w_server w') = srv_ctx (w_server w) ∧ srv_fd (w_server w') = srv_fd (w_server w).

#[export] Instance installs_preorder : PreOrder installs.
Proof.
  unfold installs. split; [by intros w; split_and!|].
  intros w1 w2 w3 (? & ? & ? & ? & ? & ? & ? & ? & ? & ?) (? & ? & ? & ? & ? & ? & ? & ? & ? & ?).
  split_and!; congruence.
Qed.











End Frames.

Section Startup.
Context `{Host, Malloc, Env E}.
Context (sock_path : list byte).
Implicit Types w : World E.









End Startup.

(** ** A concrete client

    It starts in the simulated environment; every descriptor is always ready,
    reads deliver an identity, and the gateway sends an approved restart to the
    resource of the commands. *)

Definition restart_request : coap_input :=
  InRequest put_handler 43 9 (Some ATLAS_COMMAND_EXECUTE_PATH)
    (Some (encode [(ATLAS_CMD_DEVICE_RESTART, [])])).

Definition live_env : Env Z := sim_env (B "dev") [restart_request].

Definition unix_path : list byte := B "/run/atlas.sock".

Definition world_started : World Z :=
  match @main_init le_host padded_malloc Z live_env unix_path cli_args (initial_world 20) with
  | Running w => w
  | _ => initial_world 20
  end.

Lemma world_started_eq :
  @main_init le_host padded_malloc Z live_env unix_path cli_args (initial_world 20) =
  Running world_started.
Proof. by vm_compute. Qed.

Lemma Running_inj {A} (a b : A) : Running a = Running b → a = b.
Proof. congruence. Qed.

(** The state and the calls after one round. *)
Definition round_one : World Z * list (sched_cb * Z) :=
  match @atlas_sched_loop _ _ _ (@run_sched_cb le_host Z live_env) (@run_select Z live_env) 1 10
          world_started with
  | Done r => r
  | _ => (initial_world 20, [])
  end.

Definition world_one : World Z := round_one.1.
Definition calls_one : list (sched_cb * Z) := round_one.2.

Lemma round_one_eq :
  atlas_sched_loop (@run_sched_cb le_host Z live_env) (@run_select Z live_env) 1 10 world_started =
  Done (world_one, calls_one).
Proof. by vm_compute. Qed.

Lemma world_one_reachable :
  @reachable le_host padded_malloc Z live_env unix_path cli_args 20 calls_one world_one.
Proof.
  exists world_started. split; [apply world_started_eq|]. 
  pose proof (loop_is_steps _ _ _ _ _ _ _ round_one_eq) as Hl. exact Hl.
Qed.


Lemma main_refines_steps_witness :
  @reachable le_host padded_malloc Z live_env unix_path cli_args 20 calls_one world_one ∧
  calls_one = [(SC_atlas_alarm_trigger, 26); (SC_atlas_coap_server_sched_callback, 27);
                 (SC_atlas_data_plane_accept_cb, 29)].
Proof.
  split; [|by vm_compute].
  apply (@main_refines_steps le_host padded_malloc Z live_env unix_path 1 10 cli_args 20
    world_one calls_one).
  unfold main. rewrite world_started_eq, round_one_eq. reflexivity.
Defined.

Lemma client_invariant_witness :
  wf world_one ∧ setup world_one = setup world_started.
Proof.
  destruct (@client_invariant le_host padded_malloc Z live_env unix_path cli_args 20
    calls_one world_one world_one_reachable) as (Hw & w0 & Hi & Hs).
  split; [exact Hw|]. rewrite world_started_eq in Hi.
  apply Running_inj in Hi. rewrite Hi. exact Hs.
Defined.

(** The timeout of the registration, in the first state of the loop. *)
Lemma no_use_after_free_witness :
  is_Some (@request_alarm_cb Z live_env (@run_client_cb le_host Z live_env) 26 world_started).
Proof.
  assert (@reachable le_host padded_malloc Z live_env unix_path cli_args 20 [] world_started) as Hr.
  { exists world_started. split; [apply world_started_eq|constructor]. }
  destruct (find_first (has_alarm 26) (w_reqs world_started)) as [p|] eqn:Hp;
    [|exfalso; revert Hp; by vm_compute].
  apply (proj2 (proj2 (@no_use_after_free le_host padded_malloc Z live_env unix_path cli_args 20 []
    world_started Hr)) 26 p Hp).
  assert (rq_callback p = CC_reg_callback) as -> by (vm_compute in Hp; by injection Hp as <-).
  eexists. reflexivity.
Defined.

Lemma commands_deferred_for_good_witness :
  @atlas_execute_command_cb le_host Z live_env ATLAS_COMMAND_EXECUTE_PATH
    (Some (encode [(ATLAS_CMD_DEVICE_RESTART, [])])) 4 world_one =
  Some (ATLAS_COAP_RESP_UNKNOWN, None, world_one).
Proof.
  refine (proj2 (@commands_deferred_for_good le_host padded_malloc Z live_env unix_path cli_args 20
    calls_one world_one [] world_one _ _ _ world_one_reachable _ _)).
  - by vm_compute.
  - constructor.
Defined.
