(* ===== verification/RegisterSpec.v ===== *)
(** * The registration, abstractly

    What the client promises about its registration: an automaton over the
    answers it gets, with a flag and the number of failures that are left. The
    client's state is mapped to a state of the automaton, what its callbacks
    are told to events of it, and every run of the loop refines it: nothing but
    these answers changes the registration. *)

From stdpp Require Import gmap.
From S2P Require Import Prelude Protocol Command CString Scheduler State Config Identity Alarm.
From S2P Require Import CoapClient Request CoapServer Connector TelemetryPayload Telemetry.
From S2P Require Import TelemetryAlerts Register CommandExecute Client EventLoop Invariant Startup.

(** ** The automaton *)

Record link := mk_link { up : bool; fails_left : Z }.

(** A registration that is accepted or refused; a keep-alive that is answered
    with its token, that the gateway rejects (404 or 406), or that is lost. *)
Inductive link_event := Accepted | Refused | Answered | Rejected | Lost.

#[global] Instance link_event_eq_dec : EqDecision link_event.
Proof. solve_decision. Defined.

Definition link_step (l : link) (e : link_event) : link :=
  match e with
  | Accepted => mk_link true (fails_left l)
  | Refused => l
  | Answered => mk_link (up l) 3
  | Rejected => mk_link false 0
  | Lost => if decide (fails_left l = 1) then mk_link false 0 else mk_link (up l) ((fails_left l - 1) mod 256)
  end.

Definition link_run (evs : list link_event) (l : link) : link := fold_left link_step evs l.

(** How many keep-alives may still be lost. *)
Definition budget (l : link) : Z := if decide (fails_left l = 0) then 256 else fails_left l.

Definition losses (evs : list link_event) : Z := zlen (base.filter (λ e, e = Lost) evs).

(** ** Events of the client *)

Section Events.
Context `{Host, Env E}.
Implicit Types w : World E.

Definition link_of w : link :=
  mk_link (bool_decide (registered (w_register w) = ATLAS_CLIENT_REGISTERED))
    (ka_count (w_register w)).

(** The answer starts with the token of the last keep-alive. *)
Definition echoes (token : Z) (st : atlas_coap_response_t) (pl : option (list byte)) (n : Z) : bool :=
  bool_decide (st = ATLAS_COAP_RESP_OK) && bool_decide (2 ≤ n) &&
  match pl with Some p => bool_decide (take 2 p = store16 token) | None => false end.

Definition event_of (cb : client_cb) (st : atlas_coap_response_t) (pl : option (list byte)) (n : Z) w
    : list link_event :=
  match cb with
  | CC_reg_callback => [if decide (st = ATLAS_COAP_RESP_OK) then Accepted else Refused]
  | CC_keepalive_callback =>
      [if echoes (ka_token (w_register w)) st pl n then Answered
       else if decide (st = ATLAS_COAP_RESP_NOT_FOUND ∨ st = ATLAS_COAP_RESP_NOT_ACCEPTABLE_HERE)
       then Rejected else Lost]
  | _ => []
  end.

(** A response that is matched to a request is told to its callback. *)
Definition message_events (ctx session : Z) (received : coap_pdu_t) w : list link_event :=
  match find_first (in_session ctx session) (w_reqs w) with
  | Some ent =>
      if validate_token received (rq_token ent) then
        let '(st, pl, n) := response_args received in event_of (rq_callback ent) st pl n w
      else []
  | None => []
  end.

Fixpoint io_events (ctx : Z) (inputs : list coap_input) w : list link_event :=
  match inputs with
  | [] => []
  | InResponse session snt received :: inputs =>
      message_events ctx session received w ++
      match message_handler run_client_cb ctx session snt received w with
      | Some w => io_events ctx inputs w
      | None => []
      end
  | InRequest _ _ _ _ _ :: inputs => io_events ctx inputs w
  end.

Definition timeout_events (id : Z) w : list link_event :=
  match find_first (has_alarm id) (w_reqs w) with
  | Some p => event_of (rq_callback p) ATLAS_COAP_RESP_TIMEOUT None 0 w
  | None => []
  end.

(** What a callback of the scheduler is told: responses, or a timeout. *)
Definition cb_events (cb : sched_cb) (fd : Z) w : list link_event :=
  match cb with
  | SC_coap_client_sched_callback =>
      match find_first (has_fd fd) (w_reqs w) with
      | Some p => let '(inputs, w) := call (coap_io_process (rq_ctx p)) w in
                  io_events (rq_ctx p) inputs w
      | None => []
      end
  | SC_atlas_alarm_trigger =>
      match find_first (has_id fd) (w_alarms w) with
      | Some a => match al_callback a with
                  | AC_request_alarm_cb => timeout_events fd w
                  | _ => []
                  end
      | None => []
      end
  | _ => []
  end.

(** The steps of the loop, with the events. *)
Inductive observed : World E → list link_event → World E → Prop :=
| observed_done w : observed w [] w
| observed_sweep w evs w' :
    observed (with_sched (live (w_sched w)) w) evs w' → observed w evs w'
| observed_wait n readfds w evs w' :
    observed (run_select n readfds w).2 evs w' → observed w evs w'
| observed_call w ent w1 evs w' :
    ent ∈ w_sched w → se_dirty ent = false →
    run_sched_cb (se_callback ent) (se_fd ent) w = Some w1 →
    observed w1 evs w' →
    observed w (cb_events (se_callback ent) (se_fd ent) w ++ evs) w'.

(** Every run of the loop is observed. *)
Lemma steps_observed w calls w' :
  loop_steps run_sched_cb run_select w calls w' → ∃ evs, observed w evs w'.
Proof.
  induction 1 as [w|w c w' _ [evs IH]|n r w c w' _ [evs IH]|w ent w1 c w' Hin Hd Hr _ [evs IH]].
  - exists []. constructor.
  - exists evs. by constructor.
  - exists evs. by econstructor.
  - eexists. by eapply observed_call.
Qed.

End Events.

(** ** The refinement *)

Section AutomatonLemmas.

Lemma link_run_app evs1 evs2 l : link_run (evs1 ++ evs2) l = link_run evs2 (link_run evs1 l).
Proof. apply fold_left_app. Qed.

Lemma losses_cons e evs : losses (e :: evs) = (if decide (e = Lost) then 1 else 0) + losses evs.
Proof.
  unfold losses. rewrite filter_cons. case_decide; [|done]. unfold zlen. cbn [length]. lia.
Qed.

(** A link that is up stays so while few enough keep-alives are lost. *)
Lemma link_step_up e l :
  up l = true → 0 ≤ fails_left l < 256 → e ≠ Rejected →
  (if decide (e = Lost) then 1 else 0) < budget l →
  up (link_step l e) = true ∧ 0 ≤ fails_left (link_step l e) < 256 ∧
  budget l `min` 3 - (if decide (e = Lost) then 1 else 0) ≤ budget (link_step l e) `min` 3.
Proof.
  intros Hu Hl He Hb. unfold budget in *.
  destruct e; cbn [link_step up fails_left] in *; try done; repeat case_decide; try done;
    cbn [up fails_left] in *; split_and?; try done; mlia.
Qed.

Lemma link_run_up evs l :
  up l = true → 0 ≤ fails_left l < 256 → Rejected ∉ evs → losses evs < budget l `min` 3 →
  up (link_run evs l) = true.
Proof.
  revert l. induction evs as [|e evs IH]; intros l Hu Hl Hr Hb; [done|].
  rewrite losses_cons in Hb. apply not_elem_of_cons in Hr as [He Hr]. cbn [link_run fold_left].
  assert (0 ≤ losses evs) as H0 by apply zlen_nonneg.
  destruct (link_step_up e l) as (Hu' & Hl' & Hb'); [done..|lia|]. apply IH; try done. lia.
Qed.

End AutomatonLemmas.

Section Refinement.
Context `{Host, Env E}.
Implicit Types w : World E.

Lemma calm_link w w' : calm w w' → link_of w' = link_of w.
Proof. unfold link_of. by intros (_ & _ & _ & _ & ->). Qed.

Lemma keepalive_err_link w w' :
  0 ≤ ka_count (w_register w) < 256 → keepalive_err w = Some w' →
  link_of w' = link_step (link_of w) Lost.
Proof.
  intros Hc. rewrite keepalive_err_eq by done. cbn [link_step fails_left link_of]. case_decide as H1.
  - intros Hs%send_register_calm%calm_link. rewrite Hs. unfold link_of.
    by rewrite unregistered_register.
  - by intros [= <-].
Qed.

Lemma mread_pair p v : mread p 0 2 = Some v → ∃ a b, v = [a; b] ∧ take 2 p = [a; b].
Proof.
  unfold mread. case_decide as Hl; [|done]. intros [= <-]. cbn [Z.to_nat drop] in *.
  destruct p as [|a [|b p]]; [by destruct Hl as (_ & _ & Hl)..|]. by exists a, b.
Qed.

Lemma keepalive_callback_link st pl n w w' :
  register_ok (w_register w) → keepalive_callback st pl n w = Some w' →
  link_of w' = link_run (event_of CC_keepalive_callback st pl n w) (link_of w).
Proof.
  intros (_ & Ht & Hc). unfold keepalive_callback, event_of, echoes. case_decide as Hst.
  { rewrite (bool_decide_eq_false_2 (st = _)) by done. cbn [andb].
    case_decide; intros Hs; apply keepalive_err_link in Hs; done. }
  subst st. rewrite (bool_decide_eq_true_2 (_ = _)) by done. cbn [andb].
  rewrite (decide_False (P := ATLAS_COAP_RESP_OK = _ ∨ _)) by (by intros [|]).
  destruct pl as [p|]; [|rewrite andb_false_r; by apply keepalive_err_link].
  case_decide as Hn; [rewrite bool_decide_eq_false_2 by lia; by apply keepalive_err_link|].
  rewrite bool_decide_eq_true_2 by lia. cbn [andb]. intros (v & Hv & Hs)%bind_Some.
  apply mread_pair in Hv as (a & b & -> & ->). revert Hs. case_decide as Hl.
  - intros Hs. rewrite bool_decide_eq_false_2; [by apply keepalive_err_link|].
    intros He. apply Hl. rewrite He. by rewrite load16_store16.
  - intros [= <-]. rewrite bool_decide_eq_true_2; [done|]. rewrite Hl. by rewrite store16_load16.
Qed.

Lemma reg_callback_link st w w' :
  reg_callback st w = Some w' →
  link_of w' = link_step (link_of w) (if decide (st = ATLAS_COAP_RESP_OK) then Accepted else Refused).
Proof.
  unfold reg_callback. destruct (decide (st = ATLAS_COAP_RESP_OK)) as [Hst|Hst].
  2: { rewrite decide_True by done. intros [= <-]. apply calm_link, calm_alarm_set. }
  rewrite decide_False by tauto. cbn [link_step]. intros Hs.
  apply bind_Some in Hs as (w1 & Hp & (w2 & Hf & Hs)%bind_Some).
  assert (calm w w1) as (_ & _ & _ & _ & Hr1) by (case_decide; [by apply send_policy_calm|by simplify_eq]).
  apply push_features_calm in Hf as (_ & _ & _ & _ & Hr2).
  pose proof (calm_alarm_set ATLAS_CLIENT_KEEPALIVE_TIMEOUT_MS
    AC_keepalive_alarm_callback false w2) as (_ & _ & _ & _ & Hr3).
  destruct (atlas_alarm_set _ _ _ w2) as [id w3]. apply (inj Some) in Hs as <-. cbn [snd] in Hr3.
  unfold link_of, set_ka_alarm_id. wsimpl. rewrite Hr3, Hr2. unfold set_registered. wsimpl. by rewrite Hr1.
Qed.

Lemma send_keepalive_link w w' : send_keepalive_command w = Some w' → link_of w' = link_of w.
Proof.
  unfold send_keepalive_command. intros (i & _ & Hs)%bind_Some.
  apply bind_Some in Hs as ([s w1] & Hi & Hs). apply local_ipPort_calm, calm_link in Hi.
  apply calm_send_batch, calm_link in Hs. rewrite <- Hi. exact Hs.
Qed.

(** A callback of a request. *)
Lemma client_cb_link cb uri st pl n w w' :
  register_ok (w_register w) → run_client_cb cb uri st pl n w = Some w' →
  link_of w' = link_run (event_of cb st pl n w) (link_of w).
Proof.
  intros Hok. destruct cb; cbn [run_client_cb event_of link_run fold_left].
  - apply reg_callback_link.
  - by apply keepalive_callback_link.
  - unfold telemetry_callback. intros Hs. apply calm_link. case_decide; [by binv|].
    case_decide; [by binv|]. by eapply push_first_calm.
  - unfold policy_callback. intros [= <-]. case_decide; [apply calm_link, calm_alarm_set|done].
  - intros Hs. by eapply calm_link, feature_reputation_calm.
  - by intros [= <-].
Qed.

Lemma wf_register_ok w : wf w → register_ok (w_register w).
Proof. by intros []. Qed.

Lemma message_handler_link ctx session snt received w w' :
  wf w → message_handler run_client_cb ctx session snt received w = Some w' →
  link_of w' = link_run (message_events ctx session received w) (link_of w) ∧ wf w'.
Proof.
  intros Hwf. unfold message_handler, message_events.
  destruct (find_first _ _) as [ent|]; [|by intros [= <-]].
  destruct (validate_token _ _); [|by case_decide; intros [= <-]].
  destruct (response_args received) as [[st pl] n].
  set (w1 := with_reqs _ w). intros Hs.
  assert (calm w w1) as Hc by apply calm_reqs_mark.
  assert (wf w1) as Hwf1 by by apply Hc. pose proof (client_cb_keeps _ _ _ _ _ _ _ Hs) as [Hk _].
  apply client_cb_link in Hs; [|by apply wf_register_ok]. split; [exact Hs|by apply Hk].
Qed.

Lemma client_io_link ctx inputs w w' :
  wf w → client_io run_client_cb ctx inputs w = Some w' →
  link_of w' = link_run (io_events ctx inputs w) (link_of w).
Proof.
  revert w. induction inputs as [|[session snt r|] inputs IH]; intros w Hwf;
    cbn [client_io io_events]; [by intros [= <-]| |by apply IH].
  intros (w1 & Hm & Hs)%bind_Some. rewrite Hm, link_run_app.
  apply message_handler_link in Hm as [<- Hwf1]; [|done]. by apply IH.
Qed.

Lemma request_alarm_link id w w' :
  wf w → request_alarm_cb run_client_cb id w = Some w' →
  link_of w' = link_run (timeout_events id w) (link_of w).
Proof.
  intros Hwf. unfold request_alarm_cb, timeout_events.
  destruct (find_first _ _) as [p|]; [|by intros [= <-]]. intros Hs.
  apply bind_Some in Hs as (w1 & Hr & (q & _ & Hs)%bind_Some). apply (inj Some) in Hs as <-.
  apply client_cb_link in Hr; [|by apply wf_register_ok]. exact Hr.
Qed.

Lemma alarm_cb_link cb id w w' :
  wf w → run_alarm_cb cb id w = Some w' →
  link_of w' = link_run (match cb with AC_request_alarm_cb => timeout_events id w | _ => [] end)
                 (link_of w).
Proof.
  intros Hwf. destruct cb; cbn [run_alarm_cb link_run fold_left].
  - by apply request_alarm_link.
  - intros Hs. by apply calm_link, send_register_calm.
  - apply send_keepalive_link.
  - intros Hs. by apply calm_link, send_policy_calm.
  - intros Hs. by eapply calm_link, push_first_calm.
  - intros Hs. by eapply calm_link, push_first_calm.
  - by intros [= <-].
  - by intros [= <-].
Qed.

(** Every callback of the scheduler is a run of the automaton. *)
Lemma sched_cb_link cb fd w w' :
  wf w → run_sched_cb cb fd w = Some w' → link_of w' = link_run (cb_events cb fd w) (link_of w).
Proof.
  intros Hwf. destruct cb; cbn [run_sched_cb cb_events]; intros Hs.
  - unfold atlas_alarm_trigger in Hs. destruct (find_first _ _) as [p|] eqn:Hp; [|by binv].
    apply find_first_elem in Hp as [_ Hid%bool_decide_eq_true].
    destruct (call_eq (sys_read fd 8) (log (EvRead fd) w)) as (a & e & X & _). rewrite X in Hs.
    apply bind_Some in Hs as (w1 & Hr & (q & _ & Hs)%bind_Some).
    rewrite Hid in Hr. apply alarm_cb_link in Hr; [|exact Hwf].
    transitivity (link_of w1); [|exact Hr].
    destruct (run_once q); apply (inj Some) in Hs as <-; [apply calm_link, calm_alarm_cancel|done].
  - unfold coap_client_sched_callback in Hs. destruct (find_first _ _) as [p|]; [|by binv].
    destruct (call_eq (coap_io_process (rq_ctx p)) w) as (a & e & X & _). rewrite X in Hs |- *.
    apply bind_Some in Hs as (w1 & Hr & (q & _ & Hs)%bind_Some).
    apply client_io_link in Hr; [|exact Hwf]. transitivity (link_of w1); [|exact Hr].
    destruct (rq_dirty q); apply (inj Some) in Hs as <-; [|done].
    apply calm_link. etrans; [apply calm_reqs_remove|].
    etrans; [apply (calm_sched_del (coap_fd q) _)|].
    apply (calm_alarm_cancel _ (sched_del (coap_fd q) (with_reqs _ w1))).
  - unfold atlas_coap_server_sched_callback in Hs. apply bind_Some in Hs as (ctx & _ & Hs).
    destruct (call_eq (coap_io_process ctx) w) as (a & e & X & _). rewrite X in Hs.
    by apply server_io_calm, calm_link in Hs.
  - apply (inj Some) in Hs as <-. apply calm_link, accept_cb_calm.
  - by eapply calm_link, read_cb_calm.
Qed.

Lemma observed_link w evs w' : observed w evs w' → wf w → link_of w' = link_run evs (link_of w).
Proof.
  induction 1 as [w|w evs w' _ IH|n r w evs w' _ IH|w ent w1 evs w' Hin Hd Hr _ IH]; intros Hwf.
  - done.
  - rewrite IH; [done|]. by apply sweep_keeps.
  - rewrite IH by (by apply run_select_keeps). unfold run_select. by dcall x e.
  - rewrite IH by (by eapply run_sched_cb_keeps). by rewrite link_run_app, (sched_cb_link _ _ _ _ Hwf Hr).
Qed.
End Refinement.

Section Properties.
Context `{Host, Malloc, Env E}.
Context (sock_path : list byte).
Implicit Types w : World E.

(** C3. The client refines the automaton: over any run of the loop, from any
    state that is reachable, the registration and the failures that are left
    are what the automaton computes from the answers the callbacks got, and
    nothing else changes them. A client that has just started is down. *)
Theorem register_refines_automaton args e calls w evs w' :
  reachable sock_path args e calls w → observed w evs w' →
  link_of w' = link_run evs (link_of w).
Proof. intros Hr%reachable_wf Ho. by apply observed_link. Qed.

(** C9. A client that is registered stays so, whatever else happens, as long
    as no keep-alive is rejected and fewer are lost than its counter allows,
    and fewer than three, the value a keep-alive that is answered sets. *)
Theorem stays_registered args e calls w evs w' :
  reachable sock_path args e calls w → registered (w_register w) = ATLAS_CLIENT_REGISTERED →
  observed w evs w' → Rejected ∉ evs → losses evs < budget (link_of w) `min` 3 →
  registered (w_register w') = ATLAS_CLIENT_REGISTERED.
Proof.
  intros Hr%reachable_wf Hreg Ho He Hb. pose proof (observed_link _ _ _ Ho Hr) as Hl.
  apply wf_register_ok in Hr as (_ & _ & Hc).
  assert (up (link_run evs (link_of w)) = true) as Hu.
  { apply link_run_up; [by apply bool_decide_eq_true|exact Hc|done|done]. }
  rewrite <- Hl in Hu. by apply bool_decide_eq_true in Hu.
Qed.
End Properties.

(** ** A concrete run

    The gateway accepts the registration of the client of Startup.v; its first
    keep-alive is sent, and is lost. *)

Definition accepting_env : Env Z :=
  sim_env (B "dev") [InResponse 24 true (mk_pdu COAP_MESSAGE_CON 9 65 (@store32 le_host 0) [] None)].

Definition called (cb : sched_cb) (fd : Z) (w : World Z) : World Z :=
  default (initial_world 20) (@run_sched_cb le_host Z accepting_env cb fd w).

Definition world_accepted : World Z := called SC_coap_client_sched_callback 23 world_started.
Definition world_keepalive : World Z := called SC_atlas_alarm_trigger 105 world_accepted.
Definition world_lost : World Z := called SC_atlas_alarm_trigger 110 world_keepalive.

Lemma called_eq cb fd w :
  is_Some (@run_sched_cb le_host Z accepting_env cb fd w) →
  @run_sched_cb le_host Z accepting_env cb fd w = Some (called cb fd w).
Proof. unfold called. by intros [w' ->]. Qed.

(** The callback of the [i]-th entry is called. *)
Lemma called_observed i cb fd ev w w1 evs w' :
  w1 = called cb fd w →
  @cb_events le_host Z accepting_env cb fd w = ev → w_sched w !! i = Some (mk_sched_entry fd cb false) →
  is_Some (@run_sched_cb le_host Z accepting_env cb fd w) →
  @observed le_host Z accepting_env w1 evs w' →
  @observed le_host Z accepting_env w (ev ++ evs) w'.
Proof.
  intros -> <- Hin%list_elem_of_lookup_2 Hr.
  by apply (@observed_call le_host Z accepting_env w (mk_sched_entry fd cb false)),
    called_eq.
Qed.

Lemma called_last i cb fd ev w :
  @cb_events le_host Z accepting_env cb fd w = ev → w_sched w !! i = Some (mk_sched_entry fd cb false) →
  is_Some (@run_sched_cb le_host Z accepting_env cb fd w) →
  @observed le_host Z accepting_env w ev (called cb fd w).
Proof.
  intros. rewrite <- (app_nil_r ev). by eapply called_observed; [exact eq_refl|..|constructor].
Qed.

Lemma started_reachable :
  @reachable le_host padded_malloc Z accepting_env unix_path cli_args 20 [] world_started.
Proof. exists world_started. split; [by vm_compute|constructor]. Qed.

Lemma accepted_reachable :
  @reachable le_host padded_malloc Z accepting_env unix_path cli_args 20
    [(SC_coap_client_sched_callback, 23)] world_accepted.
Proof.
  destruct started_reachable as (w0 & Hi & _). exists world_started. split; [by vm_compute|].
  eapply (steps_call _ _ world_started (mk_sched_entry 23 SC_coap_client_sched_callback false));
    [by apply (list_elem_of_lookup_2 _ 1)|done| |constructor].
  apply called_eq. eexists. by vm_compute.
Qed.

(** The registration is accepted. *)
Lemma register_refines_automaton_witness :
  link_of world_started = mk_link false 0 ∧ link_of world_accepted = mk_link true 0.
Proof.
  split; [by vm_compute|].
  assert (@observed le_host Z accepting_env world_started [Accepted] world_accepted) as Ho.
  { unfold world_accepted. apply (called_last 1); [by vm_compute..|eexists; by vm_compute]. }
  rewrite (@register_refines_automaton le_host padded_malloc Z accepting_env unix_path cli_args 20 []
    world_started [Accepted] world_accepted started_reachable Ho).
  by vm_compute.
Defined.

(** A keep-alive is lost. *)
Lemma stays_registered_witness :
  registered (w_register world_lost) = ATLAS_CLIENT_REGISTERED.
Proof.
  apply (@stays_registered le_host padded_malloc Z accepting_env unix_path cli_args 20
    [(SC_coap_client_sched_callback, 23)] world_accepted [Lost] world_lost accepted_reachable).
  - by vm_compute.
  - apply (called_observed 34 SC_atlas_alarm_trigger 105 [] _ world_keepalive [Lost]);
      [unfold world_keepalive; reflexivity|by vm_compute..|eexists; by vm_compute|].
    unfold world_lost. apply (called_last 35); [by vm_compute..|eexists; by vm_compute].
  - by intros Hin%list_elem_of_singleton.
  - by vm_compute.
Defined.
