(* ===== verification/DataPlane.v ===== *)
(** * The data plane application ([data_plane/atlas_data_plane.c])

    An MQTT device on top of the library of DpClient.v. It publishes simulated
    values, serves requests for them, and from time to time opens a window in
    which it collects the values of the other devices, scores them, and sends
    the scores as feedback.

    Four kinds of threads share its state: the main thread, one publisher per
    feature, the MQTT thread that delivers messages, and the task of the
    reputation. The functions below are what a thread does between two points
    at which another one can be seen; [app_step] interleaves them. [strtok]
    keeps one pointer for all threads, which is part of the state: every call
    reads and moves it, and each call is a step of its own. *)

From Stdlib Require Import SpecFloat.
From stdpp Require Import gmap.
From S2P Require Import Prelude Protocol Command CString Float Scheduler State Config Identity Alarm.
From S2P Require Import CoapClient Request Connector DpClient.

Definition ATLAS_DATA_PLANE_REQUEST_REPUTATION_TOPIC : list byte := B "atlas/request/".
Definition ATLAS_DATA_PLANE_DATA_TOPIC : list byte := B "atlas/data/".
Definition ATLAS_DATA_PLANE_REQUEST_REPUTATION_MSG : list byte := B "REQUEST".
Definition ATLAS_DATA_PLANE_FEATURE_MAX_LEN : Z := 32.
Definition ATLAS_DATA_PLANE_BUFFER_LEN : Z := 256.
Definition ATLAS_PUBLISH_FEATURES_MAX : Z := 32.
Definition ATLAS_PACKET_LENGTH_DEFAULT : list byte := B "default".
Definition ATLAS_REPUTATION_FEEDBACK_AVERAGE : list byte := B "average".
Definition ATLAS_DATA_PLANE_FEEDBACK_MAX : Z := 256.
Definition RAND_MAX : Z := 2147483647.

Record timespec := mk_timespec { tv_sec : Z; tv_nsec : Z }.

Record publish_info_t := mk_publish_info {
  pi_feature : list byte;           (* the array of 32 characters *)
  pi_publish_rate : Z;
  pi_base_value : spec_float;       (* a float *)
  pi_deviation : spec_float;        (* a float *)
  pi_qos : Z;
  pi_packet_length : Z;
  pi_publish_msg : option (list byte);   (* the block on the heap *)
  pi_thread : bool                  (* its publisher runs *)
}.

Record reputation_t := mk_reputation {
  rp_feature : list byte;           (* the array of 32 characters *)
  rp_query_rate : Z;
  rp_target_value : Z;
  rp_window_size : Z;
  rp_feedback_active : bool;
  rp_sensor_val : list spec_float;  (* 256 floats *)
  rp_feedback : list atlas_feedback_t;   (* 256 of them *)
  rp_feedback_length : Z;
  rp_window_start : timespec
}.

(** Where the string is that [strtok] cuts: an option, which is there until the
    program ends, or the array [msg] of [handle_data]. *)
Inductive tok_block := TokOption | TokMsg.

(** The pointer of [strtok]: to what is left of a string, or NULL, as at the
    start, or to an array that no longer exists. *)
Inductive tok_state := TokIn (b : tok_block) (rest : list byte) | TokDead.

Inductive app_event :=
| AppPublish (topic : list byte) (qos : Z) (payload : list byte)
| AppSubscribe (topic : list byte) (qos : Z)
| AppConsume (identity : list byte) (value : spec_float).

Class AppEnv (E : Type) := {
  app_geteuid : E → Z * E;
  app_random : E → Z * E;
  app_clock : E → timespec * E;
  mqtt_create : option (list byte) → list byte → E → bool * E;
  mqtt_connect : E → bool * E
}.

Section App.
Context `{Host} {E : Type} `{DpEnv E, AppEnv E}.

Record app_state_t := mk_app {
  ap_dp : dp_state E;               (* the library, and the environment *)
  ap_trace : list app_event;
  ap_publish : list publish_info_t; (* 32 of them *)
  ap_rep : reputation_t;
  ap_identity : option (list byte); (* the block [identity] points to *)
  ap_tok : tok_state
}.

Implicit Types a : app_state_t.

Definition ap_emit (ev : app_event) a : app_state_t :=
  mk_app (ap_dp a) (ap_trace a ++ [ev]) (ap_publish a) (ap_rep a) (ap_identity a) (ap_tok a).
Definition ap_with_dp d a : app_state_t :=
  mk_app d (ap_trace a) (ap_publish a) (ap_rep a) (ap_identity a) (ap_tok a).
Definition ap_with_publish l a : app_state_t :=
  mk_app (ap_dp a) (ap_trace a) l (ap_rep a) (ap_identity a) (ap_tok a).
Definition ap_with_rep r a : app_state_t :=
  mk_app (ap_dp a) (ap_trace a) (ap_publish a) r (ap_identity a) (ap_tok a).
Definition ap_with_tok t a : app_state_t :=
  mk_app (ap_dp a) (ap_trace a) (ap_publish a) (ap_rep a) (ap_identity a) t.

(** A call that only uses the environment. *)
Definition ap_call {A} (f : E → A * E) a : A * app_state_t :=
  let '(x, e) := f (dp_env (ap_dp a)) in (x, ap_with_dp (dp_with_env e (ap_dp a)) a).
Definition ap_sleep (seconds : Z) a : app_state_t :=
  ap_with_dp (dp_with_env (dp_sleep (u32 seconds) (dp_env (ap_dp a))) (ap_dp a)) a.

(** [strtok (s, seps)] and [strtok (NULL, seps)]. *)
Definition strtok_first (seps : list byte) (b : tok_block) (s : list byte) a
    : option (list byte) * app_state_t :=
  let '(t, rest) := strtok seps s in (t, ap_with_tok (TokIn b rest) a).
Definition strtok_next (seps : list byte) a : option (option (list byte) * app_state_t) :=
  match ap_tok a with
  | TokIn b s => Some (strtok_first seps b s a)
  | TokDead => None
  end.

(** A field of an option: its string is used without a test for NULL. *)
Definition next_field a : option (list byte * app_state_t) :=
  '(p, a) ← strtok_next (B ":") a;
  p ← p;
  Some (p, a).

(** ** Publishing *)

Definition random_number_generator (base_value deviation : spec_float) a
    : spec_float * app_state_t :=
  let randInterval := f_mul (f_of_Z 2) deviation in
  let lower := f_sub base_value deviation in
  let '(r, a) := ap_call app_random a in
  (f_add (f_mul randInterval (f_div (f_of_Z r) (f_of_Z RAND_MAX))) lower, a).

(** The message of a feature, in its buffer, and its length. *)
Definition publish_body (p : publish_info_t) a : option (list byte * Z * app_state_t) :=
  if decide (pi_packet_length p = 0) then
    let '(value, a) := random_number_generator (pi_base_value p) (pi_deviation p) a in
    identity ← ap_identity a;
    identity ← cstr_of identity;
    msg ← pi_publish_msg p;
    msg ← strcpy msg (identity ++ B ":" ++ sprintf_f (d_of_f value));
    len ← blk_strlen msg;
    Some (msg, len, a)
  else if decide (pi_packet_length p < 0) then None
  else
    msg ← pi_publish_msg p;
    msg ← mwrite msg 0 (replicate (Z.to_nat (pi_packet_length p)) x30);
    Some (msg, pi_packet_length p, a).

Definition set_publish_msg (msg : list byte) (p : publish_info_t) : publish_info_t :=
  mk_publish_info (pi_feature p) (pi_publish_rate p) (pi_base_value p) (pi_deviation p) (pi_qos p)
    (pi_packet_length p) (Some msg) (pi_thread p).

(** [i] is the index of the structure [pub_info] points to. *)
Definition publish_feature_value (i : nat) a : option app_state_t :=
  p ← ap_publish a !! i;
  feature ← cstr_of (pi_feature p);
  topic ← strcpy (malloc (ATLAS_DATA_PLANE_BUFFER_LEN + 1)) (ATLAS_DATA_PLANE_DATA_TOPIC ++ feature);
  topic ← cstr_of topic;
  '(msg, len, a) ← publish_body p a;
  payload ← mread msg 0 len;
  let a := ap_with_publish (<[i := set_publish_msg msg p]> (ap_publish a)) a in
  Some (ap_emit (AppPublish topic (pi_qos p) payload) a).

(** A turn of [publish_task]. *)
Definition publish_task (i : nat) a : option app_state_t :=
  a ← publish_feature_value i a;
  p ← ap_publish a !! i;
  Some (ap_sleep (pi_publish_rate p) a).

(** The topic of a feature, in an uninitialised array. *)
Definition make_topic (prefix feature : list byte) : option (list byte) :=
  topic ← strcpy (malloc ATLAS_DATA_PLANE_BUFFER_LEN) prefix;
  topic ← strcat topic feature;
  cstr_of topic.

Definition request_reputation_val (feature : list byte) a : option app_state_t :=
  topic ← make_topic ATLAS_DATA_PLANE_REQUEST_REPUTATION_TOPIC feature;
  Some (ap_emit (AppPublish topic 2 ATLAS_DATA_PLANE_REQUEST_REPUTATION_MSG) a).

Definition handle_publish_req (feature : list byte) a : option app_state_t :=
  match list_find (λ p, c_string (pi_feature p) = feature) (ap_publish a) with
  | Some (i, _) => publish_feature_value i a
  | None => Some a
  end.

(** ** Scoring *)

Definition score_steps : list (spec_float * Z) :=
  [(d_of_decimal false 2 (-1), 98); (d_of_decimal false 6 (-1), 95);
   (d_of_decimal false 8 (-1), 90); (d_of_Z 1, 85); (d_of_decimal false 13 (-1), 80);
   (d_of_decimal false 15 (-1), 50); (d_of_Z 2, 35); (d_of_decimal false 25 (-1), 20);
   (d_of_Z 3, 10)].

(** The chain of conditions: the first bound the value is below. *)
Definition get_sensor_feedback (value : spec_float) : Z :=
  match find_first (λ st, SFltb value st.1) score_steps with
  | Some (_, score) => score
  | None => 0
  end.

(** [if (value < 0) value *= -1] *)
Definition d_fabs (value : spec_float) : spec_float :=
  if SFltb value (d_of_Z 0) then d_mul value (d_of_Z (-1)) else value.

(** Conversions of a double that does not fit the integer are undefined. *)
Definition to_long (x : spec_float) : option Z :=
  v ← d_trunc x; if decide (- 2 ^ 63 ≤ v < 2 ^ 63) then Some v else None.
Definition to_uint16 (x : spec_float) : option Z :=
  v ← d_trunc x; if decide (0 ≤ v < 65536) then Some v else None.

Definition diff_in_ms (t1 t2 : timespec) : option Z :=
  let '(sec, nsec) :=
    if decide (tv_nsec t2 - tv_nsec t1 < 0)
    then (tv_sec t2 - tv_sec t1 - 1, tv_nsec t2 - tv_nsec t1 + 1000000000)
    else (tv_sec t2 - tv_sec t1, tv_nsec t2 - tv_nsec t1) in
  to_long (d_add (d_mul (d_of_Z sec) (d_of_Z 1000)) (d_div (d_of_Z nsec) (d_of_Z 1000000))).

(** [ATLAS_SEC_TO_MS]: a product of ints. *)
Definition ATLAS_SEC_TO_MS (t : Z) : option Z :=
  if decide (- 2 ^ 31 ≤ t * 1000 < 2 ^ 31) then Some (t * 1000) else None.

(** The score of a response at [now]. *)
Definition time_score (window_start now : timespec) (window_size : Z) : option Z :=
  ms ← diff_in_ms window_start now;
  w ← ATLAS_SEC_TO_MS window_size;
  let resp_time := d_div (d_of_Z ms) (d_of_Z w) in
  to_uint16 (d_sub (d_of_Z 100) (d_mul resp_time (d_of_Z 100))).

Definition set_feedback_active (b : bool) (r : reputation_t) : reputation_t :=
  mk_reputation (rp_feature r) (rp_query_rate r) (rp_target_value r) (rp_window_size r) b
    (rp_sensor_val r) (rp_feedback r) (rp_feedback_length r) (rp_window_start r).
Definition set_samples (vals : list spec_float) (fbs : list atlas_feedback_t) (n : Z)
    (r : reputation_t) : reputation_t :=
  mk_reputation (rp_feature r) (rp_query_rate r) (rp_target_value r) (rp_window_size r)
    (rp_feedback_active r) vals fbs n (rp_window_start r).
Definition set_feedback_length (n : Z) (r : reputation_t) : reputation_t :=
  set_samples (rp_sensor_val r) (rp_feedback r) n r.
Definition set_window_start (t : timespec) (r : reputation_t) : reputation_t :=
  mk_reputation (rp_feature r) (rp_query_rate r) (rp_target_value r) (rp_window_size r)
    (rp_feedback_active r) (rp_sensor_val r) (rp_feedback r) (rp_feedback_length r) t.

(** The score of a sample; without a target the old score stays until the
    window ends. *)
Definition sample_score (r : reputation_t) (value : spec_float) (old : Z) : Z :=
  if decide (rp_target_value r ≠ -1)
  then get_sensor_feedback (d_fabs (d_sub value (d_of_Z (rp_target_value r)))) else old.

(** The devices that delivered a sample in this window. *)
Definition samples (r : reputation_t) : list atlas_feedback_t :=
  take (Z.to_nat (rp_feedback_length r)) (rp_feedback r).

(** The critical section of [handle_data]. *)
Definition record_sample (clientid : list byte) (value : spec_float) a : option app_state_t :=
  let r := ap_rep a in
  if negb (rp_feedback_active r) then Some a else
  if decide (rp_feedback_length r > ATLAS_DATA_PLANE_FEEDBACK_MAX) then Some a else
  if decide (Exists (λ f, c_string (fb_identity f) = clientid) (samples r)) then Some a else
  let i := Z.to_nat (rp_feedback_length r) in
  (* the element must be one of the 256 *)
  f ← rp_feedback r !! i;
  identity ← strcpy (fb_identity f) clientid;
  let '(ts, a) := ap_call app_clock a in
  t ← time_score (rp_window_start r) ts (rp_window_size r);
  let f := mk_feedback identity ATLAS_SENSOR_TEMPERATURE
             (sample_score r value (fb_sensor_score f)) t in
  Some (ap_with_rep (set_samples (<[i := f_of_d value]> (rp_sensor_val r))
                       (<[i := f]> (rp_feedback r)) (rp_feedback_length r + 1) r) a).

(** Where the thread of MQTT is: waiting for a message, or in [handle_data],
    after the first token, or before the critical section. *)
Inductive mqtt_pc :=
| MqttIdle
| MqttValue (clientid : list byte)
| MqttSample (clientid : list byte) (value : spec_float).

(** [handle_data] ends, and with it its array [msg]. *)
Definition end_handle_data a : app_state_t :=
  match ap_tok a with
  | TokIn TokMsg _ => ap_with_tok TokDead a
  | _ => a
  end.

(** [handle_data] up to the identity of the device. Both arrays of the function
    are 256 bytes. *)
Definition handle_data (payload : option (list byte)) (payload_len : Z) a
    : option (mqtt_pc * app_state_t) :=
  match payload with
  | None => Some (MqttIdle, a)
  | Some payload =>
      if decide (payload_len = 0) then Some (MqttIdle, a) else
      v ← mread payload 0 payload_len;
      msg ← mwrite (zeros ATLAS_DATA_PLANE_BUFFER_LEN) 0 v;
      s ← cstr_of msg;
      let '(p, a) := strtok_first (B ":") TokMsg s a in
      match p with
      | None => Some (MqttIdle, end_handle_data a)
      | Some p =>
          _ ← strcpy (zeros ATLAS_DATA_PLANE_BUFFER_LEN) p;
          Some (MqttValue p, a)
      end
  end.

(** The rest of [handle_data]: the value, and the critical section. A thread
    that waits does nothing. *)
Definition handle_data_step (pc : mqtt_pc) a : option (mqtt_pc * app_state_t) :=
  match pc with
  | MqttIdle => Some (MqttIdle, a)
  | MqttValue clientid =>
      '(p, a) ← strtok_next (B ":") a;
      match p with
      | None => Some (MqttIdle, end_handle_data a)
      | Some p => Some (MqttSample clientid (atof p), a)
      end
  | MqttSample clientid value =>
      a ← record_sample clientid value a;
      Some (MqttIdle, end_handle_data a)
  end.

(** ** Messages *)

Record mqtt_message := mk_message {
  mm_topicName : list byte;          (* the memory at [topicName] *)
  mm_topicLen : Z;
  mm_payload : option (list byte);
  mm_payloadlen : Z
}.

Definition message_topic (m : mqtt_message) : option (list byte) :=
  if decide (mm_topicLen m = 0) then cstr_of (mm_topicName m)
  else t ← mread (mm_topicName m) 0 (mm_topicLen m); cstr_of (t ++ [x00]).

(** [p = strstr (topic, prefix); p && p == topic], and what follows. *)
Definition topic_after (prefix topic : list byte) : option (list byte) :=
  p ← strstr topic prefix;
  if decide (zlen p = zlen topic) then Some (drop (length prefix) p) else None.

(** [msgarrvd], up to the first token of [handle_data]. *)
Definition msgarrvd_begin (m : mqtt_message) a : option (mqtt_pc * app_state_t) :=
  topic ← message_topic m;
  stats ← atlas_pkt_received (mm_payloadlen m) (dp_stat (ap_dp a));
  let a := ap_with_dp (dp_with_stat stats (ap_dp a)) a in
  match topic_after ATLAS_DATA_PLANE_REQUEST_REPUTATION_TOPIC topic with
  | Some feature => a ← handle_publish_req feature a; Some (MqttIdle, a)
  | None =>
      match topic_after ATLAS_DATA_PLANE_DATA_TOPIC topic with
      | Some _ => handle_data (mm_payload m) (mm_payloadlen m) a
      | None => Some (MqttIdle, a)
      end
  end.

(** [msgarrvd] when no other thread runs meanwhile. *)
Definition msgarrvd (m : mqtt_message) a : option app_state_t :=
  '(pc, a) ← msgarrvd_begin m a;
  '(pc, a) ← handle_data_step pc a;
  '(pc, a) ← handle_data_step pc a;
  Some a.

(** ** The task of the reputation

    Where the task is in its loop; [identity] is its local variable. *)
Inductive task_pc :=
| TaskOff
| TaskRequest
| TaskOpen (identity : option (list byte))
| TaskReset (identity : option (list byte))
| TaskStart (identity : option (list byte))
| TaskClose (identity : option (list byte))
| TaskScore (identity : option (list byte))
| TaskSend (identity : option (list byte))
| TaskConsume (identity : option (list byte)).

(** [for (i ...) avg += sensor_val[i]; avg /= feedback_length] *)
Definition window_average (vals : list spec_float) : spec_float :=
  d_div (fold_left (λ avg v, d_add avg (d_of_f v)) vals (d_of_Z 0)) (d_of_Z (zlen vals)).

Definition set_sensor_score (f : atlas_feedback_t) (score : Z) : atlas_feedback_t :=
  mk_feedback (fb_identity f) (fb_sensor_type f) score (fb_time_score f).

(** The scores of the samples in use; the rest of the array is not touched. *)
Definition score_window (r : reputation_t) : reputation_t :=
  if decide (rp_target_value r = -1 ∧ rp_feedback_length r ≠ 0) then
    let n := Z.to_nat (rp_feedback_length r) in
    let vals := take n (rp_sensor_val r) in
    let avg := window_average vals in
    set_samples (rp_sensor_val r)
      (zip_with (λ f v, set_sensor_score f (get_sensor_feedback (d_fabs (d_sub (d_of_f v) avg))))
         (samples r) vals ++ drop n (rp_feedback r))
      (rp_feedback_length r) r
  else r.

(** The sample of the device with the best reputation. *)
Definition consume_best (identity : option (list byte)) a : option app_state_t :=
  match identity with
  | None => Some a
  | Some blk =>
      identity ← cstr_of blk;
      match list_find (λ f, c_string (fb_identity f) = identity) (samples (ap_rep a)) with
      | Some (i, _) => v ← rp_sensor_val (ap_rep a) !! i; Some (ap_emit (AppConsume identity v) a)
      | None => Some a
      end
  end.

(** One step of [reputation_query_task]. *)
Definition reputation_query_task (pc : task_pc) a : option (task_pc * app_state_t) :=
  match pc with
  | TaskOff => None
  | TaskRequest =>
      '(_, identity, dp) ← atlas_reputation_request ATLAS_SENSOR_TEMPERATURE (Some None) (ap_dp a);
      feature ← cstr_of (rp_feature (ap_rep a));
      a ← request_reputation_val feature (ap_with_dp dp a);
      Some (TaskOpen identity, a)
  | TaskOpen identity =>
      Some (TaskReset identity, ap_with_rep (set_feedback_active true (ap_rep a)) a)
  | TaskReset identity =>
      Some (TaskStart identity, ap_with_rep (set_feedback_length 0 (ap_rep a)) a)
  | TaskStart identity =>
      let '(ts, a) := ap_call app_clock a in
      let a := ap_with_rep (set_window_start ts (ap_rep a)) a in
      Some (TaskClose identity, ap_sleep (rp_window_size (ap_rep a)) a)
  | TaskClose identity =>
      Some (TaskScore identity, ap_with_rep (set_feedback_active false (ap_rep a)) a)
  | TaskScore identity => Some (TaskSend identity, ap_with_rep (score_window (ap_rep a)) a)
  | TaskSend identity =>
      if decide (rp_feedback_length (ap_rep a) = 0) then Some (TaskConsume identity, a) else
      '(_, dp) ← atlas_reputation_feedback (Some (samples (ap_rep a))) (ap_dp a);
      Some (TaskConsume identity, ap_with_dp dp a)
  | TaskConsume identity =>
      a ← consume_best identity a;
      let a := ap_with_rep (set_feedback_length 0 (ap_rep a)) a in
      Some (TaskRequest,
            ap_sleep (rp_query_rate (ap_rep a) - rp_window_size (ap_rep a)) a)
  end.

(** ** The main thread *)

(** How the program ends before it waits for the key. *)
Inductive start_result (A : Type) :=
| Live (a : A)
| Exited (code : Z)
| Undefined
| Retrying.
#[global] Arguments Live {A} _.
#[global] Arguments Exited {A} _.
#[global] Arguments Undefined {A}.
#[global] Arguments Retrying {A}.

(** The block of the buffer of a feature: [malloc] fails for a length that is
    negative, hence huge. *)
Definition malloc_opt (n : Z) : option (list byte) :=
  if decide (n < 0) then None else Some (malloc n).

(** An assignment to [publish_str[index]]. *)
Definition update_publish (index : Z) (f : publish_info_t → option publish_info_t) a
    : option app_state_t :=
  if decide (¬ 0 ≤ index < ATLAS_PUBLISH_FEATURES_MAX) then None else
  p ← ap_publish a !! Z.to_nat index;
  p ← f p;
  Some (ap_with_publish (<[Z.to_nat index := p]> (ap_publish a)) a).

Definition set_feature (feature : list byte) (p : publish_info_t) : option publish_info_t :=
  blk ← strcpy (pi_feature p) feature;
  Some (mk_publish_info blk (pi_publish_rate p) (pi_base_value p) (pi_deviation p) (pi_qos p)
    (pi_packet_length p) (pi_publish_msg p) (pi_thread p)).
Definition set_publish_rate (x : Z) (p : publish_info_t) : option publish_info_t :=
  Some (mk_publish_info (pi_feature p) x (pi_base_value p) (pi_deviation p) (pi_qos p)
    (pi_packet_length p) (pi_publish_msg p) (pi_thread p)).
Definition set_base_value (x : spec_float) (p : publish_info_t) : option publish_info_t :=
  Some (mk_publish_info (pi_feature p) (pi_publish_rate p) x (pi_deviation p) (pi_qos p)
    (pi_packet_length p) (pi_publish_msg p) (pi_thread p)).
Definition set_deviation (x : spec_float) (p : publish_info_t) : option publish_info_t :=
  Some (mk_publish_info (pi_feature p) (pi_publish_rate p) (pi_base_value p) x (pi_qos p)
    (pi_packet_length p) (pi_publish_msg p) (pi_thread p)).
Definition set_qos (x : Z) (p : publish_info_t) : option publish_info_t :=
  Some (mk_publish_info (pi_feature p) (pi_publish_rate p) (pi_base_value p) (pi_deviation p) x
    (pi_packet_length p) (pi_publish_msg p) (pi_thread p)).
Definition set_packet_length (x : Z) (p : publish_info_t) : option publish_info_t :=
  Some (mk_publish_info (pi_feature p) (pi_publish_rate p) (pi_base_value p) (pi_deviation p)
    (pi_qos p) x (pi_publish_msg p) (pi_thread p)).

(** The buffer, of the length that was stored unless that is the default. *)
Definition alloc_publish_msg (is_default : bool) (p : publish_info_t) : option publish_info_t :=
  Some (mk_publish_info (pi_feature p) (pi_publish_rate p) (pi_base_value p) (pi_deviation p)
    (pi_qos p) (pi_packet_length p)
    (malloc_opt (if is_default then ATLAS_DATA_PLANE_BUFFER_LEN + 1 else pi_packet_length p))
    (pi_thread p)).
Definition start_thread (p : publish_info_t) : option publish_info_t :=
  Some (mk_publish_info (pi_feature p) (pi_publish_rate p) (pi_base_value p) (pi_deviation p)
    (pi_qos p) (pi_packet_length p) (pi_publish_msg p) true).

(** What an iteration of [traffic_generator] does next with its entry. *)
Inductive publish_field :=
| FieldRate
| FieldBase
| FieldDeviation
| FieldQos
| FieldLength
| FieldMsg (is_default : bool)
| FieldThread
| FieldSubscribe.

(** [None] when the iteration is over. *)
Definition publish_entry (index : Z) (f : publish_field) a
    : option (option publish_field * app_state_t) :=
  match f with
  | FieldRate =>
      '(p, a) ← next_field a;
      a ← update_publish index (set_publish_rate (atoi p)) a;
      Some (Some FieldBase, a)
  | FieldBase =>
      '(p, a) ← next_field a;
      a ← update_publish index (set_base_value (f_of_d (atof p))) a;
      Some (Some FieldDeviation, a)
  | FieldDeviation =>
      '(p, a) ← next_field a;
      a ← update_publish index (set_deviation (f_of_d (atof p))) a;
      Some (Some FieldQos, a)
  | FieldQos =>
      '(p, a) ← next_field a;
      a ← update_publish index (set_qos (atoi p)) a;
      Some (Some FieldLength, a)
  | FieldLength =>
      '(p, a) ← next_field a;
      if decide (p = ATLAS_PACKET_LENGTH_DEFAULT) then
        a ← update_publish index (set_packet_length 0) a;
        Some (Some (FieldMsg true), a)
      else
        a ← update_publish index (set_packet_length (atoi p)) a;
        Some (Some (FieldMsg false), a)
  | FieldMsg is_default =>
      a ← update_publish index (alloc_publish_msg is_default) a;
      Some (Some FieldThread, a)
  | FieldThread =>
      a ← update_publish index start_thread a;
      Some (Some FieldSubscribe, a)
  | FieldSubscribe =>
      p ← ap_publish a !! Z.to_nat index;
      feature ← cstr_of (pi_feature p);
      topic ← make_topic ATLAS_DATA_PLANE_REQUEST_REPUTATION_TOPIC feature;
      Some (None, ap_emit (AppSubscribe topic 2) a)
  end.

(** An iteration of [subscribe_topics], with the feature. *)
Definition subscribe_entry (qos : Z) (feature : list byte) a : option app_state_t :=
  topic ← make_topic ATLAS_DATA_PLANE_DATA_TOPIC feature;
  Some (ap_emit (AppSubscribe topic qos) a).

Definition timespec0 : timespec := mk_timespec 0 0.
Definition feedback0 : atlas_feedback_t := mk_feedback (zeros ATLAS_IDENTITY_MAX_LEN) 0 0 0.
Definition reputation0 : reputation_t :=
  mk_reputation (zeros ATLAS_DATA_PLANE_FEATURE_MAX_LEN) 0 0 0 false
    (replicate 256 (S754_zero false)) (replicate 256 feedback0) 0 timespec0.

Definition set_rep_feature (blk : list byte) (r : reputation_t) : reputation_t :=
  mk_reputation blk (rp_query_rate r) (rp_target_value r) (rp_window_size r) (rp_feedback_active r)
    (rp_sensor_val r) (rp_feedback r) (rp_feedback_length r) (rp_window_start r).
Definition set_query_rate (x : Z) (r : reputation_t) : reputation_t :=
  mk_reputation (rp_feature r) x (rp_target_value r) (rp_window_size r) (rp_feedback_active r)
    (rp_sensor_val r) (rp_feedback r) (rp_feedback_length r) (rp_window_start r).
Definition set_target_value (x : Z) (r : reputation_t) : reputation_t :=
  mk_reputation (rp_feature r) (rp_query_rate r) x (rp_window_size r) (rp_feedback_active r)
    (rp_sensor_val r) (rp_feedback r) (rp_feedback_length r) (rp_window_start r).
Definition set_window_size (x : Z) (r : reputation_t) : reputation_t :=
  mk_reputation (rp_feature r) (rp_query_rate r) (rp_target_value r) x (rp_feedback_active r)
    (rp_sensor_val r) (rp_feedback r) (rp_feedback_length r) (rp_window_start r).

(** What [set_reputation] reads next. *)
Inductive reputation_field := RepRate | RepWindow | RepTarget.

(** Where the main thread is: before the first call of [strtok] in an iteration
    of one of the two loops, with the string when it is the first one; in an
    iteration of [traffic_generator]; before or in [set_reputation]; or waiting
    for the key. *)
Inductive main_pc :=
| MainPublish (index : Z) (first : option (list byte))
| MainPublishField (index : Z) (f : publish_field)
| MainSubscribe (first : option (list byte))
| MainReputation
| MainReputationField (f : reputation_field)
| MainWait
| MainExit (code : Z).

(** [set_reputation] up to the feature. *)
Definition set_reputation (reputation_arg : list byte) a : option (main_pc * app_state_t) :=
  let a := ap_with_rep reputation0 a in
  let '(p, a) := strtok_first (B ":") TokOption reputation_arg a in
  match p with
  | None => Some (MainWait, a)
  | Some p =>
      feature ← strcpy (rp_feature (ap_rep a)) p;
      Some (MainReputationField RepRate, ap_with_rep (set_rep_feature feature (ap_rep a)) a)
  end.

(** Its other fields; the task starts after the last one. *)
Definition set_reputation_field (f : reputation_field) (t : task_pc) a
    : option (main_pc * task_pc * app_state_t) :=
  '(p, a) ← next_field a;
  match f with
  | RepRate =>
      Some (MainReputationField RepWindow, t, ap_with_rep (set_query_rate (atoi p) (ap_rep a)) a)
  | RepWindow =>
      let r := set_window_size (atoi p) (ap_rep a) in
      Some (if decide (rp_window_size r >= rp_query_rate r) then MainExit 1
            else MainReputationField RepTarget, t, ap_with_rep r a)
  | RepTarget =>
      let target := if decide (p = ATLAS_REPUTATION_FEEDBACK_AVERAGE) then -1 else atoi p in
      Some (MainWait, TaskRequest, ap_with_rep (set_target_value target (ap_rep a)) a)
  end.

(** The options. *)
Record dp_args := mk_args {
  arg_publish : option (list byte);
  arg_subscribe : option (list byte);
  arg_hostname : option (list byte);
  arg_reputation : option (list byte);
  arg_qos : Z;
  arg_ppm : Z;
  arg_maxlen : Z
}.

Inductive dp_letter := L_publish | L_subscribe | L_hostname | L_qos | L_ppm | L_maxlen | L_reputation
  | L_other.

(** The loop over [getopt_long]. *)
Fixpoint parse_letters (opts : list (dp_letter * list byte)) (g : dp_args) : start_result dp_args :=
  match opts with
  | [] => Live g
  | (l, optarg) :: opts =>
      let '(mk_args p s h r q m n) := g in
      match l with
      | L_publish => parse_letters opts (mk_args (Some optarg) s h r q m n)
      | L_subscribe => parse_letters opts (mk_args p (Some optarg) h r q m n)
      | L_hostname => parse_letters opts (mk_args p s (Some optarg) r q m n)
      | L_qos => parse_letters opts (mk_args p s h r (atoi optarg) m n)
      | L_ppm => parse_letters opts (mk_args p s h r q (atoi optarg) n)
      | L_maxlen => parse_letters opts (mk_args p s h r q m (atoi optarg))
      | L_reputation => parse_letters opts (mk_args p s h (Some optarg) q m n)
      | L_other => Exited 1
      end
  end.

Definition args0 : dp_args := mk_args None None None None (-1) (-1) (-1).

(** The MQTT client: created and connected, or [exit (1)]. *)
Definition start_MQTTclient (clientid : option (list byte)) (hostname : list byte) a
    : start_result app_state_t :=
  let '(ok, a) := ap_call (mqtt_create clientid hostname) a in
  if negb ok then Exited 1 else
  let '(ok, a) := ap_call mqtt_connect a in
  if negb ok then Exited 1 else Live a.

(** [parse_arguments] up to [traffic_generator], from where the threads run. *)
Definition parse_arguments (fuel : nat) (opts : list (dp_letter * list byte)) a
    : start_result (dp_args * app_state_t) :=
  match parse_letters opts args0 with
  | Live g =>
      match arg_publish g, arg_subscribe g, arg_hostname g with
      | Some _, Some _, Some hostname =>
          if decide (arg_qos g = -1 ∨ arg_ppm g = -1 ∨ arg_maxlen g = -1) then Exited 1 else
          match atlas_init fuel (u16 (arg_qos g)) (u16 (arg_ppm g)) (u16 (arg_maxlen g))
                  (Some (ap_identity a)) (ap_dp a) with
          | Done (status, identity, dp) =>
              let a := mk_app dp (ap_trace a) (ap_publish a) (ap_rep a) identity (ap_tok a) in
              if decide (status = ATLAS_OK) then
                match start_MQTTclient identity hostname a with
                | Live a => Live (g, a)
                | Exited c => Exited c
                | Undefined => Undefined
                | Retrying => Retrying
                end
              else Exited 1
          | Fault => Undefined
          | NoFuel => Retrying
          end
      | _, _, _ => Exited 1
      end
  | Exited c => Exited c
  | Undefined => Undefined
  | Retrying => Retrying
  end.

(** [main] up to the loops. *)
Definition dp_main (fuel : nat) (opts : list (dp_letter * list byte)) a
    : start_result (dp_args * app_state_t) :=
  let '(euid, a) := ap_call app_geteuid a in
  if decide (euid ≠ 0) then Exited (-1) else parse_arguments fuel opts a.

(** ** The threads together *)

Record prog := mk_prog {
  pg_main : main_pc; pg_task : task_pc; pg_mqtt : mqtt_pc; pg_app : app_state_t
}.

Definition strtok_arg (first : option (list byte)) a : option (option (list byte) * app_state_t) :=
  match first with
  | Some s => Some (strtok_first (B ":") TokOption s a)
  | None => strtok_next (B ":") a
  end.

(** A step of the main thread: a token, and what is done with it. The loop over
    the subscriptions goes on with another separator. *)
Definition main_step (g : dp_args) (s : prog) : option prog :=
  let '(mk_prog pc t m a) := s in
  match pc with
  | MainPublish index first =>
      '(p, a) ← strtok_arg first a;
      match p with
      | Some feature =>
          a ← update_publish index (set_feature feature) a;
          Some (mk_prog (MainPublishField index FieldRate) t m a)
      | None => Some (mk_prog (MainSubscribe (arg_subscribe g)) t m a)
      end
  | MainPublishField index f =>
      '(next, a) ← publish_entry index f a;
      Some (mk_prog (match next with
                     | Some f => MainPublishField index f
                     | None => MainPublish (index + 1) None
                     end) t m a)
  | MainSubscribe first =>
      '(p, a) ← match first with
                | Some s => Some (strtok_first (B ":") TokOption s a)
                | None => strtok_next (B ",") a
                end;
      match p with
      | Some feature =>
          a ← subscribe_entry (arg_qos g) feature a;
          Some (mk_prog (MainSubscribe None) t m a)
      | None => Some (mk_prog MainReputation t m a)
      end
  | MainReputation =>
      match arg_reputation g with
      | None => Some (mk_prog MainWait t m a)
      | Some arg => '(pc, a) ← set_reputation arg a; Some (mk_prog pc t m a)
      end
  | MainReputationField f =>
      '(pc, t, a) ← set_reputation_field f t a; Some (mk_prog pc t m a)
  | MainWait => None
  | MainExit _ => None
  end.

(** [exit] ends all threads. *)
Definition runs (pc : main_pc) : bool := match pc with MainExit _ => false | _ => true end.

(** What the threads do, one step of one of them at a time. *)
Inductive app_step (g : dp_args) : prog → prog → Prop :=
| app_main s s' : main_step g s = Some s' → app_step g s s'
| app_publisher pc t m a i p a' :
    runs pc = true → ap_publish a !! i = Some p → pi_thread p = true → publish_task i a = Some a' →
    app_step g (mk_prog pc t m a) (mk_prog pc t m a')
| app_message pc t a msg m' a' :
    runs pc = true → msgarrvd_begin msg a = Some (m', a') →
    app_step g (mk_prog pc t MqttIdle a) (mk_prog pc t m' a')
| app_handle pc t m a m' a' :
    runs pc = true → m ≠ MqttIdle → handle_data_step m a = Some (m', a') →
    app_step g (mk_prog pc t m a) (mk_prog pc t m' a')
| app_task pc t m a t' a' :
    runs pc = true → reputation_query_task t a = Some (t', a') →
    app_step g (mk_prog pc t m a) (mk_prog pc t' m a')
| app_report pc t m a fuel dp :
    runs pc = true → send_statistics_command fuel (ap_dp a) = Done dp →
    app_step g (mk_prog pc t m a) (mk_prog pc t m (ap_with_dp dp a)).

(** The state of the program when [traffic_generator] is called. *)
Definition app_start (g : dp_args) a : prog :=
  mk_prog (MainPublish 0 (arg_publish g)) TaskOff MqttIdle a.

Definition publish0 : publish_info_t :=
  mk_publish_info (zeros ATLAS_DATA_PLANE_FEATURE_MAX_LEN) 0 (S754_zero false) (S754_zero false)
    0 0 None false.

Definition app_initial (dp : dp_state E) : app_state_t :=
  mk_app dp [] (replicate 32 publish0) reputation0 None TokDead.

End App.
#[global] Arguments app_state_t : clear implicits.
#[global] Arguments prog : clear implicits.
