(* ===== verification/DataPlaneSpec.v ===== *)
(** * The data plane application: its properties

    What holds under any interleaving of the threads of DataPlane.v, what each
    message does, which messages are outside of the bounds of the code, and how
    the application uses the library. *)

From Stdlib Require Import SpecFloat.
From stdpp Require Import gmap.
From S2P Require Import Prelude Protocol Command CString Float Scheduler State Config Identity Alarm.
From S2P Require Import CoapClient Request Connector DpClient DataPlane.

(** ** Scores *)

(** A moment, and the moments of a window of [w] seconds. *)
Definition timespec_ok (t : timespec) : Prop := 0 ≤ tv_nsec t < 1000000000.

Definition nanoseconds (t : timespec) : Z := tv_sec t * 1000000000 + tv_nsec t.

Definition in_window (start now : timespec) (w : Z) : Prop :=
  timespec_ok start ∧ timespec_ok now ∧
  nanoseconds start ≤ nanoseconds now ≤ nanoseconds start + w * 1000000000.

#[export] Instance in_window_dec start now w : Decision (in_window start now w).
Proof. unfold in_window, timespec_ok. apply _. Defined.

Section Scores.

Lemma get_sensor_feedback_bounds v : 0 ≤ get_sensor_feedback v ≤ 98.
Proof.
  unfold get_sensor_feedback. destruct (find_first _ _) as [[x n]|] eqn:Hf; [|lia].
  apply find_first_elem in Hf as [Hin _]. unfold score_steps in Hin.
  rewrite !elem_of_cons, elem_of_nil in Hin. naive_solver lia.
Qed.

Lemma diff_in_ms_bounds start now w :
  in_window start now w → 0 < w < 2147484 →
  ∃ ms, diff_in_ms start now = Some ms ∧ 0 ≤ ms ≤ w * 1000.
Proof.
  intros (Hs & Hn & Hw) Hp. unfold timespec_ok, nanoseconds in *. unfold diff_in_ms.
  assert (∃ sec nsec, (if decide (tv_nsec now - tv_nsec start < 0)
    then (tv_sec now - tv_sec start - 1, tv_nsec now - tv_nsec start + 1000000000)
    else (tv_sec now - tv_sec start, tv_nsec now - tv_nsec start)) = (sec, nsec) ∧
    0 ≤ sec ∧ 0 ≤ nsec < 1000000000 ∧ sec * 1000000000 + nsec ≤ w * 1000000000)
    as (sec & nsec & -> & Hsec & Hnsec & Hle).
  { case_decide; do 2 eexists; split; [reflexivity| |reflexivity|]; lia. }
  set (k := if decide (nsec = 0) then 0 else 1).
  assert (0 ≤ k ≤ 1 ∧ nsec ≤ k * 1000 * 1000000 ∧ sec + k ≤ w) as (Hk & Hnk & Hsk)
    by (unfold k; case_decide; lia).
  assert (upto (sec * 1000) (d_mul (d_of_Z sec) (d_of_Z 1000))) as Hm.
  { apply d_mul_upto; [|by apply d_of_Z_integer|lia..].
    eapply is_integer_upto; [apply d_of_Z_integer|]; lia. }
  assert (upto (k * 1000) (d_div (d_of_Z nsec) (d_of_Z 1000000))) as Hd.
  { by apply (d_div_upto nsec 1000000); [apply d_of_Z_integer; lia..|lia|lia|lia|lia]. }
  pose proof (d_add_upto _ _ _ _ Hm Hd ltac:(lia) ltac:(lia) ltac:(lia)) as Ha.
  apply d_trunc_upto in Ha as (v & Hv & Hb); [|lia].
  exists v. unfold to_long. rewrite Hv. cbn [mbind option_bind].
  rewrite decide_True by lia. split; [done|lia].
Qed.

(** A response within the window has a score, of at most 100. *)
Lemma time_score_bounds_of start now w :
  in_window start now w → 0 < w < 2147484 →
  ∃ v, time_score start now w = Some v ∧ 0 ≤ v ≤ 100.
Proof.
  intros Hw Hp. destruct (diff_in_ms_bounds _ _ _ Hw Hp) as (ms & Hms & Hb).
  unfold time_score. rewrite Hms. cbn [mbind option_bind]. unfold ATLAS_SEC_TO_MS.
  rewrite decide_True by lia. cbn [mbind option_bind].
  assert (upto 1 (d_div (d_of_Z ms) (d_of_Z (w * 1000)))) as Hd.
  { apply (d_div_upto ms (w * 1000)); [apply d_of_Z_integer; lia..|lia|lia|lia|lia]. }
  pose proof (d_mul_upto 1 100 _ (d_of_Z 100) Hd ltac:(by apply d_of_Z_integer) ltac:(lia) ltac:(lia)
    ltac:(lia)) as Hm.
  pose proof (d_sub_upto 100 (d_of_Z 100) _ ltac:(by apply d_of_Z_integer) Hm ltac:(lia)) as Hs.
  apply d_trunc_upto in Hs as (v & Hv & Hv100); [|lia].
  exists v. unfold to_uint16. rewrite Hv. cbn [mbind option_bind].
  rewrite decide_True by lia. done.
Qed.

End Scores.

(** ** The invariant *)

Definition feedback_id (f : atlas_feedback_t) : list byte := c_string (fb_identity f).

Definition sample_ok (f : atlas_feedback_t) : Prop := feedback_ok f ∧ fb_sensor_score f ≤ 98.

(** The arrays have their sizes, and the samples of a window are of different
    devices. *)
Record rep_ok (r : reputation_t) : Prop := mk_rep_ok {
  ro_vals : length (rp_sensor_val r) = 256%nat;
  ro_fbs : length (rp_feedback r) = 256%nat;
  ro_len : 0 ≤ rp_feedback_length r ≤ 256;
  ro_sample : Forall sample_ok (rp_feedback r);
  ro_distinct : NoDup (feedback_id <$> samples r)
}.

(** Whether the task is between the start and the end of its window. *)
Definition window_open (t : task_pc) : bool :=
  match t with TaskReset _ | TaskStart _ | TaskClose _ => true | _ => false end.

(** Whether the samples of the last window are still to be used. *)
Definition has_samples (t : task_pc) : bool :=
  match t with TaskOff | TaskRequest | TaskOpen _ => false | _ => true end.

(** [set_reputation] runs before the task does. *)
Definition task_started (pc : main_pc) : bool :=
  match pc with MainWait | MainExit _ => true | _ => false end.

(** The identity a message is being handled for is a string. *)
Definition mqtt_ok (m : mqtt_pc) : Prop :=
  match m with MqttIdle => True | MqttValue id | MqttSample id _ => nul_free id end.

(** The samples, and where the task is. *)
Record window_ok (t : task_pc) (r : reputation_t) : Prop := mk_window_ok {
  wo_rep : rep_ok r;
  wo_active : rp_feedback_active r = window_open t;
  wo_empty : has_samples t = false → rp_feedback_length r = 0
}.

Definition prog_ok {E} (s : prog E) : Prop :=
  window_ok (pg_task s) (ap_rep (pg_app s)) ∧
  (task_started (pg_main s) = false → pg_task s = TaskOff) ∧ mqtt_ok (pg_mqtt s).

Section Invariant.
Context `{Host} {E : Type} `{DpEnv E, AppEnv E}.
Implicit Types a : app_state_t E.

Lemma ap_call_eq {A} (f : E → A * E) a :
  ∃ x e, ap_call f a = (x, ap_with_dp (dp_with_env e (ap_dp a)) a) ∧ f (dp_env (ap_dp a)) = (x, e).
Proof. unfold ap_call. destruct (f _) as [x e]. by exists x, e. Qed.

End Invariant.

(** Takes a computation that answered apart. *)
Ltac ainv_step := match goal with
  | H : None = Some _ |- _ => discriminate H
  | H : mbind ?f ?m = Some _ |- _ =>
      let x := fresh "x" in let Hx := fresh "Hx" in apply bind_Some in H as (x & Hx & H)
  | H : context [ap_call ?f ?a] |- _ =>
      let x := fresh "x" in let e := fresh "e" in let X := fresh "X" in let F := fresh "F" in
      destruct (ap_call_eq f a) as (x & e & X & F); rewrite X in H; clear X
  | H : (if ?b then _ else _) = Some _ |- _ => destruct b
  | H : (match ?x with _ => _ end) = Some _ |- _ => is_var x; destruct x
  | H : (match ?x with _ => _ end) = Some _ |- _ => destruct x eqn:?
  | H : (match ?x with _ => _ end) = (_, _) |- _ => destruct x eqn:?
  | H : Some _ = Some _ |- _ => apply (inj Some) in H
  | H : (_, _) = (_, _) |- _ => apply (inj2 pair) in H as [??]
  end; cbn beta iota zeta in *.
Ltac ainv := repeat ainv_step; subst.

Section Keep.
Context `{Host} {E : Type} `{DpEnv E, AppEnv E}.
Implicit Types a : app_state_t E.

(** *** What does not touch the reputation *)

Lemma publish_feature_rep i a a' :
  publish_feature_value i a = Some a' → ap_rep a' = ap_rep a ∧ ap_tok a' = ap_tok a.
Proof.
  unfold publish_feature_value, publish_body, random_number_generator. intros Hs. by ainv.
Qed.

Lemma publish_task_rep i a a' : publish_task i a = Some a' → ap_rep a' = ap_rep a.
Proof.
  unfold publish_task. intros (a1 & Hp & Hs)%bind_Some. apply publish_feature_rep in Hp as [<- _].
  by ainv.
Qed.

Lemma strtok_next_rep seps a p a' : strtok_next seps a = Some (p, a') → ap_rep a' = ap_rep a.
Proof. unfold strtok_next, strtok_first. intros Hs. by ainv. Qed.

Lemma strtok_arg_rep first a p a' : strtok_arg first a = Some (p, a') → ap_rep a' = ap_rep a.
Proof.
  unfold strtok_arg, strtok_first. destruct first; [|apply strtok_next_rep]. intros Hs. by ainv.
Qed.

Lemma next_field_rep a p a' : next_field a = Some (p, a') → ap_rep a' = ap_rep a.
Proof.
  unfold next_field. intros ([q a1] & Hs & Hp)%bind_Some. apply strtok_next_rep in Hs as <-. by ainv.
Qed.

Lemma update_publish_rep i f a a' : update_publish i f a = Some a' → ap_rep a' = ap_rep a.
Proof. unfold update_publish. case_decide; [done|]. intros Hs. by ainv. Qed.

Lemma publish_entry_rep i f a next a' : publish_entry i f a = Some (next, a') → ap_rep a' = ap_rep a.
Proof.
  unfold publish_entry. intros Hs. ainv;
  repeat match goal with
  | Hf : next_field _ = Some _ |- _ => apply next_field_rep in Hf
  | Hu : update_publish _ _ _ = Some _ |- _ => apply update_publish_rep in Hu
  end; cbn; congruence.
Qed.

Lemma subscribe_entry_rep q f a a' : subscribe_entry q f a = Some a' → ap_rep a' = ap_rep a.
Proof. unfold subscribe_entry. intros Hs. by ainv. Qed.

Lemma request_val_rep f a a' : request_reputation_val f a = Some a' → ap_rep a' = ap_rep a.
Proof. unfold request_reputation_val. intros Hs. by ainv. Qed.

Lemma consume_best_rep id a a' : consume_best id a = Some a' → ap_rep a' = ap_rep a.
Proof. unfold consume_best. intros Hs. by ainv. Qed.

(** *** The window *)

Lemma NoDup_snoc {A} (l : list A) x : NoDup l → x ∉ l → NoDup (l ++ [x]).
Proof.
  intros Hl Hx. apply list.NoDup_app. split_and!; [done| |apply list.NoDup_singleton].
  intros y Hy ->%list_elem_of_singleton. done.
Qed.

Lemma take_S_insert {A} (l : list A) i x :
  (i < length l)%nat → take (S i) (<[i := x]> l) = take i l ++ [x].
Proof.
  intros Hi. rewrite (take_S_r _ _ x) by (by apply list_lookup_insert_eq). by rewrite take_insert_ge.
Qed.

(** The samples after one has been recorded. *)
Lemma samples_snoc r f vals :
  rep_ok r → rp_feedback_length r < 256 →
  samples (set_samples vals (<[Z.to_nat (rp_feedback_length r) := f]> (rp_feedback r))
             (rp_feedback_length r + 1) r) = samples r ++ [f].
Proof.
  intros [_ Hf Hl _ _] Hlt. unfold samples. cbn [rp_feedback rp_feedback_length set_samples].
  replace (Z.to_nat (rp_feedback_length r + 1)) with (S (Z.to_nat (rp_feedback_length r))) by lia.
  apply take_S_insert. lia.
Qed.

Lemma time_score_range start now w t : time_score start now w = Some t → 0 ≤ t < 65536.
Proof.
  unfold time_score, to_uint16. intros (ms & _ & (k & _ & (v & _ & Hs)%bind_Some)%bind_Some)%bind_Some.
  case_decide; [|done]. by injection Hs as <-.
Qed.

Lemma sample_score_range r v old : 0 ≤ old ≤ 98 → 0 ≤ sample_score r v old ≤ 98.
Proof. unfold sample_score. intros. case_decide; [apply get_sensor_feedback_bounds|done]. Qed.

(** A message leaves the samples alone, or adds one of another device to a
    window that is open. *)
Definition sampled (r r' : reputation_t) : Prop :=
  r' = r ∨
  rp_feedback_active r = true ∧ rp_feedback_length r < 256 ∧
  ∃ f vals, feedback_id f ∉ (feedback_id <$> samples r) ∧ sample_ok f ∧ length vals = 256%nat ∧
    r' = set_samples vals (<[Z.to_nat (rp_feedback_length r) := f]> (rp_feedback r))
           (rp_feedback_length r + 1) r.

Lemma sampled_ok r r' : rep_ok r → sampled r r' → rep_ok r'.
Proof.
  intros Hr [->|(_ & Hlt & f & vals & Hf & Hok & Hv & ->)]; [done|].
  pose proof (samples_snoc r f vals Hr Hlt) as Hs. destruct Hr as [Hrv Hrf Hl Hro Hd].
  split; cbn [rp_sensor_val rp_feedback rp_feedback_length set_samples].
  - done.
  - by rewrite length_insert.
  - lia.
  - by apply Forall_insert.
  - rewrite Hs, fmap_app. by apply NoDup_snoc.
Qed.

(** What the critical section of [handle_data] does when it ends. *)
Lemma record_sample_sampled id v a a' :
  record_sample id v a = Some a' → nul_free id → rep_ok (ap_rep a) → sampled (ap_rep a) (ap_rep a').
Proof.
  unfold record_sample. intros Hs Hid [Hv Hf Hl Hok _]. revert Hs.
  destruct (rp_feedback_active (ap_rep a)) eqn:Hact; cbn [negb]; [|intros [= <-]; by left].
  case_decide; [intros [= <-]; by left|].
  destruct (decide (Exists _ _)) as [Hex|Hex]; [intros [= <-]; by left|].
  intros (f & Hlk & (blk & Hcpy & Hs)%bind_Some)%bind_Some.
  destruct (ap_call_eq app_clock a) as (ts & e & X & _). rewrite X in Hs. clear X.
  apply bind_Some in Hs as (t & Ht%time_score_range & [= <-]). right.
  apply lookup_lt_Some in Hlk as Hlt. split; [done|]. split; [lia|].
  pose proof (proj1 (Forall_lookup _ _) Hok _ _ Hlk) as [(_ & Hz & _ & Hsc & _) H98].
  apply strcpy_Some in Hcpy as [Hc Hzb]; [|done].
  pose proof (sample_score_range (ap_rep a) v (fb_sensor_score f) ltac:(lia)) as Hss.
  do 2 eexists. split; [|split; [|split; [|reflexivity]]].
  - unfold feedback_id. cbn [fb_identity]. rewrite (c_string_in _ _ Hc).
    intros (g & -> & Hg)%list_elem_of_fmap. apply Hex, list.Exists_exists. by exists g.
  - split; [|cbn; lia]. unfold feedback_ok, ATLAS_SENSOR_TEMPERATURE. cbn. split; [|lia].
    destruct Hc as [_ [rest ->]]. apply elem_of_app. right. by left.
  - by rewrite length_insert.
Qed.

Lemma end_handle_data_rep a : ap_rep (end_handle_data a) = ap_rep a.
Proof. unfold end_handle_data. by destruct (ap_tok a) as [[|] s|]. Qed.

(** Up to the first token of [handle_data] a message leaves the window alone. *)
Lemma handle_data_rep pl n a m a' :
  handle_data pl n a = Some (m, a') → ap_rep a' = ap_rep a ∧ mqtt_ok m.
Proof.
  unfold handle_data. destruct pl as [pl|]; [|by intros [= <- <-]]. case_decide; [by intros [= <- <-]|].
  intros (v & _ & (msg & _ & (s & [Hs _]%cstr_of_Some & Hp)%bind_Some)%bind_Some)%bind_Some.
  unfold strtok_first in Hp. destruct (strtok (B ":") s) as [[p|] r] eqn:Ht.
  - apply bind_Some in Hp as (b' & _ & [= <- <-]). by apply strtok_nul_free in Ht as [Hn _].
  - injection Hp as <- <-. by rewrite end_handle_data_rep.
Qed.

Lemma msgarrvd_begin_rep msg a m a' :
  msgarrvd_begin msg a = Some (m, a') → ap_rep a' = ap_rep a ∧ mqtt_ok m.
Proof.
  unfold msgarrvd_begin. intros (topic & _ & (st & _ & Hs)%bind_Some)%bind_Some.
  destruct (topic_after ATLAS_DATA_PLANE_REQUEST_REPUTATION_TOPIC topic) as [f|].
  { apply bind_Some in Hs as (a1 & Hs & [= <- <-]). split; [|done].
    unfold handle_publish_req in Hs. destruct (list_find _ _) as [[i p]|]; [|by ainv].
    by apply publish_feature_rep in Hs as [-> _]. }
  destruct (topic_after _ topic); [|by injection Hs as <- <-]. by apply handle_data_rep in Hs.
Qed.

(** Then it records a sample, or nothing. *)
Lemma handle_data_step_sampled m a m' a' :
  handle_data_step m a = Some (m', a') → mqtt_ok m → rep_ok (ap_rep a) →
  sampled (ap_rep a) (ap_rep a') ∧ mqtt_ok m'.
Proof.
  destruct m as [|id|id v]; cbn [handle_data_step mqtt_ok]; intros Hs Hm Hok.
  - injection Hs as <- <-. split; [by left|done].
  - apply bind_Some in Hs as ([[p|] a1] & Hp%strtok_next_rep & [= <- <-]);
      rewrite ?end_handle_data_rep, Hp; (split; [by left|done]).
  - apply bind_Some in Hs as (a1 & Hr & [= <- <-]). rewrite end_handle_data_rep.
    split; [by eapply record_sample_sampled|done].
Qed.

Lemma fmap_zip_with_same {A C D} (f : A → C → A) (h : A → D) l k :
  (∀ x y, h (f x y) = h x) → (length l ≤ length k)%nat → (h <$> zip_with f l k) = (h <$> l).
Proof.
  intros Hh. revert k. induction l as [|x l IH]; intros [|y k] Hl; cbn in *; try done; [lia|].
  rewrite Hh. f_equal. apply IH. lia.
Qed.

(** The scores of a window change nothing else. *)
Lemma score_window_frame r :
  rep_ok r →
  rep_ok (score_window r) ∧ (feedback_id <$> samples (score_window r)) = (feedback_id <$> samples r) ∧
  rp_feedback_length (score_window r) = rp_feedback_length r ∧
  rp_feedback_active (score_window r) = rp_feedback_active r.
Proof.
  intros Hr. unfold score_window. case_decide; [|done]. set (n := Z.to_nat (rp_feedback_length r)).
  set (g := λ f v, set_sensor_score f _). pose proof Hr as [Hv Hf Hl Hok Hd].
  set (zs := zip_with g (samples r) (take n (rp_sensor_val r))).
  assert (length zs = n) as Hz.
  { unfold zs, samples. rewrite length_zip_with, !length_take. lia. }
  assert (samples (set_samples (rp_sensor_val r) (zs ++ drop n (rp_feedback r))
    (rp_feedback_length r) r) = zs) as Hsz.
  { unfold samples. cbn [rp_feedback rp_feedback_length set_samples]. fold n. by apply take_app_length'. }
  assert ((feedback_id <$> zs) = (feedback_id <$> samples r)) as Hids.
  { apply fmap_zip_with_same; [done|]. unfold samples. fold n. rewrite !length_take. lia. }
  assert (Forall sample_ok zs) as Hzok.
  { apply (Forall_zip_with_fst g sample_ok); [by apply Forall_take|].
    apply list.Forall_true. intros v f [(Hx & Hz' & Ht & _ & Hts) _]. pose proof (get_sensor_feedback_bounds
      (d_fabs (d_sub (d_of_f v) (window_average (take n (rp_sensor_val r)))))) as Hb.
    unfold g, set_sensor_score. split; [|cbn; lia]. unfold feedback_ok. cbn. split_and!; (done || lia). }
  split_and!; [|by rewrite Hsz|done..].
  split; [done| |done| |by rewrite Hsz, Hids].
  - cbn [rp_feedback set_samples]. rewrite length_app, Hz, length_drop. unfold n. lia.
  - cbn [rp_feedback set_samples]. apply Forall_app_2; [done|by apply Forall_drop].
Qed.

End Keep.

(** ** All threads *)

Section Threads.
Context `{Host} {E : Type} `{DpEnv E, AppEnv E}.
Implicit Types (a : app_state_t E) (s : prog E) (g : dp_args).

Lemma reputation0_ok : rep_ok reputation0.
Proof.
  split; try (by vm_compute).
  - apply Forall_replicate. unfold sample_ok, feedback_ok. apply (bool_decide_unpack _). by vm_compute.
  - apply NoDup_nil_2.
Qed.

Lemma window0_ok t : window_open t = false → window_ok t reputation0.
Proof. intros Ht. split; [apply reputation0_ok|by rewrite Ht|done]. Qed.

Lemma strtok_first_rep seps b x a p a' : strtok_first seps b x a = (p, a') → ap_rep a' = ap_rep a.
Proof. unfold strtok_first. destruct (strtok _ _). by intros [= _ <-]. Qed.

(** The options of the reputation leave the samples alone. *)
Lemma set_reputation_ok arg a pc a' t :
  set_reputation arg a = Some (pc, a') → window_open t = false → window_ok t (ap_rep a').
Proof.
  unfold set_reputation. intros Hs Ht. destruct (strtok_first _ _ _ _) as [[p|] a1] eqn:Hp;
    apply strtok_first_rep in Hp as Hr1; cbn [ap_rep ap_with_rep] in Hr1.
  - apply bind_Some in Hs as (f & _ & [= <- <-]). cbn [ap_rep ap_with_rep]. rewrite Hr1.
    destruct reputation0_ok as [Hv Hl Hn Hs Hd]. split; [by split|by rewrite Ht|done].
  - injection Hs as <- <-. rewrite Hr1. by apply window0_ok.
Qed.

Lemma set_reputation_field_ok f a pc t' a' :
  set_reputation_field f TaskOff a = Some (pc, t', a') → window_ok TaskOff (ap_rep a) →
  window_ok t' (ap_rep a') ∧ (task_started pc = false → t' = TaskOff).
Proof.
  unfold set_reputation_field. intros ([p a1] & Hp%next_field_rep & Hs)%bind_Some [[Hv Hl Hn Hsm Hd] Ha He].
  rewrite <- Hp in *. destruct f; injection Hs as <- <- <-; cbn [ap_rep ap_with_rep];
    (split; [split; [by split|done|done]|done]).
Qed.

Lemma rep_ok_samples r vals fbs n :
  length vals = 256%nat → length fbs = 256%nat → 0 ≤ n ≤ 256 → Forall sample_ok fbs →
  NoDup (feedback_id <$> take (Z.to_nat n) fbs) → rep_ok (set_samples vals fbs n r).
Proof. by split. Qed.

Lemma task_step_ok t a t' a' :
  reputation_query_task t a = Some (t', a') → window_ok t (ap_rep a) →
  window_ok t' (ap_rep a') ∧ t ≠ TaskOff ∧ t' ≠ t.
Proof.
  intros Hs [Hr Ha He].
  assert (∀ n, 0 ≤ n ≤ 0 → rep_ok (set_feedback_length n (ap_rep a))) as Hzero.
  { intros n Hn. replace n with 0 by lia. destruct Hr. apply rep_ok_samples; try done. apply NoDup_nil_2. }
  destruct t; cbn [reputation_query_task] in Hs; [done|..].
  - apply bind_Some in Hs as ([[st id] dp] & _ & (f & _ & (a1 & Hq & [= <- <-])%bind_Some)%bind_Some).
    apply request_val_rep in Hq. rewrite Hq. split; [|done]. split; [exact Hr|exact Ha|exact He].
  - injection Hs as <- <-. split; [|done]. split; [by destruct Hr|done|]. intros; by apply He.
  - injection Hs as <- <-. split; [|done]. split; [by apply Hzero|exact Ha|done].
  - destruct (ap_call_eq app_clock a) as (ts & e & X & _). rewrite X in Hs. injection Hs as <- <-.
    split; [|done]. split; [by destruct Hr|exact Ha|done].
  - injection Hs as <- <-. split; [|done]. split; [by destruct Hr|done|done].
  - injection Hs as <- <-. destruct (score_window_frame _ Hr) as (Hr' & _ & _ & Hact).
    split; [|done]. split; [exact Hr'|exact (eq_trans Hact Ha)|done].
  - case_decide; [injection Hs as <- <-; by split|].
    apply bind_Some in Hs as ([st dp] & _ & [= <- <-]). by split.
  - apply bind_Some in Hs as (a1 & Hc & [= <- <-]). apply consume_best_rep in Hc.
    cbn [ap_rep ap_sleep ap_with_dp ap_with_rep]. rewrite Hc. split; [|done].
    split; [by apply Hzero|exact Ha|done].
Qed.

Lemma sampled_window t r r' : window_ok t r → sampled r r' → window_ok t r'.
Proof.
  intros [Hr Ha He] Hs. split; [by eapply sampled_ok|..].
  - by destruct Hs as [->|(_ & _ & f & vals & _ & _ & _ & ->)].
  - destruct Hs as [->|(Hact & _)]; [done|]. rewrite Ha in Hact. by destruct t.
Qed.

(** A step of the main thread changes the reputation only through its options,
    before the task starts. *)
Lemma main_step_ok g pc t m a s' :
  main_step g (mk_prog pc t m a) = Some s' → window_ok t (ap_rep a) →
  (task_started pc = false → t = TaskOff) →
  window_ok (pg_task s') (ap_rep (pg_app s')) ∧
  (task_started (pg_main s') = false → pg_task s' = TaskOff) ∧ pg_mqtt s' = m.
Proof.
  intros Hm Hw Ho.
  destruct pc as [i first|i f|first| |f| |c]; cbn [main_step task_started] in *; [..|done|done].
  - apply bind_Some in Hm as ([[f|] a1] & Ht & Hm); apply strtok_arg_rep in Ht as Hr.
    + apply bind_Some in Hm as (a2 & Hp & [= <-]). apply update_publish_rep in Hp. cbn.
      by rewrite Hp, Hr.
    + injection Hm as <-. cbn. by rewrite Hr.
  - apply bind_Some in Hm as ([next a1] & Hp%publish_entry_rep & [= <-]). cbn. rewrite Hp.
    split; [done|]. split; [|done]. intros _. by apply Ho.
  - apply bind_Some in Hm as ([[f|] a1] & Ht & Hm);
      assert (ap_rep a1 = ap_rep a) as Hr
        by (destruct first; [injection Ht as Ht; by apply strtok_first_rep in Ht|by apply strtok_next_rep in Ht]).
    + apply bind_Some in Hm as (a2 & Hp & [= <-]). apply subscribe_entry_rep in Hp. cbn.
      by rewrite Hp, Hr.
    + injection Hm as <-. cbn. by rewrite Hr.
  - destruct (arg_reputation g) as [arg|]; [|by injection Hm as <-].
    specialize (Ho eq_refl) as ->. apply bind_Some in Hm as ([pc a1] & Hs & [= <-]). cbn.
    split; [by eapply set_reputation_ok|done].
  - specialize (Ho eq_refl) as ->. apply bind_Some in Hm as ([[pc t'] a1] & Hs & [= <-]). cbn.
    apply set_reputation_field_ok in Hs as [? ?]; [|done]. done.
Qed.

(** Every step of every thread. *)
Lemma app_step_ok g s s' : app_step g s s' → prog_ok s → prog_ok s'.
Proof.
  intros Hstep (Hw & Ho & Hk). destruct Hstep as [[pc t m a] s' Hm|pc t m a i p a' _ _ _ Hs
    |pc t a msg m' a' _ Hs|pc t m a m' a' _ _ Hs|pc t m a t' a' _ Hs|pc t m a fuel dp _ Hs];
    unfold prog_ok in *; cbn [pg_task pg_main pg_app pg_mqtt] in *.
  - apply main_step_ok in Hm as (Hw' & Ho' & ->); done.
  - apply publish_task_rep in Hs. by rewrite Hs.
  - apply msgarrvd_begin_rep in Hs as [-> ?]. done.
  - apply handle_data_step_sampled in Hs as [? ?]; [|done|apply Hw].
    split; [by eapply sampled_window|done].
  - apply task_step_ok in Hs as (Hw' & Hoff & _); [|exact Hw]. split; [exact Hw'|]. split; [|done].
    intros Hpc. by destruct (Hoff (Ho Hpc)).
  - by split.
Qed.

(** The state when the threads start. *)
Lemma dp_main_rep fuel opts a g a' : dp_main fuel opts a = Live (g, a') → ap_rep a' = ap_rep a.
Proof.
  unfold dp_main, parse_arguments, start_MQTTclient.
  destruct (ap_call_eq app_geteuid a) as (x & e & -> & _). case_decide; [done|].
  destruct (parse_letters opts args0) as [g'|c| |]; try done.
  destruct (arg_publish g'), (arg_subscribe g'), (arg_hostname g') as [host|]; try done.
  case_decide; [done|]. destruct (atlas_init _ _ _ _ _ _) as [[[st id] dp]| |]; try done.
  case_decide; [|done]. set (a1 := mk_app dp _ _ _ id _).
  destruct (ap_call_eq (mqtt_create id host) a1) as (ok & e1 & -> & _). destruct ok; cbn [negb]; [|done].
  match goal with |- context [ap_call mqtt_connect ?x] =>
    destruct (ap_call_eq mqtt_connect x) as (ok & e2 & -> & _) end.
  destruct ok; cbn [negb]; [|done]. by intros [= _ <-].
Qed.

(** The states of a program that was started with these options. *)
Definition dp_runs (fuel : nat) (opts : list (dp_letter * list byte)) (dp : dp_state E) g s : Prop :=
  ∃ a0, dp_main fuel opts (app_initial dp) = Live (g, a0) ∧ rtc (app_step g) (app_start g a0) s.

Lemma dp_runs_ok fuel opts dp g s : dp_runs fuel opts dp g s → prog_ok s.
Proof.
  intros (a0 & Hm%dp_main_rep & Hs).
  assert (prog_ok (app_start g a0)) as H0k.
  { split; [|done]. cbn. rewrite Hm. by apply window0_ok. }
  induction Hs as [s|s s1 s2 Hst _ IH]; [done|]. by eapply IH, app_step_ok.
Qed.

(** Steps of the other threads. *)
Definition others g s s' : Prop := app_step g s s' ∧ pg_task s' = pg_task s.

(** After the window nothing else touches the samples. *)
Lemma others_frozen g s s' :
  others g s s' → prog_ok s → window_open (pg_task s) = false → pg_task s ≠ TaskOff →
  ap_rep (pg_app s') = ap_rep (pg_app s).
Proof.
  intros [Hstep Ht] (Hw & Ho & Hk) Hopen Hoff. pose proof Hw as [Hr Ha _]. rewrite Hopen in Ha.
  destruct Hstep as [[pc t m a] s' Hm|pc t m a i p a' _ _ _ Hs
    |pc t a msg m' a' _ Hs|pc t m a m' a' _ _ Hs|pc t m a t' a' _ Hs|pc t m a fuel dp _ Hs];
    cbn [pg_task pg_main pg_app pg_mqtt] in *.
  - destruct pc; cbn [main_step task_started] in *; try (by destruct (Hoff (Ho eq_refl))); done.
  - by apply publish_task_rep in Hs.
  - by apply msgarrvd_begin_rep in Hs as [-> _].
  - apply handle_data_step_sampled in Hs as [[->|[Hact _]] _]; [done|congruence|done|done].
  - by apply task_step_ok in Hs as (_ & _ & Hne).
  - done.
Qed.

Lemma others_frozen_run g s s' :
  rtc (others g) s s' → prog_ok s → window_open (pg_task s) = false → pg_task s ≠ TaskOff →
  prog_ok s' ∧ pg_task s' = pg_task s ∧ ap_rep (pg_app s') = ap_rep (pg_app s).
Proof.
  induction 1 as [s|s s1 s2 Hst _ IH]; intros Hok Hop Hoff; [done|].
  pose proof (others_frozen _ _ _ Hst Hok Hop Hoff) as Hr. destruct Hst as [Hst Ht].
  apply app_step_ok in Hst; [|done]. rewrite Ht, Hr in IH. by apply IH.
Qed.

(** C7. Under any interleaving of the threads, and whatever messages arrive, the
    samples of a window are at most 256, of different devices, with scores of
    at most 98; samples are taken exactly while the window is open, and there
    are none before it opens. *)
Theorem window_invariant fuel opts dp g s :
  dp_runs fuel opts dp g s →
  let r := ap_rep (pg_app s) in
  zlen (samples r) = rp_feedback_length r ∧ rp_feedback_length r ≤ 256 ∧
  NoDup (feedback_id <$> samples r) ∧ Forall sample_ok (samples r) ∧
  rp_feedback_active r = window_open (pg_task s) ∧
  (has_samples (pg_task s) = false → samples r = []).
Proof.
  intros ([[Hv Hf Hl Hok Hd] Ha He] & _)%dp_runs_ok r. fold r in Hv, Hf, Hl, Hok, Hd, Ha, He. split_and!.
  - unfold zlen, samples. rewrite length_take. lia.
  - lia.
  - done.
  - by apply Forall_take.
  - done.
  - intros Ht. unfold samples. by rewrite He.
Qed.

(** The feedback that is written for these samples. *)
Definition feedback_writes (dp : dp_state E) (l : list atlas_feedback_t) : list dp_event :=
  (λ f, DpWrite (dp_fd dp) (encode [(ATLAS_CMD_DATA_PLANE_FEEDBACK, encode (feedback_cmds f))])) <$>
  valid_prefix l.

(** A sample that was sent in time is valid. *)
Lemma valid_prefix_all l :
  Forall sample_ok l → Forall (λ f, fb_time_score f ≤ 100) l → valid_prefix l = l.
Proof.
  induction 1 as [|f l [_ Hf] _ IH]; intros Ht; [done|]. apply Forall_cons_1 in Ht as [Ht1 Ht].
  cbn [valid_prefix]. unfold in_range. rewrite bool_decide_true by lia. by rewrite IH.
Qed.

Lemma task_sends id a :
  rep_ok (ap_rep a) → rp_feedback_length (ap_rep a) ≠ 0 →
  ∃ dp, reputation_query_task (TaskSend id) a = Some (TaskConsume id, ap_with_dp dp a) ∧
    dp_trace dp = dp_trace (ap_dp a) ++ feedback_writes (ap_dp a) (samples (ap_rep a)).
Proof.
  intros [_ Hf Hl Hok _] Hn. cbn [reputation_query_task]. rewrite decide_False by done.
  destruct (samples (ap_rep a)) as [|f l] eqn:Hs.
  { exfalso. apply (f_equal length) in Hs. unfold samples in Hs. rewrite length_take in Hs.
    cbn in Hs. lia. }
  cbn [atlas_reputation_feedback].
  destruct (feedback_loop_spec (f :: l) (ap_dp a)) as (dp & Hdp & _ & Htr).
  { rewrite <- Hs. apply Forall_take. eapply Forall_impl; [|exact Hok]. by intros x []. }
  rewrite Hdp. cbn [mbind option_bind]. by exists dp.
Qed.

(** C6. What is sent after a window: whatever the other threads do between the
    end of the window, the scores and the feedback, one write per sample of
    the window, in order, with the identity it came from, its final sensor
    score and its time score, up to the first time score above 100. Without
    such a score all of them are sent. *)
Theorem window_is_reported fuel opts dp g s1 a2 s3 id :
  dp_runs fuel opts dp g s1 → pg_task s1 = TaskScore id →
  rp_feedback_length (ap_rep (pg_app s1)) ≠ 0 →
  reputation_query_task (TaskScore id) (pg_app s1) = Some (TaskSend id, a2) →
  rtc (others g) (mk_prog (pg_main s1) (TaskSend id) (pg_mqtt s1) a2) s3 →
  let sent := samples (score_window (ap_rep (pg_app s1))) in
  (∃ dp', reputation_query_task (TaskSend id) (pg_app s3) =
      Some (TaskConsume id, ap_with_dp dp' (pg_app s3)) ∧
    dp_trace dp' = dp_trace (ap_dp (pg_app s3)) ++ feedback_writes (ap_dp (pg_app s3)) sent) ∧
  (feedback_id <$> sent) = (feedback_id <$> samples (ap_rep (pg_app s1))) ∧
  Forall (λ f, fb_sensor_score f ≤ 98) sent ∧
  (Forall (λ f, fb_time_score f ≤ 100) sent → valid_prefix sent = sent).
Proof.
  intros (Hw & Ho & Hk)%dp_runs_ok Ht Hn Hs Hrtc sent. rewrite Ht in Hw. pose proof Hw as [Hr _ _].
  destruct (score_window_frame _ Hr) as (Hr' & Hids & Hlen & _).
  apply task_step_ok in Hs as Hok2; [|exact Hw]. injection Hs as <-.
  apply others_frozen_run in Hrtc as (_ & _ & Hrep); [|split; [apply Hok2|split; [|exact Hk]]|done|done].
  2: { cbn. intros Hm. specialize (Ho Hm). congruence. }
  cbn [pg_app ap_rep ap_with_rep] in Hrep.
  assert (Forall sample_ok sent) as Hsent by (apply Forall_take, Hr'). split_and!.
  - unfold sent. rewrite <- Hrep. apply task_sends; rewrite Hrep; [exact Hr'|by rewrite Hlen].
  - exact Hids.
  - eapply Forall_impl; [|exact Hsent]. by intros f [].
  - by apply valid_prefix_all.
Qed.
End Threads.

(** ** Messages *)

(** A field of a message: not empty, and without separator and NUL. *)
Definition field_ok (s : list byte) : Prop := s ≠ [] ∧ Forall (λ b, is_sep (B ":") b = false) s ∧ nul_free s.

#[export] Instance field_ok_dec s : Decision (field_ok s).
Proof. unfold field_ok. apply _. Defined.

(** A message of data: the identity and the value, which what follows in the
    memory of the payload is not part of. *)
Definition is_data_message (m : mqtt_message) (id value : list byte) : Prop :=
  (∃ feature, message_topic m = Some (ATLAS_DATA_PLANE_DATA_TOPIC ++ feature)) ∧
  (∃ post, mm_payload m = Some ((id ++ B ":" ++ value) ++ post)) ∧
  mm_payloadlen m = zlen (id ++ B ":" ++ value) ∧ field_ok id ∧ field_ok value ∧
  zlen (id ++ B ":" ++ value) < 256.

(** The text of a float is a field. *)
Lemma sprintf_f_field x :
  in_format 24 128 x → field_ok (sprintf_f (d_of_f x)) ∧ zlen (sprintf_f (d_of_f x)) ≤ 47.
Proof.
  intros Hx. destruct (sprintf_f_short x Hx) as [Hn Hl]. split; [|lia]. split_and!; [|by apply sprintf_f_seps|done].
  intros He. rewrite He in Hl. change (zlen []) with 0 in Hl. lia.
Qed.

Section Messages.
Context `{Host} {E : Type} `{DpEnv E, AppEnv E}.
Implicit Types (a : app_state_t E).

(** The two tokens of a payload: the identity, then the value, which is the
    end of the string. *)
Lemma handle_data_identity id value post a :
  field_ok id → field_ok value → zlen (id ++ B ":" ++ value) < 256 →
  handle_data (Some ((id ++ B ":" ++ value) ++ post)) (zlen (id ++ B ":" ++ value)) a =
  Some (MqttValue id, ap_with_tok (TokIn TokMsg value) a).
Proof.
  intros (Hi & Hsi & Hni) (Hv & Hsv & Hnv) Hl. unfold handle_data. rewrite decide_False.
  2: { rewrite !zlen_app. change (zlen (B ":")) with 1. zlen_lia. }
  rewrite mread_head by done. cbn [mbind option_bind].
  unfold ATLAS_DATA_PLANE_BUFFER_LEN. rewrite mwrite_zeros by done. cbn [mbind option_bind].
  assert (nul_free (id ++ B ":" ++ value)) as Hn.
  { rewrite !nul_free_app. split_and!; [done|by apply (bool_decide_unpack (nul_free (B ":")))|done]. }
  assert (cstr_in ((id ++ B ":" ++ value) ++ zeros (256 - zlen (id ++ B ":" ++ value)))
    (id ++ B ":" ++ value)) as Hc.
  { split; [exact Hn|]. unfold zeros.
    destruct (Z.to_nat (256 - zlen (id ++ B ":" ++ value))) as [|k] eqn:Hk; [lia|]. by eexists. }
  rewrite (cstr_of_in _ _ Hc). cbn [mbind option_bind]. unfold strtok_first.
  change (B ":" ++ value) with (x3a :: value). rewrite strtok_token by done.
  destruct (strcpy_in (zeros 256) id) as (blk & -> & _); [done| |done].
  rewrite zlen_zeros by done. rewrite !zlen_app in Hl. pose proof (zlen_nonneg value).
  change (zlen (B ":")) with 1 in Hl. lia.
Qed.

Lemma handle_data_value id value a :
  field_ok value →
  handle_data_step (MqttValue id) (ap_with_tok (TokIn TokMsg value) a) =
  Some (MqttSample id (atof value), ap_with_tok (TokIn TokMsg []) a).
Proof.
  intros (Hv & Hsv & Hnv). cbn [handle_data_step]. unfold strtok_next, strtok_first.
  cbn [ap_tok ap_with_tok]. by rewrite strtok_last.
Qed.

(** The critical section does not use the pointer of [strtok]. *)
Lemma record_sample_tok id v k a :
  record_sample id v (ap_with_tok k a) = (a' ← record_sample id v a; Some (ap_with_tok k a')).
Proof.
  unfold record_sample. cbn [ap_rep ap_with_tok]. destruct (negb _); [done|].
  case_decide; [done|]. destruct (decide (Exists _ _)); [done|].
  destruct (rp_feedback (ap_rep a) !! _); [|done]. cbn [mbind option_bind].
  destruct (strcpy _ id); [|done]. cbn [mbind option_bind].
  change (ap_call app_clock (ap_with_tok k a)) with
    (let '(x, e) := app_clock (dp_env (ap_dp a)) in (x, ap_with_tok k (ap_with_dp (dp_with_env e (ap_dp a)) a))).
  unfold ap_call. destruct (app_clock _) as [ts e]. by destruct (time_score _ _ _).
Qed.

Lemma topic_after_self prefix rest : topic_after prefix (prefix ++ rest) = Some rest.
Proof.
  unfold topic_after. assert (∀ p r, prefix_of p (p ++ r) = true) as Hp.
  { clear. induction p as [|b p IH]; intros r; [done|]. cbn. by rewrite bool_decide_true, IH. }
  assert (strstr (prefix ++ rest) prefix = Some (prefix ++ rest)) as ->.
  { destruct (prefix ++ rest) eqn:He; cbn [strstr]; rewrite <- He; by rewrite Hp. }
  cbn [mbind option_bind]. by rewrite decide_True, drop_app_length.
Qed.

Lemma strstr_prefix_length s p t : strstr s p = Some t → zlen t = zlen s → prefix_of p s = true.
Proof.
  assert (∀ s t, strstr s p = Some t → zlen t ≤ zlen s) as Hle.
  { clear. induction s as [|b s IH]; intros t; cbn [strstr]; destruct (prefix_of p _).
    1,3: by intros [= <-].
    - done.
    - intros Hs%IH. rewrite zlen_cons. lia. }
  destruct s as [|b s]; cbn [strstr]; destruct (prefix_of p _) eqn:Hp; try done.
  intros Hs%Hle Hz. rewrite zlen_cons in Hz. lia.
Qed.

(** A topic of data is not one of requests. *)
Lemma topic_after_data feature :
  topic_after ATLAS_DATA_PLANE_REQUEST_REPUTATION_TOPIC (ATLAS_DATA_PLANE_DATA_TOPIC ++ feature) = None.
Proof.
  unfold topic_after. destruct (strstr _ _) as [t|] eqn:Ht; [|done]. cbn [mbind option_bind].
  case_decide as Hz; [|done]. exfalso. by apply strstr_prefix_length in Ht.
Qed.

(** The counters of the library see every message first. *)
Definition counted (m : mqtt_message) a a1 : Prop :=
  ∃ stats, atlas_pkt_received (mm_payloadlen m) (dp_stat (ap_dp a)) = Some stats ∧
    a1 = ap_with_dp (dp_with_stat stats (ap_dp a)) a.

Lemma msgarrvd_begin_data m id value a a1 :
  is_data_message m id value → counted m a a1 →
  msgarrvd_begin m a = Some (MqttValue id, ap_with_tok (TokIn TokMsg value) a1).
Proof.
  intros ((f & Ht) & (post & Hp) & Hl & Hi & Hv & Hz) (st & Hst & ->).
  unfold msgarrvd_begin. rewrite Ht. cbn [mbind option_bind]. rewrite Hst. cbn [mbind option_bind].
  rewrite topic_after_data, topic_after_self, Hp, Hl. by rewrite handle_data_identity.
Qed.

(** All of it, when no other thread runs meanwhile: the pointer of [strtok] is
    left in the array of a function that has returned. *)
Lemma msgarrvd_data m id value a a1 :
  is_data_message m id value → counted m a a1 →
  msgarrvd m a = record_sample id (atof value) (ap_with_tok TokDead a1).
Proof.
  intros Hm Hc. unfold msgarrvd. rewrite (msgarrvd_begin_data _ _ _ _ _ Hm Hc). cbn [mbind option_bind].
  destruct Hm as (_ & _ & _ & _ & Hv & _). rewrite (handle_data_value id value a1 Hv).
  cbn [mbind option_bind handle_data_step]. rewrite !record_sample_tok.
  by destruct (record_sample id (atof value) a1).
Qed.

Lemma record_sample_new id v a t e :
  rep_ok (ap_rep a) → rp_feedback_active (ap_rep a) = true → rp_feedback_length (ap_rep a) < 256 →
  id ∉ (feedback_id <$> samples (ap_rep a)) → nul_free id → zlen id < 64 →
  app_clock (dp_env (ap_dp a)) = (t, e) →
  in_window (rp_window_start (ap_rep a)) t (rp_window_size (ap_rep a)) →
  0 < rp_window_size (ap_rep a) < 2147484 →
  ∃ a' f, record_sample id v a = Some a' ∧ samples (ap_rep a') = samples (ap_rep a) ++ [f] ∧
    rp_sensor_val (ap_rep a') !! Z.to_nat (rp_feedback_length (ap_rep a)) = Some (f_of_d v) ∧
    feedback_id f = id ∧ fb_sensor_type f = 101 ∧ 0 ≤ fb_time_score f ≤ 100 ∧
    (rp_target_value (ap_rep a) ≠ -1 →
     fb_sensor_score f = get_sensor_feedback (d_fabs (d_sub v (d_of_Z (rp_target_value (ap_rep a)))))).
Proof.
  intros Hr Hact Hlt Hid Hn Hl Hclk Hwin Hw. unfold record_sample. rewrite Hact. cbn [negb].
  rewrite decide_False by (unfold ATLAS_DATA_PLANE_FEEDBACK_MAX; lia). rewrite decide_False.
  2: { intros (f & Hf & <-)%list.Exists_exists. apply Hid, list_elem_of_fmap. by exists f. }
  pose proof Hr as [Hv Hf Hlen Hok _].
  destruct (lookup_lt_is_Some_2 (rp_feedback (ap_rep a)) (Z.to_nat (rp_feedback_length (ap_rep a))))
    as [f Hfl]; [lia|].
  pose proof (proj1 (Forall_lookup _ _) Hok _ _ Hfl) as [(_ & Hz & _) _].
  rewrite Hfl. cbn [mbind option_bind].
  destruct (strcpy_in (fb_identity f) id) as (blk & -> & Hc & _); [done|lia|]. cbn [mbind option_bind].
  unfold ap_call. rewrite Hclk. destruct (time_score_bounds_of _ _ _ Hwin Hw) as (ts & -> & Hts).
  cbn [mbind option_bind]. do 2 eexists. split; [reflexivity|]. cbn [ap_rep ap_with_rep].
  rewrite samples_snoc by done. split; [reflexivity|]. cbn [rp_sensor_val set_samples].
  rewrite list_lookup_insert_eq by lia. split; [done|]. split; [by apply c_string_in|].
  split; [done|]. split; [exact Hts|].
  cbn. intros Ht. unfold sample_score. by rewrite decide_True.
Qed.

(** C15. What a well-formed message of data does. Outside of a window, and when
    the device has already delivered a sample in this window, only the packet
    is counted. Otherwise, while fewer than 256 devices have and the identity
    has fewer than 64 characters, a sample is added: the identity, the value
    as a float, a time score between 0 and 100, and, when there is a target,
    the score of the distance to it. *)
Theorem data_message_outcome m id value a a1 :
  is_data_message m id value → counted m a a1 → rep_ok (ap_rep a) →
  (rp_feedback_active (ap_rep a) = false ∨ id ∈ (feedback_id <$> samples (ap_rep a)) →
     msgarrvd m a = Some (ap_with_tok TokDead a1)) ∧
  (∀ t e, rp_feedback_active (ap_rep a) = true → id ∉ (feedback_id <$> samples (ap_rep a)) →
     rp_feedback_length (ap_rep a) < 256 → zlen id < 64 →
     app_clock (dp_env (ap_dp a)) = (t, e) →
     in_window (rp_window_start (ap_rep a)) t (rp_window_size (ap_rep a)) →
     0 < rp_window_size (ap_rep a) < 2147484 →
     ∃ a' f, msgarrvd m a = Some a' ∧ samples (ap_rep a') = samples (ap_rep a) ++ [f] ∧
       rp_sensor_val (ap_rep a') !! Z.to_nat (rp_feedback_length (ap_rep a)) =
         Some (f_of_d (atof value)) ∧
       feedback_id f = id ∧ fb_sensor_type f = 101 ∧ 0 ≤ fb_time_score f ≤ 100 ∧
       (rp_target_value (ap_rep a) ≠ -1 → fb_sensor_score f =
          get_sensor_feedback (d_fabs (d_sub (atof value) (d_of_Z (rp_target_value (ap_rep a))))))).
Proof.
  intros Hm Hc Hr. rewrite (msgarrvd_data _ _ _ _ _ Hm Hc). destruct Hm as (_ & _ & _ & (_ & _ & Hn) & _).
  destruct Hc as (st & _ & ->). split.
  - intros Hno. unfold record_sample. cbn [ap_rep ap_with_tok ap_with_dp].
    destruct (rp_feedback_active (ap_rep a)) eqn:Ha; cbn [negb]; [|done].
    destruct Hno as [?|(f & -> & Hf)%list_elem_of_fmap]; [done|].
    case_decide; [done|]. rewrite decide_True; [done|]. apply list.Exists_exists. by exists f.
  - intros t e Ha Hid Hlt Hl Hclk Hwin Hw.
    by apply (record_sample_new id (atof value)
      (ap_with_tok TokDead (ap_with_dp (dp_with_stat st (ap_dp a)) a)) t e).
Qed.

End Messages.
