(* ===== verification/DataPlaneTraffic.v ===== *)
(** * The data plane application: its options and its traffic

    The options that configure the publishers and the subscriptions, against
    the list of their tokens; what a device publishes, against what another one
    reads; and the pointer that [strtok] shares between the threads. *)

From Stdlib Require Import SpecFloat.
From stdpp Require Import gmap.
From S2P Require Import Prelude Protocol Command CString Float Scheduler State Config Identity Alarm.
From S2P Require Import CoapClient Request Connector DpClient DataPlane DataPlaneSpec.

(** ** The tokens of a string *)

Fixpoint tokens_fuel (fuel : nat) (seps s : list byte) : list (list byte) :=
  match fuel with
  | O => []
  | S fuel => match strtok seps s with
              | (Some t, r) => t :: tokens_fuel fuel seps r
              | (None, _) => []
              end
  end.

Definition tokens (seps s : list byte) : list (list byte) := tokens_fuel (S (length s)) seps s.

Section Tokens.

Lemma strtok_shorter seps s t r : strtok seps s = (Some t, r) → (length r < length s)%nat.
Proof.
  assert (∀ s, length (skip_seps seps s) ≤ length s)%nat as Hskip.
  { clear. induction s as [|b s IH]; cbn [skip_seps]; [done|]. destruct (is_sep seps b); cbn in *; lia. }
  assert (∀ s t r, cut_token seps s = (t, r) → length r ≤ length s)%nat as Hcut.
  { clear. induction s as [|b s IH]; intros t r; cbn [cut_token]; [by intros [= <- <-]|].
    destruct (is_sep seps b); [intros [= <- <-]; cbn; lia|].
    destruct (cut_token seps s) as [t' r'] eqn:Hc. intros [= <- <-]. specialize (IH _ _ eq_refl). cbn. lia. }
  unfold strtok. pose proof (Hskip s) as Hs. destruct (skip_seps_spec seps s) as [_ Hhd].
  destruct (skip_seps seps s) as [|b s']; [done|]. cbn [cut_token]. rewrite Hhd.
  destruct (cut_token seps s') as [t' r'] eqn:Hc. intros [= <- <-]. apply Hcut in Hc. cbn in Hs. lia.
Qed.

Lemma tokens_fuel_enough seps n m s :
  (length s < n)%nat → (length s < m)%nat → tokens_fuel n seps s = tokens_fuel m seps s.
Proof.
  revert m s. induction n as [|n IH]; intros [|m] s Hn Hm; try lia. cbn [tokens_fuel].
  destruct (strtok seps s) as [[t|] r] eqn:Ht; [|done]. apply strtok_shorter in Ht. f_equal.
  apply IH; lia.
Qed.

Lemma tokens_eq seps s :
  tokens seps s = match strtok seps s with
                  | (Some t, r) => t :: tokens seps r
                  | (None, _) => []
                  end.
Proof.
  unfold tokens at 1. cbn [tokens_fuel]. destruct (strtok seps s) as [[t|] r] eqn:Ht; [|done].
  apply strtok_shorter in Ht. f_equal. apply tokens_fuel_enough; lia.
Qed.

Lemma strtok_None seps s r : strtok seps s = (None, r) → r = [].
Proof.
  unfold strtok. destruct (skip_seps seps s); [by intros [= <-]|]. by destruct (cut_token _ _).
Qed.

(** A token, and the tokens that follow. *)
Lemma tokens_cons seps s t ts :
  tokens seps s = t :: ts → ∃ r, strtok seps s = (Some t, r) ∧ tokens seps r = ts.
Proof. rewrite tokens_eq. destruct (strtok seps s) as [[u|] r]; [|done]. intros [= -> <-]. by exists r. Qed.

Lemma tokens_nil seps s : tokens seps s = [] → strtok seps s = (None, []).
Proof.
  rewrite tokens_eq. destruct (strtok seps s) as [[u|] r] eqn:Ht; [done|].
  by apply strtok_None in Ht as ->.
Qed.
End Tokens.

(** ** The publishers *)

Section Traffic.
Context `{Host} {E : Type} `{DpEnv E, AppEnv E}.
Implicit Types (a : app_state_t E) (g : dp_args).

(** An entry, from its six fields, and the subscription to its requests. *)
Definition publish_set (index : Z) (feature rate base_value deviation qos len : list byte) a
    : option (app_state_t E) :=
  a ← update_publish index (λ p,
    blk ← strcpy (pi_feature p) feature;
    let '(packet_length, msg) :=
      if decide (len = ATLAS_PACKET_LENGTH_DEFAULT) then (0, malloc_opt 257)
      else (atoi len, malloc_opt (atoi len)) in
    Some (mk_publish_info blk (atoi rate) (f_of_d (atof base_value)) (f_of_d (atof deviation))
            (atoi qos) packet_length msg true)) a;
  p ← ap_publish a !! Z.to_nat index;
  feature ← cstr_of (pi_feature p);
  topic ← make_topic ATLAS_DATA_PLANE_REQUEST_REPUTATION_TOPIC feature;
  Some (ap_emit (AppSubscribe topic 2) a).

(** All of them, six tokens at a time. *)
Fixpoint configure (toks : list (list byte)) (index : Z) a : option (app_state_t E) :=
  match toks with
  | [] => Some a
  | feature :: rate :: base_value :: deviation :: qos :: len :: toks =>
      a ← publish_set index feature rate base_value deviation qos len a;
      configure toks (index + 1) a
  | _ => None
  end.

(** The main thread, by itself. *)
Fixpoint main_run (n : nat) g (s : prog E) : option (prog E) :=
  match n with
  | O => Some s
  | S n => s ← main_step g s; main_run n g s
  end.

(** The main thread by itself, as long as it is in [traffic_generator]. *)
Definition publishing (pc : main_pc) : bool :=
  match pc with MainPublish _ _ | MainPublishField _ _ => true | _ => false end.

Fixpoint traffic_generator (fuel : nat) g (s : prog E) : outcome (prog E) :=
  if publishing (pg_main s) then
    match fuel with
    | O => NoFuel
    | S fuel => match main_step g s with
                | Some s => traffic_generator fuel g s
                | None => Fault
                end
    end
  else Done s.

Lemma next_field_cons a s b t ts :
  tokens (B ":") s = t :: ts →
  ∃ r, next_field (ap_with_tok (TokIn b s) a) = Some (t, ap_with_tok (TokIn b r) a) ∧
       tokens (B ":") r = ts.
Proof.
  intros (r & Hs & Hr)%tokens_cons. exists r. split; [|done].
  unfold next_field, strtok_next, strtok_first. cbn [ap_tok ap_with_tok]. by rewrite Hs.
Qed.

Lemma next_field_nil a b s : tokens (B ":") s = [] → next_field (ap_with_tok (TokIn b s) a) = None.
Proof.
  intros Hs%tokens_nil. unfold next_field, strtok_next, strtok_first. cbn [ap_tok ap_with_tok].
  by rewrite Hs.
Qed.

(** The state with another value of the entry. *)
Definition with_entry (index : Z) (p : publish_info_t) a : app_state_t E :=
  ap_with_publish (<[Z.to_nat index := p]> (ap_publish a)) a.

Definition has_entry (index : Z) a : Prop :=
  0 ≤ index < ATLAS_PUBLISH_FEATURES_MAX ∧ is_Some (ap_publish a !! Z.to_nat index).

Lemma update_entry index f k p a :
  has_entry index a →
  update_publish index f (ap_with_tok k (with_entry index p a)) =
  (p' ← f p; Some (ap_with_tok k (with_entry index p' a))).
Proof.
  intros [Hi [q Hq]]. unfold update_publish. rewrite decide_False by lia.
  cbn [ap_publish ap_with_tok with_entry ap_with_publish].
  rewrite list_lookup_insert_eq by (by eapply lookup_lt_Some). cbn [mbind option_bind].
  destruct (f p); [|done]. cbn [mbind option_bind]. unfold with_entry, ap_with_tok, ap_with_publish. cbn.
  by rewrite list_insert_insert_eq.
Qed.

(** What the step of a field does with its token. *)
Definition field_update (f : publish_field) (x : list byte) : publish_info_t → option publish_info_t :=
  match f with
  | FieldRate => set_publish_rate (atoi x)
  | FieldBase => set_base_value (f_of_d (atof x))
  | FieldDeviation => set_deviation (f_of_d (atof x))
  | FieldQos => set_qos (atoi x)
  | _ => set_packet_length (if decide (x = ATLAS_PACKET_LENGTH_DEFAULT) then 0 else atoi x)
  end.
Definition field_next (f : publish_field) (x : list byte) : publish_field :=
  match f with
  | FieldRate => FieldBase
  | FieldBase => FieldDeviation
  | FieldDeviation => FieldQos
  | FieldQos => FieldLength
  | _ => FieldMsg (if decide (x = ATLAS_PACKET_LENGTH_DEFAULT) then true else false)
  end.
Definition reads_field (f : publish_field) : bool :=
  match f with FieldMsg _ | FieldThread | FieldSubscribe => false | _ => true end.

Lemma publish_entry_eq index f a :
  reads_field f = true →
  publish_entry index f a =
  ('(x, a) ← next_field a; a ← update_publish index (field_update f x) a; Some (Some (field_next f x), a)).
Proof.
  intros Hf. destruct f; try done. cbn [publish_entry field_update field_next].
  destruct (next_field a) as [[x a1]|]; [|done]. cbn [mbind option_bind]. by case_decide.
Qed.

(** A step of an iteration that reads a token, and without one. *)
Lemma traffic_field g fuel index f t m b s x xs p p' a :
  has_entry index a → reads_field f = true → tokens (B ":") s = x :: xs →
  field_update f x p = Some p' →
  ∃ r, tokens (B ":") r = xs ∧
    traffic_generator (S fuel) g (mk_prog (MainPublishField index f) t m
      (ap_with_tok (TokIn b s) (with_entry index p a))) =
    traffic_generator fuel g (mk_prog (MainPublishField index (field_next f x)) t m
      (ap_with_tok (TokIn b r) (with_entry index p' a))).
Proof.
  intros Ha Hf (r & Hn & Hr)%(next_field_cons (with_entry index p a) s b) Hp. exists r. split; [done|].
  cbn [traffic_generator pg_main publishing main_step]. rewrite publish_entry_eq, Hn by done.
  cbn [mbind option_bind]. by rewrite update_entry, Hp.
Qed.

Lemma traffic_field_none g fuel index f t m b s a :
  reads_field f = true → tokens (B ":") s = [] →
  traffic_generator (S fuel) g (mk_prog (MainPublishField index f) t m (ap_with_tok (TokIn b s) a)) = Fault.
Proof.
  intros Hf Hn%(next_field_nil a b). cbn [traffic_generator pg_main publishing main_step].
  by rewrite publish_entry_eq, Hn.
Qed.

Lemma traffic_step fuel g index f t m a :
  traffic_generator (S fuel) g (mk_prog (MainPublishField index f) t m a) =
  match publish_entry index f a with
  | Some (next, a) => traffic_generator fuel g
      (mk_prog (match next with
                | Some f => MainPublishField index f
                | None => MainPublish (index + 1) None
                end) t m a)
  | None => Fault
  end.
Proof. cbn [traffic_generator pg_main publishing main_step]. by destruct (publish_entry _ _ _) as [[next a1]|]. Qed.

Lemma entry_lookup index k p a :
  has_entry index a → ap_publish (ap_with_tok k (with_entry index p a)) !! Z.to_nat index = Some p.
Proof.
  intros [_ [q Hq]]. cbn [ap_publish ap_with_tok with_entry ap_with_publish].
  apply list_lookup_insert_eq. by eapply lookup_lt_Some.
Qed.

(** The steps that read no token. *)
Lemma entry_msg index d k p a :
  has_entry index a →
  publish_entry index (FieldMsg d) (ap_with_tok k (with_entry index p a)) =
  (p' ← alloc_publish_msg d p; Some (Some FieldThread, ap_with_tok k (with_entry index p' a))).
Proof. intros Ha. unfold publish_entry. by rewrite update_entry. Qed.

Lemma entry_thread index k p a :
  has_entry index a →
  publish_entry index FieldThread (ap_with_tok k (with_entry index p a)) =
  (p' ← start_thread p; Some (Some FieldSubscribe, ap_with_tok k (with_entry index p' a))).
Proof. intros Ha. unfold publish_entry. by rewrite update_entry. Qed.

Lemma entry_subscribe index k p a :
  has_entry index a →
  publish_entry index FieldSubscribe (ap_with_tok k (with_entry index p a)) =
  (feature ← cstr_of (pi_feature p);
   topic ← make_topic ATLAS_DATA_PLANE_REQUEST_REPUTATION_TOPIC feature;
   Some (None, ap_with_tok k (ap_emit (AppSubscribe topic 2) (with_entry index p a)))).
Proof. intros Ha. unfold publish_entry. by rewrite entry_lookup. Qed.

(** The end of an iteration. *)
Lemma traffic_last g fuel index d t m k p p1 p2 a :
  has_entry index a → alloc_publish_msg d p = Some p1 → start_thread p1 = Some p2 →
  traffic_generator (S (S (S fuel))) g (mk_prog (MainPublishField index (FieldMsg d)) t m
    (ap_with_tok k (with_entry index p a))) =
  match feature ← cstr_of (pi_feature p2); make_topic ATLAS_DATA_PLANE_REQUEST_REPUTATION_TOPIC feature with
  | Some topic => traffic_generator fuel g (mk_prog (MainPublish (index + 1) None) t m
      (ap_with_tok k (ap_emit (AppSubscribe topic 2) (with_entry index p2 a))))
  | None => Fault
  end.
Proof.
  intros Ha Hp1 Hp2.
  rewrite (traffic_step _ g index (FieldMsg d)), (entry_msg _ _ _ _ _ Ha), Hp1. cbn [mbind option_bind].
  rewrite (traffic_step _ g index FieldThread), (entry_thread _ _ _ _ Ha), Hp2. cbn [mbind option_bind].
  rewrite (traffic_step _ g index FieldSubscribe), (entry_subscribe _ _ _ _ Ha).
  destruct (cstr_of (pi_feature p2)) as [c|]; [|reflexivity]. cbn [mbind option_bind].
  destruct (make_topic _ c); reflexivity.
Qed.

(** The entry of an iteration, from its parts. *)
Lemma publish_set_eq index f0 r0 b0 d0 q0 l0 p blk a :
  has_entry index a → ap_publish a !! Z.to_nat index = Some p → strcpy (pi_feature p) f0 = Some blk →
  publish_set index f0 r0 b0 d0 q0 l0 a =
  (feature ← cstr_of blk;
   topic ← make_topic ATLAS_DATA_PLANE_REQUEST_REPUTATION_TOPIC feature;
   Some (ap_emit (AppSubscribe topic 2) (with_entry index
     (mk_publish_info blk (atoi r0) (f_of_d (atof b0)) (f_of_d (atof d0)) (atoi q0)
        (if decide (l0 = ATLAS_PACKET_LENGTH_DEFAULT) then 0 else atoi l0)
        (malloc_opt (if decide (l0 = ATLAS_PACKET_LENGTH_DEFAULT) then 257 else atoi l0)) true) a))).
Proof.
  intros Ha Hp Hblk. pose proof Ha as [Hi _]. unfold publish_set, update_publish.
  destruct (decide (¬ 0 ≤ index < ATLAS_PUBLISH_FEATURES_MAX)) as [Hno|_]; [destruct (Hno Hi)|].
  rewrite Hp. cbn [mbind option_bind]. rewrite Hblk. cbn [mbind option_bind].
  destruct (decide (l0 = ATLAS_PACKET_LENGTH_DEFAULT)); cbn [mbind option_bind].
  all: cbn [ap_publish ap_with_publish].
  all: rewrite list_lookup_insert_eq by (by eapply lookup_lt_Some).
  all: reflexivity.
Qed.

(** The five fields after the feature, one step each. *)
Lemma traffic_fields g fuel index t m b s r0 b0 d0 q0 l0 xs blk r1 b1 d1 q1 l1 msg th a :
  has_entry index a → tokens (B ":") s = r0 :: b0 :: d0 :: q0 :: l0 :: xs →
  ∃ r, tokens (B ":") r = xs ∧
    traffic_generator (S (S (S (S (S fuel))))) g (mk_prog (MainPublishField index FieldRate) t m
      (ap_with_tok (TokIn b s) (with_entry index (mk_publish_info blk r1 b1 d1 q1 l1 msg th) a))) =
    traffic_generator fuel g (mk_prog (MainPublishField index (field_next FieldLength l0)) t m
      (ap_with_tok (TokIn b r) (with_entry index
        (mk_publish_info blk (atoi r0) (f_of_d (atof b0)) (f_of_d (atof d0)) (atoi q0)
           (if decide (l0 = ATLAS_PACKET_LENGTH_DEFAULT) then 0 else atoi l0) msg th) a))).
Proof.
  intros Ha Hs.
  destruct (traffic_field g (S (S (S (S fuel)))) index FieldRate t m b s r0 (b0 :: d0 :: q0 :: l0 :: xs)
    (mk_publish_info blk r1 b1 d1 q1 l1 msg th)
    (mk_publish_info blk (atoi r0) b1 d1 q1 l1 msg th) a) as (s1 & Hs1 & ->);
    [exact Ha|reflexivity|exact Hs|reflexivity|].
  destruct (traffic_field g (S (S (S fuel))) index FieldBase t m b s1 b0 (d0 :: q0 :: l0 :: xs)
    (mk_publish_info blk (atoi r0) b1 d1 q1 l1 msg th)
    (mk_publish_info blk (atoi r0) (f_of_d (atof b0)) d1 q1 l1 msg th) a) as (s2 & Hs2 & E2);
    [exact Ha|reflexivity|exact Hs1|reflexivity|].
  destruct (traffic_field g (S (S fuel)) index FieldDeviation t m b s2 d0 (q0 :: l0 :: xs)
    (mk_publish_info blk (atoi r0) (f_of_d (atof b0)) d1 q1 l1 msg th)
    (mk_publish_info blk (atoi r0) (f_of_d (atof b0)) (f_of_d (atof d0)) q1 l1 msg th) a)
    as (s3 & Hs3 & E3); [exact Ha|reflexivity|exact Hs2|reflexivity|].
  destruct (traffic_field g (S fuel) index FieldQos t m b s3 q0 (l0 :: xs)
    (mk_publish_info blk (atoi r0) (f_of_d (atof b0)) (f_of_d (atof d0)) q1 l1 msg th)
    (mk_publish_info blk (atoi r0) (f_of_d (atof b0)) (f_of_d (atof d0)) (atoi q0) l1 msg th) a)
    as (s4 & Hs4 & E4); [exact Ha|reflexivity|exact Hs3|reflexivity|].
  destruct (traffic_field g fuel index FieldLength t m b s4 l0 xs
    (mk_publish_info blk (atoi r0) (f_of_d (atof b0)) (f_of_d (atof d0)) (atoi q0) l1 msg th)
    (mk_publish_info blk (atoi r0) (f_of_d (atof b0)) (f_of_d (atof d0)) (atoi q0)
      (if decide (l0 = ATLAS_PACKET_LENGTH_DEFAULT) then 0 else atoi l0) msg th) a)
    as (s5 & Hs5 & E5); [exact Ha|reflexivity|exact Hs4|reflexivity|].
  exists s5. split; [exact Hs5|]. cbn [field_next].
  rewrite E2. cbn [field_next]. rewrite E3. cbn [field_next]. rewrite E4. cbn [field_next]. exact E5.
Qed.

(** An iteration after its feature, when there are five tokens. *)
Lemma traffic_entry g fuel index f0 t m b s r0 b0 d0 q0 l0 xs blk p a :
  has_entry index a → tokens (B ":") s = r0 :: b0 :: d0 :: q0 :: l0 :: xs →
  ap_publish a !! Z.to_nat index = Some p → strcpy (pi_feature p) f0 = Some blk →
  ∃ r, tokens (B ":") r = xs ∧
    traffic_generator (8 + fuel) g (mk_prog (MainPublishField index FieldRate) t m
      (ap_with_tok (TokIn b s) (with_entry index (mk_publish_info blk (pi_publish_rate p)
        (pi_base_value p) (pi_deviation p) (pi_qos p) (pi_packet_length p) (pi_publish_msg p)
        (pi_thread p)) a))) =
    match publish_set index f0 r0 b0 d0 q0 l0 a with
    | Some a => traffic_generator fuel g (mk_prog (MainPublish (index + 1) None) t m
                  (ap_with_tok (TokIn b r) a))
    | None => Fault
    end.
Proof.
  intros Ha Hs Hp Hblk.
  destruct (traffic_fields g (S (S (S fuel))) index t m b s r0 b0 d0 q0 l0 xs blk (pi_publish_rate p)
    (pi_base_value p) (pi_deviation p) (pi_qos p) (pi_packet_length p) (pi_publish_msg p)
    (pi_thread p) a Ha Hs) as (r & Hr & E').
  exists r. split; [exact Hr|]. cbn [Nat.add]. rewrite E'. clear E'. cbn [field_next].
  rewrite (publish_set_eq index f0 r0 b0 d0 q0 l0 p blk a Ha Hp Hblk).
  erewrite traffic_last; [|exact Ha|reflexivity|reflexivity]. cbn [pi_feature].
  destruct (cstr_of blk) as [c|]; [|reflexivity]. cbn [mbind option_bind].
  destruct (make_topic _ c); [|reflexivity]. cbn [mbind option_bind].
  unfold ATLAS_DATA_PLANE_BUFFER_LEN. change (256 + 1) with 257.
  destruct (decide (l0 = ATLAS_PACKET_LENGTH_DEFAULT)); reflexivity.
Qed.

(** An iteration with fewer tokens. *)
Definition fields_left (f : publish_field) : nat :=
  match f with
  | FieldRate => 5 | FieldBase => 4 | FieldDeviation => 3 | FieldQos => 2 | FieldLength => 1
  | _ => 0
  end.

Lemma traffic_short g n f fuel index t m b s p a :
  has_entry index a → fields_left f = n → (length (tokens (B ":") s) < n)%nat → (n ≤ fuel)%nat →
  traffic_generator fuel g
    (mk_prog (MainPublishField index f) t m (ap_with_tok (TokIn b s) (with_entry index p a))) = Fault.
Proof.
  intros Ha. revert f fuel s p. induction n as [|n IH]; intros f fuel s p Hf Hs Hn; [lia|].
  destruct fuel as [|fuel]; [lia|]. assert (reads_field f = true) as Hr by (destruct f; done).
  destruct (tokens (B ":") s) as [|x xs] eqn:Ht; [exact (traffic_field_none _ _ _ _ _ _ _ _ _ Hr Ht)|].
  assert (∃ p', field_update f x p = Some p') as [p' Hp] by (destruct f; by eexists).
  destruct (traffic_field g fuel index f t m b s x xs p p' a Ha Hr Ht Hp) as (s' & Hs' & ->).
  destruct n as [|n]; [cbn in Hs; lia|].
  apply IH; [destruct f; cbn in Hf |- *; congruence|rewrite Hs'; cbn in Hs; lia|lia].
Qed.

Lemma traffic_feature g fuel index t m b s a :
  traffic_generator (S fuel) g (mk_prog (MainPublish index None) t m (ap_with_tok (TokIn b s) a)) =
  (let '(x, r) := strtok (B ":") s in
   match x with
   | Some feature =>
       match update_publish index (set_feature feature) (ap_with_tok (TokIn b r) a) with
       | Some a => traffic_generator fuel g (mk_prog (MainPublishField index FieldRate) t m a)
       | None => Fault
       end
   | None => traffic_generator fuel g (mk_prog (MainSubscribe (arg_subscribe g)) t m
               (ap_with_tok (TokIn b r) a))
   end).
Proof.
  cbn [traffic_generator pg_main publishing main_step strtok_arg].
  unfold strtok_next, strtok_first. cbn [ap_tok ap_with_tok].
  destruct (strtok (B ":") s) as [[x|] r]; cbn [mbind option_bind]; [|reflexivity].
  change (ap_with_tok (TokIn b r) (ap_with_tok (TokIn b s) a)) with (ap_with_tok (TokIn b r) a).
  destruct (update_publish _ _ _); reflexivity.
Qed.

(** The feature is stored, or the whole entry is not. *)
Lemma feature_stored index feature k a :
  match update_publish index (set_feature feature) (ap_with_tok k a) with
  | Some a' => has_entry index a ∧ ∃ p blk, ap_publish a !! Z.to_nat index = Some p ∧
      strcpy (pi_feature p) feature = Some blk ∧
      a' = ap_with_tok k (with_entry index (mk_publish_info blk (pi_publish_rate p)
             (pi_base_value p) (pi_deviation p) (pi_qos p) (pi_packet_length p)
             (pi_publish_msg p) (pi_thread p)) a)
  | None => ∀ rate base_value deviation qos len,
      publish_set index feature rate base_value deviation qos len a = None
  end.
Proof.
  unfold publish_set, update_publish, set_feature. destruct (decide (¬ _)) as [_|Hi]; [reflexivity|].
  apply dec_stable in Hi. cbn [ap_publish ap_with_tok].
  destruct (ap_publish a !! Z.to_nat index) as [p|] eqn:Hp; cbn [mbind option_bind]; [|reflexivity].
  destruct (strcpy (pi_feature p) feature) as [blk|] eqn:Hblk; cbn [mbind option_bind]; [|reflexivity].
  split; [split; [exact Hi|by exists p]|]. exists p, blk. split; [reflexivity|]. split; [exact Hblk|reflexivity].
Qed.

Lemma traffic_entries g n fuel index t m b s a :
  (length (tokens (B ":") s) ≤ n)%nat → (9 * n < fuel)%nat →
  traffic_generator fuel g (mk_prog (MainPublish index None) t m (ap_with_tok (TokIn b s) a)) =
  match configure (tokens (B ":") s) index a with
  | Some a' => Done (mk_prog (MainSubscribe (arg_subscribe g)) t m (ap_with_tok (TokIn b []) a'))
  | None => Fault
  end.
Proof.
  revert fuel index s a. induction n as [n IH] using lt_wf_ind. intros fuel index s a Hn Hfuel.
  destruct fuel as [|fuel]; [lia|]. rewrite traffic_feature.
  destruct (tokens (B ":") s) as [|f0 toks] eqn:Ht.
  { rewrite (tokens_nil _ _ Ht). cbn [configure]. destruct fuel; reflexivity. }
  apply tokens_cons in Ht as (r & -> & Hr). cbn [length] in Hn.
  pose proof (feature_stored index f0 (TokIn b r) a) as Hf.
  destruct (update_publish index (set_feature f0) (ap_with_tok (TokIn b r) a)) as [a1|].
  2: { destruct toks as [|r0 [|b0 [|d0 [|q0 [|l0 toks]]]]]; try reflexivity. cbn [configure].
       by rewrite Hf. }
  destruct Hf as (Ha & p & blk & Hp & Hblk & ->).
  destruct (decide (length toks < 5)%nat) as [Hl|Hl].
  { rewrite (traffic_short _ 5); [|exact Ha|reflexivity|by rewrite Hr|lia].
    destruct toks as [|r0 [|b0 [|d0 [|q0 [|l0 toks]]]]]; try reflexivity. cbn in Hl. lia. }
  destruct toks as [|r0 [|b0 [|d0 [|q0 [|l0 toks]]]]]; try (by destruct Hl; cbn; lia).
  cbn [length] in Hn. replace fuel with (8 + (fuel - 8))%nat by lia.
  destruct (traffic_entry g (fuel - 8) index f0 t m b r r0 b0 d0 q0 l0 toks blk p a Ha Hr Hp Hblk)
    as (r' & Hr' & ->). cbn [configure].
  destruct (publish_set index f0 r0 b0 d0 q0 l0 a) as [a2|]; cbn [mbind option_bind]; [|reflexivity].
  rewrite <-Hr'. apply (IH (length toks)); [lia|by rewrite Hr'|lia].
Qed.

(** C14. [traffic_generator] configures the entries of its option six tokens at
    a time, and splits it at ":" only: run by itself, the main thread ends the
    loop in the state in which the list of the tokens puts the publishers and
    the subscriptions to their requests, or uses a NULL or an entry that does
    not exist, for every option. The README separates the arguments by comma,
    which is a character of a token here. *)
Theorem traffic_generator_tokens g arg t m a :
  traffic_generator (S (9 * length (tokens (B ":") arg))) g (mk_prog (MainPublish 0 (Some arg)) t m a) =
  match configure (tokens (B ":") arg) 0 a with
  | Some a' => Done (mk_prog (MainSubscribe (arg_subscribe g)) t m (ap_with_tok (TokIn TokOption []) a'))
  | None => Fault
  end.
Proof.
  rewrite <-(traffic_entries g (length (tokens (B ":") arg)) (S (9 * length (tokens (B ":") arg))));
    [|lia..]. reflexivity.
Qed.

(** ** The subscriptions *)

Lemma make_topic_ok prefix feature :
  nul_free prefix → nul_free feature → zlen prefix + zlen feature < 256 →
  make_topic prefix feature = Some (prefix ++ feature).
Proof.
  intros Hp Hf Hl. pose proof (zlen_nonneg feature). unfold make_topic, ATLAS_DATA_PLANE_BUFFER_LEN.
  destruct (strcpy_in (malloc 256) prefix) as (b1 & -> & Hc1 & Hz1); [done| |].
  { unfold malloc. rewrite zlen_replicate. lia. }
  cbn [mbind option_bind]. unfold malloc in Hz1. rewrite zlen_replicate in Hz1.
  destruct (strcat_in b1 prefix feature) as (b2 & -> & Hc2 & _); [done|done|lia|].
  cbn [mbind option_bind]. by apply cstr_of_in.
Qed.

(** C39. The option of the subscriptions is split at its first ":" only: what
    follows is split at ",". Features that are separated the way the usage
    says are subscribed to as one topic, except the first. *)
Theorem subscriptions_split_once g first rest t m a :
  field_ok first → rest ≠ [] → Forall (λ b, is_sep (B ",") b = false) rest → nul_free rest →
  zlen first < 245 → zlen rest < 245 →
  main_run 3 g (mk_prog (MainSubscribe (Some (first ++ B ":" ++ rest))) t m a) =
  Some (mk_prog MainReputation t m
    (ap_emit (AppSubscribe (ATLAS_DATA_PLANE_DATA_TOPIC ++ rest) (arg_qos g))
       (ap_emit (AppSubscribe (ATLAS_DATA_PLANE_DATA_TOPIC ++ first) (arg_qos g))
          (ap_with_tok (TokIn TokOption []) a)))).
Proof.
  intros (Hne & Hsep & Hn) Hne' Hsep' Hn' Hl Hl'.
  assert (nul_free ATLAS_DATA_PLANE_DATA_TOPIC) as Hd by by apply (bool_decide_unpack _).
  change 245 with (256 - zlen ATLAS_DATA_PLANE_DATA_TOPIC) in Hl, Hl'.
  assert (strtok (B ":") (first ++ B ":" ++ rest) = (Some first, rest)) as Hs1
    by by apply strtok_token.
  cbn [main_run main_step]. unfold strtok_first, subscribe_entry. rewrite Hs1.
  cbn [mbind option_bind]. rewrite make_topic_ok by (done || lia). cbn [mbind option_bind].
  cbn [main_step strtok_next ap_tok ap_emit ap_with_tok]. unfold strtok_first. rewrite strtok_last by done.
  cbn [mbind option_bind]. unfold subscribe_entry. rewrite make_topic_ok by (done || lia). done.
Qed.

(** The points of the main thread at which it takes the next token of an option
    it has begun. *)
Definition takes_token (pc : main_pc) : bool :=
  match pc with
  | MainPublish _ None | MainSubscribe None | MainReputationField _ => true
  | MainPublishField _ f => reads_field f
  | _ => false
  end.

(** Without a pointer there is no next token. *)
Lemma no_next_token g pc t m a : takes_token pc = true → ap_tok a = TokDead → main_step g (mk_prog pc t m a) = None.
Proof.
  intros Hpc Ha. assert (next_field a = None) as Hn by (unfold next_field, strtok_next; by rewrite Ha).
  destruct pc as [i [s|]|i f|[s|]| |f| |c]; try done; cbn [main_step strtok_arg].
  - unfold strtok_next. by rewrite Ha.
  - rewrite publish_entry_eq by exact Hpc. by rewrite Hn.
  - unfold strtok_next. by rewrite Ha.
  - unfold set_reputation_field. by rewrite Hn.
Qed.

Lemma field_update_Some f x p : reads_field f = true → ∃ p', field_update f x p = Some p'.
Proof. destruct f; try done; by eexists. Qed.

(** The main thread takes a token while the message is between its two. *)
Lemma field_from_message g index f t id value p p' a :
  reads_field f = true → 0 ≤ index < ATLAS_PUBLISH_FEATURES_MAX →
  ap_publish a !! Z.to_nat index = Some p → field_ok value → field_update f value p = Some p' →
  main_step g (mk_prog (MainPublishField index f) t (MqttValue id) (ap_with_tok (TokIn TokMsg value) a)) =
  Some (mk_prog (MainPublishField index (field_next f value)) t (MqttValue id)
          (ap_with_tok (TokIn TokMsg []) (with_entry index p' a))).
Proof.
  intros Hf Hi Hp (Hv & Hsv & Hnv) Hp'. cbn [main_step]. rewrite publish_entry_eq by exact Hf.
  unfold next_field, strtok_next, strtok_first. cbn [ap_tok ap_with_tok]. rewrite strtok_last by assumption.
  cbn [mbind option_bind]. unfold update_publish.
  destruct (decide (¬ _)) as [Hno|_]; [destruct (Hno Hi)|]. cbn [ap_publish ap_with_tok]. rewrite Hp.
  cbn [mbind option_bind]. rewrite Hp'. reflexivity.
Qed.

(** C40. The pointer of [strtok] is shared by the threads. A message of data
    that is handled while the main thread is between two tokens of one of its
    options, also inside an entry, leaves the pointer in an array of a function
    that has returned, and the next token of the main thread is read from
    there. If the main thread takes its token while the message is between its
    two, the field of the entry is the value of the message, and the sample is
    dropped. *)
Theorem strtok_is_shared g msg id value t a a1 :
  is_data_message msg id value → counted msg a a1 →
  (∀ pc a2, takes_token pc = true → msgarrvd msg a = Some a2 →
     main_step g (mk_prog pc t MqttIdle a2) = None) ∧
  (∀ index f p, reads_field f = true → 0 ≤ index < ATLAS_PUBLISH_FEATURES_MAX →
     ap_publish a !! Z.to_nat index = Some p →
     ∃ a2 p' a3, msgarrvd_begin msg a = Some (MqttValue id, a2) ∧ field_update f value p = Some p' ∧
       main_step g (mk_prog (MainPublishField index f) t (MqttValue id) a2) =
         Some (mk_prog (MainPublishField index (field_next f value)) t (MqttValue id) a3) ∧
       ap_publish a3 = <[Z.to_nat index := p']> (ap_publish a) ∧
       handle_data_step (MqttValue id) a3 = Some (MqttIdle, ap_with_tok TokDead a3)).
Proof.
  intros Hm Hc. split.
  - intros pc a2 Hpc Hs. apply no_next_token; [exact Hpc|].
    rewrite (msgarrvd_data _ _ _ _ _ Hm Hc), record_sample_tok in Hs.
    by apply bind_Some in Hs as (a3 & _ & [= <-]).
  - intros index f p Hf Hi Hp. destruct (field_update_Some f value p Hf) as [p' Hp'].
    pose proof Hm as (_ & _ & _ & _ & Hv & _). destruct Hc as (st & Hst & ->).
    assert (ap_publish (ap_with_dp (dp_with_stat st (ap_dp a)) a) !! Z.to_nat index = Some p) as Hp1 by exact Hp.
    set (a1 := ap_with_dp (dp_with_stat st (ap_dp a)) a) in *.
    exists (ap_with_tok (TokIn TokMsg value) a1), p', (ap_with_tok (TokIn TokMsg []) (with_entry index p' a1)).
    split; [apply (msgarrvd_begin_data _ _ _ _ _ Hm); exists st; split; [exact Hst|reflexivity]|].
    split; [exact Hp'|].
    split; [exact (field_from_message g index f t id value p p' _ Hf Hi Hp1 Hv Hp')|].
    split; [reflexivity|]. reflexivity.
Qed.

(** ** What is published, and what is read *)

(** A message that was published is delivered with the topic as a string. *)
Definition delivered (topic payload : list byte) : mqtt_message :=
  mk_message (topic ++ [x00]) 0 (Some payload) (zlen payload).

Lemma random_number_format base dev a :
  in_format 24 128 base → in_format 24 128 dev →
  let '(v, a') := random_number_generator base dev a in
  in_format 24 128 v ∧ ∃ e, a' = ap_with_dp (dp_with_env e (ap_dp a)) a.
Proof.
  intros Hb Hd. unfold random_number_generator.
  destruct (ap_call_eq app_random a) as (r & e & -> & _). split; [|by exists e].
  apply f_add_format; [apply f_mul_format|by apply f_sub_format].
Qed.

(** C24. What a device publishes is what another one reads: the topic is the one
    of the feature, and the message is well formed, with the identity of the
    publisher and the text of a value between the formats' bounds, for every
    identity of up to 207 characters without ":"; and a device that receives it
    handles it as a sample of that identity with the value of that text. *)
Theorem published_value_is_read i p a feature msg idblk id :
  ap_publish a !! i = Some p → pi_packet_length p = 0 →
  cstr_in (pi_feature p) feature → zlen (pi_feature p) = 32 →
  pi_publish_msg p = Some msg → zlen msg = 257 →
  in_format 24 128 (pi_base_value p) → in_format 24 128 (pi_deviation p) →
  ap_identity a = Some idblk → cstr_in idblk id → field_ok id → zlen id < 208 →
  ∃ a' value payload, publish_feature_value i a = Some a' ∧
    ap_trace a' = ap_trace a ++ [AppPublish (ATLAS_DATA_PLANE_DATA_TOPIC ++ feature) (pi_qos p) payload] ∧
    in_format 24 128 value ∧
    is_data_message (delivered (ATLAS_DATA_PLANE_DATA_TOPIC ++ feature) payload) id
      (sprintf_f (d_of_f value)) ∧
    ∀ b b1, counted (delivered (ATLAS_DATA_PLANE_DATA_TOPIC ++ feature) payload) b b1 →
      msgarrvd (delivered (ATLAS_DATA_PLANE_DATA_TOPIC ++ feature) payload) b =
      record_sample id (atof (sprintf_f (d_of_f value))) (ap_with_tok TokDead b1).
Proof.
  intros Hp H0l Hf Hfz Hmsg Hmz Hb Hd Hid Hidc Hidok Hidl.
  assert (nul_free ATLAS_DATA_PLANE_DATA_TOPIC) as Ht by by apply (bool_decide_unpack _).
  pose proof Hf as [Hfn [frest Hfr]].
  assert (zlen feature < 32) as Hfl.
  { rewrite Hfr, zlen_app, zlen_cons in Hfz. pose proof (zlen_nonneg frest). lia. }
  unfold publish_feature_value. rewrite Hp. cbn [mbind option_bind]. rewrite (cstr_of_in _ _ Hf).
  cbn [mbind option_bind].
  destruct (strcpy_in (malloc (ATLAS_DATA_PLANE_BUFFER_LEN + 1)) (ATLAS_DATA_PLANE_DATA_TOPIC ++ feature))
    as (tb & -> & Htc & _); [by apply nul_free_app| |].
  { unfold malloc. rewrite zlen_replicate, zlen_app. change (zlen ATLAS_DATA_PLANE_DATA_TOPIC) with 11.
    unfold ATLAS_DATA_PLANE_BUFFER_LEN. lia. }
  cbn [mbind option_bind]. rewrite (cstr_of_in _ _ Htc). cbn [mbind option_bind].
  unfold publish_body. rewrite decide_True by done.
  pose proof (random_number_format (pi_base_value p) (pi_deviation p) a Hb Hd) as Hv.
  destruct (random_number_generator _ _ a) as [value a1]. destruct Hv as [Hv [e ->]].
  cbn [ap_identity ap_with_dp]. rewrite Hid. cbn [mbind option_bind].
  rewrite (cstr_of_in _ _ Hidc). cbn [mbind option_bind]. rewrite Hmsg. cbn [mbind option_bind].
  destruct (sprintf_f_field value Hv) as [Htf Htl]. pose proof Hidok as (_ & _ & Hidn).
  pose proof Htf as (_ & _ & Htn).
  set (text := id ++ B ":" ++ sprintf_f (d_of_f value)).
  assert (zlen text < 256) as Hl.
  { unfold text. rewrite !zlen_app. change (zlen (B ":")) with 1. lia. }
  assert (nul_free text) as Hn.
  { unfold text. rewrite !nul_free_app. split_and!; [done|by apply (bool_decide_unpack (nul_free (B ":")))|done]. }
  destruct (strcpy_in msg text) as (mb & -> & [_ [rest Hmb]] & _); [done|lia|].
  cbn [mbind option_bind]. rewrite Hmb, blk_strlen_app by done. cbn [mbind option_bind].
  rewrite mread_head by done. cbn [mbind option_bind].
  assert (is_data_message (delivered (ATLAS_DATA_PLANE_DATA_TOPIC ++ feature) text) id
    (sprintf_f (d_of_f value))) as Hm.
  { split; [|split; [|split; [|split; [|split]]]]; try done.
    - exists feature. unfold message_topic, delivered. cbn [mm_topicLen mm_topicName].
      rewrite decide_True by done. apply cstr_of_in. split; [by apply nul_free_app|].
      by exists [].
    - exists []. by rewrite app_nil_r. }
  do 3 eexists. split; [reflexivity|]. split; [reflexivity|]. split; [exact Hv|]. split; [exact Hm|].
  intros b b1 Hb1. exact (msgarrvd_data _ _ _ _ _ Hm Hb1).
Qed.

End Traffic.
