(* ===== verification/DataPlaneRun.v ===== *)
(** * The data plane application: concrete runs

    An executable scheduler of the threads, which only makes steps of
    [app_step], and a device that runs on it: it publishes a value, opens a
    window, and receives the samples of two others. *)

From Stdlib Require Import SpecFloat.
From stdpp Require Import gmap.
From S2P Require Import Prelude Protocol Command CString Float Scheduler State Config Identity Alarm.
From S2P Require Import CoapClient Request Connector DpClient DataPlane DataPlaneSpec DataPlaneTraffic.

(** Which thread goes next. *)
Inductive act :=
| ActMain
| ActTask
| ActPublisher (i : nat)
| ActMessage (m : mqtt_message)
| ActHandle.

Section Run.
Context `{Host} {E : Type} `{DpEnv E, AppEnv E}.
Implicit Types (s : prog E) (g : dp_args).

Definition run_act g (x : act) s : option (prog E) :=
  let '(mk_prog pc t m a) := s in
  if negb (runs pc) then None else
  match x with
  | ActMain => main_step g s
  | ActTask => '(t, a) ← reputation_query_task t a; Some (mk_prog pc t m a)
  | ActPublisher i =>
      p ← ap_publish a !! i;
      if pi_thread p then a ← publish_task i a; Some (mk_prog pc t m a) else None
  | ActMessage msg =>
      match m with
      | MqttIdle => '(m, a) ← msgarrvd_begin msg a; Some (mk_prog pc t m a)
      | _ => None
      end
  | ActHandle =>
      match m with
      | MqttIdle => None
      | _ => '(m, a) ← handle_data_step m a; Some (mk_prog pc t m a)
      end
  end.

Fixpoint run_acts g (l : list act) s : option (prog E) :=
  match l with
  | [] => Some s
  | x :: l => s ← run_act g x s; run_acts g l s
  end.

Lemma run_act_step g x s s' : run_act g x s = Some s' → app_step g s s'.
Proof.
  destruct s as [pc t m a]. unfold run_act. destruct (runs pc) eqn:Hr; cbn [negb]; [|done].
  destruct x as [| |i|msg|].
  - by constructor.
  - intros ([t' a'] & Ht & [= <-])%bind_Some. by constructor.
  - intros (p & Hp & Hs)%bind_Some. destruct (pi_thread p) eqn:Hth; [|done].
    apply bind_Some in Hs as (a' & Ha & [= <-]). by eapply app_publisher.
  - destruct m; try done. intros ([m' a'] & Ha & [= <-])%bind_Some. by eapply app_message.
  - intros Hs. assert (m ≠ MqttIdle) as Hm by (by intros ->).
    assert (('(m, a) ← handle_data_step m a; Some (mk_prog pc t m a)) = Some s') as Hs' by (by destruct m).
    apply bind_Some in Hs' as ([m' a'] & Ha & [= <-]). by eapply app_handle.
Qed.

Lemma run_acts_steps g l s s' : run_acts g l s = Some s' → rtc (app_step g) s s'.
Proof.
  revert s. induction l as [|x l IH]; intros s; cbn [run_acts]; [by intros [= <-]|].
  intros (s1 & Hx%run_act_step & Hl%IH)%bind_Some. by eapply rtc_l.
Qed.
End Run.

(** A decidable fact of a concrete state. *)
Ltac decided := refine (bool_decide_unpack _ _); vm_compute; exact I.

(** ** A device *)

Definition answers `{Host} : list byte :=
  encode [(ATLAS_CMD_DATA_PLANE_IDENTITY, B "dev"); (ATLAS_CMD_DATA_PLANE_FEATURE_REPUTATION, B "far")].

(** Its clock is the time in seconds. *)
Definition device_dp : DpEnv Z := sim_dp (@answers le_host).

Definition device_env : AppEnv Z := {|
  app_geteuid n := (0, n);
  app_random n := (1073741824, n);
  app_clock n := (mk_timespec n 0, n);
  mqtt_create _ _ n := (true, n);
  mqtt_connect n := (true, n)
|}.

Definition device_opts : list (dp_letter * list byte) :=
  [(L_publish, B "temp:5:21:0.5:1:default"); (L_subscribe, B "temp"); (L_hostname, B "tcp://gw:1883");
   (L_qos, B "2"); (L_ppm, B "10"); (L_maxlen, B "100"); (L_reputation, B "temp:60:10:20")].

#[local] Existing Instance le_host.
#[local] Existing Instance device_dp.
#[local] Existing Instance device_env.

Definition device_init : dp_args * app_state_t Z :=
  match dp_main 10 device_opts (app_initial (dp_world 5)) with
  | Live r => r
  | _ => (args0, app_initial (dp_world 5))
  end.

Definition device_args : dp_args := device_init.1.

(** The samples that arrive in its window, the last one twice. *)
Definition sample_of (id value : list byte) : mqtt_message :=
  delivered (B "atlas/data/temp") (id ++ B ":" ++ value).

(** Its options: the nine steps of an entry and the end of the loop, the
    publisher, the subscription, and the four fields of the reputation. *)
Definition options_acts : list act :=
  replicate 10 ActMain ++ [ActPublisher 0] ++ replicate 6 ActMain.

(** The window opens, and the samples of two devices arrive in it, up to the
    point where it is closed. *)
Definition opening_acts : list act := replicate 4 ActTask.
Definition sample_acts (id value : list byte) : list act :=
  [ActMessage (sample_of id value); ActHandle; ActHandle].
Definition window_acts : list act :=
  opening_acts ++ sample_acts (B "far") (B "20.1") ++ sample_acts (B "near") (B "21.7") ++
  sample_acts (B "far") (B "99") ++ [ActTask].

Definition device_acts : list act :=
  options_acts ++ window_acts.

Definition device_closed : prog Z :=
  default (app_start device_args device_init.2)
    (run_acts device_args device_acts (app_start device_args device_init.2)).

Lemma device_starts : dp_main 10 device_opts (app_initial (dp_world 5)) = Live (device_args, device_init.2).
Proof. by vm_compute. Qed.

Lemma device_runs_acts l s :
  run_acts device_args l (app_start device_args device_init.2) = Some s →
  dp_runs 10 device_opts (dp_world 5) device_args s.
Proof. intros Hl. exists device_init.2. split; [apply device_starts|by eapply run_acts_steps]. Qed.

Lemma device_closed_eq :
  run_acts device_args device_acts (app_start device_args device_init.2) = Some device_closed.
Proof. by vm_compute. Qed.

Lemma device_closed_runs : dp_runs 10 device_opts (dp_world 5) device_args device_closed.
Proof. apply (device_runs_acts device_acts), device_closed_eq. Qed.

(** Two devices, each once. *)
Lemma window_invariant_witness :
  (feedback_id <$> samples (ap_rep (pg_app device_closed))) = [B "far"; B "near"] ∧
  NoDup (feedback_id <$> samples (ap_rep (pg_app device_closed))).
Proof.
  split; [by vm_compute|].
  apply (window_invariant 10 device_opts (dp_world 5) device_args
    device_closed device_closed_runs).
Defined.

(** The task scores the window, the publisher of the device runs, and the
    feedback of both devices is sent. *)
Definition device_scored : app_state_t Z :=
  ap_with_rep (score_window (ap_rep (pg_app device_closed))) (pg_app device_closed).

Definition device_published : prog Z :=
  mk_prog MainWait (TaskSend (Some (B "far" ++ [x00]))) MqttIdle (default device_scored (publish_task 0 device_scored)).

Lemma device_publishes :
  rtc (others device_args) (mk_prog (pg_main device_closed) (TaskSend (Some (B "far" ++ [x00])))
      (pg_mqtt device_closed) device_scored)
    device_published.
Proof.
  apply rtc_once. split; [|by vm_compute].
  apply (run_act_step _ (ActPublisher 0)). vm_compute. reflexivity.
Qed.

Lemma window_is_reported_witness :
  ∃ dp', reputation_query_task (TaskSend (Some (B "far" ++ [x00]))) (pg_app device_published) =
      Some (TaskConsume (Some (B "far" ++ [x00])), ap_with_dp dp' (pg_app device_published)) ∧
    length (dp_trace dp') = (length (dp_trace (ap_dp (pg_app device_published))) + 2)%nat.
Proof.
  destruct (window_is_reported 10 device_opts (dp_world 5) device_args
    device_closed device_scored device_published (Some (B "far" ++ [x00])) device_closed_runs
    ltac:(by vm_compute) ltac:(by vm_compute) ltac:(by reflexivity) device_publishes)
    as ((dp' & Hs & Ht) & _ & _ & Hall).
  exists dp'. split; [exact Hs|]. rewrite Ht. unfold feedback_writes.
  rewrite Hall by decided. rewrite length_app. f_equal.
Defined.

(** In the open window, and before it. *)
Definition device_open : app_state_t Z :=
  match run_acts device_args (options_acts ++ opening_acts) (app_start device_args device_init.2) with
  | Some s => pg_app s
  | None => device_init.2
  end.

Definition counted_state (m : mqtt_message) (a : app_state_t Z) : app_state_t Z :=
  match atlas_pkt_received (mm_payloadlen m) (dp_stat (ap_dp a)) with
  | Some st => ap_with_dp (dp_with_stat st (ap_dp a)) a
  | None => a
  end.

Lemma device_open_runs :
  ∃ s, dp_runs 10 device_opts (dp_world 5) device_args s ∧ pg_app s = device_open.
Proof.
  destruct (run_acts device_args (options_acts ++ opening_acts) (app_start device_args device_init.2)) as [s|] eqn:Hs.
  - exists s. split; [by eapply device_runs_acts|]. unfold device_open. by rewrite Hs.
  - exfalso. revert Hs. by vm_compute.
Qed.

Lemma device_open_ok : rep_ok (ap_rep device_open).
Proof. destruct device_open_runs as (s & Hs%dp_runs_ok & <-). apply Hs. Qed.

Lemma sample_is_data id value :
  field_ok id → field_ok value → zlen (id ++ B ":" ++ value) < 256 →
  is_data_message (sample_of id value) id value.
Proof.
  intros Hi Hv Hl. split; [|split; [|split; [|done]]]; [|exists []; by rewrite app_nil_r|done].
  exists (B "temp"). by vm_compute.
Qed.

Lemma data_message_outcome_witness :
  ∃ a' f, msgarrvd (sample_of (B "far") (B "20.1")) device_open = Some a' ∧
    samples (ap_rep a') = [f] ∧ fb_sensor_score f = 98.
Proof.
  destruct (proj2 (data_message_outcome
    (sample_of (B "far") (B "20.1")) (B "far") (B "20.1") device_open
    (counted_state (sample_of (B "far") (B "20.1")) device_open)
    ltac:(apply sample_is_data; decided)
    ltac:(eexists; split; vm_compute; reflexivity) device_open_ok) (mk_timespec 18 0) 18
    ltac:(by vm_compute) ltac:(decided) ltac:(by vm_compute)
    ltac:(by vm_compute) ltac:(by vm_compute) ltac:(decided)
    ltac:(by vm_compute))
    as (a' & f & Hs & Hsm & _ & _ & _ & _ & Hsc).
  exists a', f. split; [exact Hs|]. split; [rewrite Hsm; by vm_compute|].
  rewrite Hsc by (by vm_compute). by vm_compute.
Defined.


(** Three features, the way the usage says. *)
Lemma subscriptions_split_once_witness :
  (pg_app <$> main_run 3 device_args
     (mk_prog (MainSubscribe (Some (B "a:b:c"))) TaskOff MqttIdle device_open)) ≫=
    (λ a, Some (drop 4 (ap_trace a))) =
  Some [AppSubscribe (B "atlas/data/a") 2; AppSubscribe (B "atlas/data/b:c") 2].
Proof.
  change (B "a:b:c") with (B "a" ++ B ":" ++ B "b:c").
  rewrite (subscriptions_split_once device_args (B "a") (B "b:c") TaskOff MqttIdle device_open); try decided.
  by vm_compute.
Defined.

(** The main thread is inside an entry, about to read the rate, when a sample
    arrives. *)
Definition device_entry : app_state_t Z :=
  match run_acts device_args [ActMain] (app_start device_args device_init.2) with
  | Some s => pg_app s
  | None => device_init.2
  end.

Definition entry_info : publish_info_t := default publish0 (ap_publish device_entry !! 0%nat).

Lemma strtok_is_shared_witness :
  (∃ a2, msgarrvd (sample_of (B "far") (B "20.1")) device_entry = Some a2 ∧
     main_step device_args (mk_prog (MainPublishField 0 FieldRate) TaskOff MqttIdle a2) = None) ∧
  (∃ a2 a3, msgarrvd_begin (sample_of (B "far") (B "20.1")) device_entry = Some (MqttValue (B "far"), a2) ∧
     main_step device_args (mk_prog (MainPublishField 0 FieldRate) TaskOff (MqttValue (B "far")) a2) =
       Some (mk_prog (MainPublishField 0 FieldBase) TaskOff (MqttValue (B "far")) a3) ∧
     (pi_publish_rate <$> ap_publish a3 !! 0%nat) = Some 20).
Proof.
  destruct (strtok_is_shared device_args (sample_of (B "far") (B "20.1")) (B "far") (B "20.1") TaskOff
    device_entry (counted_state (sample_of (B "far") (B "20.1")) device_entry)
    ltac:(apply sample_is_data; decided)
    ltac:(eexists; split; vm_compute; reflexivity)) as [Hdead Hvalue].
  split.
  - destruct (msgarrvd (sample_of (B "far") (B "20.1")) device_entry) as [a2|] eqn:Hs.
    + exists a2. split; [reflexivity|]. exact (Hdead (MainPublishField 0 FieldRate) a2 eq_refl eq_refl).
    + exfalso. revert Hs. by vm_compute.
  - assert (ap_publish device_entry !! Z.to_nat 0 = Some entry_info) as He by (vm_compute; reflexivity).
    destruct (Hvalue 0 FieldRate entry_info eq_refl ltac:(decided) He)
      as (a2 & p' & a3 & Hb & Hp & Hm & Hpub & _).
    exists a2, a3. split; [exact Hb|]. split; [exact Hm|]. rewrite Hpub.
    apply (f_equal (fmap pi_publish_rate)) in Hp. change (Z.to_nat 0) with 0%nat.
    rewrite list_lookup_insert_eq by (eapply lookup_lt_Some; exact He).
    change (pi_publish_rate <$> Some p' = Some 20). rewrite <-Hp. vm_compute. reflexivity.
Defined.

(** The first publisher of the device. *)
Definition device_publisher : publish_info_t := default publish0 (ap_publish device_open !! 0%nat).

(** What it publishes, and the state of a device with an open window that
    receives it. *)
Definition device_payload : list byte := B "dev:21.000000".

Lemma published_value_is_read_witness :
  ∃ a' value payload, publish_feature_value 0 device_open = Some a' ∧ payload = device_payload ∧
    is_data_message (delivered (B "atlas/data/temp") payload) (B "dev") (sprintf_f (d_of_f value)) ∧
    msgarrvd (delivered (B "atlas/data/temp") payload) device_open =
      record_sample (B "dev") (atof (sprintf_f (d_of_f value)))
        (ap_with_tok TokDead (counted_state (delivered (B "atlas/data/temp") payload) device_open)) ∧
    (list_fmap _ _ feedback_id ∘ samples ∘ ap_rep) <$>
      msgarrvd (delivered (B "atlas/data/temp") payload) device_open = Some [B "dev"].
Proof.
  destruct (published_value_is_read 0 device_publisher device_open (B "temp")
    (default [] (pi_publish_msg device_publisher)) (default [] (ap_identity device_open)) (B "dev"))
    as (a' & value & payload & Hs & Htr & _ & Hm & Hr).
  13: {
    assert (drop (length (ap_trace device_open)) ∘ ap_trace <$> publish_feature_value 0 device_open =
      Some [AppPublish (B "atlas/data/temp") 1 device_payload]) as Hl by (vm_compute; reflexivity).
    rewrite Hs in Hl. change (Some (drop (length (ap_trace device_open)) (ap_trace a')) =
      Some [AppPublish (B "atlas/data/temp") 1 device_payload]) in Hl.
    rewrite Htr, drop_app_length in Hl.
    assert (payload = device_payload) as -> by congruence.
    exists a', value, device_payload. split; [exact Hs|]. split; [reflexivity|]. split; [exact Hm|].
    split; [|vm_compute; reflexivity].
    apply (Hr device_open). eexists. split; vm_compute; reflexivity. }
  3,10: apply cstr_of_Some.
  7,8: by vm_compute; repeat split.
  all: try (by vm_compute).
  decided.
Defined.

(** The arguments of two publishers the way the README separates them, and the
    way the code does. *)
Lemma comma_separated_arguments :
  traffic_generator 200 device_args
    (mk_prog (MainPublish 0 (Some (B "t:5:21:0.5:1:default,h:7:40:1:1:default"))) TaskOff MqttIdle
       device_init.2) = Fault ∧
  (λ o, match o with Done s => length (ap_trace (pg_app s)) | _ => 0%nat end) (traffic_generator 200 device_args
    (mk_prog (MainPublish 0 (Some (B "t:5:21:0.5:1:default:h:7:40:1:1:default"))) TaskOff MqttIdle
       device_init.2)) = 2%nat.
Proof. split; vm_compute; reflexivity. Qed.
